(* ===== verification/_CoqProject ===== *)
-Q . S2P
Prelude.v
Crates.v
HvError.v
Addr.v
PhysMem.v
Frame.v
Pte.v
Region.v
BTree.v
Paging.v
PagingInv.v
PagingOps.v
PagingSpec.v
MemorySet.v
MemoryProps.v
Walk.v
Config.v
Cell.v
CellProps.v
Early.v
X86.v
Segmentation.v
Asm.v
Exception.v
Context.v
Cpuid.v
Vcpu.v
Panic.v
Svm.v
AmdVcpu.v
AmdProps.v
Init.v
AmdDisable.v
Vmx.v
MsrBitmap.v
IntelVcpu.v
IntelProps.v
IntelDisable.v
VmmSamples.v
System.v
IntelSystem.v
Guests.v
IntelGuests.v
Boot.v
BootProps.v
Entry.v
Shutdown.v
GuestPtr.v
Uart.v
Stats.v
Logging.v
Dump.v
Machine.v
AmdMachine.v
IntelMachine.v
