(* ===== verification/Prelude.v ===== *)
(** * RVM 1.5: a verification library of the hypervisor

    RVM 1.5 is a type-1.5 hypervisor for x86-64 in the manner of Jailhouse: a
    Linux driver loads its image into reserved memory and calls [arch_entry] on
    every processor; each processor saves the state of Linux, the primary one
    builds a page table for the hypervisor and a nested page table for the root
    cell, all of them make a virtual CPU that continues Linux as a guest, and
    from then on VM exits are handled until a hypercall turns the hypervisor off
    again and Linux goes on natively. This library translates the Rust sources
    under [src/] into Rocq definitions, names kept, and proves what makes the
    parts correct.

    ** Conventions

    A [usize] or a w-bit integer is a [Z]; arithmetic wraps where release builds
    wrap ([wrap], [add64], [sub64], [mul64], [not64]) and theorems carry the
    ranges. A function that can fail is a computation of the monad [M S E A]
    over an explicit state [S]; its [outcome] is [Ok], [Err] (the error
    values of the source), [Panic] (a failed [assert!], [expect], [unwrap],
    [unreachable!] or slice index) or [Diverge] (a loop whose fuel ran out or
    that spins for ever). Crates and instructions that are not under [src/] are
    type classes of operations with a class of laws, and each has a reference
    instance that satisfies the laws: the bitmap allocator, [bit_field] and the
    page-table flags ([Crates]), the register types of [x86_64] ([X86]), segment
    descriptors ([Segmentation]), [raw_cpuid] ([Cpuid]) and the VMX instructions
    ([Vmx]). Theorems about the program are stated for all instances; the
    witnesses run on the reference instances.

    ** Files

    Memory. [HvError]: [error.rs]. [Addr], [PhysMem]: [memory/addr.rs] and
    memory as a map of 8-byte words. [Frame]: [memory/frame.rs], the allocator
    and [Frame] with its destructor. [Pte]: the trait [GenericPTE] as a class
    with laws, and its three instances ([arch/x86_64/page_table.rs],
    [intel/ept.rs], [amd/npt.rs]). [Region], [BTree], [MemorySet]: [memory/mapper.rs]
    and [memory/mm.rs]. [Paging]: the operations of [memory/paging.rs];
    [PagingInv] has the tree invariant [pt_inv], [PagingOps] the single-page
    operations against it, [PagingSpec] the region loops; [MemoryProps] states
    the theorems: C1 to C8. [Walk]: the walk behind [dump], C18. [Config]:
    [config.rs], [consts.rs], [header.rs] and the memory layout. [Cell],
    [CellProps]: [Cell::new_root] of [cell.rs] and [init_hv_page_table] of
    [memory/mod.rs], C9 to C11. [Early]: [primary_init_early] of [main.rs],
    which composes all of these, C12. [GuestPtr]: [memory/gaccess.rs].

    Processors. [Boot], [BootProps]: [main] and [entry] of [main.rs] and
    [PerCpu::new] as a step relation over any number of processors, one access
    to a shared counter per step, C19 to C21. [Shutdown]: [hypervisor_disable]
    and [deactivate_vmm] in the same way, C22 and C23. [X86]: [msr.rs] and the
    registers of a processor ([Cpu]). [Segmentation]: [segmentation.rs],
    [tables.rs] and [ArchPerCpu::init]. [Asm]: the assembly of [context.rs],
    [entry.rs], [svm_run] and [vmx_exit] over the instructions they use, C35.
    [Entry]: [arch_entry] and [switch_stack] around [entry], C37.
    [Exception]: [build.rs], [exception.rs] and the IDT, C36. [Context]:
    [LinuxContext]. [Cpuid]: [cpuid.rs].

    Virtual CPUs. [Vcpu]: the interface between the shared code and the vendors
    ([VcpuOps], [VcpuLaws]), the exit handlers of [vmm.rs], [PerCpu] and the
    hypercalls of [hypercall/mod.rs], proved against the interface, C24 and C25.
    [Panic]: the panic handler of [lang.rs] over the same interface, C34.
    [Svm], [AmdVcpu], [AmdProps]: libvmm's [svm] and [arch/x86_64/amd]; [Init]:
    [PerCpu::init] and the AMD vCPU; [AmdDisable]: the way back to Linux; C29 to
    C31. [Vmx], [MsrBitmap], [IntelVcpu], [IntelProps]: libvmm's [vmx] with the
    accessors that [vmcs_access] generates, and [arch/x86_64/intel]; C26 to C28,
    C38 and C39; [IntelDisable]: [PerCpu::init] with the Intel vCPU and the way
    back, C32 and C33. [VmmSamples] applies these theorems to a concrete
    processor.

    The whole. [System]: [primary_init_early] and then [PerCpu::init] on every
    processor, for any vendor whose [Vcpu::new] keeps a contract (section
    [System], [vendor_ok]: it returns, and what it keeps of the frame pool is
    accounted for), with the AMD vCPU put in, C13; [IntelSystem]: with the Intel
    vCPU, C14. [Guests]: the machine after that as
    a step relation in which guests store to memory through their nested page
    tables, processors update the guest's part of a vCPU and exits are handled,
    for any vendor, and on AMD; [IntelGuests]: on Intel. [Machine] puts [Boot],
    [System] and [Guests] together: every processor runs [main] step by step
    next to the others, with [PerCpu::new], [primary_init_early] and
    [PerCpu::init] acting on the shared memory, and then its guest, for any
    vendor that keeps the contracts of [System] and [Guests]; its view as a
    system of [Boot] carries the invariants of [BootProps] over. [AmdMachine]:
    on AMD, C15 and C17; [IntelMachine]: on Intel, C16.

    Devices and tools. [Uart]: the crate [uart_16550] and [serial.rs], C40.
    [Stats]: [stats.rs] and [cpu.rs]. [Logging]: [logging.rs] and the texts of
    [error.rs] and [stats.rs]. [Dump]: what the [Debug] implementations of the
    VMCB, the header and the cell configuration show, and the two declarations
    of the header.

    ** What the theorems show

    Page tables: the invariant of the tree is kept by every operation; mapping
    a region translates exactly its pages, unmapping takes that back, other
    tables are not touched, dropping gives every frame back; [MemorySet] refines
    the map its regions describe, on every error path too; the walk reports
    what queries answer by a present entry, and only that. Isolation: the root cell cannot reach the hypervisor
    memory except for a read-only empty page, the tables lie in the pool, the
    hypervisor reaches guest memory where the guest sees it, and early
    initialisation establishes all of this at once. The same holds of the whole
    machine: when every processor is initialised its guest is confined by the
    nested page table in its VMCB or VMCS, whichever instructions failed on the
    way, and a processor that failed has given its frames back (C13, C14), and in every reachable state of the machine that starts and
    runs its processors side by side, no guest runs before all are confined, no
    step of any processor changes a word of the hypervisor memory in use, and
    the work of a processor always ends, the only panic being an exhausted pool
    (C15, C16); from each of these states all processors can reach their
    guests or the driver (C17; [intel_machine_ends]). Start-up and shutdown: for
    every interleaving, barriers hold, and from every
    reachable state the processors can finish, all with the same result; a
    panic is not among the failures considered there, since it stops its
    processor (C34); where the work can panic is the subject of C15 to C17. One
    round of the shutdown is considered; a guest that is told of a failed exit
    and asks again makes the count of active processors wrap
    ([retry_underflows]). The driver gets its registers back (C37). Virtual CPUs: the
    guest starts as the Linux that was running, and when the hypervisor is
    disabled Linux has its processor back, on both vendors (C29, C31 to C33);
    every exit is handled, turned into a #GP or (on Intel, for an unknown
    reason) a panic, for each reason as C27 lists; the VMCB may be marked as clean; CPUID and hypercalls
    behave as specified on every branch; a panic in an enabled processor takes
    the way of the hypercall. Findings among the theorems: the MSR bitmap
    intercepts nothing (C39), CR4 is not shadowed on Intel (C26), a failed
    initialisation returns to Linux with the tables of the hypervisor loaded
    (C29), the dump of the upper half shows addresses without their sign and
    leaves out EPT pages without permissions, which queries answer (C18), the
    frames of the exceptions 21, 29 and 30 are displaced (C36), the console runs
    at 115200 baud where a comment says 38400 (C40).

    ** Fuel

    The loops of [Level4PageTable::map] and [unmap] take the number of 4K pages
    of the region as fuel, the loop of [GuestPtr::read] the number of bytes; C1
    and [GuestPtr.guest_read_bytes] prove that it suffices. The walk has the four levels (C18). Panics
    inside the panic handler are as many as the stack bears: any number (C34). The polling loops of the serial port take
    any fuel above the longest delay of the device (C40). Waiting loops of
    processors are steps of the relations, without fuel.

    ** Not modelled

    The derived [Debug] implementations and those of the memory sets, the GDT and
    guest pointers; the lines [dump] prints. The
    heap ([memory/heap.rs] hands a static array to a crate): where it puts a box
    is an argument. [vmresume_failed], which only panics. The parsing part of
    the procedural macro [vmcs_access]. [amd/iommu.rs] is empty. TLB flushes
    have no effect on a model that translates from memory. [System] initialises
    the processors one after the other; in [Machine] they interleave at their
    accesses to the shared counters, and what a processor does between two of
    them is one step: [PerCpu::init] shares the frame allocator only, whose
    operations are atomic under its lock, and early initialisation runs while
    the others wait. A step of [Machine] enters the guest or fails to; the way
    back to Linux, by hypercall or by panic, is the subject of [Shutdown],
    [AmdDisable], [IntelDisable] and [Panic]. The nested page tables of the
    guests take permissions from their leaf entries. Caches, interrupts
    of the guest and the instructions of the guest itself are outside of the
    program.

    ** This file

    The outcomes, the monad with its notations and rewriting lemmas, relations
    every computation preserves ([pres], hints [rvm_pres]), machine integers and
    bit fields (rewriting base [rvm_bits], hints [rvm_range], the tactics
    [nowrap] and [euclid]) and lemmas on lists shared by the other files. *)

From Stdlib Require Export ZArith Lia Bool Btauto.
From stdpp Require Export base tactics option gmap numbers list.

#[global] Open Scope Z_scope.

(** ** Outcomes of Rust code

    [outcome E A] is what a Rust function returning [Result<A, E>] can do:
    return [Ok] or [Err], panic (a failed [assert!], [expect], [unwrap] or
    [unreachable!]), or, for a loop modelled with fuel, run out of it. *)
Inductive outcome (E A : Type) : Type :=
| Ok (a : A)
| Err (e : E)
| Panic
| Diverge.
Arguments Ok {E A} a.
Arguments Err {E A} e.
Arguments Panic {E A}.
Arguments Diverge {E A}.

#[export] Instance outcome_eq_dec `{EqDecision E} `{EqDecision A} :
  EqDecision (outcome E A).
Proof. solve_decision. Defined.

Definition is_ok {E A} (o : outcome E A) : bool :=
  match o with Ok _ => true | _ => false end.

(** [Result::map_err]. *)
Definition map_err {E F A} (f : E -> F) (o : outcome E A) : outcome F A :=
  match o with
  | Ok a => Ok a
  | Err e => Err (f e)
  | Panic => Panic
  | Diverge => Diverge
  end.

(** [Option::ok_or]. *)
Definition ok_or {E A} (e : E) (o : option A) : outcome E A :=
  match o with Some a => Ok a | None => Err e end.

(** ** The state and error monad

    A computation over the state [S]. The state survives an error, as a
    [&mut] argument does when [?] returns early. *)
Definition M (S E A : Type) : Type := S -> outcome E A * S.

Definition ret {S E A} (a : A) : M S E A := fun s => (Ok a, s).
Definition throw {S E A} (e : E) : M S E A := fun s => (Err e, s).
Definition panic {S E A} : M S E A := fun s => (Panic, s).
Definition diverge {S E A} : M S E A := fun s => (Diverge, s).

Definition bind {S E A B} (c : M S E A) (k : A -> M S E B) : M S E B :=
  fun s =>
    match c s with
    | (Ok a, s') => k a s'
    | (Err e, s') => (Err e, s')
    | (Panic, s') => (Panic, s')
    | (Diverge, s') => (Diverge, s')
    end.

Definition gets {S E A} (f : S -> A) : M S E A := fun s => (Ok (f s), s).
Definition modify {S E} (f : S -> S) : M S E unit := fun s => (Ok tt, f s).
Definition of_outcome {S E A} (o : outcome E A) : M S E A := fun s => (o, s).
Definition map_errM {S E F A} (f : E -> F) (c : M S E A) : M S F A :=
  fun s => let '(o, s') := c s in (map_err f o, s').

(** [assert!]. *)
Definition assertM {S E} (b : bool) : M S E unit :=
  if b then ret tt else panic.

(** [Result::expect] and [Result::unwrap]: an error becomes a panic. *)
Definition expect {S E F A} (c : M S E A) : M S F A :=
  fun s =>
    match c s with
    | (Ok a, s') => (Ok a, s')
    | (Err _, s') => (Panic, s')
    | (Panic, s') => (Panic, s')
    | (Diverge, s') => (Diverge, s')
    end.

(** Run a computation on a component of a larger state. *)
Definition zoom {S T E A} (get : S -> T) (set : T -> S -> S) (c : M T E A) : M S E A :=
  fun s => let '(o, t) := c (get s) in (o, set t s).

Declare Scope rvm_scope.
Delimit Scope rvm_scope with rvm.
Notation "'let*' x := c 'in' k" := (bind c (fun x => k))
  (at level 10, x pattern, c at level 200, k at level 200,
   format "'[v' 'let*'  x  :=  c  'in' '/' k ']'") : rvm_scope.
Notation "c ;;; k" := (bind c (fun _ => k))
  (at level 199, right associativity, format "'[v' c  ;;; '/' k ']'") : rvm_scope.
#[global] Open Scope rvm_scope.

Section MonadLemmas.
Context {S E A B : Type}.

Lemma bind_ok (c : M S E A) (k : A -> M S E B) s a s' :
  c s = (Ok a, s') -> bind c k s = k a s'.
Proof. unfold bind. by intros ->. Qed.

Lemma bind_err (c : M S E A) (k : A -> M S E B) s e s' :
  c s = (Err e, s') -> bind c k s = (Err e, s').
Proof. unfold bind. by intros ->. Qed.

Lemma bind_inv_ok (c : M S E A) (k : A -> M S E B) s b s' :
  bind c k s = (Ok b, s') ->
  exists a s1, c s = (Ok a, s1) /\ k a s1 = (Ok b, s').
Proof. unfold bind. destruct (c s) as [[] ?]; naive_solver. Qed.

Lemma bind_inv_err (c : M S E A) (k : A -> M S E B) s e s' :
  bind c k s = (Err e, s') ->
  c s = (Err e, s') \/ exists a s1, c s = (Ok a, s1) /\ k a s1 = (Err e, s').
Proof. unfold bind. destruct (c s) as [[] ?]; naive_solver. Qed.

Lemma bind_assoc {D} (c : M S E A) (k : A -> M S E B) (h : B -> M S E D) s :
  bind (bind c k) h s = bind c (fun a => bind (k a) h) s.
Proof. unfold bind. by destruct (c s) as [[] ?]. Qed.

Lemma bind_ret (a : A) (k : A -> M S E B) s : bind (ret a) k s = k a s.
Proof. done. Qed.

Lemma bind_gets (f : S -> A) (k : A -> M S E B) s : bind (gets f) k s = k (f s) s.
Proof. done. Qed.

Lemma bind_modify (f : S -> S) (k : unit -> M S E B) s : bind (modify f) k s = k tt (f s).
Proof. done. Qed.

Lemma bind_of_outcome (a : A) (k : A -> M S E B) s : bind (of_outcome (Ok a)) k s = k a s.
Proof. done. Qed.
End MonadLemmas.

(** Run the pure steps of a computation. *)
Create Rewrite HintDb rvm_run.
#[export] Hint Rewrite @bind_ret @bind_gets @bind_modify @bind_of_outcome @bind_assoc : rvm_run.

(** ** What a computation does to the state

    [pres R c]: whatever the outcome, the state before and after a run of [c]
    are related by [R]. *)
Definition pres {S E A} (R : S -> S -> Prop) (c : M S E A) : Prop := forall s, R s (snd (c s)).

Section Pres.
Context {S E : Type} (R : S -> S -> Prop) {pre : PreOrder R}.

Lemma pres_ret {A} (a : A) : pres R (ret (E := E) a).
Proof. intros s. simpl. reflexivity. Qed.
Lemma pres_throw {A} (e : E) : pres R (throw (A := A) e).
Proof. intros s. simpl. reflexivity. Qed.
Lemma pres_panic {A} : pres R (panic (E := E) (A := A)).
Proof. intros s. simpl. reflexivity. Qed.
Lemma pres_diverge {A} : pres R (diverge (E := E) (A := A)).
Proof. intros s. simpl. reflexivity. Qed.
Lemma pres_gets {A} (f : S -> A) : pres R (gets (E := E) f).
Proof. intros s. simpl. reflexivity. Qed.
Lemma pres_modify (f : S -> S) : (forall s, R s (f s)) -> pres R (modify (E := E) f).
Proof. intros Hf s. apply Hf. Qed.
Lemma pres_bind {A B} (c : M S E A) (k : A -> M S E B) :
  pres R c -> (forall a, pres R (k a)) -> pres R (bind c k).
Proof.
  intros Hc Hk s. unfold bind. specialize (Hc s). destruct (c s) as [[a|e| |] s']; simpl in *; try done.
  etransitivity; [exact Hc | apply Hk].
Qed.
Lemma pres_expect {F A} (c : M S E A) : pres R c -> pres R (expect (F := F) c).
Proof. intros Hc s. specialize (Hc s). unfold expect. by destruct (c s) as [[] ?]. Qed.
End Pres.

Create HintDb rvm_pres.

(** Decompose a goal [pres R c]; the atoms are left to the hints of [rvm_pres]. *)
Ltac pres :=
  repeat lazymatch goal with
  | |- pres _ (bind _ _) => apply pres_bind; [apply _| |intros ?]
  | |- pres _ (match ?x with _ => _ end) => destruct x
  | |- pres _ (ret _) => apply pres_ret; apply _
  | |- pres _ (throw _) => apply pres_throw; apply _
  | |- pres _ panic => apply pres_panic; apply _
  | |- pres _ diverge => apply pres_diverge; apply _
  | |- pres _ (gets _) => apply pres_gets; apply _
  | |- pres _ (expect _) => apply pres_expect
  end; try solve [eauto with rvm_pres].

(** ** Machine integers

    A [w]-bit Rust integer is a [Z] in [0, 2^w). The image is built in release
    mode, so [+], [-] and [*] wrap around. *)
Definition u8 : Z := 8.
Definition u16 : Z := 16.
Definition u32 : Z := 32.
Definition u64 : Z := 64.

Definition wrap (w x : Z) : Z := x mod 2 ^ w.
Definition in_range (w x : Z) : Prop := 0 <= x < 2 ^ w.

Definition add64 (x y : Z) : Z := wrap 64 (x + y).
Definition sub64 (x y : Z) : Z := wrap 64 (x - y).
Definition mul64 (x y : Z) : Z := wrap 64 (x * y).
(** [!x] on [u64]. *)
Definition not64 (x : Z) : Z := Z.lxor x (Z.ones 64).
Definition notw (w x : Z) : Z := Z.lxor x (Z.ones w).

(** [bit_field::BitField::get_bits(lo..hi)] and [set_bits(lo..hi, v)]; the
    latter panics unless [v] [fits] the range. *)
Definition get_bits (x lo hi : Z) : Z := Z.land (Z.shiftr x lo) (Z.ones (hi - lo)).
Definition get_bit (x i : Z) : bool := Z.testbit x i.
Definition fits (lo hi v : Z) : bool := (0 <=? v) && (v <? 2 ^ (hi - lo)).
Definition set_bits (w x lo hi v : Z) : Z :=
  Z.lor (Z.land x (notw w (Z.shiftl (Z.ones (hi - lo)) lo))) (Z.shiftl v lo).
Definition set_bit (w x i : Z) (b : bool) : Z :=
  if b then Z.lor x (Z.shiftl 1 i) else Z.land x (notw w (Z.shiftl 1 i)).

(** [bitflags]: [contains], [from_bits_truncate] on the raw bits. *)
Definition contains (bits flag : Z) : bool := Z.land bits flag =? flag.
Definition truncate (all bits : Z) : Z := Z.land bits all.

(** ** Bit-level reasoning *)
Lemma testbit_ones n i : 0 <= n -> Z.testbit (Z.ones n) i = (0 <=? i) && (i <? n).
Proof.
  intros Hn. destruct (Z.leb_spec 0 i) as [Hi|Hi]; simpl.
  - destruct (Z.ltb_spec i n); [by apply Z.ones_spec_low | by apply Z.ones_spec_high].
  - by apply Z.testbit_neg_r.
Qed.

Lemma testbit_shiftl x n i :
  Z.testbit (Z.shiftl x n) i = (0 <=? i) && Z.testbit x (i - n).
Proof.
  destruct (Z.leb_spec 0 i); simpl; [by apply Z.shiftl_spec | by apply Z.testbit_neg_r].
Qed.

Lemma testbit_shiftr x n i :
  Z.testbit (Z.shiftr x n) i = (0 <=? i) && Z.testbit x (i + n).
Proof.
  destruct (Z.leb_spec 0 i); simpl; [by apply Z.shiftr_spec | by apply Z.testbit_neg_r].
Qed.

Lemma testbit_one i : Z.testbit 1 i = (i =? 0).
Proof.
  destruct (Z.eqb_spec i 0) as [->|]; [done|].
  destruct (Z.ltb_spec i 0); [by apply Z.testbit_neg_r|].
  apply (Z.pow2_bits_false 0 i). lia.
Qed.

(** A single flag bit, and a flag added under a condition. *)
Lemma testbit_bit n i : 0 <= n -> Z.testbit (Z.shiftl 1 n) i = (i =? n).
Proof.
  intros. rewrite testbit_shiftl, testbit_one.
  destruct (Z.leb_spec 0 i), (Z.eqb_spec (i - n) 0), (Z.eqb_spec i n); simpl; lia || done.
Qed.

Lemma testbit_lor_if (b : bool) r f i :
  Z.testbit (if b then Z.lor r f else r) i = Z.testbit r i || b && Z.testbit f i.
Proof. destruct b; simpl; [apply Z.lor_spec | by rewrite orb_false_r]. Qed.

Lemma testbit_mod x n i :
  0 <= n -> Z.testbit (x mod 2 ^ n) i = (i <? n) && Z.testbit x i.
Proof.
  intros Hn. destruct (Z.ltb_spec i n); simpl.
  - by apply Z.mod_pow2_bits_low.
  - by apply Z.mod_pow2_bits_high.
Qed.

Lemma testbit_small x n i : 0 <= x < 2 ^ n -> 0 <= n <= i -> Z.testbit x i = false.
Proof.
  intros Hx Hi. rewrite <- (Z.mod_small x (2 ^ n)) by done.
  apply Z.mod_pow2_bits_high. lia.
Qed.

Create Rewrite HintDb rvm_bits.
#[export] Hint Rewrite Z.land_spec Z.lor_spec Z.lxor_spec Z.bits_0
  testbit_shiftl testbit_shiftr testbit_one : rvm_bits.
#[export] Hint Rewrite testbit_ones testbit_mod using lia : rvm_bits.

Ltac split_cmp :=
  repeat match goal with
  | |- context [?a <=? ?b] => destruct (Z.leb_spec a b)
  | |- context [?a <? ?b] => destruct (Z.ltb_spec a b)
  | |- context [?a =? ?b] => destruct (Z.eqb_spec a b)
  end.

(** Case analysis on the tests [i =? n] of a bit index against flag positions. *)
Ltac split_index i :=
  repeat match goal with
  | |- context [i =? ?b] => destruct (Z.eqb_spec i b) as [->|?]
  end.

(** Decide an equation between [Z]s bit by bit. *)
Ltac bitwise :=
  apply Z.bits_inj'; intros ?i ?Hi; autorewrite with rvm_bits; split_cmp;
  simpl; try lia; rewrite ?andb_true_r, ?andb_false_r, ?orb_false_r, ?orb_true_r,
    ?xorb_true_r, ?xorb_false_r; simpl; try done; try btauto.

Lemma contains_bit x n : 0 <= n -> contains x (Z.shiftl 1 n) = Z.testbit x n.
Proof.
  intros Hn. unfold contains. destruct (Z.testbit x n) eqn:Ht.
  - apply Z.eqb_eq, Z.bits_inj'. intros i Hi. autorewrite with rvm_bits.
    split_cmp; try lia; simpl; rewrite ?andb_true_r, ?andb_false_r; try done.
    by replace i with n by lia.
  - apply Z.eqb_neq. intros Heq. apply (f_equal (fun z => Z.testbit z n)) in Heq.
    autorewrite with rvm_bits in Heq. rewrite Ht in Heq. simpl in Heq.
    rewrite Z.sub_diag in Heq. destruct (Z.leb_spec 0 n); [done|lia].
Qed.

Lemma range_bits w x : 0 <= w -> 0 <= x -> (forall i, w <= i -> Z.testbit x i = false) -> in_range w x.
Proof.
  intros Hw Hx Hb. assert (x = x mod 2 ^ w) as ->.
  { apply Z.bits_inj'. intros i Hi. rewrite testbit_mod by done.
    destruct (Z.ltb_spec i w); [done|]. rewrite Hb; done. }
  apply Z.mod_pos_bound. lia.
Qed.

(** [in_range] is closed under the bit operations (database [rvm_range]). *)
Lemma in_range_bits w x i : 0 <= w <= i -> in_range w x -> Z.testbit x i = false.
Proof. intros Hi Hx. apply (testbit_small x w); unfold in_range in *; lia. Qed.

Lemma in_range_lor w x y : 0 <= w -> in_range w x -> in_range w y -> in_range w (Z.lor x y).
Proof.
  intros Hw Hx Hy. apply range_bits; [done|apply Z.lor_nonneg; unfold in_range in *; lia|].
  intros i Hi. by rewrite Z.lor_spec, !(in_range_bits w).
Qed.

Lemma in_range_land w x y : 0 <= w -> in_range w x -> in_range w (Z.land x y).
Proof.
  intros Hw Hx. apply range_bits; [done|apply Z.land_nonneg; unfold in_range in *; lia|].
  intros i Hi. by rewrite Z.land_spec, (in_range_bits w).
Qed.

Lemma in_range_notw w x : 0 <= w -> in_range w x -> in_range w (notw w x).
Proof.
  intros Hw Hx. unfold notw. apply range_bits; [done| |].
  - apply Z.lxor_nonneg. rewrite Z.ones_equiv. unfold in_range in Hx. lia.
  - intros i Hi. rewrite Z.lxor_spec, (in_range_bits w), testbit_ones by done. simpl. lia.
Qed.

Lemma in_range_wrap w x : 0 <= w -> in_range w (wrap w x).
Proof. intros Hw. apply Z.mod_pos_bound. lia. Qed.

Create HintDb rvm_range.
#[export] Hint Resolve in_range_lor in_range_land in_range_notw in_range_wrap : rvm_range.
#[export] Hint Extern 1 (in_range _ (not64 _)) => apply (in_range_notw 64) : rvm_range.
#[export] Hint Extern 2 (0 <= _) => lia : rvm_range.
#[export] Hint Extern 3 (in_range _ _) => (split; [discriminate|reflexivity]) : rvm_range.

Lemma fits_true lo hi v : 0 <= v < 2 ^ (hi - lo) -> fits lo hi v = true.
Proof. intros. unfold fits. apply andb_true_iff. lia. Qed.

Lemma testbit_get_bits x lo hi i :
  0 <= lo <= hi -> 0 <= i -> Z.testbit (get_bits x lo hi) i = (i <? hi - lo) && Z.testbit x (i + lo).
Proof.
  intros ? Hi. unfold get_bits. autorewrite with rvm_bits.
  split_cmp; simpl; try lia; by rewrite ?andb_true_r, ?andb_false_r.
Qed.

Lemma testbit_set_bits w x lo hi v i :
  in_range w x -> 0 <= lo <= hi -> hi <= w -> 0 <= v < 2 ^ (hi - lo) -> 0 <= i ->
  Z.testbit (set_bits w x lo hi v) i =
    if (lo <=? i) && (i <? hi) then Z.testbit v (i - lo) else Z.testbit x i.
Proof.
  intros Hx Hlo Hw Hv Hi. unfold set_bits, notw. autorewrite with rvm_bits.
  destruct (Z.leb_spec lo i).
  - destruct (Z.ltb_spec i hi); simpl.
    + split_cmp; simpl; try lia. by rewrite andb_false_r.
    + rewrite (testbit_small v (hi - lo) (i - lo)) by lia.
      destruct (Z.ltb_spec i w); split_cmp; simpl; try lia;
        rewrite ?andb_true_r, ?andb_false_r, ?orb_false_r; try done;
        symmetry; apply (testbit_small x w); unfold in_range in Hx; lia.
  - rewrite (Z.testbit_neg_r v) by lia. split_cmp; simpl; try lia;
      rewrite ?andb_true_r, ?andb_false_r, ?orb_false_r; done.
Qed.

Lemma set_bits_range w x lo hi v :
  in_range w x -> 0 <= lo <= hi -> hi <= w -> 0 <= v < 2 ^ (hi - lo) ->
  in_range w (set_bits w x lo hi v).
Proof.
  intros Hx Hlo Hw Hv. apply range_bits; [lia| |].
  - unfold set_bits. apply Z.lor_nonneg. split.
    + apply Z.land_nonneg. left. apply Hx.
    + apply Z.shiftl_nonneg. lia.
  - intros i Hi. rewrite testbit_set_bits by (done || lia).
    split_cmp; simpl; try lia; apply (testbit_small x w); unfold in_range in Hx; lia.
Qed.

Lemma get_bits_div x lo hi :
  0 <= lo <= hi -> get_bits x lo hi = (x / 2 ^ lo) mod 2 ^ (hi - lo).
Proof.
  intros ?. unfold get_bits. rewrite Z.land_ones, Z.shiftr_div_pow2 by lia. done.
Qed.

Lemma get_bits_range x lo hi : 0 <= lo <= hi -> 0 <= get_bits x lo hi < 2 ^ (hi - lo).
Proof. intros. rewrite get_bits_div by done. apply Z.mod_pos_bound. lia. Qed.

Lemma wrap_range w x : 0 <= w -> 0 <= wrap w x < 2 ^ w.
Proof. intros. unfold wrap. apply Z.mod_pos_bound. lia. Qed.

Lemma wrap_small w x : in_range w x -> wrap w x = x.
Proof. apply Z.mod_small. Qed.

Lemma wrap_idem w x : 0 <= w -> wrap w (wrap w x) = wrap w x.
Proof. intros. unfold wrap. apply Z.mod_mod. lia. Qed.

(** Remove the wrap-arounds of a goal from the inside out, where none occurs. *)
Ltac nowrap :=
  repeat match goal with
  | |- context [wrap 64 ?x] =>
      lazymatch x with
      | context [wrap 64 _] => fail
      | _ => rewrite (wrap_small 64 x) by (unfold in_range in *; lia)
      end
  end.

(** Arithmetic with division and remainder by constants. *)
Ltac euclid := Z.to_euclidean_division_equations; lia.

(** ** Division and alignment *)

(** Two aligned blocks that share an address are the same block. *)
Lemma aligned_block_eq n a b i j :
  0 < n -> a mod n = 0 -> b mod n = 0 -> 0 <= i < n -> 0 <= j < n ->
  a + i = b + j -> a = b /\ i = j.
Proof.
  intros Hn Ha Hb Hi Hj Heq.
  pose proof (Z.div_mod a n). pose proof (Z.div_mod b n).
  assert (a / n = b / n) by nia. nia.
Qed.

(** ** Bit fields laid side by side *)
Lemma lor_concat a b n : 0 <= n -> 0 <= a < 2 ^ n -> Z.lor a (Z.shiftl b n) = a + 2 ^ n * b.
Proof.
  intros Hn Ha. assert (Z.land a (Z.shiftl b n) = 0) as H0.
  { apply Z.bits_inj'. intros i Hi. rewrite Z.land_spec, testbit_shiftl, Z.bits_0.
    destruct (Z.ltb_spec i n).
    - rewrite (Z.testbit_neg_r b) by lia. btauto.
    - rewrite (testbit_small a n) by lia. done. }
  rewrite <- Z.lxor_lor, <- Z.add_nocarry_lxor by done.
  rewrite Z.shiftl_mul_pow2 by done. lia.
Qed.

(** The field of [w] bits above the [l] low bits. *)
Lemma get_bits_field a v b l h :
  0 <= l <= h -> 0 <= a < 2 ^ l -> 0 <= v < 2 ^ (h - l) ->
  get_bits (a + 2 ^ l * (v + 2 ^ (h - l) * b)) l h = v.
Proof.
  intros Hl Ha Hv. rewrite get_bits_div by done.
  rewrite (Z.add_comm a), Z.mul_comm, Z.div_add_l, (Z.div_small a) by lia.
  rewrite Z.add_0_r, (Z.mul_comm _ b), Z.mod_add by lia. by apply Z.mod_small.
Qed.

Lemma land_field x k n :
  0 <= k -> 0 <= n -> Z.land x (Z.shiftl (Z.ones n) k) = 2 ^ k * get_bits x k (k + n).
Proof.
  intros Hk Hn. rewrite Z.mul_comm, <- Z.shiftl_mul_pow2 by done. unfold get_bits.
  replace (k + n - k) with n by lia. bitwise. f_equal. lia.
Qed.

(** A decidable property of the numbers below a bound, by enumeration. *)
Lemma forallb_below (n : Z) (P : Z -> bool) x :
  forallb P (seqZ 0 n) = true -> 0 <= x < n -> P x = true.
Proof.
  intros Hall Hx. rewrite forallb_forall in Hall. apply Hall.
  apply list_elem_of_In, elem_of_seqZ. lia.
Qed.

(** ** Counting the elements of a list that satisfy a test *)
Definition cnt {B} (P : B -> bool) (l : list B) : Z := Z.of_nat (length (List.filter P l)).

Lemma cnt_insert {B} (P : B -> bool) l i p p' :
  l !! i = Some p -> cnt P (<[i := p']> l) = cnt P l - Z.b2z (P p) + Z.b2z (P p').
Proof.
  revert i. induction l as [|q l IH]; intros [|i] Hi; simpl in *; try done.
  - injection Hi as ->. unfold cnt. simpl. destruct (P p), (P p'); simpl; lia.
  - specialize (IH i Hi). unfold cnt in *. simpl. destruct (P q); simpl; lia.
Qed.

Lemma cnt_bounds {B} (P : B -> bool) l : 0 <= cnt P l <= Z.of_nat (length l).
Proof. unfold cnt. induction l as [|q l IH]; simpl; [lia|]. destruct (P q); simpl; lia. Qed.

Lemma cnt_lt {B} (P : B -> bool) l i p : l !! i = Some p -> P p = false -> cnt P l < Z.of_nat (length l).
Proof.
  revert i. induction l as [|q l IH]; intros [|i] Hi Hp; simpl in *; try done.
  - injection Hi as ->. unfold cnt. simpl. rewrite Hp. pose proof (cnt_bounds P l). unfold cnt in *. lia.
  - specialize (IH i Hi Hp). unfold cnt in *. simpl. destruct (P q); simpl; lia.
Qed.

Lemma cnt_full {B} (P : B -> bool) (l : list B) : cnt P l = Z.of_nat (length l) <-> forall i p, l !! i = Some p -> P p = true.
Proof.
  split.
  - intros Hc i p Hi. destruct (P p) eqn:Hp; [done|]. pose proof (cnt_lt P l i p Hi Hp). lia.
  - induction l as [|q l IH]; intros Hall; [done|]. unfold cnt in *. simpl.
    rewrite (Hall 0%nat q eq_refl). simpl. rewrite Nat2Z.inj_succ, IH; [lia|]. intros i p Hi. by apply (Hall (S i)).
Qed.

Lemma cnt_mono {B} (P Q : B -> bool) l : (forall p, P p = true -> Q p = true) -> cnt P l <= cnt Q l.
Proof.
  intros Hpq. unfold cnt. induction l as [|q l IH]; simpl; [lia|].
  destruct (P q) eqn:Hp; [rewrite (Hpq q Hp); simpl; lia|]. destruct (Q q); simpl; lia.
Qed.

Lemma cnt_replicate {B} (P : B -> bool) m p : P p = false -> cnt P (replicate m p) = 0.
Proof. intros Hp. unfold cnt. induction m; simpl; [done|]. by rewrite Hp. Qed.

(** Search a list. *)
Lemma find_elem {B} (P : B -> bool) (l : list B) :
  (exists i p, l !! i = Some p /\ P p = true) \/ (forall i p, l !! i = Some p -> P p = false).
Proof.
  induction l as [|q l IH]; [by right|]. destruct (P q) eqn:Hq; [left; by exists 0%nat, q|].
  destruct IH as [(i & p & Hi & Hp)|Hall]; [left; by exists (S i), p|right].
  intros [|i] p Hi; [by injection Hi as <-|by apply (Hall i)].
Qed.

(** An insertion changes one element. *)
Lemma lookup_insert_cases {B} (l : list B) i j x y : <[i := x]> l !! j = Some y -> j = i /\ y = x \/ j <> i /\ l !! j = Some y.
Proof.
  intros Hl. destruct (decide (j = i)) as [->|Hne]; [left|right].
  - apply list_lookup_insert_Some in Hl as [(? & -> & ?)|(? & ?)]; done.
  - by rewrite list_lookup_insert_ne in Hl.
Qed.

Lemma sum_insert {B} (f : B -> nat) l i p p' :
  l !! i = Some p -> (sum_list (map f (<[i := p']> l)) + f p = sum_list (map f l) + f p')%nat.
Proof.
  revert i. induction l as [|q l IH]; intros [|i] Hi; simpl in *; try done.
  - injection Hi as ->. lia.
  - specialize (IH i Hi). lia.
Qed.
