(* ===== verification/Crates.v ===== *)
(** * Interfaces of the third-party crates

    The crates the hypervisor calls are not part of the repository. Each is a
    type class: its operations are parameters of the model and its laws state
    the documented behaviour the hypervisor relies on. Every class has a
    reference instance, so that the theorems can be applied to concrete runs.

    - [BitField]: the [bit_field] crate on unsigned integers;
    - [BitAlloc]: the [bitmap_allocator] crate ([BitAlloc1M]);
    - [X86PageTableFlags]: [PageTableFlags] of the [x86_64] crate. *)

From S2P Require Import Prelude.

(** ** [bit_field::BitField] *)

(** [w] is the width of the integer type. [set_bits] panics ([None]) when the
    value does not fit into the range. *)
Class BitField : Type := {
  bf_get_bits : forall (x lo hi : Z), Z;
  bf_get_bit : forall (x i : Z), bool;
  bf_set_bits : forall (w x lo hi v : Z), option Z;
  bf_set_bit : forall (w x i : Z) (b : bool), Z;
  bf_get_bits_spec : forall x lo hi,
    0 <= x -> 0 <= lo < hi -> bf_get_bits x lo hi = get_bits x lo hi;
  bf_get_bit_spec : forall x i, 0 <= x -> 0 <= i -> bf_get_bit x i = Z.testbit x i;
  bf_set_bits_ok : forall w x lo hi v,
    in_range w x -> 0 <= lo < hi -> hi <= w -> fits lo hi v = true ->
    bf_set_bits w x lo hi v = Some (set_bits w x lo hi v);
  bf_set_bits_panic : forall w x lo hi v,
    in_range w x -> 0 <= lo < hi -> hi <= w -> fits lo hi v = false ->
    bf_set_bits w x lo hi v = None;
  bf_set_bit_spec : forall w x i b,
    in_range w x -> 0 <= i < w -> bf_set_bit w x i b = set_bit w x i b;
}.

#[global] Instance BitField_ref : BitField.
Proof.
  refine {|
    bf_get_bits := get_bits;
    bf_get_bit := Z.testbit;
    bf_set_bits w x lo hi v := if fits lo hi v then Some (set_bits w x lo hi v) else None;
    bf_set_bit := set_bit;
  |}; by intros * _ _ _ -> || done.
Defined.
#[global] Remove Hints BitField_ref : typeclass_instances.

(** ** [bitmap_allocator::BitAlloc] *)
Class BitAlloc (A : Type) : Type := {
  ba_cap : Z;
  ba_default : A;
  ba_insert : A -> Z -> Z -> A;
  ba_alloc : A -> option Z * A;
  ba_alloc_contiguous : A -> Z -> Z -> option Z * A;
  ba_dealloc : A -> Z -> A;
  ba_test : A -> Z -> bool;
}.

(** A set bit is a free one. [alloc] hands out a free bit whenever there is
    one; [alloc_contiguous] may fail; [dealloc] expects an allocated bit. *)
Class BitAllocLaws (A : Type) `{BitAlloc A} : Prop := {
  ba_cap_pos : 0 < ba_cap;
  ba_test_bound : forall a i, ba_test a i = true -> 0 <= i < ba_cap;
  ba_test_default : forall i, ba_test ba_default i = false;
  ba_test_insert : forall a lo hi i,
    0 <= lo <= hi -> hi <= ba_cap ->
    ba_test (ba_insert a lo hi) i = ((lo <=? i) && (i <? hi)) || ba_test a i;
  ba_alloc_some : forall a i a',
    ba_alloc a = (Some i, a') ->
    ba_test a i = true /\ forall j, ba_test a' j = negb (j =? i) && ba_test a j;
  ba_alloc_none : forall a a',
    ba_alloc a = (None, a') -> a' = a /\ forall i, ba_test a i = false;
  ba_alloc_contiguous_some : forall a n al i a',
    0 < n -> 0 <= al -> ba_alloc_contiguous a n al = (Some i, a') ->
    i mod 2 ^ al = 0 /\
    (forall j, i <= j < i + n -> ba_test a j = true) /\
    forall j, ba_test a' j = negb ((i <=? j) && (j <? i + n)) && ba_test a j;
  ba_alloc_contiguous_none : forall a n al a',
    ba_alloc_contiguous a n al = (None, a') -> a' = a;
  ba_test_dealloc : forall a i j,
    0 <= i < ba_cap -> ba_test a i = false ->
    ba_test (ba_dealloc a i) j = (j =? i) || ba_test a j;
}.

(** The reference allocator: the list of free bits, first fit. *)
Module ListAlloc.
Definition t : Type := list Z.
Definition cap : Z := 2 ^ 20.
Definition ok (i : Z) : bool := (0 <=? i) && (i <? cap).
Definition test (a : t) (i : Z) : bool := existsb (Z.eqb i) a && ok i.
Definition insert (a : t) (lo hi : Z) : t := seqZ lo (hi - lo) ++ a.
Definition take (a : t) (lo hi : Z) : t :=
  List.filter (fun j => negb ((lo <=? j) && (j <? hi))) a.
Definition alloc (a : t) : option Z * t :=
  match List.find ok a with
  | Some i => (Some i, take a i (i + 1))
  | None => (None, a)
  end.
Definition alloc_contiguous (a : t) (n al : Z) : option Z * t :=
  match List.find (fun i => (i mod 2 ^ al =? 0) &&
                            forallb (test a) (seqZ i n)) a with
  | Some i => (Some i, take a i (i + n))
  | None => (None, a)
  end.
Definition dealloc (a : t) (i : Z) : t := i :: a.

Lemma test_take a lo hi j :
  test (take a lo hi) j = negb ((lo <=? j) && (j <? hi)) && test a j.
Proof.
  unfold test, take. rewrite andb_assoc. f_equal.
  induction a as [|x a IH]; simpl; [by rewrite andb_false_r|].
  destruct (Z.eqb_spec j x) as [<-|Hne]; simpl.
  - destruct (negb _) eqn:E; simpl; [by rewrite Z.eqb_refl|].
    by rewrite IH.
  - destruct (negb ((lo <=? x) && (x <? hi))); simpl; [|done].
    by destruct (Z.eqb_spec j x).
Qed.

Lemma existsb_seqZ lo n i :
  0 <= n -> existsb (Z.eqb i) (seqZ lo n) = (lo <=? i) && (i <? lo + n).
Proof.
  intros Hn. apply eq_true_iff_eq. rewrite existsb_exists, andb_true_iff.
  rewrite Z.leb_le, Z.ltb_lt. split.
  - intros (x & Hin & ->%Z.eqb_eq). apply list_elem_of_In, elem_of_seqZ in Hin. lia.
  - intros Hi. exists i. rewrite Z.eqb_refl. split; [|done].
    apply list_elem_of_In, elem_of_seqZ. lia.
Qed.
End ListAlloc.

#[global] Instance ListAlloc_ops : BitAlloc ListAlloc.t := {|
  ba_cap := ListAlloc.cap;
  ba_default := [];
  ba_insert := ListAlloc.insert;
  ba_alloc := ListAlloc.alloc;
  ba_alloc_contiguous := ListAlloc.alloc_contiguous;
  ba_dealloc := ListAlloc.dealloc;
  ba_test := ListAlloc.test;
|}.

#[global] Instance ListAlloc_laws : BitAllocLaws ListAlloc.t.
Proof.
  constructor; simpl.
  - done.
  - intros a i. unfold ListAlloc.test, ListAlloc.ok. rewrite !andb_true_iff. lia.
  - done.
  - intros a lo hi i Hlo Hhi. unfold ListAlloc.test, ListAlloc.insert.
    rewrite existsb_app, ListAlloc.existsb_seqZ by lia.
    replace (lo + (hi - lo)) with hi by lia.
    unfold ListAlloc.ok, ListAlloc.cap in *.
    split_cmp; simpl; try lia; by rewrite ?andb_true_r, ?orb_false_r, ?orb_true_r.
  - intros a i a'. unfold ListAlloc.alloc.
    destruct (List.find _ a) as [x|] eqn:Hf; intros [= <- <-].
    apply find_some in Hf as [Hin Hok]. split.
    + unfold ListAlloc.test. rewrite Hok, andb_true_r. apply existsb_exists.
      exists x. by rewrite Z.eqb_refl.
    + intros j. rewrite ListAlloc.test_take. do 2 f_equal. split_cmp; lia || done.
  - intros a a'. unfold ListAlloc.alloc.
    destruct (List.find _ a) as [x|] eqn:Hf; intros [= <-].
    split; [done|]. intros i. unfold ListAlloc.test.
    destruct (existsb (Z.eqb i) a) eqn:He; [|done].
    apply existsb_exists in He as (x & Hin & ->%Z.eqb_eq).
    by rewrite (find_none _ _ Hf x Hin).
  - intros a n al i a' Hn Hal. unfold ListAlloc.alloc_contiguous.
    destruct (List.find _ a) as [x|] eqn:Hf; intros [= <- <-].
    apply find_some in Hf as [Hin [Hm Hall]%andb_true_iff].
    apply Z.eqb_eq in Hm. rewrite forallb_forall in Hall. split_and!.
    + done.
    + intros j Hj. apply Hall, list_elem_of_In, elem_of_seqZ. lia.
    + intros j. by rewrite ListAlloc.test_take.
  - intros a n al a'. unfold ListAlloc.alloc_contiguous.
    by destruct (List.find _ a) as [x|]; intros [= <-].
  - intros a i j Hi Ht. unfold ListAlloc.test, ListAlloc.dealloc in *. simpl.
    destruct (Z.eqb_spec j i) as [->|]; [|done]. simpl.
    unfold ListAlloc.ok, ListAlloc.cap in *. split_cmp; lia || done.
Qed.

(** ** [x86_64::structures::paging::PageTableFlags] *)

(** The flags the hypervisor names, with their documented bit positions, and
    the mask of all the flags the type knows (bits 0 to 11 and 52 to 63). *)
Class X86PageTableFlags : Type := {
  PTF_PRESENT : Z;
  PTF_WRITABLE : Z;
  PTF_USER_ACCESSIBLE : Z;
  PTF_NO_CACHE : Z;
  PTF_HUGE_PAGE : Z;
  PTF_NO_EXECUTE : Z;
  PTF_all : Z;
  ptf_present : PTF_PRESENT = Z.shiftl 1 0;
  ptf_writable : PTF_WRITABLE = Z.shiftl 1 1;
  ptf_user : PTF_USER_ACCESSIBLE = Z.shiftl 1 2;
  ptf_no_cache : PTF_NO_CACHE = Z.shiftl 1 4;
  ptf_huge : PTF_HUGE_PAGE = Z.shiftl 1 7;
  ptf_no_execute : PTF_NO_EXECUTE = Z.shiftl 1 63;
  ptf_all : PTF_all = Z.lor (Z.ones 12) (Z.shiftl (Z.ones 12) 52);
}.

#[global] Instance X86PageTableFlags_ref : X86PageTableFlags := {|
  PTF_PRESENT := 0x1;
  PTF_WRITABLE := 0x2;
  PTF_USER_ACCESSIBLE := 0x4;
  PTF_NO_CACHE := 0x10;
  PTF_HUGE_PAGE := 0x80;
  PTF_NO_EXECUTE := 0x8000000000000000;
  PTF_all := 0xfff0000000000fff;
  ptf_present := eq_refl;
  ptf_writable := eq_refl;
  ptf_user := eq_refl;
  ptf_no_cache := eq_refl;
  ptf_huge := eq_refl;
  ptf_no_execute := eq_refl;
  ptf_all := eq_refl;
|}.
#[global] Remove Hints X86PageTableFlags_ref : typeclass_instances.
