(* ===== verification/HvError.v ===== *)
(** * Errors of the hypervisor

    [src/src/error.rs] ([HvErrorNum], [HvError::code]) and the [PagingError] of
    [src/src/memory/paging.rs] with its conversion into [HvError]. The source
    location and the message an [HvError] carries are only printed, so an error
    is modelled by its number. *)

From S2P Require Import Prelude.

Inductive HvErrorNum : Type :=
| EPERM | ENOENT | EIO | E2BIG | ENOMEM | EFAULT | EBUSY | EEXIST | ENODEV
| EINVAL | ERANGE | ENOSYS.

#[export] Instance HvErrorNum_eq_dec : EqDecision HvErrorNum.
Proof. solve_decision. Defined.

(** The discriminants of [#[repr(u32)] enum HvErrorNum]. *)
Definition errno (e : HvErrorNum) : Z :=
  match e with
  | EPERM => 1
  | ENOENT => 2
  | EIO => 5
  | E2BIG => 7
  | ENOMEM => 12
  | EFAULT => 14
  | EBUSY => 16
  | EEXIST => 17
  | ENODEV => 19
  | EINVAL => 22
  | ERANGE => 34
  | ENOSYS => 38
  end.

(** [HvError::code]: the negated errno as an [i32]. *)
Definition code (e : HvErrorNum) : Z := - errno e.

(** [x as usize] of an [i32], the sign extension the driver sees in [rax]. *)
Definition i32_as_usize (x : Z) : Z := wrap 64 x.

Definition HvResult (A : Type) : Type := outcome HvErrorNum A.

Inductive PagingError : Type :=
| NoMemory | NotMapped | AlreadyMapped | MappedToHugePage.

#[export] Instance PagingError_eq_dec : EqDecision PagingError.
Proof. solve_decision. Defined.

(** [impl From<PagingError> for HvError]. *)
Definition hv_error_of_paging (e : PagingError) : HvErrorNum :=
  match e with
  | NoMemory => ENOMEM
  | _ => EFAULT
  end.

Lemma errno_inj e1 e2 : errno e1 = errno e2 -> e1 = e2.
Proof. destruct e1, e2; simpl; intros; congruence. Qed.

Lemma code_negative e : -38 <= code e <= -1.
Proof. destruct e; unfold code; simpl; lia. Qed.
