(* ===== verification/Addr.v ===== *)
(** * Addresses and page sizes

    [src/src/memory/addr.rs] (alignment and the linear map between physical
    and virtual addresses), [PAGE_SIZE], and the [PageSize] of
    [src/src/memory/paging.rs]. A [usize] is a [Z] in [0, 2^64). *)

From S2P Require Import Prelude.

(** [static mut PHYS_VIRT_OFFSET], set once by [init_heap]. *)
Class PhysVirt := PHYS_VIRT_OFFSET : Z.

Definition PAGE_SIZE : Z := 0x1000.

Section Translate.
Context {pv : PhysVirt}.

Definition virt_to_phys (vaddr : Z) : Z := sub64 vaddr PHYS_VIRT_OFFSET.
Definition phys_to_virt (paddr : Z) : Z := add64 paddr PHYS_VIRT_OFFSET.

Lemma virt_to_phys_to_virt p : virt_to_phys (phys_to_virt p) = wrap 64 p.
Proof.
  unfold virt_to_phys, phys_to_virt, sub64, add64, wrap.
  rewrite Zminus_mod_idemp_l. f_equal. lia.
Qed.

(** The address of the [i]-th byte of an object is translated like its base. *)
Lemma virt_to_phys_offset p i :
  virt_to_phys (add64 (phys_to_virt p) i) = wrap 64 (p + i).
Proof.
  unfold virt_to_phys, phys_to_virt, sub64, add64, wrap.
  rewrite Zminus_mod_idemp_l.
  replace ((p + PHYS_VIRT_OFFSET) mod 2 ^ 64 + i - PHYS_VIRT_OFFSET)
    with ((p + PHYS_VIRT_OFFSET) mod 2 ^ 64 + (i - PHYS_VIRT_OFFSET)) by lia.
  rewrite Zplus_mod_idemp_l. f_equal. lia.
Qed.
End Translate.

Definition align_down (addr : Z) : Z := Z.land addr (not64 (PAGE_SIZE - 1)).
Definition align_up (addr : Z) : Z :=
  Z.land (sub64 (add64 addr PAGE_SIZE) 1) (not64 (PAGE_SIZE - 1)).
Definition page_offset (addr : Z) : Z := Z.land addr (PAGE_SIZE - 1).
Definition is_aligned (addr : Z) : bool := page_offset addr =? 0.
Definition page_count (size : Z) : Z := align_up size / PAGE_SIZE.

(** ** [PageSize] *)
Inductive PageSize : Type := Size4K | Size2M | Size1G.

#[export] Instance PageSize_eq_dec : EqDecision PageSize.
Proof. solve_decision. Defined.

(** The discriminants, [self as usize]. *)
Definition page_bytes (s : PageSize) : Z :=
  match s with
  | Size4K => 0x1000
  | Size2M => 0x200000
  | Size1G => 0x40000000
  end.

Module PageSize.
Definition page_offset (s : PageSize) (addr : Z) : Z := Z.land addr (page_bytes s - 1).
Definition is_aligned (s : PageSize) (addr : Z) : bool := page_offset s addr =? 0.
Definition align_down (s : PageSize) (addr : Z) : Z := Z.land addr (not64 (page_bytes s - 1)).
Definition is_huge (s : PageSize) : bool :=
  match s with Size1G | Size2M => true | Size4K => false end.
End PageSize.

(** ** Arithmetic meaning of the bit tricks *)
Definition page_log (s : PageSize) : Z :=
  match s with Size4K => 12 | Size2M => 21 | Size1G => 30 end.

Lemma page_bytes_log s : page_bytes s = 2 ^ page_log s.
Proof. by destruct s. Qed.

Lemma page_bytes_pos s : 0 < page_bytes s.
Proof. by destruct s. Qed.

(** Every page size divides the 48-bit address space and is a multiple of 4K. *)
Lemma page_bytes_4k s : (PAGE_SIZE | page_bytes s).
Proof. apply Z.mod_divide; [done|]. by destruct s. Qed.

Lemma page_bytes_space s : (page_bytes s | 2 ^ 48).
Proof. apply Z.mod_divide; [by destruct s|]. by destruct s. Qed.

Lemma land_ones_mod a n : 0 <= n -> Z.land a (2 ^ n - 1) = a mod 2 ^ n.
Proof. intros. rewrite <- Z.land_ones by done. by rewrite Z.ones_equiv. Qed.

Lemma land_not_ones a n :
  in_range 64 a -> 0 <= n <= 64 -> Z.land a (not64 (2 ^ n - 1)) = a - a mod 2 ^ n.
Proof.
  intros Ha Hn. unfold not64.
  replace (2 ^ n - 1) with (Z.ones n) by (rewrite Z.ones_equiv; lia).
  transitivity (Z.shiftl (Z.shiftr a n) n).
  - apply Z.bits_inj'. intros i Hi. autorewrite with rvm_bits.
    replace (i - n + n) with i by lia.
    destruct (Z.ltb_spec i 64).
    + split_cmp; simpl; try lia; by rewrite ?andb_true_r, ?andb_false_r.
    + rewrite (testbit_small a 64 i) by (unfold in_range in Ha; lia).
      by rewrite !andb_false_r.
  - rewrite Z.shiftl_mul_pow2, Z.shiftr_div_pow2 by lia.
    pose proof (Z.div_mod a (2 ^ n)). lia.
Qed.

Lemma page_offset_mod a : page_offset a = a mod PAGE_SIZE.
Proof. apply (land_ones_mod a 12). lia. Qed.

Lemma align_down_mod a : in_range 64 a -> align_down a = a - a mod PAGE_SIZE.
Proof. intros. apply (land_not_ones a 12); [done|lia]. Qed.

Lemma is_aligned_mod a : is_aligned a = true <-> a mod PAGE_SIZE = 0.
Proof. unfold is_aligned. by rewrite page_offset_mod, Z.eqb_eq. Qed.

Lemma ps_page_offset_mod s a : PageSize.page_offset s a = a mod page_bytes s.
Proof.
  unfold PageSize.page_offset. rewrite page_bytes_log. apply land_ones_mod. by destruct s.
Qed.

Lemma ps_is_aligned_mod s a : PageSize.is_aligned s a = true <-> a mod page_bytes s = 0.
Proof. unfold PageSize.is_aligned. by rewrite ps_page_offset_mod, Z.eqb_eq. Qed.

Lemma ps_align_down_mod s a :
  in_range 64 a -> PageSize.align_down s a = a - a mod page_bytes s.
Proof.
  intros. unfold PageSize.align_down. rewrite page_bytes_log.
  apply land_not_ones; [done|]. by destruct s.
Qed.

Lemma align_up_mod a :
  0 <= a <= 2 ^ 64 - PAGE_SIZE ->
  align_up a = (a + (PAGE_SIZE - 1)) - (a + (PAGE_SIZE - 1)) mod PAGE_SIZE.
Proof.
  intros Ha. unfold PAGE_SIZE in *. unfold align_up.
  replace (sub64 (add64 a PAGE_SIZE) 1) with (a + (0x1000 - 1)).
  - apply (land_not_ones _ 12); unfold in_range; lia.
  - unfold sub64, add64, wrap, PAGE_SIZE. rewrite Zminus_mod_idemp_l.
    rewrite Z.mod_small; lia.
Qed.
