(* ===== verification/PhysMem.v ===== *)
(** * Physical memory

    The memory the hypervisor reads and writes through the linear map: a finite
    map from physical addresses of 8-byte words to [u64] values (a word that was
    never written holds some value, 0 here: the map is arbitrary in every
    theorem). A Rust reference to a page-table entry is a virtual address; it is
    read and written at the physical address [virt_to_phys] gives. *)

From S2P Require Import Prelude Addr.

Definition mem_get (m : gmap Z Z) (a : Z) : Z := default 0 (m !! a).
Definition mem_set (m : gmap Z Z) (a v : Z) : gmap Z Z := <[a := v]> m.

(** [core::ptr::write_bytes] over [n] words from the physical address [a];
    [word] is the repeated byte. *)
Fixpoint fill_words (m : gmap Z Z) (a : Z) (word : Z) (n : nat) : gmap Z Z :=
  match n with
  | O => m
  | S n' => fill_words (mem_set m a word) (a + 8) word n'
  end.

Definition repeat_byte (byte : Z) : Z := byte * 0x0101010101010101.

Definition write_bytes (m : gmap Z Z) (paddr byte size : Z) : gmap Z Z :=
  fill_words m paddr (repeat_byte byte) (Z.to_nat (size / 8)).

Lemma mem_get_set m a v x : mem_get (mem_set m a v) x = if x =? a then v else mem_get m x.
Proof.
  unfold mem_get, mem_set. destruct (Z.eqb_spec x a) as [->|].
  - by rewrite lookup_insert_eq.
  - by rewrite lookup_insert_ne by done.
Qed.

Lemma mem_get_set_eq m a v : mem_get (mem_set m a v) a = v.
Proof. by rewrite mem_get_set, Z.eqb_refl. Qed.

Lemma mem_get_set_ne m a v x : x <> a -> mem_get (mem_set m a v) x = mem_get m x.
Proof. intros. rewrite mem_get_set. by destruct (Z.eqb_spec x a). Qed.

Lemma fill_words_inside m a w n k :
  0 <= k < Z.of_nat n -> mem_get (fill_words m a w n) (a + 8 * k) = w.
Proof.
  revert m a k. induction n as [|n IH]; intros m a k Hk; [lia|]. simpl.
  destruct (Z.eqb_spec k 0) as [->|].
  - assert (forall n m a x, x < a -> mem_get (fill_words m a w n) x = mem_get m x) as Hlt.
    { clear. induction n as [|n IH]; intros m a x Hx; simpl; [done|].
      rewrite IH by lia. apply mem_get_set_ne. lia. }
    rewrite Hlt by lia. rewrite Z.mul_0_r, Z.add_0_r. apply mem_get_set_eq.
  - replace (a + 8 * k) with (a + 8 + 8 * (k - 1)) by lia. apply IH. lia.
Qed.

Lemma fill_words_outside m a w n x :
  x < a \/ a + 8 * Z.of_nat n <= x -> mem_get (fill_words m a w n) x = mem_get m x.
Proof.
  revert m a. induction n as [|n IH]; intros m a Hx; simpl; [done|].
  rewrite IH by lia. apply mem_get_set_ne. lia.
Qed.

(** A zeroed 4K frame. *)
Lemma write_bytes_page m p k :
  0 <= k < 512 -> mem_get (write_bytes m p 0 PAGE_SIZE) (p + 8 * k) = 0.
Proof. intros Hk. unfold write_bytes. apply fill_words_inside. done. Qed.

Lemma write_bytes_outside m p b x :
  x < p \/ p + PAGE_SIZE <= x -> mem_get (write_bytes m p b PAGE_SIZE) x = mem_get m x.
Proof.
  intros Hx. unfold write_bytes. apply fill_words_outside.
  replace (8 * Z.of_nat (Z.to_nat (PAGE_SIZE / 8))) with PAGE_SIZE by done. done.
Qed.
