(* ===== verification/Frame.v ===== *)
(** * Physical frames

    [src/src/memory/frame.rs]: the frame allocator over the bitmap allocator,
    and [Frame] with its constructors, accessors and destructor. The global
    [FRAME_ALLOCATOR] and the memory are the [Machine] state. Locking
    [FRAME_ALLOCATOR] makes each operation atomic. *)

From S2P Require Import Prelude Crates HvError Addr PhysMem.

Record FrameAllocator {A : Type} : Type := mkFrameAllocator {
  base : Z;
  inner : A;
}.
Arguments FrameAllocator A : clear implicits.
Arguments mkFrameAllocator {A} _ _.

Record Frame : Type := mkFrame {
  start_paddr : Z;
  frame_count : Z;
}.

#[export] Instance Frame_eq_dec : EqDecision Frame.
Proof. solve_decision. Defined.

(** The state shared by all components: memory and the frame allocator. *)
Record Machine {A : Type} : Type := mkMachine {
  pm : gmap Z Z;
  fa : FrameAllocator A;
}.
Arguments Machine A : clear implicits.
Arguments mkMachine {A} _ _.

Section Frame.
Context {A : Type} {ba : BitAlloc A}.

(** ** [FrameAllocator] *)
Definition fa_empty : FrameAllocator A := mkFrameAllocator 0 ba_default.

Definition fa_init (s : FrameAllocator A) (base size : Z) : FrameAllocator A :=
  let page_count := align_up size / PAGE_SIZE in
  mkFrameAllocator (align_up base) (ba_insert (inner s) 0 page_count).

Definition fa_alloc (s : FrameAllocator A) : option Z * FrameAllocator A :=
  let '(o, a) := ba_alloc (inner s) in
  ((fun idx => add64 (mul64 idx PAGE_SIZE) (base s)) <$> o, mkFrameAllocator (base s) a).

Definition fa_alloc_contiguous (s : FrameAllocator A) (frame_count align_log2 : Z)
  : option Z * FrameAllocator A :=
  let '(o, a) := ba_alloc_contiguous (inner s) frame_count align_log2 in
  ((fun idx => add64 (mul64 idx PAGE_SIZE) (base s)) <$> o, mkFrameAllocator (base s) a).

Definition fa_dealloc (s : FrameAllocator A) (target : Z) : FrameAllocator A :=
  mkFrameAllocator (base s) (ba_dealloc (inner s) (sub64 target (base s) / PAGE_SIZE)).

Definition fa_dealloc_contiguous (s : FrameAllocator A) (target frame_count : Z)
  : FrameAllocator A :=
  let start_idx := sub64 target (base s) / PAGE_SIZE in
  mkFrameAllocator (base s) (foldl ba_dealloc (inner s) (seqZ start_idx frame_count)).

(** ** [Frame] *)
Definition with_fa (f : FrameAllocator A) (s : Machine A) : Machine A := mkMachine (pm s) f.

Definition Frame_new : M (Machine A) HvErrorNum Frame := fun s =>
  let '(o, f) := fa_alloc (fa s) in
  (ok_or ENOMEM ((fun p => mkFrame p 1) <$> o), with_fa f s).

Definition Frame_new_contiguous (frame_count align_log2 : Z) : M (Machine A) HvErrorNum Frame :=
  fun s =>
  let '(o, f) := fa_alloc_contiguous (fa s) frame_count align_log2 in
  (ok_or ENOMEM ((fun p => mkFrame p frame_count) <$> o), with_fa f s).

Definition Frame_from_paddr {E} (p : Z) : M (Machine A) E Frame :=
  assertM (is_aligned p) ;;; ret (mkFrame p 0).

Definition Frame_size (f : Frame) : Z := mul64 (frame_count f) PAGE_SIZE.

Section Pointers.
Context {pv : PhysVirt}.

Definition as_mut_ptr (f : Frame) : Z := phys_to_virt (start_paddr f).

(** [fill] writes through [as_mut_ptr]. *)
Definition Frame_fill {E} (f : Frame) (byte : Z) : M (Machine A) E unit :=
  modify (fun s => mkMachine (write_bytes (pm s) (virt_to_phys (as_mut_ptr f)) byte (Frame_size f))
                             (fa s)).
Definition Frame_zero {E} (f : Frame) : M (Machine A) E unit := Frame_fill f 0.

Definition Frame_new_zero : M (Machine A) HvErrorNum Frame :=
  let* f := Frame_new in
  Frame_zero f ;;;
  ret f.
End Pointers.

(** [impl Drop for Frame]. *)
Definition Frame_drop {E} (f : Frame) : M (Machine A) E unit :=
  modify (fun s =>
    if frame_count f =? 0 then s
    else if frame_count f =? 1 then with_fa (fa_dealloc (fa s) (start_paddr f)) s
    else with_fa (fa_dealloc_contiguous (fa s) (start_paddr f) (frame_count f)) s).

(** ** Invariant of the allocator

    The pool is page aligned and lies below 2^52, so that every frame is an
    address a page-table entry can hold. *)
Definition fa_wf (s : FrameAllocator A) : Prop :=
  0 <= base s /\ base s mod PAGE_SIZE = 0 /\ base s + ba_cap * PAGE_SIZE <= 2 ^ 52.

(** The physical address [p] is a free frame of the pool. *)
Definition frame_free (s : FrameAllocator A) (p : Z) : Prop :=
  exists i, ba_test (inner s) i = true /\ p = base s + i * PAGE_SIZE.

Context {laws : BitAllocLaws A}.

Lemma frame_free_paddr s p :
  fa_wf s -> frame_free s p ->
  0 <= p /\ p mod PAGE_SIZE = 0 /\ p + PAGE_SIZE <= 2 ^ 52.
Proof.
  intros (Hb & Ha & Hc) (i & Hi & ->). apply ba_test_bound in Hi.
  unfold PAGE_SIZE in *. split_and!; try lia.
  rewrite Z.mod_add by done. done.
Qed.

Lemma fa_alloc_some s p s' :
  fa_wf s -> fa_alloc s = (Some p, s') ->
  fa_wf s' /\ base s' = base s /\ frame_free s p /\
  forall q, frame_free s' q <-> frame_free s q /\ q <> p.
Proof.
  intros Hwf. unfold fa_alloc. destruct (ba_alloc (inner s)) as [[idx|] a] eqn:Ha; [|done].
  simpl. intros [= <- <-]. apply ba_alloc_some in Ha as [Ht Hj].
  pose proof (ba_test_bound _ _ Ht) as Hb. destruct Hwf as (Hb0 & Hal & Hc).
  assert (add64 (mul64 idx PAGE_SIZE) (base s) = base s + idx * PAGE_SIZE) as ->.
  { unfold add64, mul64, wrap. rewrite Zplus_mod_idemp_l.
    unfold PAGE_SIZE in *. rewrite Z.mod_small; lia. }
  split_and!; simpl; try done.
  - by exists idx.
  - intros q. unfold frame_free; simpl. split.
    + intros (i & Hi & ->). rewrite Hj in Hi. apply andb_true_iff in Hi as [Hne Hi].
      split; [by exists i|]. destruct (Z.eqb_spec i idx); [done|]. unfold PAGE_SIZE. lia.
    + intros [(i & Hi & ->) Hne]. exists i. rewrite Hj, Hi.
      destruct (Z.eqb_spec i idx) as [->|]; done.
Qed.

Lemma fa_alloc_none s s' :
  fa_alloc s = (None, s') -> s' = s /\ forall q, ~ frame_free s q.
Proof.
  unfold fa_alloc. destruct (ba_alloc (inner s)) as [[idx|] a] eqn:Ha; [done|].
  simpl. intros [= <-]. apply ba_alloc_none in Ha as [-> Hn]. split.
  - by destruct s.
  - intros q (i & Hi & _). by rewrite Hn in Hi.
Qed.

Lemma fa_dealloc_spec s p :
  fa_wf s -> ~ frame_free s p -> p mod PAGE_SIZE = 0 ->
  base s <= p < base s + ba_cap * PAGE_SIZE ->
  fa_wf (fa_dealloc s p) /\
  forall q, frame_free (fa_dealloc s p) q <-> frame_free s q \/ q = p.
Proof.
  intros Hwf Hnf Hal Hp. destruct Hwf as (Hb0 & Hba & Hc).
  assert (exists i, p = base s + i * PAGE_SIZE) as [i ->].
  { exists ((p - base s) / PAGE_SIZE).
    assert ((p - base s) mod PAGE_SIZE = 0) by (rewrite Zminus_mod, Hal, Hba; done).
    pose proof (Z.div_mod (p - base s) PAGE_SIZE). unfold PAGE_SIZE in *. lia. }
  assert (sub64 (base s + i * PAGE_SIZE) (base s) / PAGE_SIZE = i) as Hi.
  { unfold sub64, wrap, PAGE_SIZE in *.
    replace (base s + i * 0x1000 - base s) with (i * 0x1000) by lia.
    rewrite Z.mod_small by lia. by apply Z.div_mul. }
  assert (ba_test (inner s) i = false) as Ht.
  { destruct (ba_test (inner s) i) eqn:Ht; [|done]. exfalso. apply Hnf. by exists i. }
  assert (0 <= i < ba_cap) as Hib by (unfold PAGE_SIZE in *; lia).
  split; [done|]. intros q. unfold frame_free, fa_dealloc. simpl. rewrite Hi. split.
  - intros (j & Hj & ->). rewrite ba_test_dealloc in Hj by done.
    apply orb_true_iff in Hj as [->%Z.eqb_eq|Hj]; [by right|]. left. by exists j.
  - intros [(j & Hj & ->) | ->].
    + exists j. rewrite ba_test_dealloc, Hj by done. by rewrite orb_true_r.
    + exists i. rewrite ba_test_dealloc, Z.eqb_refl by done. done.
Qed.

Context {pv : PhysVirt}.

(** [Frame::new_zero] hands out a free frame, zeroed, and touches nothing else. *)
Lemma Frame_new_zero_ok s f s' :
  fa_wf (fa s) -> Frame_new_zero s = (Ok f, s') ->
  let p := start_paddr f in
  fa_wf (fa s') /\ base (fa s') = base (fa s) /\ frame_count f = 1 /\ frame_free (fa s) p /\
  (forall q, frame_free (fa s') q <-> frame_free (fa s) q /\ q <> p) /\
  (forall k, 0 <= k < 512 -> mem_get (pm s') (p + 8 * k) = 0) /\
  (forall x, x < p \/ p + PAGE_SIZE <= x -> mem_get (pm s') x = mem_get (pm s) x).
Proof.
  intros Hwf. unfold Frame_new_zero, bind, Frame_new, Frame_zero, Frame_fill, modify, ret.
  destruct (fa_alloc (fa s)) as [[p|] f'] eqn:Ha; [|done]. simpl. intros [= <- <-]. simpl.
  destruct (fa_alloc_some _ _ _ Hwf Ha) as (Hwf' & Hbase & Hfree & Hq).
  pose proof (frame_free_paddr _ _ Hwf Hfree) as (Hp & _ & Hp').
  unfold as_mut_ptr. simpl. rewrite virt_to_phys_to_virt, wrap_small
    by (unfold in_range, PAGE_SIZE in *; lia).
  split_and!; try done.
  - intros k Hk. by apply write_bytes_page.
  - intros x Hx. by apply write_bytes_outside.
Qed.

Lemma Frame_new_zero_err s e s' :
  Frame_new_zero s = (Err e, s') -> e = ENOMEM /\ s' = s /\ forall q, ~ frame_free (fa s) q.
Proof.
  unfold Frame_new_zero, bind, Frame_new, Frame_zero, Frame_fill, modify, ret.
  destruct (fa_alloc (fa s)) as [[p|] f'] eqn:Ha; [done|]. simpl. intros [= <- <-].
  apply fa_alloc_none in Ha as [-> Hn]. split_and!; [done| |done].
  by destruct s.
Qed.

Lemma Frame_new_zero_total s :
  (exists f s', Frame_new_zero s = (Ok f, s')) \/ Frame_new_zero s = (Err ENOMEM, s).
Proof.
  unfold Frame_new_zero, bind, Frame_new, Frame_zero, Frame_fill, modify, ret.
  destruct (fa_alloc (fa s)) as [[p|] f'] eqn:Ha; simpl; [left; by eauto|right].
  apply fa_alloc_none in Ha as [-> _]. by destruct s.
Qed.
End Frame.
