(* ===== verification/Pte.v ===== *)
(** * Page-table entries

    The [GenericPTE] trait of [src/src/memory/paging.rs] as an operations class
    with its laws, [MemFlags] of [src/src/memory/mod.rs], and the three entry
    formats: [PTEntry] of [src/src/arch/x86_64/page_table.rs] (host and guest
    tables), [EPTEntry] of [src/src/arch/x86_64/intel/ept.rs] (Intel nested
    tables) and [NPTEntry] of [src/src/arch/x86_64/amd/npt.rs] (AMD nested
    tables). An entry is its raw [u64]. *)

From S2P Require Import Prelude Crates Addr.

(** ** [MemFlags], the bits of the [bitflags!] type *)
Definition MEM_READ : Z := Z.shiftl 1 0.
Definition MEM_WRITE : Z := Z.shiftl 1 1.
Definition MEM_EXECUTE : Z := Z.shiftl 1 2.
Definition MEM_DMA : Z := Z.shiftl 1 3.
Definition MEM_IO : Z := Z.shiftl 1 4.
Definition MEM_NO_HUGEPAGES : Z := Z.shiftl 1 8.
Definition MEM_USER : Z := Z.shiftl 1 9.

(** ** The trait

    The setters return [None] where the Rust code panics. *)
Class GenericPTE : Type := {
  pte_addr : Z -> Z;
  pte_flags : Z -> Z;
  pte_is_unused : Z -> bool;
  pte_is_present : Z -> bool;
  pte_is_huge : Z -> bool;
  pte_set_addr : Z -> Z -> option Z;
  pte_set_flags : Z -> Z -> bool -> option Z;
  pte_set_table : Z -> Z -> option Z;
  pte_clear : Z -> Z;
}.

(** A physical address an entry can hold. *)
Definition paddr_ok (p : Z) : Prop := 0 <= p < 2 ^ 52 /\ p mod PAGE_SIZE = 0.

(** What the paging code relies on. [pte_flags_ok] are the flags for which a
    terminal entry is not taken for an unused one, and [pte_view] is what
    [flags] reports for them. *)
Class PTELaws {pte : GenericPTE} : Type := {
  pte_flags_ok : Z -> bool;
  pte_view : Z -> Z;
  law_unused : forall e, pte_is_unused e = (e =? 0);
  law_present_0 : pte_is_present 0 = false;
  law_huge_0 : pte_is_huge 0 = false;
  law_clear : forall e, pte_clear e = 0;
  law_table : forall p, paddr_ok p -> exists e,
    pte_set_table 0 p = Some e /\ in_range 64 e /\ pte_is_present e = true /\
    pte_is_huge e = false /\ pte_addr e = p;
  law_leaf : forall e p fl h, in_range 64 e -> paddr_ok p -> exists e1 e2,
    pte_set_addr e p = Some e1 /\ pte_set_flags e1 fl h = Some e2 /\
    in_range 64 e2 /\ pte_is_huge e2 = h /\ pte_addr e2 = p /\
    (pte_flags_ok fl = true -> e2 <> 0 /\ pte_flags e2 = pte_view fl);
}.

(** ** [PTEntry]: the x86-64 format *)
Definition PHYS_ADDR_MASK : Z := 0x000ffffffffff000.

Module PTEntry.
Section PTEntry.
Context {ptf : X86PageTableFlags}.

(** [impl From<MemFlags> for PTF]. *)
Definition of_mem_flags (f : Z) : Z :=
  if f =? 0 then 0 else
  let ret := PTF_PRESENT in
  let ret := if contains f MEM_WRITE then Z.lor ret PTF_WRITABLE else ret in
  let ret := if negb (contains f MEM_EXECUTE) then Z.lor ret PTF_NO_EXECUTE else ret in
  let ret := if contains f MEM_USER then Z.lor ret PTF_USER_ACCESSIBLE else ret in
  let ret := if contains f MEM_IO then Z.lor ret PTF_NO_CACHE else ret in
  ret.

(** [impl From<PTF> for MemFlags]. *)
Definition to_mem_flags (f : Z) : Z :=
  if f =? 0 then 0 else
  let ret := MEM_READ in
  let ret := if contains f PTF_WRITABLE then Z.lor ret MEM_WRITE else ret in
  let ret := if negb (contains f PTF_NO_EXECUTE) then Z.lor ret MEM_EXECUTE else ret in
  let ret := if contains f PTF_USER_ACCESSIBLE then Z.lor ret MEM_USER else ret in
  let ret := if contains f PTF_NO_CACHE then Z.lor ret MEM_IO else ret in
  ret.

Definition addr (e : Z) : Z := Z.land e PHYS_ADDR_MASK.
Definition flags (e : Z) : Z := to_mem_flags (truncate PTF_all e).
Definition is_unused (e : Z) : bool := e =? 0.
Definition is_present (e : Z) : bool := contains (truncate PTF_all e) PTF_PRESENT.
Definition is_huge (e : Z) : bool := contains (truncate PTF_all e) PTF_HUGE_PAGE.
Definition set_addr (e paddr : Z) : option Z :=
  Some (Z.lor (Z.land e (not64 PHYS_ADDR_MASK)) (Z.land paddr PHYS_ADDR_MASK)).
Definition set_flags (e fl : Z) (huge : bool) : option Z :=
  let flags := of_mem_flags fl in
  let flags := if huge then Z.lor flags PTF_HUGE_PAGE else flags in
  Some (Z.lor (addr e) flags).
Definition set_table (e paddr : Z) : option Z :=
  Some (Z.lor (Z.land paddr PHYS_ADDR_MASK)
              (Z.lor (Z.lor PTF_PRESENT PTF_WRITABLE) PTF_USER_ACCESSIBLE)).
Definition clear (e : Z) : Z := 0.

#[global] Instance ops : GenericPTE := {|
  pte_addr := addr;
  pte_flags := flags;
  pte_is_unused := is_unused;
  pte_is_present := is_present;
  pte_is_huge := is_huge;
  pte_set_addr := set_addr;
  pte_set_flags := set_flags;
  pte_set_table := set_table;
  pte_clear := clear;
|}.

(** *** Bits of an entry *)
Lemma mask_bits : PHYS_ADDR_MASK = Z.shiftl (Z.ones 40) 12.
Proof. done. Qed.

Lemma testbit_truncate x i :
  0 <= i -> Z.testbit (truncate PTF_all x) i = Z.testbit x i && ((i <? 12) || (52 <=? i) && (i <? 64)).
Proof.
  intros Hi. unfold truncate. rewrite ptf_all. autorewrite with rvm_bits.
  split_cmp; simpl; try lia; done.
Qed.

Lemma contains_truncate x n :
  0 <= n < 12 \/ 52 <= n < 64 ->
  contains (truncate PTF_all x) (Z.shiftl 1 n) = Z.testbit x n.
Proof.
  intros Hn. rewrite contains_bit, testbit_truncate by lia.
  split_cmp; simpl; try lia; by rewrite andb_true_r.
Qed.

Lemma is_present_bit e : is_present e = Z.testbit e 0.
Proof. unfold is_present. rewrite ptf_present. apply contains_truncate. lia. Qed.

Lemma pt_is_huge_bit e : is_huge e = Z.testbit e 7.
Proof. unfold is_huge. rewrite ptf_huge. apply contains_truncate. lia. Qed.

Lemma pt_testbit_of_mem_flags f i :
  0 <= i ->
  Z.testbit (of_mem_flags f) i =
    negb (f =? 0) &&
    ((i =? 0) || (i =? 1) && Z.testbit f 1 || (i =? 63) && negb (Z.testbit f 2)
     || (i =? 2) && Z.testbit f 9 || (i =? 4) && Z.testbit f 4).
Proof.
  intros Hi. unfold of_mem_flags, MEM_WRITE, MEM_EXECUTE, MEM_USER, MEM_IO.
  rewrite !contains_bit by lia.
  rewrite ptf_present, ptf_writable, ptf_no_execute, ptf_user, ptf_no_cache.
  destruct (f =? 0); [by rewrite Z.bits_0|].
  rewrite !testbit_lor_if, !testbit_bit by lia. btauto.
Qed.

Lemma testbit_addr e i : 0 <= i -> Z.testbit (addr e) i = Z.testbit e i && ((12 <=? i) && (i <? 52)).
Proof.
  intros Hi. unfold addr. rewrite mask_bits. autorewrite with rvm_bits.
  split_cmp; simpl; try lia; done.
Qed.

Lemma addr_id p : paddr_ok p -> addr p = p.
Proof.
  intros [Hp Ha]. apply Z.bits_inj'. intros i Hi. rewrite testbit_addr by done.
  destruct (Z.leb_spec 52 i).
  - rewrite (testbit_small p 52 i) by lia. done.
  - destruct (Z.leb_spec 12 i), (Z.ltb_spec i 52); simpl; try lia;
      rewrite ?andb_true_r, ?andb_false_r; try done.
    symmetry. rewrite (Z.div_mod p PAGE_SIZE), Ha, Z.add_0_r, Z.mul_comm by done.
    apply (Z.mul_pow2_bits_low _ 12). lia.
Qed.

(** The flag bits an entry built by [set_flags] carries. *)
Lemma set_flags_bits e fl h e' i :
  set_flags e fl h = Some e' -> 0 <= i ->
  Z.testbit e' i = Z.testbit e i && ((12 <=? i) && (i <? 52))
    || Z.testbit (of_mem_flags fl) i || h && (i =? 7).
Proof.
  unfold set_flags. intros [= <-] Hi. destruct h; rewrite ?ptf_huge, !Z.lor_spec, testbit_addr by done.
  - autorewrite with rvm_bits. rewrite orb_assoc. f_equal. split_cmp; simpl; lia || done.
  - by rewrite orb_false_r.
Qed.

Lemma addr_set_flags e fl h e' :
  set_flags e fl h = Some e' -> addr e' = addr e.
Proof.
  intros Hs. apply Z.bits_inj'. intros i Hi.
  rewrite !testbit_addr, (set_flags_bits _ _ _ _ _ Hs), pt_testbit_of_mem_flags by done.
  split_cmp; simpl; try lia; rewrite ?andb_false_r, ?andb_true_r; btauto.
Qed.

Lemma addr_set_addr e p e' : set_addr e p = Some e' -> addr e' = addr p.
Proof.
  unfold set_addr, not64. intros [= <-]. apply Z.bits_inj'. intros i Hi.
  rewrite !testbit_addr by done. rewrite mask_bits. autorewrite with rvm_bits.
  split_cmp; simpl; try lia; rewrite ?andb_false_r, ?andb_true_r, ?orb_false_r; done.
Qed.

Lemma is_huge_set_flags e fl h e' : set_flags e fl h = Some e' -> is_huge e' = h.
Proof.
  intros Hs. rewrite pt_is_huge_bit, (set_flags_bits _ _ _ _ _ Hs), pt_testbit_of_mem_flags by lia.
  simpl. rewrite !andb_false_r. by destruct h.
Qed.

(** What [flags] reports of the [MemFlags] given to [set_flags]. *)
Definition view (f : Z) : Z :=
  Z.lor MEM_READ (Z.land f (Z.lor (Z.lor MEM_WRITE MEM_EXECUTE) (Z.lor MEM_USER MEM_IO))).

Lemma addr_nonneg e : 0 <= addr e.
Proof. unfold addr. apply Z.land_nonneg. by right. Qed.

Lemma of_mem_flags_nonneg f : 0 <= of_mem_flags f.
Proof.
  unfold of_mem_flags. rewrite ptf_present, ptf_writable, ptf_no_execute, ptf_user, ptf_no_cache.
  destruct (f =? 0); [done|].
  by destruct (contains f MEM_WRITE), (contains f MEM_EXECUTE), (contains f MEM_USER), (contains f MEM_IO).
Qed.

Lemma set_flags_range e fl h e' : set_flags e fl h = Some e' -> in_range 64 e'.
Proof.
  intros Hs. apply range_bits; [done| |].
  - revert Hs. unfold set_flags. intros [= <-]. apply Z.lor_nonneg. split; [apply addr_nonneg|].
    destruct h; [|apply of_mem_flags_nonneg]. apply Z.lor_nonneg.
    split; [apply of_mem_flags_nonneg|]. by rewrite ptf_huge.
  - intros i Hi. rewrite (set_flags_bits _ _ _ _ _ Hs), pt_testbit_of_mem_flags by lia.
    split_cmp; simpl; try lia; rewrite ?andb_false_r; done.
Qed.

Lemma testbit_view f i :
  0 <= i -> Z.testbit (view f) i =
    (i =? 0) || Z.testbit f i && ((i =? 1) || (i =? 2) || (i =? 9) || (i =? 4)).
Proof.
  intros Hi. unfold view, MEM_READ, MEM_WRITE, MEM_EXECUTE, MEM_USER, MEM_IO.
  rewrite Z.lor_spec, Z.land_spec, !Z.lor_spec, !testbit_bit by lia. btauto.
Qed.

(** The permission bits survive the trip through an entry. *)
Lemma flags_set_flags e fl h e' :
  set_flags e fl h = Some e' -> fl <> 0 -> flags e' = view fl.
Proof.
  intros Hs Hfl. apply Z.bits_inj'. intros i Hi. rewrite testbit_view by done.
  assert (forall n, 0 <= n < 12 \/ 52 <= n < 64 ->
    Z.testbit e' n = Z.testbit (of_mem_flags fl) n || h && (n =? 7)) as Hb.
  { intros n Hn. rewrite (set_flags_bits _ _ _ _ _ Hs) by lia. f_equal.
    split_cmp; simpl; try lia; by rewrite andb_false_r. }
  unfold flags, to_mem_flags. rewrite ptf_writable, ptf_no_execute, ptf_user, ptf_no_cache.
  rewrite !contains_truncate, !Hb, !pt_testbit_of_mem_flags by lia.
  destruct (Z.eqb_spec (truncate PTF_all e') 0) as [H0|_].
  { exfalso. apply (f_equal (fun z => Z.testbit z 0)) in H0.
    rewrite testbit_truncate, Hb, pt_testbit_of_mem_flags, Z.bits_0 in H0 by lia.
    destruct (Z.eqb_spec fl 0); [lia|]. by simpl in H0. }
  destruct (Z.eqb_spec fl 0); [lia|]. simpl.
  rewrite !andb_false_r, !orb_false_r, negb_involutive.
  rewrite !testbit_lor_if. unfold MEM_READ, MEM_WRITE, MEM_EXECUTE, MEM_USER, MEM_IO.
  rewrite !testbit_bit by lia. split_index i; simpl; btauto.
Qed.

Lemma set_flags_nonzero e fl h e' : set_flags e fl h = Some e' -> fl <> 0 -> e' <> 0.
Proof.
  intros Hs Hfl H0. apply (f_equal (fun z => Z.testbit z 0)) in H0.
  rewrite (set_flags_bits _ _ _ _ _ Hs), pt_testbit_of_mem_flags, Z.bits_0 in H0 by lia.
  destruct (Z.eqb_spec fl 0); [lia|]. simpl in H0. by rewrite andb_false_r in H0.
Qed.

Lemma pt_table_entry p :
  paddr_ok p -> exists e,
    set_table 0 p = Some e /\ in_range 64 e /\ is_present e = true /\
    is_huge e = false /\ addr e = p.
Proof.
  intros Hp. eexists. split; [done|].
  assert (forall i, 0 <= i -> Z.testbit (Z.lor (Z.land p PHYS_ADDR_MASK)
      (Z.lor (Z.lor PTF_PRESENT PTF_WRITABLE) PTF_USER_ACCESSIBLE)) i =
      Z.testbit p i && ((12 <=? i) && (i <? 52)) || (i <? 3)) as Hb.
  { intros i Hi. rewrite ptf_present, ptf_writable, ptf_user, mask_bits.
    autorewrite with rvm_bits. split_cmp; simpl; try lia; done. }
  split_and!.
  - apply range_bits; [done| |].
    + rewrite ptf_present, ptf_writable, ptf_user.
      apply Z.lor_nonneg. split; [|done]. apply Z.land_nonneg. by right.
    + intros i Hi. rewrite Hb by lia. split_cmp; simpl; try lia; by rewrite andb_false_r.
  - rewrite is_present_bit, Hb by lia. by rewrite orb_true_r.
  - rewrite pt_is_huge_bit, Hb by lia. by rewrite andb_false_r.
  - rewrite <- (addr_id p Hp) at 2. apply Z.bits_inj'. intros i Hi.
    rewrite !testbit_addr, Hb by done.
    split_cmp; simpl; try lia; rewrite ?andb_false_r, ?andb_true_r, ?orb_false_r; done.
Qed.

Lemma pt_leaf_entry e p fl h :
  paddr_ok p -> exists e1 e2,
    set_addr e p = Some e1 /\ set_flags e1 fl h = Some e2 /\
    in_range 64 e2 /\ is_huge e2 = h /\ addr e2 = p /\
    (negb (fl =? 0) = true -> e2 <> 0 /\ flags e2 = view fl).
Proof.
  intros Hp.
  destruct (set_addr e p) as [e1|] eqn:Ha; [|done].
  destruct (set_flags e1 fl h) as [e2|] eqn:Hs; [|done].
  exists e1, e2. split_and!; try done.
  - by eapply set_flags_range.
  - by eapply is_huge_set_flags.
  - erewrite addr_set_flags, addr_set_addr by done. by apply addr_id.
  - intros Hfl. destruct (Z.eqb_spec fl 0); [done|].
    split; [by eapply set_flags_nonzero | by eapply flags_set_flags].
Qed.

#[global] Instance laws : PTELaws (pte := ops) := {|
  pte_flags_ok fl := negb (fl =? 0);
  pte_view := view;
  law_unused e := eq_refl;
  law_clear e := eq_refl;
  law_present_0 := is_present_bit 0;
  law_huge_0 := pt_is_huge_bit 0;
  law_table := pt_table_entry;
  law_leaf e p fl h _ := pt_leaf_entry e p fl h;
|}.
End PTEntry.
#[global] Remove Hints ops laws : typeclass_instances.
End PTEntry.

(** ** [EPTEntry]: the Intel extended-page-table format *)
Module EPTEntry.

(** [EPTFlags]. *)
Definition EPT_READ : Z := Z.shiftl 1 0.
Definition EPT_WRITE : Z := Z.shiftl 1 1.
Definition EPT_EXECUTE : Z := Z.shiftl 1 2.
Definition EPT_IGNORE_PAT : Z := Z.shiftl 1 6.
Definition EPT_HUGE_PAGE : Z := Z.shiftl 1 7.
Definition EPT_ACCESSED : Z := Z.shiftl 1 8.
Definition EPT_DIRTY : Z := Z.shiftl 1 9.
Definition EPT_EXECUTE_FOR_USER : Z := Z.shiftl 1 10.
Definition EPT_all : Z :=
  Z.lor EPT_READ (Z.lor EPT_WRITE (Z.lor EPT_EXECUTE (Z.lor EPT_IGNORE_PAT
    (Z.lor EPT_HUGE_PAGE (Z.lor EPT_ACCESSED (Z.lor EPT_DIRTY EPT_EXECUTE_FOR_USER)))))).

Inductive EPTMemType : Type :=
| Uncached | WriteCombining | WriteThrough | WriteProtected | WriteBack.

#[export] Instance EPTMemType_eq_dec : EqDecision EPTMemType.
Proof. solve_decision. Defined.

Definition mem_type_bits (t : EPTMemType) : Z :=
  match t with
  | Uncached => 0
  | WriteCombining => 1
  | WriteThrough => 4
  | WriteProtected => 5
  | WriteBack => 6
  end.

(** [EPTMemType::try_from], generated by [numeric_enum!]. *)
Definition mem_type_try_from (v : Z) : outcome Z EPTMemType :=
  if v =? 0 then Ok Uncached
  else if v =? 1 then Ok WriteCombining
  else if v =? 4 then Ok WriteThrough
  else if v =? 5 then Ok WriteProtected
  else if v =? 6 then Ok WriteBack
  else Err v.

(** [EPTMemType::empty]: [try_from(0).unwrap()]. *)
Definition mem_type_empty : option EPTMemType :=
  match mem_type_try_from 0 with Ok t => Some t | _ => None end.

(** [impl From<MemFlags> for EPTFlags]. *)
Definition of_mem_flags (f : Z) : Z :=
  if f =? 0 then 0 else
  let ret := 0 in
  let ret := if contains f MEM_READ then Z.lor ret EPT_READ else ret in
  let ret := if contains f MEM_WRITE then Z.lor ret EPT_WRITE else ret in
  let ret := if contains f MEM_EXECUTE then Z.lor ret EPT_EXECUTE else ret in
  ret.

(** [impl From<EPTFlags> for MemFlags]. *)
Definition to_mem_flags (f : Z) : Z :=
  let ret := 0 in
  let ret := if contains f EPT_READ then Z.lor ret MEM_READ else ret in
  let ret := if contains f EPT_WRITE then Z.lor ret MEM_WRITE else ret in
  let ret := if contains f EPT_EXECUTE then Z.lor ret MEM_EXECUTE else ret in
  ret.

Section EPTEntry.
Context {bf : BitField}.

Definition ept_flags (e : Z) : Z := truncate EPT_all e.
Definition memory_type (e : Z) : outcome Z EPTMemType :=
  mem_type_try_from (wrap 8 (bf_get_bits e 3 6)).
Definition set_flags_and_mem_type (e flags : Z) (t : EPTMemType) : option Z :=
  match bf_set_bits 64 e 0 12 flags with
  | Some e' => bf_set_bits 64 e' 3 6 (mem_type_bits t)
  | None => None
  end.

Definition addr (e : Z) : Z := wrap 64 (Z.shiftl (bf_get_bits e 12 52) 12).
Definition flags (e : Z) : Z := to_mem_flags (ept_flags e).
Definition is_unused (e : Z) : bool := e =? 0.
Definition is_present (e : Z) : bool := negb (bf_get_bits e 0 3 =? 0).
Definition is_huge (e : Z) : bool := contains (ept_flags e) EPT_HUGE_PAGE.
Definition set_addr (e paddr : Z) : option Z :=
  bf_set_bits 64 e 12 52 (Z.shiftr paddr 12).
Definition set_flags (e fl : Z) (huge : bool) : option Z :=
  let flags := of_mem_flags fl in
  let flags := if huge then Z.lor flags EPT_HUGE_PAGE else flags in
  set_flags_and_mem_type e flags WriteBack.
Definition set_table (e paddr : Z) : option Z :=
  match set_addr e paddr, mem_type_empty with
  | Some e', Some t =>
      set_flags_and_mem_type e' (Z.lor (Z.lor EPT_READ EPT_WRITE) EPT_EXECUTE) t
  | _, _ => None
  end.
Definition clear (e : Z) : Z := 0.

#[global] Instance ops : GenericPTE := {|
  pte_addr := addr;
  pte_flags := flags;
  pte_is_unused := is_unused;
  pte_is_present := is_present;
  pte_is_huge := is_huge;
  pte_set_addr := set_addr;
  pte_set_flags := set_flags;
  pte_set_table := set_table;
  pte_clear := clear;
|}.

(** *** Bits of an entry *)
Lemma ept_testbit_of_mem_flags f i :
  0 <= i -> Z.testbit (of_mem_flags f) i = Z.testbit f i && (i <? 3).
Proof.
  intros Hi. unfold of_mem_flags, MEM_READ, MEM_WRITE, MEM_EXECUTE, EPT_READ, EPT_WRITE, EPT_EXECUTE.
  destruct (Z.eqb_spec f 0) as [->|_]; [by rewrite Z.bits_0|].
  rewrite !contains_bit, !testbit_lor_if, Z.bits_0, !testbit_bit by lia.
  destruct (Z.ltb_spec i 3).
  - assert (i = 0 \/ i = 1 \/ i = 2) as [->|[->| ->]] by lia; simpl; btauto.
  - split_index i; simpl; try lia; btauto.
Qed.

Lemma of_mem_flags_range f : 0 <= of_mem_flags f < 2 ^ 3.
Proof.
  apply range_bits; [done| |].
  - unfold of_mem_flags. destruct (f =? 0); [done|].
    by destruct (contains f MEM_READ), (contains f MEM_WRITE), (contains f MEM_EXECUTE).
  - intros i Hi. rewrite ept_testbit_of_mem_flags by lia.
    destruct (Z.ltb_spec i 3); [lia|]. by rewrite andb_false_r.
Qed.

Lemma mem_type_range t : 0 <= mem_type_bits t < 2 ^ 3.
Proof. by destruct t. Qed.

Lemma set_flags_and_mem_type_spec e fl t :
  in_range 64 e -> 0 <= fl < 2 ^ 12 -> exists e',
    set_flags_and_mem_type e fl t = Some e' /\ in_range 64 e' /\
    forall i, 0 <= i -> Z.testbit e' i =
      if i <? 12 then (if (3 <=? i) && (i <? 6) then Z.testbit (mem_type_bits t) (i - 3)
                       else Z.testbit fl i)
      else Z.testbit e i.
Proof.
  intros He Hfl. unfold set_flags_and_mem_type. pose proof (mem_type_range t).
  rewrite bf_set_bits_ok by (done || apply fits_true; done).
  rewrite bf_set_bits_ok by (try apply set_bits_range; try apply fits_true; done || lia).
  eexists. split_and!; [done| |].
  - repeat apply set_bits_range; done || lia.
  - intros i Hi. rewrite !testbit_set_bits by (try apply set_bits_range; done || lia).
    split_cmp; simpl; try lia; f_equal; lia.
Qed.

Lemma set_addr_spec e p :
  in_range 64 e -> paddr_ok p -> exists e',
    set_addr e p = Some e' /\ in_range 64 e' /\
    forall i, 0 <= i -> Z.testbit e' i =
      if (12 <=? i) && (i <? 52) then Z.testbit p i else Z.testbit e i.
Proof.
  intros He [Hp _]. unfold set_addr.
  assert (0 <= Z.shiftr p 12 < 2 ^ (52 - 12)).
  { rewrite Z.shiftr_div_pow2 by lia. split; [apply Z.div_pos; lia|].
    apply Z.div_lt_upper_bound; lia. }
  rewrite bf_set_bits_ok by (done || apply fits_true; done).
  eexists. split_and!; [done|apply set_bits_range; done || lia|].
  intros i Hi. rewrite testbit_set_bits by (done || lia). rewrite testbit_shiftr.
  split_cmp; simpl; try lia; f_equal; lia || done.
Qed.

Lemma ept_is_huge_bit e : is_huge e = Z.testbit e 7.
Proof.
  unfold is_huge, ept_flags, truncate, EPT_HUGE_PAGE. rewrite contains_bit by lia.
  rewrite Z.land_spec. change (Z.testbit EPT_all 7) with true. by rewrite andb_true_r.
Qed.

(** [addr] is determined by the address bits. *)
Lemma addr_bits e p :
  in_range 64 e -> paddr_ok p ->
  (forall i, 12 <= i < 52 -> Z.testbit e i = Z.testbit p i) -> addr e = p.
Proof.
  intros He [Hp Ha] Hb. unfold addr. rewrite bf_get_bits_spec by (unfold in_range in He; lia).
  unfold wrap. apply Z.bits_inj'. intros i Hi.
  rewrite testbit_mod, testbit_shiftl by lia.
  destruct (Z.leb_spec 0 (i - 12)).
  - rewrite testbit_get_bits by lia. replace (i - 12 + 12) with i by lia.
    destruct (Z.ltb_spec (i - 12) (52 - 12)); split_cmp; simpl; try lia.
    + apply Hb. lia.
    + symmetry. apply (testbit_small p 52); lia.
    + symmetry. apply (testbit_small p 52); lia.
  - rewrite Z.testbit_neg_r, !andb_false_r by lia. symmetry.
    rewrite (Z.div_mod p PAGE_SIZE), Ha, Z.add_0_r, Z.mul_comm by done.
    apply (Z.mul_pow2_bits_low _ 12). lia.
Qed.

Definition view (f : Z) : Z := Z.land f (Z.lor (Z.lor MEM_READ MEM_WRITE) MEM_EXECUTE).

Lemma flags_bits e f :
  (forall i, 0 <= i < 3 -> Z.testbit e i = Z.testbit f i) -> flags e = view f.
Proof.
  intros Hb. unfold flags, to_mem_flags, ept_flags, truncate, EPT_READ, EPT_WRITE, EPT_EXECUTE.
  rewrite !contains_bit, !Z.land_spec by lia.
  change (Z.testbit EPT_all 0) with true. change (Z.testbit EPT_all 1) with true.
  change (Z.testbit EPT_all 2) with true. rewrite !andb_true_r, !Hb by lia.
  apply Z.bits_inj'. intros i Hi. unfold view, MEM_READ, MEM_WRITE, MEM_EXECUTE.
  rewrite !testbit_lor_if, Z.bits_0, Z.land_spec, !Z.lor_spec, !testbit_bit by lia.
  split_index i; simpl; btauto.
Qed.

Lemma ept_table_entry p :
  paddr_ok p -> exists e,
    set_table 0 p = Some e /\ in_range 64 e /\ is_present e = true /\
    is_huge e = false /\ addr e = p.
Proof.
  intros Hp. unfold set_table.
  destruct (set_addr_spec 0 p) as (e1 & -> & He1 & Hb1); [done|done|]. simpl.
  destruct (set_flags_and_mem_type_spec e1 (Z.lor (Z.lor EPT_READ EPT_WRITE) EPT_EXECUTE) Uncached)
    as (e2 & -> & He2 & Hb2); [done|done|].
  exists e2. split_and!; try done.
  - unfold is_present. rewrite bf_get_bits_spec by (unfold in_range in He2; lia).
    destruct (Z.eqb_spec (get_bits e2 0 3) 0) as [H0|]; [|done].
    apply (f_equal (fun z => Z.testbit z 0)) in H0.
    by rewrite testbit_get_bits, Hb2, Z.bits_0 in H0 by lia.
  - by rewrite ept_is_huge_bit, Hb2 by lia.
  - apply addr_bits; [done..|]. intros i Hi. rewrite Hb2, Hb1 by lia.
    split_cmp; simpl; lia || done.
Qed.

Lemma ept_leaf_entry e p fl h :
  in_range 64 e -> paddr_ok p -> exists e1 e2,
    set_addr e p = Some e1 /\ set_flags e1 fl h = Some e2 /\
    in_range 64 e2 /\ is_huge e2 = h /\ addr e2 = p /\
    (true = true -> e2 <> 0 /\ flags e2 = view fl).
Proof.
  intros He Hp. pose proof (of_mem_flags_range fl) as Hr.
  destruct (set_addr_spec e p) as (e1 & -> & He1 & Hb1); [done|done|]. exists e1.
  set (f := if h then Z.lor (of_mem_flags fl) EPT_HUGE_PAGE else of_mem_flags fl).
  assert (0 <= f < 2 ^ 12) as Hf.
  { apply range_bits; [done| |].
    - unfold f. destruct h; [apply Z.lor_nonneg; split|]; done || lia.
    - intros i Hi. unfold f, EPT_HUGE_PAGE. rewrite testbit_lor_if, testbit_bit by lia.
      rewrite (testbit_small (of_mem_flags fl) 3) by lia. split_index i; [lia|]. by rewrite andb_false_r. }
  destruct (set_flags_and_mem_type_spec e1 f WriteBack) as (e2 & Hs & He2 & Hb2); [done|done|].
  assert (forall i, Z.testbit f i = Z.testbit (of_mem_flags fl) i || h && (i =? 7)) as Hbf.
  { intros i. unfold f, EPT_HUGE_PAGE. by rewrite testbit_lor_if, testbit_bit by lia. }
  exists e2. split_and!; try done.
  - rewrite ept_is_huge_bit, Hb2 by lia. change (Z.testbit f 7 = h).
    rewrite Hbf, (testbit_small (of_mem_flags fl) 3) by lia. by rewrite andb_true_r.
  - apply addr_bits; [done..|]. intros i Hi. rewrite Hb2, Hb1 by lia.
    split_cmp; simpl; lia || done.
  - intros _. split.
    + intros ->. specialize (Hb2 4). rewrite Z.bits_0 in Hb2. by discriminate Hb2.
    + apply flags_bits. intros i Hi. rewrite Hb2 by lia.
      rewrite Hbf, ept_testbit_of_mem_flags by lia.
      split_cmp; simpl; try lia; by rewrite ?andb_true_r, ?andb_false_r, ?orb_false_r.
Qed.

Lemma is_present_0 : is_present 0 = false.
Proof. unfold is_present. by rewrite bf_get_bits_spec by lia. Qed.

#[global] Instance laws : PTELaws (pte := ops) := {|
  pte_flags_ok fl := true;
  pte_view := view;
  law_unused e := eq_refl;
  law_clear e := eq_refl;
  law_present_0 := is_present_0;
  law_huge_0 := ept_is_huge_bit 0;
  law_table := ept_table_entry;
  law_leaf := ept_leaf_entry;
|}.
End EPTEntry.
#[global] Remove Hints ops laws : typeclass_instances.
End EPTEntry.

(** ** [NPTEntry]: the AMD nested format, a wrapped [PTEntry] *)
Module NPTEntry.
Section NPTEntry.
Context {ptf : X86PageTableFlags}.

Definition addr (e : Z) : Z := PTEntry.addr e.
Definition flags (e : Z) : Z := PTEntry.flags e.
Definition is_unused (e : Z) : bool := PTEntry.is_unused e.
Definition is_present (e : Z) : bool := PTEntry.is_present e.
Definition is_huge (e : Z) : bool := PTEntry.is_huge e.
Definition set_addr (e paddr : Z) : option Z := PTEntry.set_addr e paddr.
Definition set_flags (e fl : Z) (huge : bool) : option Z :=
  PTEntry.set_flags e (Z.lor fl MEM_USER) huge.
Definition set_table (e paddr : Z) : option Z := PTEntry.set_table e paddr.
Definition clear (e : Z) : Z := PTEntry.clear e.

#[global] Instance ops : GenericPTE := {|
  pte_addr := addr;
  pte_flags := flags;
  pte_is_unused := is_unused;
  pte_is_present := is_present;
  pte_is_huge := is_huge;
  pte_set_addr := set_addr;
  pte_set_flags := set_flags;
  pte_set_table := set_table;
  pte_clear := clear;
|}.

Lemma lor_user_nonzero fl : negb (Z.lor fl MEM_USER =? 0) = true.
Proof.
  destruct (Z.eqb_spec (Z.lor fl MEM_USER) 0) as [H0|]; [|done].
  by apply Z.lor_eq_0_iff in H0 as [_ ?].
Qed.

Lemma npt_leaf_entry e p fl h :
  paddr_ok p -> exists e1 e2,
    set_addr e p = Some e1 /\ set_flags e1 fl h = Some e2 /\
    in_range 64 e2 /\ is_huge e2 = h /\ addr e2 = p /\
    (true = true -> e2 <> 0 /\ flags e2 = PTEntry.view (Z.lor fl MEM_USER)).
Proof.
  intros Hp. destruct (PTEntry.pt_leaf_entry e p (Z.lor fl MEM_USER) h Hp)
    as (e1 & e2 & ? & ? & ? & ? & ? & Hfl).
  exists e1, e2. split_and!; try done. intros _. apply Hfl, lor_user_nonzero.
Qed.

#[global] Instance laws : PTELaws (pte := ops) := {|
  pte_flags_ok fl := true;
  pte_view fl := PTEntry.view (Z.lor fl MEM_USER);
  law_unused e := eq_refl;
  law_clear e := eq_refl;
  law_present_0 := PTEntry.is_present_bit 0;
  law_huge_0 := PTEntry.pt_is_huge_bit 0;
  law_table := PTEntry.pt_table_entry;
  law_leaf e p fl h _ := npt_leaf_entry e p fl h;
|}.
End NPTEntry.
#[global] Remove Hints ops laws : typeclass_instances.
End NPTEntry.
