(* ===== verification/Region.v ===== *)
(** * Memory regions and mappers

    [Mapper] of [src/src/memory/mapper.rs] and [MemoryRegion] of
    [src/src/memory/mm.rs]. *)

From S2P Require Import Prelude Addr Pte.

Inductive Mapper : Type :=
| Offset (off : Z)
| Fixed (paddr : Z).

#[export] Instance Mapper_eq_dec : EqDecision Mapper.
Proof. solve_decision. Defined.

Definition map_fn (mp : Mapper) (vaddr : Z) : Z :=
  match mp with
  | Offset off => sub64 vaddr off
  | Fixed paddr => paddr
  end.

Record MemoryRegion : Type := mkRegion {
  start : Z;
  rsize : Z;
  rflags : Z;
  mapper : Mapper;
}.

#[export] Instance MemoryRegion_eq_dec : EqDecision MemoryRegion.
Proof. solve_decision. Defined.

(** [MemoryRegion::new]. *)
Definition MemoryRegion_new (start size flags : Z) (mapper : Mapper) : MemoryRegion :=
  let start := align_down start in
  let size := align_up size in
  mkRegion start size flags mapper.

(** [MemoryRegion::new_with_offset_mapper]. *)
Definition new_with_offset_mapper (start_vaddr start_paddr size flags : Z) : MemoryRegion :=
  let start_vaddr := align_down start_vaddr in
  let start_paddr := align_down start_paddr in
  let phys_virt_offset := sub64 start_vaddr start_paddr in
  MemoryRegion_new start_vaddr size flags (Offset phys_virt_offset).

(** [MemoryRegion::new_with_empty_mapper]; [EMPTY_PAGE] is the virtual address
    of the static empty page. *)
Definition new_with_empty_mapper {pv : PhysVirt} (EMPTY_PAGE start size flags : Z) : MemoryRegion :=
  let paddr := virt_to_phys EMPTY_PAGE in
  MemoryRegion_new start size flags (Fixed paddr).

Definition is_overlap_with (r other : MemoryRegion) : bool :=
  let p0 := start r in
  let p1 := add64 p0 (rsize r) in
  let p2 := start other in
  let p3 := add64 p2 (rsize other) in
  negb ((p1 <=? p2) || (p3 <=? p0)).

(** ** Well-formed regions: what [MemoryRegion::new] builds

    Page aligned, and not wrapping around the address space. *)
Definition region_ok (r : MemoryRegion) : Prop :=
  0 <= start r /\ start r mod PAGE_SIZE = 0 /\
  0 <= rsize r /\ rsize r mod PAGE_SIZE = 0 /\ start r + rsize r < 2 ^ 64.

Definition in_region (r : MemoryRegion) (v : Z) : Prop := start r <= v < start r + rsize r.

Lemma MemoryRegion_new_ok s n fl mp :
  0 <= s -> 0 <= n -> s + n + PAGE_SIZE < 2 ^ 64 -> region_ok (MemoryRegion_new s n fl mp).
Proof.
  intros Hs Hn Hb. unfold MemoryRegion_new, region_ok. simpl. unfold PAGE_SIZE in *.
  rewrite align_down_mod by (unfold in_range; lia).
  rewrite align_up_mod by (unfold PAGE_SIZE; lia). unfold PAGE_SIZE.
  pose proof (Z.mod_pos_bound s 4096). pose proof (Z.mod_pos_bound (n + (4096 - 1)) 4096).
  pose proof (Z.mod_le s 4096). pose proof (Z.mod_le (n + (4096 - 1)) 4096).
  split_and!; try lia.
  - rewrite Zminus_mod, Z.mod_mod, Z.sub_diag by done. done.
  - rewrite Zminus_mod, Z.mod_mod, Z.sub_diag by done. done.
Qed.

(** The two tests of [is_overlap_with] decide intersection. *)
Lemma is_overlap_spec r o :
  region_ok r -> region_ok o -> 0 < rsize r -> 0 < rsize o ->
  is_overlap_with r o = true <-> exists v, in_region r v /\ in_region o v.
Proof.
  intros (? & _ & ? & _ & ?) (? & _ & ? & _ & ?) Hr Ho.
  unfold is_overlap_with, add64. rewrite !wrap_small by (unfold in_range; lia).
  rewrite negb_true_iff, orb_false_iff, !Z.leb_gt. unfold in_region. split.
  - intros [? ?]. exists (Z.max (start r) (start o)). lia.
  - intros (v & ? & ?). lia.
Qed.
