(* ===== verification/BTree.v ===== *)
(** * Ordered maps

    What [src/src/memory/mm.rs] uses of [BTreeMap]: an association list in the
    order of its keys, with [insert], [get] (the [Entry] of a key), [remove],
    [range(..k).last()] and [range(k..).next()]. *)

From S2P Require Import Prelude.

Section BTree.
Context {V : Type}.

Fixpoint bt_insert (k : Z) (v : V) (l : list (Z * V)) : list (Z * V) :=
  match l with
  | [] => [(k, v)]
  | (k', v') :: l' =>
      if k <? k' then (k, v) :: l
      else if k =? k' then (k, v) :: l'
      else (k', v') :: bt_insert k v l'
  end.

Fixpoint bt_get (k : Z) (l : list (Z * V)) : option V :=
  match l with
  | [] => None
  | (k', v) :: l' => if k =? k' then Some v else bt_get k l'
  end.

Definition bt_remove (k : Z) (l : list (Z * V)) : list (Z * V) := filter (fun e => fst e <> k) l.
Definition bt_values (l : list (Z * V)) : list V := snd <$> l.
Definition bt_last_before (k : Z) (l : list (Z * V)) : option (Z * V) := last (filter (fun e => fst e < k) l).
Definition bt_first_from (k : Z) (l : list (Z * V)) : option (Z * V) := head (filter (fun e => k <= fst e) l).

(** Strictly increasing keys. *)
Fixpoint bt_sorted (l : list (Z * V)) : Prop :=
  match l with
  | [] => True
  | e :: l' => (forall e', e' ∈ l' -> fst e < fst e') /\ bt_sorted l'
  end.

Lemma bt_sorted_filter (P : Z * V -> Prop) `{!forall x, Decision (P x)} (l : list (Z * V)) :
  bt_sorted l -> bt_sorted (filter P l).
Proof.
  induction l as [|e l IH]; intros Hs; [done|]. destruct Hs as [Hlt Hs].
  destruct (decide (P e)).
  - rewrite filter_cons_True by done. split; [|by apply IH].
    intros e' [_ He']%list_elem_of_filter. by apply Hlt.
  - rewrite filter_cons_False by done. by apply IH.
Qed.

Lemma bt_key_unique k v v' l : bt_sorted l -> (k, v) ∈ l -> (k, v') ∈ l -> v = v'.
Proof.
  induction l as [|e l IH]; intros Hs H1 H2; [by apply elem_of_nil in H1|]. destruct Hs as [Hlt Hs].
  apply elem_of_cons in H1 as [<-|H1], H2 as [H2|H2].
  - congruence.
  - apply Hlt in H2. simpl in H2. lia.
  - subst e. apply Hlt in H1. simpl in H1. lia.
  - eauto.
Qed.

Lemma bt_get_elem k v l : bt_sorted l -> bt_get k l = Some v <-> (k, v) ∈ l.
Proof.
  induction l as [|[k' v'] l IH]; intros Hs; simpl.
  { rewrite elem_of_nil. split; done. }
  destruct Hs as [Hlt Hs]. rewrite elem_of_cons. destruct (Z.eqb_spec k k') as [->|Hne].
  - split; [intros [= ->]; by left|]. intros [[= ->]|Hin]; [done|].
    apply Hlt in Hin. simpl in Hin. lia.
  - rewrite IH by done. split; [by right|]. by intros [[= -> ->]|?].
Qed.

Lemma bt_elem_insert k v l e :
  bt_sorted l -> e ∈ bt_insert k v l <-> e = (k, v) \/ fst e <> k /\ e ∈ l.
Proof.
  induction l as [|[k' v'] l IH]; intros Hs; simpl.
  { rewrite list_elem_of_singleton, elem_of_nil. tauto. }
  destruct Hs as [Hlt Hs]. simpl in Hlt.
  assert (forall e', e' ∈ l -> k' < fst e') as Hlt' by done.
  destruct (Z.ltb_spec k k') as [Hk|Hk]; [|destruct (Z.eqb_spec k k') as [->|Hne]].
  - rewrite !elem_of_cons. split; [|tauto]. intros [->|[->|He]]; simpl; [by left|right; split; [lia|auto]|].
    right. split; [apply Hlt' in He; lia|auto].
  - rewrite !elem_of_cons. split.
    + intros [->|He]; [by left|right]. split; [apply Hlt' in He; lia|auto].
    + intros [->|[Hne [->|He]]]; [by left|done|by right].
  - rewrite !elem_of_cons, IH by done. split.
    + intros [->|[->|[? ?]]]; [right; split; [simpl; lia|auto]|by left|tauto].
    + tauto.
Qed.

Lemma bt_sorted_insert k v l : bt_sorted l -> bt_sorted (bt_insert k v l).
Proof.
  induction l as [|[k' v'] l IH]; intros Hs; simpl.
  { split; [|done]. intros e' H%elem_of_nil. done. }
  destruct Hs as [Hlt Hs]. simpl in Hlt.
  destruct (Z.ltb_spec k k') as [Hk|Hk]; [|destruct (Z.eqb_spec k k') as [->|Hne]]; simpl.
  - split_and!; [|done..]. intros e' [->|He]%elem_of_cons; simpl; [lia|]. apply Hlt in He. lia.
  - split; done.
  - split; [|auto]. intros e' [->|[_ He]]%bt_elem_insert; [simpl; lia|auto|done].
Qed.

Lemma bt_elem_remove k l e : e ∈ bt_remove k l <-> fst e <> k /\ e ∈ l.
Proof. unfold bt_remove. by rewrite list_elem_of_filter. Qed.

Lemma bt_sorted_last l e e' : bt_sorted l -> last l = Some e -> e' ∈ l -> fst e' <= fst e.
Proof.
  induction l as [|x l IH]; intros Hs Hl He'; [by apply elem_of_nil in He'|].
  destruct Hs as [Hlt Hs]. destruct l as [|y l].
  - simpl in Hl. injection Hl as ->. apply list_elem_of_singleton in He' as ->. lia.
  - rewrite last_cons_cons in Hl. apply elem_of_cons in He' as [->|He']; [|auto].
    assert (e ∈ y :: l) as He by (by apply last_Some_elem_of). apply Hlt in He. lia.
Qed.

Lemma bt_last_before_some k l e :
  bt_sorted l -> bt_last_before k l = Some e ->
  e ∈ l /\ fst e < k /\ forall e', e' ∈ l -> fst e' < k -> fst e' <= fst e.
Proof.
  unfold bt_last_before. intros Hs Hl.
  assert (e ∈ filter (fun e => fst e < k) l) as [Hk He]%list_elem_of_filter by (by apply last_Some_elem_of).
  split_and!; try done. intros e' He' Hk'.
  eapply bt_sorted_last; [by apply (bt_sorted_filter (fun e => fst e < k))|done|].
  by apply list_elem_of_filter.
Qed.

Lemma bt_last_before_none k l e : bt_last_before k l = None -> e ∈ l -> k <= fst e.
Proof.
  unfold bt_last_before. intros Hn%last_None He. destruct (decide (fst e < k)); [|lia].
  assert (e ∈ filter (fun e => fst e < k) l) as H by (by apply list_elem_of_filter).
  rewrite Hn in H. by apply elem_of_nil in H.
Qed.

Lemma bt_first_from_some k l e :
  bt_sorted l -> bt_first_from k l = Some e ->
  e ∈ l /\ k <= fst e /\ forall e', e' ∈ l -> k <= fst e' -> fst e <= fst e'.
Proof.
  unfold bt_first_from. intros Hs Hh.
  pose proof (bt_sorted_filter (fun e => k <= fst e) l Hs) as Hf.
  destruct (filter (fun e => k <= fst e) l) as [|x fl] eqn:Hfl; [done|]. simpl in Hh. injection Hh as ->.
  assert (e ∈ filter (fun e => k <= fst e) l) as [Hk He]%list_elem_of_filter
    by (rewrite Hfl; apply elem_of_cons; by left).
  split_and!; try done. intros e' He' Hk'.
  assert (e' ∈ filter (fun e => k <= fst e) l) as H by (by apply list_elem_of_filter).
  rewrite Hfl in H. apply elem_of_cons in H as [->|H]; [lia|]. apply Hf in H. lia.
Qed.

Lemma bt_first_from_none k l e : bt_first_from k l = None -> e ∈ l -> fst e < k.
Proof.
  unfold bt_first_from. intros Hn He. destruct (decide (k <= fst e)); [|lia].
  assert (e ∈ filter (fun e => k <= fst e) l) as H by (by apply list_elem_of_filter).
  destruct (filter (fun e => k <= fst e) l); [by apply elem_of_nil in H|done].
Qed.
End BTree.
