(* ===== verification/Paging.v ===== *)
(** * Four-level page tables: the operations

    [src/src/memory/paging.rs]: [Level4PageTableImmut] (address query),
    [Level4PageTableUnlocked] (mapping, unmapping and updating single pages,
    creating intermediate tables) and [Level4PageTable] (regions), over an
    entry format given by [GenericPTE]. A reference to an entry is its virtual
    address in the linear map. [clonee_lock] serialises the operations on a
    table and its clones: each operation is one atomic step. *)

From S2P Require Import Prelude Crates HvError Addr PhysMem Frame Pte Region.

(** [Page<VA>]. *)
Record Page : Type := mkPage { vaddr : Z; size : PageSize }.

Definition ENTRY_COUNT : Z := 512.

Definition p4_index (vaddr : Z) : Z := Z.land (Z.shiftr vaddr (12 + 27)) (ENTRY_COUNT - 1).
Definition p3_index (vaddr : Z) : Z := Z.land (Z.shiftr vaddr (12 + 18)) (ENTRY_COUNT - 1).
Definition p2_index (vaddr : Z) : Z := Z.land (Z.shiftr vaddr (12 + 9)) (ENTRY_COUNT - 1).
Definition p1_index (vaddr : Z) : Z := Z.land (Z.shiftr vaddr 12) (ENTRY_COUNT - 1).

(** [Level4PageTableUnlocked]: the root frame of [inner] and the frames of the
    intermediate tables. *)
Record Level4PageTable : Type := mkPT {
  root : Frame;
  intrm_tables : list Frame;
}.

Definition root_paddr (pt : Level4PageTable) : Z := start_paddr (root pt).

Section Paging.
Context {A : Type} {ba : BitAlloc A} {pv : PhysVirt} {pte : GenericPTE}.

Definition St : Type := (Machine A * Level4PageTable)%type.

(** [table_of], [table_of_mut]: the slice of 512 entries at a physical address;
    [entry_ptr] is the address of one of them. *)
Definition table_of (paddr : Z) : Z := phys_to_virt paddr.
Definition entry_ptr (table idx : Z) : Z := add64 table (8 * idx).
Definition deref (m : gmap Z Z) (ptr : Z) : Z := mem_get m (virt_to_phys ptr).

Definition next_table_mut (entry : Z) : outcome PagingError Z :=
  if negb (pte_is_present entry) then Err NotMapped
  else if pte_is_huge entry then Err MappedToHugePage
  else Ok (table_of (pte_addr entry)).

(** ** [Level4PageTableImmut] *)
Definition get_entry_mut (m : gmap Z Z) (root_paddr vaddr : Z)
  : outcome PagingError (Z * PageSize) :=
  let p4 := table_of root_paddr in
  let p4e := entry_ptr p4 (p4_index vaddr) in
  match next_table_mut (deref m p4e) with
  | Ok p3 =>
      let p3e := entry_ptr p3 (p3_index vaddr) in
      if pte_is_huge (deref m p3e) then Ok (p3e, Size1G) else
      match next_table_mut (deref m p3e) with
      | Ok p2 =>
          let p2e := entry_ptr p2 (p2_index vaddr) in
          if pte_is_huge (deref m p2e) then Ok (p2e, Size2M) else
          match next_table_mut (deref m p2e) with
          | Ok p1 =>
              let p1e := entry_ptr p1 (p1_index vaddr) in
              Ok (p1e, Size4K)
          | Err e => Err e | Panic => Panic | Diverge => Diverge
          end
      | Err e => Err e | Panic => Panic | Diverge => Diverge
      end
  | Err e => Err e | Panic => Panic | Diverge => Diverge
  end.

Definition query_at (m : gmap Z Z) (root_paddr vaddr : Z)
  : outcome PagingError (Z * Z * PageSize) :=
  match get_entry_mut m root_paddr vaddr with
  | Ok (entry, size) =>
      if pte_is_unused (deref m entry) then Err NotMapped else
      let off := PageSize.page_offset size vaddr in
      Ok (add64 (pte_addr (deref m entry)) off, pte_flags (deref m entry), size)
  | Err e => Err e | Panic => Panic | Diverge => Diverge
  end.

(** ** State access *)
Definition on_machine {E B} (c : M (Machine A) E B) : M St E B :=
  zoom fst (fun m s => (m, snd s)) c.

Definition unwrap_pte {E} (o : option Z) : M St E Z :=
  match o with Some v => ret v | None => panic end.

Definition read_pte {E} (ptr : Z) : M St E Z := gets (fun s => deref (pm (fst s)) ptr).
Definition write_pte {E} (ptr v : Z) : M St E unit :=
  modify (fun s => (mkMachine (mem_set (pm (fst s)) (virt_to_phys ptr) v) (fa (fst s)), snd s)).

(** [entry.set_*(...)] through a [&mut PTE]. *)
Definition modify_pte {E} (ptr : Z) (f : Z -> option Z) : M St E unit :=
  let* e := read_pte ptr in
  let* e' := unwrap_pte (f e) in
  write_pte ptr e'.

(** ** [Level4PageTableUnlocked] *)
Definition pt_new {E} : M (Machine A) E Level4PageTable :=
  let* f := expect Frame_new_zero in
  ret (mkPT f []).

Definition pt_from_root {E} (root_paddr : Z) : M (Machine A) E Level4PageTable :=
  let* f := Frame_from_paddr root_paddr in
  ret (mkPT f []).

Definition alloc_intrm_table : M St HvErrorNum Z :=
  let* frame := on_machine Frame_new_zero in
  let paddr := start_paddr frame in
  modify (fun s => (fst s, mkPT (root (snd s)) (intrm_tables (snd s) ++ [frame]))) ;;;
  ret paddr.

Definition next_table_mut_or_create (entry : Z) : M St PagingError Z :=
  let* e := read_pte entry in
  if pte_is_unused e then
    let* paddr := map_errM (fun _ => NoMemory) alloc_intrm_table in
    modify_pte entry (fun e => pte_set_table e paddr) ;;;
    ret (table_of paddr)
  else of_outcome (next_table_mut e).

Definition get_entry_mut_or_create (page : Page) : M St PagingError Z :=
  let vaddr := vaddr page in
  let* root := gets (fun s => root_paddr (snd s)) in
  let p4 := table_of root in
  let p4e := entry_ptr p4 (p4_index vaddr) in
  let* p3 := next_table_mut_or_create p4e in
  let p3e := entry_ptr p3 (p3_index vaddr) in
  if decide (size page = Size1G) then ret p3e else
  let* p2 := next_table_mut_or_create p3e in
  let p2e := entry_ptr p2 (p2_index vaddr) in
  if decide (size page = Size2M) then ret p2e else
  let* p1 := next_table_mut_or_create p2e in
  let p1e := entry_ptr p1 (p1_index vaddr) in
  ret p1e.

Definition map_page (page : Page) (paddr flags : Z) : M St PagingError unit :=
  let* entry := get_entry_mut_or_create page in
  let* e := read_pte entry in
  if negb (pte_is_unused e) then throw AlreadyMapped else
  modify_pte entry (fun e => pte_set_addr e (PageSize.align_down (size page) paddr)) ;;;
  modify_pte entry (fun e => pte_set_flags e flags (PageSize.is_huge (size page))).

Definition get_entry (vaddr : Z) : M St PagingError (Z * PageSize) := fun s =>
  (get_entry_mut (pm (fst s)) (root_paddr (snd s)) vaddr, s).

Definition unmap_page (vaddr : Z) : M St PagingError (Z * PageSize) :=
  let* (entry, size) := get_entry vaddr in
  let* e := read_pte entry in
  if pte_is_unused e then throw NotMapped else
  let paddr := pte_addr e in
  write_pte entry (pte_clear e) ;;;
  ret (paddr, size).

Definition update (vaddr paddr flags : Z) : M St PagingError PageSize :=
  let* (entry, size) := get_entry vaddr in
  modify_pte entry (fun e => pte_set_addr e paddr) ;;;
  modify_pte entry (fun e => pte_set_flags e flags (PageSize.is_huge size)) ;;;
  ret size.

(** ** [Level4PageTable] *)
Definition query (vaddr : Z) : M St PagingError (Z * Z * PageSize) := fun s =>
  (query_at (pm (fst s)) (root_paddr (snd s)) vaddr, s).

(** The choice of the page size in the loop of [map]. *)
Definition choose_size (r : MemoryRegion) (vaddr paddr size : Z) : PageSize :=
  if PageSize.is_aligned Size1G vaddr && PageSize.is_aligned Size1G paddr
     && (page_bytes Size1G <=? size) && negb (contains (rflags r) MEM_NO_HUGEPAGES)
  then Size1G
  else if PageSize.is_aligned Size2M vaddr && PageSize.is_aligned Size2M paddr
     && (page_bytes Size2M <=? size) && negb (contains (rflags r) MEM_NO_HUGEPAGES)
  then Size2M
  else Size4K.

Fixpoint map_loop (fuel : nat) (r : MemoryRegion) (vaddr size : Z) : M St HvErrorNum unit :=
  if negb (0 <? size) then ret tt else
  match fuel with
  | O => diverge
  | S fuel' =>
      let paddr := map_fn (mapper r) vaddr in
      let page_size := choose_size r vaddr paddr size in
      let page := mkPage vaddr page_size in
      map_errM hv_error_of_paging (map_page page paddr (rflags r)) ;;;
      map_loop fuel' r (add64 vaddr (page_bytes page_size)) (sub64 size (page_bytes page_size))
  end.

(** Every iteration consumes at least 4K of an aligned size. *)
Definition loop_fuel (size : Z) : nat := Z.to_nat (size / PAGE_SIZE).

Definition map (r : MemoryRegion) : M St HvErrorNum unit :=
  map_loop (loop_fuel (rsize r)) r (start r) (rsize r).

Fixpoint unmap_loop (fuel : nat) (vaddr size : Z) : M St HvErrorNum unit :=
  if negb (0 <? size) then ret tt else
  match fuel with
  | O => diverge
  | S fuel' =>
      let* (_, page_size) := map_errM hv_error_of_paging (unmap_page vaddr) in
      assertM (PageSize.is_aligned page_size vaddr) ;;;
      assertM (page_bytes page_size <=? size) ;;;
      unmap_loop fuel' (add64 vaddr (page_bytes page_size)) (sub64 size (page_bytes page_size))
  end.

Definition unmap (r : MemoryRegion) : M St HvErrorNum unit :=
  unmap_loop (loop_fuel (rsize r)) (start r) (rsize r).

(** [clone_from] and [clone]: a new root with the 512 top-level entries of [src]. *)
Definition copy_entries (m : gmap Z Z) (dst src : Z) : gmap Z Z :=
  foldl (fun m' i => mem_set m' (virt_to_phys (entry_ptr dst i)) (deref m (entry_ptr src i)))
        m (seqZ 0 ENTRY_COUNT).

Definition clone_from {E} (src_root : Z) : M (Machine A) E Level4PageTable :=
  let* pt := pt_new in
  let dst_p4_table := table_of (root_paddr pt) in
  let src_p4_table := table_of src_root in
  modify (fun s => mkMachine (copy_entries (pm s) dst_p4_table src_p4_table) (fa s)) ;;;
  ret pt.

Definition clone {E} (pt : Level4PageTable) : M (Machine A) E Level4PageTable :=
  clone_from (root_paddr pt).

(** Dropping the table drops the root frame, then the intermediate frames. *)
Definition pt_drop {E} (pt : Level4PageTable) : M (Machine A) E unit :=
  foldl (fun c f => c ;;; Frame_drop f) (Frame_drop (root pt)) (intrm_tables pt).
End Paging.
