(* ===== verification/PagingInv.v ===== *)
(** * Four-level page tables: the invariant

    The tables of a page table form a tree. Its shape is a ghost map [tab] from
    positions to table frames: the table of level [L] that translates the
    addresses with prefix [p] (the bits above the 9 bits the table indexes) is
    at [tab !! (L, p)]. [pt_inv] says that memory holds this tree, that distinct
    positions have distinct frames and that none of them is free. From it we get
    a declarative reading of the table, [lookup], that the operations of
    [Paging] are proved against. *)

From S2P Require Import Prelude Crates HvError Addr PhysMem Frame Pte Region Paging.

(** ** Positions *)

(** The prefix that selects the table of level [L], and the index in it. *)
Definition prefix (L v : Z) : Z := (v mod 2 ^ 48) / 2 ^ (12 + 9 * L).
Definition idx (L v : Z) : Z := (v / 2 ^ (12 + 9 * (L - 1))) mod 512.

(** The level whose entries map pages of a size. *)
Definition level (s : PageSize) : Z :=
  match s with Size4K => 1 | Size2M => 2 | Size1G => 3 end.

(** The page of size [s] that contains [v], in the 48-bit address space. *)
Definition page_of (s : PageSize) (v : Z) : Z := (v mod 2 ^ 48) / page_bytes s.

Lemma idx_range L v : 0 <= idx L v < 512.
Proof. apply Z.mod_pos_bound. lia. Qed.

Lemma index_land v n : 0 <= n -> Z.land (Z.shiftr v n) (ENTRY_COUNT - 1) = (v / 2 ^ n) mod 512.
Proof.
  intros. change (ENTRY_COUNT - 1) with (Z.ones 9). rewrite Z.land_ones, Z.shiftr_div_pow2 by lia. done.
Qed.

Lemma p4_index_idx v : p4_index v = idx 4 v.
Proof. by apply index_land. Qed.
Lemma p3_index_idx v : p3_index v = idx 3 v.
Proof. by apply index_land. Qed.
Lemma p2_index_idx v : p2_index v = idx 2 v.
Proof. by apply index_land. Qed.
Lemma p1_index_idx v : p1_index v = idx 1 v.
Proof. by apply index_land. Qed.

Lemma prefix_root v : prefix 4 v = 0.
Proof. unfold prefix. apply Z.div_small. pose proof (Z.mod_pos_bound v (2 ^ 48)). lia. Qed.

(** The next prefix is the prefix extended by the index. *)
Lemma prefix_next L v : 1 <= L <= 4 -> prefix (L - 1) v = prefix L v * 512 + idx L v.
Proof.
  intros HL. unfold prefix, idx.
  assert (L = 1 \/ L = 2 \/ L = 3 \/ L = 4) as [-> | [-> | [-> | ->]]] by lia; simpl; euclid.
Qed.

Lemma prefix_parent L v : 1 <= L <= 3 -> prefix L v / 512 = prefix (L + 1) v.
Proof.
  intros. rewrite <- (Z.add_simpl_r L 1) at 1. rewrite prefix_next by lia.
  rewrite Z.div_add_l by done. rewrite Z.div_small by apply idx_range. lia.
Qed.

Lemma page_of_prefix s v : page_of s v = prefix (level s - 1) v.
Proof. by destruct s. Qed.

Lemma page_of_key s v w :
  page_of s v = page_of s w <-> prefix (level s) v = prefix (level s) w /\ idx (level s) v = idx (level s) w.
Proof.
  rewrite !page_of_prefix, !prefix_next by (destruct s; simpl; lia).
  pose proof (idx_range (level s) v). pose proof (idx_range (level s) w). lia.
Qed.

(** ** Reading the tree *)
Definition ent (m : gmap Z Z) (t i : Z) : Z := mem_get m (t + 8 * i).

(** A frame that can hold a table. *)
Definition table_ok (t : Z) : Prop := 0 <= t /\ t mod PAGE_SIZE = 0 /\ t + PAGE_SIZE <= 2 ^ 52.

Lemma table_ok_paddr t : table_ok t -> paddr_ok t.
Proof. intros (? & ? & ?). unfold paddr_ok, PAGE_SIZE in *. lia. Qed.

(** Entries of different tables, or with different indices, are disjoint. *)
Lemma slot_inj t i t' i' :
  table_ok t -> table_ok t' -> 0 <= i < 512 -> 0 <= i' < 512 ->
  t + 8 * i = t' + 8 * i' -> t = t' /\ i = i'.
Proof.
  intros (_ & Ht & _) (_ & Ht' & _) Hi Hi' Heq.
  destruct (aligned_block_eq PAGE_SIZE t t' (8 * i) (8 * i')); unfold PAGE_SIZE in *; lia || done.
Qed.

Section Tree.
Context {pte : GenericPTE}.

(** A terminal entry of the level of [s]. *)
Definition leaf_test (s : PageSize) (e : Z) : bool :=
  if PageSize.is_huge s then pte_is_huge e else negb (e =? 0).

Definition leaf_at (tab : gmap (Z * Z) Z) (m : gmap Z Z) (s : PageSize) (v : Z) : option Z :=
  match tab !! (level s, prefix (level s) v) with
  | Some t =>
      let e := ent m t (idx (level s) v) in
      if leaf_test s e then Some e else None
  | None => None
  end.

(** The terminal entry that translates [v], with its page size. *)
Definition lookup (tab : gmap (Z * Z) Z) (m : gmap Z Z) (v : Z) : option (Z * PageSize) :=
  match leaf_at tab m Size1G v with
  | Some e => Some (e, Size1G)
  | None =>
      match leaf_at tab m Size2M v with
      | Some e => Some (e, Size2M)
      | None => (fun e => (e, Size4K)) <$> leaf_at tab m Size4K v
      end
  end.

Definition is_table (e c : Z) : Prop :=
  pte_is_present e = true /\ pte_is_huge e = false /\ pte_addr e = c.

(** An entry with no table below it. *)
Definition is_end (L e : Z) : Prop := e = 0 \/ pte_is_huge e = true /\ L <= 3.

Context {A : Type} {ba : BitAlloc A}.

Record pt_inv (tab : gmap (Z * Z) Z) (root : Z) (m : gmap Z Z) (f : FrameAllocator A) : Prop := {
  inv_root : tab !! (4, 0) = Some root;
  inv_level : forall L p t, tab !! (L, p) = Some t -> 1 <= L <= 4;
  inv_table_ok : forall k t, tab !! k = Some t -> table_ok t;
  inv_not_free : forall k t, tab !! k = Some t -> ~ frame_free f t;
  inv_inj : forall k k' t, tab !! k = Some t -> tab !! k' = Some t -> k = k';
  inv_range : forall k t i, tab !! k = Some t -> 0 <= i < 512 -> in_range 64 (ent m t i);
  inv_parent : forall L p c, tab !! (L, p) = Some c -> L < 4 ->
    exists t, tab !! (L + 1, p / 512) = Some t;
  inv_child : forall L p t i c, tab !! (L, p) = Some t -> 2 <= L -> 0 <= i < 512 ->
    tab !! (L - 1, p * 512 + i) = Some c -> is_table (ent m t i) c;
  inv_end : forall L p t i, tab !! (L, p) = Some t -> 2 <= L -> 0 <= i < 512 ->
    tab !! (L - 1, p * 512 + i) = None -> is_end L (ent m t i);
}.

Section Facts.
Context {laws : PTELaws} {pv : PhysVirt}.
Context {tab : gmap (Z * Z) Z} {root : Z} {m : gmap Z Z} {f : FrameAllocator A}.
Hypothesis INV : pt_inv tab root m f.

(** A reference to an entry of the tree reads the entry. *)
Lemma entry_paddr t i :
  table_ok t -> 0 <= i < 512 -> virt_to_phys (entry_ptr (table_of t) i) = t + 8 * i.
Proof.
  intros (? & ? & ?) Hi. unfold entry_ptr, table_of. rewrite virt_to_phys_offset.
  apply wrap_small. unfold in_range, PAGE_SIZE in *. lia.
Qed.

Lemma deref_ent t i m' :
  table_ok t -> 0 <= i < 512 -> deref m' (entry_ptr (table_of t) i) = ent m' t i.
Proof. intros. unfold deref. by rewrite entry_paddr by done. Qed.

Lemma next_table_is_table e c : is_table e c -> next_table_mut e = Ok (table_of c).
Proof. intros (Hp & Hh & <-). unfold next_table_mut. by rewrite Hp, Hh. Qed.

Lemma child_at L v t c :
  2 <= L -> tab !! (L, prefix L v) = Some t -> tab !! (L - 1, prefix (L - 1) v) = Some c ->
  is_table (ent m t (idx L v)) c.
Proof.
  intros HL Ht Hc. pose proof (inv_level _ _ _ _ INV _ _ _ Ht).
  rewrite prefix_next in Hc by lia. eapply inv_child; eauto using idx_range.
Qed.

Lemma end_at L v t :
  2 <= L -> tab !! (L, prefix L v) = Some t -> tab !! (L - 1, prefix (L - 1) v) = None ->
  is_end L (ent m t (idx L v)).
Proof.
  intros HL Ht Hc. pose proof (inv_level _ _ _ _ INV _ _ _ Ht).
  rewrite prefix_next in Hc by lia. eapply inv_end; eauto using idx_range.
Qed.

Lemma parent_at L v c :
  1 <= L <= 3 -> tab !! (L, prefix L v) = Some c -> exists t, tab !! (L + 1, prefix (L + 1) v) = Some t.
Proof.
  intros HL Hc. destruct (inv_parent _ _ _ _ INV _ _ _ Hc) as [t Ht]; [lia|].
  rewrite prefix_parent in Ht by lia. eauto.
Qed.

(** No terminal entry of a larger size above an existing table. *)
Lemma no_leaf_above s v c :
  s <> Size4K -> tab !! (level s - 1, prefix (level s - 1) v) = Some c -> leaf_at tab m s v = None.
Proof.
  intros Hs Hc. unfold leaf_at.
  destruct (tab !! (level s, prefix (level s) v)) as [t|] eqn:Ht; [|done].
  destruct (child_at (level s) v t c) as (_ & Hh & _); [by destruct s|done..|].
  unfold leaf_test. destruct s; [done| |]; simpl in *; by rewrite Hh.
Qed.

Lemma no_table_below L v :
  2 <= L <= 4 -> tab !! (L, prefix L v) = None -> tab !! (L - 1, prefix (L - 1) v) = None.
Proof.
  intros HL Hn. destruct (tab !! (L - 1, _)) as [c|] eqn:Hc; [|done]. exfalso.
  apply parent_at in Hc as [t Ht]; [|lia]. by rewrite Z.sub_add, Hn in Ht.
Qed.

(** At most one page size translates [v]: what [lookup] finds once the entry
    of size [s] has been reached. *)
Lemma lookup_at s v t :
  tab !! (level s, prefix (level s) v) = Some t ->
  (s <> Size4K -> tab !! (level s - 1, prefix (level s - 1) v) = None) ->
  let e := ent m t (idx (level s) v) in
  lookup tab m v = if leaf_test s e then Some (e, s) else None.
Proof.
  intros Ht Hn e. unfold lookup.
  assert (leaf_at tab m s v = if leaf_test s e then Some e else None) as Hl.
  { unfold leaf_at. by rewrite Ht. }
  destruct s; simpl in Ht.
  - destruct (parent_at 1 v t) as [t2 Ht2]; [lia|done|].
    rewrite (no_leaf_above Size1G v t2), (no_leaf_above Size2M v t), Hl by done.
    by destruct (leaf_test Size4K e).
  - rewrite (no_leaf_above Size1G v t), Hl by done.
    destruct (leaf_test Size2M e); [done|].
    assert (tab !! (1, prefix 1 v) = None) as H1 by (apply Hn; done).
    unfold leaf_at. simpl. by rewrite H1.
  - rewrite Hl. destruct (leaf_test Size1G e); [done|].
    assert (tab !! (2, prefix 2 v) = None) as H2 by (apply Hn; done).
    pose proof (no_table_below 2 v ltac:(lia) H2) as H1. change (2 - 1) with 1 in H1.
    unfold leaf_at. simpl. by rewrite H2, H1.
Qed.

(** ** [get_entry_mut] follows the tree *)

(** The entry [get_entry_mut] returns is the one of some size [s] on the path
    of [v], and nothing lies below it; otherwise the address is not mapped. *)
Lemma get_entry_spec v :
  (exists s t, tab !! (level s, prefix (level s) v) = Some t /\
     (s <> Size4K -> tab !! (level s - 1, prefix (level s - 1) v) = None /\
        pte_is_huge (ent m t (idx (level s) v)) = true) /\
     get_entry_mut m root v = Ok (entry_ptr (table_of t) (idx (level s) v), s)) \/
  (get_entry_mut m root v = Err NotMapped /\ lookup tab m v = None).
Proof.
  unfold get_entry_mut. rewrite p4_index_idx, p3_index_idx, p2_index_idx, p1_index_idx.
  pose proof (inv_root _ _ _ _ INV) as H4. rewrite <- (prefix_root v) in H4.
  pose proof (inv_table_ok _ _ _ _ INV) as Hok.
  assert (forall L t, tab !! (L, prefix L v) = Some t ->
     deref m (entry_ptr (table_of t) (idx L v)) = ent m t (idx L v)) as Hd.
  { intros L t Ht. apply deref_ent; eauto using idx_range. }
  assert (forall e, e = 0 -> next_table_mut e = Err NotMapped) as Hz.
  { intros e ->. unfold next_table_mut. by rewrite law_present_0. }
  rewrite (Hd 4) by done.
  destruct (tab !! (3, prefix 3 v)) as [t3|] eqn:H3.
  2:{ destruct (end_at 4 v root) as [H0|[_ ?]]; [lia|done|done| |lia].
      rewrite Hz by done. right. split; [done|].
      pose proof (no_table_below 3 v ltac:(lia) H3) as H2. change (3 - 1) with 2 in H2.
      pose proof (no_table_below 2 v ltac:(lia) H2) as H1. change (2 - 1) with 1 in H1.
      unfold lookup, leaf_at. simpl. by rewrite H3, H2, H1. }
  rewrite (next_table_is_table _ t3) by (by apply (child_at 4)).
  rewrite (Hd 3) by done.
  destruct (tab !! (2, prefix 2 v)) as [t2|] eqn:H2.
  2:{ pose proof (lookup_at Size1G v t3 H3 (fun _ => H2)) as Hl. simpl in Hl.
      destruct (end_at 3 v t3) as [H0|[Hh _]]; [lia|done|done| |].
      - rewrite Hz, H0, law_huge_0 by done. right. split; [done|].
        rewrite Hl, H0. unfold leaf_test. simpl. by rewrite law_huge_0.
      - rewrite Hh. left. by exists Size1G, t3. }
  destruct (child_at 3 v t3 t2) as (Hp3 & Hh3 & Ha3); [lia|done|done|].
  rewrite Hh3, (next_table_is_table _ t2) by done.
  rewrite (Hd 2) by done.
  destruct (tab !! (1, prefix 1 v)) as [t1|] eqn:H1.
  2:{ pose proof (lookup_at Size2M v t2 H2 (fun _ => H1)) as Hl. simpl in Hl.
      destruct (end_at 2 v t2) as [H0|[Hh _]]; [lia|done|done| |].
      - rewrite Hz, H0, law_huge_0 by done. right. split; [done|].
        rewrite Hl, H0. unfold leaf_test. simpl. by rewrite law_huge_0.
      - rewrite Hh. left. by exists Size2M, t2. }
  destruct (child_at 2 v t2 t1) as (Hp2 & Hh2 & Ha2); [lia|done|done|].
  rewrite Hh2, (next_table_is_table _ t1) by done.
  left. by exists Size4K, t1.
Qed.

(** [query] reads the table through [lookup]. *)
Lemma query_lookup v :
  query_at m root v =
    match lookup tab m v with
    | Some (e, s) => Ok (add64 (pte_addr e) (v mod page_bytes s), pte_flags e, s)
    | None => Err NotMapped
    end.
Proof.
  unfold query_at. destruct (get_entry_spec v) as [(s & t & Ht & Hs & ->) | [-> ->]]; [|done].
  rewrite (lookup_at s v t Ht) by (intros; by apply Hs).
  rewrite deref_ent by eauto using idx_range, inv_table_ok.
  rewrite law_unused, ps_page_offset_mod. unfold leaf_test.
  destruct s; simpl; [by destruct (Z.eqb_spec (ent m t (idx 1 v)) 0)|..];
    (destruct Hs as [_ Hh]; [done|]; simpl in Hh; rewrite Hh);
    match goal with |- context [?e =? 0] => destruct (Z.eqb_spec e 0) as [H0|]; [|done] end;
    by rewrite H0, law_huge_0 in Hh.
Qed.

(** ** Writing a terminal entry *)

(** The entry of size [s] of [v], with no table below it. *)
Definition end_slot (s : PageSize) (v t : Z) : Prop :=
  tab !! (level s, prefix (level s) v) = Some t /\
  (s <> Size4K -> tab !! (level s - 1, prefix (level s - 1) v) = None).

Lemma ent_set_same t i e : ent (mem_set m (t + 8 * i) e) t i = e.
Proof. apply mem_get_set_eq. Qed.

Lemma ent_set_other k k' t t' i i' e :
  tab !! k = Some t -> tab !! k' = Some t' -> 0 <= i < 512 -> 0 <= i' < 512 ->
  (k, i) <> (k', i') -> ent (mem_set m (t + 8 * i) e) t' i' = ent m t' i'.
Proof.
  intros Ht Ht' Hi Hi' Hne. unfold ent. apply mem_get_set_ne. intros Heq.
  destruct (slot_inj t' i' t i) as [-> ->]; eauto using inv_table_ok.
  apply Hne. f_equal. eapply inv_inj; eauto.
Qed.

Lemma write_inv s v t e :
  end_slot s v t -> in_range 64 e -> (s <> Size4K -> e = 0 \/ pte_is_huge e = true) ->
  pt_inv tab root (mem_set m (t + 8 * idx (level s) v) e) f.
Proof.
  intros [Ht Hn] He Hh. pose proof (idx_range (level s) v) as Hi.
  constructor; try apply INV.
  - intros k' t' i' Ht' Hi'.
    destruct (decide ((level s, prefix (level s) v) = k' /\ idx (level s) v = i')) as [[<- <-]|Hne].
    + rewrite Ht in Ht'. injection Ht' as <-. by rewrite ent_set_same.
    + rewrite (ent_set_other _ _ _ _ _ _ _ Ht Ht') by (done || (intros ?; simplify_eq; by apply Hne)).
      eapply inv_range; eauto.
  - intros L p t' i' c Ht' HL Hi' Hc.
    destruct (decide ((level s, prefix (level s) v) = (L, p) /\ idx (level s) v = i')) as [[[= <- <-] <-]|Hne].
    + exfalso. rewrite <- prefix_next in Hc by (destruct s; simpl; lia).
      rewrite Hn in Hc; [done|]. intros ->. simpl in HL. lia.
    + rewrite (ent_set_other _ _ _ _ _ _ _ Ht Ht') by (done || (intros ?; simplify_eq; by apply Hne)).
      eapply inv_child; eauto.
  - intros L p t' i' Ht' HL Hi' Hc.
    destruct (decide ((level s, prefix (level s) v) = (L, p) /\ idx (level s) v = i')) as [[[= <- <-] <-]|Hne].
    + rewrite Ht in Ht'. injection Ht' as <-. rewrite ent_set_same.
      destruct Hh as [->|Hh]; [intros ->; simpl in HL; lia|by left|].
      right. split; [done|]. by destruct s.
    + rewrite (ent_set_other _ _ _ _ _ _ _ Ht Ht') by (done || (intros ?; simplify_eq; by apply Hne)).
      eapply inv_end; eauto.
Qed.

Lemma leaf_at_write s v t e s' w :
  end_slot s v t ->
  leaf_at tab (mem_set m (t + 8 * idx (level s) v) e) s' w =
    if decide (s' = s /\ page_of s v = page_of s w)
    then (if leaf_test s e then Some e else None)
    else leaf_at tab m s' w.
Proof.
  intros [Ht _]. unfold leaf_at.
  destruct (tab !! (level s', prefix (level s') w)) as [t'|] eqn:Ht'.
  - case_decide as Hd.
    + destruct Hd as [-> [Hp Hi]%page_of_key]. rewrite <- Hp, Ht in Ht'. injection Ht' as <-.
      by rewrite <- Hi, ent_set_same.
    + rewrite (ent_set_other _ _ _ _ _ _ _ Ht Ht'); [done|apply idx_range..|].
      intros [= Hl Hp Hi]. apply Hd. assert (s' = s) as -> by (destruct s, s'; done).
      split; [done|]. by apply page_of_key.
  - case_decide as Hd; [|done]. destruct Hd as [-> [Hp _]%page_of_key]. congruence.
Qed.

(** Writing the entry changes the translation of exactly its page. *)
Lemma lookup_write s v t e w :
  end_slot s v t -> in_range 64 e -> (s <> Size4K -> e = 0 \/ pte_is_huge e = true) ->
  lookup tab (mem_set m (t + 8 * idx (level s) v) e) w =
    if decide (page_of s v = page_of s w)
    then (if leaf_test s e then Some (e, s) else None)
    else lookup tab m w.
Proof.
  intros Hs He Hh. case_decide as Hd.
  - assert (leaf_at tab (mem_set m (t + 8 * idx (level s) v) e) s w =
      if leaf_test s e then Some e else None) as Hl.
    { rewrite leaf_at_write by done. by rewrite decide_True by done. }
    assert (forall s', s' <> s -> leaf_at tab m s' w = None) as Hno.
    { destruct Hs as [Ht Hn].
      apply page_of_key in Hd as Hd'. destruct Hd' as [Hp _]. rewrite Hp in Ht.
      rewrite !page_of_prefix in Hd. rewrite Hd in Hn.
      intros s' Hne. destruct s, s'; try done; simpl in *.
      - by apply (no_leaf_above Size2M w t).
      - destruct (parent_at 1 w t) as [t2 Ht2]; [lia|done|].
        by apply (no_leaf_above Size1G w t2).
      - unfold leaf_at. simpl. change (2 - 1) with 1 in Hn. by rewrite Hn.
      - by apply (no_leaf_above Size1G w t).
      - unfold leaf_at. simpl. change (3 - 1) with 2 in Hn.
        pose proof (no_table_below 2 w ltac:(lia) (Hn ltac:(done))) as H1.
        change (2 - 1) with 1 in H1. by rewrite H1.
      - unfold leaf_at. simpl. change (3 - 1) with 2 in Hn. by rewrite Hn. }
    assert (forall s', s' <> s ->
      leaf_at tab (mem_set m (t + 8 * idx (level s) v) e) s' w = None) as Hno'.
    { intros s' Hne. rewrite leaf_at_write by done. rewrite decide_False by (by intros [? _]). by apply Hno. }
    unfold lookup. destruct s;
      rewrite ?(Hno' Size4K), ?(Hno' Size2M), ?(Hno' Size1G), Hl by done;
      by destruct (leaf_test _ e).
  - unfold lookup. rewrite !leaf_at_write by done.
    rewrite !decide_False by (by intros [_ ?]). done.
Qed.

(** ** Adding a table below an unused entry *)
Section Grow.
Context (L p t i c e : Z) (m' : gmap Z Z) (f' : FrameAllocator A).
Hypothesis HL : 2 <= L.
Hypothesis Hi : 0 <= i < 512.
Hypothesis Ht : tab !! (L, p) = Some t.
Hypothesis H0 : ent m t i = 0.
Hypothesis Hc : table_ok c.
Hypothesis Hfree : frame_free f c.
Hypothesis Hfree' : forall q, frame_free f' q <-> frame_free f q /\ q <> c.
Hypothesis Hzero : forall k, 0 <= k < 512 -> ent m' c k = 0.
Hypothesis Hsame : forall x, x < c \/ c + PAGE_SIZE <= x -> mem_get m' x = mem_get m x.
Hypothesis He : is_table e c.
Hypothesis Her : in_range 64 e.

Let key : Z * Z := (L - 1, p * 512 + i).
Let tab' : gmap (Z * Z) Z := <[key := c]> tab.
Let m2 : gmap Z Z := mem_set m' (t + 8 * i) e.

Lemma grow_key_none : tab !! key = None.
Proof.
  destruct (tab !! key) as [c'|] eqn:Hk; [|done]. exfalso.
  destruct (inv_child _ _ _ _ INV _ _ _ _ _ Ht HL Hi Hk) as (Hp & _).
  by rewrite H0, law_present_0 in Hp.
Qed.

Lemma grow_fresh k t' : tab !! k = Some t' -> t' <> c.
Proof. intros Hk ->. by eapply inv_not_free. Qed.

Lemma grow_ent_slot : ent m2 t i = e.
Proof. apply mem_get_set_eq. Qed.

Lemma grow_ent_old k t' i' :
  tab !! k = Some t' -> 0 <= i' < 512 -> (k, i') <> ((L, p), i) -> ent m2 t' i' = ent m t' i'.
Proof.
  intros Hk Hi' Hne. pose proof (grow_fresh _ _ Hk) as Hnc.
  pose proof (inv_table_ok _ _ _ _ INV _ _ Hk) as Hok'.
  unfold ent, m2. rewrite mem_get_set_ne.
  - apply Hsame. destruct (decide (t' + 8 * i' < c \/ c + PAGE_SIZE <= t' + 8 * i')); [done|].
    exfalso. apply Hnc. destruct Hok' as (_ & Ha & _), Hc as (_ & Ha' & _).
    destruct (aligned_block_eq PAGE_SIZE t' c (8 * i') (t' + 8 * i' - c));
      unfold PAGE_SIZE in *; lia || done.
  - intros Heq. destruct (slot_inj t' i' t i) as [-> ->]; eauto using inv_table_ok.
    apply Hne. f_equal. eapply inv_inj; eauto.
Qed.

Lemma grow_ent_new i' : 0 <= i' < 512 -> ent m2 c i' = 0.
Proof.
  intros Hi'. unfold ent, m2. rewrite mem_get_set_ne; [by apply Hzero|].
  intros Heq. destruct (slot_inj c i' t i) as [Hct _]; eauto using inv_table_ok.
  by apply (grow_fresh _ _ Ht).
Qed.

Lemma grow_tab k t' : tab' !! k = Some t' -> (k = key /\ t' = c) \/ (k <> key /\ tab !! k = Some t').
Proof.
  unfold tab'. destruct (decide (k = key)) as [->|Hne].
  - rewrite lookup_insert_eq. intros [= <-]. by left.
  - rewrite lookup_insert_ne by done. by right.
Qed.

Lemma grow_tab_none k : tab' !! k = None -> k <> key /\ tab !! k = None.
Proof.
  unfold tab'. destruct (decide (k = key)) as [->|Hne].
  - by rewrite lookup_insert_eq.
  - by rewrite lookup_insert_ne by done.
Qed.

Lemma grow_child L0 p0 t0 i0 c0 :
  tab' !! (L0, p0) = Some t0 -> 2 <= L0 -> 0 <= i0 < 512 ->
  tab' !! (L0 - 1, p0 * 512 + i0) = Some c0 -> is_table (ent m2 t0 i0) c0.
Proof.
  intros Ht0 HL0 Hi0 Hc0. apply grow_tab in Ht0 as [[Hk ->]|[Hk Ht0]].
  - exfalso. unfold key in Hk. injection Hk as -> ->.
    apply grow_tab in Hc0 as [[Hk' _]|[_ Hc0]]; [unfold key in Hk'; injection Hk' as ? ?; lia|].
    destruct (inv_parent _ _ _ _ INV _ _ _ Hc0) as [t1 Ht1].
    { pose proof (inv_level _ _ _ _ INV _ _ _ Ht). lia. }
    rewrite Z.div_add_l, Z.div_small, Z.add_0_r, Z.sub_add in Ht1 by lia.
    pose proof grow_key_none as Hn. unfold key in Hn. by rewrite Hn in Ht1.
  - apply grow_tab in Hc0 as [[Hk' ->]|[Hk' Hc0]].
    + unfold key in Hk'. injection Hk' as ? ?. assert (L0 = L) as -> by lia.
      assert (p0 = p /\ i0 = i) as [-> ->] by lia.
      rewrite Ht in Ht0. injection Ht0 as <-. by rewrite grow_ent_slot.
    + rewrite (grow_ent_old _ _ _ Ht0 Hi0); [by eapply inv_child|].
      intros [= -> -> ->]. by apply Hk'.
Qed.

Lemma grow_end L0 p0 t0 i0 :
  tab' !! (L0, p0) = Some t0 -> 2 <= L0 -> 0 <= i0 < 512 ->
  tab' !! (L0 - 1, p0 * 512 + i0) = None -> is_end L0 (ent m2 t0 i0).
Proof.
  intros Ht0 HL0 Hi0 Hc0. apply grow_tab_none in Hc0 as [Hk' Hc0].
  apply grow_tab in Ht0 as [[Hk ->]|[Hk Ht0]].
  - left. by apply grow_ent_new.
  - rewrite (grow_ent_old _ _ _ Ht0 Hi0); [by eapply inv_end|].
    intros [= -> -> ->]. by apply Hk'.
Qed.

Lemma grow_inv : pt_inv tab' root m2 f'.
Proof.
  pose proof (inv_level _ _ _ _ INV _ _ _ Ht) as HLb.
  constructor; try exact grow_child; try exact grow_end.
  - unfold tab'. rewrite lookup_insert_ne; [apply INV|]. unfold key. intros [= ? ?]. lia.
  - intros L0 p0 t0 [[Hk _]|[_ H]]%grow_tab; [unfold key in Hk; injection Hk as -> ->; lia|].
    by eapply inv_level.
  - intros k0 t0 [[_ ->]|[_ H]]%grow_tab; [done|]. by eapply inv_table_ok.
  - intros k0 t0 [[_ ->]|[_ H]]%grow_tab; rewrite Hfree'; [by intros [_ ?]|].
    intros [? _]. by eapply inv_not_free.
  - intros k0 k1 t0 [[-> ->]|[_ H]]%grow_tab [[-> E]|[_ H']]%grow_tab; [done|..].
    + by apply grow_fresh in H'.
    + by apply grow_fresh in H.
    + by eapply inv_inj.
  - intros k0 t0 i0 [[_ ->]|[_ H]]%grow_tab Hi0; [by rewrite grow_ent_new by done|].
    destruct (decide (k0 = (L, p) /\ i0 = i)) as [[-> ->]|Hne].
    + rewrite Ht in H. injection H as <-. by rewrite grow_ent_slot.
    + rewrite (grow_ent_old _ _ _ H Hi0) by (intros [= -> ->]; by apply Hne). by eapply inv_range.
  - intros L0 p0 c0 [[Hk _]|[_ H]]%grow_tab HL0.
    + unfold key in Hk. injection Hk as -> ->. exists t.
      rewrite Z.div_add_l, Z.div_small, Z.add_0_r, Z.sub_add by lia.
      unfold tab'. rewrite lookup_insert_ne; [done|]. unfold key. intros [= ? ?]. lia.
    + destruct (inv_parent _ _ _ _ INV _ _ _ H HL0) as [t1 Ht1]. unfold tab'.
      destruct (decide (key = (L0 + 1, p0 / 512))) as [<-|]; [eexists; apply lookup_insert_eq|].
      exists t1. by rewrite lookup_insert_ne by done.
Qed.

Lemma grow_lookup w : lookup tab' m2 w = lookup tab m w.
Proof.
  assert (forall s, leaf_at tab' m2 s w = leaf_at tab m s w) as Hl.
  { intros s. unfold leaf_at.
    destruct (decide (key = (level s, prefix (level s) w))) as [Hk|Hk].
    - unfold tab'. rewrite <- Hk, lookup_insert_eq, grow_key_none, grow_ent_new by apply idx_range.
      unfold leaf_test. by destruct s; simpl; rewrite ?law_huge_0.
    - unfold tab'. rewrite lookup_insert_ne by done.
      destruct (tab !! (level s, prefix (level s) w)) as [t'|] eqn:Ht'; [|done].
      destruct (decide ((level s, prefix (level s) w) = (L, p) /\ idx (level s) w = i)) as [[E E']|Hne].
      + rewrite E, Ht in Ht'. injection Ht' as <-. rewrite E', grow_ent_slot, H0.
        injection E as E _. destruct He as (_ & Hh & _). unfold leaf_test.
        destruct s; simpl in *; [lia|by rewrite Hh, law_huge_0..].
      + rewrite (grow_ent_old _ _ _ Ht'); [done|apply idx_range|].
        intros ?. simplify_eq. by apply Hne. }
  unfold lookup. by rewrite !Hl.
Qed.
End Grow.
End Facts.
End Tree.
