(* ===== verification/PagingOps.v ===== *)
(** * Four-level page tables: single-page operations

    [next_table_mut_or_create], [get_entry_mut_or_create], [map_page],
    [unmap_page], [update] and [query] of [Paging] against the invariant of
    [PagingInv]: each preserves it, changes the translation of exactly the page
    it is given, and touches only memory that belongs to the table. *)

From S2P Require Import Prelude Crates HvError Addr PhysMem Frame Pte Region Paging PagingInv.

Section Ops.
Context {A : Type} {ba : BitAlloc A} {bal : BitAllocLaws A} {pv : PhysVirt}.
Context {pte : GenericPTE} {laws : PTELaws}.

(** ** Well-formed page tables

    The tree of [pt_inv], whose frames are the root and the tracked
    intermediate frames. *)
Definition frames (pt : Level4PageTable) : list Z := start_paddr <$> root pt :: intrm_tables pt.

Lemma frames_snoc r l fr : frames (mkPT r (l ++ [fr])) = frames (mkPT r l) ++ [start_paddr fr].
Proof. unfold frames. simpl. by rewrite fmap_app. Qed.

Record pt_wf (tab : gmap (Z * Z) Z) (s : St (A := A)) : Prop := {
  wf_inv : pt_inv tab (root_paddr (snd s)) (pm (fst s)) (fa (fst s));
  wf_fa : fa_wf (fa (fst s));
  wf_frames : forall t, t ∈ frames (snd s) <-> exists k, tab !! k = Some t;
  wf_nodup : NoDup (frames (snd s));
  wf_count : Forall (fun f => frame_count f = 1) (intrm_tables (snd s));
}.

(** [x] is an address inside one of the tables. *)
Definition in_tables (tab : gmap (Z * Z) Z) (x : Z) : Prop :=
  exists k t, tab !! k = Some t /\ t <= x < t + PAGE_SIZE.

(** What a step may change: tables are only added, out of free frames, and
    memory outside the tables is left alone. *)
Record grows (tab tab' : gmap (Z * Z) Z) (s s' : Machine A) : Prop := {
  grows_sub : forall k t, tab !! k = Some t -> tab' !! k = Some t;
  grows_new : forall k t, tab' !! k = Some t -> tab !! k = Some t \/ frame_free (fa s) t;
  grows_free : forall q, frame_free (fa s') q -> frame_free (fa s) q;
  grows_mem : forall x, ~ in_tables tab' x -> mem_get (pm s') x = mem_get (pm s) x;
  grows_base : base (fa s') = base (fa s);
  grows_used : forall q, frame_free (fa s) q -> frame_free (fa s') q \/ exists k, tab' !! k = Some q;
}.

Lemma grows_refl tab s : grows tab tab s s.
Proof. constructor; eauto. Qed.

Lemma grows_trans tab1 tab2 tab3 s1 s2 s3 :
  grows tab1 tab2 s1 s2 -> grows tab2 tab3 s2 s3 -> grows tab1 tab3 s1 s3.
Proof.
  intros [S1 N1 F1 M1 B1 U1] [S2 N2 F2 M2 B2 U2]. constructor; eauto; [| |congruence|].
  - intros k t H. destruct (N2 _ _ H) as [H2|H2]; eauto.
  - intros x Hx. rewrite M2 by done. apply M1. intros (k & t & Ht & Hr). apply Hx.
    exists k, t. eauto.
  - intros q Hq. destruct (U1 q Hq) as [Hq1|[k Hk]]; [by apply U2|]. right. exists k. auto.
Qed.

(** Same translation before and after. *)
Definition same_lookup (tab tab' : gmap (Z * Z) Z) (s s' : Machine A) : Prop :=
  forall w, lookup tab' (pm s') w = lookup tab (pm s) w.

Lemma same_lookup_trans tab1 tab2 tab3 s1 s2 s3 :
  same_lookup tab1 tab2 s1 s2 -> same_lookup tab2 tab3 s2 s3 -> same_lookup tab1 tab3 s1 s3.
Proof. intros H1 H2 w. by rewrite H2, H1. Qed.

(** ** Creating the table below an entry *)
Definition alloc_failed (e : PagingError) (s : Machine A) : Prop :=
  e = NoMemory /\ forall q, ~ frame_free (fa s) q.

Definition step_ok (tab : gmap (Z * Z) Z) (s : St) (v : Z) (r : outcome PagingError Z * St)
  (post : gmap (Z * Z) Z -> Z -> Prop) : Prop :=
  exists tab', pt_wf tab' (snd r) /\ grows tab tab' (fst s) (fst (snd r)) /\
    same_lookup tab tab' (fst s) (fst (snd r)) /\
    match fst r with
    | Ok x => post tab' x
    | Err e => alloc_failed e (fst (snd r)) \/ is_Some (lookup tab (pm (fst s)) v)
    | _ => False
    end.

(** Steps in sequence. *)
Lemma step_ok_bind tab s v c k post post' :
  step_ok tab s v (c s) post ->
  (forall tab' s' x, c s = (Ok x, s') -> pt_wf tab' s' -> post tab' x ->
     step_ok tab' s' v (k x s') post') ->
  step_ok tab s v (bind c k s) post'.
Proof.
  intros (tab' & W & G & S & Hr) Hk. unfold bind.
  destruct (c s) as [[x|e| |] s'] eqn:Hc; simpl in *; try done.
  - destruct (Hk tab' s' x) as (tab'' & W' & G' & S' & Hr'); [done..|].
    exists tab''. split_and!; eauto using grows_trans, same_lookup_trans.
    destruct (k x s') as [[y|e| |] s'']; simpl in *; try done. by rewrite <- S.
  - exists tab'. done.
Qed.

Lemma wf_entry tab s L v t :
  pt_wf tab s -> tab !! (L, prefix L v) = Some t ->
  deref (pm (fst s)) (entry_ptr (table_of t) (idx L v)) = ent (pm (fst s)) t (idx L v).
Proof.
  intros W Ht. apply deref_ent; [|apply idx_range].
  eapply inv_table_ok; [apply W|done].
Qed.

Lemma frame_free_table_ok (f : FrameAllocator A) c : fa_wf f -> frame_free f c -> table_ok c.
Proof. intros. by eapply frame_free_paddr. Qed.

(** A fresh frame, linked below an unused entry, keeps the table well formed. *)
Lemma link_wf tab (s : St) L v t (fr : Frame) m' f' e :
  let c := start_paddr fr in
  let i := idx L v in
  pt_wf tab s -> 2 <= L <= 4 -> tab !! (L, prefix L v) = Some t ->
  ent (pm (fst s)) t i = 0 -> frame_count fr = 1 -> frame_free (fa (fst s)) c -> fa_wf f' ->
  base f' = base (fa (fst s)) ->
  (forall q, frame_free f' q <-> frame_free (fa (fst s)) q /\ q <> c) ->
  (forall k, 0 <= k < 512 -> ent m' c k = 0) ->
  (forall x, x < c \/ c + PAGE_SIZE <= x -> mem_get m' x = mem_get (pm (fst s)) x) ->
  is_table e c -> in_range 64 e ->
  let tab' := <[(L - 1, prefix (L - 1) v) := c]> tab in
  let s' := (mkMachine (mem_set m' (t + 8 * i) e) f',
             mkPT (root (snd s)) (intrm_tables (snd s) ++ [fr])) in
  pt_wf tab' s' /\ grows tab tab' (fst s) (fst s') /\ same_lookup tab tab' (fst s) (fst s').
Proof.
  intros c i W HL Ht H0 Hcnt Hfree Hf' Hbase Hfree' Hz Hsame He Her tab' s'.
  pose proof (wf_inv _ _ W) as INV. pose proof (idx_range L v) as Hi.
  pose proof (frame_free_table_ok _ _ (wf_fa _ _ W) Hfree) as Hc.
  subst tab'. rewrite prefix_next by lia.
  pose proof (grow_key_none INV _ _ _ _ (proj1 HL) Hi Ht H0) as Hkn.
  pose proof (grow_fresh INV _ Hfree) as Hfresh.
  split_and!.
  - constructor; simpl.
    + eapply grow_inv; eauto; lia.
    + done.
    + intros x. rewrite frames_snoc, elem_of_app, list_elem_of_singleton.
      pose proof (wf_frames _ _ W x) as Hx. destruct (snd s) as [r l]. rewrite Hx. split.
      * intros [[k Hk]|Hxc]; [|subst x; eexists; apply lookup_insert_eq].
        exists k. rewrite lookup_insert_ne; [done|]. intros <-. unfold i in *. congruence.
      * intros [k Hk]. apply lookup_insert_Some in Hk as [[_ <-]|[_ Hk]]; [by right|left; eauto].
    + rewrite frames_snoc. apply list.NoDup_app. split_and!.
      * pose proof (wf_nodup _ _ W). by destruct (snd s).
      * intros x Hx Hin. apply list_elem_of_singleton in Hin as ->.
        pose proof (proj1 (wf_frames _ _ W (start_paddr fr))) as Hfr. destruct (snd s) as [r l].
        destruct (Hfr Hx) as [k Hk]. by apply Hfresh in Hk.
      * apply NoDup_singleton.
    + apply Forall_app. split; [apply W|]. by apply Forall_singleton.
  - constructor; simpl.
    + intros k x Hk. rewrite lookup_insert_ne; [done|]. intros <-. unfold i in *. congruence.
    + intros k x Hk. apply lookup_insert_Some in Hk as [[_ <-]|[_ Hk]]; eauto.
    + intros q. rewrite Hfree'. by intros [? _].
    + intros x Hx. rewrite mem_get_set_ne.
      * apply Hsame. destruct (decide (x < c \/ c + PAGE_SIZE <= x)); [done|].
        exfalso. apply Hx. eexists _, c. rewrite lookup_insert_eq. split; [done|lia].
      * intros ->. apply Hx. exists (L, prefix L v), t. rewrite lookup_insert_ne.
        -- split; [done|]. unfold PAGE_SIZE, i. lia.
        -- intros [= ? ?]. lia.
    + done.
    + intros q Hq. destruct (decide (q = c)) as [->|Hne].
      * right. eexists. apply lookup_insert_eq.
      * left. by apply Hfree'.
  - intros w. simpl. eapply grow_lookup; eauto; lia.
Qed.

Lemma next_or_create_ok tab s L v t :
  pt_wf tab s -> 2 <= L <= 4 -> tab !! (L, prefix L v) = Some t ->
  step_ok tab s v (next_table_mut_or_create (entry_ptr (table_of t) (idx L v)) s)
    (fun tab' x => exists c, x = table_of c /\ tab' !! (L - 1, prefix (L - 1) v) = Some c).
Proof.
  intros W HL Ht. pose proof (wf_inv _ _ W) as INV. pose proof (idx_range L v) as Hi.
  pose proof (inv_table_ok _ _ _ _ INV _ _ Ht) as Hok.
  unfold next_table_mut_or_create, bind at 1, read_pte, gets. rewrite (wf_entry _ _ _ _ _ W Ht), law_unused.
  set (e := ent (pm (fst s)) t (idx L v)).
  destruct (Z.eqb_spec e 0) as [H0|H0].
  - unfold bind at 1, map_errM, alloc_intrm_table, bind at 1, on_machine, zoom.
    destruct (Frame_new_zero_total (fst s)) as [(fr & s1 & Hnew)|Hnew]; rewrite Hnew.
    + destruct (Frame_new_zero_ok _ _ _ (wf_fa _ _ W) Hnew)
        as (Hf1 & Hbase & Hcnt & Hfree & Hfree1 & Hz & Hsame).
      destruct (law_table (start_paddr fr)) as (e' & Hset & Her & He').
      { apply table_ok_paddr. eapply frame_free_table_ok; [apply W|done]. }
      assert (ent (pm s1) t (idx L v) = 0) as Hent1.
      { unfold ent. rewrite Hsame; [done|].
        pose proof (grow_fresh INV _ Hfree _ _ Ht) as Hne.
        destruct (decide (t + 8 * idx L v < start_paddr fr \/
          start_paddr fr + PAGE_SIZE <= t + 8 * idx L v)); [done|]. exfalso. apply Hne.
        pose proof (frame_free_table_ok _ _ (wf_fa _ _ W) Hfree) as (_ & Ha' & _).
        destruct Hok as (_ & Ha & _).
        destruct (aligned_block_eq PAGE_SIZE t (start_paddr fr) (8 * idx L v)
          (t + 8 * idx L v - start_paddr fr)); unfold PAGE_SIZE in *; lia || done. }
      unfold modify, modify_pte, read_pte, write_pte, bind, gets, ret, unwrap_pte. simpl.
      rewrite deref_ent by (done || apply idx_range). rewrite Hent1, Hset.
      simpl. rewrite entry_paddr by (done || apply idx_range).
      exists (<[(L - 1, prefix (L - 1) v) := start_paddr fr]> tab). simpl.
      destruct (link_wf tab s L v t fr (pm s1) (fa s1) e') as (W' & G' & S'); try done.
      split_and!; try done. exists (start_paddr fr). split; [done|]. apply lookup_insert_eq.
    + simpl. exists tab. destruct s as [s0 pt]. simpl in *. split_and!; try done.
      { apply grows_refl. }
      left. split; [done|]. by eapply Frame_new_zero_err.
  - exists tab. unfold of_outcome. simpl. split_and!; [done|apply grows_refl|done|].
    destruct (tab !! (L - 1, prefix (L - 1) v)) as [c|] eqn:Hc.
    + rewrite (next_table_is_table e c) by (apply (child_at INV); [lia|done..]). eauto.
    + destruct (end_at INV L v t) as [?|[Hh HL3]]; [lia|done..|]. fold e in Hh.
      assert (is_Some (lookup tab (pm (fst s)) v)).
      { assert (exists sz, L = level sz /\ PageSize.is_huge sz = true) as (sz & -> & Hsz).
        { assert (L = 2 \/ L = 3) as [-> | ->] by lia; [by exists Size2M|by exists Size1G]. }
        rewrite (lookup_at INV sz v t) by done. unfold leaf_test. rewrite Hsz. fold e. by rewrite Hh. }
      unfold next_table_mut. rewrite Hh. destruct (pte_is_present e); simpl; auto.
Qed.

(** The slot of the page is reached, its tables created on the way. *)
Lemma get_or_create_ok tab s v sz :
  pt_wf tab s ->
  step_ok tab s v (get_entry_mut_or_create (mkPage v sz) s)
    (fun tab' x => exists t, x = entry_ptr (table_of t) (idx (level sz) v) /\
       tab' !! (level sz, prefix (level sz) v) = Some t).
Proof.
  intros W. unfold get_entry_mut_or_create. simpl. unfold bind at 1, gets.
  rewrite p4_index_idx, p3_index_idx, p2_index_idx, p1_index_idx.
  pose proof (inv_root _ _ _ _ (wf_inv _ _ W)) as H4. rewrite <- (prefix_root v) in H4.
  eapply step_ok_bind; [by apply (next_or_create_ok _ _ 4)|].
  intros tab3 s3 x3 _ W3 (t3 & -> & H3).
  assert (forall tab' s' (x : Z) (post : gmap (Z * Z) Z -> Z -> Prop), pt_wf tab' s' -> post tab' x ->
    step_ok tab' s' v (ret x s') post) as Hret.
  { intros tab' s' x post W' Hp. exists tab'. split_and!; try done. apply grows_refl. }
  case_decide as D1; [subst sz; apply Hret; eauto|].
  eapply step_ok_bind; [by apply (next_or_create_ok _ _ 3)|].
  intros tab2 s2 x2 _ W2 (t2 & -> & H2).
  case_decide as D2; [subst sz; apply Hret; eauto|].
  eapply step_ok_bind; [by apply (next_or_create_ok _ _ 2)|].
  intros tab1 s1 x1 _ W1 (t1 & -> & H1). apply Hret; [done|].
  destruct sz; [|done..]. eauto.
Qed.

(** ** Writing a terminal entry *)
Definition upd (s : St (A := A)) (x e : Z) : St :=
  (mkMachine (mem_set (pm (fst s)) x e) (fa (fst s)), snd s).

Lemma write_wf tab s sz v t e :
  pt_wf tab s -> end_slot (tab := tab) sz v t -> in_range 64 e ->
  (sz <> Size4K -> e = 0 \/ pte_is_huge e = true) ->
  pt_wf tab (upd s (t + 8 * idx (level sz) v) e) /\
  grows tab tab (fst s) (fst (upd s (t + 8 * idx (level sz) v) e)).
Proof.
  intros W Hs He Hh. split.
  - constructor; simpl; try apply W. eapply write_inv; eauto. apply W.
  - constructor; simpl; eauto. intros x Hx. apply mem_get_set_ne. intros ->. apply Hx.
    exists (level sz, prefix (level sz) v), t. split; [apply Hs|].
    pose proof (idx_range (level sz) v). unfold PAGE_SIZE. lia.
Qed.

(** [set_addr] then [set_flags] through the same reference. *)
Lemma set_leaf_ok {E} (s : St (A := A)) t i p fl h :
  table_ok t -> 0 <= i < 512 -> paddr_ok p -> in_range 64 (ent (pm (fst s)) t i) ->
  exists e, in_range 64 e /\ pte_is_huge e = h /\ pte_addr e = p /\
    (pte_flags_ok fl = true -> e <> 0 /\ pte_flags e = pte_view fl) /\
    (modify_pte (E := E) (entry_ptr (table_of t) i) (fun e => pte_set_addr e p) ;;;
     modify_pte (entry_ptr (table_of t) i) (fun e => pte_set_flags e fl h)) s =
    (Ok tt, upd s (t + 8 * i) e).
Proof.
  intros Ht Hi Hp Hr.
  destruct (law_leaf (ent (pm (fst s)) t i) p fl h Hr Hp) as (e1 & e2 & H1 & H2 & Hr2 & Hh & Ha & Hf).
  exists e2. split_and!; try done.
  unfold modify_pte, read_pte, write_pte, bind, gets, modify, unwrap_pte, ret.
  rewrite deref_ent, H1 by done. simpl. rewrite entry_paddr, deref_ent by done.
  unfold ent. rewrite mem_get_set_eq, H2. simpl. unfold upd, mem_set. by rewrite insert_insert_eq.
Qed.

(** ** [map_page] *)

(** The translation with the page [(v, sz)] mapped to the entry [e]. *)
Definition remapped (tab tab' : gmap (Z * Z) Z) (m m' : gmap Z Z) (v : Z) (sz : PageSize)
  (o : option (Z * PageSize)) : Prop :=
  forall w, lookup tab' m' w = if decide (page_of sz v = page_of sz w) then o else lookup tab m w.

(** What the entry for a page must hold. *)
Record leaf_of (e : Z) (sz : PageSize) (paddr flags : Z) : Prop := {
  leaf_range : in_range 64 e;
  leaf_huge : pte_is_huge e = PageSize.is_huge sz;
  leaf_addr : pte_addr e = paddr;
  leaf_flags : pte_flags_ok flags = true -> e <> 0 /\ pte_flags e = pte_view flags;
}.

Lemma leaf_of_test e sz p fl :
  leaf_of e sz p fl -> pte_flags_ok fl = true -> leaf_test sz e = true.
Proof.
  intros [_ Hh _ Hf] Hok. unfold leaf_test. destruct (PageSize.is_huge sz); [done|].
  destruct (Hf Hok) as [Hn _]. by apply negb_true_iff, Z.eqb_neq.
Qed.

Definition entry_view (sz : PageSize) (e : Z) : option (Z * PageSize) :=
  if leaf_test sz e then Some (e, sz) else None.

Definition unmapped (tab : gmap (Z * Z) Z) (m : gmap Z Z) (v : Z) (sz : PageSize) : Prop :=
  forall w, page_of sz v = page_of sz w -> lookup tab m w = None.

(** Why mapping a page can fail: no frame is left for a table, the address is
    mapped already, or (huge pages) a table is in the place of the entry. *)
Definition map_failure (tab tab' : gmap (Z * Z) Z) (s s' : St (A := A)) (v : Z) (sz : PageSize)
  (e : PagingError) : Prop :=
  alloc_failed e (fst s') \/ is_Some (lookup tab (pm (fst s)) v) \/
  sz <> Size4K /\ e = AlreadyMapped /\ is_Some (tab' !! (level sz - 1, prefix (level sz - 1) v)).

Lemma slot_end tab s sz v t :
  pt_wf tab s -> tab !! (level sz, prefix (level sz) v) = Some t ->
  ent (pm (fst s)) t (idx (level sz) v) = 0 -> end_slot (tab := tab) sz v t.
Proof.
  intros W Ht H0. split; [done|]. intros Hs.
  destruct (tab !! (level sz - 1, _)) as [c|] eqn:Hc; [|done].
  destruct (child_at (wf_inv _ _ W) (level sz) v t c) as (Hp & _); [by destruct sz|done..|].
  by rewrite H0, law_present_0 in Hp.
Qed.

(** Nothing in the page is mapped when its entry is 0. *)
Lemma slot_unmapped tab s sz v t :
  pt_wf tab s -> tab !! (level sz, prefix (level sz) v) = Some t ->
  ent (pm (fst s)) t (idx (level sz) v) = 0 -> unmapped tab (pm (fst s)) v sz.
Proof.
  intros W Ht H0 w Hw. pose proof (slot_end _ _ _ _ _ W Ht H0) as [_ Hn].
  rewrite !page_of_prefix in Hw. rewrite Hw in Hn. rewrite <- !page_of_prefix in Hw.
  apply page_of_key in Hw as [Hp Hi]. rewrite Hp in Ht. rewrite Hi in H0.
  rewrite (lookup_at (wf_inv _ _ W) sz w t Ht) by done. rewrite H0.
  unfold leaf_test. by destruct sz; simpl; rewrite ?law_huge_0.
Qed.

Lemma map_page_ok tab s v sz paddr fl :
  pt_wf tab s -> paddr_ok (PageSize.align_down sz paddr) ->
  let r := map_page (mkPage v sz) paddr fl s in
  exists tab', pt_wf tab' (snd r) /\ grows tab tab' (fst s) (fst (snd r)) /\
  match fst r with
  | Ok _ => exists e, leaf_of e sz (PageSize.align_down sz paddr) fl /\
      unmapped tab (pm (fst s)) v sz /\
      remapped tab tab' (pm (fst s)) (pm (fst (snd r))) v sz (entry_view sz e)
  | Err e => same_lookup tab tab' (fst s) (fst (snd r)) /\ map_failure tab tab' s (snd r) v sz e
  | _ => False
  end.
Proof.
  intros W Hp r. assert (Hr : r = map_page (mkPage v sz) paddr fl s) by done. clearbody r.
  unfold map_page, bind at 1 in Hr.
  destruct (get_or_create_ok tab s v sz W) as (tab' & W' & G & S & Hg).
  destruct (get_entry_mut_or_create (mkPage v sz) s) as [[x|e| |] s']; simpl in *; try done.
  2:{ subst r. simpl. exists tab'. split_and!; try done. destruct Hg; [by left|by right; left]. }
  destruct Hg as (t & -> & Ht).
  unfold bind at 1, read_pte, gets in Hr. rewrite (wf_entry _ _ _ _ _ W' Ht), law_unused in Hr.
  destruct (Z.eqb_spec (ent (pm s'.1) t (idx (level sz) v)) 0) as [H0|H0]; simpl in Hr.
  - pose proof (inv_table_ok _ _ _ _ (wf_inv _ _ W') _ _ Ht) as Hok.
    destruct (set_leaf_ok (E := PagingError) s' t (idx (level sz) v) _ fl (PageSize.is_huge sz) Hok
      (idx_range _ _) Hp) as (e & Hre & Hh & Ha & Hf & Hw); [by rewrite H0|].
    rewrite Hw in Hr. subst r. simpl.
    pose proof (slot_end _ _ _ _ _ W' Ht H0) as Hend.
    destruct (write_wf tab' s' sz v t e) as [W2 G2]; [done..| |].
    { intros Hne. right. rewrite Hh. by destruct sz. }
    exists tab'. simpl. split_and!; [done|by eapply grows_trans|].
    exists e. split_and!; [by constructor| |].
    + intros w Hwp. rewrite <- S. by eapply slot_unmapped.
    + intros w. simpl. rewrite (lookup_write (wf_inv _ _ W')); [by rewrite S|done..|].
      intros Hne. right. rewrite Hh. by destruct sz.
  - subst r. exists tab'. simpl. split_and!; try done. unfold map_failure.
    destruct (tab' !! (level sz - 1, prefix (level sz - 1) v)) as [c|] eqn:Hc.
    + destruct (decide (sz = Size4K)) as [->|Hne]; [|by right; right; eauto].
      exfalso. simpl in Hc. apply (inv_level _ _ _ _ (wf_inv _ _ W')) in Hc. lia.
    + right. left. rewrite <- S, (lookup_at (wf_inv _ _ W') sz v t Ht) by done.
      unfold leaf_test. destruct (PageSize.is_huge sz) eqn:Hz.
      * destruct (end_at (wf_inv _ _ W') (level sz) v t) as [?|[-> _]]; try done. by destruct sz.
      * by apply Z.eqb_neq in H0 as ->.
Qed.

(** ** [unmap_page], [update], [query] *)

Lemma found_slot tab s v sz t :
  pt_wf tab s -> tab !! (level sz, prefix (level sz) v) = Some t ->
  (sz <> Size4K -> tab !! (level sz - 1, prefix (level sz - 1) v) = None /\
     pte_is_huge (ent (pm (fst s)) t (idx (level sz) v)) = true) ->
  end_slot (tab := tab) sz v t /\
  lookup tab (pm (fst s)) v =
    let e := ent (pm (fst s)) t (idx (level sz) v) in if e =? 0 then None else Some (e, sz).
Proof.
  intros W Ht Hs. split; [split; [done|]; intros; by apply Hs|].
  rewrite (lookup_at (wf_inv _ _ W) sz v t Ht) by (intros; by apply Hs). unfold leaf_test. simpl.
  destruct sz; simpl; [by destruct (_ =? 0)|..]; (destruct Hs as [_ Hh]; [done|]; simpl in Hh; rewrite Hh);
    match goal with |- context [?e =? 0] => destruct (Z.eqb_spec e 0) as [H0|]; [|done] end; by rewrite H0, law_huge_0 in Hh.
Qed.

Lemma unmap_page_ok tab s v :
  pt_wf tab s ->
  match lookup tab (pm (fst s)) v with
  | Some (e, sz) => exists s', unmap_page v s = (Ok (pte_addr e, sz), s') /\
      pt_wf tab s' /\ grows tab tab (fst s) (fst s') /\
      remapped tab tab (pm (fst s)) (pm (fst s')) v sz None
  | None => unmap_page v s = (Err NotMapped, s)
  end.
Proof.
  intros W. unfold unmap_page.
  destruct (get_entry_spec (wf_inv _ _ W) v) as [(sz & t & Ht & Hs & Hg)|[Hg ->]].
  2:{ unfold bind, get_entry. by rewrite Hg. }
  destruct (found_slot _ _ _ _ _ W Ht Hs) as [Hend ->]. simpl.
  destruct (Z.eqb_spec (ent (pm s.1) t (idx (level sz) v)) 0) as [H0|H0];
    unfold bind, get_entry, read_pte, gets; rewrite Hg, (wf_entry _ _ _ _ _ W Ht), law_unused.
  { by rewrite H0. }
  apply Z.eqb_neq in H0 as ->. unfold write_pte, modify, ret. rewrite law_clear, entry_paddr
    by (eauto using idx_range, inv_table_ok, wf_inv).
  destruct (write_wf tab s sz v t 0) as [W2 G2]; [done..|by left|].
  eexists. split_and!; [done..|]. intros w. simpl.
  rewrite (lookup_write (wf_inv _ _ W)) by (done || by left).
  case_decide; [|done]. unfold leaf_test. by destruct sz; simpl; rewrite ?law_huge_0.
Qed.

Lemma update_ok tab s v paddr fl :
  pt_wf tab s -> paddr_ok paddr ->
  (update v paddr fl s = (Err NotMapped, s) /\ lookup tab (pm (fst s)) v = None) \/
  exists sz s' e, update v paddr fl s = (Ok sz, s') /\
    pt_wf tab s' /\ grows tab tab (fst s) (fst s') /\ leaf_of e sz paddr fl /\
    (lookup tab (pm (fst s)) v = None -> sz = Size4K) /\
    (forall e0 sz0, lookup tab (pm (fst s)) v = Some (e0, sz0) -> sz = sz0) /\
    remapped tab tab (pm (fst s)) (pm (fst s')) v sz (entry_view sz e).
Proof.
  intros W Hp. unfold update.
  destruct (get_entry_spec (wf_inv _ _ W) v) as [(sz & t & Ht & Hs & Hg)|[Hg ->]]; [right|left].
  2:{ unfold bind, get_entry. by rewrite Hg. }
  destruct (found_slot _ _ _ _ _ W Ht Hs) as [Hend ->].
  pose proof (wf_inv _ _ W) as INV.
  destruct (set_leaf_ok (E := PagingError) s t (idx (level sz) v) paddr fl (PageSize.is_huge sz))
    as (e & Hr & Hh & Ha & Hf & Hw); eauto using idx_range, inv_table_ok, inv_range.
  destruct (write_wf tab s sz v t e) as [W2 G2]; [done..| |].
  { intros Hne. right. rewrite Hh. by destruct sz. }
  exists sz, (upd s (t + 8 * idx (level sz) v) e), e. split_and!; try done.
  - unfold bind at 1, get_entry. by rewrite Hg, <- bind_assoc, (bind_ok _ _ _ _ _ Hw).
  - simpl. destruct (Z.eqb_spec (ent (pm s.1) t (idx (level sz) v)) 0) as [H0|H0]; [|done].
    intros _. destruct sz; [done|..]; (destruct Hs as [_ Hh0]; [done|]); by rewrite H0, law_huge_0 in Hh0.
  - simpl. intros e0 sz0. by destruct (_ =? 0); intros [= _ <-].
  - intros w. simpl. apply (lookup_write INV); [done..|]. intros Hne. right. rewrite Hh. by destruct sz.
Qed.

Lemma query_wf tab s v :
  pt_wf tab s ->
  query v s = (match lookup tab (pm (fst s)) v with
               | Some (e, sz) => Ok (add64 (pte_addr e) (v mod page_bytes sz), pte_flags e, sz)
               | None => Err NotMapped
               end, s).
Proof. intros W. unfold query. by rewrite (query_lookup (wf_inv _ _ W)). Qed.

(** ** A new table is empty *)
Lemma pt_new_ok {E} (m : Machine A) :
  fa_wf (fa m) ->
  (exists q, frame_free (fa m) q) ->
  exists pt m', pt_new (E := E) m = (Ok pt, m') /\ intrm_tables pt = [] /\ frame_count (root pt) = 1 /\
    frame_free (fa m) (root_paddr pt) /\
    (forall q, frame_free (fa m') q <-> frame_free (fa m) q /\ q <> root_paddr pt) /\
    grows ∅ {[(4, 0) := root_paddr pt]} m m' /\
    pt_wf {[(4, 0) := root_paddr pt]} (m', pt) /\
    forall w, lookup {[(4, 0) := root_paddr pt]} (pm m') w = None.
Proof.
  intros Hf [q Hq]. unfold pt_new, bind at 1, expect.
  destruct (Frame_new_zero_total m) as [(fr & m' & Hn)|Hn]; rewrite Hn.
  2:{ destruct (Frame_new_zero_err _ _ _ Hn) as (_ & _ & Hno). by destruct (Hno q). }
  destruct (Frame_new_zero_ok _ _ _ Hf Hn) as (Hf' & Hbase & Hc & Hfree & Hfree' & Hz & Hsame).
  pose proof (frame_free_table_ok _ _ Hf Hfree) as Hok.
  exists (mkPT fr []), m'. unfold root_paddr. simpl. split_and!; try done.
  - constructor; simpl; try done.
    + intros k t [_ <-]%lookup_singleton_Some. by right.
    + intros q'. rewrite Hfree'. by intros [? _].
    + intros x Hx. apply Hsame. destruct (decide (x < start_paddr fr \/ start_paddr fr + PAGE_SIZE <= x));
        [done|]. exfalso. apply Hx. exists (4, 0), (start_paddr fr). rewrite lookup_singleton_eq. split; [done|lia].
    + intros q' Hq'. destruct (decide (q' = start_paddr fr)) as [->|Hne].
      * right. exists (4, 0). apply lookup_singleton_eq.
      * left. by apply Hfree'.
  - constructor; simpl; try done.
    + constructor; unfold root_paddr; simpl.
      * apply lookup_singleton_eq.
      * intros L p t [[= <- <-] _]%lookup_singleton_Some. lia.
      * intros [L p] t [_ <-]%lookup_singleton_Some. done.
      * intros [L p] t [_ <-]%lookup_singleton_Some. rewrite Hfree'. by intros [_ ?].
      * intros k k' t [<- <-]%lookup_singleton_Some [<- _]%lookup_singleton_Some. done.
      * intros k t i [<- <-]%lookup_singleton_Some Hi. unfold ent. by rewrite Hz.
      * intros L p c [[= <- <-] _]%lookup_singleton_Some. lia.
      * intros L p t i c [[= <- <-] <-]%lookup_singleton_Some _ _ [[= ? _] _]%lookup_singleton_Some.
      * intros L p t i [[= <- <-] <-]%lookup_singleton_Some _ Hi _. left. by apply Hz.
    + intros t. unfold frames. simpl. rewrite list_elem_of_singleton. split.
      * intros ->. eexists. by rewrite lookup_singleton_eq.
      * by intros [k [_ <-]%lookup_singleton_Some].
    + apply NoDup_singleton.
  - intros w. unfold lookup, leaf_at. rewrite !lookup_singleton_ne by (intros [= ? _]; done). done.
Qed.
End Ops.
