(* ===== verification/PagingSpec.v ===== *)
(** * Four-level page tables: regions

    The loops of [Level4PageTable::map] and [unmap] against the declarative
    reading of the table: they return, they change the translation of exactly
    the region, page by page, and [unmap] takes back what [map] did. *)

From S2P Require Import Prelude Crates HvError Addr PhysMem Frame Pte Region Paging PagingInv PagingOps.

(** ** Coverage in the 48-bit address space

    The table ignores the bits above 48: the [n] bytes from [a] cover [w] when
    [w] is at a distance below [n] from [a], modulo 2^48. *)
Definition covers (a n w : Z) : bool := (w - a) mod 2 ^ 48 <? n.

Lemma covers_in a n v : a <= v < a + n -> n <= 2 ^ 48 -> covers a n v = true.
Proof. intros. unfold covers. apply Z.ltb_lt. rewrite Z.mod_small; lia. Qed.

Lemma covers_0 a n w : n <= 0 -> covers a n w = false.
Proof.
  intros. unfold covers. apply Z.ltb_ge. pose proof (Z.mod_pos_bound (w - a) (2 ^ 48)). lia.
Qed.

(** The address of the range that [w] stands for. *)
Definition rep (a w : Z) : Z := a + (w - a) mod 2 ^ 48.

Lemma rep_in a n w : covers a n w = true -> a <= rep a w < a + n.
Proof.
  unfold covers, rep. intros ?%Z.ltb_lt. pose proof (Z.mod_pos_bound (w - a) (2 ^ 48)). lia.
Qed.

Lemma rep_mod a w : rep a w mod 2 ^ 48 = w mod 2 ^ 48.
Proof.
  unfold rep. rewrite Zplus_mod_idemp_r. f_equal. lia.
Qed.

Lemma covers_split a n k w :
  0 <= n -> 0 <= k -> n + k <= 2 ^ 48 ->
  covers a (n + k) w = covers a n w || covers (a + n) k w.
Proof. intros. unfold covers. split_cmp; simpl; try done; exfalso; euclid. Qed.

Lemma covers_disjoint a n k w :
  0 <= n -> 0 <= k -> n + k <= 2 ^ 48 -> covers a n w = true -> covers (a + n) k w = false.
Proof. intros. unfold covers in *. split_cmp; simpl; try done; exfalso; euclid. Qed.

(** Moving a start within the wrapped 64-bit addresses changes nothing. *)
Lemma covers_wrap a n w : covers (wrap 64 a) n w = covers a n w.
Proof.
  unfold covers, wrap. f_equal.
  rewrite (Z.div_mod a (2 ^ 64)) at 2 by done.
  replace (w - (2 ^ 64 * (a / 2 ^ 64) + a mod 2 ^ 64))
    with (w - a mod 2 ^ 64 + (- (2 ^ 16 * (a / 2 ^ 64))) * 2 ^ 48) by lia.
  by rewrite Z.mod_add.
Qed.

Lemma page_of_covers sz v w :
  v mod page_bytes sz = 0 -> page_of sz v = page_of sz w <-> covers v (page_bytes sz) w = true.
Proof.
  intros Hv. unfold page_of, covers. rewrite Z.ltb_lt. destruct sz; simpl in *; split; intros; euclid.
Qed.

Lemma page_of_mod sz v w : v mod 2 ^ 48 = w mod 2 ^ 48 -> page_of sz v = page_of sz w.
Proof. unfold page_of. by intros ->. Qed.

Lemma prefix_mod L v w : v mod 2 ^ 48 = w mod 2 ^ 48 -> prefix L v = prefix L w.
Proof. unfold prefix. by intros ->. Qed.

Section Regions.
Context {A : Type} {ba : BitAlloc A} {bal : BitAllocLaws A} {pv : PhysVirt}.
Context {pte : GenericPTE} {laws : PTELaws}.

Lemma lookup_mod tab m v w : v mod 2 ^ 48 = w mod 2 ^ 48 -> lookup tab m v = lookup tab m w.
Proof.
  intros Hm. assert (forall sz, leaf_at tab m sz v = leaf_at tab m sz w) as Hl.
  { intros sz. unfold leaf_at.
    by destruct (proj1 (page_of_key sz v w) (page_of_mod _ _ _ Hm)) as [-> ->]. }
  unfold lookup. by rewrite !Hl.
Qed.

(** ** The page size [map] chooses *)
Definition page_start (sz : PageSize) (v : Z) : Z := v - v mod page_bytes sz.

Lemma choose_size_ok r v p n :
  v mod PAGE_SIZE = 0 -> PAGE_SIZE <= n ->
  let sz := choose_size r v p n in
  v mod page_bytes sz = 0 /\ page_bytes sz <= n /\
  (sz <> Size4K -> p mod page_bytes sz = 0 /\ contains (rflags r) MEM_NO_HUGEPAGES = false).
Proof.
  intros Hv Hn. unfold choose_size.
  repeat match goal with
  | |- context [if ?b then _ else _] => destruct b eqn:?
  end; rewrite ?andb_true_iff, ?ps_is_aligned_mod, ?negb_true_iff, ?Z.leb_le in *; simpl; tauto.
Qed.

Lemma page_start_in sz a v : a mod page_bytes sz = 0 -> a <= v < a + page_bytes sz -> page_start sz v = a.
Proof.
  intros Ha Hv. unfold page_start. pose proof (page_bytes_pos sz).
  replace v with (a + (v - a)) at 2 by lia.
  rewrite Zplus_mod, Ha, Z.add_0_l, Z.mod_mod, Z.mod_small; lia.
Qed.

(** ** Mapped regions

    [v] is translated by an entry of a page that lies in the [n] bytes from
    [a], with the target and the flags of the region. *)
Definition mapped_in (a n : Z) (r : MemoryRegion) (tab : gmap (Z * Z) Z) (m : gmap Z Z) (v : Z) : Prop :=
  exists e sz, let p := page_start sz v in
    lookup tab m v = Some (e, sz) /\ a <= p /\ p + page_bytes sz <= a + n /\
    leaf_of e sz (PageSize.align_down sz (map_fn (mapper r) p)) (rflags r) /\
    (sz <> Size4K -> map_fn (mapper r) p mod page_bytes sz = 0 /\
                     contains (rflags r) MEM_NO_HUGEPAGES = false).

Definition region_mapped (r : MemoryRegion) (tab : gmap (Z * Z) Z) (m : gmap Z Z) : Prop :=
  forall v, in_region r v -> mapped_in (start r) (rsize r) r tab m v.

Lemma mapped_in_weaken a n a' n' r tab m tab' m' v :
  mapped_in a n r tab m v -> a' <= a -> a + n <= a' + n' -> lookup tab' m' v = lookup tab m v ->
  mapped_in a' n' r tab' m' v.
Proof.
  intros (e & sz & Hl & H1 & H2 & H) Ha Hn Heq. exists e, sz. rewrite Heq.
  cbv zeta. split_and!; try done; [lia|lia|apply H|apply H].
Qed.

Lemma align_down_paddr sz p : 0 <= p < 2 ^ 52 -> paddr_ok (PageSize.align_down sz p).
Proof.
  intros Hp. rewrite ps_align_down_mod by (unfold in_range; lia).
  unfold paddr_ok, PAGE_SIZE. destruct sz; simpl; split; euclid.
Qed.

(** Why mapping a region can fail after its first [k] bytes. *)
Definition region_failure (tab tab' : gmap (Z * Z) Z) (s s' : St (A := A)) (r : MemoryRegion)
  (a n : Z) (e : HvErrorNum) : Prop :=
  e = ENOMEM /\ (forall q, ~ frame_free (fa (fst s')) q) \/
  (e = ENOMEM \/ e = EFAULT) /\
    (exists v, a <= v < a + n /\ is_Some (lookup tab (pm (fst s)) v)) \/
  e = EFAULT /\ contains (rflags r) MEM_NO_HUGEPAGES = false /\
    exists v sz, a <= v < a + n /\ sz <> Size4K /\
      is_Some (tab' !! (level sz - 1, prefix (level sz - 1) v)).

(** The requirements on the region, kept by the loop. *)
Record map_pre (r : MemoryRegion) (a n : Z) : Prop := {
  mp_a : 0 <= a /\ a mod PAGE_SIZE = 0;
  mp_n : 0 <= n /\ n mod PAGE_SIZE = 0;
  mp_end : a + n < 2 ^ 64 /\ n <= 2 ^ 48;
  mp_flags : pte_flags_ok (rflags r) = true;
  mp_target : forall v, a <= v < a + n -> 0 <= map_fn (mapper r) v < 2 ^ 52;
}.

Lemma map_pre_next r a n sz :
  map_pre r a n -> a mod page_bytes sz = 0 -> page_bytes sz <= n ->
  map_pre r (a + page_bytes sz) (n - page_bytes sz) /\
  add64 a (page_bytes sz) = a + page_bytes sz /\ sub64 n (page_bytes sz) = n - page_bytes sz.
Proof.
  intros [[Ha Ha'] [Hn Hn'] [He He'] Hf Ht] Hal Hle. pose proof (page_bytes_pos sz).
  split_and!.
  - constructor; try done; unfold PAGE_SIZE in *;
      try (split; [lia|]; destruct sz; simpl in *; euclid); intros; apply Ht || idtac; lia.
  - unfold add64. apply wrap_small. unfold in_range. lia.
  - unfold sub64. apply wrap_small. unfold in_range. lia.
Qed.

Definition map_result (tab : gmap (Z * Z) Z) (s : St (A := A)) (r : MemoryRegion) (a n : Z)
  (res : outcome HvErrorNum unit * St) : Prop :=
  exists tab' k, pt_wf tab' (snd res) /\ grows tab tab' (fst s) (fst (snd res)) /\ 0 <= k <= n /\
    (forall v, a <= v < a + k -> mapped_in a k r tab' (pm (fst (snd res))) v) /\
    (forall w, covers a k w = true -> lookup tab (pm (fst s)) w = None) /\
    (forall w, covers a k w = false ->
       lookup tab' (pm (fst (snd res))) w = lookup tab (pm (fst s)) w) /\
    match fst res with
    | Ok _ => k = n
    | Err e => k < n /\ region_failure tab tab' s (snd res) r (a + k) (n - k) e
    | _ => False
    end.

(** One page mapped, then the rest of the region. *)
Lemma map_result_step tab tab1 s s1 r a n sz e res :
  map_pre r a n -> a mod page_bytes sz = 0 -> page_bytes sz <= n ->
  (sz <> Size4K -> map_fn (mapper r) a mod page_bytes sz = 0 /\
                   contains (rflags r) MEM_NO_HUGEPAGES = false) ->
  grows tab tab1 (fst s) (fst s1) ->
  leaf_of e sz (PageSize.align_down sz (map_fn (mapper r) a)) (rflags r) ->
  unmapped tab (pm (fst s)) a sz ->
  remapped tab tab1 (pm (fst s)) (pm (fst s1)) a sz (entry_view sz e) ->
  map_result tab1 s1 r (a + page_bytes sz) (n - page_bytes sz) res ->
  map_result tab s r a n res.
Proof.
  intros Hpre Hal Hle Htgt G Hleaf Hun Hre (tab' & k & W & G' & Hk & Hin & Hno & Hsame & Hres).
  set (b := page_bytes sz) in *. pose proof (page_bytes_pos sz) as Hb. fold b in Hb.
  destruct (mp_end _ _ _ Hpre) as [_ Hn48].
  assert (forall w, page_of sz a = page_of sz w <-> covers a b w = true) as Hpg
    by (intros w; by apply page_of_covers).
  assert (forall w, covers a b w = false -> lookup tab1 (pm s1.1) w = lookup tab (pm s.1) w) as Hout.
  { intros w Hw. rewrite Hre, decide_False; [done|]. rewrite Hpg, Hw. done. }
  assert (forall w, covers a b w = true -> covers (a + b) k w = false) as Hdis
    by (intros; eapply covers_disjoint; eauto; lia).
  exists tab', (b + k). split_and!; try done; try lia.
  - by eapply grows_trans.
  - intros v Hv. destruct (decide (v < a + b)) as [Hlt|Hge].
    + assert (covers a b v = true) as Hc by (apply covers_in; lia).
      exists e, sz. rewrite (page_start_in sz a v) by (done || (fold b; lia)). cbv zeta. fold b.
      split_and!; try done; try lia. rewrite Hsame by auto. rewrite Hre, decide_True by (by apply Hpg).
      unfold entry_view. by rewrite (leaf_of_test _ _ _ _ Hleaf (mp_flags _ _ _ Hpre)).
    + eapply mapped_in_weaken; [apply Hin| | |done]; lia.
  - intros w. rewrite covers_split by lia. intros Hw.
    destruct (covers a b w) eqn:Hc; [by apply Hun, Hpg|]. rewrite <- Hout by done. by apply Hno.
  - intros w. rewrite covers_split by lia. intros [Hc Hc']%orb_false_iff.
    rewrite Hsame by done. by apply Hout.
  - destruct (fst res) as [[]|err| |]; try done; [lia|]. destruct Hres as [Hlt Hf].
    split; [lia|]. replace (a + (b + k)) with (a + b + k) by lia.
    replace (n - (b + k)) with (n - b - k) by lia. destruct Hf as [Hf|[(He & v & Hv & Hs)|Hf]].
    + by left.
    + right. left. split; [done|]. exists v. split; [done|]. rewrite <- Hout; [done|].
      destruct (covers a b v) eqn:Hc; [|done]. apply rep_in in Hc. unfold rep in Hc.
      rewrite Z.mod_small in Hc; lia.
    + by right; right.
Qed.

Lemma map_loop_ok fuel : forall tab s r a n,
  pt_wf tab s -> map_pre r a n -> n / PAGE_SIZE <= Z.of_nat fuel ->
  map_result tab s r a n (map_loop fuel r a n s).
Proof.
  induction fuel as [|fuel IH]; intros tab s r a n W Hpre Hfuel; simpl.
  all: destruct (Z.ltb_spec 0 n) as [Hn|Hn]; simpl.
  1: { exfalso. destruct (mp_n _ _ _ Hpre). unfold PAGE_SIZE in *. euclid. }
  1, 3: pose proof (mp_n _ _ _ Hpre); assert (n = 0) as -> by lia; exists tab, 0; split_and!; try done;
    [apply grows_refl|intros; lia|intros w; by rewrite covers_0].
  assert (PAGE_SIZE <= n) as Hn4 by (destruct (mp_n _ _ _ Hpre); unfold PAGE_SIZE in *; euclid).
  set (p := map_fn (mapper r) a).
  destruct (choose_size_ok r a p n (proj2 (mp_a _ _ _ Hpre)) Hn4) as (Hal & Hle & Hhuge).
  set (sz := choose_size r a p n) in *.
  destruct (map_pre_next _ _ _ _ Hpre Hal Hle) as (Hpre' & Hadd & Hsub).
  assert (0 <= p < 2 ^ 52) as Hp by (apply (mp_target _ _ _ Hpre); lia).
  destruct (map_page_ok tab s a sz p (rflags r) W (align_down_paddr sz p Hp)) as (tab1 & W1 & G1 & Hr).
  unfold bind, map_errM. destruct (map_page (mkPage a sz) p (rflags r) s) as [[[]|err| |] s1];
    simpl in *; try done.
  - destruct Hr as (e & Hleaf & Hun & Hre). rewrite Hadd, Hsub.
    eapply (map_result_step _ tab1 _ s1 _ _ _ sz e); try done.
    + apply IH; try done. pose proof (page_bytes_pos sz).
      destruct (page_bytes_4k sz) as [q Hq]. rewrite Hq in *. unfold PAGE_SIZE in *.
      replace (n - q * 4096) with (n + - q * 4096) by lia. rewrite Z.div_add by done.
      lia.
  - destruct Hr as [Hsame Hf]. exists tab1, 0. split_and!; try done; try lia.
    + intros w. by rewrite covers_0.
    + split; [lia|]. rewrite Z.add_0_r, Z.sub_0_r. destruct Hf as [[-> Hno]|[Hs|(Hne & -> & Ht)]].
      * by left.
      * right. left. split; [destruct err; simpl; tauto|]. exists a. split; [lia|done].
      * right. right. split_and!; try done; [by apply Hhuge|]. exists a, sz. split_and!; try done; lia.
Qed.

(** ** Unmapping

    The pages that translate the [n] bytes from [a] lie inside them. *)
Definition paged (tab : gmap (Z * Z) Z) (m : gmap Z Z) (a n : Z) : Prop :=
  forall v, a <= v < a + n -> exists e sz, lookup tab m v = Some (e, sz) /\
    a <= page_start sz v /\ page_start sz v + page_bytes sz <= a + n.

Lemma mapped_paged a n r tab m :
  (forall v, a <= v < a + n -> mapped_in a n r tab m v) -> paged tab m a n.
Proof. intros H v Hv. destruct (H v Hv) as (e & sz & ? & ? & ? & _). by exists e, sz. Qed.

Lemma page_start_le sz v : page_start sz v <= v < page_start sz v + page_bytes sz.
Proof. unfold page_start. pose proof (Z.mod_pos_bound v (page_bytes sz) (page_bytes_pos sz)). lia. Qed.

Lemma page_start_aligned sz v : page_start sz v = v -> v mod page_bytes sz = 0.
Proof. unfold page_start. lia. Qed.

(** Every page of the rest starts in the rest, because pages are aligned. *)
Lemma paged_next tab tab' m m' a n sz e :
  paged tab m a n -> 0 <= a -> a mod page_bytes sz = 0 -> lookup tab m a = Some (e, sz) ->
  page_bytes sz <= n -> n <= 2 ^ 48 ->
  (forall v e' sz', lookup tab m v = Some (e', sz') -> page_of sz' v = page_of sz' a ->
     lookup tab m a = Some (e', sz')) ->
  remapped tab tab' m m' a sz None ->
  paged tab' m' (a + page_bytes sz) (n - page_bytes sz).
Proof.
  intros Hp Ha Hal Hl Hle Hn Huniq Hre v Hv. pose proof (page_bytes_pos sz).
  destruct (Hp v) as (e' & sz' & Hl' & H1 & H2); [lia|]. exists e', sz'.
  assert (page_of sz a <> page_of sz v) as Hne.
  { rewrite page_of_covers by done. intros Hc%rep_in. unfold rep in Hc. rewrite Z.mod_small in Hc; lia. }
  split_and!; [by rewrite Hre, decide_False| |lia].
  destruct (decide (a + page_bytes sz <= page_start sz' v)) as [?|Hlt]; [done|]. exfalso.
  pose proof (page_start_le sz' v) as Hps.
  destruct (decide (page_start sz' v <= a)) as [Hin|Hin].
  - assert (page_start sz' v = a) as Heq by lia.
    assert (a mod page_bytes sz' = 0) as Hal'.
    { rewrite <- Heq. unfold page_start. rewrite Zminus_mod, Z.mod_mod, Z.sub_diag by (destruct sz'; done).
      by destruct sz'. }
    assert (page_of sz' v = page_of sz' a) as Hpg.
    { symmetry. apply page_of_covers; [done|]. apply covers_in; lia || (destruct sz'; simpl; lia). }
    rewrite (Huniq _ _ _ Hl' Hpg) in Hl. injection Hl as -> ->. lia.
  - (* the page of [v] starts strictly inside the aligned page of [a] and ends beyond it *)
    assert (page_start sz' v mod page_bytes sz' = 0) as Hm.
    { unfold page_start. rewrite Zminus_mod, Z.mod_mod, Z.sub_diag by (destruct sz'; done). by destruct sz'. }
    destruct sz, sz'; simpl in *; euclid.
Qed.

(** All addresses of a page have the same entry. *)
Lemma lookup_page tab s v w e sz :
  pt_wf tab s -> lookup tab (pm (fst s)) v = Some (e, sz) -> page_of sz v = page_of sz w ->
  lookup tab (pm (fst s)) w = Some (e, sz).
Proof.
  intros W Hl Hpg. pose proof (wf_inv _ _ W) as INV.
  assert (leaf_at tab (pm s.1) sz v = Some e) as Hleaf.
  { unfold lookup in Hl. destruct (leaf_at tab (pm s.1) Size1G v) eqn:H1; [by simplify_eq|].
    destruct (leaf_at tab (pm s.1) Size2M v) eqn:H2; [by simplify_eq|].
    destruct (leaf_at tab (pm s.1) Size4K v) eqn:H3; by simplify_eq/=. }
  unfold leaf_at in Hleaf.
  destruct (tab !! (level sz, prefix (level sz) v)) as [t|] eqn:Ht; [|done]. simpl in Hleaf.
  destruct (leaf_test sz _) eqn:Htest; [|done]. injection Hleaf as He.
  assert (sz <> Size4K -> tab !! (level sz - 1, prefix (level sz - 1) v) = None) as Hn.
  { intros Hne. destruct (tab !! (level sz - 1, _)) as [c|] eqn:Hc; [|done].
    destruct (child_at INV (level sz) v t c) as (_ & Hh & _); [by destruct sz|done..|].
    unfold leaf_test in Htest. destruct sz; [done| |]; simpl in *; by rewrite Hh in Htest. }
  rewrite !page_of_prefix in Hpg. rewrite Hpg in Hn. rewrite <- !page_of_prefix in Hpg.
  apply page_of_key in Hpg as [Hpre Hidx]. rewrite Hpre in Ht. rewrite Hidx in *.
  rewrite (lookup_at INV sz w t Ht) by done. cbv zeta. by rewrite Htest, He.
Qed.

Lemma unmap_loop_ok fuel : forall tab s a n,
  pt_wf tab s -> 0 <= a -> 0 <= n -> a + n < 2 ^ 64 -> n <= 2 ^ 48 -> n / PAGE_SIZE <= Z.of_nat fuel ->
  n mod PAGE_SIZE = 0 -> paged tab (pm (fst s)) a n ->
  exists s', unmap_loop fuel a n s = (Ok tt, s') /\ pt_wf tab s' /\ grows tab tab (fst s) (fst s') /\
    forall w, lookup tab (pm (fst s')) w =
      if covers a n w then None else lookup tab (pm (fst s)) w.
Proof.
  induction fuel as [|fuel IH]; intros tab s a n W Ha Hn He Hn48 Hfuel Hm Hp; simpl.
  all: destruct (Z.ltb_spec 0 n) as [Hpos|Hz]; simpl.
  1: { exfalso. unfold PAGE_SIZE in *. euclid. }
  1, 3: exists s; split_and!; try done; [apply grows_refl|intros w; by rewrite covers_0].
  destruct (Hp a) as (e & sz & Hl & H1 & H2); [lia|].
  pose proof (page_start_le sz a) as Hps. assert (page_start sz a = a) as Heq by lia.
  apply page_start_aligned in Heq as Hal. pose proof (page_bytes_pos sz) as Hb.
  pose proof (unmap_page_ok tab s a W) as Hu. rewrite Hl in Hu.
  destruct Hu as (s1 & Hu & W1 & G1 & Hre).
  unfold bind at 1, map_errM. rewrite Hu. simpl.
  rewrite (proj2 (ps_is_aligned_mod sz a) Hal). unfold bind at 1, assertM, ret.
  rewrite (proj2 (Z.leb_le (page_bytes sz) n)) by lia. unfold bind at 1.
  unfold add64, sub64. rewrite !wrap_small by (unfold in_range; lia).
  assert (paged tab (pm s1.1) (a + page_bytes sz) (n - page_bytes sz)) as Hp1.
  { eapply paged_next; eauto; [lia|]. intros v e' sz' Hl' Hpg. by eapply lookup_page. }
  destruct (IH tab s1 (a + page_bytes sz) (n - page_bytes sz)) as (s2 & -> & W2 & G2 & Hl2);
    try done; try lia.
  { destruct (page_bytes_4k sz) as [q Hq]. rewrite Hq in *. unfold PAGE_SIZE in *.
    replace (n - q * 4096) with (n + - q * 4096) by lia. rewrite Z.div_add by done. lia. }
  { destruct (page_bytes_4k sz) as [q Hq]. rewrite Hq in *. unfold PAGE_SIZE in *.
    replace (n - q * 4096) with (n + - q * 4096) by lia. by rewrite Z.mod_add. }
  exists s2. split_and!; [done|done|by eapply grows_trans|]. intros w. rewrite Hl2, Hre.
  replace n with (page_bytes sz + (n - page_bytes sz)) at 2 by lia. rewrite covers_split by lia.
  destruct (covers a (page_bytes sz) w) eqn:Hc; simpl.
  - rewrite decide_True by (by apply page_of_covers). by case_match.
  - rewrite decide_False; [done|]. by rewrite page_of_covers, Hc.
Qed.

(** Unmapping writes entries only: it neither takes nor frees frames. *)
Definition keeps (s s' : St (A := A)) : Prop := snd s' = snd s /\ fa (fst s') = fa (fst s).

Lemma unmap_page_keeps v s : keeps s (snd (unmap_page v s)).
Proof.
  unfold unmap_page, get_entry, read_pte, write_pte, gets, modify, throw, ret, bind.
  destruct (get_entry_mut _ _ v) as [[x sz]|e| |]; simpl; try done.
  by destruct (pte_is_unused _).
Qed.

Lemma unmap_loop_keeps fuel : forall a n s, keeps s (snd (unmap_loop fuel a n s)).
Proof.
  induction fuel as [|fuel IH]; intros a n s; simpl; destruct (0 <? n); simpl; try done.
  pose proof (unmap_page_keeps a s) as [Hs Hf]. unfold bind, map_errM.
  destruct (unmap_page a s) as [[[p sz]|e| |] s1]; simpl in *; try done.
  unfold assertM, ret, panic. destruct (PageSize.is_aligned sz a); [|done].
  destruct (page_bytes sz <=? n); [|done].
  destruct (IH (add64 a (page_bytes sz)) (sub64 n (page_bytes sz)) s1) as [Hs1 Hf1].
  split; congruence.
Qed.

(** No operation replaces the root. *)
Definition keeps_root {E B} (c : M (St (A := A)) E B) : Prop :=
  forall s, root (snd (snd (c s))) = root (snd s).

Lemma keeps_root_bind {E B D} (c : M St E B) (k : B -> M St E D) :
  keeps_root c -> (forall x, keeps_root (k x)) -> keeps_root (bind c k).
Proof.
  intros Hc Hk s. specialize (Hc s). unfold bind. destruct (c s) as [[x|e| |] s1]; simpl in *; try done.
  by rewrite Hk.
Qed.

Lemma keeps_root_modify_pte {E} x f : keeps_root (modify_pte (E := E) x f).
Proof.
  unfold modify_pte, read_pte, unwrap_pte, write_pte.
  repeat (apply keeps_root_bind; [|intros ?]); try done. by destruct (f _).
Qed.

Lemma keeps_root_create x : keeps_root (next_table_mut_or_create x).
Proof.
  unfold next_table_mut_or_create. apply keeps_root_bind; [done|]. intros e.
  destruct (pte_is_unused e); [|done]. apply keeps_root_bind.
  - intros s. unfold map_errM, alloc_intrm_table, bind, on_machine, zoom.
    by destruct (Frame_new_zero (fst s)) as [[] ?].
  - intros p. apply keeps_root_bind; [apply keeps_root_modify_pte|done].
Qed.

Lemma keeps_root_map_page pg p fl : keeps_root (map_page pg p fl).
Proof.
  unfold map_page, get_entry_mut_or_create. apply keeps_root_bind.
  - apply keeps_root_bind; [done|]. intros r.
    apply keeps_root_bind; [apply keeps_root_create|]. intros p3. case_decide; [done|].
    apply keeps_root_bind; [apply keeps_root_create|]. intros p2. case_decide; [done|].
    by apply keeps_root_bind; [apply keeps_root_create|].
  - intros x. apply keeps_root_bind; [done|]. intros e. destruct (negb _); [done|].
    apply keeps_root_bind; [|intros _]; apply keeps_root_modify_pte.
Qed.

Lemma keeps_root_map_loop r fuel : forall a n, keeps_root (map_loop fuel r a n).
Proof.
  induction fuel as [|fuel IH]; intros a n; simpl; destruct (0 <? n); try done.
  apply keeps_root_bind; [|intros _; apply IH]. intros s. unfold map_errM.
  pose proof (keeps_root_map_page (mkPage a (choose_size r a (map_fn (mapper r) a) n))
    (map_fn (mapper r) a) (rflags r) s) as H.
  by destruct (map_page _ _ _ s) as [o s1].
Qed.

Lemma keeps_root_map r : keeps_root (map r).
Proof. apply keeps_root_map_loop. Qed.

(** ** [Level4PageTable::map] and [unmap] on regions *)

(** A region the table can map: what [MemoryRegion] constructors build, with
    targets below 2^52. *)
Definition region_pre (r : MemoryRegion) : Prop := map_pre r (start r) (rsize r).

Lemma map_region_ok tab s r :
  pt_wf tab s -> region_pre r -> map_result tab s r (start r) (rsize r) (map r s).
Proof.
  intros W Hr. unfold map. apply map_loop_ok; [done..|]. unfold loop_fuel.
  pose proof (mp_n _ _ _ Hr). pose proof (Z.div_pos (rsize r) PAGE_SIZE). unfold PAGE_SIZE in *. lia.
Qed.

Lemma unmap_region_ok tab s r :
  pt_wf tab s -> region_pre r -> region_mapped r tab (pm (fst s)) ->
  exists s', unmap r s = (Ok tt, s') /\ pt_wf tab s' /\ grows tab tab (fst s) (fst s') /\
    forall w, lookup tab (pm (fst s')) w =
      if covers (start r) (rsize r) w then None else lookup tab (pm (fst s)) w.
Proof.
  intros W Hr Hm. unfold unmap. destruct (mp_a _ _ _ Hr), (mp_n _ _ _ Hr), (mp_end _ _ _ Hr).
  pose proof (Z.div_pos (rsize r) PAGE_SIZE).
  apply unmap_loop_ok; try done; [|by eapply mapped_paged].
  unfold loop_fuel. unfold PAGE_SIZE in *. lia.
Qed.

Lemma mapped_query tab s r v :
  pt_wf tab s -> mapped_in (start r) (rsize r) r tab (pm (fst s)) v -> region_pre r -> in_region r v ->
  exists sz, let p := page_start sz v in
    query v s = (Ok (add64 (PageSize.align_down sz (map_fn (mapper r) p)) (v - p),
                     pte_view (rflags r), sz), s) /\
    (sz <> Size4K -> map_fn (mapper r) p mod page_bytes sz = 0 /\
                     contains (rflags r) MEM_NO_HUGEPAGES = false).
Proof.
  intros W (e & sz & Hl & _ & _ & [_ _ Ha Hf] & Hal) Hr Hv. exists sz. cbv zeta. split; [|done].
  rewrite (query_wf _ _ _ W), Hl, Ha.
  destruct (Hf (mp_flags _ _ _ Hr)) as [_ ->]. unfold page_start. by replace (v - (v - v mod page_bytes sz)) with (v mod page_bytes sz) by lia.
Qed.

(** The two mappers: an offset region is translated linearly; a fixed one sends
    every page of the chosen size to the same frame. *)
Lemma align_down_id sz p :
  in_range 64 p -> p mod page_bytes sz = 0 -> PageSize.align_down sz p = p.
Proof. intros Hp Hm. rewrite ps_align_down_mod by done. lia. Qed.

Lemma offset_query tab s r off v :
  pt_wf tab s -> mapped_in (start r) (rsize r) r tab (pm (fst s)) v -> region_pre r -> in_region r v ->
  mapper r = Offset off -> off mod PAGE_SIZE = 0 ->
  exists sz, query v s = (Ok (sub64 v off, pte_view (rflags r), sz), s).
Proof.
  intros W Hm Hr Hv Hmap Hoff. destruct (mapped_query tab s r v W Hm Hr Hv) as (sz & Hq & Hal).
  exists sz. rewrite Hq. rewrite Hmap in *. simpl in *. set (p := page_start sz v) in *.
  assert (p mod page_bytes sz = 0) as Hpm.
  { unfold p, page_start. rewrite Zminus_mod, Z.mod_mod, Z.sub_diag by (destruct sz; done). by destruct sz. }
  rewrite align_down_id.
  - do 3 f_equal. unfold add64, sub64, wrap. rewrite Zplus_mod_idemp_l. do 2 f_equal. lia.
  - apply wrap_range. lia.
  - destruct sz; [|by apply Hal..]. unfold sub64, wrap. simpl in *. unfold PAGE_SIZE in *. euclid.
Qed.

Lemma fixed_query tab s r p0 v :
  pt_wf tab s -> mapped_in (start r) (rsize r) r tab (pm (fst s)) v -> region_pre r -> in_region r v ->
  mapper r = Fixed p0 -> p0 mod PAGE_SIZE = 0 ->
  exists sz, query v s = (Ok (add64 p0 (v mod page_bytes sz), pte_view (rflags r), sz), s) /\
    (sz <> Size4K -> p0 mod page_bytes sz = 0 /\ contains (rflags r) MEM_NO_HUGEPAGES = false).
Proof.
  intros W Hm Hr Hv Hmap Hoff. destruct (mapped_query tab s r v W Hm Hr Hv) as (sz & Hq & Hal).
  exists sz. rewrite Hq. pose proof (mp_target _ _ _ Hr v Hv) as Ht. rewrite Hmap in *. simpl in *.
  split; [|done]. rewrite align_down_id.
  - by replace (v - page_start sz v) with (v mod page_bytes sz) by (unfold page_start; lia).
  - unfold in_range. lia.
  - by destruct sz; [|apply Hal..].
Qed.

(** The constructors build mappable regions. *)
Lemma offset_pre v p n fl :
  0 <= v -> v mod PAGE_SIZE = 0 -> 0 <= p -> p mod PAGE_SIZE = 0 -> 0 <= n -> n mod PAGE_SIZE = 0 ->
  v + n + PAGE_SIZE <= 2 ^ 64 -> n <= 2 ^ 48 -> p + n <= 2 ^ 52 -> pte_flags_ok fl = true ->
  new_with_offset_mapper v p n fl = mkRegion v n fl (Offset (sub64 v p)) /\
  region_pre (new_with_offset_mapper v p n fl).
Proof.
  intros Hv Hva Hp Hpa Hn Hna He H48 Hpe Hfl.
  unfold new_with_offset_mapper, MemoryRegion_new, region_pre. unfold PAGE_SIZE in *.
  rewrite (align_down_mod p), (align_down_mod v) by (unfold in_range; lia).
  unfold PAGE_SIZE. rewrite Hpa, Hva, !Z.sub_0_r. rewrite align_down_mod by (unfold in_range; lia).
  rewrite align_up_mod by (unfold PAGE_SIZE; lia). unfold PAGE_SIZE. rewrite Hva, Z.sub_0_r.
  replace (n + (0x1000 - 1) - (n + (0x1000 - 1)) mod 0x1000) with n by euclid.
  split; [done|]. constructor; simpl; unfold PAGE_SIZE; try lia; try done.
  intros w Hw. unfold sub64, wrap. rewrite Zminus_mod_idemp_r.
  replace (w - (v - p)) with (w - v + p) by lia. rewrite Z.mod_small; lia.
Qed.

(** ** Other page tables

    Two tables that share no frame: an operation on one leaves the other, and
    its translation, alone. *)
Definition separate (tab tab2 : gmap (Z * Z) Z) : Prop :=
  forall k k' t, tab !! k = Some t -> tab2 !! k' = Some t -> False.

Lemma ent_other tab tab' tab2 (s s' : Machine A) root2 k t i :
  pt_inv tab2 root2 (pm s) (fa s) -> (forall k t, tab' !! k = Some t -> table_ok t) ->
  grows tab tab' s s' -> separate tab tab2 -> tab2 !! k = Some t -> 0 <= i < 512 ->
  ent (pm s') t i = ent (pm s) t i.
Proof.
  intros I2 Hok G Hsep Ht Hi. apply (grows_mem _ _ _ _ G). intros (k' & t' & Ht' & Hr).
  pose proof (inv_table_ok _ _ _ _ I2 _ _ Ht) as (_ & Ha & _).
  pose proof (Hok _ _ Ht') as (_ & Ha' & _).
  destruct (aligned_block_eq PAGE_SIZE t t' (8 * i) (t + 8 * i - t')) as [-> _];
    unfold PAGE_SIZE in *; try (lia || done).
  destruct (grows_new _ _ _ _ G _ _ Ht') as [Hold|Hfree]; [by eapply Hsep|].
  by apply (inv_not_free _ _ _ _ I2 _ _ Ht).
Qed.

Lemma grows_other tab tab' tab2 (m m' : Machine A) pt2 :
  (forall k t, tab' !! k = Some t -> table_ok t) -> fa_wf (fa m') -> grows tab tab' m m' ->
  pt_wf tab2 (m, pt2) -> separate tab tab2 ->
  pt_wf tab2 (m', pt2) /\ separate tab' tab2 /\
  forall w, lookup tab2 (pm m') w = lookup tab2 (pm m) w.
Proof.
  intros Hok Hf G W2 Hsep. pose proof (wf_inv _ _ W2) as I2. simpl in I2.
  assert (forall k t i, tab2 !! k = Some t -> 0 <= i < 512 ->
    ent (pm m') t i = ent (pm m) t i) as He.
  { intros. eapply ent_other; eauto. }
  split_and!.
  - constructor; simpl; try apply W2; [|done]. constructor; try apply I2.
    + intros k t Ht Hfr. apply (inv_not_free _ _ _ _ I2 _ _ Ht). by apply G.
    + intros k t i Ht Hi. rewrite (He _ _ _ Ht Hi). by eapply inv_range.
    + intros L p t i c Ht HL Hi Hc. rewrite (He _ _ _ Ht Hi). by eapply inv_child.
    + intros L p t i Ht HL Hi Hc. rewrite (He _ _ _ Ht Hi). by eapply inv_end.
  - intros k k' t Ht Ht2. destruct (grows_new _ _ _ _ G _ _ Ht) as [Hold|Hfree]; [by eapply Hsep|].
    by apply (inv_not_free _ _ _ _ I2 _ _ Ht2).
  - intros w. assert (forall sz, leaf_at tab2 (pm m') sz w = leaf_at tab2 (pm m) sz w) as Hl.
    { intros sz. unfold leaf_at. destruct (tab2 !! _) as [t|] eqn:Ht; [|done].
      by rewrite (He _ _ _ Ht (idx_range _ _)). }
    unfold lookup. by rewrite !Hl.
Qed.

(** ** Dropping a table gives its frames back *)
Lemma Frame_drop_spec (m : Machine A) (f : Frame) :
  fa_wf (fa m) -> frame_count f = 1 -> ~ frame_free (fa m) (start_paddr f) ->
  table_ok (start_paddr f) -> base (fa m) <= start_paddr f < base (fa m) + ba_cap * PAGE_SIZE ->
  exists m', (forall E, Frame_drop (E := E) f m = (Ok tt, m')) /\ pm m' = pm m /\
    fa_wf (fa m') /\ base (fa m') = base (fa m) /\
    forall q, frame_free (fa m') q <-> frame_free (fa m) q \/ q = start_paddr f.
Proof.
  intros Hf Hc Hn Hok Hb. eexists. split; [intros E; unfold Frame_drop; by rewrite Hc|].
  destruct (fa_dealloc_spec (fa m) (start_paddr f)) as [Hf' Hq]; try done; try apply Hok.
Qed.

Definition in_pool (f : FrameAllocator A) (p : Z) : Prop :=
  base f <= p < base f + ba_cap * PAGE_SIZE.

(** A table whose frames, the root included, come from the allocator. *)
Definition owned (tab : gmap (Z * Z) Z) (s : St (A := A)) : Prop :=
  frame_count (root (snd s)) = 1 /\ forall k t, tab !! k = Some t -> in_pool (fa (fst s)) t.

Lemma frame_free_pool f q : frame_free f q -> in_pool f q.
Proof.
  intros (i & Hi & ->). apply ba_test_bound in Hi. unfold in_pool, PAGE_SIZE. nia.
Qed.

Lemma grows_owned tab tab' s s' :
  grows tab tab' (fst s) (fst s') -> root (snd s') = root (snd s) -> owned tab s -> owned tab' s'.
Proof.
  intros G Hroot [Hr Hp]. split; [by rewrite Hroot|]. intros k t Ht. unfold in_pool.
  rewrite (grows_base _ _ _ _ G).
  destruct (grows_new _ _ _ _ G _ _ Ht) as [Hold|Hf]; [by eapply Hp|by apply frame_free_pool].
Qed.

Definition droppable (m : Machine A) (f : Frame) : Prop :=
  frame_count f = 1 /\ ~ frame_free (fa m) (start_paddr f) /\ table_ok (start_paddr f) /\
  in_pool (fa m) (start_paddr f).

Definition dropped (m m' : Machine A) (l : list Frame) : Prop :=
  pm m' = pm m /\ fa_wf (fa m') /\ base (fa m') = base (fa m) /\
  forall q, frame_free (fa m') q <-> frame_free (fa m) q \/ q ∈ start_paddr <$> l.

Lemma drop_one E (m m1 : Machine A) l f (c : M (Machine A) E unit) m0 :
  c m0 = (Ok tt, m1) -> dropped m m1 l -> droppable m f -> start_paddr f ∉ start_paddr <$> l ->
  exists m', (c ;;; Frame_drop f) m0 = (Ok tt, m') /\ dropped m m' (l ++ [f]).
Proof.
  intros Hc (Hpm & Hf1 & Hb1 & Hq1) (Hcnt & Hnf & Hok & Hpool) Hni.
  destruct (Frame_drop_spec m1 f) as (m' & Hd & Hpm' & Hf' & Hb' & Hq'); try done.
  - rewrite Hq1. by intros [?|?].
  - unfold in_pool in Hpool. by rewrite Hb1.
  - exists m'. split; [by rewrite (bind_ok _ _ _ _ _ Hc)|].
    split_and!; [congruence|done|congruence|].
    intros q. rewrite Hq', Hq1, fmap_app, elem_of_app. simpl. rewrite list_elem_of_singleton. tauto.
Qed.

Lemma drop_frames E l0 l : forall (m m0 m1 : Machine A) (c : M (Machine A) E unit),
  c m0 = (Ok tt, m1) -> dropped m m1 l0 -> Forall (droppable m) l ->
  NoDup (start_paddr <$> l0 ++ l) ->
  exists m', foldl (fun c f => c ;;; Frame_drop f) c l m0 = (Ok tt, m') /\ dropped m m' (l0 ++ l).
Proof.
  revert l0. induction l as [|f l IH]; intros l0 m m0 m1 c Hc Hd Hall Hnd.
  { exists m1. by rewrite app_nil_r. }
  apply list.Forall_cons in Hall as [Hf Hall]. simpl.
  destruct (drop_one E m m1 l0 f c m0) as (m2 & Hc2 & Hd2); try done.
  { rewrite fmap_app in Hnd. apply list.NoDup_app in Hnd as (_ & Hdis & _).
    intros Hin. apply (Hdis _ Hin). simpl. apply elem_of_cons. by left. }
  destruct (IH (l0 ++ [f]) m m0 m2 (c ;;; Frame_drop f)) as (m' & Hm' & Hd'); try done.
  { by rewrite <- app_assoc. }
  exists m'. split; [done|]. by rewrite <- app_assoc in Hd'.
Qed.

Lemma pt_drop_ok E tab (s : St (A := A)) :
  pt_wf tab s -> owned tab s ->
  exists m', pt_drop (E := E) (snd s) (fst s) = (Ok tt, m') /\
    dropped (fst s) m' (root (snd s) :: intrm_tables (snd s)).
Proof.
  intros W [Hroot Hpool].
  assert (Forall (droppable (fst s)) (root (snd s) :: intrm_tables (snd s))) as Hall.
  { apply list.Forall_forall. intros f Hf. unfold droppable.
    assert (exists k, tab !! k = Some (start_paddr f)) as [k Hk].
    { apply (wf_frames _ _ W). unfold frames. apply list_elem_of_fmap. by exists f. }
    split_and!; [|by eapply inv_not_free, Hk; apply W|by eapply inv_table_ok, Hk; apply W|by eapply Hpool].
    apply elem_of_cons in Hf as [->|Hf]; [done|].
    pose proof (wf_count _ _ W) as Hc. rewrite list.Forall_forall in Hc. by apply Hc. }
  apply list.Forall_cons in Hall as [Hr Hall]. unfold pt_drop.
  destruct (drop_one E (fst s) (fst s) [] (root (snd s)) (ret tt) (fst s)) as (m1 & Hm1 & Hd1); try done.
  { split_and!; try done; [apply W|]. intros q. simpl. rewrite elem_of_nil. tauto. }
  { simpl. apply not_elem_of_nil. }
  eapply (drop_frames E [root (snd s)]); try done. pose proof (wf_nodup _ _ W) as Hnd. exact Hnd.
Qed.
End Regions.
