(* ===== verification/MemorySet.v ===== *)
(** * Memory sets

    [MemorySet] of [src/src/memory/mm.rs]: the regions of an address space, in
    a map ordered by their start, and the page table they are mapped in. The
    invariant [ms_wf] says that the page table translates exactly what the
    regions say. *)

From S2P Require Import Prelude Crates HvError Addr PhysMem Frame Pte Region BTree Paging PagingInv PagingOps PagingSpec.

Record MemorySet : Type := mkMemorySet {
  regions : list (Z * MemoryRegion);
  pt : Level4PageTable;
}.

Section MemorySet.
Context {A : Type} {ba : BitAlloc A} {pv : PhysVirt} {pte : GenericPTE}.

Definition MSt : Type := (Machine A * MemorySet)%type.

(** The page table of the set, as the state of the paging operations. *)
Definition pt_st (s : MSt) : St := (fst s, pt (snd s)).
Definition on_pt {E B} (c : M St E B) : M MSt E B :=
  zoom pt_st (fun t s => (fst t, mkMemorySet (regions (snd s)) (snd t))) c.

Definition set_regions {E} (f : list (Z * MemoryRegion) -> list (Z * MemoryRegion)) : M MSt E unit :=
  modify (fun s => (fst s, mkMemorySet (f (regions (snd s))) (pt (snd s)))).

Definition ms_new {E} : M (Machine A) E MemorySet :=
  let* pt := pt_new in
  ret (mkMemorySet [] pt).

Definition ms_clone {E} (ms : MemorySet) : M (Machine A) E MemorySet :=
  let* pt' := clone (pt ms) in
  ret (mkMemorySet (regions ms) pt').

Definition test_free_area (l : list (Z * MemoryRegion)) (other : MemoryRegion) : bool :=
  match bt_last_before (start other) l with
  | Some (_, before) => negb (is_overlap_with before other)
  | None => true
  end &&
  match bt_first_from (start other) l with
  | Some (_, after) => negb (is_overlap_with after other)
  | None => true
  end.

Definition insert (region : MemoryRegion) : M MSt HvErrorNum unit :=
  if rsize region =? 0 then ret tt else
  let* l := gets (fun s => regions (snd s)) in
  if negb (test_free_area l region) then throw EINVAL else
  on_pt (map region) ;;;
  set_regions (bt_insert (start region) region).

Definition delete (start : Z) : M MSt HvErrorNum unit :=
  let* l := gets (fun s => regions (snd s)) in
  match bt_get start l with
  | Some r => on_pt (unmap r) ;;; set_regions (bt_remove start)
  | None => throw EINVAL
  end.

Fixpoint unmap_all {E} (l : list MemoryRegion) : M MSt E unit :=
  match l with
  | [] => ret tt
  | r :: l' => expect (on_pt (unmap r)) ;;; unmap_all l'
  end.

Definition clear {E} : M MSt E unit :=
  let* l := gets (fun s => regions (snd s)) in
  unmap_all (bt_values l) ;;;
  set_regions (fun _ => []).

(** [impl Drop for MemorySet], then the drop of the page table. *)
Definition ms_drop {E} (ms : MemorySet) : M (Machine A) E unit := fun m =>
  match clear (m, ms) with
  | (Ok tt, (m', ms')) => pt_drop (pt ms') m'
  | (Err e, (m', _)) => (Err e, m')
  | (Panic, (m', _)) => (Panic, m')
  | (Diverge, (m', _)) => (Diverge, m')
  end.

(** ** Well-formed sets *)
Context {bal : BitAllocLaws A} {laws : PTELaws}.

(** The regions alone: indexed by their start, non-empty, mappable and
    pairwise disjoint. *)
Record regions_wf (l : list (Z * MemoryRegion)) : Prop := {
  rw_sorted : bt_sorted l;
  rw_key : forall k r, (k, r) ∈ l -> k = start r;
  rw_pre : forall k r, (k, r) ∈ l -> region_pre r /\ 0 < rsize r;
  rw_disjoint : forall k r k' r', (k, r) ∈ l -> (k', r') ∈ l -> k < k' -> start r + rsize r <= start r';
}.

(** The page table holds every region, and nothing else. *)
Record table_exact (l : list (Z * MemoryRegion)) (tab : gmap (Z * Z) Z) (m : gmap Z Z) : Prop := {
  te_mapped : forall k r, (k, r) ∈ l -> region_mapped r tab m;
  te_only : forall w e, lookup tab m w = Some e ->
    exists k r, (k, r) ∈ l /\ covers (start r) (rsize r) w = true;
}.

(** No region covers an address of another one, in the 48-bit space. *)
Definition regions_apart (l : list (Z * MemoryRegion)) : Prop :=
  forall k r k' r' w, (k, r) ∈ l -> (k', r') ∈ l -> k <> k' ->
    covers (start r) (rsize r) w = true -> covers (start r') (rsize r') w = false.

Record ms_wf (tab : gmap (Z * Z) Z) (s : MSt) : Prop := {
  ms_pt : pt_wf tab (pt_st s);
  ms_regions : regions_wf (regions (snd s));
  ms_apart : regions_apart (regions (snd s));
  ms_exact : table_exact (regions (snd s)) tab (pm (fst s));
}.

(** ** [test_free_area] looks at two neighbours only *)
Lemma region_pre_ok r : region_pre r -> region_ok r.
Proof. intros [? ? ? _ _]. unfold region_ok. tauto. Qed.

Lemma is_overlap_false r o :
  region_pre r -> region_pre o ->
  is_overlap_with r o = false <-> start r + rsize r <= start o \/ start o + rsize o <= start r.
Proof.
  intros [? [? _] [? _] _ _] [? [? _] [? _] _ _]. unfold is_overlap_with, add64.
  rewrite !wrap_small by (unfold in_range; lia). rewrite negb_false_iff, orb_true_iff, !Z.leb_le. done.
Qed.

Lemma test_free_area_spec l o :
  regions_wf l -> region_pre o -> 0 < rsize o ->
  test_free_area l o = true <-> forall k r, (k, r) ∈ l -> is_overlap_with r o = false.
Proof.
  intros [Hs Hk Hp Hd] Ho Hpos. unfold test_free_area. rewrite andb_true_iff. split.
  - intros [Hb Ha] k r Hin. rewrite is_overlap_false by (done || by eapply Hp).
    destruct (decide (k < start o)) as [Hlt|Hge].
    + destruct (bt_last_before (start o) l) as [[kb b]|] eqn:Hbe.
      2:{ apply (bt_last_before_none _ _ _ Hbe) in Hin. simpl in Hin. lia. }
      apply bt_last_before_some in Hbe as (Hbin & Hblt & Hmax); [|done]. simpl in *.
      apply negb_true_iff, is_overlap_false in Hb; [|by eapply Hp|done].
      pose proof (Hk _ _ Hbin). pose proof (Hk _ _ Hin). destruct (Hp _ _ Hin) as [_ ?].
      specialize (Hmax _ Hin Hlt). simpl in Hmax. destruct (decide (k = kb)) as [->|Hne].
      * rewrite (bt_key_unique _ _ _ _ Hs Hin Hbin). lia.
      * pose proof (Hd _ _ _ _ Hin Hbin ltac:(lia)). lia.
    + destruct (bt_first_from (start o) l) as [[ka a]|] eqn:Hae.
      2:{ apply (bt_first_from_none _ _ _ Hae) in Hin. simpl in Hin. lia. }
      apply bt_first_from_some in Hae as (Hain & Hage & Hmin); [|done]. simpl in *.
      apply negb_true_iff, is_overlap_false in Ha; [|by eapply Hp|done].
      pose proof (Hk _ _ Hain). pose proof (Hk _ _ Hin). destruct (Hp _ _ Hain) as [_ ?].
      specialize (Hmin _ Hin ltac:(simpl; lia)). simpl in Hmin. lia.
  - intros Hall. split.
    + destruct (bt_last_before (start o) l) as [[kb b]|] eqn:Hbe; [|done].
      apply bt_last_before_some in Hbe as (Hbin & _); [|done]. apply negb_true_iff. eauto.
    + destruct (bt_first_from (start o) l) as [[ka a]|] eqn:Hae; [|done].
      apply bt_first_from_some in Hae as (Hain & _); [|done]. apply negb_true_iff. eauto.
Qed.

(** ** [insert] *)
Lemma region_mapped_lookup r tab m w :
  region_mapped r tab m -> covers (start r) (rsize r) w = true -> is_Some (lookup tab m w).
Proof.
  intros Hm Hc. apply rep_in in Hc as Hr. destruct (Hm _ Hr) as (e & sz & Hl & _).
  rewrite (lookup_mod tab m w (rep (start r) w)) by (symmetry; apply rep_mod). eauto.
Qed.

Lemma region_covers r v : region_pre r -> in_region r v -> covers (start r) (rsize r) v = true.
Proof. intros Hp Hv. apply covers_in; [done|]. apply (mp_end _ _ _ Hp). Qed.

Lemma region_mapped_frame r tab m tab' m' :
  region_mapped r tab m -> (forall v, in_region r v -> lookup tab' m' v = lookup tab m v) ->
  region_mapped r tab' m'.
Proof. intros Hm Heq v Hv. eapply mapped_in_weaken; [by apply Hm|lia..|by apply Heq]. Qed.

Lemma regions_wf_insert l o :
  regions_wf l -> region_pre o -> 0 < rsize o ->
  (forall k r, (k, r) ∈ l -> is_overlap_with r o = false) -> regions_wf (bt_insert (start o) o l).
Proof.
  intros [Hs Hk Hp Hd] Ho Hpos Hfree.
  assert (forall k r, (k, r) ∈ l -> start r + rsize r <= start o \/ start o + rsize o <= start r) as Hov.
  { intros k r Hin. apply is_overlap_false; [by eapply Hp|done|eauto]. }
  constructor.
  - by apply bt_sorted_insert.
  - intros k r [[= -> ->]|[_ H]]%bt_elem_insert; eauto.
  - intros k r [[= -> ->]|[_ H]]%bt_elem_insert; eauto.
  - intros k r k' r' [[= -> ->]|[Hne H]]%bt_elem_insert [[= -> ->]|[Hne' H']]%bt_elem_insert Hlt;
      try done; try lia; eauto; simpl in *.
    + pose proof (Hk _ _ H'). destruct (Hp _ _ H'), (Hov _ _ H'); lia.
    + pose proof (Hk _ _ H). destruct (Hp _ _ H), (Hov _ _ H); lia.
Qed.

Lemma regions_apart_insert l o tab m :
  regions_wf l -> regions_apart l -> table_exact l tab m ->
  (forall w, covers (start o) (rsize o) w = true -> lookup tab m w = None) ->
  regions_apart (bt_insert (start o) o l).
Proof.
  intros Hwf Ha [Hm _] Hnone k r k' r' w.
  assert (forall k r, (k, r) ∈ l -> covers (start r) (rsize r) w = true ->
    covers (start o) (rsize o) w = true -> False) as Hx.
  { intros k0 r0 Hin Hc Hco. destruct (region_mapped_lookup _ _ _ _ (Hm _ _ Hin) Hc) as [x Hx].
    by rewrite Hnone in Hx. }
  pose proof (rw_sorted _ Hwf).
  intros [[= -> ->]|[Hne H1]]%bt_elem_insert [[= -> ->]|[Hne' H2]]%bt_elem_insert Hk Hc; try done.
  - destruct (covers (start r') (rsize r') w) eqn:Hc'; [|done]. exfalso. eauto.
  - destruct (covers (start o) (rsize o) w) eqn:Hc'; [|done]. exfalso. eauto.
  - eapply Ha; [exact H1|exact H2|done..].
Qed.

(** What inserting a region can do. On an error of the page table the regions
    stay, but the first [k] bytes of the region remain mapped. *)
Definition insert_result (tab : gmap (Z * Z) Z) (s : MSt) (r : MemoryRegion)
  (res : outcome HvErrorNum unit * MSt) : Prop :=
  let s' := snd res in
  match fst res with
  | Ok _ => exists tab', ms_wf tab' s' /\ grows tab tab' (fst s) (fst s') /\
      regions (snd s') = (if rsize r =? 0 then regions (snd s)
                          else bt_insert (start r) r (regions (snd s))) /\
      (0 < rsize r -> forall k r', (k, r') ∈ regions (snd s) -> k <> start r)
  | Err e =>
      regions (snd s') = regions (snd s) /\ 0 < rsize r /\
      (e = EINVAL /\ s' = s /\ (exists k r', (k, r') ∈ regions (snd s) /\ is_overlap_with r' r = true) \/
       map_result tab (pt_st s) r (start r) (rsize r) (Err e, pt_st s'))
  | _ => False
  end.

Lemma insert_ok tab s r :
  ms_wf tab s -> region_pre r -> insert_result tab s r (insert r s).
Proof.
  intros [Hpt Hr Ha He] Hpre. destruct (insert r s) as [res s2] eqn:Hres.
  unfold insert in Hres. unfold insert_result. simpl. destruct (mp_n _ _ _ Hpre) as [Hn _].
  destruct (Z.eqb_spec (rsize r) 0) as [H0|H0].
  { injection Hres as <- <-. exists tab. split_and!; try done; [apply grows_refl|lia]. }
  unfold bind at 1, gets in Hres.
  pose proof (test_free_area_spec _ r Hr Hpre ltac:(lia)) as Hfree.
  destruct (test_free_area (regions s.2) r) eqn:Ht; simpl in Hres.
  2:{ injection Hres as <- <-. split_and!; [done|lia|]. left. split_and!; try done.
      destruct (decide (Exists (fun e => is_overlap_with (snd e) r = true) (regions s.2))) as [Hex|Hno].
      - apply Exists_exists in Hex as ([k r'] & ? & ?). eauto.
      - exfalso. assert (false = true); [|done]. apply Hfree. intros k r' Hin.
        destruct (is_overlap_with r' r) eqn:Ho; [|done]. exfalso. apply Hno, Exists_exists. by exists (k, r'). }
  pose proof (map_region_ok tab (pt_st s) r Hpt Hpre) as Hmap.
  unfold bind, on_pt, zoom in Hres.
  destruct (map r (pt_st s)) as [[[]|e| |] s'] eqn:Hm; injection Hres as <- <-; simpl;
    try (by destruct Hmap as (? & ? & _ & _ & _ & _ & _ & _ & [])).
  2:{ split_and!; [done|lia|]. right. by destruct s'. }
  destruct Hmap as (tab' & k & W & G & Hk & Hin & Hnone & Hsame & ->). simpl in *.
  assert (forall k r', (k, r') ∈ regions s.2 -> forall v, in_region r' v ->
    lookup tab' (pm s'.1) v = lookup tab (pm s.1) v) as Hframe.
  { intros k r' Hr' v Hv. apply Hsame. destruct (covers (start r) (rsize r) v) eqn:Hc; [|done].
    destruct (te_mapped _ _ _ He _ _ Hr' v Hv) as (? & ? & Hl & _). by rewrite Hnone in Hl. }
  assert (forall k r', (k, r') ∈ regions s.2 -> k <> start r) as Hkey.
  { intros k r' Hr' ->. pose proof (rw_key _ Hr _ _ Hr') as Heq.
    pose proof (proj1 Hfree eq_refl _ _ Hr') as Ho. destruct (rw_pre _ Hr _ _ Hr').
    apply is_overlap_false in Ho; [lia|done..]. }
  exists tab'. split_and!; try done. constructor; simpl; try done.
  - by destruct s'.
  - apply regions_wf_insert; try done; [lia|by apply Hfree].
  - by eapply regions_apart_insert.
  - pose proof (rw_sorted _ Hr). constructor.
    + intros k r' [[= -> ->]|[_ H']]%bt_elem_insert; [exact Hin| |done].
      eapply region_mapped_frame; [by eapply He|eauto].
    + intros w e Hl. destruct (covers (start r) (rsize r) w) eqn:Hc.
      * exists (start r), r. split; [|done]. apply bt_elem_insert; auto.
      * rewrite Hsame in Hl by done. destruct (te_only _ _ _ He _ _ Hl) as (k & r' & Hr' & Hc').
        exists k, r'. split; [|done]. apply bt_elem_insert; [done|]. right. split; [|done].
        by eapply Hkey.
Qed.

(** ** [delete] and [clear] *)
Lemma regions_wf_sub l l' :
  regions_wf l -> bt_sorted l' -> (forall e, e ∈ l' -> e ∈ l) -> regions_wf l'.
Proof. intros [Hs Hk Hp Hd] Hs' Hsub. constructor; try done; eauto. Qed.

Lemma regions_apart_sub l l' : regions_apart l -> (forall e, e ∈ l' -> e ∈ l) -> regions_apart l'.
Proof. intros Ha Hsub k r k' r' w H1 H2. by apply Ha; apply Hsub. Qed.

(** What [clear] needs: every region is mapped. Unlike [ms_wf] this survives a
    failed [insert], which leaves pages of no region behind. *)
Record ms_weak (l : list (Z * MemoryRegion)) (tab : gmap (Z * Z) Z) (st : St (A := A)) : Prop := {
  weak_pt : pt_wf tab st;
  weak_regions : regions_wf l;
  weak_apart : regions_apart l;
  weak_mapped : forall k r, (k, r) ∈ l -> region_mapped r tab (pm (fst st));
}.

Lemma ms_wf_weak tab s : ms_wf tab s -> ms_weak (regions (snd s)) tab (pt_st s).
Proof. intros [? ? ? [? _]]. by constructor. Qed.

(** Unmapping one region keeps the others. *)
Lemma unmap_weak l l' k r tab st :
  ms_weak l tab st -> (k, r) ∈ l -> bt_sorted l' -> (forall e, e ∈ l' <-> fst e <> k /\ e ∈ l) ->
  exists st', unmap r st = (Ok tt, st') /\ ms_weak l' tab st' /\ grows tab tab (fst st) (fst st') /\
    forall w, lookup tab (pm (fst st')) w =
      if covers (start r) (rsize r) w then None else lookup tab (pm (fst st)) w.
Proof.
  intros [W Hr Ha He] Hin Hs' Hl'. destruct (rw_pre _ Hr _ _ Hin) as [Hpre Hpos].
  destruct (unmap_region_ok tab st r W Hpre (He _ _ Hin)) as (st' & Hu & W' & G & Hl).
  assert (forall e, e ∈ l' -> e ∈ l) as Hsub by (intros e He'; by apply Hl').
  exists st'. split_and!; try done. constructor; [done|by eapply regions_wf_sub|by eapply regions_apart_sub|].
  intros k' r' [Hne H']%Hl'. simpl in Hne. eapply region_mapped_frame; [by eapply He|].
  intros v Hv. rewrite Hl, (Ha _ _ _ _ v H' Hin Hne); [done|].
  apply region_covers; [|done]. by apply (rw_pre _ Hr _ _ H').
Qed.

Lemma delete_ok tab s k :
  ms_wf tab s ->
  match bt_get k (regions (snd s)) with
  | Some _ => exists s', delete k s = (Ok tt, s') /\ ms_wf tab s' /\ grows tab tab (fst s) (fst s') /\
      regions (snd s') = bt_remove k (regions (snd s))
  | None => delete k s = (Err EINVAL, s)
  end.
Proof.
  intros W. pose proof (ms_wf_weak _ _ W) as Hw. destruct W as [Hpt Hr Ha He]. unfold delete.
  destruct (bt_get k (regions s.2)) as [r|] eqn:Hg.
  2:{ unfold bind, gets. by rewrite Hg. }
  apply bt_get_elem in Hg as Hin; [|apply Hr].
  destruct (unmap_weak _ (bt_remove k (regions s.2)) k r tab (pt_st s) Hw Hin)
    as (st' & Hu & [W' Hr' Ha' He'] & G & Hl); [by apply bt_sorted_filter, Hr|intros e; apply bt_elem_remove|].
  unfold bind, on_pt, zoom, gets. rewrite Hg, Hu.
  eexists. split; [done|]. simpl. split_and!; try done. constructor; simpl; try done; [by destruct st'|].
  constructor; [done|]. intros w e. rewrite Hl.
  destruct (covers (start r) (rsize r) w) eqn:Hc; [done|]. intros Hlw.
  destruct (te_only _ _ _ He _ _ Hlw) as (k' & r' & H' & Hc'). exists k', r'. split; [|done].
  apply bt_elem_remove. split; [|done]. simpl. intros ->.
  rewrite (bt_key_unique _ _ _ _ (rw_sorted _ Hr) H' Hin) in Hc'. congruence.
Qed.

Lemma unmap_all_ok E l : forall tab s,
  ms_weak l tab (pt_st s) ->
  exists s', unmap_all (E := E) (bt_values l) s = (Ok tt, s') /\ pt_wf tab (pt_st s') /\
    grows tab tab (fst s) (fst s') /\
    forall w e, lookup tab (pm (fst s')) w = Some e -> lookup tab (pm (fst s)) w = Some e /\
      forall k r, (k, r) ∈ l -> covers (start r) (rsize r) w = false.
Proof.
  induction l as [|[k r] l IH]; intros tab s Hw; simpl.
  { exists s. split_and!; try done; [apply Hw|apply grows_refl|].
    intros w e He. split; [done|]. intros k r H. by apply elem_of_nil in H. }
  destruct (rw_sorted _ (weak_regions _ _ _ Hw)) as [Hlt Hs].
  destruct (unmap_weak _ l k r tab (pt_st s) Hw) as (st' & Hu & W' & G & Hl); try done.
  { apply elem_of_cons. by left. }
  { intros e. rewrite elem_of_cons. split.
    - intros H. split; [|by right]. apply Hlt in H. simpl in H. lia.
    - by intros [Hne [->|H]]. }
  unfold bind, expect, on_pt, zoom. rewrite Hu.
  destruct (IH tab (fst st', mkMemorySet (regions s.2) (snd st'))) as (s' & Hs' & W2 & G2 & He2); simpl.
  - by destruct st'.
  - exists s'. split_and!; try done; [by eapply grows_trans|]. intros w e Hlw.
    destruct (He2 w e Hlw) as [Hlw1 Hno]. simpl in Hlw1. rewrite Hl in Hlw1.
    destruct (covers (start r) (rsize r) w) eqn:Hc; [done|]. split; [done|].
    intros k' r' [[= -> ->]|H']%elem_of_cons; eauto.
Qed.

Lemma empty_wf tab (s : MSt) :
  pt_wf tab (pt_st s) -> regions (snd s) = [] -> (forall w, lookup tab (pm (fst s)) w = None) -> ms_wf tab s.
Proof.
  intros W Hnil Hl. constructor; rewrite ?Hnil; try done.
  - constructor; simpl; try done; intros *; rewrite elem_of_nil; done.
  - intros k r k' r' w H. by apply elem_of_nil in H.
  - constructor; [intros k r H; by apply elem_of_nil in H|]. intros w e. by rewrite Hl.
Qed.

Lemma clear_ok E tab s :
  ms_wf tab s ->
  exists s', clear (E := E) s = (Ok tt, s') /\ ms_wf tab s' /\ regions (snd s') = [] /\
    grows tab tab (fst s) (fst s').
Proof.
  intros W. unfold clear, bind at 1, gets.
  destruct (unmap_all_ok E _ tab s (ms_wf_weak _ _ W)) as (s' & Hu & W' & G & He').
  rewrite (bind_ok _ _ _ _ _ Hu). eexists. split; [done|]. simpl. split_and!; try done.
  apply empty_wf; simpl; try done. intros w.
  destruct (lookup tab (pm s'.1) w) as [e|] eqn:Hl; [|done]. exfalso.
  apply He' in Hl as [Hl Hno]. destruct (te_only _ _ _ (ms_exact _ _ W) _ _ Hl) as (k & r & Hin & Hc).
  by rewrite (Hno _ _ Hin) in Hc.
Qed.

Lemma unmap_all_keeps E l : forall s, keeps (pt_st s) (pt_st (snd (unmap_all (E := E) l s))).
Proof.
  induction l as [|r l IH]; intros s; simpl; [done|].
  assert (keeps (pt_st s) (snd (unmap r (pt_st s)))) as [Hs Hf] by apply unmap_loop_keeps.
  unfold bind, expect, on_pt, zoom.
  destruct (unmap r (pt_st s)) as [[[]|e| |] st]; simpl in *; try done.
  destruct (IH (fst st, mkMemorySet (regions s.2) (snd st))) as [Hs1 Hf1]. simpl in *.
  split; simpl; congruence.
Qed.

(** Dropping a set unmaps its regions and gives back all its frames. *)
Lemma ms_drop_ok E tab (m : Machine A) ms :
  ms_weak (regions ms) tab (m, pt ms) -> owned tab (m, pt ms) ->
  exists m', ms_drop (E := E) ms m = (Ok tt, m') /\ fa_wf (fa m') /\
    forall q, frame_free (fa m') q <-> frame_free (fa m) q \/ q ∈ frames (pt ms).
Proof.
  intros W [Ho Hp]. unfold ms_drop, clear, bind at 1, gets.
  destruct (unmap_all_ok E (regions ms) tab (m, ms) W) as ([m1 ms1] & Hu & W1 & _ & _).
  rewrite (bind_ok _ _ _ _ _ Hu). simpl.
  pose proof (unmap_all_keeps E (bt_values (regions ms)) (m, ms)) as [Hpt Hfa].
  rewrite Hu in Hpt, Hfa. simpl in *.
  destruct (pt_drop_ok E tab (m1, pt ms1)) as (m' & Hd & _ & Hf' & _ & Hq).
  - apply W1.
  - split; simpl; [by rewrite Hpt|]. intros k t Ht. rewrite Hfa. by eapply Hp.
  - simpl in Hd. exists m'. split_and!; [done..|]. intros q. simpl in Hq. rewrite Hq, Hfa, Hpt. done.
Qed.

(** A failed [insert] of a well-formed set can still be dropped. *)
Lemma insert_err_weak tab s r e s' :
  ms_wf tab s -> region_pre r -> insert r s = (Err e, s') ->
  exists tab', ms_weak (regions (snd s')) tab' (pt_st s') /\ grows tab tab' (fst s) (fst s').
Proof.
  intros W Hr Hi. pose proof (insert_ok tab s r W Hr) as H. rewrite Hi in H.
  unfold insert_result in H. simpl in H. destruct H as (Hreg & Hpos & [(_ & -> & _)|Hm]); simpl in *.
  { exists tab. split; [by apply ms_wf_weak|apply grows_refl]. }
  destruct Hm as (tab' & k & W' & G & _ & _ & Hno & Hsame & _). simpl in *.
  exists tab'. split; [|done]. destruct W as [Hpt Hrw Ha He]. rewrite Hreg. constructor; try done.
  intros k' r' Hin. eapply region_mapped_frame; [by eapply He|]. intros v Hv. apply Hsame.
  destruct (covers (start r) k v) eqn:Hc; [|done].
  destruct (te_mapped _ _ _ He _ _ Hin v Hv) as (? & ? & Hl & _). by rewrite Hno in Hl.
Qed.

Lemma ms_new_ok E (m : Machine A) :
  fa_wf (fa m) -> (exists q, frame_free (fa m) q) ->
  exists ms m', ms_new (E := E) m = (Ok ms, m') /\ regions ms = [] /\
    ms_wf {[(4, 0) := root_paddr (pt ms)]} (m', ms).
Proof.
  intros Hf Hq. destruct (pt_new_ok (E := E) m Hf Hq) as (p & m' & Hn & _ & _ & _ & _ & _ & W & Hl).
  exists (mkMemorySet [] p), m'. split_and!; try done.
  { unfold ms_new. by rewrite (bind_ok _ _ _ _ _ Hn). }
  by apply empty_wf.
Qed.
End MemorySet.
