(* ===== verification/MemoryProps.v ===== *)
(** * Properties of the memory subsystem

    The theorems about page tables and memory sets, stated on the operations of
    [Paging] and [MemorySet] alone: the shape of the tables is hidden behind
    [pt_valid] and [ms_valid]. The witnesses run on a machine with a pool of 64
    frames and the x86-64 entry format. *)

From S2P Require Import Prelude Crates HvError Addr PhysMem Frame Pte Region BTree Paging PagingInv PagingOps PagingSpec MemorySet.

Section Valid.
Context {A : Type} {ba : BitAlloc A} {pv : PhysVirt} {pte : GenericPTE}.

(** Memory holds a page table. *)
Definition pt_valid (s : St (A := A)) : Prop := exists tab, pt_wf tab s.

(** Memory holds a page table whose frames all come from the allocator. *)
Definition pt_owned (s : St (A := A)) : Prop := exists tab, pt_wf tab s /\ owned tab s.

Context {laws : PTELaws}.
Definition ms_valid (s : MSt (A := A)) : Prop := exists tab, ms_wf tab s.

(** Two page tables in the same memory, with no common frame. *)
Definition pts_valid (m : Machine A) (p q : Level4PageTable) : Prop :=
  exists tab tab2, pt_wf tab (m, p) /\ pt_wf tab2 (m, q) /\ separate tab tab2.

(** What the table answers for an address. *)
Definition answer (s : St (A := A)) (v : Z) : outcome PagingError (Z * Z * PageSize) := fst (query v s).

Context {bal : BitAllocLaws A}.

Lemma same_answer tab tab' s s' w :
  pt_wf tab s -> pt_wf tab' s' -> lookup tab' (pm (fst s')) w = lookup tab (pm (fst s)) w ->
  answer s' w = answer s w.
Proof. intros W W' Heq. unfold answer. by rewrite (query_wf _ _ _ W), (query_wf _ _ _ W'), Heq. Qed.

Lemma answer_none tab s w :
  pt_wf tab s -> lookup tab (pm (fst s)) w = None -> answer s w = Err NotMapped.
Proof. intros W Heq. unfold answer. by rewrite (query_wf _ _ _ W), Heq. Qed.

(** The region is translated: each address to the target of its page. *)
Definition answers_region (s : St (A := A)) (r : MemoryRegion) (v : Z) : Prop :=
  exists sz, answer s v =
      Ok (add64 (PageSize.align_down sz (map_fn (mapper r) (page_start sz v))) (v mod page_bytes sz),
          pte_view (rflags r), sz) /\
    (sz <> Size4K -> map_fn (mapper r) (page_start sz v) mod page_bytes sz = 0 /\
                     contains (rflags r) MEM_NO_HUGEPAGES = false).

Lemma mapped_answers tab s r a n v :
  pt_wf tab s -> pte_flags_ok (rflags r) = true -> mapped_in a n r tab (pm (fst s)) v ->
  answers_region s r v.
Proof.
  intros W Hfl (e & sz & Hl & _ & _ & [_ _ Ha Hf] & Hal). exists sz. split; [|done].
  unfold answer. rewrite (query_wf _ _ _ W), Hl, Ha. by destruct (Hf Hfl) as [_ ->].
Qed.
End Valid.

Section Props.
Context {A : Type} {ba : BitAlloc A} {bal : BitAllocLaws A} {pv : PhysVirt}.
Context {pte : GenericPTE} {laws : PTELaws}.

(** C1. [Level4PageTable::map] on a page-aligned region whose targets are below
    2^52 always returns (it neither panics nor runs forever). On [Ok] every
    address of the region, unmapped before, is translated to its target with
    the flags of the region, and the translation of every other address is
    unchanged. On [Err] the same holds of a proper prefix of the region: the
    pages mapped before the failure stay mapped. *)
Theorem map_correct (s : St (A := A)) (r : MemoryRegion) :
  pt_valid s -> region_pre r ->
  exists k, 0 <= k <= rsize r /\ pt_valid (snd (map r s)) /\
    (forall v, start r <= v < start r + k ->
       answer s v = Err NotMapped /\ answers_region (snd (map r s)) r v) /\
    (forall w, covers (start r) k w = false -> answer (snd (map r s)) w = answer s w) /\
    (fst (map r s) = Ok tt /\ k = rsize r \/
     (fst (map r s) = Err ENOMEM \/ fst (map r s) = Err EFAULT) /\ k < rsize r).
Proof.
  intros [tab W] Hr. destruct (map_region_ok tab s r W Hr)
    as (tab' & k & W' & _ & Hk & Hin & Hno & Hsame & Hres).
  pose proof (mp_end _ _ _ Hr). exists k. split_and!; try lia.
  - by exists tab'.
  - intros v Hv. split.
    + eapply answer_none; [done|]. apply Hno, covers_in; lia.
    + eapply mapped_answers; [done|apply Hr|by apply Hin].
  - intros w Hw. eapply same_answer; eauto.
  - destruct (fst (map r s)) as [[]|e| |]; try done; [by left|]. right.
    destruct Hres as [Hlt [[-> _]|[[[-> | ->] _]|[-> _]]]]; tauto.
Qed.

(** C2. A region that was mapped is unmapped again without error, and every
    address then has the translation it had before: [unmap] inverts [map]. *)
Theorem unmap_inverts_map (s s1 : St (A := A)) (r : MemoryRegion) :
  pt_valid s -> region_pre r -> map r s = (Ok tt, s1) ->
  exists s2, unmap r s1 = (Ok tt, s2) /\ pt_valid s2 /\ forall w, answer s2 w = answer s w.
Proof.
  intros [tab W] Hr Hm. pose proof (map_region_ok tab s r W Hr) as Hres. rewrite Hm in Hres.
  destruct Hres as (tab' & k & W' & _ & _ & Hin & Hno & Hsame & ->). simpl in *.
  destruct (unmap_region_ok tab' s1 r W' Hr Hin) as (s2 & Hu & W2 & _ & Hl).
  exists s2. split_and!; [done|by exists tab'|]. intros w. eapply same_answer; [done|done|].
  rewrite Hl. destruct (covers (start r) (rsize r) w) eqn:Hc; [symmetry; eauto|eauto].
Qed.

(** C3. Isolation of page tables: mapping or unmapping a region in one table
    keeps a table with other frames intact: it stays well formed, keeps sharing
    no frame, and answers every query as before. *)
Theorem map_other_table (m m' : Machine A) (p p' q : Level4PageTable) (r : MemoryRegion) o :
  pts_valid m p q -> region_pre r -> map r (m, p) = (o, (m', p')) ->
  pts_valid m' p' q /\ forall w, answer (m', q) w = answer (m, q) w.
Proof.
  intros (tab & tab2 & W & W2 & Hsep) Hr Hm. pose proof (map_region_ok tab (m, p) r W Hr) as Hres.
  rewrite Hm in Hres. destruct Hres as (tab' & k & W' & G & _). simpl in *.
  destruct (grows_other tab tab' tab2 m m' q) as (W2' & Hsep' & Hl); try done.
  { apply (inv_table_ok _ _ _ _ (wf_inv _ _ W')). }
  { apply (wf_fa _ _ W'). }
  split; [by exists tab', tab2|]. intros w. eapply same_answer; eauto.
Qed.

(** Dropping a page table built from the allocator returns its root and
    intermediate frames, each exactly once, and no others. *)
Theorem pt_drop_frees E (s : St (A := A)) :
  pt_owned s ->
  exists m', pt_drop (E := E) (snd s) (fst s) = (Ok tt, m') /\ fa_wf (fa m') /\
    NoDup (frames (snd s)) /\ (forall t, t ∈ frames (snd s) -> ~ frame_free (fa (fst s)) t) /\
    forall q, frame_free (fa m') q <-> frame_free (fa (fst s)) q \/ q ∈ frames (snd s).
Proof.
  intros (tab & W & Ho). destruct (pt_drop_ok E tab s W Ho) as (m' & Hd & _ & Hf & _ & Hq).
  exists m'. split_and!; try done; [apply W|].
  intros t [k Hk]%(wf_frames _ _ W). eapply inv_not_free; [apply W|done].
Qed.

(** C4. [MemorySet::test_free_area] inspects only the neighbours of the new
    region, yet it decides whether any region of the set overlaps it. *)
Theorem test_free_area_correct (l : list (Z * MemoryRegion)) (o : MemoryRegion) :
  regions_wf l -> region_pre o -> 0 < rsize o ->
  test_free_area l o = true <->
    ~ exists k r v, (k, r) ∈ l /\ in_region r v /\ in_region o v.
Proof.
  intros Hl Ho Hpos. rewrite test_free_area_spec by done. split.
  - intros Hall (k & r & v & Hin & Hr & Hv). destruct (rw_pre _ Hl _ _ Hin) as [Hpre ?].
    assert (is_overlap_with r o = true); [|by rewrite (Hall _ _ Hin) in *].
    apply is_overlap_spec; eauto using region_pre_ok.
  - intros Hno k r Hin. destruct (is_overlap_with r o) eqn:Hov; [|done]. exfalso.
    destruct (rw_pre _ Hl _ _ Hin) as [Hpre ?].
    apply is_overlap_spec in Hov as (v & ? & ?); eauto using region_pre_ok. apply Hno. eauto 8.
Qed.

(** C5. Refinement of [MemorySet]: the page table of a valid set implements the
    abstract map its regions describe. An address of a region is translated to
    its target with the region's flags (linearly, for an offset region), and an
    address that no region covers is not mapped. *)
Theorem ms_query_refines (s : MSt (A := A)) :
  ms_valid s ->
  (forall k r v, (k, r) ∈ regions (snd s) -> in_region r v -> answers_region (pt_st s) r v) /\
  (forall k r off v, (k, r) ∈ regions (snd s) -> in_region r v ->
     mapper r = Offset off -> off mod PAGE_SIZE = 0 ->
     exists sz, answer (pt_st s) v = Ok (sub64 v off, pte_view (rflags r), sz)) /\
  (forall w, (forall k r, (k, r) ∈ regions (snd s) -> covers (start r) (rsize r) w = false) ->
     answer (pt_st s) w = Err NotMapped).
Proof.
  intros [tab [W Hr Ha He]]. split_and!.
  - intros k r v Hin Hv. eapply mapped_answers; [done| |by eapply He].
    apply (rw_pre _ Hr _ _ Hin).
  - intros k r off v Hin Hv Hm Hoff.
    destruct (offset_query tab (pt_st s) r off v W) as [sz Hq]; try done.
    + by eapply (te_mapped _ _ _ He).
    + apply (rw_pre _ Hr _ _ Hin).
    + exists sz. unfold answer. by rewrite Hq.
  - intros w Hno. eapply answer_none; [done|]. simpl.
    destruct (lookup tab (pm s.1) w) as [e|] eqn:Hl; [|done].
    destruct (te_only _ _ _ He _ _ Hl) as (k & r & Hin & Hc). by rewrite (Hno _ _ Hin) in Hc.
Qed.

(** C6. [MemorySet::insert] of a mappable region always returns. On [Ok] the set
    is valid and holds the region as well (an empty region changes nothing). On
    an overlap it returns [EINVAL] and nothing has changed. When the page table
    refuses, with [ENOMEM] or [EFAULT], the regions are unchanged. *)
Theorem insert_correct (s : MSt (A := A)) (r : MemoryRegion) :
  ms_valid s -> region_pre r ->
  let s' := snd (insert r s) in
  match fst (insert r s) with
  | Ok _ => ms_valid s' /\
      regions (snd s') = if rsize r =? 0 then regions (snd s) else bt_insert (start r) r (regions (snd s))
  | Err e => regions (snd s') = regions (snd s) /\ 0 < rsize r /\
      (e = EINVAL /\ s' = s /\ (exists k r', (k, r') ∈ regions (snd s) /\ is_overlap_with r' r = true) \/
       (e = ENOMEM \/ e = EFAULT) /\ pt_valid (pt_st s'))
  | _ => False
  end.
Proof.
  intros [tab W] Hr s'. pose proof (insert_ok tab s r W Hr) as H. unfold insert_result in H.
  fold s' in H. destruct (fst (insert r s)) as [[]|e| |]; try done.
  - destruct H as (tab' & W' & _ & Hreg & _). split; [by exists tab'|done].
  - destruct H as (Hreg & Hpos & [Hov|Hm]); split_and!; try done; [by left|right].
    destruct Hm as (tab' & k & W' & _ & _ & _ & _ & _ & Hlt & Hf). simpl in *.
    split; [|by exists tab']. destruct Hf as [[-> _]|[[[-> | ->] _]|[-> _]]]; tauto.
Qed.

(** C7. [MemorySet::delete] removes the region that starts at the given address
    and unmaps exactly its addresses; with no such region it returns [EINVAL]
    and nothing has changed. It never panics on a valid set. *)
Theorem delete_correct (s : MSt (A := A)) (k : Z) :
  ms_valid s ->
  match bt_get k (regions (snd s)) with
  | Some r => exists s', delete k s = (Ok tt, s') /\ ms_valid s' /\
      regions (snd s') = bt_remove k (regions (snd s)) /\
      (forall v, in_region r v -> answer (pt_st s') v = Err NotMapped)
  | None => delete k s = (Err EINVAL, s)
  end.
Proof.
  intros [tab W]. pose proof (delete_ok tab s k W) as H.
  destruct (bt_get k (regions s.2)) as [r|] eqn:Hg; [|done].
  destruct H as (s' & Hd & W' & _ & Hreg). exists s'. split_and!; try done; [by exists tab|].
  intros v Hv. eapply answer_none; [apply W'|]. simpl.
  destruct (lookup tab (pm s'.1) v) as [e|] eqn:Hl; [|done].
  destruct (te_only _ _ _ (ms_exact _ _ W') _ _ Hl) as (k' & r' & Hin & Hc).
  rewrite Hreg in Hin. apply bt_elem_remove in Hin as [Hne Hin]. simpl in Hne.
  apply bt_get_elem in Hg; [|apply W].
  pose proof (region_covers r v) as Hcov. destruct (rw_pre _ (ms_regions _ _ W) _ _ Hg).
  pose proof (ms_apart _ _ W _ _ _ _ v Hin Hg Hne Hc) as Hx. by rewrite Hcov in Hx.
Qed.

(** C8. Dropping a valid memory set whose table comes from the allocator unmaps
    every region without a panic and returns all frames of the page table. *)
Theorem ms_drop_frees E (m : Machine A) (ms : MemorySet) :
  (exists tab, ms_wf tab (m, ms) /\ owned tab (m, pt ms)) ->
  exists m', ms_drop (E := E) ms m = (Ok tt, m') /\
    forall q, frame_free (fa m') q <-> frame_free (fa m) q \/ q ∈ frames (pt ms).
Proof.
  intros (tab & W & Ho). destruct (ms_drop_ok E tab m ms (ms_wf_weak _ _ W) Ho) as (m' & Hd & _ & Hq). by exists m'.
Qed.
End Props.

(** ** Witnesses *)
Module Sample.
#[local] Existing Instance X86PageTableFlags_ref.
#[local] Existing Instance PTEntry.ops.
#[local] Existing Instance PTEntry.laws.
#[local] Instance sample_pv : PhysVirt := 0xffffff0000000000.

(** 64 free frames from 1M on. *)
Definition machine : Machine ListAlloc.t := mkMachine ∅ (fa_init fa_empty 0x100000 0x40000).

Definition ms0 : MSt :=
  match ms_new (E := HvErrorNum) machine with
  | (Ok ms, m) => (m, ms)
  | (_, m) => (m, mkMemorySet [] (mkPT (mkFrame 0 0) []))
  end.

(** 12K at 0x40000000, mapped with an offset. *)
Definition region : MemoryRegion := new_with_offset_mapper 0x40000000 0x200000 0x3000 0x3.
Definition region2 : MemoryRegion := new_with_offset_mapper 0x80000000 0x300000 0x1000 0x1.
Definition ms1 : MSt := snd (insert region ms0).

Lemma machine_wf : fa_wf (fa machine) /\ exists q, frame_free (fa machine) q.
Proof.
  split; [unfold fa_wf; split_and!; by vm_compute|]. exists 0x100000, 0. split; by vm_compute.
Qed.

Lemma ms0_wf : exists tab, ms_wf tab ms0 /\ owned tab (pt_st ms0).
Proof.
  destruct machine_wf as [Hf Hq].
  destruct (pt_new_ok (E := HvErrorNum) machine Hf Hq) as (p & m & Hp & _ & Hc & Hfree & _ & G & _).
  destruct (ms_new_ok HvErrorNum machine Hf Hq) as (ms & m' & Hn & _ & W).
  assert (ms0 = (m', ms)) as -> by (unfold ms0; by rewrite Hn).
  exists {[(4, 0) := root_paddr (pt ms)]}. split; [done|].
  unfold ms_new in Hn. rewrite (bind_ok _ _ _ _ _ Hp) in Hn. injection Hn as <- <-.
  split; [done|]. intros k t [_ <-]%lookup_singleton_Some. simpl.
  apply frame_free_pool in Hfree. unfold in_pool in *. by rewrite (grows_base _ _ _ _ G).
Qed.

Lemma ms0_valid : ms_valid ms0.
Proof. destruct ms0_wf as (tab & W & _). by exists tab. Qed.

Lemma ms0_pt_valid : pt_valid (pt_st ms0).
Proof. destruct ms0_valid as [tab W]. exists tab. apply W. Qed.

Lemma region_pre_ok1 : region_pre region.
Proof. apply (offset_pre (pte := PTEntry.ops)); by vm_compute. Qed.

Lemma region_pre_ok2 : region_pre region2.
Proof. apply (offset_pre (pte := PTEntry.ops)); by vm_compute. Qed.

Lemma ms1_valid : ms_valid ms1.
Proof.
  destruct ms0_valid as [tab W]. pose proof (insert_ok tab ms0 region W region_pre_ok1) as H.
  assert (is_ok (fst (insert region ms0)) = true) as Hok by (vm_compute; reflexivity).
  unfold ms1. destruct (insert region ms0) as [[[]|e| |] s1]; try discriminate Hok.
  destruct H as (tab' & W' & _). by exists tab'.
Qed.

Lemma map_correct_witness :
  exists k, 0 <= k <= 0x3000 /\ k = 0x3000 /\
    answer (snd (map region (pt_st ms0))) 0x40001234 = Ok (0x201234, 0x3, Size4K).
Proof.
  destruct (map_correct (pt_st ms0) region ms0_pt_valid region_pre_ok1) as (k & Hk & _ & _ & _ & Hr).
  exists k. split; [done|]. split.
  - destruct Hr as [[_ ->]|[[Hr|Hr] _]]; [done|revert Hr; vm_compute; discriminate..].
  - vm_compute. reflexivity.
Defined.

Lemma unmap_inverts_map_witness :
  exists s2, unmap region (snd (map region (pt_st ms0))) = (Ok tt, s2) /\
    answer s2 0x40001234 = answer (pt_st ms0) 0x40001234.
Proof.
  destruct (unmap_inverts_map (pt_st ms0) (snd (map region (pt_st ms0))) region ms0_pt_valid region_pre_ok1)
    as (s2 & Hu & _ & Ha).
  - assert (is_ok (fst (map region (pt_st ms0))) = true) as Hok by (vm_compute; reflexivity).
    destruct (map region (pt_st ms0)) as [[[]|e| |] s1]; discriminate Hok || reflexivity.
  - exists s2. split; [exact Hu|apply Ha].
Defined.

(** A second table beside the one of [ms0]. *)
Definition second : outcome PagingError Level4PageTable * Machine ListAlloc.t := pt_new (fst ms0).
Definition table2 : Level4PageTable :=
  match fst second with Ok p => p | _ => mkPT (mkFrame 0 0) [] end.

Lemma two_tables : pts_valid (snd second) (pt (snd ms0)) table2.
Proof.
  destruct ms0_valid as [tab W]. pose proof (ms_pt _ _ W) as Wp.
  destruct (pt_new_ok (E := PagingError) (fst ms0)) as (p & m & Hp & _ & _ & _ & _ & G & Wq & _).
  { exact (wf_fa _ _ Wp). }
  { exists 0x101000, 1. split; by vm_compute. }
  assert (second = (Ok p, m)) as Hs by exact Hp. unfold table2. rewrite Hs. cbv [fst snd].
  destruct (grows_other ∅ {[(4, 0) := root_paddr p]} tab (fst ms0) m (pt (snd ms0))
    (inv_table_ok _ _ _ _ (wf_inv _ _ Wq)) (wf_fa _ _ Wq) G Wp) as (W2 & Hsep & _);
    [intros ? ? ? H _; by rewrite lookup_empty in H|].
  exists tab, {[(4, 0) := root_paddr p]}. split_and!; try done.
  intros k k' t H1 H2. by eapply Hsep.
Qed.

Lemma triple_eta {X Y W} (x : X * (Y * W)) : x = (fst x, (fst (snd x), snd (snd x))).
Proof. by destruct x as [? [? ?]]. Qed.

Lemma map_other_table_witness :
  let r := map region (snd second, pt (snd ms0)) in
  pts_valid (fst (snd r)) (snd (snd r)) table2 /\
  answer (fst (snd r), table2) 0x40001234 = Err NotMapped.
Proof.
  intros r. destruct (map_other_table (snd second) (fst (snd r)) (pt (snd ms0)) (snd (snd r)) table2
    region (fst r) two_tables region_pre_ok1) as [Hv Ha].
  - apply triple_eta.
  - split; [exact Hv|]. rewrite Ha. vm_compute. reflexivity.
Defined.

Lemma pt_drop_frees_witness :
  exists m', pt_drop (E := HvErrorNum) (pt (snd ms0)) (fst ms0) = (Ok tt, m') /\
    frame_free (fa m') 0x100000.
Proof.
  destruct (pt_drop_frees HvErrorNum (pt_st ms0)) as (m' & Hd & _ & _ & _ & Hq).
  - destruct ms0_wf as (tab & W & Ho). exists tab. split; [apply (ms_pt _ _ W)|exact Ho].
  - exists m'. split; [exact Hd|]. apply Hq. right. vm_compute. left.
Defined.

Lemma ms1_regions : regions (snd ms1) = [(0x40000000, region)].
Proof. vm_compute. reflexivity. Qed.

Lemma test_free_area_correct_witness :
  test_free_area (regions (snd ms1)) region2 = true /\
  ~ exists k r v, (k, r) ∈ regions (snd ms1) /\ in_region r v /\ in_region region2 v.
Proof.
  assert (test_free_area (regions (snd ms1)) region2 = true) as Ht by (vm_compute; reflexivity).
  split; [exact Ht|]. apply (test_free_area_correct (regions (snd ms1)) region2);
    [|exact region_pre_ok2|vm_compute; reflexivity|exact Ht].
  destruct ms1_valid as [tab W]. apply (ms_regions _ _ W).
Defined.

Lemma ms_query_refines_witness :
  exists sz, answer (pt_st ms1) 0x40002fff = Ok (0x202fff, 0x3, sz).
Proof.
  destruct (ms_query_refines ms1 ms1_valid) as (_ & Hoff & _).
  destruct (Hoff 0x40000000 region 0x3fe00000 0x40002fff) as [sz Hsz].
  - rewrite ms1_regions. left.
  - vm_compute. split; [intros Hx; discriminate Hx|reflexivity].
  - reflexivity.
  - reflexivity.
  - exists sz. exact Hsz.
Defined.

Lemma insert_correct_witness :
  ms_valid (snd (insert region2 ms1)) /\ length (regions (snd (snd (insert region2 ms1)))) = 2%nat.
Proof.
  pose proof (insert_correct ms1 region2 ms1_valid region_pre_ok2) as H. cbv zeta in H.
  assert (is_ok (fst (insert region2 ms1)) = true) as Hok by (vm_compute; reflexivity).
  destruct (insert region2 ms1) as [[[]|e| |] s']; try discriminate Hok.
  destruct H as [Hv Hreg]. split; [exact Hv|]. etransitivity; [exact (f_equal length Hreg)|].
  rewrite ms1_regions. vm_compute. reflexivity.
Defined.

Lemma delete_correct_witness :
  exists s', delete 0x40000000 ms1 = (Ok tt, s') /\ ms_valid s' /\
    answer (pt_st s') 0x40001234 = Err NotMapped.
Proof.
  pose proof (delete_correct ms1 0x40000000 ms1_valid) as H. rewrite ms1_regions in H.
  change (bt_get 0x40000000 [(0x40000000, region)]) with (Some region) in H. cbv iota in H.
  destruct H as (s' & Hd & Hv & _ & Hn). exists s'. split; [exact Hd|]. split; [exact Hv|].
  apply Hn. vm_compute. split; [intros Hx; discriminate Hx|reflexivity].
Defined.

Lemma ms_drop_frees_witness :
  exists m', ms_drop (E := HvErrorNum) (snd ms0) (fst ms0) = (Ok tt, m') /\ frame_free (fa m') 0x100000.
Proof.
  destruct (ms_drop_frees HvErrorNum (fst ms0) (snd ms0)) as (m' & Hd & Hq).
  - destruct ms0_wf as (tab & W & Ho). exists tab. split; [rewrite <- surjective_pairing; exact W|exact Ho].
  - exists m'. split; [exact Hd|]. apply Hq. right. vm_compute. left.
Defined.
End Sample.
