(* ===== verification/Walk.v ===== *)
(** * Walking a page table

    [Level4PageTableImmut::walk] of [src/src/memory/paging.rs], the recursion
    behind [dump]: it calls a function on every present entry of the tables, at
    most [limit] of each table. What it calls the function on is compared with
    the answers of [query]: those given by a present entry, and no others. *)

From stdpp Require Import sorting.
From S2P Require Import Prelude Crates HvError Addr PhysMem Frame Pte Region Paging PagingInv PagingOps PagingSpec MemorySet MemoryProps.

Section Walk.
Context {pte : GenericPTE} {pv : PhysVirt}.

Section Loop.
Context {S E : Type} (m : gmap Z Z) (limit : Z) (func : Z -> Z -> Z -> Z -> M S E unit).

(** The loop over a table, from the indices [l] on with [n] entries behind it;
    [sub] is the walk of a table of the next level. *)
Fixpoint walk_entries (sub : Z -> Z -> M S E unit) (table level start_vaddr : Z) (l : list Z) (n : Z) : M S E unit :=
  match l with
  | [] => ret tt
  | i :: l =>
      let entry := deref m (entry_ptr table i) in
      let vaddr := add64 start_vaddr (wrap 64 (Z.shiftl i (12 + (3 - level) * 9))) in
      if pte_is_present entry then
        func level i vaddr entry ;;;
        (if level <? 3 then
           match next_table_mut entry with
           | Ok t => sub t vaddr
           | Err MappedToHugePage => ret tt
           | _ => panic
           end
         else ret tt) ;;;
        let n := n + 1 in
        if limit <=? n then ret tt else walk_entries sub table level start_vaddr l n
      else walk_entries sub table level start_vaddr l n
  end.

Fixpoint walk (fuel : nat) (table level start_vaddr : Z) : M S E unit :=
  match fuel with
  | O => diverge
  | Datatypes.S fuel =>
      walk_entries (fun t v => walk fuel t (level + 1) v) table level start_vaddr (seqZ 0 ENTRY_COUNT) 0
  end.
End Loop.

(** ** What is visited *)
Record Visit : Type := mkVisit { vi_level : Z; vi_idx : Z; vi_vaddr : Z; vi_entry : Z }.

Definition log_visit {E} (level i vaddr entry : Z) : M (list Visit) E unit :=
  modify (fun l => l ++ [mkVisit level i vaddr entry]).

(** The four levels of [dump]. *)
Definition walk_all {E} (m : gmap Z Z) (root_paddr limit : Z) : M (list Visit) E unit :=
  walk m limit log_visit 4 (table_of root_paddr) 0 0.

(** An entry that translates addresses. *)
Definition terminal (x : Visit) : bool := (3 <=? vi_level x) || pte_is_huge (vi_entry x).

Context {laws : PTELaws} {A : Type} {ba : BitAlloc A}.

Definition bytes_of_level (L : Z) : Z := 2 ^ (12 + 9 * (L - 1)).

(** The visits of the table [t] of level [n] at the prefix [p], without a limit. *)
Definition visit_of (m : gmap Z Z) (n : nat) (t p i : Z) : Visit :=
  mkVisit (4 - Z.of_nat n) i ((p * 512 + i) * bytes_of_level (Z.of_nat n)) (ent m t i).

Fixpoint visits (m : gmap Z Z) (n : nat) (t p : Z) : list Visit :=
  match n with
  | O => []
  | Datatypes.S n' =>
      flat_map (fun i =>
        let e := ent m t i in
        if pte_is_present e then
          visit_of m n t p i ::
          (if (1 <? Z.of_nat n) && negb (pte_is_huge e) then visits m n' (pte_addr e) (p * 512 + i) else [])
        else []) (seqZ 0 512)
  end.

Section Tree.
Context {tab : gmap (Z * Z) Z} {root : Z} {m : gmap Z Z} {f : FrameAllocator A}.
Hypothesis INV : pt_inv tab root m f.

Lemma present_next L p t i :
  tab !! (L, p) = Some t -> 2 <= L -> 0 <= i < 512 -> pte_is_present (ent m t i) = true ->
  (exists c, tab !! (L - 1, p * 512 + i) = Some c /\ next_table_mut (ent m t i) = Ok (table_of c) /\
     pte_is_huge (ent m t i) = false /\ pte_addr (ent m t i) = c) \/
  (tab !! (L - 1, p * 512 + i) = None /\ next_table_mut (ent m t i) = Err MappedToHugePage /\
     pte_is_huge (ent m t i) = true /\ L <= 3).
Proof.
  intros Ht HL Hi Hp. destruct (tab !! (L - 1, p * 512 + i)) as [c|] eqn:Hc.
  - left. exists c. pose proof (inv_child _ _ _ _ INV _ _ _ _ _ Ht HL Hi Hc) as (H1 & H2 & H3).
    split_and!; try done. by apply next_table_is_table.
  - right. destruct (inv_end _ _ _ _ INV _ _ _ _ Ht HL Hi Hc) as [H0|[Hh H3]].
    { rewrite H0, law_present_0 in Hp. done. }
    split_and!; try done. unfold next_table_mut. by rewrite Hp, Hh.
Qed.

Abbreviation below L p := (0 <= p < 2 ^ (9 * (4 - L))).

Lemma below_next L p i : 2 <= L <= 4 -> below L p -> 0 <= i < 512 -> below (L - 1) (p * 512 + i).
Proof. intros HL Hp Hi. replace (9 * (4 - (L - 1))) with (9 * (4 - L) + 9) by lia. rewrite Z.pow_add_r by lia. lia. Qed.

Lemma entry_vaddr L p i :
  1 <= L <= 4 -> below L p -> 0 <= i < 512 ->
  add64 (p * 2 ^ (12 + 9 * L)) (wrap 64 (Z.shiftl i (12 + (3 - (4 - L)) * 9))) = (p * 512 + i) * bytes_of_level L.
Proof.
  intros HL Hp Hi. unfold bytes_of_level. rewrite Z.shiftl_mul_pow2 by lia.
  assert (L = 1 \/ L = 2 \/ L = 3 \/ L = 4) as [-> | [-> | [-> | ->]]] by lia; cbn in *; unfold add64; nowrap; lia.
Qed.

Lemma app_visit {B} (lg : list B) v a b : lg ++ (v :: a) ++ b = ((lg ++ [v]) ++ a) ++ b.
Proof. by rewrite <- !app_assoc. Qed.

(** With room for all entries of a table, the walk logs the visits. *)
Lemma walk_visits E limit n : 512 <= limit -> forall t p log,
  (1 <= n <= 4)%nat -> tab !! (Z.of_nat n, p) = Some t -> below (Z.of_nat n) p ->
  walk (E := E) m limit log_visit n (table_of t) (4 - Z.of_nat n) (p * 2 ^ (12 + 9 * Z.of_nat n)) log =
  (Ok tt, log ++ visits m n t p).
Proof.
  intros Hl. induction n as [|n IH]; intros t p log Hn Ht Hp; [lia|].
  cbn [walk visits]. set (L := Z.of_nat (S n)) in *. unfold ENTRY_COUNT.
  match goal with |- context [flat_map ?g _] => set (F := g) end.
  set (sub := fun t v => walk (E := E) m limit log_visit n t (4 - L + 1) v).
  assert (forall l k lg, Forall (fun i => 0 <= i < 512) l -> k + Z.of_nat (length l) <= 512 ->
    walk_entries m limit log_visit sub (table_of t) (4 - L) (p * 2 ^ (12 + 9 * L)) l k lg =
    (Ok tt, lg ++ flat_map F l)) as Hloop.
  2:{ apply Hloop; [|rewrite length_seqZ; lia]. apply Forall_forall. intros i Hi%elem_of_seqZ. lia. }
  induction l as [|i l IHl]; intros k lg Hall Hk; [by rewrite app_nil_r|].
  apply Forall_cons in Hall as [Hi Hall]. simpl length in Hk. cbn [walk_entries flat_map].
  rewrite deref_ent by (done || by eapply inv_table_ok). unfold F at 1. cbv zeta.
  destruct (pte_is_present (ent m t i)) eqn:Hpr; [|apply IHl; done || lia].
  rewrite entry_vaddr by (done || lia). unfold log_visit at 1. rewrite bind_modify. cbv beta.
  change (mkVisit _ i _ _) with (visit_of m (S n) t p i). rewrite app_visit.
  assert (forall c lg1, c (lg ++ [visit_of m (S n) t p i]) = (Ok tt, lg1) ->
    (c ;;; (if limit <=? k + 1 then ret tt else
       walk_entries m limit log_visit sub (table_of t) (4 - L) (p * 2 ^ (12 + 9 * L)) l (k + 1)))
      (lg ++ [visit_of m (S n) t p i]) = (Ok tt, lg1 ++ flat_map F l)) as Hrest.
  { intros c lg1 Hs. rewrite (bind_ok _ _ _ _ _ Hs). destruct (Z.leb_spec limit (k + 1)).
    - destruct l; [by rewrite app_nil_r|simpl length in Hk; lia].
    - apply IHl; done || lia. }
  apply Hrest. destruct (Z.ltb_spec (4 - L) 3) as [H3|H3].
  2:{ replace (1 <? L) with false by lia. by rewrite app_nil_r. }
  replace (1 <? L) with true by lia. cbn [andb].
  destruct (present_next L p t i Ht ltac:(lia) Hi Hpr) as [(c & Hc & Hnx & Hh & Ha)|(_ & Hnx & Hh & _)];
    rewrite Hnx, Hh; cbn [negb]; [|by rewrite app_nil_r].
  rewrite Ha. pose proof (below_next L p i ltac:(lia) Hp Hi) as Hb. replace (L - 1) with (Z.of_nat n) in * by lia.
  specialize (IH c (p * 512 + i) (lg ++ [visit_of m (S n) t p i]) ltac:(lia) Hc Hb).
  unfold sub. replace (4 - L + 1) with (4 - Z.of_nat n) by lia.
  replace ((p * 512 + i) * bytes_of_level L) with ((p * 512 + i) * 2 ^ (12 + 9 * Z.of_nat n)); [exact IH|].
  unfold bytes_of_level. do 2 f_equal. lia.
Qed.

(** A terminal visit is an entry of the tree that maps a page. *)
Record reports (n : nat) (p : Z) (sz : PageSize) (t' q i : Z) (x : Visit) : Prop := {
  rp_table : tab !! (level sz, q) = Some t';
  rp_idx : 0 <= i < 512 /\ below (level sz) q;
  rp_visit : x = visit_of m (Z.to_nat (level sz)) t' q i;
  rp_present : pte_is_present (ent m t' i) = true;
  rp_huge : sz <> Size4K -> tab !! (level sz - 1, q * 512 + i) = None /\ pte_is_huge (ent m t' i) = true;
  rp_range : p * 2 ^ (12 + 9 * Z.of_nat n) <= vi_vaddr x /\
             vi_vaddr x + page_bytes sz <= (p + 1) * 2 ^ (12 + 9 * Z.of_nat n);
}.

Lemma visits_sound n : forall t p x,
  (1 <= n <= 4)%nat -> tab !! (Z.of_nat n, p) = Some t -> below (Z.of_nat n) p ->
  x ∈ visits m n t p -> terminal x = true -> exists sz t' q i, reports n p sz t' q i x.
Proof.
  induction n as [|n IH]; intros t p x Hn Ht Hp Hx Hterm; [lia|]. cbn [visits] in Hx.
  apply list_elem_of_In, in_flat_map in Hx as (i & Hi & Hx).
  apply list_elem_of_In, elem_of_seqZ in Hi. apply list_elem_of_In in Hx. cbv zeta in Hx.
  destruct (pte_is_present (ent m t i)) eqn:Hpr; [|by apply not_elem_of_nil in Hx].
  apply elem_of_cons in Hx as [->|Hx].
  - assert (forall sz, level sz = Z.of_nat (S n) ->
      (sz <> Size4K -> tab !! (level sz - 1, p * 512 + i) = None /\ pte_is_huge (ent m t i) = true) ->
      exists sz t' q j, reports (S n) p sz t' q j (visit_of m (S n) t p i)) as Hfin.
    { intros sz Hs Hh. exists sz, t, p, i. split; try done.
      - by rewrite Hs.
      - rewrite Hs. split; [lia|done].
      - rewrite Hs. by rewrite Nat2Z.id.
      - cbn [visit_of vi_vaddr]. unfold bytes_of_level. rewrite <- Hs.
        destruct sz; cbn [level page_bytes]; cbn; lia. }
    unfold terminal in Hterm. cbn [visit_of vi_level vi_entry] in Hterm.
    destruct n as [|n]; [by apply (Hfin Size4K)|].
    rewrite (proj2 (Z.leb_gt 3 (4 - Z.of_nat (S (S n))))) in Hterm by lia. cbn [orb] in Hterm.
    destruct (present_next _ p t i Ht ltac:(lia) ltac:(lia) Hpr) as [(c & _ & _ & Hh & _)|(Hc & _ & _ & H3)]; [congruence|].
    destruct n as [|[|n]]; [by apply (Hfin Size2M)|by apply (Hfin Size1G)|exfalso; clear -H3; lia].
  - destruct (Z.ltb_spec 1 (Z.of_nat (S n))) as [H1|]; [|by apply not_elem_of_nil in Hx]. cbn [andb] in Hx.
    destruct (present_next _ p t i Ht ltac:(lia) ltac:(lia) Hpr) as [(c & Hc & _ & Hh & Ha)|(_ & _ & Hh & _)];
      rewrite Hh in Hx; cbn [negb] in Hx; [|by apply not_elem_of_nil in Hx].
    pose proof (below_next (Z.of_nat (S n)) p i ltac:(lia) Hp ltac:(lia)) as Hb. rewrite Ha in Hx.
    replace (Z.of_nat (S n) - 1) with (Z.of_nat n) in * by lia.
    destruct (IH c _ x ltac:(lia) Hc Hb Hx Hterm) as (sz & t' & q & j & [R1 R2 R3 R4 R5 [R6 R7]]).
    exists sz, t', q, j. split; try done.
    replace (12 + 9 * Z.of_nat (S n)) with (12 + 9 * Z.of_nat n + 9) by lia. rewrite Z.pow_add_r by lia.
    assert (0 < 2 ^ (12 + 9 * Z.of_nat n)) by (apply Z.pow_pos_nonneg; lia). nia.
Qed.

(** Every present entry on the path of an address is visited. *)
Lemma visits_complete sz w t' n : forall t,
  tab !! (level sz, prefix (level sz) w) = Some t' -> pte_is_present (ent m t' (idx (level sz) w)) = true ->
  level sz <= Z.of_nat n <= 4 -> tab !! (Z.of_nat n, prefix (Z.of_nat n) w) = Some t ->
  visit_of m (Z.to_nat (level sz)) t' (prefix (level sz) w) (idx (level sz) w) ∈ visits m n t (prefix (Z.of_nat n) w).
Proof.
  assert (1 <= level sz) as Hl by (destruct sz; cbn; lia).
  induction n as [|n IH]; intros t Ht' Hpr Hn Ht; [lia|].
  cbn [visits]. apply list_elem_of_In, in_flat_map. exists (idx (Z.of_nat (S n)) w).
  pose proof (idx_range (Z.of_nat (S n)) w) as Hi.
  split; [apply list_elem_of_In, elem_of_seqZ; lia|]. apply list_elem_of_In. cbv zeta.
  destruct (decide (level sz = Z.of_nat (S n))) as [He|Hne].
  - rewrite He in *. rewrite Ht in Ht'. injection Ht' as <-. rewrite Hpr, Nat2Z.id. apply elem_of_cons. by left.
  - assert (exists c, tab !! (Z.of_nat n, prefix (Z.of_nat n) w) = Some c) as [c Hc].
    { assert (forall k, level sz + Z.of_nat k <= 4 ->
        exists c, tab !! (level sz + Z.of_nat k, prefix (level sz + Z.of_nat k) w) = Some c) as Hup.
      { induction k as [|k IHk]; intros Hk; [rewrite Z.add_0_r; eauto|].
        destruct IHk as [c Hc]; [lia|].
        destruct (parent_at INV (level sz + Z.of_nat k) w c) as [u Hu]; [lia|done|].
        replace (level sz + Z.of_nat (S k)) with (level sz + Z.of_nat k + 1) by lia. eauto. }
      destruct (Hup (Z.to_nat (Z.of_nat n - level sz))) as [c Hc]; [lia|].
      replace (level sz + Z.of_nat (Z.to_nat (Z.of_nat n - level sz))) with (Z.of_nat n) in Hc by lia. eauto. }
    pose proof (child_at INV (Z.of_nat (S n)) w t c) as Hch.
    replace (Z.of_nat (S n) - 1) with (Z.of_nat n) in Hch by lia.
    destruct Hch as (Hp & Hh & Ha); [lia|done|done|].
    rewrite Hp, Hh, Ha, (proj2 (Z.ltb_lt 1 (Z.of_nat (S n)))) by lia.
    apply elem_of_cons. right. cbn [andb negb].
    rewrite <- prefix_next by lia. replace (Z.of_nat (S n) - 1) with (Z.of_nat n) by lia. apply IH; done || lia.
Qed.

(** ** The order of the visits *)
Definition before (x y : Visit) : Prop := vi_vaddr x + bytes_of_level (4 - vi_level x) <= vi_vaddr y.

Lemma sorted_chunks (g : Z -> list Visit) (o b : Z) (k : nat) : forall a, 0 < b ->
  (forall i, a <= i < a + Z.of_nat k -> StronglySorted before (g i) /\
     forall x, x ∈ g i -> (o + i) * b <= vi_vaddr x /\ vi_vaddr x + bytes_of_level (4 - vi_level x) <= (o + i + 1) * b) ->
  StronglySorted before (flat_map g (seqZ a (Z.of_nat k))).
Proof.
  induction k as [|k IH]; intros a Hb Hg; [constructor|].
  rewrite seqZ_cons by lia. replace (Z.pred (Z.of_nat (S k))) with (Z.of_nat k) by lia. cbn [flat_map].
  destruct (Hg a ltac:(lia)) as [Hs Hf]. apply StronglySorted_app. split_and!; [|done|].
  - intros x y Hx Hy. destruct (Hf x Hx) as [_ Hx2].
    apply list_elem_of_In, in_flat_map in Hy as (i & Hi & Hy). apply list_elem_of_In, elem_of_seqZ in Hi.
    destruct (Hg i ltac:(lia)) as [_ Hgi].
    destruct (Hgi y ltac:(by apply list_elem_of_In)) as [Hy1 _]. unfold before. nia.
  - apply IH; [done|]. intros i Hi. apply Hg. lia.
Qed.

Lemma filter_flat_map {X} (h : Visit -> bool) (g : X -> list Visit) l :
  List.filter h (flat_map g l) = flat_map (fun i => List.filter h (g i)) l.
Proof. induction l as [|i l IH]; [done|]. cbn [flat_map]. by rewrite List.filter_app, IH. Qed.

Lemma elem_of_filter_true h (x : Visit) l : x ∈ List.filter h l <-> x ∈ l /\ h x = true.
Proof. by rewrite !list_elem_of_In, filter_In. Qed.

Lemma page_bytes_level sz : page_bytes sz = bytes_of_level (level sz).
Proof. by destruct sz. Qed.

Lemma visits_sorted n : forall t p,
  (1 <= n <= 4)%nat -> tab !! (Z.of_nat n, p) = Some t -> below (Z.of_nat n) p ->
  StronglySorted before (List.filter terminal (visits m n t p)).
Proof.
  induction n as [|n IH]; intros t p Hn Ht Hp; [lia|]. cbn [visits]. rewrite filter_flat_map.
  apply (sorted_chunks _ (p * 512) (bytes_of_level (Z.of_nat (S n))) 512).
  { apply Z.pow_pos_nonneg; lia. }
  intros i Hi. cbv zeta. destruct (pte_is_present (ent m t i)) eqn:Hpr; [|by split; [constructor|intros x Hx; apply not_elem_of_nil in Hx]].
  assert (StronglySorted before [visit_of m (S n) t p i] /\
    forall x, x ∈ [visit_of m (S n) t p i] -> (p * 512 + i) * bytes_of_level (Z.of_nat (S n)) <= vi_vaddr x /\
      vi_vaddr x + bytes_of_level (4 - vi_level x) <= (p * 512 + i + 1) * bytes_of_level (Z.of_nat (S n))) as Hone.
  { split; [by repeat constructor|]. intros x ->%list_elem_of_singleton. cbn [visit_of vi_vaddr vi_level].
    replace (4 - (4 - Z.of_nat (S n))) with (Z.of_nat (S n)) by lia. lia. }
  destruct (decide (n = 0%nat)) as [->|H0]; [exact Hone|].
  assert (terminal (visit_of m (S n) t p i) = pte_is_huge (ent m t i)) as Hterm0.
  { unfold terminal. cbn [visit_of vi_level vi_entry]. by rewrite (proj2 (Z.leb_gt 3 (4 - Z.of_nat (S n)))) by lia. }
  rewrite (proj2 (Z.ltb_lt 1 (Z.of_nat (S n)))) by lia. cbn [andb List.filter]. rewrite Hterm0.
  destruct (present_next (Z.of_nat (S n)) p t i Ht ltac:(lia) ltac:(lia) Hpr) as [(c & Hc & _ & Hh & Ha)|(_ & _ & Hh & _)];
    rewrite Hh; cbn [negb List.filter]; [|exact Hone].
  pose proof (below_next (Z.of_nat (S n)) p i ltac:(lia) Hp ltac:(lia)) as Hb.
  replace (Z.of_nat (S n) - 1) with (Z.of_nat n) in * by lia. rewrite Ha. split; [by apply IH; [lia|..]|].
  intros x [Hx Hterm]%elem_of_filter_true.
  destruct (visits_sound n c _ x ltac:(lia) Hc Hb Hx Hterm) as (sz & t' & q & j & [_ _ Hv _ _ [R6 R7]]).
  assert (bytes_of_level (Z.of_nat (S n)) = 2 ^ (12 + 9 * Z.of_nat n)) as -> by (unfold bytes_of_level; f_equal; lia).
  split; [exact R6|]. rewrite page_bytes_level in R7.
  replace (4 - vi_level x) with (level sz); [lia|]. rewrite Hv. cbn [visit_of vi_level]. destruct sz; cbn; lia.
Qed.

Lemma page_start_of sz w :
  page_of sz w * page_bytes sz <= w mod 2 ^ 48 < page_of sz w * page_bytes sz + page_bytes sz.
Proof.
  unfold page_of. pose proof (page_bytes_pos sz). pose proof (Z.mod_pos_bound (w mod 2 ^ 48) (page_bytes sz) ltac:(lia)).
  pose proof (Z.div_mod (w mod 2 ^ 48) (page_bytes sz) ltac:(lia)). lia.
Qed.

(** What [query] answers on a page that was reported. *)
Lemma reported_lookup n p sz t' q i x w :
  reports n p sz t' q i x -> vi_vaddr x <= w mod 2 ^ 48 < vi_vaddr x + page_bytes sz ->
  lookup tab m w = Some (vi_entry x, sz).
Proof.
  intros [R1 [Ri _] -> R4 R5 _] Hw. cbn [visit_of vi_vaddr vi_entry] in *.
  assert (prefix (level sz) w = q /\ idx (level sz) w = i) as [Hq Hx].
  { assert (page_of sz w = q * 512 + i) as Hpg.
    { unfold page_of. rewrite Z2Nat.id in Hw by (destruct sz; cbn; lia). rewrite page_bytes_level in *.
      assert (0 < bytes_of_level (level sz)) by (apply Z.pow_pos_nonneg; destruct sz; cbn; lia).
      symmetry. apply Z.div_unique with (w mod 2 ^ 48 - (q * 512 + i) * bytes_of_level (level sz)); lia. }
    rewrite page_of_prefix, prefix_next in Hpg by (destruct sz; cbn; lia).
    pose proof (idx_range (level sz) w). lia. }
  pose proof (lookup_at INV sz w t') as Hl. rewrite Hq, Hx in Hl. rewrite Hl; [|done|].
  - unfold leaf_test. destruct sz; cbn [PageSize.is_huge].
    + destruct (Z.eqb_spec (ent m t' i) 0) as [H0|]; [|done]. by rewrite H0, law_present_0 in R4.
    + by destruct R5 as [_ ->].
    + by destruct R5 as [_ ->].
  - intros Hs. destruct (R5 Hs) as [Hn _].
    rewrite prefix_next by (destruct sz; cbn; lia). by rewrite Hq, Hx.
Qed.
End Tree.

(** [x] is a report on the page of the address [w]. *)
Definition covers (x : Visit) (w : Z) : Prop :=
  vi_vaddr x <= w mod 2 ^ 48 < vi_vaddr x + bytes_of_level (4 - vi_level x).

Definition reported (l : list Visit) (w : Z) : Prop := exists x, x ∈ l /\ terminal x = true /\ covers x w.

Section Answers.
Context (s : St (A := A)).
Abbreviation sm := (pm (fst s)).
Abbreviation sroot := (root_paddr (snd s)).
Abbreviation all_visits := (visits sm 4 sroot 0).

(** A report and the entry that answers for the address. *)
Lemma reported_entry x w :
  pt_valid s -> x ∈ all_visits -> terminal x = true -> covers x w ->
  exists ptr sz, get_entry_mut sm sroot w = Ok (ptr, sz) /\ vi_entry x = deref sm ptr /\
    pte_is_present (deref sm ptr) = true /\ vi_level x = 4 - level sz.
Proof.
  intros [tab W] Hx Ht Hw. pose proof (wf_inv _ _ W) as INV.
  destruct (visits_sound INV 4 sroot 0 x) as (sz & t' & q & i & R);
    [lia|exact (inv_root _ _ _ _ INV)|lia|done|done|].
  assert (vi_level x = 4 - level sz) as Hlv by (rewrite (rp_visit _ _ _ _ _ _ _ R); cbn; by destruct sz).
  unfold covers in Hw. rewrite Hlv in Hw. replace (4 - (4 - level sz)) with (level sz) in Hw by lia.
  rewrite <- page_bytes_level in Hw. pose proof (reported_lookup INV _ _ _ _ _ _ _ w R Hw) as Hl.
  destruct (get_entry_spec INV w) as [(sz' & t & Hta & Hs & Hg)|[_ Hn]]; [|congruence].
  pose proof (lookup_at INV sz' w t Hta (fun H => proj1 (Hs H))) as Hl'. rewrite Hl in Hl'. cbv zeta in Hl'.
  destruct (leaf_test sz' (ent sm t (idx (level sz') w))); [|done]. injection Hl' as He <-.
  eexists _, sz. split; [exact Hg|]. rewrite deref_ent by (apply idx_range || by eapply inv_table_ok).
  split; [done|]. split; [|done]. rewrite <- He. rewrite (rp_visit _ _ _ _ _ _ _ R). exact (rp_present _ _ _ _ _ _ _ R).
Qed.

Lemma entry_reported w ptr sz :
  pt_valid s -> get_entry_mut sm sroot w = Ok (ptr, sz) -> pte_is_present (deref sm ptr) = true ->
  exists x, x ∈ all_visits /\ terminal x = true /\ covers x w /\ vi_entry x = deref sm ptr /\ vi_level x = 4 - level sz.
Proof.
  intros [tab W] Hg Hpr. pose proof (wf_inv _ _ W) as INV. pose proof (inv_root _ _ _ _ INV) as Hr.
  destruct (get_entry_spec INV w) as [(sz' & t & Ht & Hs & Hg')|[Hg' _]]; rewrite Hg' in Hg; [|done].
  injection Hg as <- <-. rewrite deref_ent in * by (apply idx_range || by eapply inv_table_ok).
  pose proof (visits_complete INV sz' w t 4 sroot Ht Hpr ltac:(destruct sz'; cbn; lia)) as Hx.
  rewrite prefix_root in Hx. specialize (Hx Hr). eexists. split; [exact Hx|].
  unfold terminal, covers. cbn [visit_of vi_level vi_entry vi_vaddr]. rewrite Z2Nat.id by (destruct sz'; cbn; lia).
  replace (4 - (4 - level sz')) with (level sz') by lia.
  rewrite <- page_bytes_level, <- prefix_next, <- page_of_prefix by (destruct sz'; cbn; lia). split_and!; try done.
  - destruct sz'; [done|..]; destruct Hs as [_ ->]; by rewrite ?orb_true_r.
  - apply page_start_of.
  - apply page_start_of.
Qed.
End Answers.

(** C18. With room for all entries of a table, the walk ends without a panic and
    reports exactly the pages whose entry is present, in ascending order
    without overlap and so none twice; what it reports is what [query] answers
    on the whole page. It is not all that [query] answers: [query] asks only
    whether the entry is unused, and an entry that is used but not present is
    answered and not reported (an EPT page without read, write and execute, as
    [dma_hidden] below shows). *)
Theorem walk_correct E (s : St (A := A)) limit :
  pt_valid s -> 512 <= limit ->
  exists l, walk_all (E := E) (pm (fst s)) (root_paddr (snd s)) limit [] = (Ok tt, l) /\
    (forall w, match get_entry_mut (pm (fst s)) (root_paddr (snd s)) w with
       | Ok (ptr, _) => reported l w <-> pte_is_present (deref (pm (fst s)) ptr) = true
       | _ => ~ reported l w
       end) /\
    (forall x w, x ∈ l -> terminal x = true -> covers x w -> exists sz, vi_level x = 4 - level sz /\
       answer s w = Ok (add64 (pte_addr (vi_entry x)) (w mod page_bytes sz), pte_flags (vi_entry x), sz)) /\
    (forall w ptr sz, get_entry_mut (pm (fst s)) (root_paddr (snd s)) w = Ok (ptr, sz) ->
       pte_is_present (deref (pm (fst s)) ptr) = false -> pte_is_unused (deref (pm (fst s)) ptr) = false ->
       is_ok (answer s w) = true /\ ~ reported l w) /\
    StronglySorted before (List.filter terminal l).
Proof.
  intros Hs Hl. pose proof Hs as [tab W]. pose proof (wf_inv _ _ W) as INV. pose proof (inv_root _ _ _ _ INV) as Hr.
  assert (forall w ptr sz, get_entry_mut (pm (fst s)) (root_paddr (snd s)) w = Ok (ptr, sz) ->
    reported (visits (pm (fst s)) 4 (root_paddr (snd s)) 0) w <-> pte_is_present (deref (pm (fst s)) ptr) = true) as Hrep.
  { intros w ptr sz Hg. split.
    - intros (x & Hx & Ht & Hc). destruct (reported_entry s x w Hs Hx Ht Hc) as (ptr' & sz' & Hg' & _ & Hp & _). congruence.
    - intros Hp. destruct (entry_reported s w ptr sz Hs Hg Hp) as (x & Hx & Ht & Hc & _). by exists x. }
  exists (visits (pm (fst s)) 4 (root_paddr (snd s)) 0). split_and!.
  - exact (walk_visits INV E limit 4 Hl (root_paddr (snd s)) 0 [] ltac:(lia) Hr ltac:(lia)).
  - intros w. destruct (get_entry_mut _ _ w) as [[ptr sz]|e| |] eqn:Hg; [by apply (Hrep w ptr sz)|..];
      intros (x & Hx & Ht & Hc); destruct (reported_entry s x w Hs Hx Ht Hc) as (ptr & sz & Hg' & _); congruence.
  - intros x w Hx Ht Hc. destruct (reported_entry s x w Hs Hx Ht Hc) as (ptr & sz & Hg & He & Hp & Hlv).
    exists sz. split; [done|]. unfold answer, query, query_at. cbn [fst]. rewrite Hg, He.
    destruct (pte_is_unused (deref (pm (fst s)) ptr)) eqn:Hu; [exfalso|by rewrite ps_page_offset_mod].
    rewrite law_unused in Hu. apply Z.eqb_eq in Hu. by rewrite Hu, law_present_0 in Hp.
  - intros w ptr sz Hg Hp Hu. split; [|by rewrite (Hrep w ptr sz Hg), Hp].
    unfold answer, query, query_at. cbn [fst]. by rewrite Hg, Hu.
  - exact (visits_sorted INV 4 (root_paddr (snd s)) 0 ltac:(lia) Hr ltac:(lia)).
Qed.
End Walk.

(** ** A walk over a page that is reported and one that is not *)
Module WalkSample.
#[local] Existing Instance X86PageTableFlags_ref.
#[local] Existing Instance BitField_ref.
#[local] Existing Instance EPTEntry.ops.
#[local] Existing Instance EPTEntry.laws.
#[local] Instance sample_pv : PhysVirt := 0xffffff0000000000.

(** An EPT with a readable and writable page at 0x40000000 and a page with the
    flag DMA alone at 0x80000000. *)
Definition ept0 : MSt :=
  match ms_new (E := HvErrorNum) Sample.machine with
  | (Ok ms, m) => (m, ms)
  | (_, m) => (m, mkMemorySet [] (mkPT (mkFrame 0 0) []))
  end.
Definition rw_page : MemoryRegion := new_with_offset_mapper 0x40000000 0x200000 0x1000 0x3.
Definition dma_page : MemoryRegion := new_with_offset_mapper 0x80000000 0x300000 0x1000 MEM_DMA.
Definition ept1 : MSt := snd (insert rw_page ept0).
Definition ept2 : MSt := snd (insert dma_page ept1).

Lemma insert_keeps_valid r s :
  ms_valid s -> region_pre r -> is_ok (fst (insert r s)) = true -> ms_valid (snd (insert r s)).
Proof.
  intros [tab W] Hp Hok. pose proof (insert_ok tab s r W Hp) as H.
  destruct (insert r s) as [[[]|e| |] s1]; try discriminate Hok. destruct H as (tab' & W' & _). by exists tab'.
Qed.

Lemma rw_page_pre : region_pre rw_page.
Proof. apply (offset_pre (pte := EPTEntry.ops)); by vm_compute. Qed.

Lemma dma_page_pre : region_pre dma_page.
Proof. apply (offset_pre (pte := EPTEntry.ops)); by vm_compute. Qed.

Lemma ept2_valid : pt_valid (pt_st ept2).
Proof.
  assert (ms_valid ept0) as H0.
  { destruct Sample.machine_wf as [Hf Hq]. destruct (ms_new_ok HvErrorNum Sample.machine Hf Hq) as (ms & m' & Hn & _ & W).
    unfold ept0. rewrite Hn. eexists. exact W. }
  assert (ms_valid ept2) as [tab W]; [|exists tab; apply W].
  apply insert_keeps_valid; [apply insert_keeps_valid; [exact H0|exact rw_page_pre|]|exact dma_page_pre|];
    vm_compute; reflexivity.
Qed.

(** Both pages are inserted and answered; of the second nothing is reported. *)
Theorem dma_hidden :
  fst (insert dma_page ept1) = Ok tt /\
  answer (pt_st ept2) 0x40000234 = Ok (0x200234, 0x3, Size4K) /\
  answer (pt_st ept2) 0x80000234 = Ok (0x300234, 0, Size4K) /\
  List.map vi_vaddr (List.filter terminal
    (snd (walk_all (E := HvErrorNum) (pm (fst (pt_st ept2))) (root_paddr (snd (pt_st ept2))) 512 []))) = [0x40000000].
Proof. split_and!; vm_compute; reflexivity. Qed.

(** The first page is found in the report and the second is not. *)
Lemma walk_correct_witness :
  let s := pt_st ept2 in
  exists l, walk_all (E := HvErrorNum) (pm (fst s)) (root_paddr (snd s)) 512 [] = (Ok tt, l) /\
    reported l 0x40000234 /\ is_ok (answer s 0x80000234) = true /\ ~ reported l 0x80000234.
Proof.
  cbv zeta. destruct (walk_correct HvErrorNum (pt_st ept2) 512 ept2_valid ltac:(lia)) as (l & Hw & Hiff & _ & Hno & _).
  exists l. split; [exact Hw|]. pose proof (Hiff 0x40000234) as H1. pose proof (Hno 0x80000234) as H2.
  destruct (get_entry_mut _ _ 0x40000234) as [[p1 s1]|e| |] eqn:G1; try (vm_compute in G1; discriminate G1).
  destruct (get_entry_mut _ _ 0x80000234) as [[p2 s2]|e| |] eqn:G2; try (vm_compute in G2; discriminate G2).
  split; [apply H1|apply (H2 p2 s2 eq_refl)].
  - vm_compute in G1. injection G1 as <- <-. vm_compute. reflexivity.
  - vm_compute in G2. injection G2 as <- <-. vm_compute. reflexivity.
  - vm_compute in G2. injection G2 as <- <-. vm_compute. reflexivity.
Defined.
End WalkSample.
