(* ===== verification/Config.v ===== *)
(** * Configuration and memory layout

    [src/src/config.rs]: the packed structures the driver passes, read from the
    bytes of memory, and the sizes computed from them; [src/src/consts.rs],
    [src/src/header.rs] and the [init] of [src/src/memory/frame.rs]: where the
    per-CPU data, the configuration and the page pool lie in the hypervisor
    memory. Memory is a function from addresses to bytes. *)

From S2P Require Import Prelude Crates HvError Addr Frame.

(** ** Packed structures

    The sizes of the fields, in order; [#[repr(C, packed)]] leaves no gaps. *)
Definition sum (l : list Z) : Z := foldr Z.add 0 l.

Definition HV_CELL_NAME_MAXLEN : Z := 31.
Definition HV_MAX_IOMMU_UNITS : Z := 8.

Definition HvConsole_layout : list Z := [8; 4; 2; 2; 4; 4; 8].
Definition HvCellDesc_layout : list Z :=
  [6; 2; HV_CELL_NAME_MAXLEN + 1; 4; 4; 4; 4; 4; 4; 4; 4; 4; 4; 8; 8; sum HvConsole_layout].
Definition HvMemoryRegion_layout : list Z := [8; 8; 8; 8].
Definition HvCacheRegion_layout : list Z := [4; 4; 1; 1; 2].
Definition HvIrqChip_layout : list Z := [8; 4; 4; 4 * 4].
Definition HvPciDevice_layout : list Z := [1; 1; 2; 2; 4 * 6; 2; 2; 1; 1; 2; 2; 8; 4; 2; 2].
Definition HvPciCapability_layout : list Z := [2; 2; 2; 2].
Definition HvIommu_layout : list Z := [8; 4; 2; 1; 1; 4].
Definition ArchPlatformInfo_layout : list Z :=
  [2; 4; 1; 3; 4; 4; sum HvIommu_layout * HV_MAX_IOMMU_UNITS].
Definition PlatformInfo_layout : list Z := [8; 1; 1; 2; sum ArchPlatformInfo_layout].
Definition HvSystemConfig_layout : list Z :=
  [6; 2; 4; sum HvMemoryRegion_layout; sum HvConsole_layout; sum PlatformInfo_layout;
   sum HvCellDesc_layout].

(** The offset of the [i]-th field. *)
Definition offset_of (layout : list Z) (i : nat) : Z := sum (take i layout).

(** ** Reading memory *)
Section Read.
Context (mem : Z -> Z).

(** An [n]-byte little-endian integer at [a]. *)
Fixpoint le (n : nat) (a : Z) : Z :=
  match n with
  | O => 0
  | S n' => mem a + 256 * le n' (a + 1)
  end.

Definition bytes_at (n : nat) (a : Z) : list Z := (fun i => mem (a + i)) <$> seqZ 0 (Z.of_nat n).
End Read.

Record HvMemoryRegion : Type := mkHvMemoryRegion {
  phys_start : Z;
  virt_start : Z;
  mr_size : Z;
  mr_flags : Z;
}.

#[export] Instance HvMemoryRegion_eq_dec : EqDecision HvMemoryRegion.
Proof. solve_decision. Defined.

Record HvConsole : Type := mkHvConsole {
  con_address : Z;
  con_size : Z;
  console_type : Z;
  con_flags : Z;
  divider : Z;
  gate_nr : Z;
  clock_reg : Z;
}.

Record HvCellDesc : Type := mkHvCellDesc {
  cell_signature : list Z;
  cell_revision : Z;
  name : list Z;
  id : Z;
  cell_flags : Z;
  cpu_set_size : Z;
  num_memory_regions : Z;
  num_cache_regions : Z;
  num_irqchips : Z;
  pio_bitmap_size : Z;
  num_pci_devices : Z;
  num_pci_caps : Z;
  vpci_irq_base : Z;
  cpu_reset_address : Z;
  msg_reply_timeout : Z;
  console : HvConsole;
}.

Record HvIommu : Type := mkHvIommu {
  iommu_base : Z;
  iommu_size : Z;
  amd_bdf : Z;
  amd_base_cap : Z;
  amd_msi_cap : Z;
  amd_features : Z;
}.

Record ArchPlatformInfo : Type := mkArchPlatformInfo {
  pm_timer_address : Z;
  vtd_interrupt_limit : Z;
  apic_mode : Z;
  tsc_khz : Z;
  apic_khz : Z;
  iommu_units : list HvIommu;
}.

Record PlatformInfo : Type := mkPlatformInfo {
  pci_mmconfig_base : Z;
  pci_mmconfig_end_bus : Z;
  pci_is_virtual : Z;
  pci_domain : Z;
  arch_info : ArchPlatformInfo;
}.

(** [HvSystemConfig], a reference to which is its address [sc_ptr]. *)
Record HvSystemConfig : Type := mkHvSystemConfig {
  sc_ptr : Z;
  signature : list Z;
  revision : Z;
  sc_flags : Z;
  hypervisor_memory : HvMemoryRegion;
  debug_console : HvConsole;
  platform_info : PlatformInfo;
  root_cell : HvCellDesc;
}.

(** Dereferencing a pointer to each structure. *)
Definition read_HvMemoryRegion (mem : Z -> Z) (a : Z) : HvMemoryRegion :=
  let f i := a + offset_of HvMemoryRegion_layout i in
  mkHvMemoryRegion (le mem 8 (f 0%nat)) (le mem 8 (f 1%nat)) (le mem 8 (f 2%nat)) (le mem 8 (f 3%nat)).

Definition read_HvConsole (mem : Z -> Z) (a : Z) : HvConsole :=
  let f i := a + offset_of HvConsole_layout i in
  mkHvConsole (le mem 8 (f 0%nat)) (le mem 4 (f 1%nat)) (le mem 2 (f 2%nat)) (le mem 2 (f 3%nat))
    (le mem 4 (f 4%nat)) (le mem 4 (f 5%nat)) (le mem 8 (f 6%nat)).

Definition read_HvCellDesc (mem : Z -> Z) (a : Z) : HvCellDesc :=
  let f i := a + offset_of HvCellDesc_layout i in
  mkHvCellDesc (bytes_at mem 6 (f 0%nat)) (le mem 2 (f 1%nat)) (bytes_at mem 32 (f 2%nat))
    (le mem 4 (f 3%nat)) (le mem 4 (f 4%nat)) (le mem 4 (f 5%nat)) (le mem 4 (f 6%nat))
    (le mem 4 (f 7%nat)) (le mem 4 (f 8%nat)) (le mem 4 (f 9%nat)) (le mem 4 (f 10%nat))
    (le mem 4 (f 11%nat)) (le mem 4 (f 12%nat)) (le mem 8 (f 13%nat)) (le mem 8 (f 14%nat))
    (read_HvConsole mem (f 15%nat)).

Definition read_HvIommu (mem : Z -> Z) (a : Z) : HvIommu :=
  let f i := a + offset_of HvIommu_layout i in
  mkHvIommu (le mem 8 (f 0%nat)) (le mem 4 (f 1%nat)) (le mem 2 (f 2%nat)) (le mem 1 (f 3%nat))
    (le mem 1 (f 4%nat)) (le mem 4 (f 5%nat)).

Definition read_PlatformInfo (mem : Z -> Z) (a : Z) : PlatformInfo :=
  let f i := a + offset_of PlatformInfo_layout i in
  let g i := f 4%nat + offset_of ArchPlatformInfo_layout i in
  mkPlatformInfo (le mem 8 (f 0%nat)) (le mem 1 (f 1%nat)) (le mem 1 (f 2%nat)) (le mem 2 (f 3%nat))
    (mkArchPlatformInfo (le mem 2 (g 0%nat)) (le mem 4 (g 1%nat)) (le mem 1 (g 2%nat))
       (le mem 4 (g 4%nat)) (le mem 4 (g 5%nat))
       ((fun i => read_HvIommu mem (g 6%nat + sum HvIommu_layout * i)) <$> seqZ 0 HV_MAX_IOMMU_UNITS)).

(** [HvSystemConfig::get] dereferences [hv_config_ptr]. *)
Definition read_HvSystemConfig (mem : Z -> Z) (a : Z) : HvSystemConfig :=
  let f i := a + offset_of HvSystemConfig_layout i in
  mkHvSystemConfig a (bytes_at mem 6 (f 0%nat)) (le mem 2 (f 1%nat)) (le mem 4 (f 2%nat))
    (read_HvMemoryRegion mem (f 3%nat)) (read_HvConsole mem (f 4%nat))
    (read_PlatformInfo mem (f 5%nat)) (read_HvCellDesc mem (f 6%nat)).

(** ** [HvCellDesc], [HvSystemConfig], [CellConfig] *)
Definition config_size (d : HvCellDesc) : Z :=
  add64 (add64 (add64 (add64 (add64 (add64
    (cpu_set_size d)
    (mul64 (num_memory_regions d) (sum HvMemoryRegion_layout)))
    (mul64 (num_cache_regions d) (sum HvCacheRegion_layout)))
    (mul64 (num_irqchips d) (sum HvIrqChip_layout)))
    (pio_bitmap_size d))
    (mul64 (num_pci_devices d) (sum HvPciDevice_layout)))
    (mul64 (num_pci_caps d) (sum HvPciCapability_layout)).

Definition sc_size (c : HvSystemConfig) : Z :=
  add64 (sum HvSystemConfig_layout) (config_size (root_cell c)).

Definition CONFIG_SIGNATURE : list Z := [0x52; 0x56; 0x4d; 0x53; 0x59; 0x53].
Definition CONFIG_REVISION : Z := 10.

Definition check (c : HvSystemConfig) : HvResult unit :=
  if negb (bool_decide (signature c = CONFIG_SIGNATURE)) then Err EINVAL
  else if negb (revision c =? CONFIG_REVISION) then Err EINVAL
  else Ok tt.

(** The address of the root cell's descriptor in the system configuration. *)
Definition root_cell_ptr (c : HvSystemConfig) : Z :=
  sc_ptr c + offset_of HvSystemConfig_layout 6%nat.

(** [config_ptr]: just behind the descriptor at [desc]. *)
Definition config_ptr (desc : Z) : Z := desc + sum HvCellDesc_layout.

(** [cpu_set]: the start of the slice and the number of its [u64]s. *)
Definition cpu_set (desc : Z) (d : HvCellDesc) : Z * Z := (config_ptr desc, cpu_set_size d / 8).

(** [mem_regions]: the slice behind the CPU set. *)
Definition mem_regions_ptr (desc : Z) (d : HvCellDesc) : Z :=
  fst (cpu_set desc d) + 8 * snd (cpu_set desc d).

Definition mem_regions (mem : Z -> Z) (desc : Z) (d : HvCellDesc) : list HvMemoryRegion :=
  (fun i => read_HvMemoryRegion mem (mem_regions_ptr desc d + sum HvMemoryRegion_layout * i))
    <$> seqZ 0 (num_memory_regions d).

(** ** [consts.rs]: the memory layout *)
Definition HV_HEAP_SIZE : Z := 32 * 1024 * 1024.
Definition PER_CPU_SIZE : Z := 512 * 1024.
Definition HV_BASE : Z := 0xffffff0000000000.

(** [HvHeader]. *)
Record HvHeader : Type := mkHvHeader {
  h_signature : list Z;
  core_size : Z;
  percpu_size : Z;
  h_entry : Z;
  console_page : Z;
  gcov_info_head : Z;
  max_cpus : Z;
  online_cpus : Z;
  debug_console_base : Z;
  arm_linux_hyp_vectors : Z;
  arm_linux_hyp_abi : Z;
}.

Definition HEADER_SIGNATURE : list Z := [0x52; 0x56; 0x4d; 0x49; 0x4d; 0x41; 0x47; 0x45].

(** The header linked into the image: the driver fills in the CPU counts. *)
Definition HEADER_STUFF (core_size entry_offset : Z) : HvHeader :=
  mkHvHeader HEADER_SIGNATURE core_size PER_CPU_SIZE entry_offset 0 0 0 0 0 0 0.

Section Layout.
(** [__core_end], set by the linker script. *)
Context (core_end : Z).

Definition PER_CPU_ARRAY_PTR : Z := core_end.
Definition hv_config_ptr (h : HvHeader) : Z :=
  add64 PER_CPU_ARRAY_PTR (mul64 (max_cpus h) PER_CPU_SIZE).
Definition free_memory_start (h : HvHeader) (c : HvSystemConfig) : Z :=
  align_up (add64 (hv_config_ptr h) (sc_size c)).
Definition hv_end (c : HvSystemConfig) : Z := add64 HV_BASE (mr_size (hypervisor_memory c)).

(** [init_heap]: the value of [PHYS_VIRT_OFFSET]. *)
Definition phys_virt_offset (c : HvSystemConfig) : Z :=
  sub64 HV_BASE (phys_start (hypervisor_memory c)).

(** [frame::init]. *)
Definition frame_init {A} {ba : BitAlloc A} {pv : PhysVirt} (h : HvHeader) (c : HvSystemConfig)
  : FrameAllocator A :=
  let mem_pool_start := free_memory_start h c in
  let mem_pool_end := align_down (hv_end c) in
  let mem_pool_size := sub64 mem_pool_end mem_pool_start in
  fa_init fa_empty (virt_to_phys mem_pool_start) mem_pool_size.
End Layout.

(** ** Sizes *)
Record desc_ok (d : HvCellDesc) : Prop := {
  do_cpus : in_range 32 (cpu_set_size d);
  do_mem : in_range 32 (num_memory_regions d);
  do_cache : in_range 32 (num_cache_regions d);
  do_irq : in_range 32 (num_irqchips d);
  do_pio : in_range 32 (pio_bitmap_size d);
  do_pci : in_range 32 (num_pci_devices d);
  do_caps : in_range 32 (num_pci_caps d);
}.

Definition exact_size (d : HvCellDesc) : Z :=
  cpu_set_size d + 32 * num_memory_regions d + 12 * num_cache_regions d + 32 * num_irqchips d
  + pio_bitmap_size d + 56 * num_pci_devices d + 8 * num_pci_caps d.

Lemma config_size_exact d : desc_ok d -> config_size d = exact_size d /\ 0 <= exact_size d < 2 ^ 40.
Proof.
  intros [? ? ? ? ? ? ?]. unfold config_size, exact_size, mul64, add64, in_range in *.
  change (sum HvMemoryRegion_layout) with 32. change (sum HvCacheRegion_layout) with 12.
  change (sum HvIrqChip_layout) with 32. change (sum HvPciDevice_layout) with 56.
  change (sum HvPciCapability_layout) with 8.
  split; [|lia]. nowrap. lia.
Qed.

Lemma sc_size_exact c :
  desc_ok (root_cell c) -> sc_size c = 394 + exact_size (root_cell c).
Proof.
  intros H. destruct (config_size_exact _ H) as [Heq Hr]. unfold sc_size, add64. rewrite Heq.
  change (sum HvSystemConfig_layout) with 394. apply wrap_small. unfold in_range. lia.
Qed.

Lemma le_range mem n a : (forall x, 0 <= mem x < 256) -> 0 <= le mem n a < 2 ^ (8 * Z.of_nat n).
Proof.
  intros Hm. revert a. induction n as [|n IH]; intros a; simpl le; [lia|].
  specialize (IH (a + 1)). specialize (Hm a).
  replace (8 * Z.of_nat (S n)) with (8 + 8 * Z.of_nat n) by lia.
  rewrite Z.pow_add_r by lia. lia.
Qed.

(** [le] reads bytes [a .. a + n - 1] only. *)
Lemma le_ext mem mem' n a :
  (forall x, a <= x < a + Z.of_nat n -> mem x = mem' x) -> le mem n a = le mem' n a.
Proof.
  revert a. induction n as [|n IH]; intros a H; simpl; [done|].
  rewrite (H a) by lia. rewrite (IH (a + 1)); [done|]. intros x Hx. apply H. lia.
Qed.

Lemma read_region_ext mem mem' a :
  (forall x, a <= x < a + 32 -> mem x = mem' x) -> read_HvMemoryRegion mem a = read_HvMemoryRegion mem' a.
Proof.
  intros H. unfold read_HvMemoryRegion. f_equal; apply le_ext; intros x Hx; apply H;
    unfold offset_of in Hx; simpl in Hx; lia.
Qed.

(** The regions are read from inside the configuration. *)
Lemma mem_regions_bytes mem mem' desc d :
  desc_ok d ->
  (forall x, config_ptr desc <= x < config_ptr desc + config_size d -> mem x = mem' x) ->
  mem_regions mem desc d = mem_regions mem' desc d.
Proof.
  intros Hd Hm. destruct (config_size_exact d Hd) as [Heq _]. destruct Hd.
  unfold in_range in *. unfold mem_regions. apply list_fmap_ext. intros i k Hk.
  apply list_elem_of_lookup_2, elem_of_seqZ in Hk. apply read_region_ext. intros x Hx. apply Hm.
  unfold mem_regions_ptr, cpu_set in Hx. simpl fst in Hx. simpl snd in Hx.
  change (sum HvMemoryRegion_layout) with 32 in Hx.
  pose proof (Z.mul_div_le (cpu_set_size d) 8). pose proof (Z.div_pos (cpu_set_size d) 8).
  rewrite Heq. unfold exact_size. lia.
Qed.

(** ** The page pool

    The image, the per-CPU data of [max_cpus] CPUs and the configuration fit
    into the hypervisor memory, which is page aligned. *)
Record layout_ok (core_end : Z) (h : HvHeader) (c : HvSystemConfig) : Prop := {
  lo_core : HV_BASE <= core_end;
  lo_cpus : 0 <= max_cpus h;
  lo_desc : desc_ok (root_cell c);
  lo_phys : 0 <= phys_start (hypervisor_memory c) /\
            phys_start (hypervisor_memory c) mod PAGE_SIZE = 0;
  lo_size : 0 <= mr_size (hypervisor_memory c) < 2 ^ 40 /\
            phys_start (hypervisor_memory c) + mr_size (hypervisor_memory c) <= 2 ^ 51;
  lo_fits : core_end + max_cpus h * PER_CPU_SIZE + sc_size c + 2 * PAGE_SIZE
            <= HV_BASE + mr_size (hypervisor_memory c);
}.

Section Pool.
Context {A : Type} {ba : BitAlloc A} {laws : BitAllocLaws A}.
Context (core_end : Z) (h : HvHeader) (c : HvSystemConfig).
Hypothesis HL : layout_ok core_end h c.

(** [init_heap] has set the offset of the linear map. *)
#[local] Instance boot_pv : PhysVirt := phys_virt_offset c.

Local Abbreviation hv := (hypervisor_memory c).

(** The end of the configuration, and the pool behind it. *)
Definition config_end : Z := core_end + max_cpus h * PER_CPU_SIZE + sc_size c.
Definition pool_start : Z := free_memory_start core_end h c.
Definition pool_end : Z := align_down (hv_end c).

Lemma config_end_range :
  0 <= sc_size c /\ HV_BASE <= config_end /\ config_end + 2 * PAGE_SIZE <= HV_BASE + mr_size hv.
Proof.
  destruct HL as [? ? Hd _ ? ?]. pose proof (sc_size_exact c Hd) as Hs.
  destruct (config_size_exact _ Hd) as [_ ?]. unfold config_end, PER_CPU_SIZE in *. lia.
Qed.

Lemma pool_range :
  config_end <= pool_start < config_end + PAGE_SIZE /\ pool_start mod PAGE_SIZE = 0 /\
  pool_end mod PAGE_SIZE = 0 /\ pool_start <= pool_end /\
  HV_BASE + mr_size hv - PAGE_SIZE < pool_end <= HV_BASE + mr_size hv.
Proof.
  pose proof config_end_range as (Hs & He1 & He2). destruct HL as [? ? Hd _ [Hsz _] ?].
  unfold pool_start, free_memory_start, hv_config_ptr, PER_CPU_ARRAY_PTR, pool_end, hv_end.
  unfold config_end, PAGE_SIZE, HV_BASE, PER_CPU_SIZE, add64, mul64 in *.
  nowrap. rewrite align_up_mod, align_down_mod by (unfold in_range, PAGE_SIZE; lia).
  unfold PAGE_SIZE. split_and!; euclid.
Qed.

Lemma frame_init_ok :
  pool_end - pool_start <= ba_cap * PAGE_SIZE -> ba_cap * PAGE_SIZE <= 2 ^ 51 ->
  let f : FrameAllocator A := frame_init core_end h c in
  fa_wf f /\
  forall p, frame_free f p <->
    p mod PAGE_SIZE = 0 /\ phys_start hv + (pool_start - HV_BASE) <= p < phys_start hv + (pool_end - HV_BASE).
Proof.
  intros Hcap Hcap51. pose proof config_end_range as (Hs & He1 & He2).
  pose proof pool_range as (Hps & Hpa & Hpe & Hle & Hee).
  destruct HL as [? ? Hd [Hp0 Hpal] [Hsz Hp52] ?].
  unfold frame_init. fold pool_start pool_end. unfold fa_init, virt_to_phys, PHYS_VIRT_OFFSET, boot_pv,
    phys_virt_offset. simpl.
  assert (sub64 pool_start (sub64 HV_BASE (phys_start hv)) = phys_start hv + (pool_start - HV_BASE)) as ->.
  { unfold sub64, HV_BASE, PAGE_SIZE in *. nowrap. lia. }
  assert (sub64 pool_end pool_start = pool_end - pool_start) as ->.
  { unfold sub64, HV_BASE, PAGE_SIZE in *. nowrap. lia. }
  rewrite !align_up_mod by (unfold PAGE_SIZE, HV_BASE in *; lia).
  set (b := phys_start hv + (pool_start - HV_BASE)). set (n := pool_end - pool_start).
  assert (b mod PAGE_SIZE = 0) as Hb by (unfold b, PAGE_SIZE, HV_BASE in *; euclid).
  assert (n mod PAGE_SIZE = 0) as Hn by (unfold n, PAGE_SIZE in *; euclid).
  assert (b + (PAGE_SIZE - 1) - (b + (PAGE_SIZE - 1)) mod PAGE_SIZE = b) as -> by (unfold PAGE_SIZE in *; euclid).
  assert (n + (PAGE_SIZE - 1) - (n + (PAGE_SIZE - 1)) mod PAGE_SIZE = n) as -> by (unfold PAGE_SIZE in *; euclid).
  split.
  - unfold fa_wf. simpl. split_and!; unfold b, PAGE_SIZE, HV_BASE in *; try lia; done.
  - intros p. unfold frame_free. simpl.
    replace (phys_start hv + (pool_end - HV_BASE)) with (b + n) by (unfold b, n; lia).
    assert (forall i, ba_test (ba_insert ba_default 0 (n / PAGE_SIZE)) i = true <-> 0 <= i < n / PAGE_SIZE) as Ht.
    { intros i. rewrite ba_test_insert, ba_test_default, orb_false_r by (unfold n, PAGE_SIZE in *; euclid).
      rewrite andb_true_iff, Z.leb_le, Z.ltb_lt. done. }
    split.
    + intros (i & Hi%Ht & ->). unfold PAGE_SIZE in *. split; euclid.
    + intros [Hpm Hpr]. exists ((p - b) / PAGE_SIZE). rewrite Ht. unfold PAGE_SIZE in *. split; euclid.
Qed.
End Pool.
