(* ===== verification/Cell.v ===== *)
(** * The hypervisor page table and the root cell

    [init_hv_page_table] of [src/src/memory/mod.rs] and [Cell::new_root] of
    [src/src/cell.rs]: the two memory sets built from the system configuration.
    The guest-physical memory set uses a nested entry format, the hypervisor's
    own the x86-64 format; both are [GenericPTE] parameters here. *)

From S2P Require Import Prelude Crates HvError Addr PhysMem Frame Pte Region BTree Paging PagingInv PagingOps PagingSpec MemorySet Config.

Section Build.
Context {A : Type} {ba : BitAlloc A} {pv : PhysVirt} {pte : GenericPTE}.

(** Run the construction of a set; an early return drops it. *)
Definition build (c : M MSt HvErrorNum unit) : M (Machine A) HvErrorNum MemorySet :=
  let* ms := ms_new in
  fun m =>
    match c (m, ms) with
    | (Ok _, (m', ms')) => (Ok ms', m')
    | (Err e, (m', ms')) => (ms_drop ms' ;;; throw e) m'
    | (Panic, (m', _)) => (Panic, m')
    | (Diverge, (m', _)) => (Diverge, m')
    end.

(** ** [Cell::new_root] *)
Section Root.
(** The address of the static [EMPTY_PAGE]. *)
Context (EMPTY_PAGE : Z) (sys_config : HvSystemConfig).

Definition cell_region (r : HvMemoryRegion) : MemoryRegion :=
  new_with_offset_mapper (virt_start r) (phys_start r) (mr_size r) (mr_flags r).

Fixpoint insert_mem_regions (l : list HvMemoryRegion) : M MSt HvErrorNum unit :=
  match l with
  | [] => ret tt
  | region :: l' => insert (cell_region region) ;;; insert_mem_regions l'
  end.

Definition hv_empty_region : MemoryRegion :=
  let hv_phys_start := phys_start (hypervisor_memory sys_config) in
  let hv_phys_size := mr_size (hypervisor_memory sys_config) in
  new_with_empty_mapper EMPTY_PAGE hv_phys_start hv_phys_size (Z.lor MEM_READ MEM_NO_HUGEPAGES).

Definition new_root (mem_regions : list HvMemoryRegion) : M (Machine A) HvErrorNum MemorySet :=
  build (insert hv_empty_region ;;; insert_mem_regions mem_regions).
End Root.

(** ** [init_hv_page_table] *)
Section Hv.
Context (header : HvHeader) (sys_config : HvSystemConfig).

Definition ram_region (region : HvMemoryRegion) : MemoryRegion :=
  new_with_offset_mapper (phys_to_virt (virt_start region)) (phys_start region) (mr_size region)
    (Z.lor MEM_READ MEM_WRITE).

Fixpoint insert_guest_ram (l : list HvMemoryRegion) : M MSt HvErrorNum unit :=
  match l with
  | [] => ret tt
  | region :: l' =>
      (if contains (mr_flags region) MEM_DMA then
         let hv_virt_start := phys_to_virt (virt_start region) in
         if hv_virt_start <? virt_start region then throw EINVAL
         else insert (ram_region region)
       else ret tt) ;;;
      insert_guest_ram l'
  end.

Definition core_region : MemoryRegion :=
  let hv_phys_start := phys_start (hypervisor_memory sys_config) in
  new_with_offset_mapper HV_BASE hv_phys_start (core_size header)
    (Z.lor (Z.lor MEM_READ MEM_WRITE) MEM_EXECUTE).

Definition data_region : MemoryRegion :=
  let hv_phys_start := phys_start (hypervisor_memory sys_config) in
  let hv_phys_size := mr_size (hypervisor_memory sys_config) in
  new_with_offset_mapper (add64 HV_BASE (core_size header)) (add64 hv_phys_start (core_size header))
    (sub64 hv_phys_size (core_size header)) (Z.lor MEM_READ MEM_WRITE).

Definition init_hv_page_table (mem_regions : list HvMemoryRegion) : M (Machine A) HvErrorNum MemorySet :=
  build (insert core_region ;;; insert data_region ;;; insert_guest_ram mem_regions).
End Hv.

(** ** Inserting a list of regions *)
Context {bal : BitAllocLaws A} {laws : PTELaws}.

(** A program that inserts exactly the regions [l] when it succeeds, and can
    only fail with an error. *)
Definition inserts (c : M MSt HvErrorNum unit) (l : list MemoryRegion) : Prop :=
  forall tab s, ms_wf tab s ->
  match c s with
  | (Ok _, s') => exists tab', ms_wf tab' s' /\ grows tab tab' (fst s) (fst s') /\
      forall k r, (k, r) ∈ regions (snd s') <->
        (k, r) ∈ regions (snd s) \/ (r ∈ l /\ 0 < rsize r /\ k = start r)
  | (Err _, s') => exists tab', ms_weak (regions (snd s')) tab' (pt_st s') /\ grows tab tab' (fst s) (fst s')
  | _ => False
  end /\ root (pt (snd (snd (c s)))) = root (pt (snd s)).

Lemma inserts_ret : inserts (ret tt) [].
Proof.
  intros tab s W. split; [|done]. exists tab. split_and!; [done|apply grows_refl|]. intros k r. simpl.
  rewrite elem_of_nil. tauto.
Qed.

Lemma inserts_throw e l : inserts (throw e) l.
Proof.
  intros tab s W. split; [|done]. exists tab. split; [by apply ms_wf_weak|apply grows_refl].
Qed.

Lemma insert_keeps_root r s : root (pt (snd (snd (insert r s)))) = root (pt (snd s)).
Proof.
  unfold insert. destruct (rsize r =? 0); [done|]. unfold bind at 1, gets.
  destruct (negb _); [done|]. unfold bind, on_pt, zoom. pose proof (keeps_root_map r (pt_st s)) as H.
  by destruct (map r (pt_st s)) as [[] s1].
Qed.

Lemma inserts_insert r : region_pre r -> inserts (insert r) [r].
Proof.
  intros Hr tab s W. pose proof (insert_ok tab s r W Hr) as H. unfold insert_result in H.
  pose proof (insert_keeps_root r s) as Hroot. split; [|done].
  destruct (insert r s) as [[[]|e| |] s'] eqn:Hi; simpl in *; try done.
  2:{ by eapply insert_err_weak. }
  destruct H as (tab' & W' & G & Hreg & Hkey). exists tab'. split_and!; try done.
  intros k r'. rewrite Hreg, list_elem_of_singleton. destruct (mp_n _ _ _ Hr) as [Hn _].
  destruct (Z.eqb_spec (rsize r) 0) as [H0|H0].
  - split; [by left|]. intros [?|(-> & ? & _)]; [done|lia].
  - rewrite bt_elem_insert by apply (ms_regions _ _ W). simpl. split.
    + intros [[= -> ->]|[_ ?]]; [right; split_and!; [done|lia|done]|by left].
    + intros [Hin|(-> & _ & ->)]; [right|by left]. split; [|done]. eapply Hkey; [lia|done].
Qed.

Lemma inserts_seq c d l l' : inserts c l -> inserts d l' -> inserts (c ;;; d) (l ++ l').
Proof.
  intros Hc Hd tab s W. destruct (Hc tab s W) as [H1 Hr1]. unfold bind.
  destruct (c s) as [[[]|e| |] s1]; try done. destruct H1 as (tab1 & W1 & G1 & H1).
  destruct (Hd tab1 s1 W1) as [H2 Hr2]. split; [|simpl in *; congruence].
  destruct (d s1) as [[[]|e| |] s2]; try done.
  - destruct H2 as (tab2 & W2 & G2 & H2). exists tab2. split_and!; [done|by eapply grows_trans|].
    intros k r. rewrite H2, H1, elem_of_app. tauto.
  - destruct H2 as (tab2 & W2 & G2). exists tab2. split; [done|by eapply grows_trans].
Qed.

Lemma inserts_mem_regions l :
  Forall (fun r => region_pre (cell_region r)) l -> inserts (insert_mem_regions l) (cell_region <$> l).
Proof.
  induction l as [|r l IH]; intros Hl; [apply inserts_ret|]. apply Forall_cons in Hl as [Hr Hl].
  exact (inserts_seq (insert (cell_region r)) _ [_] _ (inserts_insert _ Hr) (IH Hl)).
Qed.

Definition is_ram (r : HvMemoryRegion) : Prop := contains (mr_flags r) MEM_DMA = true.

Lemma inserts_guest_ram l :
  Forall (fun r => is_ram r -> region_pre (ram_region r)) l ->
  inserts (insert_guest_ram l) (ram_region <$> filter is_ram l).
Proof.
  induction l as [|r l IH]; intros Hl; [apply inserts_ret|]. apply Forall_cons in Hl as [Hr Hl].
  specialize (IH Hl). simpl. destruct (contains (mr_flags r) MEM_DMA) eqn:Hd.
  - rewrite filter_cons_True by done.
    refine (inserts_seq _ _ [ram_region r] _ _ IH).
    destruct (_ <? _); [apply inserts_throw|by apply inserts_insert, Hr].
  - rewrite filter_cons_False by (unfold is_ram; by rewrite Hd).
    exact (inserts_seq _ _ [] _ inserts_ret IH).
Qed.

(** [build] on a machine with a free frame for the root: it builds the set, or
    fails and gives every frame back. *)
Lemma build_ok c l (m : Machine A) :
  fa_wf (fa m) -> (exists q, frame_free (fa m) q) -> inserts c l ->
  match build c m with
  | (Ok ms, m') => exists tab, ms_wf tab (m', ms) /\ owned tab (m', pt ms) /\
      grows ∅ tab m m' /\
      forall k r, (k, r) ∈ regions ms <-> r ∈ l /\ 0 < rsize r /\ k = start r
  | (Err _, m') => fa_wf (fa m') /\ forall q, frame_free (fa m) q <-> frame_free (fa m') q
  | _ => False
  end.
Proof.
  intros Hf Hq Hc. unfold build, bind at 1.
  destruct (pt_new_ok (E := HvErrorNum) m Hf Hq) as (p & m0 & Hp & _ & Hcnt & Hfree & _ & G0 & W0 & Hl0).
  assert (ms_new (E := HvErrorNum) m = (Ok (mkMemorySet [] p), m0)) as ->.
  { unfold ms_new. by rewrite (bind_ok _ _ _ _ _ Hp). }
  set (tab0 := {[(4, 0) := root_paddr p]} : gmap (Z * Z) Z) in *.
  assert (owned tab0 (m0, p)) as Ho.
  { split; [done|]. intros k t [_ <-]%lookup_singleton_Some. simpl.
    apply frame_free_pool in Hfree. unfold in_pool in *. by rewrite (grows_base _ _ _ _ G0). }
  destruct (Hc tab0 (m0, mkMemorySet [] p) (empty_wf tab0 (m0, mkMemorySet [] p) W0 eq_refl Hl0)) as [H Hroot].
  destruct (c (m0, mkMemorySet [] p)) as [[[]|e| |] [m1 ms1]]; simpl in *; try done.
  - destruct H as (tab & W & G & Hreg). exists tab. split_and!; try done.
    + exact (grows_owned tab0 tab (m0, p) (m1, pt ms1) G Hroot Ho).
    + by eapply grows_trans.
    + intros k r. rewrite Hreg, elem_of_nil. tauto.
  - destruct H as (tab & W & G).
    destruct (ms_drop_ok HvErrorNum tab m1 ms1 W) as (m2 & Hd & Hf2 & Hq2).
    { exact (grows_owned tab0 tab (m0, p) (m1, pt ms1) G Hroot Ho). }
    unfold bind, throw. rewrite Hd. split; [done|]. intros q. rewrite Hq2.
    rewrite (wf_frames _ _ (weak_pt _ _ _ W)). split.
    + intros Hqf. destruct (grows_used _ _ _ _ G0 q Hqf) as [Hq0|[k Hk]].
      * destruct (grows_used _ _ _ _ G q Hq0) as [?|?]; [by left|by right].
      * right. exists k. by apply G.
    + intros [Hq1|[k Hk]]; [by apply (grows_free _ _ _ _ G0), (grows_free _ _ _ _ G)|].
      destruct (grows_new _ _ _ _ G _ _ Hk) as [Hk0|Hq0]; [|by apply (grows_free _ _ _ _ G0)].
      by apply lookup_singleton_Some in Hk0 as [_ <-].
Qed.
End Build.
