(* ===== verification/CellProps.v ===== *)
(** * Properties of the hypervisor page table and of the root cell

    What the two memory sets built at boot translate: isolation of the
    hypervisor memory from the guest, the linear map of the hypervisor and its
    agreement with the guest-physical map, and the page pool. *)

From S2P Require Import Prelude Crates HvError Addr PhysMem Frame Pte Region BTree Paging PagingInv PagingOps PagingSpec MemorySet MemoryProps Config Cell.

(** The regions of the root cell and of the hypervisor page table. *)
Abbreviation root_regions EMPTY_PAGE c l := ([hv_empty_region EMPTY_PAGE c] ++ (cell_region <$> l)).
Abbreviation hv_table_regions h c l :=
  ([core_region h c] ++ ([data_region h c] ++ (ram_region <$> filter is_ram l))).

Section Answers.
Context {A : Type} {ba : BitAlloc A} {bal : BitAllocLaws A} {pv : PhysVirt}.
Context {pte : GenericPTE} {laws : PTELaws}.

Lemma ms_wf_fa tab (m : Machine A) ms : ms_wf tab (m, ms) -> fa_wf (fa m).
Proof. intros W. exact (wf_fa _ _ (ms_pt _ _ W)). Qed.

Lemma mod_page sz v w : v mod 2 ^ 48 = w mod 2 ^ 48 -> v mod page_bytes sz = w mod page_bytes sz.
Proof. destruct sz; simpl; intros; euclid. Qed.

Lemma answer_mod tab s v w :
  pt_wf tab s -> v mod 2 ^ 48 = w mod 2 ^ 48 -> answer s v = answer s w.
Proof.
  intros W Hm. unfold answer. rewrite !(query_wf _ _ _ W). simpl. rewrite (lookup_mod _ _ _ _ Hm).
  destruct (lookup tab (pm s.1) w) as [[e sz]|]; [|done]. by rewrite (mod_page sz _ _ Hm).
Qed.

(** An answer comes from one of the regions. *)
Lemma answer_inv tab s w x :
  ms_wf tab s -> answer (pt_st s) w = Ok x ->
  exists k r, (k, r) ∈ regions (snd s) /\ in_region r (rep (start r) w) /\
    answer (pt_st s) (rep (start r) w) = Ok x.
Proof.
  intros [W Hr Ha He] Hx. unfold answer in Hx. rewrite (query_wf _ _ _ W) in Hx. simpl in Hx.
  destruct (lookup tab (pm s.1) w) as [[e sz]|] eqn:Hl; [|done].
  destruct (te_only _ _ _ He _ _ Hl) as (k & r & Hin & Hc). exists k, r. split; [done|].
  split; [by apply rep_in|]. rewrite (answer_mod tab _ _ w W (rep_mod _ _)).
  unfold answer. rewrite (query_wf _ _ _ W). simpl. by rewrite Hl.
Qed.

(** Addresses of an offset region, and of a fixed region of small pages. *)
Lemma answer_offset tab s k r off v :
  ms_wf tab s -> (k, r) ∈ regions (snd s) -> in_region r v -> mapper r = Offset off ->
  off mod PAGE_SIZE = 0 -> exists sz, answer (pt_st s) v = Ok (sub64 v off, pte_view (rflags r), sz).
Proof.
  intros [W Hr Ha He] Hin Hv Hm Hoff. destruct (rw_pre _ Hr _ _ Hin) as [Hpre _].
  destruct (offset_query tab (pt_st s) r off v W (te_mapped _ _ _ He _ _ Hin v Hv) Hpre Hv Hm Hoff) as [sz Hq].
  exists sz. unfold answer. by rewrite Hq.
Qed.

Lemma answer_fixed tab s k r p0 v :
  ms_wf tab s -> (k, r) ∈ regions (snd s) -> in_region r v -> mapper r = Fixed p0 ->
  p0 mod PAGE_SIZE = 0 -> contains (rflags r) MEM_NO_HUGEPAGES = true ->
  answer (pt_st s) v = Ok (p0 + v mod PAGE_SIZE, pte_view (rflags r), Size4K).
Proof.
  intros [W Hr Ha He] Hin Hv Hm Hp0 Hno. destruct (rw_pre _ Hr _ _ Hin) as [Hpre _].
  destruct (fixed_query tab (pt_st s) r p0 v W (te_mapped _ _ _ He _ _ Hin v Hv) Hpre Hv Hm Hp0)
    as (sz & Hq & Hal).
  assert (sz = Size4K) as -> by (destruct sz; [done|destruct Hal as [_ ?]; congruence..]).
  unfold answer. rewrite Hq. simpl. unfold add64. rewrite wrap_small; [done|].
  pose proof (mp_target _ _ _ Hpre v Hv) as Ht. rewrite Hm in Ht. simpl in Ht.
  pose proof (Z.mod_pos_bound v PAGE_SIZE). unfold in_range, PAGE_SIZE in *. lia.
Qed.

(** The offset of a region made by [new_with_offset_mapper]. *)
Lemma sub_align_down v p : (sub64 (align_down v) (align_down p)) mod PAGE_SIZE = 0.
Proof.
  assert (forall x, align_down x mod PAGE_SIZE = 0) as Ha.
  { intros x. rewrite <- (page_offset_mod (align_down x)). unfold page_offset, align_down.
    rewrite <- Z.land_assoc. change (Z.land (not64 (PAGE_SIZE - 1)) (PAGE_SIZE - 1)) with 0.
    apply Z.land_0_r. }
  pose proof (Ha v). pose proof (Ha p). unfold sub64, wrap, PAGE_SIZE in *. euclid.
Qed.
End Answers.

(** ** The root cell *)
Section RootCell.
Context {A : Type} {ba : BitAlloc A} {bal : BitAllocLaws A} {pv : PhysVirt}.
Context {pte : GenericPTE} {laws : PTELaws}.

(** A configuration the root cell can be built from: all regions, the
    hypervisor memory included, are mappable, and the empty page is a page. *)
Record root_config_ok (EMPTY_PAGE : Z) (c : HvSystemConfig) (l : list HvMemoryRegion) : Prop := {
  rc_hv : region_pre (hv_empty_region EMPTY_PAGE c);
  rc_regions : Forall (fun r => region_pre (cell_region r)) l;
  rc_empty : virt_to_phys EMPTY_PAGE mod PAGE_SIZE = 0;
}.

(** No configured region has a physical address in the hypervisor memory. *)
Definition avoids_hv (EMPTY_PAGE : Z) (c : HvSystemConfig) (l : list HvMemoryRegion) : Prop :=
  forall r v, r ∈ l -> in_region (cell_region r) v ->
    ~ in_region (hv_empty_region EMPTY_PAGE c) (map_fn (mapper (cell_region r)) v).

Definition READ_ONLY : Z := Z.lor MEM_READ MEM_NO_HUGEPAGES.

(** The machine can hand out a frame. *)
Definition boots (m : Machine A) : Prop := fa_wf (fa m) /\ exists q, frame_free (fa m) q.

Lemma new_root_inserts EMPTY_PAGE c l :
  root_config_ok EMPTY_PAGE c l ->
  inserts (insert (hv_empty_region EMPTY_PAGE c) ;;; insert_mem_regions l)
    ([hv_empty_region EMPTY_PAGE c] ++ (cell_region <$> l)).
Proof.
  intros [Hhv Hl _]. apply inserts_seq; [by apply inserts_insert|by apply inserts_mem_regions].
Qed.

Lemma root_isolated EMPTY_PAGE c l tab (m' : Machine A) gpm :
  root_config_ok EMPTY_PAGE c l -> ms_wf tab (m', gpm) ->
  (forall k r, (k, r) ∈ regions gpm <-> r ∈ root_regions EMPTY_PAGE c l /\ 0 < rsize r /\ k = start r) ->
  (forall v, in_region (hv_empty_region EMPTY_PAGE c) v ->
     answer (m', pt gpm) v =
       Ok (virt_to_phys EMPTY_PAGE + v mod PAGE_SIZE, pte_view READ_ONLY, Size4K)) /\
  (avoids_hv EMPTY_PAGE c l ->
   forall w hpa fl sz, answer (m', pt gpm) w = Ok (hpa, fl, sz) ->
     in_region (hv_empty_region EMPTY_PAGE c) hpa ->
     virt_to_phys EMPTY_PAGE <= hpa < virt_to_phys EMPTY_PAGE + PAGE_SIZE /\ fl = pte_view READ_ONLY).
Proof.
  intros Hc W Hreg.
  assert (forall v, in_region (hv_empty_region EMPTY_PAGE c) v -> answer (m', pt gpm) v =
    Ok (virt_to_phys EMPTY_PAGE + v mod PAGE_SIZE, pte_view READ_ONLY, Size4K)) as Hhv.
  { intros v Hv. apply (answer_fixed tab (m', gpm) (start (hv_empty_region EMPTY_PAGE c))
      (hv_empty_region EMPTY_PAGE c)); [done| |done|done|apply Hc|done]. apply Hreg. split_and!; [apply elem_of_app; left; by apply list_elem_of_singleton| |done].
    unfold in_region in Hv. lia. }
  split; [done|]. intros Hav w hpa fl sz Hw Hin.
  destruct (answer_inv tab (m', gpm) w _ W Hw) as (k & r & Hr & Hv & Ha).
  apply Hreg in Hr as (Hr & _ & _). apply elem_of_app in Hr as [->%list_elem_of_singleton|Hr].
  - unfold pt_st in Ha. cbn [fst snd] in Ha. rewrite Hhv in Ha by done. injection Ha as <- <- _.
    split; [|done]. 
    match goal with |- context [?a mod PAGE_SIZE] => pose proof (Z.mod_pos_bound a PAGE_SIZE eq_refl) end.
    lia.
  - exfalso. apply list_elem_of_fmap in Hr as (r0 & -> & Hr0).
    destruct (answer_offset tab (m', gpm) (start (cell_region r0)) (cell_region r0)
      (sub64 (align_down (virt_start r0)) (align_down (phys_start r0))) (rep (start (cell_region r0)) w) W)
      as [sz' Hq']; [|done|done|apply sub_align_down|].
    + apply Hreg. split_and!; [|unfold in_region in Hv; lia|done].
      apply elem_of_app. right. apply list_elem_of_fmap. eauto.
    + rewrite Ha in Hq'. injection Hq' as Hhpa _ _. apply (Hav r0 _ Hr0 Hv). simpl. by rewrite <- Hhpa.
Qed.

(** C9. Isolation of the hypervisor: in the guest-physical memory set that
    [Cell::new_root] builds, every guest-physical address of the hypervisor
    memory is translated to the one empty page with the read-only flags, and,
    when no configured region points into the hypervisor memory, no
    guest-physical address at all is translated into it except to the empty
    page, read-only. *)
Theorem new_root_isolates EMPTY_PAGE c l (m m' : Machine A) gpm :
  boots m -> root_config_ok EMPTY_PAGE c l -> new_root EMPTY_PAGE c l m = (Ok gpm, m') ->
  (forall v, in_region (hv_empty_region EMPTY_PAGE c) v ->
     answer (m', pt gpm) v =
       Ok (virt_to_phys EMPTY_PAGE + v mod PAGE_SIZE, pte_view READ_ONLY, Size4K)) /\
  (avoids_hv EMPTY_PAGE c l ->
   forall w hpa fl sz, answer (m', pt gpm) w = Ok (hpa, fl, sz) ->
     in_region (hv_empty_region EMPTY_PAGE c) hpa ->
     virt_to_phys EMPTY_PAGE <= hpa < virt_to_phys EMPTY_PAGE + PAGE_SIZE /\ fl = pte_view READ_ONLY).
Proof.
  intros [Hf Hq] Hc Hn. pose proof (build_ok _ _ m Hf Hq (new_root_inserts _ _ _ Hc)) as H.
  unfold new_root in Hn. rewrite Hn in H. destruct H as (tab & W & _ & _ & Hreg). by eapply root_isolated.
Qed.

(** C10. [Cell::new_root] on a mappable configuration returns a memory set or an
    error, never panicking or looping; on an error the half-built set is dropped
    and exactly the frames that were free are free again. *)
Theorem new_root_no_leak EMPTY_PAGE c l (m : Machine A) :
  boots m -> root_config_ok EMPTY_PAGE c l ->
  match new_root EMPTY_PAGE c l m with
  | (Ok gpm, m') => ms_valid (m', gpm)
  | (Err _, m') => fa_wf (fa m') /\ forall q, frame_free (fa m) q <-> frame_free (fa m') q
  | _ => False
  end.
Proof.
  intros [Hf Hq] Hc. pose proof (build_ok _ _ m Hf Hq (new_root_inserts _ _ _ Hc)) as H.
  unfold new_root. destruct (build _ m) as [[gpm|e| |] m']; try done.
  destruct H as (tab & W & _). by exists tab.
Qed.
End RootCell.

(** ** The hypervisor page table *)
Section HvTable.
Context {A : Type} {ba : BitAlloc A} {bal : BitAllocLaws A} {pv : PhysVirt}.
Context {pte : GenericPTE} {laws : PTELaws}.

(** Page-aligned hypervisor memory with the image at its start; guest RAM is
    mappable; [PHYS_VIRT_OFFSET] is the value [init_heap] has set. *)
Record hv_config_ok (h : HvHeader) (c : HvSystemConfig) (l : list HvMemoryRegion) : Prop := {
  hc_phys : 0 <= phys_start (hypervisor_memory c) /\ phys_start (hypervisor_memory c) mod PAGE_SIZE = 0;
  hc_core : 0 <= core_size h <= mr_size (hypervisor_memory c) /\ core_size h mod PAGE_SIZE = 0;
  hc_size : mr_size (hypervisor_memory c) + PAGE_SIZE <= 2 ^ 40 /\
            mr_size (hypervisor_memory c) mod PAGE_SIZE = 0 /\
            phys_start (hypervisor_memory c) + mr_size (hypervisor_memory c) <= 2 ^ 52;
  hc_flags : pte_flags_ok (Z.lor (Z.lor MEM_READ MEM_WRITE) MEM_EXECUTE) = true /\
             pte_flags_ok (Z.lor MEM_READ MEM_WRITE) = true;
  hc_ram : Forall (fun r => is_ram r -> region_pre (ram_region r)) l;
  hc_offset : PHYS_VIRT_OFFSET = phys_virt_offset c;
}.

Lemma hv_regions h c l :
  hv_config_ok h c l ->
  (core_region h c = mkRegion HV_BASE (core_size h) (Z.lor (Z.lor MEM_READ MEM_WRITE) MEM_EXECUTE)
     (Offset PHYS_VIRT_OFFSET) /\ region_pre (core_region h c)) /\
  (data_region h c = mkRegion (HV_BASE + core_size h) (mr_size (hypervisor_memory c) - core_size h)
     (Z.lor MEM_READ MEM_WRITE) (Offset PHYS_VIRT_OFFSET) /\ region_pre (data_region h c)).
Proof.
  intros [[Hp Hpa] [Hc Hca] (Hs & Hsa & H52) [Hf1 Hf2] _ Hoff]. rewrite Hoff. unfold PAGE_SIZE in *. split.
  - apply offset_pre; unfold HV_BASE, PAGE_SIZE in *; try done; lia.
  - unfold data_region. unfold add64, sub64. rewrite !wrap_small by (unfold in_range, HV_BASE; lia).
    destruct (offset_pre (HV_BASE + core_size h) (phys_start (hypervisor_memory c) + core_size h)
      (mr_size (hypervisor_memory c) - core_size h) (Z.lor MEM_READ MEM_WRITE)) as [-> Hpre];
      unfold HV_BASE, PAGE_SIZE in *; try done; try lia; try euclid.
    split; [|done]. f_equal. f_equal. unfold phys_virt_offset, HV_BASE, sub64. f_equal. lia.
Qed.

Lemma hv_table_inserts h c l :
  hv_config_ok h c l ->
  inserts (insert (core_region h c) ;;; insert (data_region h c) ;;; insert_guest_ram l)
    ([core_region h c] ++ ([data_region h c] ++ (ram_region <$> filter is_ram l))).
Proof.
  intros Hc. destruct (hv_regions h c l Hc) as [[_ H1] [_ H2]].
  repeat apply inserts_seq; [by apply inserts_insert..|]. apply inserts_guest_ram, Hc.
Qed.

Lemma init_hv_ok h c l (m m' : Machine A) hv :
  boots m -> hv_config_ok h c l -> init_hv_page_table h c l m = (Ok hv, m') ->
  exists tab, ms_wf tab (m', hv) /\ forall k r, (k, r) ∈ regions hv <->
    r ∈ [core_region h c] ++ ([data_region h c] ++ (ram_region <$> filter is_ram l)) /\
    0 < rsize r /\ k = start r.
Proof.
  intros [Hf Hq] Hc Hi. pose proof (build_ok _ _ m Hf Hq (hv_table_inserts _ _ _ Hc)) as H.
  unfold init_hv_page_table in Hi. rewrite Hi in H. destruct H as (tab & W & _ & _ & Hreg). eauto.
Qed.

Lemma hv_offset_aligned c :
  0 <= phys_start (hypervisor_memory c) <= 2 ^ 52 -> phys_start (hypervisor_memory c) mod PAGE_SIZE = 0 ->
  phys_virt_offset c mod PAGE_SIZE = 0.
Proof.
  intros Hp Ha. unfold phys_virt_offset, sub64, wrap, HV_BASE, PAGE_SIZE in *. euclid.
Qed.

Lemma hv_linear h c l tab (m' : Machine A) hv :
  hv_config_ok h c l -> ms_wf tab (m', hv) ->
  (forall k r, (k, r) ∈ regions hv <-> r ∈ hv_table_regions h c l /\ 0 < rsize r /\ k = start r) ->
  forall x, 0 <= x < mr_size (hypervisor_memory c) ->
  exists sz, answer (m', pt hv) (HV_BASE + x) =
    Ok (virt_to_phys (HV_BASE + x),
        pte_view (if x <? core_size h then Z.lor (Z.lor MEM_READ MEM_WRITE) MEM_EXECUTE
                  else Z.lor MEM_READ MEM_WRITE), sz) /\
    virt_to_phys (HV_BASE + x) = phys_start (hypervisor_memory c) + x.
Proof.
  intros Hc W Hreg x Hx.
  destruct (hv_regions h c l Hc) as [[E1 H1] [E2 H2]].
  pose proof (hc_phys _ _ _ Hc) as [Hp Hpa]. pose proof (hc_size _ _ _ Hc) as (Hs & _ & H52).
  assert (PHYS_VIRT_OFFSET mod PAGE_SIZE = 0) as Hoff.
  { rewrite (hc_offset _ _ _ Hc). apply hv_offset_aligned; [|done]. unfold PAGE_SIZE in *. lia. }
  assert (virt_to_phys (HV_BASE + x) = phys_start (hypervisor_memory c) + x) as Hv.
  { unfold virt_to_phys. rewrite (hc_offset _ _ _ Hc). unfold phys_virt_offset, sub64, HV_BASE, PAGE_SIZE in *.
    rewrite (wrap_small 64 (_ - phys_start _)) by (unfold in_range; lia).
    rewrite wrap_small by (unfold in_range; lia). lia. }
  assert (forall r, r ∈ [core_region h c] ++ [data_region h c] -> mapper r = Offset PHYS_VIRT_OFFSET ->
    in_region r (HV_BASE + x) -> exists sz,
    answer (m', pt hv) (HV_BASE + x) = Ok (virt_to_phys (HV_BASE + x), pte_view (rflags r), sz)) as Hans.
  { intros r Hr Hm Hin. apply (answer_offset tab (m', hv) (start r) r _ _ W); try done.
    apply Hreg. split_and!; [|unfold in_region in Hin; lia|done]. rewrite app_assoc. apply elem_of_app. by left. }
  destruct (Z.ltb_spec x (core_size h)).
  - destruct (Hans (core_region h c)) as [sz Hsz]; [left|by rewrite E1|rewrite E1; unfold in_region; simpl; lia|].
    exists sz. split; [|done]. rewrite E1 in Hsz. exact Hsz.
  - destruct (Hans (data_region h c)) as [sz Hsz]; [right; left|by rewrite E2|rewrite E2; unfold in_region; simpl; lia|].
    exists sz. split; [|done]. rewrite E2 in Hsz. exact Hsz.
Qed.
(** After [init_hv_page_table] the page table agrees with the arithmetic of
    [virt_to_phys]: every virtual address of the hypervisor memory is mapped to
    the physical address that subtracting [PHYS_VIRT_OFFSET] gives, the image
    readable, writable and executable and the rest readable and writable. *)
Theorem hv_linear_map h c l (m m' : Machine A) hv :
  boots m -> hv_config_ok h c l -> init_hv_page_table h c l m = (Ok hv, m') ->
  forall x, 0 <= x < mr_size (hypervisor_memory c) ->
  exists sz, answer (m', pt hv) (HV_BASE + x) =
    Ok (virt_to_phys (HV_BASE + x),
        pte_view (if x <? core_size h then Z.lor (Z.lor MEM_READ MEM_WRITE) MEM_EXECUTE
                  else Z.lor MEM_READ MEM_WRITE), sz) /\
    virt_to_phys (HV_BASE + x) = phys_start (hypervisor_memory c) + x.
Proof.
  intros Hb Hc Hi. destruct (init_hv_ok h c l m m' hv Hb Hc Hi) as (tab & W & Hreg). by eapply hv_linear.
Qed.
End HvTable.

(** ** Both tables *)
Section Agreement.
Context {A : Type} {ba : BitAlloc A} {bal : BitAllocLaws A} {pv : PhysVirt}.
Context (hpte : GenericPTE) (hlaws : PTELaws (pte := hpte)).
Context (npte : GenericPTE) (nlaws : PTELaws (pte := npte)).

(** A page-aligned RAM region of the configuration. *)
Record ram_ok (r : HvMemoryRegion) : Prop := {
  ro_ram : is_ram r;
  ro_virt : 0 <= virt_start r /\ virt_start r mod PAGE_SIZE = 0;
  ro_phys : 0 <= phys_start r /\ phys_start r mod PAGE_SIZE = 0;
  ro_size : 0 <= mr_size r <= 2 ^ 48 /\ mr_size r mod PAGE_SIZE = 0;
  ro_virt_end : virt_start r + mr_size r + PAGE_SIZE <= 2 ^ 64;
  ro_phys_end : phys_start r + mr_size r <= 2 ^ 52;
  ro_flags : pte_flags_ok (pte := npte) (mr_flags r) = true /\
             pte_flags_ok (pte := hpte) (Z.lor MEM_READ MEM_WRITE) = true;
  ro_hv : phys_to_virt (virt_start r) + mr_size r + PAGE_SIZE <= 2 ^ 64;
}.

Lemma ram_region_eq r :
  ram_ok r -> PHYS_VIRT_OFFSET mod PAGE_SIZE = 0 ->
  ram_region r = mkRegion (phys_to_virt (virt_start r)) (mr_size r) (Z.lor MEM_READ MEM_WRITE)
    (Offset (sub64 (phys_to_virt (virt_start r)) (phys_start r))).
Proof.
  intros [_ [Hv Hva] [Hp Hpa] [Hs Hsa] _ Hpe [_ Hfl] Hh] Hoff.
  apply (offset_pre (pte := hpte)); try done; try lia.
  - unfold phys_to_virt, add64. apply wrap_range. lia.
  - unfold phys_to_virt, add64, wrap, PAGE_SIZE in *. euclid.
Qed.

Lemma cell_region_eq r :
  ram_ok r -> cell_region r = mkRegion (virt_start r) (mr_size r) (mr_flags r)
    (Offset (sub64 (virt_start r) (phys_start r))).
Proof.
  intros [_ [Hv Hva] [Hp Hpa] [Hs Hsa] He Hpe [Hfl _] _]. apply (offset_pre (pte := npte)); try done; lia.
Qed.

(** The hypervisor's set survives the construction of another one. *)
Lemma hv_survives tab tab2 (m m' : Machine A) hv :
  (forall k t, tab !! k = Some t -> table_ok t) -> fa_wf (fa m') -> grows ∅ tab m m' ->
  ms_wf (pte := hpte) tab2 (m, hv) -> ms_wf (pte := hpte) tab2 (m', hv).
Proof.
  intros Hok Hf G [W Hr Ha [He1 He2]]. unfold pt_st in W. simpl in *.
  destruct (grows_other (pte := hpte) ∅ tab tab2 m m' (pt hv)) as (W' & _ & Hl); try done.
  constructor; simpl; try done. constructor.
  - intros k r Hin. eapply region_mapped_frame; [by eapply He1|]. intros v _. apply Hl.
  - intros w e. rewrite Hl. apply He2.
Qed.

Lemma ram_agrees EMPTY_PAGE h c l tab tabn (m2 : Machine A) hv gpm r gpa :
  hv_config_ok (pte := hpte) h c l -> ms_wf (pte := hpte) tab (m2, hv) -> ms_wf (pte := npte) tabn (m2, gpm) ->
  (forall k r, (k, r) ∈ regions hv <-> r ∈ hv_table_regions h c l /\ 0 < rsize r /\ k = start r) ->
  (forall k r, (k, r) ∈ regions gpm <-> r ∈ root_regions EMPTY_PAGE c l /\ 0 < rsize r /\ k = start r) ->
  r ∈ l -> ram_ok r -> virt_start r <= gpa < virt_start r + mr_size r ->
  exists fl sz fl' sz',
    answer (pte := hpte) (m2, pt hv) (phys_to_virt gpa) = Ok (phys_start r + (gpa - virt_start r), fl, sz) /\
    answer (pte := npte) (m2, pt gpm) gpa = Ok (phys_start r + (gpa - virt_start r), fl', sz').
Proof.
  intros Hhc W2 Wn Hreg Hregn Hin Hr Hg.
  pose proof (hc_phys _ _ _ Hhc) as [Hp Hpa]. pose proof (hc_size _ _ _ Hhc) as (Hs & _ & H52).
  assert (PHYS_VIRT_OFFSET mod PAGE_SIZE = 0) as Hoff.
  { rewrite (hc_offset _ _ _ Hhc). apply hv_offset_aligned; [|done].
    pose proof (hc_core _ _ _ Hhc). unfold PAGE_SIZE in *. lia. }
  pose proof (ram_region_eq r Hr Hoff) as Er. pose proof (cell_region_eq r Hr) as Ec.
  pose proof (sub_align_down (virt_start r) (phys_start r)) as Ho.
  destruct Hr as [Hram [Hv Hva] [Hp0 Hpa0] [Hsz Hsza] Hve Hpe _ Hhv].
  assert (phys_to_virt gpa = phys_to_virt (virt_start r) + (gpa - virt_start r)) as Hgv.
  { revert Hhv. unfold phys_to_virt, add64, wrap, PAGE_SIZE in *. intros. euclid. }
  assert (in_region (ram_region r) (phys_to_virt gpa)) as Hin1 by (rewrite Er, Hgv; unfold in_region; simpl; lia).
  assert (in_region (cell_region r) gpa) as Hin2 by (rewrite Ec; unfold in_region; simpl; lia).
  destruct (answer_offset tab (m2, hv) (start (ram_region r)) (ram_region r)
    (sub64 (phys_to_virt (virt_start r)) (phys_start r)) (phys_to_virt gpa) W2) as [sz Hsz1]; try done.
  { apply Hreg. split_and!; [|rewrite Er; simpl; lia|done]. do 2 (apply elem_of_app; right).
    apply list_elem_of_fmap. exists r. split; [done|]. by apply list_elem_of_filter. }
  { by rewrite Er. }
  { unfold phys_to_virt, add64, sub64, wrap, PAGE_SIZE in *. euclid. }
  destruct (answer_offset tabn (m2, gpm) (start (cell_region r)) (cell_region r)
    (sub64 (virt_start r) (phys_start r)) gpa Wn) as [sz' Hsz2]; try done.
  { apply Hregn. split_and!; [|rewrite Ec; simpl; lia|done]. apply elem_of_app. right.
    apply list_elem_of_fmap. by exists r. }
  { by rewrite Ec. }
  { unfold sub64, wrap, PAGE_SIZE in *. euclid. }
  unfold pt_st in Hsz1, Hsz2. cbn [fst snd] in Hsz1, Hsz2.
  assert (forall b, sub64 (b + (gpa - virt_start r)) (sub64 b (phys_start r)) =
    phys_start r + (gpa - virt_start r)) as Hsub.
  { intros b. unfold sub64, wrap. rewrite Zminus_mod_idemp_r.
    replace (b + (gpa - virt_start r) - (b - phys_start r)) with (phys_start r + (gpa - virt_start r)) by lia.
    apply Z.mod_small. lia. }
  do 4 eexists. split.
  - rewrite Hsz1, Hgv, Hsub. reflexivity.
  - rewrite Hsz2. pose proof (Hsub (virt_start r)) as Hx.
    replace (virt_start r + (gpa - virt_start r)) with gpa in Hx by lia. rewrite Hx. reflexivity.
Qed.
(** The two address spaces agree on guest RAM: once the hypervisor page
    table and then the root cell have been built from one configuration, the
    hypervisor reaches the guest-physical address [gpa] of a RAM region at
    [phys_to_virt gpa], and both tables send it to the same host-physical
    address. This is what [GuestPtr] relies on when it dereferences
    [phys_to_virt gpa]. *)
Theorem guest_ram_agrees EMPTY_PAGE h c l (m m1 m2 : Machine A) hv gpm r gpa :
  boots m -> boots m1 -> hv_config_ok (pte := hpte) h c l -> root_config_ok (pte := npte) EMPTY_PAGE c l ->
  init_hv_page_table (pte := hpte) h c l m = (Ok hv, m1) ->
  new_root (pte := npte) EMPTY_PAGE c l m1 = (Ok gpm, m2) ->
  r ∈ l -> ram_ok r -> virt_start r <= gpa < virt_start r + mr_size r ->
  exists fl sz fl' sz',
    answer (pte := hpte) (m2, pt hv) (phys_to_virt gpa) = Ok (phys_start r + (gpa - virt_start r), fl, sz) /\
    answer (pte := npte) (m2, pt gpm) gpa = Ok (phys_start r + (gpa - virt_start r), fl', sz').
Proof.
  intros Hb0 [Hf1 Hq1] Hhc Hrc Hi Hn Hin Hr Hg.
  destruct (init_hv_ok h c l m m1 hv Hb0 Hhc Hi) as (tab & W & Hreg).
  pose proof (build_ok (pte := npte) _ _ m1 Hf1 Hq1 (new_root_inserts _ _ _ Hrc)) as Hb.
  unfold new_root in Hn. rewrite Hn in Hb. destruct Hb as (tabn & Wn & _ & Gn & Hregn).
  pose proof (ms_pt _ _ Wn) as Wpn. unfold pt_st in Wpn. simpl in Wpn.
  assert (ms_wf (pte := hpte) tab (m2, hv)) as W2.
  { eapply (hv_survives tabn); [apply (inv_table_ok _ _ _ _ (wf_inv _ _ Wpn))|apply (wf_fa _ _ Wpn)|done|done]. }
  by eapply ram_agrees.
Qed.
End Agreement.

(** ** The configuration and the page pool *)

(** C11. The sizes of [HvCellDesc::config_size] and [HvSystemConfig::size] are
    computed without overflow for any 32-bit counts, and the memory regions the
    hypervisor reads lie inside the configuration: changing memory outside
    [config_size] bytes behind the descriptor does not change them. *)
Theorem config_in_bounds (mem mem' : Z -> Z) (c : HvSystemConfig) :
  desc_ok (root_cell c) ->
  config_size (root_cell c) = exact_size (root_cell c) /\
  sc_size c = 394 + exact_size (root_cell c) /\
  ((forall x, root_cell_ptr c + 128 <= x < sc_ptr c + sc_size c -> mem x = mem' x) ->
   mem_regions mem (root_cell_ptr c) (root_cell c) = mem_regions mem' (root_cell_ptr c) (root_cell c)).
Proof.
  intros Hd. destruct (config_size_exact _ Hd) as [Heq _]. split; [done|].
  pose proof (sc_size_exact c Hd) as Hs. split; [done|]. intros Hm. apply mem_regions_bytes; [done|].
  intros x Hx. apply Hm. unfold config_ptr, root_cell_ptr in *.
  change (offset_of HvSystemConfig_layout 6) with 266 in *. change (sum HvCellDesc_layout) with 128 in *.
  rewrite Heq in Hx. rewrite Hs. lia.
Qed.

(** [frame::init] hands the allocator exactly the page frames of the
    hypervisor memory behind the configuration: no frame of the pool overlaps
    the image, the per-CPU data or the configuration, and none lies outside the
    hypervisor memory. *)
Theorem frame_pool_disjoint {A} {ba : BitAlloc A} {bal : BitAllocLaws A} core_end h c p :
  layout_ok core_end h c ->
  pool_end c - pool_start core_end h c <= ba_cap * PAGE_SIZE -> ba_cap * PAGE_SIZE <= 2 ^ 51 ->
  let f : FrameAllocator A := frame_init (pv := phys_virt_offset c) core_end h c in
  fa_wf f /\
  (frame_free f p ->
   p mod PAGE_SIZE = 0 /\
   phys_start (hypervisor_memory c) + (config_end core_end h c - HV_BASE) <= p /\
   p + PAGE_SIZE <= phys_start (hypervisor_memory c) + mr_size (hypervisor_memory c)).
Proof.
  intros HL H1 H2 f. destruct (frame_init_ok (A := A) core_end h c HL H1 H2) as [Hf Hp].
  split; [exact Hf|]. intros Hfree. apply Hp in Hfree as [Hm Hr]. split; [done|].
  destruct (pool_range core_end h c HL) as (Hps & Hpa & Hpe & Hle & Hee).
  destruct (lo_phys _ _ _ HL) as [Hp0 Hpa0].
  split; [lia|]. unfold PAGE_SIZE, HV_BASE in *. euclid.
Qed.

(** ** Witnesses *)
Module Boot.
#[local] Existing Instance X86PageTableFlags_ref.
#[local] Existing Instance BitField_ref.

(** Two processors, 4M of hypervisor memory at 0x3a000000, 256K of guest RAM at 1M, a page of I/O. *)
Definition hv_mem : HvMemoryRegion := mkHvMemoryRegion 0x3a000000 0 0x400000 0x3.
Definition ram : HvMemoryRegion := mkHvMemoryRegion 0x100000 0x100000 0x40000 0xf.
Definition io : HvMemoryRegion := mkHvMemoryRegion 0xfee00000 0xfee00000 0x1000 0x13.
Definition con0 : HvConsole := mkHvConsole 0 0 0 0 0 0 0.
Definition desc : HvCellDesc := mkHvCellDesc [] 10 [] 0 0 8 2 0 0 0 0 0 0 0 0 con0.
Definition cfg : HvSystemConfig :=
  mkHvSystemConfig 0xffffff0000300000 CONFIG_SIGNATURE 10 0 hv_mem con0
    (mkPlatformInfo 0 0 0 0 (mkArchPlatformInfo 0 0 0 0 0 [])) desc.
Definition header : HvHeader := mkHvHeader HEADER_SIGNATURE 0x200000 PER_CPU_SIZE 0 0 0 2 2 0 0 0.
Definition core_end : Z := 0xffffff0000200000.
Definition EMPTY_PAGE : Z := 0xffffff0000010000.

#[local] Instance pv0 : PhysVirt := phys_virt_offset cfg.

(** A smaller pool than [frame_init] gives, so that the runs are short. *)
Definition m0 : Machine ListAlloc.t := mkMachine ∅ (fa_init fa_empty 0x3a310000 0x40000).

Abbreviation hv_run := (init_hv_page_table (pte := PTEntry.ops) header cfg [ram; io] m0).
Definition m1 : Machine ListAlloc.t := snd hv_run.
Abbreviation cell_run := (new_root (pte := EPTEntry.ops) EMPTY_PAGE cfg [ram; io] m1).

Lemma m0_boots : boots m0.
Proof.
  split; [unfold fa_wf; split_and!; by vm_compute|]. exists 0x3a310000, 0. split; by vm_compute.
Qed.

Lemma cfg_hv_ok : hv_config_ok (pte := PTEntry.ops) (laws := PTEntry.laws) header cfg [ram; io].
Proof.
  constructor; [split; by vm_compute|repeat split; by vm_compute|repeat split; by vm_compute|
    split; by vm_compute| |reflexivity].
  apply Forall_cons. split; [intros _|apply Forall_singleton; intros Hr; by vm_compute in Hr].
  apply (offset_pre (pte := PTEntry.ops) (laws := PTEntry.laws)); by vm_compute.
Qed.

Lemma hv_empty_pre : region_pre (pte := EPTEntry.ops) (laws := EPTEntry.laws) (hv_empty_region EMPTY_PAGE cfg).
Proof.
  constructor; [split; by vm_compute|split; by vm_compute|split; by vm_compute|by vm_compute|].
  intros v _. split; by vm_compute.
Qed.

Lemma cfg_root_ok : root_config_ok (pte := EPTEntry.ops) (laws := EPTEntry.laws) EMPTY_PAGE cfg [ram; io].
Proof.
  constructor; [exact hv_empty_pre| |by vm_compute].
  apply Forall_cons. split; [|apply Forall_singleton];
    apply (offset_pre (pte := EPTEntry.ops) (laws := EPTEntry.laws)); by vm_compute.
Qed.

Lemma hv_run_ok : exists hv, hv_run = (Ok hv, m1).
Proof.
  assert (is_ok (fst hv_run) = true) as Hok by (vm_compute; reflexivity). unfold m1.
  destruct hv_run as [[hv|e| |] m]; try discriminate Hok. by exists hv.
Qed.

Lemma m1_boots : boots m1.
Proof.
  destruct hv_run_ok as [hv Hhv].
  destruct (init_hv_ok header cfg [ram; io] m0 m1 hv m0_boots cfg_hv_ok Hhv) as (tab & W & _).
  split; [exact (ms_wf_fa tab m1 hv W)|].
  exists 0x3a34f000, 63. split; by vm_compute.
Qed.

Lemma cell_run_ok : exists gpm m2, cell_run = (Ok gpm, m2).
Proof.
  assert (is_ok (fst cell_run) = true) as Hok by (vm_compute; reflexivity).
  destruct cell_run as [[gpm|e| |] m]; try discriminate Hok. eauto.
Qed.

(** An identity-mapped region. *)
Lemma identity_target r v :
  virt_start r = phys_start r -> in_range 64 v -> map_fn (mapper (cell_region r)) v = v.
Proof.
  intros He Hv. unfold cell_region. rewrite He. simpl. unfold sub64 at 2. rewrite Z.sub_diag.
  unfold sub64. rewrite Z.sub_0_r. by apply wrap_small.
Qed.

Lemma cfg_avoids_hv : avoids_hv EMPTY_PAGE cfg [ram; io].
Proof.
  assert (start (hv_empty_region EMPTY_PAGE cfg) = 0x3a000000 /\
          rsize (hv_empty_region EMPTY_PAGE cfg) = 0x400000) as [Hs Hn] by (split; by vm_compute).
  assert (start (cell_region ram) = 0x100000 /\ rsize (cell_region ram) = 0x40000 /\
          start (cell_region io) = 0xfee00000 /\ rsize (cell_region io) = 0x1000)
    as (Hr1 & Hr2 & Hi1 & Hi2) by (split_and!; by vm_compute).
  intros r v Hr Hv Hh. unfold in_region in Hh. rewrite Hs, Hn in Hh.
  apply elem_of_cons in Hr as [->|Hr].
  - unfold in_region in Hv. rewrite Hr1, Hr2 in Hv.
    rewrite identity_target in Hh by (done || (unfold in_range; lia)). lia.
  - apply list_elem_of_singleton in Hr as ->. unfold in_region in Hv. rewrite Hi1, Hi2 in Hv.
    rewrite identity_target in Hh by (done || (unfold in_range; lia)). lia.
Qed.

Lemma new_root_isolates_witness :
  exists gpm m2, cell_run = (Ok gpm, m2) /\
    answer (pte := EPTEntry.ops) (m2, pt gpm) 0x3a000123 =
      Ok (virt_to_phys EMPTY_PAGE + 0x3a000123 mod PAGE_SIZE, EPTEntry.view READ_ONLY, Size4K) /\
    forall w hpa fl sz, answer (pte := EPTEntry.ops) (m2, pt gpm) w = Ok (hpa, fl, sz) ->
      in_region (hv_empty_region EMPTY_PAGE cfg) hpa -> fl = MEM_READ.
Proof.
  destruct cell_run_ok as (gpm & m2 & Hc). exists gpm, m2. split; [exact Hc|].
  destruct (new_root_isolates EMPTY_PAGE cfg [ram; io] m1 m2 gpm m1_boots cfg_root_ok Hc) as [Hhv Hno].
  split.
  - apply Hhv. vm_compute. split; [intros Hx; discriminate Hx|reflexivity].
  - intros w hpa fl sz Hw Hin. destruct (Hno cfg_avoids_hv w hpa fl sz Hw Hin) as [_ ->].
    vm_compute. reflexivity.
Defined.

Lemma new_root_no_leak_witness : exists gpm m2, cell_run = (Ok gpm, m2) /\
  ms_valid (pte := EPTEntry.ops) (laws := EPTEntry.laws) (m2, gpm).
Proof.
  pose proof (new_root_no_leak EMPTY_PAGE cfg [ram; io] m1 m1_boots cfg_root_ok) as H.
  destruct cell_run_ok as (gpm & m2 & Hc). exists gpm, m2. split; [exact Hc|].
  rewrite Hc in H. exact H.
Defined.

Lemma hv_linear_map_witness : exists hv sz, hv_run = (Ok hv, m1) /\
  answer (pte := PTEntry.ops) (m1, pt hv) (HV_BASE + 0x1234) =
    Ok (virt_to_phys (HV_BASE + 0x1234), 0x7, sz).
Proof.
  destruct hv_run_ok as [hv Hhv].
  destruct (hv_linear_map header cfg [ram; io] m0 m1 hv m0_boots cfg_hv_ok Hhv 0x1234) as (sz & Ha & _).
  - vm_compute. split; [intros Hx; discriminate Hx|reflexivity].
  - exists hv, sz. split; [exact Hhv|exact Ha].
Defined.

Lemma ram_sample_ok : ram_ok PTEntry.ops PTEntry.laws EPTEntry.ops EPTEntry.laws ram.
Proof. constructor; try (split; by vm_compute); by vm_compute. Qed.

Lemma guest_ram_agrees_witness : exists hv gpm m2 fl sz fl' sz',
  hv_run = (Ok hv, m1) /\ cell_run = (Ok gpm, m2) /\
  answer (pte := PTEntry.ops) (m2, pt hv) (phys_to_virt 0x123456) = Ok (0x123456, fl, sz) /\
  answer (pte := EPTEntry.ops) (m2, pt gpm) 0x123456 = Ok (0x123456, fl', sz').
Proof.
  destruct hv_run_ok as [hv Hhv]. destruct cell_run_ok as (gpm & m2 & Hc).
  destruct (guest_ram_agrees PTEntry.ops PTEntry.laws EPTEntry.ops EPTEntry.laws EMPTY_PAGE header cfg
    [ram; io] m0 m1 m2 hv gpm ram 0x123456 m0_boots m1_boots cfg_hv_ok cfg_root_ok Hhv Hc)
    as (fl & sz & fl' & sz' & H1 & H2).
  - left.
  - exact ram_sample_ok.
  - vm_compute. split; [intros Hx; discriminate Hx|reflexivity].
  - exists hv, gpm, m2, fl, sz, fl', sz'. split; [exact Hhv|]. split; [exact Hc|]. split; [exact H1|exact H2].
Defined.

Lemma desc_sample_ok : desc_ok desc.
Proof. constructor; split; by vm_compute. Qed.

Lemma config_in_bounds_witness : config_size (root_cell cfg) = 72 /\ sc_size cfg = 466.
Proof.
  destruct (config_in_bounds (fun _ => 0) (fun _ => 0) cfg desc_sample_ok) as (-> & -> & _).
  split; reflexivity.
Defined.

Lemma layout_sample_ok : layout_ok core_end header cfg.
Proof.
  constructor; [by vm_compute|by vm_compute|exact desc_sample_ok|split; by vm_compute| |by vm_compute].
  repeat split; by vm_compute.
Qed.

Lemma frame_pool_disjoint_witness :
  let f : FrameAllocator ListAlloc.t := frame_init (pv := phys_virt_offset cfg) core_end header cfg in
  frame_free f 0x3a301000 /\ 0x3a301000 + PAGE_SIZE <= 0x3a400000.
Proof.
  assert (frame_free (A := ListAlloc.t) (frame_init (pv := phys_virt_offset cfg) core_end header cfg) 0x3a301000) as Hfree.
  { exists 0. split; vm_compute; reflexivity. }
  split; [exact Hfree|].
  destruct (frame_pool_disjoint (A := ListAlloc.t) core_end header cfg 0x3a301000 layout_sample_ok) as [_ Hp];
    [vm_compute; intros Hx; discriminate Hx|vm_compute; intros Hx; discriminate Hx|].
  destruct (Hp Hfree) as (_ & _ & He). exact He.
Defined.
End Boot.
