(* ===== verification/Early.v ===== *)
(** * Early initialisation on the primary processor

    [primary_init_early] of [src/src/main.rs] with [cell::init] of
    [src/src/cell.rs]: the configuration check, the frame allocator, the
    hypervisor page table and the root cell in the order of the source, with
    the two static cells they end up in. The theorem puts the properties of the
    parts together on the machine the function leaves. *)

From S2P Require Import Prelude Crates HvError Addr PhysMem Frame Pte Region BTree Paging PagingInv PagingOps PagingSpec MemorySet MemoryProps Config Cell CellProps.

(** [HV_PT], [ROOT_CELL] and [INIT_EARLY_OK]. *)
Record Globals : Type := mkGlobals {
  HV_PT : option MemorySet;
  ROOT_CELL : option MemorySet;
  INIT_EARLY_OK : Z;
}.

Section Early.
Context {A : Type} {ba : BitAlloc A} (hpte npte : GenericPTE).
(** Linker symbols, the header, the configuration with its memory regions and
    [check_hypervisor_feature] of the vendor. *)
Context (core_end EMPTY_PAGE : Z) (header : HvHeader) (sys_config : HvSystemConfig).
Context (mem_regions : list HvMemoryRegion) (check_hypervisor_feature : outcome HvErrorNum unit).

(** [init_heap] sets [PHYS_VIRT_OFFSET] before anything uses it. *)
#[local] Instance early_pv : PhysVirt := phys_virt_offset sys_config.

Abbreviation ESt := (Machine A * Globals)%type.
Definition on_machine {B} : M (Machine A) HvErrorNum B -> M ESt HvErrorNum B :=
  zoom fst (fun m s => (m, snd s)).

(** [Once::call_once] with a closure that owns [ms]: a second call drops it. *)
Definition store_hv_pt (ms : MemorySet) : M ESt HvErrorNum unit :=
  let* g := gets snd in
  match HV_PT g with
  | None => modify (fun s => (fst s, mkGlobals (Some ms) (ROOT_CELL g) (INIT_EARLY_OK g)))
  | Some _ => on_machine (ms_drop (pte := hpte) ms)
  end.
Definition store_root_cell (ms : MemorySet) : M ESt HvErrorNum unit :=
  let* g := gets snd in
  match ROOT_CELL g with
  | None => modify (fun s => (fst s, mkGlobals (HV_PT g) (Some ms) (INIT_EARLY_OK g)))
  | Some _ => on_machine (ms_drop (pte := npte) ms)
  end.

Definition cell_init : M ESt HvErrorNum unit :=
  of_outcome check_hypervisor_feature ;;;
  let* root_cell := on_machine (new_root (pte := npte) EMPTY_PAGE sys_config mem_regions) in
  store_root_cell root_cell.

Definition primary_init_early : M ESt HvErrorNum unit :=
  of_outcome (check sys_config) ;;;
  modify (fun s => (with_fa (frame_init core_end header sys_config) (fst s), snd s)) ;;;
  let* hv_pt := on_machine (init_hv_page_table (pte := hpte) header sys_config mem_regions) in
  store_hv_pt hv_pt ;;;
  cell_init ;;;
  modify (fun s => (fst s, mkGlobals (HV_PT (snd s)) (ROOT_CELL (snd s)) 1)).

(** ** What it establishes *)
Context {bal : BitAllocLaws A} (hlaws : PTELaws (pte := hpte)) (nlaws : PTELaws (pte := npte)).

Abbreviation hv_mem := (hypervisor_memory sys_config).
Abbreviation hv_start := (phys_start hv_mem).

(** An image with the empty page in it, followed by the per-CPU areas and the
    configuration, at the start of the hypervisor memory. *)
Record early_ok : Prop := {
  eo_layout : layout_ok core_end header sys_config;
  eo_pool : pool_end sys_config - pool_start core_end header sys_config <= ba_cap * PAGE_SIZE;
  eo_cap : ba_cap * PAGE_SIZE <= 2 ^ 51;
  eo_hv : hv_config_ok (pte := hpte) header sys_config mem_regions;
  eo_root : root_config_ok (pte := npte) EMPTY_PAGE sys_config mem_regions;
  eo_empty : HV_BASE <= EMPTY_PAGE /\ EMPTY_PAGE + PAGE_SIZE <= core_end;
  eo_feature : check_hypervisor_feature = Ok tt \/ exists e, check_hypervisor_feature = Err e;
}.

(** The machine after a successful run. The page tables are those of the two
    sets, and they and the free frames are in the pool; [ed_guest] says that the guest reaches the hypervisor memory through
    the read-only empty page only, and none of the tables at all. *)
Record early_done (m : Machine A) (hv gpm : MemorySet) : Prop := {
  ed_hv : ms_valid (pte := hpte) (m, hv);
  ed_cell : ms_valid (pte := npte) (m, gpm);
  ed_linear : forall x, 0 <= x < mr_size hv_mem ->
    exists fl sz, answer (pte := hpte) (m, pt hv) (HV_BASE + x) = Ok (hv_start + x, fl, sz);
  ed_tables : forall t, t ∈ frames (pt hv) \/ t ∈ frames (pt gpm) ->
    hv_start + (config_end core_end header sys_config - HV_BASE) <= t /\
    t + PAGE_SIZE <= hv_start + mr_size hv_mem;
  ed_free : forall q, frame_free (fa m) q ->
    hv_start + (config_end core_end header sys_config - HV_BASE) <= q /\
    q + PAGE_SIZE <= hv_start + mr_size hv_mem;
  ed_apart : forall t, t ∈ frames (pt hv) -> ~ t ∈ frames (pt gpm);
  ed_guest : avoids_hv EMPTY_PAGE sys_config mem_regions ->
    forall gpa hpa fl sz, answer (pte := npte) (m, pt gpm) gpa = Ok (hpa, fl, sz) ->
    (hv_start <= hpa < hv_start + mr_size hv_mem ->
     virt_to_phys EMPTY_PAGE <= hpa < virt_to_phys EMPTY_PAGE + PAGE_SIZE /\
     fl = pte_view (pte := npte) READ_ONLY) /\
    forall t, t ∈ frames (pt hv) \/ t ∈ frames (pt gpm) -> ~ t <= hpa < t + PAGE_SIZE;
  ed_ram : forall r gpa, r ∈ mem_regions -> ram_ok hpte hlaws npte nlaws r ->
    virt_start r <= gpa < virt_start r + mr_size r ->
    exists fl sz fl' sz',
      answer (pte := hpte) (m, pt hv) (phys_to_virt gpa) = Ok (phys_start r + (gpa - virt_start r), fl, sz) /\
      answer (pte := npte) (m, pt gpm) gpa = Ok (phys_start r + (gpa - virt_start r), fl', sz');
}.

Lemma early_pool (m : Machine A) :
  early_ok ->
  boots (with_fa (frame_init core_end header sys_config) m) /\
  forall t, frame_free (A := A) (frame_init core_end header sys_config) t ->
    t mod PAGE_SIZE = 0 /\
    hv_start + (config_end core_end header sys_config - HV_BASE) <= t /\ t + PAGE_SIZE <= hv_start + mr_size hv_mem.
Proof.
  intros [HL H1 H2 _ _ _ _]. destruct (frame_init_ok (A := A) core_end header sys_config HL H1 H2) as [Hf Hp].
  pose proof (pool_range core_end header sys_config HL) as (Hps & Hpa & Hpe & Hle & Hee).
  destruct (config_end_range core_end header sys_config HL) as (_ & _ & Hfit).
  destruct (lo_phys _ _ _ HL) as [Hp0 Hpa0]. split.
  - split; [done|]. exists (hv_start + (pool_start core_end header sys_config - HV_BASE)).
    apply Hp. unfold PAGE_SIZE, HV_BASE in *. split; euclid.
  - intros t [Hm Hr]%Hp. split_and!; [done|lia|]. unfold PAGE_SIZE, HV_BASE in *. euclid.
Qed.

(** [build] without a free frame for the root panics. *)
Lemma build_dry (pte : GenericPTE) c (m : Machine A) :
  (exists e m', Frame_new_zero (pv := early_pv) m = (Err e, m')) ->
  build (pte := pte) c m = (Panic, m) /\ forall q, ~ frame_free (fa m) q.
Proof.
  intros (e & m' & Hn). destruct (Frame_new_zero_err _ _ _ Hn) as (_ & -> & Hno). split; [|done].
  unfold build, ms_new, pt_new, bind, expect. by rewrite Hn.
Qed.

(** The hypervisor memory as a region of the root cell. *)
Lemma hv_empty_span v :
  early_ok -> hv_start <= v < hv_start + mr_size hv_mem -> in_region (hv_empty_region EMPTY_PAGE sys_config) v.
Proof.
  intros [_ _ _ Hc _ _ _] Hv. destruct (hc_phys _ _ _ Hc) as [Hp Hpa]. destruct (hc_size _ _ _ Hc) as (Hs & Hsa & H52).
  unfold in_region, hv_empty_region, new_with_empty_mapper, MemoryRegion_new. cbn [start rsize].
  rewrite align_down_mod, align_up_mod by (unfold in_range, PAGE_SIZE in *; lia).
  unfold PAGE_SIZE in *. euclid.
Qed.

Lemma config_end_in : early_ok -> HV_BASE <= config_end core_end header sys_config.
Proof.
  intros E. pose proof (lo_cpus _ _ _ (eo_layout E)). destruct (config_end_range _ _ _ (eo_layout E)) as (? & _ & _).
  destruct (eo_empty E). unfold config_end, PER_CPU_SIZE, PAGE_SIZE in *. lia.
Qed.

(** A frame behind the configuration has no address of the empty page. *)
Lemma pool_not_empty t hpa :
  early_ok -> hv_start + (config_end core_end header sys_config - HV_BASE) <= t ->
  t + PAGE_SIZE <= hv_start + mr_size hv_mem -> t <= hpa < t + PAGE_SIZE ->
  ~ (virt_to_phys EMPTY_PAGE <= hpa < virt_to_phys EMPTY_PAGE + PAGE_SIZE).
Proof.
  intros E Hlo Hhi Hr Hep. pose proof (eo_hv E) as Hc. destruct (eo_empty E) as [He1 He2].
  assert (virt_to_phys EMPTY_PAGE = hv_start + (EMPTY_PAGE - HV_BASE)) as Hve.
  { destruct (hc_phys _ _ _ Hc) as [Hp _]. destruct (hc_size _ _ _ Hc) as (Hs & _ & H52).
    destruct (lo_phys _ _ _ (eo_layout E)) as [Hp0 _]. pose proof (lo_fits _ _ _ (eo_layout E)).
    pose proof (lo_cpus _ _ _ (eo_layout E)). destruct (lo_size _ _ _ (eo_layout E)).
    destruct (config_end_range _ _ _ (eo_layout E)) as (? & _ & _).
    unfold virt_to_phys, PHYS_VIRT_OFFSET, early_pv, phys_virt_offset, sub64, HV_BASE, PAGE_SIZE, PER_CPU_SIZE in *.
    nowrap. lia. }
  pose proof (lo_cpus _ _ _ (eo_layout E)). destruct (config_end_range _ _ _ (eo_layout E)) as (? & _ & _).
  unfold config_end, PER_CPU_SIZE, PAGE_SIZE in *. lia.
Qed.

(** The two sets, built one after the other from the pool. *)
Lemma early_done_intro tab tabn (m0 m1 m2 : Machine A) hv gpm :
  early_ok -> fa m0 = frame_init core_end header sys_config ->
  ms_wf (pte := hpte) tab (m1, hv) -> PagingOps.grows ∅ tab m0 m1 ->
  (forall k r, (k, r) ∈ regions hv <-> r ∈ hv_table_regions header sys_config mem_regions /\ 0 < rsize r /\ k = start r) ->
  ms_wf (pte := npte) tabn (m2, gpm) -> PagingOps.grows ∅ tabn m1 m2 ->
  (forall k r, (k, r) ∈ regions gpm <-> r ∈ root_regions EMPTY_PAGE sys_config mem_regions /\ 0 < rsize r /\ k = start r) ->
  early_done m2 hv gpm.
Proof.
  intros E Hf W1 G1 Hreg Wn Gn Hregn. pose proof (ms_pt _ _ W1) as P1. pose proof (ms_pt _ _ Wn) as Pn.
  unfold pt_st in P1, Pn. cbn [fst snd] in P1, Pn.
  assert (ms_wf (pte := hpte) tab (m2, hv)) as W2.
  { eapply (hv_survives hpte hlaws tabn);
      [apply (inv_table_ok _ _ _ _ (wf_inv _ _ Pn))|apply (wf_fa _ _ Pn)|done|done]. }
  assert (forall t, t ∈ frames (pt hv) -> frame_free (fa m0) t /\ ~ frame_free (fa m1) t) as Fh.
  { intros t [k Hk]%(wf_frames _ _ P1). split; [|by apply (inv_not_free _ _ _ _ (wf_inv _ _ P1) k)].
    by destruct (grows_new _ _ _ _ G1 _ _ Hk). }
  assert (forall t, t ∈ frames (pt gpm) -> frame_free (fa m1) t) as Fn.
  { intros t [k Hk]%(wf_frames _ _ Pn). by destruct (grows_new _ _ _ _ Gn _ _ Hk). }
  assert (forall t, t ∈ frames (pt hv) \/ t ∈ frames (pt gpm) ->
    hv_start + (config_end core_end header sys_config - HV_BASE) <= t /\ t + PAGE_SIZE <= hv_start + mr_size hv_mem) as Ht.
  { intros t Hin. destruct (early_pool m0 E) as [_ Hp]. apply Hp. rewrite <- Hf.
    destruct Hin as [Hin|Hin]; [by apply Fh|]. by apply (grows_free _ _ _ _ G1), Fn. }
  pose proof (eo_hv E) as Hc. constructor.
  - by exists tab.
  - by exists tabn.
  - intros x Hx. destruct (hv_linear header sys_config mem_regions tab m2 hv Hc W2 Hreg x Hx) as (sz & Ha & Hv).
    rewrite Hv in Ha. eauto.
  - exact Ht.
  - intros q Hq. destruct (early_pool m0 E) as [_ Hp]. apply Hp. rewrite <- Hf.
    by apply (grows_free _ _ _ _ G1), (grows_free _ _ _ _ Gn).
  - intros t Hh Hn. by apply (Fh t Hh), Fn.
  - intros Hav gpa hpa fl sz Ha. destruct (root_isolated _ _ _ tabn m2 gpm (eo_root E) Wn Hregn) as [_ Hi].
    assert (hv_start <= hpa < hv_start + mr_size hv_mem ->
      virt_to_phys EMPTY_PAGE <= hpa < virt_to_phys EMPTY_PAGE + PAGE_SIZE /\ fl = pte_view (pte := npte) READ_ONLY) as Hhv.
    { intros Hr. by apply (Hi Hav gpa hpa fl sz Ha), hv_empty_span. }
    split; [done|]. intros t Hin Hr. destruct (Ht t Hin) as [Hlo Hhi].
    pose proof (config_end_in E). by apply (pool_not_empty t hpa E Hlo Hhi Hr), Hhv; unfold PAGE_SIZE in *; lia.
  - intros r gpa Hin Hr Hg. by eapply (ram_agrees hpte hlaws npte nlaws).
Qed.

(** [cell::init] with the allocator in any well-formed state. *)
Lemma cell_init_cases (m1 : Machine A) g :
  early_ok -> fa_wf (fa m1) -> ROOT_CELL g = None ->
  match cell_init (m1, g) with
  | (Ok _, (m2, g')) => check_hypervisor_feature = Ok tt /\
      exists gpm tabn, g' = mkGlobals (HV_PT g) (Some gpm) (INIT_EARLY_OK g) /\
        ms_wf (pte := npte) tabn (m2, gpm) /\ PagingOps.grows ∅ tabn m1 m2 /\
        forall k r, (k, r) ∈ regions gpm <->
          r ∈ root_regions EMPTY_PAGE sys_config mem_regions /\ 0 < rsize r /\ k = start r
  | (Err _, (_, g')) => g' = g
  | (Panic, (m', _)) => forall q, ~ frame_free (fa m') q
  | (Diverge, _) => False
  end.
Proof.
  intros E Hf Hg. unfold cell_init. destruct (eo_feature E) as [Hfe|[e Hfe]]; rewrite Hfe.
  2:{ by rewrite (bind_err (of_outcome (Err e)) _ (m1, g) e (m1, g) eq_refl). }
  rewrite bind_of_outcome. unfold bind at 1, on_machine, zoom. cbn [fst snd]. unfold new_root.
  destruct (Frame_new_zero_total m1) as [(fr & mx & Hn)|Hn].
  2:{ destruct (build_dry npte (insert (pte := npte) (hv_empty_region EMPTY_PAGE sys_config) ;;;
        insert_mem_regions (pte := npte) mem_regions) m1) as [-> Hno]; [by eauto|]. done. }
  destruct (Frame_new_zero_ok _ _ _ Hf Hn) as (_ & _ & _ & Hq & _).
  pose proof (build_ok (pte := npte) _ _ m1 Hf (ex_intro _ _ Hq) (new_root_inserts _ _ _ (eo_root E))) as Hb.
  destruct (build _ m1) as [[gpm|e| |] m2]; try done. destruct Hb as (tabn & Wn & _ & Gn & Hregn).
  unfold store_root_cell. rewrite bind_gets. cbn [snd]. rewrite Hg. cbn. split; [done|]. by exists gpm, tabn.
Qed.

(** [primary_init_early], case by case. *)
Lemma early_protects_ok (m : Machine A) g :
  early_ok -> HV_PT g = None -> ROOT_CELL g = None ->
  match primary_init_early (m, g) with
  | (Ok _, (m', g')) =>
      check sys_config = Ok tt /\ check_hypervisor_feature = Ok tt /\
      exists hv gpm, g' = mkGlobals (Some hv) (Some gpm) 1 /\ early_done m' hv gpm
  | (Err _, (_, g')) => INIT_EARLY_OK g' = INIT_EARLY_OK g /\ ROOT_CELL g' = None
  | (Panic, (m', _)) => forall q, ~ frame_free (fa m') q
  | (Diverge, _) => False
  end.
Proof.
  intros E Hg1 Hg2. destruct (early_pool m E) as [[Hf0 Hq0] _].
  set (m0 := with_fa (frame_init core_end header sys_config) m) in *. unfold primary_init_early.
  assert (check sys_config = Ok tt \/ check sys_config = Err EINVAL) as [Hck|Hck].
  { unfold check. destruct (negb _); [by right|]. destruct (negb _); [by right|by left]. }
  all: rewrite Hck.
  2:{ by rewrite (bind_err (of_outcome (Err EINVAL)) _ (m, g) EINVAL (m, g) eq_refl). }
  rewrite bind_of_outcome, bind_modify. cbn [fst snd]. fold m0.
  pose proof (build_ok (pte := hpte) _ _ m0 Hf0 Hq0 (hv_table_inserts _ _ _ (eo_hv E))) as Hb.
  unfold bind at 1, on_machine at 1, zoom. cbn [fst]. unfold init_hv_page_table.
  destruct (build _ m0) as [[hv|e| |] m1]; try done. destruct Hb as (tab & W1 & _ & G1 & Hreg). cbn [snd].
  rewrite (bind_ok _ _ (m1, g) tt (m1, mkGlobals (Some hv) None (INIT_EARLY_OK g))).
  2:{ unfold store_hv_pt. rewrite bind_gets. cbn [snd]. by rewrite Hg1, Hg2. }
  pose proof (cell_init_cases m1 (mkGlobals (Some hv) None (INIT_EARLY_OK g)) E (ms_wf_fa _ _ _ W1) eq_refl) as Hc.
  unfold bind. destruct (cell_init _) as [[[]|e| |] [m2 g2]]; try done.
  2:{ by subst g2. }
  destruct Hc as (Hfe & gpm & tabn & -> & Wn & Gn & Hregn). cbn. split_and!; [done|done|]. exists hv, gpm. split; [done|].
  exact (early_done_intro tab tabn m0 m1 m2 hv gpm E eq_refl W1 G1 Hreg Wn Gn Hregn).
Qed.

(** C12. [primary_init_early] on any configuration that fits: it never loops,
    panics only when the pool is exhausted, and an error leaves no root cell and
    does not let the secondary processors on. When it succeeds, the hypervisor
    and the guest have separate page tables, all of them in the pool behind the
    configuration; the hypervisor memory is mapped linearly for the hypervisor,
    and no guest-physical address leads to a page table or to any other part of
    the hypervisor memory but the read-only empty page. *)
Theorem early_protects (m : Machine A) g :
  early_ok -> HV_PT g = None -> ROOT_CELL g = None ->
  match primary_init_early (m, g) with
  | (Ok _, (m', g')) =>
      check sys_config = Ok tt /\ check_hypervisor_feature = Ok tt /\
      exists hv gpm, g' = mkGlobals (Some hv) (Some gpm) 1 /\ early_done m' hv gpm
  | (Err _, (_, g')) => INIT_EARLY_OK g' = INIT_EARLY_OK g /\ ROOT_CELL g' = None
  | (Panic, (m', _)) => forall q, ~ frame_free (fa m') q
  | (Diverge, _) => False
  end.
Proof. exact (early_protects_ok m g). Qed.
End Early.

(** ** On the sample configuration *)
Module EarlySample.
#[local] Existing Instance X86PageTableFlags_ref.
#[local] Existing Instance BitField_ref.

Abbreviation early_run :=
  (primary_init_early PTEntry.ops EPTEntry.ops Boot.core_end Boot.EMPTY_PAGE Boot.header Boot.cfg [Boot.ram; Boot.io]
     (Ok tt) (mkMachine ∅ (fa_empty (A := ListAlloc.t)), mkGlobals None None 0)).

Lemma sample_early_ok :
  early_ok (A := ListAlloc.t) PTEntry.ops EPTEntry.ops Boot.core_end Boot.EMPTY_PAGE Boot.header Boot.cfg
    [Boot.ram; Boot.io] (Ok tt) PTEntry.laws EPTEntry.laws.
Proof.
  constructor.
  - exact Boot.layout_sample_ok.
  - vm_compute. discriminate.
  - vm_compute. discriminate.
  - exact Boot.cfg_hv_ok.
  - exact Boot.cfg_root_ok.
  - split; by vm_compute.
  - by left.
Qed.

Lemma early_run_ok : exists s, early_run = (Ok tt, s).
Proof.
  assert (is_ok (fst early_run) = true) as Hok by (vm_compute; reflexivity).
  destruct early_run as [[[]|e| |] s]; try discriminate Hok. by exists s.
Qed.

Lemma early_protects_witness : exists m hv gpm,
  early_run = (Ok tt, (m, mkGlobals (Some hv) (Some gpm) 1)) /\
  early_done PTEntry.ops EPTEntry.ops Boot.core_end Boot.EMPTY_PAGE Boot.header Boot.cfg [Boot.ram; Boot.io]
    PTEntry.laws EPTEntry.laws m hv gpm.
Proof.
  pose proof (early_protects PTEntry.ops EPTEntry.ops Boot.core_end Boot.EMPTY_PAGE Boot.header Boot.cfg
    [Boot.ram; Boot.io] (Ok tt) PTEntry.laws EPTEntry.laws (mkMachine ∅ (fa_empty (A := ListAlloc.t)))
    (mkGlobals None None 0) sample_early_ok eq_refl eq_refl) as H.
  destruct early_run_ok as [[m g] Hr]. rewrite Hr in *. destruct H as (_ & _ & hv & gpm & -> & Hd).
  exists m, hv, gpm. split; [reflexivity|exact Hd].
Defined.
End EarlySample.
