(* ===== verification/X86.v ===== *)
(** * The processor and the register crates

    [src/crates/libvmm/src/x86_64/msr.rs] ([Msr], [Msr::read], [Msr::write]),
    the registers the hypervisor reads and writes, and the interface of the
    register types of the [x86_64] crate ([X86Regs]).

    A [Cpu] holds the registers one processor owns and the words of memory its
    descriptor tables live in. Registers are plain stores; what the hardware
    does beyond a store is part of the instructions below: [MOV] to FS or GS
    also replaces the base ([hw_seg_base]), [LTR] checks the descriptor and
    marks it busy. *)

From S2P Require Import Prelude Crates.

(** ** Model-specific registers *)
Inductive Msr : Type :=
| IA32_FEATURE_CONTROL | IA32_SYSENTER_CS | IA32_SYSENTER_ESP | IA32_SYSENTER_EIP
| IA32_PAT | IA32_MTRR_DEF_TYPE | IA32_PERF_GLOBAL_CTRL | IA32_VMX_BASIC
| IA32_VMX_PINBASED_CTLS | IA32_VMX_PROCBASED_CTLS | IA32_VMX_EXIT_CTLS
| IA32_VMX_ENTRY_CTLS | IA32_VMX_MISC | IA32_VMX_CR0_FIXED0 | IA32_VMX_CR0_FIXED1
| IA32_VMX_CR4_FIXED0 | IA32_VMX_CR4_FIXED1 | IA32_VMX_PROCBASED_CTLS2
| IA32_VMX_EPT_VPID_CAP | IA32_VMX_TRUE_PINBASED_CTLS | IA32_VMX_TRUE_PROCBASED_CTLS
| IA32_VMX_TRUE_EXIT_CTLS | IA32_VMX_TRUE_ENTRY_CTLS | IA32_EFER | IA32_STAR
| IA32_LSTAR | IA32_CSTAR | IA32_FMASK | IA32_FS_BASE | IA32_GS_BASE
| IA32_KERNEL_GSBASE | IA32_TSC_AUX | VM_CR | IGNNE | VM_HSAVE_PA | PERF_EVT_SEL0
| PERF_EVT_SEL1 | PERF_EVT_SEL2 | PERF_EVT_SEL3 | PERF_EVT_SEL4 | PERF_EVT_SEL5.

#[export] Instance Msr_eq_dec : EqDecision Msr.
Proof. solve_decision. Defined.

(** The discriminants of [#[repr(u32)] enum Msr]. *)
Definition msr_id (m : Msr) : Z :=
  match m with
  | IA32_FEATURE_CONTROL => 0x3a
  | IA32_SYSENTER_CS => 0x174
  | IA32_SYSENTER_ESP => 0x175
  | IA32_SYSENTER_EIP => 0x176
  | IA32_PAT => 0x277
  | IA32_MTRR_DEF_TYPE => 0x2ff
  | IA32_PERF_GLOBAL_CTRL => 0x38f
  | IA32_VMX_BASIC => 0x480
  | IA32_VMX_PINBASED_CTLS => 0x481
  | IA32_VMX_PROCBASED_CTLS => 0x482
  | IA32_VMX_EXIT_CTLS => 0x483
  | IA32_VMX_ENTRY_CTLS => 0x484
  | IA32_VMX_MISC => 0x485
  | IA32_VMX_CR0_FIXED0 => 0x486
  | IA32_VMX_CR0_FIXED1 => 0x487
  | IA32_VMX_CR4_FIXED0 => 0x488
  | IA32_VMX_CR4_FIXED1 => 0x489
  | IA32_VMX_PROCBASED_CTLS2 => 0x48b
  | IA32_VMX_EPT_VPID_CAP => 0x48c
  | IA32_VMX_TRUE_PINBASED_CTLS => 0x48d
  | IA32_VMX_TRUE_PROCBASED_CTLS => 0x48e
  | IA32_VMX_TRUE_EXIT_CTLS => 0x48f
  | IA32_VMX_TRUE_ENTRY_CTLS => 0x490
  | IA32_EFER => 0xc0000080
  | IA32_STAR => 0xc0000081
  | IA32_LSTAR => 0xc0000082
  | IA32_CSTAR => 0xc0000083
  | IA32_FMASK => 0xc0000084
  | IA32_FS_BASE => 0xc0000100
  | IA32_GS_BASE => 0xc0000101
  | IA32_KERNEL_GSBASE => 0xc0000102
  | IA32_TSC_AUX => 0xc0000103
  | VM_CR => 0xc0010114
  | IGNNE => 0xc0010115
  | VM_HSAVE_PA => 0xc0010117
  | PERF_EVT_SEL0 => 0xc0010200
  | PERF_EVT_SEL1 => 0xc0010202
  | PERF_EVT_SEL2 => 0xc0010204
  | PERF_EVT_SEL3 => 0xc0010206
  | PERF_EVT_SEL4 => 0xc0010208
  | PERF_EVT_SEL5 => 0xc001020a
  end.

Lemma msr_id_inj a b : msr_id a = msr_id b -> a = b.
Proof. destruct a; destruct b; intros [=]; reflexivity. Qed.

Lemma msr_id_ne a b : a <> b -> msr_id a <> msr_id b.
Proof. intros Hne He. apply Hne, msr_id_inj, He. Qed.

(** ** The register types of the [x86_64] crate *)

(** [Cr0Flags], [Cr4Flags], [EferFlags]: the bits the hypervisor names, as the
    architecture numbers them. *)
Definition CR0_PROTECTED_MODE_ENABLE : Z := Z.shiftl 1 0.
Definition CR0_MONITOR_COPROCESSOR : Z := Z.shiftl 1 1.
Definition CR0_TASK_SWITCHED : Z := Z.shiftl 1 3.
Definition CR0_NUMERIC_ERROR : Z := Z.shiftl 1 5.
Definition CR0_WRITE_PROTECT : Z := Z.shiftl 1 16.
Definition CR0_NOT_WRITE_THROUGH : Z := Z.shiftl 1 29.
Definition CR0_CACHE_DISABLE : Z := Z.shiftl 1 30.
Definition CR0_PAGING : Z := Z.shiftl 1 31.
Definition CR4_PHYSICAL_ADDRESS_EXTENSION : Z := Z.shiftl 1 5.
Definition CR4_VIRTUAL_MACHINE_EXTENSIONS : Z := Z.shiftl 1 13.
Definition CR4_OSXSAVE : Z := Z.shiftl 1 18.
Definition EFER_SECURE_VIRTUAL_MACHINE_ENABLE : Z := Z.shiftl 1 12.

(** The flag types know a set of bits ([all]); a write keeps the other bits of
    the register. [VirtAddr::new] and [PhysAddr::new] panic ([None]) on an
    address that is not canonical or wider than 52 bits. *)
Class X86Regs : Type := {
  cr0_all : Z;
  cr4_all : Z;
  efer_all : Z;
  cr0_write : Z -> Z -> Z;
  cr4_write : Z -> Z -> Z;
  efer_write : Z -> Z -> Z;
  virt_addr_new : Z -> option Z;
  phys_addr_new : Z -> option Z;
  frame_containing : Z -> Z;
  cr3_frame : Z -> Z;
}.

Definition canonical (v : Z) : Prop := 0 <= v < 2 ^ 47 \/ 2 ^ 64 - 2 ^ 47 <= v < 2 ^ 64.

Definition CR0_used : Z := 0xe001002b.
Definition CR4_used : Z := 0x42020.

Class X86RegsLaws `{X86Regs} : Prop := {
  cr0_all_range : in_range 64 cr0_all;
  cr4_all_range : in_range 64 cr4_all;
  efer_all_range : in_range 64 efer_all;
  cr0_all_used : contains cr0_all CR0_used = true;
  cr4_all_used : contains cr4_all CR4_used = true;
  efer_all_used : contains efer_all EFER_SECURE_VIRTUAL_MACHINE_ENABLE = true;
  cr0_write_spec : forall old f, cr0_write old f = Z.lor (Z.land old (not64 cr0_all)) f;
  cr4_write_spec : forall old f, cr4_write old f = Z.lor (Z.land old (not64 cr4_all)) f;
  efer_write_spec : forall old f, efer_write old f = Z.lor (Z.land old (not64 efer_all)) f;
  virt_addr_new_spec : forall v, canonical v -> virt_addr_new v = Some v;
  phys_addr_new_spec : forall p, 0 <= p < 2 ^ 52 -> phys_addr_new p = Some p;
  frame_containing_spec : forall p, 0 <= p < 2 ^ 52 -> frame_containing p = p - p mod 4096;
  cr3_frame_spec : forall x, cr3_frame x = Z.land x 0x000ffffffffff000;
}.

Module RegsRef.
Definition write (all old f : Z) : Z := Z.lor (Z.land old (not64 all)) f.
Definition virt_addr_new (v : Z) : option Z :=
  if ((0 <=? v) && (v <? 2 ^ 47)) || ((2 ^ 64 - 2 ^ 47 <=? v) && (v <? 2 ^ 64))
  then Some v else None.
Definition phys_addr_new (p : Z) : option Z := if (0 <=? p) && (p <? 2 ^ 52) then Some p else None.
End RegsRef.

#[global] Instance X86Regs_ref : X86Regs := {|
  cr0_all := 0xe005003f;
  cr4_all := 0x177fff;
  efer_all := 0xfd01;
  cr0_write := RegsRef.write 0xe005003f;
  cr4_write := RegsRef.write 0x177fff;
  efer_write := RegsRef.write 0xfd01;
  virt_addr_new := RegsRef.virt_addr_new;
  phys_addr_new := RegsRef.phys_addr_new;
  frame_containing p := p - p mod 4096;
  cr3_frame x := Z.land x 0x000ffffffffff000;
|}.

#[global] Instance X86Regs_ref_laws : X86RegsLaws.
Proof.
  constructor; try reflexivity; try (unfold in_range; simpl; lia).
  - intros v Hv. unfold virt_addr_new; simpl. unfold RegsRef.virt_addr_new, canonical in *.
    destruct Hv; split_cmp; simpl; lia || done.
  - intros p Hp. simpl. unfold RegsRef.phys_addr_new. split_cmp; simpl; lia || done.
Qed.
#[global] Remove Hints X86Regs_ref X86Regs_ref_laws : typeclass_instances.

(** ** The processor *)
Record DescriptorTablePointer : Type := mkDtp { dt_limit : Z; dt_base : Z }.

Record Cpu : Type := mkCpu {
  c_msr : gmap Z Z;
  c_cr0 : Z; c_cr3 : Z; c_cr4 : Z;
  c_es : Z; c_cs : Z; c_ss : Z; c_ds : Z; c_fs : Z; c_gs : Z; c_tr : Z;
  c_gdtr : DescriptorTablePointer;
  c_idtr : DescriptorTablePointer;
  c_gif : bool;              (* SVM's global interrupt flag *)
  c_vmem : gmap Z Z;         (* 64-bit words by virtual address *)
}.

Definition with_msr (v : gmap Z Z) (c : Cpu) : Cpu :=
  mkCpu v (c_cr0 c) (c_cr3 c) (c_cr4 c) (c_es c) (c_cs c) (c_ss c) (c_ds c) (c_fs c) (c_gs c)
    (c_tr c) (c_gdtr c) (c_idtr c) (c_gif c) (c_vmem c).
Definition with_cr (v0 v3 v4 : Z) (c : Cpu) : Cpu :=
  mkCpu (c_msr c) v0 v3 v4 (c_es c) (c_cs c) (c_ss c) (c_ds c) (c_fs c) (c_gs c)
    (c_tr c) (c_gdtr c) (c_idtr c) (c_gif c) (c_vmem c).
Definition with_sel (es cs ss ds fs gs tr : Z) (c : Cpu) : Cpu :=
  mkCpu (c_msr c) (c_cr0 c) (c_cr3 c) (c_cr4 c) es cs ss ds fs gs tr
    (c_gdtr c) (c_idtr c) (c_gif c) (c_vmem c).
Definition with_dtr (g i : DescriptorTablePointer) (c : Cpu) : Cpu :=
  mkCpu (c_msr c) (c_cr0 c) (c_cr3 c) (c_cr4 c) (c_es c) (c_cs c) (c_ss c) (c_ds c) (c_fs c)
    (c_gs c) (c_tr c) g i (c_gif c) (c_vmem c).
Definition with_gif (b : bool) (c : Cpu) : Cpu :=
  mkCpu (c_msr c) (c_cr0 c) (c_cr3 c) (c_cr4 c) (c_es c) (c_cs c) (c_ss c) (c_ds c) (c_fs c)
    (c_gs c) (c_tr c) (c_gdtr c) (c_idtr c) b (c_vmem c).
Definition with_vmem (m : gmap Z Z) (c : Cpu) : Cpu :=
  mkCpu (c_msr c) (c_cr0 c) (c_cr3 c) (c_cr4 c) (c_es c) (c_cs c) (c_ss c) (c_ds c) (c_fs c)
    (c_gs c) (c_tr c) (c_gdtr c) (c_idtr c) (c_gif c) m.

Definition set_cr3 (p : Z) (c : Cpu) : Cpu := with_cr (c_cr0 c) p (c_cr4 c) c.
Definition set_gdtr (g : DescriptorTablePointer) (c : Cpu) : Cpu := with_dtr g (c_idtr c) c.
Definition set_idtr (i : DescriptorTablePointer) (c : Cpu) : Cpu := with_dtr (c_gdtr c) i c.
Definition set_es_cs_ss_ds (es cs ss ds : Z) (c : Cpu) : Cpu :=
  with_sel es cs ss ds (c_fs c) (c_gs c) (c_tr c) c.
Definition set_tr (tr : Z) (c : Cpu) : Cpu :=
  with_sel (c_es c) (c_cs c) (c_ss c) (c_ds c) (c_fs c) (c_gs c) tr c.

(** [Msr::read] and [Msr::write]. *)
Definition msr_read (m : Msr) (c : Cpu) : Z := default 0 (c_msr c !! msr_id m).
Definition msr_write (m : Msr) (v : Z) (c : Cpu) : Cpu := with_msr (<[msr_id m := v]> (c_msr c)) c.

Lemma msr_read_write m v c : msr_read m (msr_write m v c) = v.
Proof. unfold msr_read, msr_write. simpl. by rewrite lookup_insert_eq. Qed.

Lemma msr_read_write_ne m n v c : m <> n -> msr_read m (msr_write n v c) = msr_read m c.
Proof.
  intros Hne. unfold msr_read, msr_write. simpl.
  by rewrite lookup_insert_ne by (by apply msr_id_ne).
Qed.

Lemma msr_read_cr m a b d c : msr_read m (with_cr a b d c) = msr_read m c.
Proof. done. Qed.
Lemma msr_read_sel m es cs ss ds fs gs tr c :
  msr_read m (with_sel es cs ss ds fs gs tr c) = msr_read m c.
Proof. done. Qed.
Lemma msr_read_dtr m g i c : msr_read m (with_dtr g i c) = msr_read m c.
Proof. done. Qed.
Lemma msr_read_gif m b c : msr_read m (with_gif b c) = msr_read m c.
Proof. done. Qed.
Lemma msr_read_cr3 m p c : msr_read m (set_cr3 p c) = msr_read m c.
Proof. done. Qed.
Lemma msr_read_gdtr m g c : msr_read m (set_gdtr g c) = msr_read m c.
Proof. done. Qed.
Lemma msr_read_idtr m i c : msr_read m (set_idtr i c) = msr_read m c.
Proof. done. Qed.
Lemma msr_read_4sel m es cs ss ds c : msr_read m (set_es_cs_ss_ds es cs ss ds c) = msr_read m c.
Proof. done. Qed.
Lemma msr_read_tr m tr c : msr_read m (set_tr tr c) = msr_read m c.
Proof. done. Qed.
Lemma msr_read_vmem m x c : msr_read m (with_vmem x c) = msr_read m c.
Proof. done. Qed.

(** [rdmsr] in a chain of writes and of updates of other registers. *)
Create Rewrite HintDb rvm_msr.
#[export] Hint Rewrite msr_read_write msr_read_cr msr_read_sel msr_read_dtr msr_read_gif
  msr_read_cr3 msr_read_gdtr msr_read_idtr msr_read_4sel msr_read_tr msr_read_vmem : rvm_msr.
#[export] Hint Rewrite msr_read_write_ne using discriminate : rvm_msr.

Section Registers.
Context {xr : X86Regs}.

(** [Cr0::read], [Cr0::write], and so on. *)
Definition cr0_get (c : Cpu) : Z := truncate cr0_all (c_cr0 c).
Definition cr4_get (c : Cpu) : Z := truncate cr4_all (c_cr4 c).
Definition cr3_get (c : Cpu) : Z := cr3_frame (c_cr3 c).
Definition efer_get (c : Cpu) : Z := truncate efer_all (msr_read IA32_EFER c).
Definition cr0_set (f : Z) (c : Cpu) : Cpu := with_cr (cr0_write (c_cr0 c) f) (c_cr3 c) (c_cr4 c) c.
Definition cr4_set (f : Z) (c : Cpu) : Cpu := with_cr (c_cr0 c) (c_cr3 c) (cr4_write (c_cr4 c) f) c.
Definition efer_set (f : Z) (c : Cpu) : Cpu :=
  msr_write IA32_EFER (efer_write (msr_read IA32_EFER c) f) c.

Lemma msr_read_cr0_set m f c : msr_read m (cr0_set f c) = msr_read m c.
Proof. done. Qed.
Lemma msr_read_cr4_set m f c : msr_read m (cr4_set f c) = msr_read m c.
Proof. done. Qed.
End Registers.

#[export] Hint Rewrite @msr_read_cr0_set @msr_read_cr4_set : rvm_msr.

(** A register write followed by a read sees the flags written, and the bits
    outside the flag type are those of before. *)
Lemma truncate_write all old f :
  in_range 64 all -> contains all f = true -> 0 <= f -> in_range 64 old ->
  truncate all (Z.lor (Z.land old (not64 all)) f) = f.
Proof.
  intros Ha Hc Hf Ho. unfold contains in Hc. apply Z.eqb_eq in Hc. unfold truncate, not64.
  assert (forall i, 0 <= i -> Z.testbit f i = Z.testbit all i && Z.testbit f i) as Hbit.
  { intros i Hi. by rewrite <- Z.land_spec, Hc. }
  apply Z.bits_inj'. intros i Hi. autorewrite with rvm_bits. rewrite (Hbit i Hi).
  destruct (Z.ltb_spec i 64).
  - replace (0 <=? i) with true by lia. simpl. btauto.
  - rewrite (testbit_small all 64 i) by (unfold in_range in *; lia). btauto.
Qed.

Lemma contains_truncate_all all x : contains all (truncate all x) = true.
Proof.
  unfold contains, truncate. apply Z.eqb_eq. apply Z.bits_inj'. intros i Hi.
  rewrite !Z.land_spec. btauto.
Qed.

Lemma contains_land all x y : contains all (Z.land (truncate all x) y) = true.
Proof. unfold contains, truncate. apply Z.eqb_eq, Z.bits_inj'. intros i Hi. rewrite !Z.land_spec. btauto. Qed.

Lemma truncate_nonneg all x : in_range 64 all -> 0 <= truncate all x.
Proof. intros Ha. unfold truncate. apply Z.land_nonneg. right. unfold in_range in Ha. lia. Qed.

Lemma contains_truncate_id all x : contains all x = true -> truncate all x = x.
Proof. unfold contains, truncate. intros H%Z.eqb_eq. by rewrite Z.land_comm. Qed.

