(* ===== verification/Segmentation.v ===== *)
(** * Segments and descriptor tables

    [src/src/arch/x86_64/segmentation.rs] ([SegmentAccessRights], [Segment]),
    the GDT part of [src/src/arch/x86_64/tables.rs] ([GdtStruct]) and
    [src/src/arch/x86_64/percpu.rs] ([ArchPerCpu::init]).

    A [GdtStruct] is the slice of descriptors at a base address of the
    processor's memory; indexing outside it panics. A fault in the hypervisor
    ends in the panic of [exception_handler], so [LTR] of a descriptor that is
    not an available TSS is [Panic]. *)

From S2P Require Import Prelude Crates HvError PhysMem X86.

(** ** Access rights *)
Definition SAR_ACCESSED : Z := Z.shiftl 1 0.
Definition SAR_WRITABLE : Z := Z.shiftl 1 1.
Definition SAR_CONFORMING : Z := Z.shiftl 1 2.
Definition SAR_EXECUTABLE : Z := Z.shiftl 1 3.
Definition SAR_CODE_DATA : Z := Z.shiftl 1 4.
Definition SAR_PRESENT : Z := Z.shiftl 1 7.
Definition SAR_LONG_MODE : Z := Z.shiftl 1 13.
Definition SAR_DB : Z := Z.shiftl 1 14.
Definition SAR_GRANULARITY : Z := Z.shiftl 1 15.
Definition SAR_UNUSABLE : Z := Z.shiftl 1 16.
Definition SAR_TSS_AVAIL : Z := 0x9.
Definition SAR_TSS_BUSY : Z := 0xb.
Definition SAR_DPL_USER : Z := Z.shiftl 3 5.

(** [SegmentAccessRights::all()]. *)
Definition SAR_all : Z :=
  foldr Z.lor 0
    [SAR_ACCESSED; SAR_WRITABLE; SAR_CONFORMING; SAR_EXECUTABLE; SAR_CODE_DATA; SAR_PRESENT;
     SAR_LONG_MODE; SAR_DB; SAR_GRANULARITY; SAR_UNUSABLE; SAR_TSS_AVAIL; SAR_TSS_BUSY;
     SAR_DPL_USER].

(** The flags of [x86_64::structures::gdt::DescriptorFlags] the code tests;
    [desc_all] are all the bits the type knows. *)
Definition DF_USER_SEGMENT : Z := Z.shiftl 1 44.
Definition DF_PRESENT : Z := Z.shiftl 1 47.
Definition DF_GRANULARITY : Z := Z.shiftl 1 55.

Class X86Desc : Type := {
  desc_all : Z;
  KERNEL_CODE64 : Z;
  KERNEL_DATA : Z;
  tss_segment : Z -> Z * Z;       (* Descriptor::tss_segment of the TSS at an address *)
}.

Class X86DescLaws `{X86Desc} : Prop := {
  desc_all_used : forall i, i = 44 \/ i = 47 \/ i = 55 -> Z.testbit desc_all i = true;
  tss_segment_range : forall a, in_range 64 a ->
    in_range 64 (fst (tss_segment a)) /\ in_range 64 (snd (tss_segment a));
  tss_segment_present : forall a, in_range 64 a ->
    Z.testbit (fst (tss_segment a)) 44 = false /\ Z.testbit (fst (tss_segment a)) 47 = true;
}.

#[global] Instance X86Desc_ref : X86Desc := {|
  desc_all := Z.ones 64;
  KERNEL_CODE64 := 0x00af9b000000ffff;
  KERNEL_DATA := 0x00cf93000000ffff;
  tss_segment a := (0x0000890000000067 + Z.shiftl (a mod 2 ^ 24) 16 + Z.shiftl (a / 2 ^ 24 mod 2 ^ 8) 56,
                    a / 2 ^ 32 mod 2 ^ 32);
|}.
#[global] Remove Hints X86Desc_ref : typeclass_instances.

Record Segment : Type := mkSegment {
  selector : Z;
  base : Z;
  limit : Z;
  access_rights : Z;
}.

(** [SegmentSelector::index]. *)
Definition sel_index (s : Z) : Z := Z.shiftr s 3.
Definition SegmentSelector_new (index rpl : Z) : Z := Z.lor (Z.shiftl index 3) rpl.

Section Segmentation.
Context {bf : BitField}.

Definition dpl (ar : Z) : Z := wrap 8 (bf_get_bits ar 5 7).

Definition from_descriptor (desc : Z) : Z :=
  truncate SAR_all (Z.land (wrap 32 (bf_get_bits desc 40 56)) 0xf0ff).

Definition _type_field (ar : Z) : Z := truncate SAR_all (Z.land ar 0xf).

Definition set_descriptor_type (desc type_field : Z) : option Z :=
  bf_set_bits 64 desc 40 44 type_field.

Definition as_svm_segment_attributes (ar : Z) : Z :=
  let bits := wrap 16 ar in
  Z.lor (Z.land bits 0xff) (Z.shiftr (Z.land bits 0xf000) 4).

Definition Segment_invalid : Segment := mkSegment 0 0 0 SAR_UNUSABLE.

(** ** [GdtStruct] *)
Record GdtStruct : Type := mkGdt { table_ptr : Z; table_len : Z }.

Definition KCODE_SELECTOR : Z := SegmentSelector_new 1 0.
Definition KDATA_SELECTOR : Z := SegmentSelector_new 2 0.
Definition TSS_SELECTOR : Z := SegmentSelector_new 3 0.

Definition gdt_from_pointer (p : DescriptorTablePointer) : GdtStruct :=
  mkGdt (dt_base p) ((dt_limit p + 1) / 8).

Section Gdt.
Context {xr : X86Regs} {xd : X86Desc}.

(** [VirtAddr::new(table.as_ptr())] panics on an address that is not canonical. *)
Definition gdt_pointer {E} (g : GdtStruct) : M Cpu E DescriptorTablePointer :=
  match virt_addr_new (table_ptr g) with
  | Some b => ret (mkDtp (wrap 16 (sub64 (mul64 (table_len g) 8) 1)) b)
  | None => panic
  end.

Definition entry_addr (g : GdtStruct) (idx : Z) : Z := add64 (table_ptr g) (8 * idx).

(** [Index] and [IndexMut] of [GdtStruct]. *)
Definition gdt_index {E} (g : GdtStruct) (idx : Z) : M Cpu E Z :=
  assertM (idx <? table_len g) ;;;
  gets (fun c => mem_get (c_vmem c) (entry_addr g idx)).

Definition gdt_index_mut {E} (g : GdtStruct) (idx v : Z) : M Cpu E unit :=
  assertM (idx <? table_len g) ;;;
  modify (fun c => with_vmem (mem_set (c_vmem c) (entry_addr g idx) v) c).

Definition gdt_sgdt (c : Cpu) : DescriptorTablePointer := c_gdtr c.
Definition gdt_lgdt {E} (p : DescriptorTablePointer) : M Cpu E unit :=
  modify (set_gdtr p).

(** [LTR]: the descriptor the selector names in the current GDT must be a
    present, available TSS; it becomes busy. *)
Definition ltr {E} (sel : Z) : M Cpu E unit := fun c =>
  let a := add64 (dt_base (c_gdtr c)) (8 * sel_index sel) in
  let d := mem_get (c_vmem c) a in
  if (get_bits d 40 45 =? SAR_TSS_AVAIL) && Z.testbit d 47 && (8 * sel_index sel + 15 <=? dt_limit (c_gdtr c))
  then (Ok tt, set_tr sel (with_vmem (mem_set (c_vmem c) a (set_bits 64 d 40 44 SAR_TSS_BUSY)) c))
  else (Panic, c).

Definition gdt_load_tss {E} (g : GdtStruct) (sel : Z) : M Cpu E unit :=
  let* d := gdt_index g (sel_index sel) in
  match set_descriptor_type d SAR_TSS_AVAIL with
  | Some d' => gdt_index_mut g (sel_index sel) d' ;;; ltr sel
  | None => panic
  end.

Definition gdt_init {E} (g : GdtStruct) (tss : Z) : M Cpu E unit :=
  modify (fun c => with_vmem (fill_words (c_vmem c) (table_ptr g) 0 (Z.to_nat (table_len g))) c) ;;;
  gdt_index_mut g 1 KERNEL_CODE64 ;;;
  gdt_index_mut g 2 KERNEL_DATA ;;;
  gdt_index_mut g 3 (fst (tss_segment tss)) ;;;
  gdt_index_mut g 4 (snd (tss_segment tss)).

(** [GdtStruct::alloc] leaks a box of 16 zero descriptors; [gdt_box] is where
    the heap put it. *)
Definition gdt_alloc {E} (gdt_box : Z) : M Cpu E GdtStruct :=
  modify (fun c => with_vmem (fill_words (c_vmem c) gdt_box 0 16) c) ;;;
  ret (mkGdt gdt_box 16).

Definition gdt_load {E} (g : GdtStruct) : M Cpu E unit :=
  let* p := gdt_pointer g in gdt_lgdt p.

(** ** [Segment::from_selector] *)
Definition from_selector {E} (sel : Z) (gdt : DescriptorTablePointer) : M Cpu E Segment :=
  let index := sel_index sel in
  let table := gdt_from_pointer gdt in
  let* entry_value := gdt_index table index in
  let entry := truncate desc_all entry_value in
  if contains entry DF_PRESENT then
    let base := Z.lor (bf_get_bits entry_value 16 40) (wrap 64 (Z.shiftl (bf_get_bits entry_value 56 64) 24)) in
    let limit := Z.lor (bf_get_bits entry_value 0 16) (wrap 64 (Z.shiftl (bf_get_bits entry_value 48 52) 16)) in
    let* base :=
      (if negb (contains entry DF_USER_SEGMENT) then
         let* high := gdt_index table (add64 index 1) in
         ret (add64 base (wrap 64 (Z.shiftl high 32)))
       else ret base) in
    let limit :=
      if contains entry DF_GRANULARITY then Z.lor (wrap 64 (Z.shiftl limit 12)) 0xfff else limit in
    ret (mkSegment sel base (wrap 32 limit) (from_descriptor entry_value))
  else ret Segment_invalid.

(** ** [IdtStruct]

    [table] is where the heap put the 256 entries of 16 bytes. *)
Definition idt_pointer {E} (table : Z) : M Cpu E DescriptorTablePointer :=
  match virt_addr_new table with
  | Some b => ret (mkDtp (wrap 16 (sub64 (256 * 16) 1)) b)
  | None => panic
  end.

Definition idt_sidt (c : Cpu) : DescriptorTablePointer := c_idtr c.
Definition idt_lidt {E} (p : DescriptorTablePointer) : M Cpu E unit := modify (set_idtr p).

Definition idt_load {E} (table : Z) : M Cpu E unit :=
  let* p := idt_pointer table in idt_lidt p.

(** ** [ArchPerCpu::init] *)
Definition load_sel {E} (es cs ss ds : Z) : M Cpu E unit :=
  modify (set_es_cs_ss_ds es cs ss ds).

(** [tss_box] and [gdt_box] are where the heap put the leaked TSS and GDT;
    [idt] is the pointer of the shared [IDT] ([idt_pointer]). *)
Definition arch_init {E} (tss_box gdt_box : Z) (idt : DescriptorTablePointer) : M Cpu E unit :=
  let* g := gdt_alloc gdt_box in
  gdt_init g tss_box ;;;
  gdt_load g ;;;
  load_sel 0 KCODE_SELECTOR 0 0 ;;;
  modify (set_idtr idt) ;;;
  gdt_load_tss g TSS_SELECTOR ;;;
  modify (msr_write IA32_PAT 0x070106).
End Gdt.
End Segmentation.

#[global] Instance X86Desc_ref_laws : @X86DescLaws X86Desc_ref.
Proof.
  constructor.
  - intros i [->|[->| ->]]; reflexivity.
  - intros a Ha. cbn [tss_segment X86Desc_ref fst snd]. rewrite !Z.shiftl_mul_pow2 by lia.
    unfold in_range in *. split; euclid.
  - intros a Ha. cbn [tss_segment X86Desc_ref fst snd]. rewrite !Z.shiftl_mul_pow2 by lia.
    assert (0 <= a mod 2 ^ 24 < 2 ^ 24) by (apply Z.mod_pos_bound; lia).
    assert (0 <= a / 2 ^ 24 mod 2 ^ 8 < 2 ^ 8) by (apply Z.mod_pos_bound; lia).
    set (lo := a mod _) in *. set (hi := a / _ mod _) in *.
    rewrite !Z.testbit_eqb by lia. split; [apply Z.eqb_neq | apply Z.eqb_eq]; euclid.
Qed.
#[global] Remove Hints X86Desc_ref_laws : typeclass_instances.

(** ** Decoding of descriptors

    [descriptor base limit access flags] is the 8-byte descriptor of the
    architecture manuals: a 32-bit base, a 20-bit limit, the access byte
    (type, S, DPL, P) and the nibble of AVL, L, D/B and G. *)
Definition descriptor (base limit access flags : Z) : Z :=
  limit mod 2 ^ 16 + 2 ^ 16 * (base mod 2 ^ 24 + 2 ^ 24 * (access + 2 ^ 8 *
    (limit / 2 ^ 16 + 2 ^ 4 * (flags + 2 ^ 4 * (base / 2 ^ 24))))).

Record descriptor_ok (base limit access flags : Z) : Prop := {
  do_base : 0 <= base < 2 ^ 32;
  do_limit : 0 <= limit < 2 ^ 20;
  do_access : 0 <= access < 2 ^ 8;
  do_flags : 0 <= flags < 2 ^ 4;
}.

Section Decode.
Context {bf : BitField} {xr : X86Regs} {xd : X86Desc} {xdl : X86DescLaws}.

Lemma descriptor_range b l a f : descriptor_ok b l a f -> in_range 64 (descriptor b l a f).
Proof. intros []. unfold descriptor, in_range. euclid. Qed.

Lemma descriptor_fields b l a f :
  descriptor_ok b l a f ->
  let d := descriptor b l a f in
  get_bits d 0 16 = l mod 2 ^ 16 /\ get_bits d 16 40 = b mod 2 ^ 24 /\
  get_bits d 40 56 = a + 2 ^ 8 * (l / 2 ^ 16) + 2 ^ 12 * f /\
  get_bits d 48 52 = l / 2 ^ 16 /\ get_bits d 56 64 = b / 2 ^ 24.
Proof.
  intros []. unfold descriptor. cbv zeta. rewrite !get_bits_div by lia. split_and!; euclid.
Qed.

Lemma descriptor_testbit b l a f i :
  descriptor_ok b l a f -> 0 <= i < 8 -> Z.testbit (descriptor b l a f) (40 + i) = Z.testbit a i.
Proof.
  intros H Hi. pose proof (descriptor_range _ _ _ _ H). pose proof H as [].
  replace (Z.testbit (descriptor b l a f) (40 + i)) with (Z.testbit (get_bits (descriptor b l a f) 40 48) i).
  - f_equal. unfold descriptor. rewrite get_bits_div by lia. euclid.
  - rewrite testbit_get_bits, (Z.add_comm i) by lia. by replace (i <? 48 - 40) with true by lia.
Qed.

Lemma descriptor_testbit_flags b l a f i :
  descriptor_ok b l a f -> 0 <= i < 4 -> Z.testbit (descriptor b l a f) (52 + i) = Z.testbit f i.
Proof.
  intros H Hi. pose proof (descriptor_range _ _ _ _ H). pose proof H as [].
  replace (Z.testbit (descriptor b l a f) (52 + i)) with (Z.testbit (get_bits (descriptor b l a f) 52 56) i).
  - f_equal. unfold descriptor. rewrite get_bits_div by lia. euclid.
  - rewrite testbit_get_bits, (Z.add_comm i) by lia. by replace (i <? 56 - 52) with true by lia.
Qed.

Lemma contains_desc x i : i = 44 \/ i = 47 \/ i = 55 -> contains (truncate desc_all x) (Z.shiftl 1 i) = Z.testbit x i.
Proof.
  intros Hi. rewrite contains_bit by lia. unfold truncate.
  by rewrite Z.land_spec, desc_all_used, andb_true_r.
Qed.

(** The access rights the code derives: the access byte and L, D/B, G of the
    descriptor; the limit bits in between and AVL are masked out. *)
Definition rights (access flags : Z) : Z := access + 2 ^ 12 * Z.land flags 0xe.

Lemma rights_mask a l f :
  0 <= a < 2 ^ 8 -> 0 <= l < 2 ^ 4 -> 0 <= f < 2 ^ 4 ->
  truncate SAR_all (Z.land (a + 2 ^ 8 * l + 2 ^ 12 * f) 0xf0ff) = rights a f.
Proof.
  intros Ha Hl Hf.
  pose (P a l f := truncate SAR_all (Z.land (a + 2 ^ 8 * l + 2 ^ 12 * f) 0xf0ff) =? rights a f).
  assert (forallb (fun a => forallb (fun l => forallb (P a l) (seqZ 0 16)) (seqZ 0 16)) (seqZ 0 256) = true)
    as HP by (vm_compute; reflexivity).
  pose proof (forallb_below _ _ a HP Ha) as HP1. pose proof (forallb_below _ _ l HP1 Hl) as HP2.
  pose proof (forallb_below _ _ f HP2 Hf) as HP3. by apply Z.eqb_eq.
Qed.

Lemma from_descriptor_rights b l a f :
  descriptor_ok b l a f -> from_descriptor (descriptor b l a f) = rights a f.
Proof.
  intros H. pose proof (descriptor_fields _ _ _ _ H) as (_ & _ & Hd & _).
  pose proof (descriptor_range _ _ _ _ H) as Hr. destruct H. unfold from_descriptor.
  rewrite bf_get_bits_spec by (unfold in_range in Hr; lia). rewrite Hd.
  rewrite wrap_small by (unfold in_range; euclid). apply rights_mask; euclid.
Qed.

Lemma svm_attributes_rights a f :
  0 <= a < 2 ^ 8 -> 0 <= f < 2 ^ 4 ->
  as_svm_segment_attributes (rights a f) = a + 2 ^ 8 * Z.land f 0xe.
Proof.
  intros Ha Hf.
  pose (P a f := as_svm_segment_attributes (rights a f) =? a + 2 ^ 8 * Z.land f 0xe).
  assert (forallb (fun a => forallb (P a) (seqZ 0 16)) (seqZ 0 256) = true)
    as HP by (vm_compute; reflexivity).
  pose proof (forallb_below _ _ a HP Ha) as HP1. pose proof (forallb_below _ _ f HP1 Hf) as HP2.
  by apply Z.eqb_eq.
Qed.
End Decode.

Section FromSelector.
Context {bf : BitField} {xr : X86Regs} {xd : X86Desc} {xdl : X86DescLaws}.

(** The memory holds the descriptor [b l a f] at index [sel_index sel] of the
    table; a system descriptor (S clear) has the upper half of its base in the
    next entry. *)
Record descriptor_at (c : Cpu) (gdt : DescriptorTablePointer) (sel b l a f high : Z) : Prop := {
  da_ok : descriptor_ok b l a f;
  da_index : 0 <= sel_index sel /\ sel_index sel + 1 < (dt_limit gdt + 1) / 8 < 2 ^ 64;
  da_low : mem_get (c_vmem c) (add64 (dt_base gdt) (8 * sel_index sel)) = descriptor b l a f;
  da_high : mem_get (c_vmem c) (add64 (dt_base gdt) (8 * (sel_index sel + 1))) = high;
  da_high_range : 0 <= high < 2 ^ 32;
}.

Lemma lor_shift_wrap x y n m :
  0 <= n -> 0 <= x < 2 ^ n -> 0 <= y < 2 ^ m -> 0 <= m -> n + m <= 64 ->
  Z.lor x (wrap 64 (Z.shiftl y n)) = x + 2 ^ n * y.
Proof.
  intros Hn Hx Hy Hm Hnm. rewrite wrap_small.
  - by apply lor_concat.
  - unfold in_range. rewrite Z.shiftl_mul_pow2 by lia.
    assert (2 ^ (n + m) <= 2 ^ 64) by (apply Z.pow_le_mono_r; lia).
    rewrite Z.pow_add_r in * by lia. nia.
Qed.

Lemma granular l : 0 <= l < 2 ^ 20 -> Z.lor (wrap 64 (Z.shiftl l 12)) 0xfff = 0xfff + 2 ^ 12 * l.
Proof. intros Hl. rewrite Z.lor_comm. apply (lor_shift_wrap 0xfff l 12 20); lia. Qed.

Lemma gdt_index_ok E (g : GdtStruct) i c :
  0 <= i < table_len g -> gdt_index (E := E) g i c = (Ok (mem_get (c_vmem c) (entry_addr g i)), c).
Proof. intros Hi. unfold gdt_index. by replace (i <? table_len g) with true by lia. Qed.

(** [Segment::from_selector] decodes a present descriptor of the table into
    its base (64 bits wide for a system segment), its limit in bytes and its
    access rights, and has no other effect; a descriptor that is not present
    gives the unusable segment. *)
Theorem from_selector_decodes E c gdt sel b l a f high :
  descriptor_at c gdt sel b l a f high ->
  from_selector (E := E) sel gdt c =
    (Ok (if Z.testbit a 7 then
           mkSegment sel (if Z.testbit a 4 then b else b + 2 ^ 32 * high)
             (if Z.testbit f 3 then 4096 * l + 4095 else l) (rights a f)
         else Segment_invalid), c).
Proof.
  intros [Hok [Hi Hlen] Hlo Hhi Hhr]. pose proof (descriptor_range _ _ _ _ Hok) as Hr.
  pose proof (descriptor_fields _ _ _ _ Hok) as (H0 & H16 & _ & H48 & H56).
  pose proof (from_descriptor_rights _ _ _ _ Hok) as Hrights.
  assert (0 <= descriptor b l a f) as Hd0 by apply Hr.
  unfold from_selector. rewrite (bind_ok _ _ c (descriptor b l a f) c).
  2: { rewrite gdt_index_ok; [by rewrite <- Hlo | simpl; lia]. }
  unfold DF_PRESENT, DF_USER_SEGMENT, DF_GRANULARITY. rewrite !contains_desc by lia.
  change 47 with (40 + 7). change 44 with (40 + 4). change 55 with (52 + 3).
  rewrite !(descriptor_testbit _ _ _ _ _ Hok), (descriptor_testbit_flags _ _ _ _ _ Hok) by lia.
  destruct (Z.testbit a 7); [|done]. rewrite !bf_get_bits_spec by lia.
  rewrite H0, H16, H48, H56, Hrights. destruct Hok.
  rewrite (lor_shift_wrap (b mod 2 ^ 24) _ 24 8), (lor_shift_wrap (l mod 2 ^ 16) _ 16 4) by euclid.
  replace (b mod 2 ^ 24 + 2 ^ 24 * (b / 2 ^ 24)) with b by euclid.
  replace (l mod 2 ^ 16 + 2 ^ 16 * (l / 2 ^ 16)) with l by euclid. rewrite granular by done.
  replace (wrap 32 (if Z.testbit f 3 then 0xfff + 2 ^ 12 * l else l))
    with (if Z.testbit f 3 then 4096 * l + 4095 else l)
    by (destruct (Z.testbit f 3); rewrite wrap_small by (unfold in_range; lia); lia).
  destruct (Z.testbit a 4); [done|]. cbn [negb].
  assert (add64 (sel_index sel) 1 = sel_index sel + 1) as -> by (unfold add64; nowrap; lia).
  rewrite (bind_ok _ _ c (add64 b (wrap 64 (Z.shiftl high 32))) c).
  2: { rewrite (bind_ok _ _ c high c); [done|]. rewrite gdt_index_ok; [by rewrite <- Hhi | simpl; lia]. }
  unfold add64. rewrite Z.shiftl_mul_pow2 by lia. nowrap. unfold ret. do 3 f_equal. lia.
Qed.
End FromSelector.

(** ** [ArchPerCpu::init] *)
Section ArchInit.
Context {bf : BitField} {xr : X86Regs} {xrl : X86RegsLaws} {xd : X86Desc} {xdl : X86DescLaws}.

Lemma tss_avail_busy d d' :
  in_range 64 d -> Z.testbit d 44 = false -> Z.testbit d 47 = true ->
  set_descriptor_type d SAR_TSS_AVAIL = Some d' ->
  get_bits d' 40 45 = SAR_TSS_AVAIL /\ Z.testbit d' 47 = true.
Proof.
  intros Hr H44 H47. unfold set_descriptor_type.
  rewrite bf_set_bits_ok by (done || lia). intros [= <-]. split.
  - apply Z.bits_inj'. intros i Hi. rewrite testbit_get_bits by lia.
    rewrite testbit_set_bits by (done || (simpl; lia)).
    destruct (Z.eqb_spec i 4) as [->|]; [done|].
    destruct (Z.ltb_spec i (45 - 40)); simpl.
    + replace ((40 <=? i + 40) && (i + 40 <? 44)) with true by lia. f_equal. lia.
    + symmetry. apply (testbit_small SAR_TSS_AVAIL 4); [unfold SAR_TSS_AVAIL|]; lia.
  - rewrite testbit_set_bits by (done || (simpl; lia)). done.
Qed.

Definition busy (d : Z) : Z := set_bits 64 (set_bits 64 d 40 44 SAR_TSS_AVAIL) 40 44 SAR_TSS_BUSY.

Definition loaded_tss (sel addr d : Z) (c : Cpu) : Cpu :=
  set_tr sel
    (with_vmem (mem_set (mem_set (c_vmem c) addr (set_bits 64 d 40 44 SAR_TSS_AVAIL)) addr (busy d)) c).

(** [load_tss] through the loaded table: whatever the type of the system
    descriptor, it is first made available, so that [LTR] accepts it. *)
Lemma load_tss_ok E (g : GdtStruct) sel d c :
  table_ptr g = dt_base (c_gdtr c) -> table_len g <= (dt_limit (c_gdtr c) + 1) / 8 ->
  0 <= sel_index sel -> sel_index sel + 1 < table_len g ->
  mem_get (c_vmem c) (entry_addr g (sel_index sel)) = d ->
  in_range 64 d -> Z.testbit d 44 = false -> Z.testbit d 47 = true ->
  gdt_load_tss (E := E) g sel c = (Ok tt, loaded_tss sel (entry_addr g (sel_index sel)) d c).
Proof.
  intros Hptr Hlen Hi Hi1 Hd Hr H44 H47. unfold gdt_load_tss.
  rewrite (bind_ok _ _ c d c) by (rewrite gdt_index_ok by lia; by rewrite Hd).
  assert (set_descriptor_type d SAR_TSS_AVAIL = Some (set_bits 64 d 40 44 SAR_TSS_AVAIL)) as Hset
    by (apply bf_set_bits_ok; done || lia).
  rewrite Hset. destruct (tss_avail_busy _ _ Hr H44 H47 Hset) as [Hav Hpr].
  unfold gdt_index_mut, bind, assertM, modify, ret. replace (sel_index sel <? table_len g) with true by lia.
  unfold ltr. cbn [c_gdtr c_vmem with_vmem]. rewrite <- Hptr.
  change (add64 (table_ptr g) (8 * sel_index sel)) with (entry_addr g (sel_index sel)).
  rewrite mem_get_set_eq, Hav, Hpr, Z.eqb_refl.
  replace (8 * sel_index sel + 15 <=? dt_limit (c_gdtr c)) with true by euclid. done.
Qed.

Lemma gdt_index_mut_ok E (g : GdtStruct) i v c :
  0 <= i < table_len g ->
  gdt_index_mut (E := E) g i v c = (Ok tt, with_vmem (mem_set (c_vmem c) (entry_addr g i) v) c).
Proof. intros Hi. unfold gdt_index_mut, bind, assertM. by replace (i <? table_len g) with true by lia. Qed.

Lemma gdt_init_ok E gdt_box tss c :
  0 <= gdt_box -> gdt_box + 128 <= 2 ^ 64 ->
  exists m, gdt_init (E := E) (mkGdt gdt_box 16) tss c = (Ok tt, with_vmem m c) /\
    mem_get m (gdt_box + 8) = KERNEL_CODE64 /\ mem_get m (gdt_box + 16) = KERNEL_DATA /\
    mem_get m (gdt_box + 24) = fst (tss_segment tss) /\
    mem_get m (gdt_box + 32) = snd (tss_segment tss).
Proof.
  intros H0 Hbox. unfold gdt_init. rewrite bind_modify.
  set (m0 := fill_words _ _ _ _). clearbody m0.
  assert (forall i, 0 <= i < 16 -> entry_addr (mkGdt gdt_box 16) i = gdt_box + 8 * i) as Ha.
  { intros i Hi. unfold entry_addr, add64. simpl. nowrap. lia. }
  do 3 (erewrite bind_ok by (apply gdt_index_mut_ok; simpl; lia)).
  rewrite gdt_index_mut_ok by (simpl; lia). rewrite !Ha by lia. cbn [c_vmem with_vmem].
  eexists. split; [reflexivity|]. split_and!; rewrite !mem_get_set; split_cmp; lia || done.
Qed.

(** The pointer [arch_init] gets for a table in the heap. *)
Lemma idt_load_ok E table c : canonical table -> idt_load (E := E) table c = (Ok tt, set_idtr (mkDtp 4095 table) c).
Proof. intros Hc. unfold idt_load, idt_pointer. by rewrite virt_addr_new_spec. Qed.

Lemma arch_init_ok E tss_box gdt_box idt c :
  canonical gdt_box -> gdt_box + 128 <= 2 ^ 64 -> in_range 64 tss_box ->
  exists c', arch_init (E := E) tss_box gdt_box idt c = (Ok tt, c') /\
    c_cs c' = KCODE_SELECTOR /\ c_es c' = 0 /\ c_ss c' = 0 /\ c_ds c' = 0 /\
    c_tr c' = TSS_SELECTOR /\ c_gdtr c' = mkDtp 127 gdt_box /\ c_idtr c' = idt /\
    mem_get (c_vmem c') (gdt_box + 8) = KERNEL_CODE64 /\
    mem_get (c_vmem c') (gdt_box + 24) = busy (fst (tss_segment tss_box)) /\
    c_fs c' = c_fs c /\ c_gs c' = c_gs c /\ c_cr0 c' = c_cr0 c /\ c_cr4 c' = c_cr4 c /\
    msr_read IA32_PAT c' = 0x070106 /\ forall m, m <> IA32_PAT -> msr_read m c' = msr_read m c.
Proof.
  intros Hcan Hbox Htss. pose proof (tss_segment_present _ Htss) as [H44 H47].
  pose proof (tss_segment_range _ Htss) as [Hlow _].
  assert (0 <= gdt_box) as H0 by (unfold canonical in Hcan; lia).
  unfold arch_init, gdt_alloc. rewrite bind_assoc, bind_modify, bind_ret.
  set (c0 := with_vmem _ c).
  destruct (gdt_init_ok E gdt_box tss_box c0 H0 Hbox) as (m & Hinit & Hk & _ & Hd & _).
  rewrite (bind_ok _ _ _ _ _ Hinit). unfold gdt_load, gdt_pointer. cbn [table_ptr table_len].
  rewrite virt_addr_new_spec by done.
  unfold gdt_lgdt, load_sel. rewrite bind_assoc, bind_ret, !bind_modify.
  match goal with |- context [bind (gdt_load_tss ?g ?s) _ ?x] =>
    pose (c1 := x); change x with c1; pose proof (load_tss_ok E g s (fst (tss_segment tss_box)) c1) as Hl
  end.
  assert (entry_addr (mkGdt gdt_box 16) (sel_index TSS_SELECTOR) = gdt_box + 24) as Ha.
  { change (sel_index TSS_SELECTOR) with 3. unfold entry_addr, add64. simpl. nowrap. lia. }
  rewrite Ha in Hl.
  rewrite (bind_ok _ _ _ _ _ (Hl eq_refl ltac:(vm_compute; discriminate) ltac:(vm_compute; discriminate)
    ltac:(vm_compute; reflexivity) Hd Hlow H44 H47)).
  eexists. split; [reflexivity|]. unfold loaded_tss.
  cbn [c_vmem c_cs c_es c_ss c_ds c_tr c_gdtr c_idtr c_fs c_gs c_cr0 c_cr4 with_vmem with_sel set_tr msr_write with_msr].
  split_and!; try reflexivity.
  - rewrite !mem_get_set_ne by lia. exact Hk.
  - apply mem_get_set_eq.
  - apply msr_read_write.
  - intros i Hi. by rewrite msr_read_write_ne by done.
Qed.
End ArchInit.
