(* ===== verification/Asm.v ===== *)
(** * The assembly of world switches

    The register-saving macros and [return_to_linux] of
    [src/src/arch/x86_64/context.rs], the entry of [src/src/arch/x86_64/entry.rs]
    ([arch_entry]), and the exit paths [svm_run]
    ([src/src/arch/x86_64/amd/vcpu.rs]) and [vmx_exit]
    ([src/src/arch/x86_64/intel/vcpu.rs]).

    A program is a list of instructions over the general registers and memory,
    an address space of 64-bit words; pushes and pops move RSP by 8. *)

From S2P Require Import Prelude PhysMem.

Inductive Reg : Type :=
| RAX | RCX | RDX | RBX | RSP | RBP | RSI | RDI
| R8 | R9 | R10 | R11 | R12 | R13 | R14 | R15.

#[export] Instance Reg_eq_dec : EqDecision Reg.
Proof. solve_decision. Defined.

Inductive Instr : Type :=
| Push (r : Reg)
| PushImm (v : Z)
| Pop (r : Reg)
| Sub_rsp (n : Z)
| Add_rsp (n : Z)
| Mov (dst src : Reg)
| Load (dst base : Reg) (off : Z)      (* mov dst, [base + off] *)
| Store (base : Reg) (off : Z) (src : Reg)
| Lea (dst base : Reg) (off : Z)
| Call (f : (Reg -> Z) * gmap Z Z -> (Reg -> Z) * gmap Z Z)
| Ret.

Record State : Type := mkState { areg : Reg -> Z; amem : gmap Z Z; arip : Z }.

Definition set_reg (r : Reg) (v : Z) (f : Reg -> Z) : Reg -> Z :=
  fun x => if decide (x = r) then v else f x.

Definition set_rsp (v : Z) (s : State) : State := mkState (set_reg RSP v (areg s)) (amem s) (arip s).

Definition push (v : Z) (s : State) : State :=
  let sp := sub64 (areg s RSP) 8 in
  mkState (set_reg RSP sp (areg s)) (mem_set (amem s) sp v) (arip s).

Definition step (i : Instr) (s : State) : State :=
  match i with
  | Push r => push (areg s r) s
  | PushImm v => push v s
  | Pop r =>
      let v := mem_get (amem s) (areg s RSP) in
      mkState (set_reg r v (set_reg RSP (add64 (areg s RSP) 8) (areg s))) (amem s) (arip s)
  | Sub_rsp n => set_rsp (sub64 (areg s RSP) n) s
  | Add_rsp n => set_rsp (add64 (areg s RSP) n) s
  | Mov d r => mkState (set_reg d (areg s r) (areg s)) (amem s) (arip s)
  | Load d b off =>
      mkState (set_reg d (mem_get (amem s) (add64 (areg s b) off)) (areg s)) (amem s) (arip s)
  | Store b off r => mkState (areg s) (mem_set (amem s) (add64 (areg s b) off) (areg s r)) (arip s)
  | Lea d b off => mkState (set_reg d (add64 (areg s b) off) (areg s)) (amem s) (arip s)
  | Call f => let '(r, m) := f (areg s, amem s) in mkState r m (arip s)
  | Ret =>
      mkState (set_reg RSP (add64 (areg s RSP) 8) (areg s)) (amem s) (mem_get (amem s) (areg s RSP))
  end.

Definition exec (p : list Instr) (s : State) : State := fold_left (fun s i => step i s) p s.

(** The layout of [#[repr(C)] struct GeneralRegisters]; [_unused_rsp] is a hole. *)
Definition GeneralRegisters_layout : list (option Reg) :=
  [Some RAX; Some RCX; Some RDX; Some RBX; None; Some RBP; Some RSI; Some RDI;
   Some R8; Some R9; Some R10; Some R11; Some R12; Some R13; Some R14; Some R15].

Definition GeneralRegisters_size : Z := 8 * Z.of_nat (length GeneralRegisters_layout).

Definition save_regs_to_stack : list Instr :=
  [Push R15; Push R14; Push R13; Push R12; Push R11; Push R10; Push R9; Push R8;
   Push RDI; Push RSI; Push RBP; Sub_rsp 8; Push RBX; Push RDX; Push RCX; Push RAX].

Definition restore_regs_from_stack : list Instr :=
  [Pop RAX; Pop RCX; Pop RDX; Pop RBX; Add_rsp 8; Pop RBP; Pop RSI; Pop RDI;
   Pop R8; Pop R9; Pop R10; Pop R11; Pop R12; Pop R13; Pop R14; Pop R15].

(** [arch_entry]: the return address is on the stack. *)
Definition arch_entry_save : list Instr :=
  [Push RBP; Push RBX; Push R12; Push R13; Push R14; Push R15; PushImm 0; Mov RDI RSP].
Definition arch_entry_return : list Instr :=
  [Pop R15; Pop R15; Pop R14; Pop R13; Pop R12; Pop RBX; Pop RBP; Ret].

(** [LinuxContext::return_to_linux]: the operands live in the registers the
    compiler picked. *)
Definition return_to_linux (linux_rsp linux_rip guest_regs : Reg) : list Instr :=
  [Mov RSP linux_rsp; Push linux_rip; Mov RCX RSP; Mov RSP guest_regs;
   Store RSP GeneralRegisters_size RCX] ++
  restore_regs_from_stack ++ [Pop RSP; Ret].

(** [svm_run] from one [VMRUN] to the next, and [vmx_exit] up to [VMRESUME];
    [handler] is the Rust function called. *)
Definition svm_run (handler : (Reg -> Z) * gmap Z Z -> (Reg -> Z) * gmap Z Z) : list Instr :=
  save_regs_to_stack ++
  [Mov R14 RAX; Mov R15 RSP; Load RDI RSP GeneralRegisters_size;
   Load RSP RSP (GeneralRegisters_size + 8); Call handler; Lea RSP R15 8; Push R14] ++
  restore_regs_from_stack.

Definition vmx_exit (handler : (Reg -> Z) * gmap Z Z -> (Reg -> Z) * gmap Z Z) : list Instr :=
  save_regs_to_stack ++
  [Mov R15 RSP; Load RSP RSP GeneralRegisters_size; Call handler; Mov RSP R15] ++
  restore_regs_from_stack.

(** ** Saving and restoring a layout *)
Definition push_slot (o : option Reg) : Instr :=
  match o with Some r => Push r | None => Sub_rsp 8 end.
Definition pop_slot (o : option Reg) : Instr :=
  match o with Some r => Pop r | None => Add_rsp 8 end.

(** The word of a layout at [sp] that holds the register [r]. *)
Definition holds (l : list (option Reg)) (m : gmap Z Z) (sp : Z) (f : Reg -> Z) : Prop :=
  forall k r, l !! k = Some (Some r) -> mem_get m (sp + 8 * Z.of_nat k) = f r.

Lemma save_is_push : save_regs_to_stack = map push_slot (rev GeneralRegisters_layout).
Proof. reflexivity. Qed.

Lemma restore_is_pop : restore_regs_from_stack = map pop_slot GeneralRegisters_layout.
Proof. reflexivity. Qed.

Lemma exec_app p q s : exec (p ++ q) s = exec q (exec p s).
Proof. apply fold_left_app. Qed.

Lemma exec_cons i p s : exec (i :: p) s = exec p (step i s).
Proof. done. Qed.

Lemma exec_nil s : exec [] s = s.
Proof. done. Qed.

Lemma set_reg_eq r v f : set_reg r v f r = v.
Proof. unfold set_reg. by rewrite decide_True. Qed.

Lemma set_reg_ne r v f x : x <> r -> set_reg r v f x = f x.
Proof. intros. unfold set_reg. by rewrite decide_False. Qed.

(** Run straight-line code. *)
Ltac run :=
  rewrite ?exec_cons, ?exec_nil; unfold step, push, set_rsp; cbn [areg amem arip];
  repeat (rewrite set_reg_eq || rewrite set_reg_ne by (discriminate || congruence)).

Lemma exec_push l s :
  Some RSP ∉ l -> 8 * Z.of_nat (length l) <= areg s RSP < 2 ^ 64 ->
  let s' := exec (map push_slot (rev l)) s in
  let sp := areg s RSP - 8 * Z.of_nat (length l) in
  areg s' RSP = sp /\ (forall r, r <> RSP -> areg s' r = areg s r) /\ arip s' = arip s /\
  holds l (amem s') sp (areg s) /\
  (forall a, a < sp \/ areg s RSP <= a -> mem_get (amem s') a = mem_get (amem s) a).
Proof.
  revert s. induction l as [|o l IH]; intros s Hin Hsp.
  - simpl. split_and!; done || lia || by intros [|k] r.
  - cbv zeta. simpl rev. rewrite map_app, exec_app. simpl length in Hsp.
    apply not_elem_of_cons in Hin as [Hin0 Hin].
    destruct (IH s) as (H1 & H2 & H3 & H4 & H5); [done|lia|].
    set (s1 := exec (map push_slot (rev l)) s) in *. cbv zeta in *.
    assert (sub64 (areg s1 RSP) 8 = areg s1 RSP - 8) as Hsub.
    { unfold sub64. rewrite H1. nowrap. lia. }
    assert (areg s1 RSP - 8 = areg s RSP - 8 * Z.of_nat (length (o :: l))) as Hbase by (simpl length; lia).
    assert (forall m, (forall a, a <> areg s1 RSP - 8 -> mem_get m a = mem_get (amem s1) a) ->
      (forall r, o = Some r -> mem_get m (areg s1 RSP - 8) = areg s r) ->
      holds (o :: l) m (areg s1 RSP - 8) (areg s)) as Hholds.
    { intros m Hm Ho [|k] r Hk; simpl in Hk.
      - replace (_ + 8 * Z.of_nat 0) with (areg s1 RSP - 8) by lia. apply Ho. congruence.
      - rewrite Hm by lia. rewrite H1. replace (_ - 8 + _) with
          (areg s RSP - 8 * Z.of_nat (length l) + 8 * Z.of_nat k) by lia. by apply H4. }
    rewrite <- Hbase.
    destruct o as [r|]; simpl; unfold push, set_rsp; cbn [areg amem arip]; rewrite Hsub.
    + split_and!; try done.
      * intros x Hx. unfold set_reg. rewrite decide_False by done. by apply H2.
      * apply Hholds. intros a Ha. by apply mem_get_set_ne. intros ? [= <-].
        rewrite mem_get_set_eq. apply H2. congruence.
      * intros a Ha. rewrite mem_get_set_ne by lia. apply H5. lia.
    + split_and!; try done.
      * intros x Hx. unfold set_reg. rewrite decide_False by done. by apply H2.
      * by apply Hholds.
      * intros a Ha. apply H5. lia.
Qed.

Lemma exec_pop l s :
  Some RSP ∉ l -> NoDup (omap id l) -> 0 <= areg s RSP ->
  areg s RSP + 8 * Z.of_nat (length l) < 2 ^ 64 ->
  let s' := exec (map pop_slot l) s in
  areg s' RSP = areg s RSP + 8 * Z.of_nat (length l) /\ amem s' = amem s /\ arip s' = arip s /\
  (forall k r, l !! k = Some (Some r) -> areg s' r = mem_get (amem s) (areg s RSP + 8 * Z.of_nat k)) /\
  (forall r, r <> RSP -> Some r ∉ l -> areg s' r = areg s r).
Proof.
  revert s. induction l as [|o l IH]; intros s Hin Hnd H0 Hsp.
  - cbv zeta. simpl. split_and!; done || lia.
  - cbv zeta. simpl length in Hsp. change (exec (map pop_slot (o :: l)) s) with
      (exec (map pop_slot l) (step (pop_slot o) s)).
    apply not_elem_of_cons in Hin as [Hin0 Hin]. set (s1 := step (pop_slot o) s).
    assert (areg s1 RSP = areg s RSP + 8) as Hsp1.
    { unfold s1. destruct o as [r|]; simpl; unfold set_reg, add64; nowrap.
      - rewrite decide_False by congruence. by rewrite decide_True.
      - by rewrite decide_True. }
    assert (amem s1 = amem s /\ arip s1 = arip s) as [Hm1 Hr1] by (unfold s1; by destruct o).
    assert (NoDup (omap id l)) as Hnd' by (destruct o; [by apply NoDup_cons in Hnd as [_ ?]|done]).
    destruct (IH s1) as (H1 & H2 & H3 & H4 & H5); [done|done|lia|lia|]. cbv zeta in *.
    rewrite Hsp1, Hm1 in *. split_and!; try congruence.
    + rewrite H1. simpl length. lia.
    + intros [|k] r Hk; simpl in Hk.
      * injection Hk as ->. rewrite H5; [|congruence|].
        -- unfold s1. simpl. unfold set_reg. rewrite decide_True by done. f_equal. lia.
        -- intros Hr. apply NoDup_cons in Hnd as [Hnd _]. apply Hnd.
           apply list_elem_of_omap. by exists (Some r).
      * rewrite (H4 _ _ Hk). f_equal. lia.
    + intros r Hr [Hnin0 Hnin]%not_elem_of_cons. rewrite H5 by done. unfold s1.
      destruct o as [x|]; simpl; unfold set_reg; repeat rewrite decide_False by congruence; done.
Qed.

Lemma layout_no_rsp : Some RSP ∉ GeneralRegisters_layout.
Proof. by apply (bool_decide_unpack _). Qed.

Lemma layout_nodup : NoDup (omap id GeneralRegisters_layout).
Proof. by apply (bool_decide_unpack _). Qed.

(** Restoring the general registers from the record at [sp]. *)
Lemma exec_restore s sp :
  areg s RSP = sp -> 0 <= sp -> sp + 128 < 2 ^ 64 ->
  exists s', exec restore_regs_from_stack s = s' /\
    areg s' RSP = sp + 128 /\ amem s' = amem s /\ arip s' = arip s /\
    forall k r, GeneralRegisters_layout !! k = Some (Some r) ->
      areg s' r = mem_get (amem s) (sp + 8 * Z.of_nat k).
Proof.
  intros <- H0 Hsp. rewrite restore_is_pop.
  destruct (exec_pop GeneralRegisters_layout s layout_no_rsp layout_nodup) as (H1 & H2 & H3 & H4 & _);
    [lia | simpl length; lia |]. by eexists.
Qed.

(** Saving them below [sp + 128]. *)
Lemma exec_save s sp :
  areg s RSP = sp + 128 -> 0 <= sp -> sp + 128 < 2 ^ 64 ->
  exists s', exec save_regs_to_stack s = s' /\
    areg s' RSP = sp /\ (forall r, r <> RSP -> areg s' r = areg s r) /\ arip s' = arip s /\
    holds GeneralRegisters_layout (amem s') sp (areg s) /\
    (forall a, a < sp \/ sp + 128 <= a -> mem_get (amem s') a = mem_get (amem s) a).
Proof.
  intros Hrsp H0 Hsp. rewrite save_is_push.
  destruct (exec_push GeneralRegisters_layout s layout_no_rsp) as (H1 & H2 & H3 & H4 & H5);
    [simpl length; lia|]. cbv zeta in *.
  replace (areg s RSP - 8 * Z.of_nat (length GeneralRegisters_layout)) with sp in * by (simpl length; lia).
  rewrite Hrsp in H5. by eexists.
Qed.

(** The System V ABI: a call preserves the callee-saved registers. *)
Definition abi (f : (Reg -> Z) * gmap Z Z -> (Reg -> Z) * gmap Z Z) : Prop :=
  forall x r, r ∈ [RBX; RBP; RSP; R12; R13; R14; R15] -> fst (f x) r = fst x r.

Lemma svm_enter_handler s vcpu :
  areg s RSP = vcpu -> 0 <= vcpu -> vcpu + 144 < 2 ^ 64 ->
  exists s', exec [Mov R14 RAX; Mov R15 RSP; Load RDI RSP GeneralRegisters_size;
                   Load RSP RSP (GeneralRegisters_size + 8)] s = s' /\
    areg s' R14 = areg s RAX /\ areg s' R15 = vcpu /\ amem s' = amem s /\
    areg s' RDI = mem_get (amem s) (vcpu + 128) /\ areg s' RSP = mem_get (amem s) (vcpu + 136).
Proof.
  intros Hsp H0 Hv. eexists. split; [reflexivity|]. run. rewrite Hsp.
  change GeneralRegisters_size with 128. unfold add64. nowrap. split_and!; try done.
Qed.

Lemma svm_leave_handler handler s vcpu :
  abi handler -> areg s R15 = vcpu -> 0 <= vcpu -> vcpu + 144 < 2 ^ 64 ->
  exists s', exec [Call handler; Lea RSP R15 8; Push R14] s = s' /\
    areg s' RSP = vcpu /\
    amem s' = mem_set (snd (handler (areg s, amem s))) vcpu (areg s R14).
Proof.
  intros Habi H15 H0 Hv. eexists. split; [reflexivity|].
  pose proof (Habi (areg s, amem s) R14 ltac:(set_solver)) as Hr14.
  pose proof (Habi (areg s, amem s) R15 ltac:(set_solver)) as Hr15.
  rewrite exec_cons. cbn [step]. destruct (handler _) as [f_out m_out]. cbn [fst snd] in *. run.
  rewrite Hr15, Hr14, H15. unfold sub64, add64. nowrap.
  by replace (vcpu + 8 - 8) with vcpu by lia.
Qed.

(** C35. One round of [svm_run] over the [Vcpu] at address [vcpu]: the exit
    handler runs on the host stack with the per-CPU pointer as its argument and
    finds the guest registers in [guest_regs]; the next VMRUN has RAX (the
    VMCB address) back, every other register as the handler left it in
    [guest_regs], and RSP at the end of [guest_regs] again. *)
Theorem svm_run_switches handler s vcpu :
  abi handler -> areg s RSP = vcpu + 128 -> 0 <= vcpu -> vcpu + 144 < 2 ^ 64 ->
  exists f_in m_in,
    f_in RDI = mem_get (amem s) (vcpu + 128) /\ f_in RSP = mem_get (amem s) (vcpu + 136) /\
    holds GeneralRegisters_layout m_in vcpu (areg s) /\
    let m_out := snd (handler (f_in, m_in)) in
    let s' := exec (svm_run handler) s in
    areg s' RSP = vcpu + 128 /\ areg s' RAX = areg s RAX /\
    amem s' = mem_set m_out vcpu (areg s RAX) /\
    forall k r, GeneralRegisters_layout !! k = Some (Some r) -> r <> RAX ->
      areg s' r = mem_get m_out (vcpu + 8 * Z.of_nat k).
Proof.
  intros Habi Hrsp H0 Hv. destruct (exec_save s vcpu) as (s1 & Hs1 & H1 & H2 & _ & H4 & H5); [done..|lia|].
  destruct (svm_enter_handler s1 vcpu) as (s2 & Hs2 & H14 & H15 & Hm2 & Hrdi & Hsp); [done..|].
  rewrite !H5 in * by lia. rewrite H2 in H14 by done.
  destruct (svm_leave_handler handler s2 vcpu) as (s3 & Hs3 & Hsp3 & Hm3); [done..|].
  destruct (exec_restore s3 vcpu) as (s4 & Hs4 & E1 & E2 & _ & E4); [done|lia|lia|].
  exists (areg s2), (amem s2). do 2 (split; [done|]). split; [by rewrite Hm2|].
  assert (exec (svm_run handler) s = s4) as ->.
  { unfold svm_run. rewrite !exec_app, Hs1. change [?a; ?b; ?c; ?d; ?e; ?f; ?g] with ([a; b; c; d] ++ [e; f; g]).
    by rewrite exec_app, Hs2, Hs3. }
  rewrite Hm3, H14 in E2, E4. cbv zeta. split_and!; try done.
  - rewrite (E4 0%nat RAX) by done. rewrite Z.mul_0_r, Z.add_0_r. apply mem_get_set_eq.
  - intros k r Hk Hr. rewrite (E4 k r Hk). apply mem_get_set_ne. destruct k; [|lia].
    injection Hk as <-. done.
Qed.

Lemma vmx_call_handler handler s vcpu :
  abi handler -> areg s RSP = vcpu -> 0 <= vcpu -> vcpu + 136 < 2 ^ 64 ->
  exists f_in s', exec [Mov R15 RSP; Load RSP RSP GeneralRegisters_size; Call handler; Mov RSP R15] s = s' /\
    f_in RSP = mem_get (amem s) (vcpu + 128) /\
    areg s' RSP = vcpu /\ amem s' = snd (handler (f_in, amem s)).
Proof.
  intros Habi Hsp H0 Hv. rewrite exec_cons, exec_cons. cbn [step areg amem arip].
  set (f_in := set_reg RSP _ _). exists f_in.
  pose proof (Habi (f_in, amem s) R15 ltac:(set_solver)) as Hr15.
  rewrite exec_cons. cbn [step areg amem arip]. destruct (handler _) as [f_out m_out].
  cbn [fst snd] in *. eexists. split; [reflexivity|]. run. rewrite Hr15. unfold f_in. run.
  split_and!; try done. rewrite Hsp. unfold add64. change GeneralRegisters_size with 128. by nowrap.
Qed.

(** One round of [vmx_exit]: the handler runs on the host stack and finds
    the guest registers in [guest_regs]; VMRESUME has every register as the
    handler left it in [guest_regs], and RSP is back at their end. *)
Theorem vmx_exit_switches handler s vcpu :
  abi handler -> areg s RSP = vcpu + 128 -> 0 <= vcpu -> vcpu + 136 < 2 ^ 64 ->
  exists f_in m_in,
    f_in RSP = mem_get (amem s) (vcpu + 128) /\
    holds GeneralRegisters_layout m_in vcpu (areg s) /\
    let m_out := snd (handler (f_in, m_in)) in
    let s' := exec (vmx_exit handler) s in
    areg s' RSP = vcpu + 128 /\ amem s' = m_out /\
    forall k r, GeneralRegisters_layout !! k = Some (Some r) ->
      areg s' r = mem_get m_out (vcpu + 8 * Z.of_nat k).
Proof.
  intros Habi Hrsp H0 Hv. destruct (exec_save s vcpu) as (s1 & Hs1 & H1 & H2 & _ & H4 & H5); [done..|lia|].
  destruct (vmx_call_handler handler s1 vcpu) as (f_in & s2 & Hs2 & Hf & Hsp & Hm2); [done..|].
  rewrite H5 in Hf by lia.
  destruct (exec_restore s2 vcpu) as (s3 & Hs3 & E1 & E2 & _ & E4); [done|lia|lia|].
  exists f_in, (amem s1). do 2 (split; [done|]).
  assert (exec (vmx_exit handler) s = s3) as -> by (unfold vmx_exit; by rewrite !exec_app, Hs1, Hs2).
  rewrite Hm2 in E2, E4. done.
Qed.

Lemma return_prologue a b g s linux_rsp linux_rip regs :
  areg s a = linux_rsp -> areg s b = linux_rip -> areg s g = regs ->
  RSP ∉ [a; b; g] -> g <> RCX -> 8 <= linux_rsp < 2 ^ 64 -> 0 <= regs -> regs + 144 < 2 ^ 64 ->
  exists s', exec [Mov RSP a; Push b; Mov RCX RSP; Mov RSP g; Store RSP GeneralRegisters_size RCX] s = s' /\
    areg s' RSP = regs /\
    amem s' = mem_set (mem_set (amem s) (linux_rsp - 8) linux_rip) (regs + 128) (linux_rsp - 8).
Proof.
  intros Ha Hb Hg Hops Hrcx Hrsp H0 Hregs.
  apply not_elem_of_cons in Hops as [_ Hops]. apply not_elem_of_cons in Hops as [Hb' Hops].
  apply not_elem_of_cons in Hops as [Hg' _]. apply not_eq_sym in Hb', Hg'.
  eexists. split; [reflexivity|]. run. rewrite Ha, Hb, Hg.
  change GeneralRegisters_size with 128. unfold sub64, add64. nowrap. done.
Qed.

(** [return_to_linux] with its operands in three registers: it resumes Linux
    at the saved RIP with the saved RSP and the general registers of
    [guest_regs], provided the compiler kept [guest_regs] out of RCX. *)
Theorem return_to_linux_resumes a b g s linux_rsp linux_rip regs :
  areg s a = linux_rsp -> areg s b = linux_rip -> areg s g = regs ->
  RSP ∉ [a; b; g] -> g <> RCX ->
  8 <= linux_rsp < 2 ^ 64 -> 0 <= regs -> regs + 144 < 2 ^ 64 ->
  linux_rsp - 8 < regs \/ regs + 136 <= linux_rsp - 8 ->
  let s' := exec (return_to_linux a b g) s in
  arip s' = linux_rip /\ areg s' RSP = linux_rsp /\
  forall k r, GeneralRegisters_layout !! k = Some (Some r) ->
    areg s' r = mem_get (amem s) (regs + 8 * Z.of_nat k).
Proof.
  intros Ha Hb Hg Hops Hrcx Hrsp H0 Hregs Hdis. cbv zeta.
  destruct (return_prologue a b g s linux_rsp linux_rip regs) as (s1 & Hs1 & H1 & Hm1); [done..|].
  destruct (exec_restore s1 regs) as (s2 & Hs2 & E1 & E2 & E3 & E4); [done|lia|lia|].
  unfold return_to_linux. rewrite !exec_app, Hs1, Hs2. run. rewrite E1, E2, Hm1.
  rewrite mem_get_set_eq, mem_get_set_ne, mem_get_set_eq by lia. split_and!; [done| |].
  - unfold add64. nowrap. lia.
  - intros k r Hk. assert (r <> RSP).
    { intros ->. apply layout_no_rsp, list_elem_of_lookup. by exists k. }
    assert (Z.of_nat k < 16). { apply lookup_lt_Some in Hk. simpl in Hk. lia. }
    rewrite !set_reg_ne by done. rewrite (E4 _ _ Hk), Hm1. rewrite !mem_get_set_ne by lia. done.
Qed.

(** With [guest_regs] in RCX the operand is overwritten before it is used. *)
Lemma return_to_linux_rcx_clobbered a b s :
  a <> RCX -> b <> RCX -> b <> RSP -> 8 <= areg s a < 2 ^ 64 ->
  areg (exec [Mov RSP a; Push b; Mov RCX RSP; Mov RSP RCX] s) RSP = areg s a - 8.
Proof. intros Ha Hb Hb' Hr. run. unfold sub64. by nowrap. Qed.

(** ** The entry from the Linux driver *)

(** The callee-saved registers as [arch_entry] leaves them above the slot of
    GS_BASE, which [switch_stack] fills. *)
Definition linux_frame : list (option Reg) :=
  [Some R15; Some R14; Some R13; Some R12; Some RBX; Some RBP].

Lemma linux_frame_no_rsp : Some RSP ∉ linux_frame.
Proof. by apply (bool_decide_unpack _). Qed.

Lemma exec_linux_save s rsp :
  areg s RSP = rsp -> 56 <= rsp < 2 ^ 64 ->
  exists s', exec arch_entry_save s = s' /\
    areg s' RDI = rsp - 56 /\ areg s' RSP = rsp - 56 /\
    holds linux_frame (amem s') (rsp - 48) (areg s) /\ mem_get (amem s') rsp = mem_get (amem s) rsp.
Proof.
  intros Hsp H0. change arch_entry_save with (map push_slot (rev linux_frame) ++ [PushImm 0; Mov RDI RSP]).
  rewrite exec_app. eexists. split; [reflexivity|].
  destruct (exec_push linux_frame s linux_frame_no_rsp) as (H1 & H2 & H3 & H4 & H5);
    [ simpl length; lia |]. cbv zeta in *.
  generalize dependent (exec (map push_slot (rev linux_frame)) s). intros s1 H1 H2 H3 H4 H5.
  replace (areg s RSP - 8 * Z.of_nat (length linux_frame)) with (rsp - 48) in * by (simpl length; lia).
  run. rewrite H1. unfold sub64. nowrap. replace (rsp - 48 - 8) with (rsp - 56) by lia.
  split_and!; try done.
  - intros k r Hk. rewrite mem_get_set_ne by lia. by apply H4.
  - rewrite mem_get_set_ne by lia. apply H5. lia.
Qed.

Lemma exec_linux_return s sp f ra :
  areg s RSP = sp -> 0 <= sp -> sp + 64 < 2 ^ 64 ->
  holds linux_frame (amem s) (sp + 8) f -> mem_get (amem s) (sp + 56) = ra ->
  exists s', exec arch_entry_return s = s' /\ arip s' = ra /\ areg s' RSP = sp + 64 /\
    areg s' RAX = areg s RAX /\ forall r, Some r ∈ linux_frame -> areg s' r = f r.
Proof.
  intros Hsp H0 Hhi Hf Hra.
  change arch_entry_return with ([Pop R15] ++ map pop_slot linux_frame ++ [Ret]).
  rewrite !exec_app. eexists. split; [reflexivity|].
  assert (exists s1, exec [Pop R15] s = s1 /\ areg s1 RSP = sp + 8 /\ amem s1 = amem s /\ areg s1 RAX = areg s RAX)
    as (s1 & -> & Hsp1 & Hm1 & Ha1).
  { eexists. split; [reflexivity|]. run. rewrite Hsp. unfold add64. by nowrap. }
  destruct (exec_pop linux_frame s1 linux_frame_no_rsp) as (H1 & H2 & H3 & H4 & H5);
    [ by apply (bool_decide_unpack _) | lia | simpl length; lia |].
  cbv zeta in *. specialize (H5 RAX ltac:(done) ltac:(by apply (bool_decide_unpack _))).
  generalize dependent (exec (map pop_slot linux_frame) s1). intros s2 H1 H2 H3 H4 H5.
  replace (areg s1 RSP + 8 * Z.of_nat (length linux_frame)) with (sp + 56) in * by (simpl length; lia).
  run. rewrite H1, H2, Hm1. unfold add64. nowrap. split_and!; [done|lia|congruence|].
  intros r Hr. rewrite set_reg_ne.
  - apply list_elem_of_lookup in Hr as [k Hk]. rewrite (H4 k r Hk), Hm1, Hsp1. by apply Hf.
  - intros ->. by apply linux_frame_no_rsp.
Qed.

(** [arch_entry] passes the address of the frame of callee-saved registers
    in RDI, 56 bytes below the return address; if the stack above the GS slot
    is intact when the call returns, the driver gets its callee-saved
    registers, its stack and its return address back. *)
Theorem arch_entry_round s rsp :
  areg s RSP = rsp -> 56 <= rsp -> rsp + 8 < 2 ^ 64 ->
  let s1 := exec arch_entry_save s in
  let sp := rsp - 56 in
  areg s1 RDI = sp /\ areg s1 RSP = sp /\ holds linux_frame (amem s1) (sp + 8) (areg s) /\
  mem_get (amem s1) (sp + 56) = mem_get (amem s) rsp /\
  forall s2, areg s2 RSP = sp ->
    (forall k, 0 < k <= 7 -> mem_get (amem s2) (sp + 8 * k) = mem_get (amem s1) (sp + 8 * k)) ->
    let s3 := exec arch_entry_return s2 in
    arip s3 = mem_get (amem s) rsp /\ areg s3 RSP = rsp + 8 /\
    forall r, r ∈ [RBX; RBP; R12; R13; R14; R15] -> areg s3 r = areg s r.
Proof.
  intros Hsp H0 Hhi. cbv zeta.
  destruct (exec_linux_save s rsp Hsp) as (s1 & -> & H1 & H2 & H3 & H4); [lia|].
  replace (rsp - 56 + 8) with (rsp - 48) by lia. replace (rsp - 56 + 56) with rsp by lia.
  do 4 (split; [done|]). intros s2 Hsp2 Hm.
  destruct (exec_linux_return s2 (rsp - 56) (areg s) (mem_get (amem s) rsp)) as (s3 & -> & E1 & E2 & _ & E3);
    [done|lia|lia| | |].
  - intros k r Hk. rewrite <- (H3 k r Hk). apply lookup_lt_Some in Hk. simpl in Hk.
    specialize (Hm (Z.of_nat k + 1) ltac:(lia)).
    replace (rsp - 56 + 8 + 8 * Z.of_nat k) with (rsp - 56 + 8 * (Z.of_nat k + 1)) by lia.
    rewrite Hm. f_equal. lia.
  - rewrite <- H4. replace (rsp - 56 + 56) with (rsp - 56 + 8 * 7) by lia. rewrite Hm by lia. f_equal. lia.
  - split_and!; [done|lia|]. intros r Hr. apply E3.
    repeat (apply elem_of_cons in Hr as [->|Hr]); [..|by apply not_elem_of_nil in Hr];
      by apply (bool_decide_unpack _).
Qed.

(** ** The theorems on a concrete machine *)
Section Samples.
(** Every register holds 0x1000; the stack pointer is [sp]. *)
Definition sample_state (sp : Z) : State := mkState (set_reg RSP sp (fun _ => 0x1000)) ∅ 0x400000.

(** A handler that changes the guest's RCX in the saved registers. *)
Definition sample_handler (x : (Reg -> Z) * gmap Z Z) : (Reg -> Z) * gmap Z Z :=
  (set_reg RAX 0 (fst x), mem_set (snd x) (0x8000 + 8) 42).

Lemma sample_handler_abi : abi sample_handler.
Proof.
  intros x r Hr. unfold sample_handler. cbn [fst]. apply set_reg_ne. intros ->.
  repeat (apply elem_of_cons in Hr as [Hr|Hr]; [discriminate|]). by apply not_elem_of_nil in Hr.
Qed.

Lemma svm_run_switches_witness :
  exists f_in m_in,
    f_in RDI = 0 /\ f_in RSP = 0 /\
    holds GeneralRegisters_layout m_in 0x8000 (areg (sample_state 0x8080)) /\
    let m_out := snd (sample_handler (f_in, m_in)) in
    let s' := exec (svm_run sample_handler) (sample_state 0x8080) in
    areg s' RSP = 0x8080 /\ areg s' RAX = 0x1000 /\
    amem s' = mem_set m_out 0x8000 0x1000 /\
    forall k r, GeneralRegisters_layout !! k = Some (Some r) -> r <> RAX ->
      areg s' r = mem_get m_out (0x8000 + 8 * Z.of_nat k).
Proof.
  refine (svm_run_switches sample_handler (sample_state 0x8080) 0x8000 sample_handler_abi _ _ _).
  - reflexivity.
  - lia.
  - lia.
Defined.

Lemma return_to_linux_resumes_witness :
  let s := mkState (set_reg RDI 0x8000 (set_reg RSI 0x400100 (set_reg RDX 0x9000 (fun _ => 0)))) ∅ 0 in
  let s' := exec (return_to_linux RDX RSI RDI) s in
  arip s' = 0x400100 /\ areg s' RSP = 0x9000 /\
  forall k r, GeneralRegisters_layout !! k = Some (Some r) ->
    areg s' r = mem_get (amem s) (0x8000 + 8 * Z.of_nat k).
Proof.
  refine (return_to_linux_resumes RDX RSI RDI _ 0x9000 0x400100 0x8000 _ _ _ _ _ _ _ _ _).
  - reflexivity.
  - reflexivity.
  - reflexivity.
  - rewrite !not_elem_of_cons. repeat split; try discriminate. apply not_elem_of_nil.
  - discriminate.
  - lia.
  - lia.
  - lia.
  - right. lia.
Defined.
End Samples.
