(* ===== verification/Exception.v ===== *)
(** * Exceptions in the hypervisor

    [src/build.rs] (the 256 entry stubs and the table [exception_entries] it
    generates), [src/src/arch/x86_64/exception.rs] ([TrapFrame],
    [exception_handler], [common_exception_entry]) and [IdtStruct] of
    [src/src/arch/x86_64/tables.rs].

    The processor's part, the delivery of an exception and IRETQ in 64-bit
    mode, is written out ([deliver], [iretq]). *)

From S2P Require Import Prelude PhysMem Asm.

(** ** [ExceptionType] *)
Module ExceptionType.
Definition DivideError : Z := 0.
Definition Debug : Z := 1.
Definition NonMaskableInterrupt : Z := 2.
Definition Breakpoint : Z := 3.
Definition Overflow : Z := 4.
Definition BoundRangeExceeded : Z := 5.
Definition InvalidOpcode : Z := 6.
Definition DeviceNotAvailable : Z := 7.
Definition DoubleFault : Z := 8.
Definition CoprocessorSegmentOverrun : Z := 9.
Definition InvalidTSS : Z := 10.
Definition SegmentNotPresent : Z := 11.
Definition StackSegmentFault : Z := 12.
Definition GeneralProtectionFault : Z := 13.
Definition PageFault : Z := 14.
Definition FloatingPointException : Z := 16.
Definition AlignmentCheck : Z := 17.
Definition MachineCheck : Z := 18.
Definition SIMDFloatingPointException : Z := 19.
Definition VirtualizationException : Z := 20.
Definition SecurityException : Z := 30.
Definition IrqStart : Z := 32.
Definition IrqEnd : Z := 255.
End ExceptionType.

(** [struct TrapFrame] as it lies at address [sp]: the general registers, then
    seven words. *)
Record TrapFrame : Type := mkTrapFrame {
  tf_regs : Reg -> Z;
  tf_num : Z; tf_error_code : Z; tf_rip : Z; tf_cs : Z; tf_rflags : Z; tf_rsp : Z; tf_ss : Z;
}.

Definition frame_at (m : gmap Z Z) (sp : Z) (f : TrapFrame) : Prop :=
  holds GeneralRegisters_layout m sp (tf_regs f) /\
  [mem_get m (sp + 128); mem_get m (sp + 136); mem_get m (sp + 144); mem_get m (sp + 152);
   mem_get m (sp + 160); mem_get m (sp + 168); mem_get m (sp + 176)] =
  [tf_num f; tf_error_code f; tf_rip f; tf_cs f; tf_rflags f; tf_rsp f; tf_ss f].

(** [exception_handler]: [handle_nmi] logs, [handle_page_fault] and the other
    arms panic. *)
Definition handle_nmi {S E} : M S E unit := ret tt.
Definition handle_page_fault {S E} : M S E unit := panic.

Definition exception_handler {S E} (num : Z) : M S E unit :=
  let num := wrap 8 num in
  if num =? ExceptionType.NonMaskableInterrupt then handle_nmi
  else if num =? ExceptionType.PageFault then handle_page_fault
  else if (ExceptionType.IrqStart <=? num) && (num <=? ExceptionType.IrqEnd) then panic
  else panic.

(** ** Entry stubs *)

(** [gen_vector_asm]: the vectors for which the stub does not push a 0. *)
Definition stub_error_code (i : Z) : bool := (i =? 8) || ((10 <=? i) && (i <=? 14)) || (i =? 17).

Definition entry_stub (i : Z) : list Instr :=
  (if negb (stub_error_code i) then [PushImm 0] else []) ++ [PushImm i].

Definition common_exception_entry (handler : (Reg -> Z) * gmap Z Z -> (Reg -> Z) * gmap Z Z) : list Instr :=
  save_regs_to_stack ++ [Mov RDI RSP; Call handler] ++ restore_regs_from_stack ++ [Add_rsp 16].

(** [exception_entries] and [IdtStruct::init]: the table the processor indexes
    has, for each vector, the stub of that vector. *)
Definition exception_entries : list (list Instr) := map entry_stub (seqZ 0 256).

Definition IdtStruct_init (entries : list (list Instr)) (table : list (list Instr)) : list (list Instr) :=
  fold_left (fun t i => match entries !! i with Some e => <[i := e]> t | None => t end) (seq 0 256) table.

(** ** The processor *)

(** Delivery of an exception on the current stack; the error code is pushed for
    some vectors only. *)
Definition align16 (x : Z) : Z := x - x mod 16.
Definition deliver (err : option Z) (cs rflags ss : Z) (s : State) : State :=
  let s1 := push (arip s) (push cs (push rflags (push (areg s RSP) (push ss (set_rsp (align16 (areg s RSP)) s))))) in
  match err with Some e => push e s1 | None => s1 end.

(** IRETQ pops RIP, CS, RFLAGS, RSP and SS. *)
Definition iretq (s : State) : State * (Z * Z * Z) :=
  let w i := mem_get (amem s) (areg s RSP + 8 * i) in
  (mkState (set_reg RSP (w 3) (areg s)) (amem s) (w 0), (w 1, w 2, w 4)).

Definition has_error (err : option Z) : bool := match err with Some _ => true | None => false end.

(** The vectors for which the processor pushes an error code (Intel SDM 3A,
    6.15, and AMD APM 2, 8.2): #DF, #TS, #NP, #SS, #GP, #PF, #AC, #CP, #VC and
    #SX. *)
Definition cpu_error_vectors : list Z := [8; 10; 11; 12; 13; 14; 17; 21; 29; 30].
Definition cpu_error_code (v : Z) : bool := bool_decide (v ∈ cpu_error_vectors).

(** ** Lemmas *)
Lemma push_ok v s :
  8 <= areg s RSP < 2 ^ 64 ->
  exists s', push v s = s' /\ areg s' RSP = areg s RSP - 8 /\ (forall r, r <> RSP -> areg s' r = areg s r) /\
    arip s' = arip s /\ mem_get (amem s') (areg s RSP - 8) = v /\
    (forall a, a <> areg s RSP - 8 -> mem_get (amem s') a = mem_get (amem s) a).
Proof.
  intros Hsp. eexists. split; [reflexivity|]. unfold push. cbn [areg amem arip].
  assert (sub64 (areg s RSP) 8 = areg s RSP - 8) as -> by (unfold sub64; nowrap; lia). split_and!; try done.
  - intros r Hr. by apply set_reg_ne.
  - apply mem_get_set_eq.
  - intros a Ha. by apply mem_get_set_ne.
Qed.

(** A sequence of pushes writes the words downwards. *)
Definition pushes (l : list Z) (s : State) : State := fold_left (fun s v => push v s) l s.

Lemma pushes_ok l s :
  8 * Z.of_nat (length l) <= areg s RSP < 2 ^ 64 ->
  exists s', pushes l s = s' /\ areg s' RSP = areg s RSP - 8 * Z.of_nat (length l) /\
    (forall r, r <> RSP -> areg s' r = areg s r) /\ arip s' = arip s /\
    (forall k v, l !! k = Some v -> mem_get (amem s') (areg s RSP - 8 * Z.of_nat (S k)) = v) /\
    (forall a, areg s RSP <= a -> mem_get (amem s') a = mem_get (amem s) a).
Proof.
  revert s. induction l as [|v l IH]; intros s Hsp; simpl length in Hsp.
  - exists s. split; [done|]. split_and!; try done. simpl. lia.
  - destruct (push_ok v s) as (s1 & H1 & Hr1 & Hg1 & Hi1 & Hv & Hm1); [lia|].
    destruct (IH s1) as (s2 & H2 & Hr2 & Hg2 & Hi2 & Hk2 & Hm2); [lia|].
    exists s2. split; [simpl; by rewrite H1|]. split_and!.
    + rewrite Hr2, Hr1. simpl length. lia.
    + intros r Hr. by rewrite Hg2, Hg1.
    + by rewrite Hi2.
    + intros [|k] x Hx; simpl in Hx.
      * injection Hx as ->. rewrite Hm2 by lia. by replace (areg s RSP - 8 * Z.of_nat 1) with (areg s RSP - 8) by lia.
      * rewrite <- (Hk2 k x Hx), Hr1. f_equal. lia.
    + intros a Ha. rewrite Hm2, Hm1 by lia. done.
Qed.

(** Delivery and stub together: the words below the aligned stack pointer, an
    error code of the processor's and a 0 of the stub's each where there is one. *)
Definition entry_words (v : Z) (err : option Z) (cs rflags ss : Z) (s : State) : list Z :=
  [v] ++ (if stub_error_code v then [] else [0]) ++ option_list err ++ [arip s; cs; rflags; areg s RSP; ss].

Lemma entry_pushes v (err : option Z) cs rflags ss s :
  exec (entry_stub v) (deliver err cs rflags ss s) =
  pushes (reverse (entry_words v err cs rflags ss s)) (set_rsp (align16 (areg s RSP)) s).
Proof. unfold entry_stub, deliver, entry_words. by destruct (stub_error_code v), err. Qed.

(** The vectors 21, 29 and 30 are those where stub and processor disagree. *)
Definition displaced (v : Z) : bool := bool_decide (v ∈ [21; 29; 30]).

Lemma stub_agrees v :
  0 <= v < 256 -> stub_error_code v = if displaced v then false else cpu_error_code v.
Proof.
  intros Hv. assert (Forall (fun v => stub_error_code v = if displaced v then false else cpu_error_code v) (seqZ 0 256))
    as Hall by (apply (bool_decide_unpack _); vm_compute; exact I).
  rewrite Forall_forall in Hall. apply Hall, elem_of_seqZ. lia.
Qed.

Lemma displaced_cpu v : displaced v = true -> cpu_error_code v = true.
Proof.
  unfold displaced, cpu_error_code. rewrite !bool_decide_eq_true.
  intros Hv. unfold cpu_error_vectors. rewrite !elem_of_cons in *. tauto.
Qed.

Lemma align16_bounds x : 0 <= x -> x - 15 <= align16 x <= x /\ 0 <= align16 x.
Proof. unfold align16. intros. euclid. Qed.

(** The stub of vector [v] is in slot [v] of the table. *)
Lemma fold_insert_length {B} (g : nat -> option B) l (t : list B) :
  length (fold_left (fun t i => match g i with Some e => <[i := e]> t | None => t end) l t) = length t.
Proof.
  revert t. induction l as [|i l IH]; intros t; [done|]. simpl. rewrite IH.
  destruct (g i); [apply length_insert|done].
Qed.

Lemma fold_insert_lookup {B} (g : nat -> option B) l (t : list B) k e :
  k ∈ l -> (k < length t)%nat -> g k = Some e ->
  fold_left (fun t i => match g i with Some e => <[i := e]> t | None => t end) l t !! k = Some e.
Proof.
  intros Hin Hlen Hg. revert t Hlen. induction l as [|i l IH] using rev_ind; intros t Hlen; [by apply not_elem_of_nil in Hin|].
  rewrite fold_left_app. simpl. destruct (decide (k = i)) as [->|Hne].
  - rewrite Hg. apply list_lookup_insert_eq. by rewrite fold_insert_length.
  - apply elem_of_app in Hin as [Hin|Hin]; [|by apply list_elem_of_singleton in Hin].
    destruct (g i); [rewrite list_lookup_insert_ne by done|]; by apply IH.
Qed.

(** Every vector of the IDT leads to its own stub, whatever the table held
    before. *)
Theorem idt_vectors table v :
  length table = 256%nat -> 0 <= v < 256 ->
  IdtStruct_init exception_entries table !! Z.to_nat v = Some (entry_stub v).
Proof.
  intros Hl Hv. apply fold_insert_lookup; [apply elem_of_seq; lia | lia |].
  unfold exception_entries. rewrite list_lookup_fmap, lookup_seqZ_lt by lia. simpl. f_equal. f_equal. lia.
Qed.

(** The handler sees the frame and may not change it: it takes [&TrapFrame]. *)
Definition keeps_frame (handler : (Reg -> Z) * gmap Z Z -> (Reg -> Z) * gmap Z Z) (sp : Z) : Prop :=
  forall x a, sp <= a < sp + 184 -> mem_get (snd (handler x)) a = mem_get (snd x) a.

(** Where the stack pointer is when the handler is called: below seven words and
    the registers, one word lower for a displaced frame. *)
Definition trap_sp (v : Z) (s : State) : Z := align16 (areg s RSP) - (if displaced v then 192 else 184).

Lemma call_handler handler s :
  abi handler ->
  exists f_in s', exec [Mov RDI RSP; Call handler] s = s' /\ f_in RDI = areg s RSP /\ f_in RSP = areg s RSP /\
    areg s' RSP = areg s RSP /\ amem s' = snd (handler (f_in, amem s)).
Proof.
  intros Habi. rewrite exec_cons. cbn [step areg amem arip]. set (f_in := set_reg RDI _ _). exists f_in.
  pose proof (Habi (f_in, amem s) RSP ltac:(rewrite !elem_of_cons; tauto)) as Hsp.
  unfold exec. cbn [fold_left step areg amem]. destruct (handler (f_in, amem s)) as [f m] eqn:Hh.
  cbn [fst snd] in *. eexists. split; [reflexivity|]. unfold f_in in *. rewrite set_reg_ne in Hsp by done.
  by rewrite set_reg_eq, set_reg_ne.
Qed.

(** The registers of the frame. *)
Lemma layout_reg r : r <> RSP -> exists k, GeneralRegisters_layout !! k = Some (Some r) /\ (k < 16)%nat.
Proof.
  intros Hr. assert (Some r ∈ GeneralRegisters_layout) as [k Hk]%list_elem_of_lookup by (destruct r; try done; by apply (bool_decide_unpack _)).
  exists k. split; [done|]. by apply lookup_lt_Some in Hk.
Qed.

Lemma layout_not_rsp k r : GeneralRegisters_layout !! k = Some (Some r) -> r <> RSP.
Proof. intros Hk ->. apply layout_no_rsp, list_elem_of_lookup. by exists k. Qed.

(** [ADD RSP, 16]. *)
Lemma exec_add_rsp s : areg s RSP + 16 < 2 ^ 64 -> 0 <= areg s RSP ->
  areg (exec [Add_rsp 16] s) RSP = areg s RSP + 16 /\ (forall r, r <> RSP -> areg (exec [Add_rsp 16] s) r = areg s r) /\
  amem (exec [Add_rsp 16] s) = amem s.
Proof.
  intros H1 H2. unfold exec, set_rsp. cbn [fold_left step areg amem]. unfold set_rsp. cbn [areg amem]. split_and!; [|by intros r Hr; rewrite set_reg_ne|done].
  rewrite set_reg_eq. unfold add64. nowrap. lia.
Qed.

(** From the words on the stack to the handler and back to the state before
    IRETQ: the handler gets the registers and the words, and when it returns
    the registers are restored and the words are still there. *)
Lemma trap_round handler (ws : list Z) sp s :
  abi handler -> keeps_frame handler sp -> (7 <= length ws <= 8)%nat -> 256 <= areg s RSP < 2 ^ 64 ->
  sp = align16 (areg s RSP) - 128 - 8 * Z.of_nat (length ws) ->
  exists f_in m_in s5,
    f_in RDI = sp /\ holds GeneralRegisters_layout m_in sp (areg s) /\
    (forall k x, ws !! k = Some x -> mem_get m_in (sp + 128 + 8 * Z.of_nat k) = x) /\
    exec (common_exception_entry handler) (pushes (reverse ws) (set_rsp (align16 (areg s RSP)) s)) = s5 /\
    areg s5 RSP = sp + 144 /\ (forall r, r <> RSP -> areg s5 r = areg s r) /\
    amem s5 = snd (handler (f_in, m_in)) /\
    (forall k x, (k < 7)%nat -> ws !! k = Some x -> mem_get (amem s5) (sp + 128 + 8 * Z.of_nat k) = x).
Proof.
  intros Habi Hkeep Hlen Hsp Heq. pose proof (align16_bounds (areg s RSP) ltac:(lia)) as [Hal Hal0].
  unfold common_exception_entry. rewrite !exec_app.
  destruct (pushes_ok (reverse ws) (set_rsp (align16 (areg s RSP)) s))
    as (s1 & -> & Hr1 & Hg1 & Hi1 & Hw & _); [unfold set_rsp; cbn [areg]; run; rewrite length_reverse; lia|].
  unfold set_rsp in Hr1, Hg1, Hw. cbn [areg amem arip] in Hr1, Hg1, Hw. rewrite set_reg_eq in Hr1, Hw. rewrite length_reverse in Hr1.
  destruct (exec_save s1 sp) as (s2 & -> & Hr2 & Hg2 & _ & Hh2 & Hm2); [lia..|].
  destruct (call_handler handler s2 Habi) as (f_in & s3 & -> & Hf1 & _ & Hr3 & Hm3).
  destruct (exec_restore s3 sp) as (s4 & -> & Hr4 & Hm4 & _ & Hg4); [congruence|lia..|].
  assert (forall k x, ws !! k = Some x -> mem_get (amem s2) (sp + 128 + 8 * Z.of_nat k) = x) as Hword.
  { intros k x Hk. assert ((k < length ws)%nat) by (by apply lookup_lt_Some in Hk).
    rewrite Hm2 by lia. rewrite <- (Hw (length ws - S k)%nat x); [f_equal; lia|].
    rewrite reverse_lookup by lia. rewrite <- Hk. f_equal. lia. }
  assert (holds GeneralRegisters_layout (amem s2) sp (areg s)) as Hh.
  { intros k r Hk. rewrite (Hh2 k r Hk). pose proof (layout_not_rsp k r Hk).
    rewrite Hg1 by done. by apply set_reg_ne. }
  destruct (exec_add_rsp s4) as (Hr5 & Hg5 & Hm5); [lia..|].
  exists f_in, (amem s2), (exec [Add_rsp 16] s4). split_and!; try done; [congruence|lia| |congruence|].
  - intros r Hr. rewrite Hg5 by done. destruct (layout_reg r Hr) as (k & Hk & Hk16).
    rewrite (Hg4 k r Hk), Hm3, Hkeep by lia. by apply Hh.
  - intros k x Hk7 Hk. rewrite Hm5, Hm4, Hm3, Hkeep by lia. by apply Hword.
Qed.

(** IRETQ takes the words 2 to 6. *)
Lemma iretq_words sp s (rip cs rflags rsp ss : Z) :
  areg s RSP = sp + 144 ->
  (forall k x, [rip; cs; rflags; rsp; ss] !! k = Some x -> mem_get (amem s) (sp + 144 + 8 * Z.of_nat k) = x) ->
  iretq s = (mkState (set_reg RSP rsp (areg s)) (amem s) rip, (cs, rflags, ss)).
Proof.
  intros Hr Hw. unfold iretq. rewrite Hr.
  rewrite <- (Hw 0%nat rip eq_refl), <- (Hw 1%nat cs eq_refl), <- (Hw 2%nat rflags eq_refl),
    <- (Hw 3%nat rsp eq_refl), <- (Hw 4%nat ss eq_refl).
  repeat f_equal; lia.
Qed.

(** What the seven words of the frame are, and what IRETQ loads, in terms of the
    words on the stack. *)
Lemma trap_frame handler v (err : option Z) cs rflags ss s n e w0 w1 w2 w3 w4 rest :
  entry_words v err cs rflags ss s = [n; e; w0; w1; w2; w3; w4] ++ rest ->
  length rest = (if displaced v then 1 else 0)%nat ->
  abi handler -> keeps_frame handler (trap_sp v s) -> 256 <= areg s RSP < 2 ^ 64 ->
  exists f_in m_in,
    f_in RDI = trap_sp v s /\ frame_at m_in (trap_sp v s) (mkTrapFrame (areg s) n e w0 w1 w2 w3 w4) /\
    exists f, iretq (exec (entry_stub v ++ common_exception_entry handler) (deliver err cs rflags ss s)) =
      (mkState (set_reg RSP w3 f) (snd (handler (f_in, m_in))) w0, (w1, w2, w4)) /\
    (forall r, r <> RSP -> f r = areg s r).
Proof.
  intros Hws Hrest Habi Hkeep Hsp. rewrite exec_app, entry_pushes, Hws.
  destruct (trap_round handler ([n; e; w0; w1; w2; w3; w4] ++ rest) (trap_sp v s) s)
    as (f_in & m_in & s5 & Hf & Hh & Hm & -> & Hr5 & Hg5 & Hm5 & Hw5); try done.
  { rewrite length_app, Hrest. simpl length. destruct (displaced v); lia. }
  { unfold trap_sp. rewrite length_app, Hrest. simpl length. destruct (displaced v); lia. }
  exists f_in, m_in. split; [done|]. split.
  - split; [exact Hh|]. cbn [tf_num tf_error_code tf_rip tf_cs tf_rflags tf_rsp tf_ss].
    rewrite <- (Hm 0%nat n eq_refl), <- (Hm 1%nat e eq_refl), <- (Hm 2%nat w0 eq_refl), <- (Hm 3%nat w1 eq_refl),
      <- (Hm 4%nat w2 eq_refl), <- (Hm 5%nat w3 eq_refl), <- (Hm 6%nat w4 eq_refl).
    do 6 (f_equal; [f_equal; lia|]). do 2 f_equal. lia.
  - exists (areg s5). split; [|done]. rewrite <- Hm5. apply (iretq_words (trap_sp v s)); [done|].
    intros k x Hk. assert ((k < 5)%nat) by (by apply lookup_lt_Some in Hk).
    rewrite <- (Hw5 (2 + k)%nat x); [f_equal; lia|lia|]. rewrite lookup_app_l by (simpl; lia). exact Hk.
Qed.

(** C36. An exception or interrupt inside the hypervisor, for each of the 256
    vectors, with an error code exactly where the processor pushes one. For
    every vector except 21, 29 and 30 the handler is called with a pointer to a
    well-formed [TrapFrame] holding the interrupted registers, the vector and
    the error code (0 where the processor has none), and when it returns the
    interrupted code goes on with all its registers, flags and segments. For
    21 (#CP), 29 (#VC) and 30 (#SX) the stub pushes a 0 on top of the
    processor's error code: the frame is displaced by one word (error code 0,
    the real error code in the place of RIP, RIP in that of CS and so on), and
    a handler that returned would resume at the error code. *)
Theorem exception_round handler v (err : option Z) cs rflags ss s :
  0 <= v < 256 -> has_error err = cpu_error_code v ->
  abi handler -> keeps_frame handler (trap_sp v s) -> 256 <= areg s RSP < 2 ^ 64 ->
  exists f_in m_in,
    f_in RDI = trap_sp v s /\
    let '(s', sel) := iretq (exec (entry_stub v ++ common_exception_entry handler) (deliver err cs rflags ss s)) in
    amem s' = snd (handler (f_in, m_in)) /\ (forall r, r <> RSP -> areg s' r = areg s r) /\
    if bool_decide (v ∈ [21; 29; 30]) then
      exists e, err = Some e /\
        frame_at m_in (trap_sp v s) (mkTrapFrame (areg s) v 0 e (arip s) cs rflags (areg s RSP)) /\
        arip s' = e /\ sel = (arip s, cs, areg s RSP) /\ areg s' RSP = rflags
    else
      frame_at m_in (trap_sp v s) (mkTrapFrame (areg s) v (default 0 err) (arip s) cs rflags (areg s RSP) ss) /\
      arip s' = arip s /\ sel = (cs, rflags, ss) /\ areg s' RSP = areg s RSP.
Proof.
  intros Hv He Habi Hkeep Hsp. pose proof (stub_agrees v Hv) as Hst. fold (displaced v).
  destruct (displaced v) eqn:Hd.
  - rewrite (displaced_cpu v Hd) in He. destruct err as [e|]; [|done].
    destruct (trap_frame handler v (Some e) cs rflags ss s v 0 e (arip s) cs rflags (areg s RSP) [ss])
      as (f_in & m_in & Hf & Hfr & f & Hi & Hg); try done; [unfold entry_words; by rewrite Hst|by rewrite Hd|].
    exists f_in, m_in. split; [done|]. rewrite Hi. cbn [areg amem arip]. split_and!; [done| |].
    + intros r Hr. rewrite set_reg_ne by done. by apply Hg.
    + exists e. by rewrite set_reg_eq.
  - destruct (trap_frame handler v err cs rflags ss s v (default 0 err) (arip s) cs rflags (areg s RSP) ss [])
      as (f_in & m_in & Hf & Hfr & f & Hi & Hg); try done.
    { unfold entry_words. rewrite Hst, <- He. by destruct err. }
    { by rewrite Hd. }
    exists f_in, m_in. split; [done|]. rewrite Hi. cbn [areg amem arip]. rewrite set_reg_eq. split_and!; try done.
    intros r Hr. rewrite set_reg_ne by done. by apply Hg.
Qed.

(** A page fault with error code 2 at 0x401000, and a security exception (30)
    with error code 1: the first is resumed, the second goes on at address 1. *)
Lemma exception_round_witness :
  let s := mkState (set_reg RSP 0x9004 (fun _ => 7)) ∅ 0x401000 in
  let handler := fun x => x in
  (exists f_in m_in,
    f_in RDI = trap_sp 14 s /\
    let '(s', sel) := iretq (exec (entry_stub 14 ++ common_exception_entry handler) (deliver (Some 2) 8 0x202 0 s)) in
    amem s' = snd (handler (f_in, m_in)) /\ (forall r, r <> RSP -> areg s' r = areg s r) /\
    frame_at m_in (trap_sp 14 s) (mkTrapFrame (areg s) 14 2 (arip s) 8 0x202 (areg s RSP) 0) /\
    arip s' = arip s /\ sel = (8, 0x202, 0) /\ areg s' RSP = areg s RSP) /\
  (exists f_in m_in,
    f_in RDI = trap_sp 30 s /\
    let '(s', sel) := iretq (exec (entry_stub 30 ++ common_exception_entry handler) (deliver (Some 1) 8 0x202 0 s)) in
    amem s' = snd (handler (f_in, m_in)) /\ (forall r, r <> RSP -> areg s' r = areg s r) /\
    exists e, Some 1 = Some e /\
      frame_at m_in (trap_sp 30 s) (mkTrapFrame (areg s) 30 0 e (arip s) 8 0x202 (areg s RSP)) /\
      arip s' = e /\ sel = (arip s, 8, areg s RSP) /\ areg s' RSP = 0x202).
Proof.
  split.
  - refine (exception_round (fun x => x) 14 (Some 2) 8 0x202 0 _ _ _ _ _ _); [done..|split; [discriminate|reflexivity]].
  - refine (exception_round (fun x => x) 30 (Some 1) 8 0x202 0 _ _ _ _ _ _); [done..|split; [discriminate|reflexivity]].
Defined.
