(* ===== verification/Context.v ===== *)
(** * The context of Linux

    [src/src/arch/x86_64/context.rs]: [LinuxContext], [GeneralRegisters],
    [LinuxContext::load_from] and [LinuxContext::restore]. The assembly of
    [return_to_linux] is in [Asm]. *)

From S2P Require Import Prelude Crates HvError PhysMem X86 Segmentation.

Definition SAVED_LINUX_REGS : Z := 8.

Record LinuxContext : Type := mkLinux {
  l_rsp : Z; l_rip : Z;
  l_r15 : Z; l_r14 : Z; l_r13 : Z; l_r12 : Z; l_rbx : Z; l_rbp : Z;
  l_es : Segment; l_cs : Segment; l_ss : Segment; l_ds : Segment; l_fs : Segment; l_gs : Segment;
  l_tss : Segment;
  l_gdt : DescriptorTablePointer; l_idt : DescriptorTablePointer;
  l_cr0 : Z; l_cr3 : Z; l_cr4 : Z;
  l_efer : Z; l_star : Z; l_lstar : Z; l_cstar : Z; l_fmask : Z; l_kernel_gsbase : Z;
  l_pat : Z; l_mtrr_def_type : Z;
}.

Record GeneralRegisters : Type := mkRegs {
  rax : Z; rcx : Z; rdx : Z; rbx : Z; _unused_rsp : Z; rbp : Z; rsi : Z; rdi : Z;
  r8 : Z; r9 : Z; r10 : Z; r11 : Z; r12 : Z; r13 : Z; r14 : Z; r15 : Z;
}.

Definition regs_default : GeneralRegisters := mkRegs 0 0 0 0 0 0 0 0 0 0 0 0 0 0 0 0.

(** Assignments to the four registers the exit handlers change. *)
Definition with_abcd (a b c d : Z) (r : GeneralRegisters) : GeneralRegisters :=
  mkRegs a c d b (_unused_rsp r) (rbp r) (rsi r) (rdi r) (r8 r) (r9 r) (r10 r) (r11 r)
    (r12 r) (r13 r) (r14 r) (r15 r).
Definition with_rax (a : Z) (r : GeneralRegisters) : GeneralRegisters :=
  with_abcd a (rbx r) (rcx r) (rdx r) r.

(** [seg.base = b]. *)
Definition with_base (b : Z) (s : Segment) : Segment :=
  mkSegment (selector s) b (limit s) (access_rights s).
Definition with_selector (x : Z) (s : Segment) : Segment :=
  mkSegment x (base s) (limit s) (access_rights s).

Section Context_.
Context {bf : BitField} {xr : X86Regs} {xd : X86Desc}.

Definition load_from {E} (linux_sp : Z) : M Cpu E LinuxContext :=
  let* c := gets id in
  let regs i := mem_get (c_vmem c) (add64 linux_sp (8 * i)) in
  let gdt := gdt_sgdt c in
  let* fs := from_selector (c_fs c) gdt in
  let* gs := from_selector (c_gs c) gdt in
  let* es := from_selector (c_es c) gdt in
  let* cs := from_selector (c_cs c) gdt in
  let* ss := from_selector (c_ss c) gdt in
  let* ds := from_selector (c_ds c) gdt in
  let* tss := from_selector (c_tr c) gdt in
  ret {| l_rsp := add64 linux_sp (8 * SAVED_LINUX_REGS);
         l_r15 := regs 1; l_r14 := regs 2; l_r13 := regs 3; l_r12 := regs 4;
         l_rbx := regs 5; l_rbp := regs 6; l_rip := regs 7;
         l_es := es; l_cs := cs; l_ss := ss; l_ds := ds;
         l_fs := with_base (msr_read IA32_FS_BASE c) fs;
         l_gs := with_base (regs 0) gs;
         l_tss := tss;
         l_gdt := gdt; l_idt := c_idtr c;
         l_cr0 := cr0_get c; l_cr3 := cr3_get c; l_cr4 := cr4_get c;
         l_efer := msr_read IA32_EFER c; l_star := msr_read IA32_STAR c;
         l_lstar := msr_read IA32_LSTAR c; l_cstar := msr_read IA32_CSTAR c;
         l_fmask := msr_read IA32_FMASK c; l_kernel_gsbase := msr_read IA32_KERNEL_GSBASE c;
         l_pat := msr_read IA32_PAT c; l_mtrr_def_type := msr_read IA32_MTRR_DEF_TYPE c |}.

(** [MOV] to FS or GS also loads the base; [hw_seg_base] is what the processor
    puts there. *)
Context (hw_seg_base : Cpu -> Z -> Z).

Definition load_fs (s : Z) (c : Cpu) : Cpu :=
  msr_write IA32_FS_BASE (hw_seg_base c s)
    (with_sel (c_es c) (c_cs c) (c_ss c) (c_ds c) s (c_gs c) (c_tr c) c).
Definition load_gs (s : Z) (c : Cpu) : Cpu :=
  msr_write IA32_GS_BASE (hw_seg_base c s)
    (with_sel (c_es c) (c_cs c) (c_ss c) (c_ds c) (c_fs c) s (c_tr c) c).

Lemma msr_read_load_fs m s c : m <> IA32_FS_BASE -> msr_read m (load_fs s c) = msr_read m c.
Proof. intros Hm. unfold load_fs. by rewrite msr_read_write_ne, msr_read_sel. Qed.

Lemma msr_read_load_gs m s c : m <> IA32_GS_BASE -> msr_read m (load_gs s c) = msr_read m c.
Proof. intros Hm. unfold load_gs. by rewrite msr_read_write_ne, msr_read_sel. Qed.

(** [PhysAddr::new] may panic; CR3 is written without PCID bits. *)
Definition cr3_set {E} (p : Z) : M Cpu E unit :=
  match phys_addr_new p with
  | Some p => modify (set_cr3 (frame_containing p))
  | None => panic
  end.

Definition restore {E} (l : LinuxContext) : M Cpu E unit :=
  modify (msr_write IA32_EFER (l_efer l)) ;;;
  modify (msr_write IA32_STAR (l_star l)) ;;;
  modify (msr_write IA32_LSTAR (l_lstar l)) ;;;
  modify (msr_write IA32_CSTAR (l_cstar l)) ;;;
  modify (msr_write IA32_FMASK (l_fmask l)) ;;;
  modify (msr_write IA32_KERNEL_GSBASE (l_kernel_gsbase l)) ;;;
  modify (msr_write IA32_PAT (l_pat l)) ;;;
  modify (cr0_set (l_cr0 l)) ;;;
  modify (cr4_set (l_cr4 l)) ;;;
  cr3_set (l_cr3 l) ;;;
  (let* c := gets id in
   let hv_gdt := gdt_from_pointer (gdt_sgdt c) in
   let linux_gdt := gdt_from_pointer (l_gdt l) in
   let tss_idx := sel_index (selector (l_tss l)) in
   let* d0 := gdt_index linux_gdt tss_idx in
   gdt_index_mut hv_gdt tss_idx d0 ;;;
   let* d1 := gdt_index linux_gdt (add64 tss_idx 1) in
   gdt_index_mut hv_gdt (add64 tss_idx 1) d1 ;;;
   gdt_load_tss hv_gdt (selector (l_tss l))) ;;;
  gdt_lgdt (l_gdt l) ;;;
  modify (set_idtr (l_idt l)) ;;;
  load_sel (selector (l_es l)) (selector (l_cs l)) (selector (l_ss l)) (selector (l_ds l)) ;;;
  modify (load_fs (selector (l_fs l))) ;;;
  modify (load_gs (selector (l_gs l))) ;;;
  modify (msr_write IA32_FS_BASE (base (l_fs l))).
End Context_.

#[export] Hint Rewrite msr_read_load_fs msr_read_load_gs using discriminate : rvm_msr.

Section RoundTrip.
Context {bf : BitField} {xr : X86Regs} {xrl : X86RegsLaws} {xd : X86Desc} {xdl : X86DescLaws}.
Context (hw_seg_base : Cpu -> Z -> Z).

(** A selector the processor could have loaded: null, or of a present
    descriptor inside the table. *)
Definition sel_loaded (c : Cpu) (sel : Z) : Prop :=
  0 <= sel_index sel /\ sel_index sel + 1 < (dt_limit (c_gdtr c) + 1) / 8 < 2 ^ 64 /\
  (sel = 0 \/ Z.testbit (mem_get (c_vmem c) (add64 (dt_base (c_gdtr c)) (8 * sel_index sel))) 47 = true).

Lemma from_selector_loaded E c sel :
  sel_loaded c sel ->
  exists seg, from_selector (E := E) sel (c_gdtr c) c = (Ok seg, c) /\ selector seg = sel.
Proof.
  intros (Hi & [Hlt Hmax] & Hpr). unfold from_selector.
  rewrite (bind_ok _ _ _ _ _ (gdt_index_ok E (gdt_from_pointer (c_gdtr c)) (sel_index sel) c ltac:(simpl; lia))).
  unfold DF_PRESENT. rewrite contains_desc by lia.
  change (entry_addr (gdt_from_pointer (c_gdtr c)) (sel_index sel))
    with (add64 (dt_base (c_gdtr c)) (8 * sel_index sel)).
  destruct (Z.testbit _ 47).
  - destruct (negb _).
    + rewrite bind_assoc. assert (add64 (sel_index sel) 1 = sel_index sel + 1) as Ha1
        by (unfold add64; nowrap; lia).
      rewrite (bind_ok _ _ _ _ _ (gdt_index_ok E (gdt_from_pointer (c_gdtr c)) (add64 (sel_index sel) 1) c
        ltac:(simpl; lia))).
      rewrite bind_ret. by eexists.
    + rewrite bind_ret. by eexists.
  - destruct Hpr as [->|]; [|done]. by eexists.
Qed.

Definition all_loaded (c : Cpu) : Prop :=
  Forall (sel_loaded c) [c_es c; c_cs c; c_ss c; c_ds c; c_fs c; c_gs c; c_tr c].

(** [load_from] never panics on loaded selectors, changes nothing, and what it
    stores are the registers of the processor. *)
Lemma load_from_ok E c linux_sp :
  all_loaded c ->
  exists l, load_from (E := E) linux_sp c = (Ok l, c) /\
    selector (l_es l) = c_es c /\ selector (l_cs l) = c_cs c /\ selector (l_ss l) = c_ss c /\
    selector (l_ds l) = c_ds c /\ selector (l_fs l) = c_fs c /\ selector (l_gs l) = c_gs c /\
    selector (l_tss l) = c_tr c /\ base (l_fs l) = msr_read IA32_FS_BASE c /\
    base (l_gs l) = mem_get (c_vmem c) (add64 linux_sp 0) /\
    l_rip l = mem_get (c_vmem c) (add64 linux_sp 56) /\ l_rsp l = add64 linux_sp 64 /\
    l_gdt l = c_gdtr c /\ l_idt l = c_idtr c /\
    l_cr0 l = cr0_get c /\ l_cr3 l = cr3_get c /\ l_cr4 l = cr4_get c /\
    l_efer l = msr_read IA32_EFER c /\ l_star l = msr_read IA32_STAR c /\
    l_lstar l = msr_read IA32_LSTAR c /\ l_cstar l = msr_read IA32_CSTAR c /\
    l_fmask l = msr_read IA32_FMASK c /\ l_kernel_gsbase l = msr_read IA32_KERNEL_GSBASE c /\
    l_pat l = msr_read IA32_PAT c.
Proof.
  intros Hall. unfold all_loaded in Hall. rewrite !Forall_cons in Hall.
  destruct Hall as (Hes & Hcs & Hss & Hds & Hfs & Hgs & Htr & _).
  destruct (from_selector_loaded E _ _ Hes) as (es & Ees & Ses).
  destruct (from_selector_loaded E _ _ Hcs) as (cs & Ecs & Scs).
  destruct (from_selector_loaded E _ _ Hss) as (ss & Ess & Sss).
  destruct (from_selector_loaded E _ _ Hds) as (ds & Eds & Sds).
  destruct (from_selector_loaded E _ _ Hfs) as (fs & Efs & Sfs).
  destruct (from_selector_loaded E _ _ Hgs) as (gs & Egs & Sgs).
  destruct (from_selector_loaded E _ _ Htr) as (tr & Etr & Str).
  unfold load_from. rewrite bind_gets. unfold gdt_sgdt, id.
  rewrite (bind_ok _ _ _ _ _ Efs), (bind_ok _ _ _ _ _ Egs), (bind_ok _ _ _ _ _ Ees),
    (bind_ok _ _ _ _ _ Ecs), (bind_ok _ _ _ _ _ Ess), (bind_ok _ _ _ _ _ Eds), (bind_ok _ _ _ _ _ Etr).
  eexists. split; [reflexivity|]. cbn [l_es l_cs l_ss l_ds l_fs l_gs l_tss selector with_base base
    l_rip l_rsp l_gdt l_idt l_cr0 l_cr3 l_cr4 l_efer l_star l_lstar l_cstar l_fmask l_kernel_gsbase l_pat].
  split_and!; done.
Qed.

(** What [restore] needs: a 52-bit CR3, both tables long enough for the TSS
    descriptor of Linux, and that descriptor a present system descriptor. *)
Record restore_pre (l : LinuxContext) (c : Cpu) : Prop := {
  rp_cr3 : 0 <= l_cr3 l < 2 ^ 52;
  rp_idx : 0 <= sel_index (selector (l_tss l)) /\
           sel_index (selector (l_tss l)) + 1 < (dt_limit (c_gdtr c) + 1) / 8 < 2 ^ 16 /\
           sel_index (selector (l_tss l)) + 1 < (dt_limit (l_gdt l) + 1) / 8;
  rp_base : 0 <= dt_base (c_gdtr c) /\ dt_base (c_gdtr c) + 2 ^ 19 < 2 ^ 64;
  rp_tss : let d := mem_get (c_vmem c) (add64 (dt_base (l_gdt l)) (8 * sel_index (selector (l_tss l)))) in
           in_range 64 d /\ Z.testbit d 44 = false /\ Z.testbit d 47 = true;
}.

Lemma copy_tss_ok E l c :
  restore_pre l c ->
  let hv_gdt := gdt_from_pointer (c_gdtr c) in
  let linux_gdt := gdt_from_pointer (l_gdt l) in
  let tss_idx := sel_index (selector (l_tss l)) in
  exists m,
  (let* d0 := gdt_index linux_gdt tss_idx in
   gdt_index_mut hv_gdt tss_idx d0 ;;;
   let* d1 := gdt_index linux_gdt (add64 tss_idx 1) in
   gdt_index_mut hv_gdt (add64 tss_idx 1) d1 ;;;
   gdt_load_tss (E := E) hv_gdt (selector (l_tss l))) c =
  (Ok tt, set_tr (selector (l_tss l)) (with_vmem m c)).
Proof.
  intros [_ (Hi & [Hi1 Hi2] & Hi3) [Hb0 Hb1] (Hr & H44 & H47)]. cbv zeta in *.
  set (idx := sel_index (selector (l_tss l))) in *. set (d := mem_get _ _) in *.
  assert (add64 idx 1 = idx + 1) as -> by (unfold add64; nowrap; lia).
  rewrite (bind_ok _ _ _ _ _ (gdt_index_ok E (gdt_from_pointer (l_gdt l)) idx c ltac:(simpl; lia))).
  change (mem_get (c_vmem c) (entry_addr (gdt_from_pointer (l_gdt l)) idx)) with d.
  erewrite bind_ok by (apply gdt_index_mut_ok; simpl; lia).
  erewrite bind_ok by (apply gdt_index_ok; simpl; lia).
  erewrite bind_ok by (apply gdt_index_mut_ok; simpl; lia). cbn [c_vmem with_vmem].
  rewrite (load_tss_ok E (gdt_from_pointer (c_gdtr c)) _ d).
  - unfold loaded_tss. cbn [c_vmem c_es c_cs c_ss c_ds c_fs c_gs with_vmem]. by eexists.
  - done.
  - cbn [c_gdtr with_vmem]. done.
  - done.
  - done.
  - cbn [c_vmem with_vmem]. fold idx. rewrite mem_get_set_ne; [apply mem_get_set_eq|].
    unfold entry_addr, add64. simpl. nowrap. lia.
  - done.
  - done.
  - done.
Qed.

(** The MSRs [restore] writes; the selectors of FS and GS write the bases. *)
Definition restored_msrs : list Msr :=
  [IA32_EFER; IA32_STAR; IA32_LSTAR; IA32_CSTAR; IA32_FMASK; IA32_KERNEL_GSBASE; IA32_PAT; IA32_FS_BASE; IA32_GS_BASE].

Lemma restore_ok E l c :
  restore_pre l c ->
  exists c', restore hw_seg_base (E := E) l c = (Ok tt, c') /\
    c_es c' = selector (l_es l) /\ c_cs c' = selector (l_cs l) /\ c_ss c' = selector (l_ss l) /\
    c_ds c' = selector (l_ds l) /\ c_fs c' = selector (l_fs l) /\ c_gs c' = selector (l_gs l) /\
    c_tr c' = selector (l_tss l) /\ msr_read IA32_FS_BASE c' = base (l_fs l) /\
    c_gdtr c' = l_gdt l /\ c_idtr c' = l_idt l /\
    c_cr0 c' = cr0_write (c_cr0 c) (l_cr0 l) /\ c_cr3 c' = frame_containing (l_cr3 l) /\
    c_cr4 c' = cr4_write (c_cr4 c) (l_cr4 l) /\
    msr_read IA32_EFER c' = l_efer l /\ msr_read IA32_STAR c' = l_star l /\
    msr_read IA32_LSTAR c' = l_lstar l /\ msr_read IA32_CSTAR c' = l_cstar l /\
    msr_read IA32_FMASK c' = l_fmask l /\ msr_read IA32_KERNEL_GSBASE c' = l_kernel_gsbase l /\
    msr_read IA32_PAT c' = l_pat l /\ c_gif c' = c_gif c /\
    forall m, m ∉ restored_msrs -> msr_read m c' = msr_read m c.
Proof.
  intros Hpre. unfold restore, cr3_set. rewrite !bind_modify.
  rewrite phys_addr_new_spec by apply Hpre. rewrite bind_modify, bind_assoc, bind_gets.
  unfold gdt_lgdt, load_sel, gdt_sgdt, id.
  match goal with |- context [bind _ _ ?x] => set (c1 := x) end.
  assert (restore_pre l c1) as Hpre1 by (destruct Hpre; split; done).
  destruct (copy_tss_ok E l c1 Hpre1) as [m Hm]. rewrite (bind_ok _ _ _ _ _ Hm).
  rewrite !bind_modify. eexists. split; [reflexivity|].
  unfold c1. split_and!; try (reflexivity || (autorewrite with rvm_msr; reflexivity)).
  intros i Hi. unfold restored_msrs in Hi. rewrite !not_elem_of_cons in Hi.
  repeat (autorewrite with rvm_msr; first
    [rewrite msr_read_write_ne by tauto | rewrite msr_read_load_gs by tauto | rewrite msr_read_load_fs by tauto]).
  by autorewrite with rvm_msr.
Qed.

(** The registers Linux gets back. *)
Definition linux_msrs : list Msr :=
  [IA32_EFER; IA32_STAR; IA32_LSTAR; IA32_CSTAR; IA32_FMASK; IA32_KERNEL_GSBASE; IA32_PAT; IA32_FS_BASE].

Record same_linux (c c' : Cpu) : Prop := {
  sl_sel : [c_es c'; c_cs c'; c_ss c'; c_ds c'; c_fs c'; c_gs c'; c_tr c'] =
           [c_es c; c_cs c; c_ss c; c_ds c; c_fs c; c_gs c; c_tr c];
  sl_dtr : c_gdtr c' = c_gdtr c /\ c_idtr c' = c_idtr c;
  sl_cr : c_cr0 c' = c_cr0 c /\ c_cr3 c' = Z.land (c_cr3 c) 0x000ffffffffff000 /\ c_cr4 c' = c_cr4 c;
  sl_msr : forall m, m ∈ linux_msrs -> msr_read m c' = msr_read m c;
}.

Lemma write_get_back all old x :
  in_range 64 all -> in_range 64 x -> Z.land old (not64 all) = Z.land x (not64 all) ->
  Z.lor (Z.land old (not64 all)) (truncate all x) = x.
Proof.
  intros Ha Hx ->. unfold truncate, not64. apply Z.bits_inj'. intros i Hi. autorewrite with rvm_bits.
  destruct (Z.ltb_spec i 64).
  - replace (0 <=? i) with true by lia. simpl. btauto.
  - by rewrite (testbit_small x 64 i) by (unfold in_range in *; lia).
Qed.

Lemma cr3_frame_range x : 0 <= cr3_frame x < 2 ^ 52 /\ cr3_frame x mod 4096 = 0.
Proof.
  rewrite cr3_frame_spec. change 0x000ffffffffff000 with (Z.shiftl (Z.ones 40) 12).
  rewrite (land_field x 12 40) by lia. pose proof (get_bits_range x 12 (12 + 40) ltac:(lia)).
  split; [lia|]. rewrite Z.mul_comm. by apply Z.mod_mul.
Qed.

(** Linux gets its processor back: from any later state of the processor
    in which the bits of CR0 and CR4 unknown to the register types are
    unchanged, [restore] of the context that [load_from] saved brings back the
    selectors, the descriptor tables, CR0, CR3 (without PCID), CR4 and the
    saved MSRs; FS_BASE survives the reload of FS. *)
Theorem linux_context_round E c0 linux_sp :
  all_loaded c0 -> in_range 64 (c_cr0 c0) -> in_range 64 (c_cr4 c0) ->
  exists l, load_from (E := E) linux_sp c0 = (Ok l, c0) /\
  forall c, restore_pre l c ->
    Z.land (c_cr0 c) (not64 cr0_all) = Z.land (c_cr0 c0) (not64 cr0_all) ->
    Z.land (c_cr4 c) (not64 cr4_all) = Z.land (c_cr4 c0) (not64 cr4_all) ->
    exists c', restore hw_seg_base (E := E) l c = (Ok tt, c') /\ same_linux c0 c'.
Proof.
  intros Hall Hcr0 Hcr4.
  destruct (load_from_ok E c0 linux_sp Hall) as (l & Hl & Les & Lcs & Lss & Lds & Lfs & Lgs & Ltr & Lfb & _ & _ &
    _ & Lgdt & Lidt & Lcr0 & Lcr3 & Lcr4 & Lefer & Lstar & Llstar & Lcstar & Lfm & Lkgs & Lpat).
  exists l. split; [done|]. intros c Hpre Hr0 Hr4.
  destruct (restore_ok E l c Hpre) as (c' & Hc & Res & Rcs & Rss & Rds & Rfs & Rgs & Rtr & Rfb & Rgdt & Ridt &
    Rcr0 & Rcr3 & Rcr4 & Refer & Rstar & Rlstar & Rcstar & Rfm & Rkgs & Rpat & _).
  exists c'. split; [done|]. split.
  - congruence.
  - split; congruence.
  - rewrite Rcr0, Rcr3, Rcr4, Lcr0, Lcr3, Lcr4, cr0_write_spec, cr4_write_spec.
    unfold cr0_get, cr4_get, cr3_get. pose proof (cr3_frame_range (c_cr3 c0)) as [? ?].
    rewrite !write_get_back by (done || apply xrl). split_and!; [done| |done].
    rewrite frame_containing_spec, <- cr3_frame_spec by done. lia.
  - intros m Hm. unfold linux_msrs in Hm.
    repeat (apply elem_of_cons in Hm as [->|Hm]); [congruence..|by apply not_elem_of_nil in Hm].
Qed.
End RoundTrip.

(** ** Back on the native processor *)
Section Back.
Context {xr : X86Regs} {xrl : X86RegsLaws}.

(** The processor [c'] has everything [c] had when [arch_entry] was called on it
    with the frame [linux_sp], which holds GS_BASE. *)
Record back_as (linux_sp : Z) (c c' : Cpu) : Prop := {
  ba_sel : [c_es c'; c_cs c'; c_ss c'; c_ds c'; c_fs c'; c_gs c'; c_tr c'] =
           [c_es c; c_cs c; c_ss c; c_ds c; c_fs c; c_gs c; c_tr c];
  ba_tables : c_gdtr c' = mkDtp (wrap 16 (dt_limit (c_gdtr c))) (dt_base (c_gdtr c)) /\
              c_idtr c' = mkDtp (wrap 16 (dt_limit (c_idtr c))) (dt_base (c_idtr c));
  ba_cr : cr0_get c' = cr0_get c /\ c_cr3 c' = cr3_get c /\ cr4_get c' = cr4_get c;
  ba_base : msr_read IA32_FS_BASE c' = msr_read IA32_FS_BASE c /\
            msr_read IA32_GS_BASE c' = mem_get (c_vmem c) (add64 linux_sp 0);
  ba_msr : forall m, m ∈ [IA32_EFER; IA32_STAR; IA32_LSTAR; IA32_CSTAR; IA32_FMASK; IA32_KERNEL_GSBASE; IA32_PAT] ->
           msr_read m c' = msr_read m c;
}.

Lemma truncate_idem all x : truncate all (truncate all x) = truncate all x.
Proof. unfold truncate. by rewrite <- Z.land_assoc, Z.land_diag. Qed.

Lemma cr0_get_range c : in_range 64 (cr0_get c).
Proof.
  pose proof cr0_all_range as Ha. unfold cr0_get, truncate. apply range_bits; [lia|apply Z.land_nonneg; right; unfold in_range in Ha; lia|].
  intros i Hi. rewrite Z.land_spec, (testbit_small cr0_all 64 i) by (unfold in_range in Ha; lia). apply andb_false_r.
Qed.
End Back.
