(* ===== verification/Cpuid.v ===== *)
(** * CPUID

    [src/src/arch/x86_64/cpuid.rs]: the leaves ([CpuIdEax]), the feature flags
    ([FeatureInfoFlags]) and the feature queries ([CpuFeatures]). The
    [raw_cpuid] crate and the CPUID instruction are the interface [RawCpuid]. *)

From S2P Require Import Prelude.

Inductive CpuIdEax : Type :=
| VendorInfo | FeatureInfo | HypervisorInfo | HypervisorFeatures | AmdFeatureInfo.

Definition cpuid_eax (l : CpuIdEax) : Z :=
  match l with
  | VendorInfo => 0x0
  | FeatureInfo => 0x1
  | HypervisorInfo => 0x40000000
  | HypervisorFeatures => 0x40000001
  | AmdFeatureInfo => 0x80000001
  end.

(** ** [FeatureInfoFlags] *)
Definition feature_bits : list Z :=
  [0; 1; 2; 3; 4; 5; 6; 7; 8; 9; 10; 12; 13; 15; 17; 18; 19; 20; 21; 22; 23; 24; 25; 26;
   27; 28; 29; 30; 31; 32; 33; 34; 35; 36; 37; 38; 39; 40; 41; 43; 44; 45; 46; 47; 48; 49;
   50; 51; 53; 54; 55; 56; 57; 58; 59; 60; 61; 63; 2].

Definition FeatureInfoFlags_all : Z := foldr (fun n x => Z.lor (Z.shiftl 1 n) x) 0 feature_bits.

Definition FI_VMX : Z := Z.shiftl 1 5.
Definition FI_OSXSAVE : Z := Z.shiftl 1 27.
Definition FI_HYPERVISOR : Z := Z.shiftl 1 31.
Definition FI_SVM : Z := Z.shiftl 1 2.

(** ** The [raw_cpuid] crate *)

(** [cpuid_raw eax ecx] is the CPUID instruction: EAX, EBX, ECX and EDX. The
    other fields are the leaves [CpuId] decodes, [None] when the processor does
    not have the leaf. *)
Class RawCpuid : Type := {
  cpuid_raw : Z -> Z -> Z * Z * Z * Z;
  cpuid_perf_version_id : option Z;
  cpuid_feature_info : option (bool * bool);       (* has_vmx, has_xsave *)
  cpuid_ext_rdtscp : option bool;
  cpuid_ext_invpcid : option bool;
  cpuid_xsaves_xrstors : option bool;
}.

Class RawCpuidLaws `{RawCpuid} : Prop := {
  cpuid_raw_range : forall eax ecx a b c d,
    cpuid_raw eax ecx = (a, b, c, d) ->
    in_range 32 a /\ in_range 32 b /\ in_range 32 c /\ in_range 32 d;
}.

Section Features.
Context {rc : RawCpuid}.

Definition perf_monitor_version_id : Z := default 0 cpuid_perf_version_id.
Definition has_vmx : bool := match cpuid_feature_info with Some (v, _) => v | None => false end.
Definition has_xsave : bool := match cpuid_feature_info with Some (_, x) => x | None => false end.
Definition has_rdtscp : bool := default false cpuid_ext_rdtscp.
Definition has_invpcid : bool := default false cpuid_ext_invpcid.
Definition has_xsaves_xrstors : bool := default false cpuid_xsaves_xrstors.
End Features.

#[global] Instance RawCpuid_ref : RawCpuid := {|
  cpuid_raw eax ecx :=
    if eax =? 1 then (0x906ea, 0x100800, 0x77fafbff, 0xbfebfbff)
    else if eax =? 0x80000001 then (0x800f82, 0, 0x35c233ff, 0x2fd3fbff)
    else (0xd, 0x756e6547, 0x6c65746e, 0x49656e69);
  cpuid_perf_version_id := Some 4;
  cpuid_feature_info := Some (true, true);
  cpuid_ext_rdtscp := Some true;
  cpuid_ext_invpcid := Some true;
  cpuid_xsaves_xrstors := None;
|}.
#[global] Instance RawCpuid_ref_laws : RawCpuidLaws.
Proof.
  constructor. intros eax ecx a b c d H. cbn in H.
  destruct (eax =? 1); [|destruct (eax =? 0x80000001)]; injection H as <- <- <- <-;
    unfold in_range; lia.
Qed.
#[global] Remove Hints RawCpuid_ref RawCpuid_ref_laws : typeclass_instances.

(** The bits of ECX the flag type does not know. *)
Lemma feature_all_low i :
  0 <= i < 32 -> Z.testbit FeatureInfoFlags_all i = negb ((i =? 11) || (i =? 14) || (i =? 16)).
Proof.
  intros Hi. apply Bool.eqb_prop.
  apply (forallb_below 32 (fun i => Bool.eqb (Z.testbit FeatureInfoFlags_all i)
    (negb ((i =? 11) || (i =? 14) || (i =? 16))))); [by vm_compute | done].
Qed.
