(* ===== verification/Vcpu.v ===== *)
(** * Virtual CPUs, exit handlers and hypercalls

    The vendor-independent part of the VMM: the trait [VcpuAccessGuestState] and
    the methods of [Vcpu] the shared code calls ([VcpuOps]), what the shared
    code relies on ([VcpuLaws]), [PerCpu] ([src/src/percpu.rs]), the exit handlers
    of [src/src/arch/x86_64/vmm.rs] and [src/src/hypercall/mod.rs].

    The code runs in the state [World]: the processor, its [PerCpu] and the
    counters shared by the processors. It can fail ([Fail]) or leave the
    hypervisor for good ([BackInLinux]), as [return_to_linux] does. *)

From S2P Require Import Prelude Crates HvError Addr X86 Segmentation Context Cpuid.

(** ** The interface of a vCPU *)

(** What the shared code sees of a guest: its RIP and CR4, whether it runs in
    ring 0, and whether a #GP(0) is pending. *)
Record GuestView : Type := mkView { gv_rip : Z; gv_cr4 : Z; gv_priv : bool; gv_gp : bool }.

Class VcpuOps (V : Type) : Type := {
  regs : V -> GeneralRegisters;
  regs_mut : GeneralRegisters -> V -> V;
  instr_pointer : M (Cpu * V) HvErrorNum Z;
  stack_pointer : M (Cpu * V) HvErrorNum Z;
  set_stack_pointer : Z -> M (Cpu * V) HvErrorNum unit;
  rflags : M (Cpu * V) HvErrorNum Z;
  fs_base : M (Cpu * V) HvErrorNum Z;
  gs_base : M (Cpu * V) HvErrorNum Z;
  cr : Z -> M (Cpu * V) HvErrorNum Z;
  advance_rip : Z -> M (Cpu * V) HvErrorNum unit;
  inject_fault : M (Cpu * V) HvErrorNum unit;
  guest_is_privileged : M (Cpu * V) HvErrorNum bool;
  guest_page_table : M (Cpu * V) HvErrorNum Z;
  in_hypercall : M (Cpu * V) HvErrorNum bool;
  vcpu_exit : M (Cpu * V * LinuxContext) HvErrorNum unit;
  vcpu_debug : M (Cpu * V) HvErrorNum unit;  (* what [Debug::fmt] reads *)
}.

(** [vcpu_wf]: the guest state is accessible. Then no operation fails, and each
    has the effect its name says on the view and none on the registers. *)
Class VcpuLaws (V : Type) `{VcpuOps V} : Type := {
  vcpu_wf : Cpu * V -> Prop;
  view : Cpu * V -> GuestView;
  regs_mut_regs : forall r v, regs (regs_mut r v) = r;
  regs_mut_view : forall r c v, view (c, regs_mut r v) = view (c, v);
  regs_mut_wf : forall r c v, vcpu_wf (c, v) -> vcpu_wf (c, regs_mut r v);
  instr_pointer_ok : forall s, vcpu_wf s -> instr_pointer s = (Ok (gv_rip (view s)), s);
  debug_ok : forall s, vcpu_wf s -> vcpu_debug s = (Ok tt, s);
  cr4_ok : forall s, vcpu_wf s -> cr 4 s = (Ok (gv_cr4 (view s)), s);
  privileged_ok : forall s, vcpu_wf s -> guest_is_privileged s = (Ok (gv_priv (view s)), s);
  page_table_ok : forall s, vcpu_wf s -> exists p, guest_page_table s = (Ok p, s);
  advance_rip_ok : forall s n, vcpu_wf s ->
    exists s', advance_rip n s = (Ok tt, s') /\ vcpu_wf s' /\ regs (snd s') = regs (snd s) /\
      view s' = mkView (add64 (gv_rip (view s)) n) (gv_cr4 (view s)) (gv_priv (view s)) (gv_gp (view s));
  inject_fault_ok : forall s, vcpu_wf s ->
    exists s', inject_fault s = (Ok tt, s') /\ vcpu_wf s' /\ regs (snd s') = regs (snd s) /\
      view s' = mkView (gv_rip (view s)) (gv_cr4 (view s)) (gv_priv (view s)) true;
}.

(** ** Per-CPU data *)
Inductive CpuState : Type := HvDisabled | HvEnabled.

Record PerCpu {V : Type} : Type := mkPerCpu {
  self_vaddr : Z;
  id : Z;
  state : CpuState;
  vcpu : V;
  linux : LinuxContext;
}.
Arguments PerCpu V : clear implicits.
Arguments mkPerCpu {V}.

(** The processor, its per-CPU data, [ACTIVATED_CPUS] and [TRY_DISABLE_CPUS]. *)
Record World {V : Type} : Type := mkWorld {
  w_cpu : Cpu;
  w_percpu : PerCpu V;
  w_activated : Z;
  w_try_disable : Z;
}.
Arguments World V : clear implicits.
Arguments mkWorld {V}.

Inductive Esc : Type := Fail (e : HvErrorNum) | BackInLinux.

(** Inspect a [Result] instead of passing an error on. *)
Definition attempt {S A} (c : M S Esc A) : M S Esc (HvErrorNum + A) := fun s =>
  match c s with
  | (Ok a, s') => (Ok (inr a), s')
  | (Err (Fail e), s') => (Ok (inl e), s')
  | (Err BackInLinux, s') => (Err BackInLinux, s')
  | (Panic, s') => (Panic, s')
  | (Diverge, s') => (Diverge, s')
  end.

Lemma pres_attempt {S A} (R : S -> S -> Prop) (c : M S Esc A) : pres R c -> pres R (attempt c).
Proof. intros Hc s. specialize (Hc s). unfold attempt. by destruct (c s) as [[|[]| |] ?]. Qed.
#[export] Hint Resolve pres_attempt : rvm_pres.

(** ** Constants of [vmm.rs] *)
Definition VM_EXIT_LEN_CPUID : Z := 2.
Definition VM_EXIT_LEN_RDMSR : Z := 2.
Definition VM_EXIT_LEN_WRMSR : Z := 2.
Definition VM_EXIT_LEN_HYPERCALL : Z := 3.

Section Consts.
Context {xr : X86Regs}.
Definition HOST_CR0 : Z :=
  truncate cr0_all
    (foldr Z.lor 0 [CR0_PAGING; CR0_WRITE_PROTECT; CR0_NUMERIC_ERROR; CR0_TASK_SWITCHED;
                    CR0_MONITOR_COPROCESSOR; CR0_PROTECTED_MODE_ENABLE]).
Definition HOST_CR4 : Z := CR4_PHYSICAL_ADDRESS_EXTENSION.
End Consts.

(** ["RVMRVMRVMRVM"] read as [[u32; 3]], little endian. *)
Definition le32 (b : list Z) : Z := foldr (fun x acc => x + 256 * acc) 0 b.
Definition signature : Z * Z * Z :=
  let s := [82; 86; 77; 82; 86; 77; 82; 86; 77; 82; 86; 77] in
  (le32 (take 4 s), le32 (take 4 (drop 4 s)), le32 (drop 8 s)).

(** ** Hypercall codes *)
Inductive HyperCallCode : Type := HypervisorDisable.

Definition HyperCallCode_bits (c : HyperCallCode) : Z := match c with HypervisorDisable => 0 end.

(** [numeric_enum!] derives [TryFrom<u32>]. *)
Definition HyperCallCode_try_from (v : Z) : option HyperCallCode :=
  if v =? 0 then Some HypervisorDisable else None.

Section Vmm.
Context {V : Type} {vo : VcpuOps V} {bf : BitField} {xr : X86Regs} {xd : X86Desc} {rc : RawCpuid}.
Context (hw_seg_base : Cpu -> Z -> Z).

Definition with_vcpu (v : V) (p : PerCpu V) : PerCpu V :=
  mkPerCpu (self_vaddr p) (id p) (state p) v (linux p).

Definition upd (c : Cpu) (p : PerCpu V) (w : World V) : World V :=
  mkWorld c p (w_activated w) (w_try_disable w).

(** Run an operation of the vCPU. *)
Definition on_vcpu {A} (c : M (Cpu * V) HvErrorNum A) : M (World V) Esc A := fun w =>
  let '(o, (cpu', v')) := c (w_cpu w, vcpu (w_percpu w)) in
  (map_err Fail o, upd cpu' (with_vcpu v' (w_percpu w)) w).

Definition get_regs : M (World V) Esc GeneralRegisters :=
  gets (fun w => regs (vcpu (w_percpu w))).
Definition set_regs (r : GeneralRegisters) : M (World V) Esc unit :=
  modify (fun w => upd (w_cpu w) (with_vcpu (regs_mut r (vcpu (w_percpu w))) (w_percpu w)) w).

(** [VcpuAccessGuestState::set_return_val]. *)
Definition set_return_val (ret_val : Z) : M (World V) Esc unit :=
  let* r := get_regs in set_regs (with_rax ret_val r).

(** [PerCpu::fault]. *)
Definition fault : M (World V) Esc unit := on_vcpu inject_fault.

(** [HyperCallCode::is_privileged]. *)
Definition is_privileged (c : HyperCallCode) : bool := bf_get_bits (HyperCallCode_bits c) 30 32 =? 0.

(** ** Leaving the hypervisor *)

(** [Vcpu::exit] with [linux] borrowed mutably, then [LinuxContext::restore] and
    [return_to_linux], which writes GS_BASE and does not come back. *)
Definition deactivate_vmm (ret_code : Z) : M (World V) Esc unit :=
  modify (fun w => mkWorld (w_cpu w) (w_percpu w) (wrap 32 (w_activated w - 1)) (w_try_disable w)) ;;;
  set_return_val ret_code ;;;
  (fun w =>
     let p := w_percpu w in
     let '(o, ((cpu', v'), l')) := vcpu_exit ((w_cpu w, vcpu p), linux p) in
     (map_err Fail o, upd cpu' (mkPerCpu (self_vaddr p) (id p) (state p) v' l') w)) ;;;
  (fun w =>
     let p := w_percpu w in
     let '(o, cpu') := restore hw_seg_base (E := HvErrorNum) (linux p) (w_cpu w) in
     (map_err Fail o, upd cpu' p w)) ;;;
  modify (fun w =>
     let p := w_percpu w in
     upd (msr_write IA32_GS_BASE (base (l_gs (linux p))) (w_cpu w))
       (mkPerCpu (self_vaddr p) (id p) HvDisabled (vcpu p) (linux p)) w) ;;;
  throw BackInLinux.

(** The spin loop ends once the counter has reached [cpus]; with the counter of
    the moment it does not. *)
Definition hypervisor_disable : M (World V) Esc Z :=
  let* cpus := gets w_activated in
  modify (fun w => mkWorld (w_cpu w) (w_percpu w) (w_activated w) (wrap 32 (w_try_disable w + 1))) ;;;
  let* t := gets w_try_disable in
  if t <? cpus then diverge
  else deactivate_vmm 0 ;;; panic.

Definition hypercall (code arg0 _arg1 : Z) : M (World V) Esc unit :=
  match HyperCallCode_try_from code with
  | None => ret tt
  | Some code =>
      let* privileged := on_vcpu guest_is_privileged in
      if (if privileged then negb (is_privileged code) else is_privileged code) then fault
      else
        let* r := attempt (match code with HypervisorDisable => hypervisor_disable end) in
        if negb (is_privileged code) then
          match r with inl _ => fault | inr _ => ret tt end
        else set_return_val (match r with inr v => v | inl e => i32_as_usize (HvError.code e) end)
  end.

(** ** Exit handlers *)
Definition handle_msr_read : M (World V) Esc unit :=
  let* r := get_regs in
  set_regs (with_abcd 0 (rbx r) (rcx r) 0 r) ;;;
  on_vcpu (advance_rip VM_EXIT_LEN_RDMSR).

Definition handle_msr_write : M (World V) Esc unit :=
  on_vcpu (advance_rip VM_EXIT_LEN_WRMSR).

Definition handle_cpuid : M (World V) Esc unit :=
  let* cr4 := on_vcpu (cr 4) in
  let cr4_flags := truncate cr4_all cr4 in
  let* r := get_regs in
  let function := wrap 32 (rax r) in
  (if function =? cpuid_eax HypervisorInfo then
     let '(s0, s1, s2) := signature in
     set_regs (with_abcd (cpuid_eax HypervisorFeatures) s0 s1 s2 r)
   else if function =? cpuid_eax HypervisorFeatures then
     set_regs (with_abcd 0 0 0 0 r)
   else
     let '(a, b, c, d) := cpuid_raw (wrap 32 (rax r)) (wrap 32 (rcx r)) in
     let c :=
       if function =? cpuid_eax FeatureInfo then
         let flags := truncate FeatureInfoFlags_all c in
         let flags := if contains cr4_flags CR4_OSXSAVE then Z.lor flags FI_OSXSAVE else flags in
         let flags := Z.land flags (not64 FI_VMX) in
         Z.lor flags FI_HYPERVISOR
       else if function =? cpuid_eax AmdFeatureInfo then
         Z.land (truncate FeatureInfoFlags_all c) (not64 FI_SVM)
       else c in
     set_regs (with_abcd a b c d r)) ;;;
  on_vcpu (advance_rip VM_EXIT_LEN_CPUID).

Definition handle_hypercall : M (World V) Esc unit :=
  on_vcpu (advance_rip VM_EXIT_LEN_HYPERCALL) ;;;
  let* r := get_regs in
  on_vcpu guest_page_table ;;;
  hypercall (wrap 32 (rax r)) (rdi r) (rsi r).

(** [vmexit_handler]: [handle_exit] is the one of the vendor. *)
Definition vmexit_handler (handle_exit : M (World V) Esc unit) : M (World V) Esc unit :=
  let* res := attempt handle_exit in
  match res with
  | inl _ => expect fault
  | inr _ => ret tt
  end.
End Vmm.

(** ** The handlers against the interface *)
Section Laws.
Context {V : Type} {vo : VcpuOps V} {vl : VcpuLaws V}.
Context {bf : BitField} {xr : X86Regs} {xrl : X86RegsLaws} {xd : X86Desc} {rc : RawCpuid} {rcl : RawCpuidLaws}.
Context (hw_seg_base : Cpu -> Z -> Z).

Definition wst (w : World V) : Cpu * V := (w_cpu w, vcpu (w_percpu w)).
Definition wwf (w : World V) : Prop := vcpu_wf (wst w).
Definition wview (w : World V) : GuestView := view (wst w).
Definition wregs (w : World V) : GeneralRegisters := regs (vcpu (w_percpu w)).

(** Only the vCPU has changed. *)
Definition same_rest (w w' : World V) : Prop :=
  self_vaddr (w_percpu w') = self_vaddr (w_percpu w) /\ id (w_percpu w') = id (w_percpu w) /\
  state (w_percpu w') = state (w_percpu w) /\ linux (w_percpu w') = linux (w_percpu w) /\
  w_activated w' = w_activated w /\ w_try_disable w' = w_try_disable w.

#[export] Instance same_rest_refl : Reflexive same_rest.
Proof. by intros w; repeat split. Qed.
#[export] Instance same_rest_trans : Transitive same_rest.
Proof. unfold same_rest. intros a b c. intuition congruence. Qed.

Definition with_rip (n : Z) (g : GuestView) : GuestView :=
  mkView (add64 (gv_rip g) n) (gv_cr4 g) (gv_priv g) (gv_gp g).
Definition with_gp (g : GuestView) : GuestView := mkView (gv_rip g) (gv_cr4 g) (gv_priv g) true.

(** A successful step: new registers and view, nothing else. *)
Definition done_with (w w' : World V) (r : GeneralRegisters) (g : GuestView) : Prop :=
  wwf w' /\ wregs w' = r /\ wview w' = g /\ same_rest w w'.

Lemma on_vcpu_read A (c : M (Cpu * V) HvErrorNum A) (w : World V) a :
  c (wst w) = (Ok a, wst w) -> on_vcpu c w = (Ok a, w).
Proof. unfold on_vcpu, wst. intros ->. by destruct w as [? []]. Qed.

Lemma on_vcpu_write A (c : M (Cpu * V) HvErrorNum A) (w : World V) a s r g :
  c (wst w) = (Ok a, s) -> vcpu_wf s -> regs (snd s) = r -> view s = g ->
  exists w', on_vcpu c w = (Ok a, w') /\ done_with w w' r g.
Proof.
  intros Hc Hwf Hr Hg. unfold on_vcpu. fold (wst w). rewrite Hc. destruct s as [c' v']. eexists.
  split; [reflexivity|]. split_and!; done.
Qed.

Lemma w_advance_rip w n :
  wwf w ->
  exists w', on_vcpu (advance_rip n) w = (Ok tt, w') /\ done_with w w' (wregs w) (with_rip n (wview w)).
Proof.
  intros Hwf. destruct (advance_rip_ok (wst w) n Hwf) as (s & Hs & Hw & Hr & Hv).
  by apply (on_vcpu_write _ _ w tt s).
Qed.

Lemma w_fault w :
  wwf w -> exists w', fault w = (Ok tt, w') /\ done_with w w' (wregs w) (with_gp (wview w)).
Proof.
  intros Hwf. destruct (inject_fault_ok (wst w) Hwf) as (s & Hs & Hw & Hr & Hv).
  by apply (on_vcpu_write _ _ w tt s).
Qed.

Lemma w_set_regs w r :
  wwf w -> exists w', set_regs r w = (Ok tt, w') /\ done_with w w' r (wview w).
Proof.
  intros Hwf. eexists. split; [reflexivity|]. split_and!; try done.
  - apply regs_mut_wf. done.
  - apply regs_mut_regs.
  - apply regs_mut_view.
Qed.

Lemma done_with_trans w w1 w2 r g r' g' :
  done_with w w1 r g -> done_with w1 w2 r' g' -> done_with w w2 r' g'.
Proof. intros (_ & _ & _ & S1) (H1 & H2 & H3 & S2). split_and!; try done. by transitivity w1. Qed.

(** Registers set, then the instruction skipped. *)
Lemma w_set_advance w r n :
  wwf w ->
  exists w', (set_regs r ;;; on_vcpu (advance_rip n)) w = (Ok tt, w') /\
    done_with w w' r (with_rip n (wview w)).
Proof.
  intros Hwf. destruct (w_set_regs w r Hwf) as (w1 & H1 & D1). pose proof D1 as (W1 & R1 & V1 & _).
  destruct (w_advance_rip w1 n W1) as (w2 & H2 & D2). rewrite (bind_ok _ _ _ _ _ H1).
  exists w2. split; [done|]. rewrite R1, V1 in D2. by apply (done_with_trans _ _ _ _ _ _ _ D1).
Qed.

(** RDMSR and WRMSR exits: a read returns 0 in EDX:EAX and a write is
    dropped; both skip the two-byte instruction and touch nothing else. *)
Theorem msr_exits_skip w :
  wwf w ->
  (exists w', handle_msr_read w = (Ok tt, w') /\
     done_with w w' (with_abcd 0 (rbx (wregs w)) (rcx (wregs w)) 0 (wregs w)) (with_rip 2 (wview w))) /\
  (exists w', handle_msr_write w = (Ok tt, w') /\ done_with w w' (wregs w) (with_rip 2 (wview w))).
Proof.
  intros Hwf. split.
  - unfold handle_msr_read, get_regs. rewrite bind_gets. by apply w_set_advance.
  - by apply w_advance_rip.
Qed.

(** The ECX the guest sees for a CPUID leaf. *)
Definition guest_ecx (leaf cr4 hw : Z) (i : Z) : bool :=
  if leaf =? 1 then
    (i =? 31) ||
    negb (i =? 5) && (Z.testbit hw i && negb ((i =? 11) || (i =? 14) || (i =? 16)) || (i =? 27) && Z.testbit cr4 18)
  else if leaf =? 0x80000001 then
    negb (i =? 2) && Z.testbit hw i && negb ((i =? 11) || (i =? 14) || (i =? 16))
  else Z.testbit hw i.

Lemma testbit_not64_bit k i : 0 <= k < 64 -> 0 <= i < 64 -> Z.testbit (not64 (Z.shiftl 1 k)) i = negb (i =? k).
Proof.
  intros Hk Hi. unfold not64. rewrite Z.lxor_spec, testbit_bit, testbit_ones by lia.
  replace ((0 <=? i) && (i <? 64)) with true by lia. by rewrite xorb_true_r.
Qed.

Lemma contains_osxsave x : contains (truncate cr4_all x) CR4_OSXSAVE = Z.testbit x 18.
Proof.
  unfold CR4_OSXSAVE. rewrite contains_bit by lia. unfold truncate. rewrite Z.land_spec.
  pose proof cr4_all_used as Hc. unfold contains in Hc. apply Z.eqb_eq in Hc.
  assert (Z.testbit cr4_all 18 = true) as ->; [|by rewrite andb_true_r].
  assert (Z.testbit (Z.land cr4_all CR4_used) 18 = true) as Hb by (rewrite Hc; reflexivity).
  rewrite Z.land_spec in Hb. by apply andb_true_iff in Hb as [? _].
Qed.

Definition masked_ecx (leaf cr4 c : Z) : Z :=
  if leaf =? cpuid_eax FeatureInfo then
    let flags := truncate FeatureInfoFlags_all c in
    let flags := if contains (truncate cr4_all cr4) CR4_OSXSAVE then Z.lor flags FI_OSXSAVE else flags in
    let flags := Z.land flags (not64 FI_VMX) in
    Z.lor flags FI_HYPERVISOR
  else if leaf =? cpuid_eax AmdFeatureInfo then
    Z.land (truncate FeatureInfoFlags_all c) (not64 FI_SVM)
  else c.

Lemma masked_ecx_bits leaf cr4 c i :
  0 <= i < 32 -> Z.testbit (masked_ecx leaf cr4 c) i = guest_ecx leaf cr4 c i.
Proof.
  intros Hi. unfold masked_ecx, guest_ecx. change (cpuid_eax FeatureInfo) with 1.
  change (cpuid_eax AmdFeatureInfo) with 0x80000001. rewrite contains_osxsave.
  destruct (leaf =? 1); [|destruct (leaf =? 0x80000001); [|done]]; cbv zeta.
  - unfold FI_HYPERVISOR, FI_VMX, FI_OSXSAVE. rewrite Z.lor_spec, Z.land_spec, testbit_lor_if.
    unfold truncate. rewrite Z.land_spec, feature_all_low, testbit_not64_bit, !testbit_bit by lia.
    btauto.
  - unfold FI_SVM, truncate. rewrite !Z.land_spec, feature_all_low, testbit_not64_bit by lia. btauto.
Qed.

(** The cases of [cpuid_exit]. *)
Lemma cpuid_cases w ha hb hc hd :
  wwf w ->
  let r := wregs w in
  let leaf := wrap 32 (rax r) in
  cpuid_raw leaf (wrap 32 (rcx r)) = (ha, hb, hc, hd) ->
  exists w' a b c d, handle_cpuid w = (Ok tt, w') /\
    done_with w w' (with_abcd a b c d r) (with_rip 2 (wview w)) /\
    if leaf =? 0x40000000 then (a, b, c, d) = (0x40000001, 0x524d5652, 0x56524d56, 0x4d56524d)
    else if leaf =? 0x40000001 then (a, b, c, d) = (0, 0, 0, 0)
    else a = ha /\ b = hb /\ d = hd /\
         forall i, 0 <= i < 32 -> Z.testbit c i = guest_ecx leaf (gv_cr4 (wview w)) hc i.
Proof.
  intros Hwf r leaf Hhw. unfold handle_cpuid.
  rewrite (bind_ok _ _ w (gv_cr4 (wview w)) w) by (by apply on_vcpu_read, cr4_ok).
  unfold get_regs. rewrite bind_gets. fold (wregs w). fold r. fold leaf. rewrite Hhw.
  change (cpuid_eax HypervisorInfo) with 0x40000000. change (cpuid_eax HypervisorFeatures) with 0x40000001.
  destruct (leaf =? 0x40000000); [|destruct (leaf =? 0x40000001)].
  - destruct (w_set_advance w (with_abcd 0x40000001 0x524d5652 0x56524d56 0x4d56524d r) 2 Hwf) as (w' & H & D).
    exists w', 0x40000001, 0x524d5652, 0x56524d56, 0x4d56524d. done.
  - destruct (w_set_advance w (with_abcd 0 0 0 0 r) 2 Hwf) as (w' & H & D). exists w', 0, 0, 0, 0. done.
  - change (let c := if leaf =? cpuid_eax FeatureInfo then _ else _ in set_regs _)
      with (set_regs (vo := vo) (with_abcd ha hb (masked_ecx leaf (gv_cr4 (wview w)) hc) hd r)).
    destruct (w_set_advance w (with_abcd ha hb (masked_ecx leaf (gv_cr4 (wview w)) hc) hd r) 2 Hwf)
      as (w' & H & D).
    exists w', ha, hb, (masked_ecx leaf (gv_cr4 (wview w)) hc), hd. split_and!; try done.
    intros i Hi. by apply masked_ecx_bits.
Qed.

(** C24. CPUID exits: the two hypervisor leaves identify RVM and offer nothing;
    every other leaf is the processor's, except that leaf 1 hides VMX, reports
    a hypervisor and reports OSXSAVE if CR4 of the guest has it, leaf 8000_0001
    hides SVM, and both lose the bits that leaf 1 does not define. The other registers are kept and RIP moves past the
    instruction. *)
Theorem cpuid_exit w ha hb hc hd :
  wwf w ->
  let r := wregs w in
  let leaf := wrap 32 (rax r) in
  cpuid_raw leaf (wrap 32 (rcx r)) = (ha, hb, hc, hd) ->
  exists w' a b c d, handle_cpuid w = (Ok tt, w') /\
    done_with w w' (with_abcd a b c d r) (with_rip 2 (wview w)) /\
    if leaf =? 0x40000000 then (a, b, c, d) = (0x40000001, 0x524d5652, 0x56524d56, 0x4d56524d)
    else if leaf =? 0x40000001 then (a, b, c, d) = (0, 0, 0, 0)
    else a = ha /\ b = hb /\ d = hd /\
         forall i, 0 <= i < 32 -> Z.testbit c i = guest_ecx leaf (gv_cr4 (wview w)) hc i.
Proof. exact (cpuid_cases w ha hb hc hd). Qed.

(** ** Hypercalls *)
Lemma is_privileged_disable : is_privileged HypervisorDisable = true.
Proof. unfold is_privileged. rewrite bf_get_bits_spec by (simpl; lia). done. Qed.

Lemma w_privileged w : wwf w -> on_vcpu guest_is_privileged w = (Ok (gv_priv (wview w)), w).
Proof. intros Hwf. by apply on_vcpu_read, privileged_ok. Qed.

(** The state in which [hypervisor_disable] reaches [Vcpu::exit]. *)
Definition before_exit (w : World V) : World V :=
  mkWorld (w_cpu w) (with_vcpu (regs_mut (with_rax 0 (wregs w)) (vcpu (w_percpu w))) (w_percpu w))
    (wrap 32 (w_activated w - 1)) (wrap 32 (w_try_disable w + 1)).

(** The hypercall that ends the hypervisor on this processor. *)
Lemma hypercall_leaves w w' arg0 arg1 :
  wwf w -> gv_priv (wview w) = true -> (wrap 32 (w_try_disable w + 1) <? w_activated w) = false ->
  deactivate_vmm hw_seg_base 0 (mkWorld (w_cpu w) (w_percpu w) (w_activated w) (wrap 32 (w_try_disable w + 1))) =
    (Err BackInLinux, w') ->
  hypercall hw_seg_base 0 arg0 arg1 w = (Err BackInLinux, w').
Proof.
  intros Hwf Hp Ht Hd. unfold hypercall, HyperCallCode_try_from. cbn [Z.eqb].
  rewrite (bind_ok _ _ _ _ _ (w_privileged w Hwf)), is_privileged_disable, Hp. cbn [negb].
  apply bind_err. unfold attempt, hypervisor_disable. rewrite bind_gets, bind_modify, bind_gets.
  cbn [w_try_disable]. rewrite Ht. by rewrite (bind_err _ _ _ _ _ Hd).
Qed.

(** The cases of [hypercall_branches]. *)
Lemma hypercall_cases w code arg0 arg1 :
  wwf w ->
  let res := hypercall hw_seg_base code arg0 arg1 w in
  if negb (code =? 0) then res = (Ok tt, w)
  else if negb (gv_priv (wview w)) then
    exists w', res = (Ok tt, w') /\ done_with w w' (wregs w) (with_gp (wview w))
  else if wrap 32 (w_try_disable w + 1) <? w_activated w then fst res = Diverge
  else
    let w1 := before_exit w in
    match vcpu_exit (wst w1, linux (w_percpu w1)) with
    | (Err e, ((c, v), l)) =>
        fst res = Ok tt /\ rax (wregs (snd res)) = wrap 64 (- errno e) /\
        w_activated (snd res) = wrap 32 (w_activated w - 1)
    | (Ok _, ((c, v), l)) =>
        match restore hw_seg_base (E := HvErrorNum) l c with
        | (Ok _, c') =>
            fst res = Err BackInLinux /\ state (w_percpu (snd res)) = HvDisabled /\
            linux (w_percpu (snd res)) = l /\
            w_cpu (snd res) = msr_write IA32_GS_BASE (base (l_gs l)) c' /\
            w_activated (snd res) = wrap 32 (w_activated w - 1)
        | _ => True
        end
    | _ => True
    end.
Proof.
  intros Hwf. cbv zeta. unfold hypercall, HyperCallCode_try_from.
  destruct (code =? 0); cbn [negb]; [|done].
  rewrite (bind_ok _ _ _ _ _ (w_privileged w Hwf)), is_privileged_disable.
  destruct (gv_priv (wview w)); cbn [negb]; [|by apply w_fault].
  unfold hypervisor_disable, attempt at 1.
  destruct (wrap 32 (w_try_disable w + 1) <? w_activated w) eqn:Ht.
  { unfold bind, gets, modify, attempt. cbn [w_try_disable]. by rewrite Ht. }
  unfold deactivate_vmm, set_return_val, set_regs, get_regs, before_exit, wst.
  unfold bind, gets, modify, attempt, upd. cbn [w_try_disable w_percpu w_cpu w_activated with_vcpu vcpu linux].
  rewrite Ht. cbn [w_try_disable w_percpu w_cpu w_activated with_vcpu vcpu linux].
  fold (wregs w). destruct (vcpu_exit _) as [o [[c v] l]]. destruct o; cbn [map_err]; try done.
  - cbn [w_percpu w_cpu linux]. destruct (restore hw_seg_base l c) as [o c']. by destruct o.
  - cbn. unfold wregs. cbn. split_and!; try done. rewrite regs_mut_regs. done.
Qed.

(** C25. Hypercalls on every branch: an unknown code is ignored; the code for
    disabling is a #GP for a guest outside ring 0; in ring 0 it waits until as
    many processors asked as are active, then leaves for Linux with the
    counter of active processors decremented; when the vCPU cannot be turned
    off the guest gets the negated error number in RAX. *)
Theorem hypercall_branches w code arg0 arg1 :
  wwf w ->
  let res := hypercall hw_seg_base code arg0 arg1 w in
  if negb (code =? 0) then res = (Ok tt, w)
  else if negb (gv_priv (wview w)) then
    exists w', res = (Ok tt, w') /\ done_with w w' (wregs w) (with_gp (wview w))
  else if wrap 32 (w_try_disable w + 1) <? w_activated w then fst res = Diverge
  else
    let w1 := before_exit w in
    match vcpu_exit (wst w1, linux (w_percpu w1)) with
    | (Err e, ((c, v), l)) =>
        fst res = Ok tt /\ rax (wregs (snd res)) = wrap 64 (- errno e) /\
        w_activated (snd res) = wrap 32 (w_activated w - 1)
    | (Ok _, ((c, v), l)) =>
        match restore hw_seg_base (E := HvErrorNum) l c with
        | (Ok _, c') =>
            fst res = Err BackInLinux /\ state (w_percpu (snd res)) = HvDisabled /\
            linux (w_percpu (snd res)) = l /\
            w_cpu (snd res) = msr_write IA32_GS_BASE (base (l_gs l)) c' /\
            w_activated (snd res) = wrap 32 (w_activated w - 1)
        | _ => True
        end
    | _ => True
    end.
Proof. exact (hypercall_cases w code arg0 arg1). Qed.

(** The exit handler skips the instruction and makes the hypercall. *)
Lemma hypercall_exit w :
  wwf w -> exists w1, done_with w w1 (wregs w) (with_rip 3 (wview w)) /\
    handle_hypercall hw_seg_base w = hypercall hw_seg_base (wrap 32 (rax (wregs w))) (rdi (wregs w)) (rsi (wregs w)) w1.
Proof.
  intros Hwf. destruct (w_advance_rip w 3 Hwf) as (w1 & H1 & D1). exists w1. split; [done|].
  unfold handle_hypercall, get_regs. change VM_EXIT_LEN_HYPERCALL with 3. rewrite (bind_ok _ _ _ _ _ H1), bind_gets.
  destruct D1 as (W1 & R1 & _). fold (wregs w1). rewrite R1.
  destruct (page_table_ok (wst w1) W1) as (p & Hp). by rewrite (bind_ok _ _ w1 p w1) by (by apply on_vcpu_read).
Qed.

(** What [vmexit_handler] passes on. *)
Lemma vmexit_passes (k : M (World V) Esc unit) w :
  match fst (k w) with Err (Fail _) => False | _ => True end -> vmexit_handler k w = k w.
Proof. unfold vmexit_handler, bind, attempt. by destruct (k w) as [[[]|[e|]| |] w1]. Qed.

Lemma vmexit_fails (k : M (World V) Esc unit) w e :
  wwf w -> k w = (Err (Fail e), w) ->
  exists w', vmexit_handler k w = (Ok tt, w') /\ done_with w w' (wregs w) (with_gp (wview w)).
Proof.
  intros Hwf Hk. destruct (w_fault w Hwf) as (w' & Hf & D). exists w'. split; [|done].
  unfold vmexit_handler, bind, attempt. rewrite Hk. unfold expect. by rewrite Hf.
Qed.

(** The VM-exit handler always resumes the guest: when handling an exit
    fails, the guest gets a #GP instead. *)
Theorem vmexit_handler_total handle_exit w o w1 :
  handle_exit w = (o, w1) -> wwf w1 ->
  match o with
  | Ok _ => vmexit_handler handle_exit w = (Ok tt, w1)
  | Err (Fail _) =>
      exists w', vmexit_handler handle_exit w = (Ok tt, w') /\
        done_with w1 w' (wregs w1) (with_gp (wview w1))
  | Err BackInLinux => vmexit_handler handle_exit w = (Err BackInLinux, w1)
  | Panic => vmexit_handler handle_exit w = (Panic, w1)
  | Diverge => vmexit_handler handle_exit w = (Diverge, w1)
  end.
Proof.
  intros Ho Hwf. unfold vmexit_handler, bind, attempt. rewrite Ho.
  destruct o as [[]|[e|]| |]; try done.
  destruct (w_fault w1 Hwf) as (w' & Hf & D). exists w'. split; [|done].
  unfold expect. by rewrite Hf.
Qed.
End Laws.
