(* ===== verification/Panic.v ===== *)
(** * Panics

    [src/src/lang.rs]: what the panic handler does with the processor it runs
    on. A panic of any other function is the outcome [Panic] with the state of
    that moment; here it is taken up from there. *)

From S2P Require Import Prelude Crates HvError Addr X86 Segmentation Context Cpuid Vcpu.

Section Panic.
Context {V : Type} {vo : VcpuOps V} {bf : BitField} {xr : X86Regs} {xd : X86Desc}.
(** [error_on]: messages of level Error are printed ([LOG] of the build). *)
Context (hw_seg_base : Cpu -> Z -> Z) (error_on : bool).

Definition enabled (s : CpuState) : bool := match s with HvEnabled => true | HvDisabled => false end.

Definition try_handle_panic : M (World V) Esc unit :=
  let* s := gets (fun w => state (w_percpu w)) in
  let* hypercall := (if enabled s then on_vcpu in_hypercall else ret false) in
  let ret_code := if hypercall then i32_as_usize (HvError.code EIO) else 0 in
  if enabled s then deactivate_vmm hw_seg_base ret_code else throw (Fail EIO).

(** [PerCpu::fmt]: the vCPU of an enabled processor, the context of Linux of any
    other. *)
Definition percpu_debug : M (World V) Esc unit :=
  let* s := gets (fun w => state (w_percpu w)) in
  if enabled s then on_vcpu vcpu_debug else ret tt.

(** [SERIAL1.lock().write_fmt(..)]: the arguments are formatted under the lock of
    the console. A panic there is never got out of: nobody unwinds, and the
    message of the next handler waits for the lock. *)
Definition under_console_lock {A} (c : M (World V) Esc A) : M (World V) Esc A := fun w =>
  match c w with (Panic, w') => (Diverge, w') | r => r end.

(** The message with the state of the processor, then the attempt to leave. *)
Definition panic_body : M (World V) Esc unit :=
  (if error_on then under_console_lock percpu_debug else ret tt) ;;; try_handle_panic.

(** The panic handler; [loop {}] when it could not leave the hypervisor. A panic
    inside of it starts it again on top, [fuel] times at most. *)
Fixpoint panic_handler (fuel : nat) (w : World V) : outcome Esc unit * World V :=
  match panic_body w with
  | (Err BackInLinux, w') => (Err BackInLinux, w')
  | (Panic, w') => match fuel with O => (Diverge, w') | S fuel => panic_handler fuel w' end
  | (_, w') => (Diverge, w')
  end.

(** A function of the hypervisor as it runs on the machine: its panics go to
    the handler. *)
Definition guarded {A} (fuel : nat) (c : M (World V) Esc A) : M (World V) Esc A := fun w =>
  match c w with
  | (Panic, w') => match panic_handler fuel w' with
                   | (Err e, w2) => (Err e, w2)
                   | (Panic, w2) => (Panic, w2)
                   | (_, w2) => (Diverge, w2)
                   end
  | r => r
  end.

Lemma panic_handler_step fuel w :
  panic_handler fuel w =
  match panic_body w with
  | (Err BackInLinux, w') => (Err BackInLinux, w')
  | (Panic, w') => match fuel with O => (Diverge, w') | S fuel => panic_handler fuel w' end
  | (_, w') => (Diverge, w')
  end.
Proof. by destruct fuel. Qed.

Lemma deactivate_eq ret_code w :
  deactivate_vmm hw_seg_base ret_code w =
  let p := w_percpu w in
  let n := wrap 32 (w_activated w - 1) in
  match vcpu_exit ((w_cpu w, regs_mut (with_rax ret_code (wregs w)) (vcpu p)), linux p) with
  | (Ok _, ((c, v), l)) =>
      match restore hw_seg_base (E := HvErrorNum) l c with
      | (Ok _, c') =>
          (Err BackInLinux, mkWorld (msr_write IA32_GS_BASE (base (l_gs l)) c')
             (mkPerCpu (self_vaddr p) (id p) HvDisabled v l) n (w_try_disable w))
      | (o, c') => (match o with Err e => Err (Fail e) | Panic => Panic | _ => Diverge end,
                    mkWorld c' (mkPerCpu (self_vaddr p) (id p) (state p) v l) n (w_try_disable w))
      end
  | (o, ((c, v), l)) =>
      (match o with Err e => Err (Fail e) | Panic => Panic | _ => Diverge end,
       mkWorld c (mkPerCpu (self_vaddr p) (id p) (state p) v l) n (w_try_disable w))
  end.
Proof.
  unfold deactivate_vmm, set_return_val, set_regs, get_regs, bind, gets, modify, upd, throw, wregs. cbv zeta.
  cbn [w_try_disable w_percpu w_cpu w_activated with_vcpu vcpu linux self_vaddr id state].
  destruct (vcpu_exit _) as [o [[c v] l]]. destruct o; cbn [map_err]; try done.
  cbn [w_percpu w_cpu linux]. destruct (restore hw_seg_base l c) as [o c']. by destruct o.
Qed.

(** The handler starts again on top of itself, as long as the stack lasts. *)
Definition again {A} (fuel : nat) (w : World V) : outcome Esc A * World V :=
  match fuel with O => (Diverge, w) | S n => guarded n panic w end.

(** C34. A panic of the hypervisor on every branch. On a processor on which it is
    not enabled, and when the vCPU cannot be turned off, the processor stops.
    Otherwise Linux goes on natively as if the hypervisor had been disabled,
    with RAX of the guest telling a hypercall that it failed. A second panic on
    the way out starts the handler again. If the message is printed and the vCPU
    cannot be read for it, the processor stops with the console locked. *)
Theorem panic_branches fuel A (c : M (World V) Esc A) w w1 :
  c w = (Panic, w1) ->
  let p := w_percpu w1 in
  let res := guarded fuel c w in
  match state p with
  | HvDisabled => res = (Diverge, w1)
  | HvEnabled =>
      (error_on = true -> fst (vcpu_debug (wst w1)) = Panic -> fst res = Diverge) /\
      forall b, (error_on = true -> vcpu_debug (wst w1) = (Ok tt, wst w1)) -> in_hypercall (wst w1) = (Ok b, wst w1) ->
      let ret_code := if b then 2 ^ 64 - 5 else 0 in
      let active := wrap 32 (w_activated w1 - 1) in
      match vcpu_exit ((w_cpu w1, regs_mut (with_rax ret_code (wregs w1)) (vcpu p)), linux p) with
      | (Ok _, ((c1, v), l)) =>
          match restore hw_seg_base (E := HvErrorNum) l c1 with
          | (Ok _, c2) =>
              res = (Err BackInLinux, mkWorld (msr_write IA32_GS_BASE (base (l_gs l)) c2)
                       (mkPerCpu (self_vaddr p) (id p) HvDisabled v l) active (w_try_disable w1))
          | (Panic, c2) =>
              res = again fuel (mkWorld c2 (mkPerCpu (self_vaddr p) (id p) HvEnabled v l) active (w_try_disable w1))
          | _ => fst res = Diverge
          end
      | (Panic, ((c1, v), l)) =>
          res = again fuel (mkWorld c1 (mkPerCpu (self_vaddr p) (id p) HvEnabled v l) active (w_try_disable w1))
      | _ => fst res = Diverge
      end
  end.
Proof.
  intros Hc. cbv zeta. unfold guarded. rewrite Hc.
  destruct (state (w_percpu w1)) eqn:Hst.
  - rewrite panic_handler_step. unfold panic_body, try_handle_panic.
    rewrite (bind_ok _ _ w1 tt w1), bind_gets; [cbv beta; by rewrite Hst|].
    destruct error_on; [|done]. unfold under_console_lock, percpu_debug. rewrite bind_gets. cbv beta. by rewrite Hst.
  - assert (percpu_debug w1 = on_vcpu vcpu_debug w1) as Hpd by (unfold percpu_debug; rewrite bind_gets; cbv beta; by rewrite Hst).
    split.
    { intros Hon Hd. rewrite panic_handler_step. unfold panic_body. rewrite Hon. unfold bind, under_console_lock.
      rewrite Hpd. unfold on_vcpu. fold (wst w1). destruct (vcpu_debug (wst w1)) as [o [c' v']]. cbn in Hd. by rewrite Hd. }
    intros b Hd Hb.
    assert (panic_body w1 = deactivate_vmm hw_seg_base (if b then 2 ^ 64 - 5 else 0) w1) as Hp.
    { unfold panic_body, try_handle_panic. rewrite (bind_ok _ _ w1 tt w1), bind_gets.
      - cbv beta. rewrite Hst. cbn [enabled]. by rewrite (bind_ok _ _ w1 b w1) by (by apply on_vcpu_read).
      - destruct error_on; [|done]. unfold under_console_lock. by rewrite Hpd, (on_vcpu_read _ _ w1 tt (Hd eq_refl)). }
    rewrite panic_handler_step, Hp, deactivate_eq. cbv zeta. rewrite Hst.
    destruct (vcpu_exit _) as [[[]|e| |] [[c1 v] l]]; try done; [|by destruct fuel].
    destruct (restore hw_seg_base l c1) as [[[]|e| |] c2]; try done. by destruct fuel.
Qed.
End Panic.
