(* ===== verification/Svm.v ===== *)
(** * The SVM definitions of libvmm

    [src/crates/libvmm/src/x86_64/svm/definitions.rs] ([SvmExitCode],
    [SvmIntercept]), [flags.rs] ([VmCrFlags], [VmcbCleanBits], [VmcbIntInfo],
    [InterruptType], [VmcbTlbControl]) and [vmcb.rs] ([Vmcb], its layout,
    [set_intercept], [inject_event], [VmExitInfo]). *)

From stdpp Require Import strings.
From S2P Require Import Prelude Crates X86.

(** [x as i64]. *)
Definition as_i64 (x : Z) : Z := if x <? 2 ^ 63 then x else x - 2 ^ 64.

Module SvmExitCode.
Inductive t : Type :=
| CR_READ (n : Z) | CR_WRITE (n : Z) | DR_READ (n : Z) | DR_WRITE (n : Z)
| EXCP (n : Z) | INTR | NMI | SMI | INIT | VINTR | CR0_SEL_WRITE | IDTR_READ
| GDTR_READ | LDTR_READ | TR_READ | IDTR_WRITE | GDTR_WRITE | LDTR_WRITE | TR_WRITE
| RDTSC | RDPMC | PUSHF | POPF | CPUID | RSM | IRET | SWINT | INVD | PAUSE | HLT
| INVLPG | INVLPGA | IOIO | MSR | TASK_SWITCH | FERR_FREEZE | SHUTDOWN | VMRUN
| VMMCALL | VMLOAD | VMSAVE | STGI | CLGI | SKINIT | RDTSCP | ICEBP | WBINVD | MONITOR
| MWAIT | MWAIT_CONDITIONAL | XSETBV | RDPRU | EFER_WRITE_TRAP | CR_WRITE_TRAP (n : Z)
| INVLPGB | INVLPGB_ILLEGAL | INVPCID | MCOMMIT | TLBSYNC | NPF | AVIC_INCOMPLETE_IPI
| AVIC_NOACCEL | VMGEXIT | INVALID | BUSY.

(** [impl TryFrom<u64> for SvmExitCode]; the value is matched as an [i64]. *)
Definition try_from (val : Z) : outcome Z t :=
  let v := as_i64 val in
  if (0x00 <=? v) && (v <=? 0x0F) then Ok (CR_READ (wrap 8 val)) else
  if (0x10 <=? v) && (v <=? 0x1F) then Ok (CR_WRITE (wrap 8 (wrap 8 val - 0x10))) else
  if (0x20 <=? v) && (v <=? 0x2F) then Ok (DR_READ (wrap 8 (wrap 8 val - 0x20))) else
  if (0x30 <=? v) && (v <=? 0x3F) then Ok (DR_WRITE (wrap 8 (wrap 8 val - 0x30))) else
  if (0x40 <=? v) && (v <=? 0x5F) then Ok (EXCP (wrap 8 (wrap 8 val - 0x40))) else
  if v =? 0x60 then Ok INTR else
  if v =? 0x61 then Ok NMI else
  if v =? 0x62 then Ok SMI else
  if v =? 0x63 then Ok INIT else
  if v =? 0x64 then Ok VINTR else
  if v =? 0x65 then Ok CR0_SEL_WRITE else
  if v =? 0x66 then Ok IDTR_READ else
  if v =? 0x67 then Ok GDTR_READ else
  if v =? 0x68 then Ok LDTR_READ else
  if v =? 0x69 then Ok TR_READ else
  if v =? 0x6A then Ok IDTR_WRITE else
  if v =? 0x6B then Ok GDTR_WRITE else
  if v =? 0x6C then Ok LDTR_WRITE else
  if v =? 0x6D then Ok TR_WRITE else
  if v =? 0x6E then Ok RDTSC else
  if v =? 0x6F then Ok RDPMC else
  if v =? 0x70 then Ok PUSHF else
  if v =? 0x71 then Ok POPF else
  if v =? 0x72 then Ok CPUID else
  if v =? 0x73 then Ok RSM else
  if v =? 0x74 then Ok IRET else
  if v =? 0x75 then Ok SWINT else
  if v =? 0x76 then Ok INVD else
  if v =? 0x77 then Ok PAUSE else
  if v =? 0x78 then Ok HLT else
  if v =? 0x79 then Ok INVLPG else
  if v =? 0x7A then Ok INVLPGA else
  if v =? 0x7B then Ok IOIO else
  if v =? 0x7C then Ok MSR else
  if v =? 0x7D then Ok TASK_SWITCH else
  if v =? 0x7E then Ok FERR_FREEZE else
  if v =? 0x7F then Ok SHUTDOWN else
  if v =? 0x80 then Ok VMRUN else
  if v =? 0x81 then Ok VMMCALL else
  if v =? 0x82 then Ok VMLOAD else
  if v =? 0x83 then Ok VMSAVE else
  if v =? 0x84 then Ok STGI else
  if v =? 0x85 then Ok CLGI else
  if v =? 0x86 then Ok SKINIT else
  if v =? 0x87 then Ok RDTSCP else
  if v =? 0x88 then Ok ICEBP else
  if v =? 0x89 then Ok WBINVD else
  if v =? 0x8A then Ok MONITOR else
  if v =? 0x8B then Ok MWAIT else
  if v =? 0x8C then Ok MWAIT_CONDITIONAL else
  if v =? 0x8D then Ok XSETBV else
  if v =? 0x8E then Ok RDPRU else
  if v =? 0x8F then Ok EFER_WRITE_TRAP else
  if (0x90 <=? v) && (v <=? 0x9F) then Ok (CR_WRITE_TRAP (wrap 8 (wrap 8 val - 0x90))) else
  if v =? 0xA0 then Ok INVLPGB else
  if v =? 0xA1 then Ok INVLPGB_ILLEGAL else
  if v =? 0xA2 then Ok INVPCID else
  if v =? 0xA3 then Ok MCOMMIT else
  if v =? 0xA4 then Ok TLBSYNC else
  if v =? 0x400 then Ok NPF else
  if v =? 0x401 then Ok AVIC_INCOMPLETE_IPI else
  if v =? 0x402 then Ok AVIC_NOACCEL else
  if v =? 0x403 then Ok VMGEXIT else
  if v =? -1 then Ok INVALID else
  if v =? -2 then Ok BUSY else
  Err val.

(** The exit codes of the architecture manual, appendix C. *)
Definition code (c : t) : Z :=
  match c with
  | CR_READ n => n
  | CR_WRITE n => 0x10 + n
  | DR_READ n => 0x20 + n
  | DR_WRITE n => 0x30 + n
  | EXCP n => 0x40 + n
  | INTR => 0x60
  | NMI => 0x61
  | SMI => 0x62
  | INIT => 0x63
  | VINTR => 0x64
  | CR0_SEL_WRITE => 0x65
  | IDTR_READ => 0x66
  | GDTR_READ => 0x67
  | LDTR_READ => 0x68
  | TR_READ => 0x69
  | IDTR_WRITE => 0x6A
  | GDTR_WRITE => 0x6B
  | LDTR_WRITE => 0x6C
  | TR_WRITE => 0x6D
  | RDTSC => 0x6E
  | RDPMC => 0x6F
  | PUSHF => 0x70
  | POPF => 0x71
  | CPUID => 0x72
  | RSM => 0x73
  | IRET => 0x74
  | SWINT => 0x75
  | INVD => 0x76
  | PAUSE => 0x77
  | HLT => 0x78
  | INVLPG => 0x79
  | INVLPGA => 0x7A
  | IOIO => 0x7B
  | MSR => 0x7C
  | TASK_SWITCH => 0x7D
  | FERR_FREEZE => 0x7E
  | SHUTDOWN => 0x7F
  | VMRUN => 0x80
  | VMMCALL => 0x81
  | VMLOAD => 0x82
  | VMSAVE => 0x83
  | STGI => 0x84
  | CLGI => 0x85
  | SKINIT => 0x86
  | RDTSCP => 0x87
  | ICEBP => 0x88
  | WBINVD => 0x89
  | MONITOR => 0x8A
  | MWAIT => 0x8B
  | MWAIT_CONDITIONAL => 0x8C
  | XSETBV => 0x8D
  | RDPRU => 0x8E
  | EFER_WRITE_TRAP => 0x8F
  | CR_WRITE_TRAP n => 0x90 + n
  | INVLPGB => 0xA0
  | INVLPGB_ILLEGAL => 0xA1
  | INVPCID => 0xA2
  | MCOMMIT => 0xA3
  | TLBSYNC => 0xA4
  | NPF => 0x400
  | AVIC_INCOMPLETE_IPI => 0x401
  | AVIC_NOACCEL => 0x402
  | VMGEXIT => 0x403
  | INVALID => 2 ^ 64 - 1
  | BUSY => 2 ^ 64 - 2
  end.

Definition valid (c : t) : Prop :=
  match c with
  | CR_READ n => 0 <= n < 16
  | CR_WRITE n => 0 <= n < 16
  | DR_READ n => 0 <= n < 16
  | DR_WRITE n => 0 <= n < 16
  | EXCP n => 0 <= n < 32
  | CR_WRITE_TRAP n => 0 <= n < 16
  | _ => True
  end.

End SvmExitCode.

Module SvmIntercept.
Inductive t : Type :=
| INTR | NMI | SMI | INIT | VINTR | CR0_SEL_WRITE | IDTR_READ | GDTR_READ | LDTR_READ
| TR_READ | IDTR_WRITE | GDTR_WRITE | LDTR_WRITE | TR_WRITE | RDTSC | RDPMC | PUSHF
| POPF | CPUID | RSM | IRET | SWINT | INVD | PAUSE | HLT | INVLPG | INVLPGA | IOIO_PROT
| MSR_PROT | TASK_SWITCH | FERR_FREEZE | SHUTDOWN | VMRUN | VMMCALL | VMLOAD | VMSAVE
| STGI | CLGI | SKINIT | RDTSCP | ICEBP | WBINVD | MONITOR | MWAIT | MWAIT_CONDITIONAL
| XSETBV | RDPRU | EFER_WRITE_TRAP | INVLPGB | INVLPGB_ILLEGAL | INVPCID | MCOMMIT
| TLBSYNC.

Definition bits (i : t) : Z :=
  match i with
  | INTR => 0x60
  | NMI => 0x61
  | SMI => 0x62
  | INIT => 0x63
  | VINTR => 0x64
  | CR0_SEL_WRITE => 0x65
  | IDTR_READ => 0x66
  | GDTR_READ => 0x67
  | LDTR_READ => 0x68
  | TR_READ => 0x69
  | IDTR_WRITE => 0x6A
  | GDTR_WRITE => 0x6B
  | LDTR_WRITE => 0x6C
  | TR_WRITE => 0x6D
  | RDTSC => 0x6E
  | RDPMC => 0x6F
  | PUSHF => 0x70
  | POPF => 0x71
  | CPUID => 0x72
  | RSM => 0x73
  | IRET => 0x74
  | SWINT => 0x75
  | INVD => 0x76
  | PAUSE => 0x77
  | HLT => 0x78
  | INVLPG => 0x79
  | INVLPGA => 0x7A
  | IOIO_PROT => 0x7B
  | MSR_PROT => 0x7C
  | TASK_SWITCH => 0x7D
  | FERR_FREEZE => 0x7E
  | SHUTDOWN => 0x7F
  | VMRUN => 0x80
  | VMMCALL => 0x81
  | VMLOAD => 0x82
  | VMSAVE => 0x83
  | STGI => 0x84
  | CLGI => 0x85
  | SKINIT => 0x86
  | RDTSCP => 0x87
  | ICEBP => 0x88
  | WBINVD => 0x89
  | MONITOR => 0x8A
  | MWAIT => 0x8B
  | MWAIT_CONDITIONAL => 0x8C
  | XSETBV => 0x8D
  | RDPRU => 0x8E
  | EFER_WRITE_TRAP => 0x8F
  | INVLPGB => 0xA0
  | INVLPGB_ILLEGAL => 0xA1
  | INVPCID => 0xA2
  | MCOMMIT => 0xA3
  | TLBSYNC => 0xA4
  end.
End SvmIntercept.

(** ** Flags *)
Definition VMCR_DPD : Z := Z.shiftl 1 0.
Definition VMCR_R_INIT : Z := Z.shiftl 1 1.
Definition VMCR_DIS_A20M : Z := Z.shiftl 1 2.
Definition VMCR_LOCK : Z := Z.shiftl 1 3.
Definition VMCR_SVMDIS : Z := Z.shiftl 1 4.
Definition VmCrFlags_all : Z :=
  foldr Z.lor 0 [VMCR_DPD; VMCR_R_INIT; VMCR_DIS_A20M; VMCR_LOCK; VMCR_SVMDIS].

(** [VmCr::read]. *)
Definition VmCr_read (c : Cpu) : Z := truncate VmCrFlags_all (msr_read VM_CR c).

(** [VmcbCleanBits]: the groups of VMCB fields the processor may cache. *)
Inductive CleanBit : Type :=
| CB_I | CB_IOPM | CB_ASID | CB_TPR | CB_NP | CB_CR_X | CB_DR_X | CB_DT | CB_SEG | CB_CR2 | CB_LBR
| CB_AVIC | CB_CET.

Definition clean_bit (b : CleanBit) : Z :=
  match b with
  | CB_I => Z.shiftl 1 0 | CB_IOPM => Z.shiftl 1 1 | CB_ASID => Z.shiftl 1 2 | CB_TPR => Z.shiftl 1 3
  | CB_NP => Z.shiftl 1 4 | CB_CR_X => Z.shiftl 1 5 | CB_DR_X => Z.shiftl 1 6 | CB_DT => Z.shiftl 1 7
  | CB_SEG => Z.shiftl 1 8 | CB_CR2 => Z.shiftl 1 9 | CB_LBR => Z.shiftl 1 10 | CB_AVIC => Z.shiftl 1 11
  | CB_CET => Z.shiftl 1 12
  end.

Definition VmcbCleanBits_empty : Z := 0.
Definition VmcbCleanBits_UNMODIFIED : Z := 0xffffffff.

Definition INTINFO_ERROR_CODE : Z := Z.shiftl 1 11.
Definition INTINFO_VALID : Z := Z.shiftl 1 31.

Inductive SvmInterruptType : Type := SvmExternal | SvmNMI | SvmException | SvmSoftIntr.
Definition svm_intr_bits (t : SvmInterruptType) : Z :=
  match t with SvmExternal => 0 | SvmNMI => 2 | SvmException => 3 | SvmSoftIntr => 4 end.

(** The vectors of [x86::irq] with an error code: #DF, #TS, #NP, #SS, #GP, #PF
    and #AC. *)
Definition has_error_code (vector : Z) : bool :=
  existsb (Z.eqb vector) [8; 10; 11; 12; 13; 14; 17].

Inductive VmcbTlbControl : Type := DoNotFlush | FlushAll | FlushAsid | FlushAsidNonGlobal.
Definition tlb_bits (t : VmcbTlbControl) : Z :=
  match t with DoNotFlush => 0 | FlushAll => 0x01 | FlushAsid => 0x03 | FlushAsidNonGlobal => 0x07 end.

(** [VmcbIntInfo::from]. *)
Definition VmcbIntInfo_from {bf : BitField} (int_type : SvmInterruptType) (vector : Z) : option Z :=
  match bf_set_bits 32 vector 8 11 (svm_intr_bits int_type) with
  | Some bits =>
      let info := Z.lor bits INTINFO_VALID in
      Some (if has_error_code vector then Z.lor info INTINFO_ERROR_CODE else info)
  | None => None
  end.

(** ** The VMCB *)
Record VmcbControlArea : Type := mkControl {
  ct_intercept_cr : Z; ct_intercept_dr : Z; ct_intercept_exceptions : Z;
  ct_intercept_vector3 : Z; ct_intercept_vector4 : Z; ct_intercept_vector5 : Z;
  ct_pause_filter_thresh : Z; ct_pause_filter_count : Z; ct_iopm_base_pa : Z;
  ct_msrpm_base_pa : Z; ct_tsc_offset : Z; ct_guest_asid : Z; ct_tlb_control : Z;
  ct_int_control : Z; ct_int_vector : Z; ct_int_state : Z; ct_exit_code : Z; ct_exit_info_1 : Z;
  ct_exit_info_2 : Z; ct_exit_int_info : Z; ct_exit_int_info_err : Z; ct_np_enable : Z;
  ct_avic_vapic_bar : Z; ct_event_inj : Z; ct_event_inj_err : Z; ct_nest_cr3 : Z;
  ct_lbr_control : Z; ct_clean_bits : Z; ct_next_rip : Z; ct_insn_len : Z;
  ct_insn_bytes : list Z; ct_avic_backing_page : Z; ct_avic_logical_id : Z;
  ct_avic_physical_id : Z;
}.

Record VmcbSegment : Type := mkVmcbSegment {
  v_selector : Z; v_attr : Z; v_limit : Z; v_base : Z;
}.

Record VmcbStateSaveArea : Type := mkSave {
  s_es : VmcbSegment; s_cs : VmcbSegment; s_ss : VmcbSegment; s_ds : VmcbSegment;
  s_fs : VmcbSegment; s_gs : VmcbSegment; s_gdtr : VmcbSegment; s_ldtr : VmcbSegment;
  s_idtr : VmcbSegment; s_tr : VmcbSegment; s_cpl : Z; s_efer : Z; s_cr4 : Z; s_cr3 : Z;
  s_cr0 : Z; s_dr7 : Z; s_dr6 : Z; s_rflags : Z; s_rip : Z; s_rsp : Z; s_s_cet : Z;
  s_ssp : Z; s_isst_addr : Z; s_rax : Z; s_star : Z; s_lstar : Z; s_cstar : Z;
  s_sfmask : Z; s_kernel_gs_base : Z; s_sysenter_cs : Z; s_sysenter_esp : Z;
  s_sysenter_eip : Z; s_cr2 : Z; s_g_pat : Z; s_dbgctl : Z; s_br_from : Z; s_br_to : Z;
  s_last_excp_from : Z; s_last_excp_to : Z;
}.

Record Vmcb : Type := mkVmcb { control : VmcbControlArea; save : VmcbStateSaveArea }.

Definition Vmcb_default : Vmcb :=
  let z := mkVmcbSegment 0 0 0 0 in
  mkVmcb (mkControl 0 0 0 0 0 0 0 0 0 0 0 0 0 0 0 0 0 0 0 0 0 0 0 0 0 0 0 0 0 0
      [0; 0; 0; 0; 0; 0; 0; 0; 0; 0; 0; 0; 0; 0; 0] 0 0 0)
    (mkSave z z z z z z z z z z 0 0 0 0 0 0 0 0 0 0 0 0 0 0 0 0 0 0 0 0 0 0 0 0 0 0 0 0 0).

(** Assignments to one field. *)
Definition set_ct_intercept_vector3 (v : Z) (x : VmcbControlArea) : VmcbControlArea :=
  mkControl (ct_intercept_cr x) (ct_intercept_dr x) (ct_intercept_exceptions x) v
    (ct_intercept_vector4 x) (ct_intercept_vector5 x) (ct_pause_filter_thresh x)
    (ct_pause_filter_count x) (ct_iopm_base_pa x) (ct_msrpm_base_pa x) (ct_tsc_offset x)
    (ct_guest_asid x) (ct_tlb_control x) (ct_int_control x) (ct_int_vector x) (ct_int_state x)
    (ct_exit_code x) (ct_exit_info_1 x) (ct_exit_info_2 x) (ct_exit_int_info x)
    (ct_exit_int_info_err x) (ct_np_enable x) (ct_avic_vapic_bar x) (ct_event_inj x)
    (ct_event_inj_err x) (ct_nest_cr3 x) (ct_lbr_control x) (ct_clean_bits x) (ct_next_rip x)
    (ct_insn_len x) (ct_insn_bytes x) (ct_avic_backing_page x) (ct_avic_logical_id x)
    (ct_avic_physical_id x).
Definition set_ct_intercept_vector4 (v : Z) (x : VmcbControlArea) : VmcbControlArea :=
  mkControl (ct_intercept_cr x) (ct_intercept_dr x) (ct_intercept_exceptions x)
    (ct_intercept_vector3 x) v (ct_intercept_vector5 x) (ct_pause_filter_thresh x)
    (ct_pause_filter_count x) (ct_iopm_base_pa x) (ct_msrpm_base_pa x) (ct_tsc_offset x)
    (ct_guest_asid x) (ct_tlb_control x) (ct_int_control x) (ct_int_vector x) (ct_int_state x)
    (ct_exit_code x) (ct_exit_info_1 x) (ct_exit_info_2 x) (ct_exit_int_info x)
    (ct_exit_int_info_err x) (ct_np_enable x) (ct_avic_vapic_bar x) (ct_event_inj x)
    (ct_event_inj_err x) (ct_nest_cr3 x) (ct_lbr_control x) (ct_clean_bits x) (ct_next_rip x)
    (ct_insn_len x) (ct_insn_bytes x) (ct_avic_backing_page x) (ct_avic_logical_id x)
    (ct_avic_physical_id x).
Definition set_ct_intercept_vector5 (v : Z) (x : VmcbControlArea) : VmcbControlArea :=
  mkControl (ct_intercept_cr x) (ct_intercept_dr x) (ct_intercept_exceptions x)
    (ct_intercept_vector3 x) (ct_intercept_vector4 x) v (ct_pause_filter_thresh x)
    (ct_pause_filter_count x) (ct_iopm_base_pa x) (ct_msrpm_base_pa x) (ct_tsc_offset x)
    (ct_guest_asid x) (ct_tlb_control x) (ct_int_control x) (ct_int_vector x) (ct_int_state x)
    (ct_exit_code x) (ct_exit_info_1 x) (ct_exit_info_2 x) (ct_exit_int_info x)
    (ct_exit_int_info_err x) (ct_np_enable x) (ct_avic_vapic_bar x) (ct_event_inj x)
    (ct_event_inj_err x) (ct_nest_cr3 x) (ct_lbr_control x) (ct_clean_bits x) (ct_next_rip x)
    (ct_insn_len x) (ct_insn_bytes x) (ct_avic_backing_page x) (ct_avic_logical_id x)
    (ct_avic_physical_id x).
Definition set_ct_event_inj (v : Z) (x : VmcbControlArea) : VmcbControlArea :=
  mkControl (ct_intercept_cr x) (ct_intercept_dr x) (ct_intercept_exceptions x)
    (ct_intercept_vector3 x) (ct_intercept_vector4 x) (ct_intercept_vector5 x)
    (ct_pause_filter_thresh x) (ct_pause_filter_count x) (ct_iopm_base_pa x)
    (ct_msrpm_base_pa x) (ct_tsc_offset x) (ct_guest_asid x) (ct_tlb_control x)
    (ct_int_control x) (ct_int_vector x) (ct_int_state x) (ct_exit_code x) (ct_exit_info_1 x)
    (ct_exit_info_2 x) (ct_exit_int_info x) (ct_exit_int_info_err x) (ct_np_enable x)
    (ct_avic_vapic_bar x) v (ct_event_inj_err x) (ct_nest_cr3 x) (ct_lbr_control x)
    (ct_clean_bits x) (ct_next_rip x) (ct_insn_len x) (ct_insn_bytes x)
    (ct_avic_backing_page x) (ct_avic_logical_id x) (ct_avic_physical_id x).
Definition set_ct_event_inj_err (v : Z) (x : VmcbControlArea) : VmcbControlArea :=
  mkControl (ct_intercept_cr x) (ct_intercept_dr x) (ct_intercept_exceptions x)
    (ct_intercept_vector3 x) (ct_intercept_vector4 x) (ct_intercept_vector5 x)
    (ct_pause_filter_thresh x) (ct_pause_filter_count x) (ct_iopm_base_pa x)
    (ct_msrpm_base_pa x) (ct_tsc_offset x) (ct_guest_asid x) (ct_tlb_control x)
    (ct_int_control x) (ct_int_vector x) (ct_int_state x) (ct_exit_code x) (ct_exit_info_1 x)
    (ct_exit_info_2 x) (ct_exit_int_info x) (ct_exit_int_info_err x) (ct_np_enable x)
    (ct_avic_vapic_bar x) (ct_event_inj x) v (ct_nest_cr3 x) (ct_lbr_control x)
    (ct_clean_bits x) (ct_next_rip x) (ct_insn_len x) (ct_insn_bytes x)
    (ct_avic_backing_page x) (ct_avic_logical_id x) (ct_avic_physical_id x).
Definition set_ct_clean_bits (v : Z) (x : VmcbControlArea) : VmcbControlArea :=
  mkControl (ct_intercept_cr x) (ct_intercept_dr x) (ct_intercept_exceptions x)
    (ct_intercept_vector3 x) (ct_intercept_vector4 x) (ct_intercept_vector5 x)
    (ct_pause_filter_thresh x) (ct_pause_filter_count x) (ct_iopm_base_pa x)
    (ct_msrpm_base_pa x) (ct_tsc_offset x) (ct_guest_asid x) (ct_tlb_control x)
    (ct_int_control x) (ct_int_vector x) (ct_int_state x) (ct_exit_code x) (ct_exit_info_1 x)
    (ct_exit_info_2 x) (ct_exit_int_info x) (ct_exit_int_info_err x) (ct_np_enable x)
    (ct_avic_vapic_bar x) (ct_event_inj x) (ct_event_inj_err x) (ct_nest_cr3 x)
    (ct_lbr_control x) v (ct_next_rip x) (ct_insn_len x) (ct_insn_bytes x)
    (ct_avic_backing_page x) (ct_avic_logical_id x) (ct_avic_physical_id x).
Definition set_s_gs (v : VmcbSegment) (x : VmcbStateSaveArea) : VmcbStateSaveArea :=
  mkSave (s_es x) (s_cs x) (s_ss x) (s_ds x) (s_fs x) v (s_gdtr x) (s_ldtr x) (s_idtr x)
    (s_tr x) (s_cpl x) (s_efer x) (s_cr4 x) (s_cr3 x) (s_cr0 x) (s_dr7 x) (s_dr6 x)
    (s_rflags x) (s_rip x) (s_rsp x) (s_s_cet x) (s_ssp x) (s_isst_addr x) (s_rax x) (s_star x)
    (s_lstar x) (s_cstar x) (s_sfmask x) (s_kernel_gs_base x) (s_sysenter_cs x)
    (s_sysenter_esp x) (s_sysenter_eip x) (s_cr2 x) (s_g_pat x) (s_dbgctl x) (s_br_from x)
    (s_br_to x) (s_last_excp_from x) (s_last_excp_to x).
Definition set_s_cr0 (v : Z) (x : VmcbStateSaveArea) : VmcbStateSaveArea :=
  mkSave (s_es x) (s_cs x) (s_ss x) (s_ds x) (s_fs x) (s_gs x) (s_gdtr x) (s_ldtr x)
    (s_idtr x) (s_tr x) (s_cpl x) (s_efer x) (s_cr4 x) (s_cr3 x) v (s_dr7 x) (s_dr6 x)
    (s_rflags x) (s_rip x) (s_rsp x) (s_s_cet x) (s_ssp x) (s_isst_addr x) (s_rax x) (s_star x)
    (s_lstar x) (s_cstar x) (s_sfmask x) (s_kernel_gs_base x) (s_sysenter_cs x)
    (s_sysenter_esp x) (s_sysenter_eip x) (s_cr2 x) (s_g_pat x) (s_dbgctl x) (s_br_from x)
    (s_br_to x) (s_last_excp_from x) (s_last_excp_to x).
Definition set_s_cr3 (v : Z) (x : VmcbStateSaveArea) : VmcbStateSaveArea :=
  mkSave (s_es x) (s_cs x) (s_ss x) (s_ds x) (s_fs x) (s_gs x) (s_gdtr x) (s_ldtr x)
    (s_idtr x) (s_tr x) (s_cpl x) (s_efer x) (s_cr4 x) v (s_cr0 x) (s_dr7 x) (s_dr6 x)
    (s_rflags x) (s_rip x) (s_rsp x) (s_s_cet x) (s_ssp x) (s_isst_addr x) (s_rax x) (s_star x)
    (s_lstar x) (s_cstar x) (s_sfmask x) (s_kernel_gs_base x) (s_sysenter_cs x)
    (s_sysenter_esp x) (s_sysenter_eip x) (s_cr2 x) (s_g_pat x) (s_dbgctl x) (s_br_from x)
    (s_br_to x) (s_last_excp_from x) (s_last_excp_to x).
Definition set_s_cr4 (v : Z) (x : VmcbStateSaveArea) : VmcbStateSaveArea :=
  mkSave (s_es x) (s_cs x) (s_ss x) (s_ds x) (s_fs x) (s_gs x) (s_gdtr x) (s_ldtr x)
    (s_idtr x) (s_tr x) (s_cpl x) (s_efer x) v (s_cr3 x) (s_cr0 x) (s_dr7 x) (s_dr6 x)
    (s_rflags x) (s_rip x) (s_rsp x) (s_s_cet x) (s_ssp x) (s_isst_addr x) (s_rax x) (s_star x)
    (s_lstar x) (s_cstar x) (s_sfmask x) (s_kernel_gs_base x) (s_sysenter_cs x)
    (s_sysenter_esp x) (s_sysenter_eip x) (s_cr2 x) (s_g_pat x) (s_dbgctl x) (s_br_from x)
    (s_br_to x) (s_last_excp_from x) (s_last_excp_to x).
Definition set_s_rip (v : Z) (x : VmcbStateSaveArea) : VmcbStateSaveArea :=
  mkSave (s_es x) (s_cs x) (s_ss x) (s_ds x) (s_fs x) (s_gs x) (s_gdtr x) (s_ldtr x)
    (s_idtr x) (s_tr x) (s_cpl x) (s_efer x) (s_cr4 x) (s_cr3 x) (s_cr0 x) (s_dr7 x) (s_dr6 x)
    (s_rflags x) v (s_rsp x) (s_s_cet x) (s_ssp x) (s_isst_addr x) (s_rax x) (s_star x)
    (s_lstar x) (s_cstar x) (s_sfmask x) (s_kernel_gs_base x) (s_sysenter_cs x)
    (s_sysenter_esp x) (s_sysenter_eip x) (s_cr2 x) (s_g_pat x) (s_dbgctl x) (s_br_from x)
    (s_br_to x) (s_last_excp_from x) (s_last_excp_to x).
Definition set_s_rsp (v : Z) (x : VmcbStateSaveArea) : VmcbStateSaveArea :=
  mkSave (s_es x) (s_cs x) (s_ss x) (s_ds x) (s_fs x) (s_gs x) (s_gdtr x) (s_ldtr x)
    (s_idtr x) (s_tr x) (s_cpl x) (s_efer x) (s_cr4 x) (s_cr3 x) (s_cr0 x) (s_dr7 x) (s_dr6 x)
    (s_rflags x) (s_rip x) v (s_s_cet x) (s_ssp x) (s_isst_addr x) (s_rax x) (s_star x)
    (s_lstar x) (s_cstar x) (s_sfmask x) (s_kernel_gs_base x) (s_sysenter_cs x)
    (s_sysenter_esp x) (s_sysenter_eip x) (s_cr2 x) (s_g_pat x) (s_dbgctl x) (s_br_from x)
    (s_br_to x) (s_last_excp_from x) (s_last_excp_to x).
Definition set_s_rax (v : Z) (x : VmcbStateSaveArea) : VmcbStateSaveArea :=
  mkSave (s_es x) (s_cs x) (s_ss x) (s_ds x) (s_fs x) (s_gs x) (s_gdtr x) (s_ldtr x)
    (s_idtr x) (s_tr x) (s_cpl x) (s_efer x) (s_cr4 x) (s_cr3 x) (s_cr0 x) (s_dr7 x) (s_dr6 x)
    (s_rflags x) (s_rip x) (s_rsp x) (s_s_cet x) (s_ssp x) (s_isst_addr x) v (s_star x)
    (s_lstar x) (s_cstar x) (s_sfmask x) (s_kernel_gs_base x) (s_sysenter_cs x)
    (s_sysenter_esp x) (s_sysenter_eip x) (s_cr2 x) (s_g_pat x) (s_dbgctl x) (s_br_from x)
    (s_br_to x) (s_last_excp_from x) (s_last_excp_to x).

(** The fields a clean bit stands for, as the comments of [VmcbCleanBits] list
    them. *)
Definition seg_words (s : VmcbSegment) : list Z := [v_selector s; v_base s; v_limit s; v_attr s].

Definition cached (b : CleanBit) (v : Vmcb) : list Z :=
  let c := control v in
  let s := save v in
  match b with
  | CB_I => [ct_intercept_cr c; ct_intercept_dr c; ct_intercept_exceptions c; ct_intercept_vector3 c;
             ct_intercept_vector4 c; ct_intercept_vector5 c; ct_tsc_offset c; ct_pause_filter_count c]
  | CB_IOPM => [ct_iopm_base_pa c; ct_msrpm_base_pa c]
  | CB_ASID => [ct_guest_asid c]
  | CB_TPR => [ct_int_control c; ct_int_vector c]
  | CB_NP => [ct_nest_cr3 c; s_g_pat s]
  | CB_CR_X => [s_cr0 s; s_cr3 s; s_cr4 s; s_efer s]
  | CB_DR_X => [s_dr6 s; s_dr7 s]
  | CB_DT => [v_limit (s_gdtr s); v_base (s_gdtr s); v_limit (s_idtr s); v_base (s_idtr s)]
  | CB_SEG => seg_words (s_cs s) ++ seg_words (s_ds s) ++ seg_words (s_ss s) ++ seg_words (s_es s) ++ [s_cpl s]
  | CB_CR2 => [s_cr2 s]
  | CB_LBR => [s_dbgctl s; s_br_from s; s_br_to s; s_last_excp_from s; s_last_excp_to s]
  | CB_AVIC => [ct_avic_vapic_bar c; ct_avic_backing_page c; ct_avic_physical_id c; ct_avic_logical_id c]
  | CB_CET => [s_s_cet s; s_ssp s; s_isst_addr s]
  end.

(** [Vmcb::set_intercept]. *)
Definition set_intercept (which : SvmIntercept.t) (v : Vmcb) : Vmcb :=
  let val := SvmIntercept.bits which in
  let c := control v in
  let flag lo := wrap 32 (Z.shiftl 1 (val - lo)) in
  if (0x60 <=? val) && (val <=? 0x7F) then
    mkVmcb (set_ct_intercept_vector3 (Z.lor (ct_intercept_vector3 c) (flag 0x60)) c) (save v)
  else if (0x80 <=? val) && (val <=? 0x8F) then
    mkVmcb (set_ct_intercept_vector4 (Z.lor (ct_intercept_vector4 c) (flag 0x80)) c) (save v)
  else if (0xA0 <=? val) && (val <=? 0xA4) then
    mkVmcb (set_ct_intercept_vector5 (Z.lor (ct_intercept_vector5 c) (flag 0xA0)) c) (save v)
  else v.

Definition inject_event (info error_code : Z) (v : Vmcb) : Vmcb :=
  mkVmcb (set_ct_event_inj_err error_code (set_ct_event_inj info (control v))) (save v).

Record VmExitInfo : Type := mkExitInfo {
  exit_code : outcome Z SvmExitCode.t;
  exit_info_1 : Z; exit_info_2 : Z; guest_rip : Z; guest_next_rip : Z;
}.

Definition VmExitInfo_new (v : Vmcb) : VmExitInfo :=
  mkExitInfo (SvmExitCode.try_from (ct_exit_code (control v))) (ct_exit_info_1 (control v))
    (ct_exit_info_2 (control v)) (s_rip (save v)) (ct_next_rip (control v)).

(** ** The layout of the VMCB

    The fields of the two [repr(C)] structures with their sizes and
    alignments, and the placement of [repr(C)]: each field at the next offset
    its alignment allows. *)
Abbreviation layout := (list (string * (Z * Z))).

Definition round_up (n a : Z) : Z := (n + a - 1) / a * a.

Fixpoint offsets (off : Z) (l : layout) : list (string * Z) :=
  match l with
  | [] => []
  | (name, (size, align)) :: l' => let o := round_up off align in (name, o) :: offsets (o + size) l'
  end.

Fixpoint end_of (off : Z) (l : layout) : Z :=
  match l with
  | [] => off
  | (_, (size, align)) :: l' => end_of (round_up off align + size) l'
  end.

Definition size_of (align : Z) (l : layout) : Z := round_up (end_of 0 l) align.

Open Scope string_scope.

Definition control_layout : layout :=
  [("intercept_cr", (4, 4));
   ("intercept_dr", (4, 4));
   ("intercept_exceptions", (4, 4));
   ("intercept_vector3", (4, 4));
   ("intercept_vector4", (4, 4));
   ("intercept_vector5", (4, 4));
   ("_reserved1", (4 * 9, 4));
   ("pause_filter_thresh", (2, 2));
   ("pause_filter_count", (2, 2));
   ("iopm_base_pa", (8, 8));
   ("msrpm_base_pa", (8, 8));
   ("tsc_offset", (8, 8));
   ("guest_asid", (4, 4));
   ("tlb_control", (1, 1));
   ("_reserved2", (1 * 3, 1));
   ("int_control", (4, 4));
   ("int_vector", (4, 4));
   ("int_state", (4, 4));
   ("_reserved3", (1 * 4, 1));
   ("exit_code", (8, 8));
   ("exit_info_1", (8, 8));
   ("exit_info_2", (8, 8));
   ("exit_int_info", (4, 4));
   ("exit_int_info_err", (4, 4));
   ("np_enable", (1, 1));
   ("_reserved4", (1 * 3, 1));
   ("avic_vapic_bar", (8, 8));
   ("_reserved5", (1 * 8, 1));
   ("event_inj", (4, 4));
   ("event_inj_err", (4, 4));
   ("nest_cr3", (8, 8));
   ("lbr_control", (8, 8));
   ("clean_bits", (4, 4));
   ("_reserved6", (4, 4));
   ("next_rip", (8, 8));
   ("insn_len", (1, 1));
   ("insn_bytes", (1 * 15, 1));
   ("avic_backing_page", (8, 8));
   ("_reserved7", (1 * 8, 1));
   ("avic_logical_id", (8, 8));
   ("avic_physical_id", (8, 8))].

Definition save_layout : layout :=
  [("es", (16, 8));
   ("cs", (16, 8));
   ("ss", (16, 8));
   ("ds", (16, 8));
   ("fs", (16, 8));
   ("gs", (16, 8));
   ("gdtr", (16, 8));
   ("ldtr", (16, 8));
   ("idtr", (16, 8));
   ("tr", (16, 8));
   ("_reserved1", (1 * 43, 1));
   ("cpl", (1, 1));
   ("_reserved2", (1 * 4, 1));
   ("efer", (8, 8));
   ("_reserved3", (1 * 112, 1));
   ("cr4", (8, 8));
   ("cr3", (8, 8));
   ("cr0", (8, 8));
   ("dr7", (8, 8));
   ("dr6", (8, 8));
   ("rflags", (8, 8));
   ("rip", (8, 8));
   ("_reserved4", (1 * 88, 1));
   ("rsp", (8, 8));
   ("s_cet", (8, 8));
   ("ssp", (8, 8));
   ("isst_addr", (8, 8));
   ("rax", (8, 8));
   ("star", (8, 8));
   ("lstar", (8, 8));
   ("cstar", (8, 8));
   ("sfmask", (8, 8));
   ("kernel_gs_base", (8, 8));
   ("sysenter_cs", (8, 8));
   ("sysenter_esp", (8, 8));
   ("sysenter_eip", (8, 8));
   ("cr2", (8, 8));
   ("_reserved5", (1 * 32, 1));
   ("g_pat", (8, 8));
   ("dbgctl", (8, 8));
   ("br_from", (8, 8));
   ("br_to", (8, 8));
   ("last_excp_from", (8, 8));
   ("last_excp_to", (8, 8))].

(** The offsets of the architecture manual, appendix B, which the unit tests of
    [vmcb.rs] list. *)
Definition control_offsets : list (string * Z) :=
  [("intercept_cr", 0x00);
   ("intercept_dr", 0x04);
   ("intercept_exceptions", 0x08);
   ("intercept_vector3", 0x0C);
   ("intercept_vector4", 0x10);
   ("intercept_vector5", 0x14);
   ("pause_filter_thresh", 0x3C);
   ("pause_filter_count", 0x3E);
   ("iopm_base_pa", 0x40);
   ("msrpm_base_pa", 0x48);
   ("tsc_offset", 0x50);
   ("guest_asid", 0x58);
   ("tlb_control", 0x5C);
   ("int_control", 0x60);
   ("int_vector", 0x64);
   ("int_state", 0x68);
   ("exit_code", 0x70);
   ("exit_info_1", 0x78);
   ("exit_info_2", 0x80);
   ("exit_int_info", 0x88);
   ("exit_int_info_err", 0x8C);
   ("np_enable", 0x90);
   ("avic_vapic_bar", 0x98);
   ("event_inj", 0xA8);
   ("event_inj_err", 0xAC);
   ("nest_cr3", 0xB0);
   ("lbr_control", 0xB8);
   ("clean_bits", 0xC0);
   ("next_rip", 0xC8);
   ("insn_len", 0xD0);
   ("insn_bytes", 0xD1);
   ("avic_backing_page", 0xE0);
   ("avic_logical_id", 0xF0);
   ("avic_physical_id", 0xF8)].

Definition save_offsets : list (string * Z) :=
  [("es", 0x00);
   ("cs", 0x10);
   ("ss", 0x20);
   ("ds", 0x30);
   ("fs", 0x40);
   ("gs", 0x50);
   ("gdtr", 0x60);
   ("ldtr", 0x70);
   ("idtr", 0x80);
   ("tr", 0x90);
   ("cpl", 0xCB);
   ("efer", 0xD0);
   ("cr4", 0x148);
   ("cr3", 0x150);
   ("cr0", 0x158);
   ("dr7", 0x160);
   ("dr6", 0x168);
   ("rflags", 0x170);
   ("rip", 0x178);
   ("rsp", 0x1D8);
   ("s_cet", 0x1E0);
   ("ssp", 0x1E8);
   ("isst_addr", 0x1F0);
   ("rax", 0x1F8);
   ("star", 0x200);
   ("lstar", 0x208);
   ("cstar", 0x210);
   ("sfmask", 0x218);
   ("kernel_gs_base", 0x220);
   ("sysenter_cs", 0x228);
   ("sysenter_esp", 0x230);
   ("sysenter_eip", 0x238);
   ("cr2", 0x240);
   ("g_pat", 0x268);
   ("dbgctl", 0x270);
   ("br_from", 0x278);
   ("br_to", 0x280);
   ("last_excp_from", 0x288);
   ("last_excp_to", 0x290)].
Close Scope string_scope.

(** ** Exit codes and intercepts *)

Ltac decide_ifs H :=
  repeat match type of H with
  | (if ?b then _ else _) = _ => let Hb := fresh "Hb" in destruct b eqn:Hb; [|clear Hb]
  end.

Lemma try_from_sound val c :
  in_range 64 val -> SvmExitCode.try_from val = Ok c ->
  SvmExitCode.valid c /\ SvmExitCode.code c = val.
Proof.
  intros Hr. unfold SvmExitCode.try_from. intros H.
  assert (forall k, 0 <= k < 2 ^ 63 -> as_i64 val = k -> val = k) as Hpos.
  { intros k Hk. unfold as_i64, in_range in *. destruct (Z.ltb_spec val (2 ^ 63)); lia. }
  assert (forall k, 0 < k < 2 ^ 63 -> as_i64 val = - k -> val = 2 ^ 64 - k) as Hneg.
  { intros k Hk. unfold as_i64, in_range in *. destruct (Z.ltb_spec val (2 ^ 63)); lia. }
  decide_ifs H; try discriminate; injection H as <-; unfold SvmExitCode.valid, SvmExitCode.code;
    try (assert (val = as_i64 val) as Hv by (apply Hpos; lia);
         rewrite ?wrap_small by (unfold in_range; rewrite ?wrap_small by (unfold in_range; lia); lia);
         lia).
  - split; [done|]. symmetry. apply Hneg; lia.
  - split; [done|]. symmetry. apply Hneg; lia.
Qed.

Lemma try_from_complete c :
  SvmExitCode.valid c -> SvmExitCode.try_from (SvmExitCode.code c) = Ok c.
Proof.
  assert (forall x, 0 <= x < 256 -> as_i64 x = x) as Hi.
  { intros x Hx. unfold as_i64. destruct (Z.ltb_spec x (2 ^ 63)); lia. }
  destruct c; intros Hn; try reflexivity; cbn [SvmExitCode.valid] in Hn;
    unfold SvmExitCode.code, SvmExitCode.try_from; rewrite Hi by lia; cbv zeta;
    repeat match goal with |- (if ?b then _ else _) = _ =>
      first [replace b with true by lia | replace b with false by lia] end;
    rewrite ?wrap_small by (unfold in_range; rewrite ?wrap_small by (unfold in_range; lia); lia);
    do 2 f_equal; lia.
Qed.

(** The decoding of exit codes is exact: a 64-bit value is decoded to [c]
    just when it is the code the manual gives to [c], and any other value is
    returned as the error. *)
Theorem exit_code_decodes val :
  in_range 64 val ->
  (forall c, SvmExitCode.try_from val = Ok c <-> SvmExitCode.valid c /\ SvmExitCode.code c = val) /\
  ((exists c, SvmExitCode.try_from val = Ok c) \/ SvmExitCode.try_from val = Err val).
Proof.
  intros Hr. split.
  - intros c. split; [by apply try_from_sound|]. intros [Hv <-]. by apply try_from_complete.
  - unfold SvmExitCode.try_from. repeat case_match; eauto.
Qed.

(** The event an intercept stands for. *)
Definition exit_of (i : SvmIntercept.t) : SvmExitCode.t :=
  match i with
  | SvmIntercept.INTR => SvmExitCode.INTR
  | SvmIntercept.NMI => SvmExitCode.NMI
  | SvmIntercept.SMI => SvmExitCode.SMI
  | SvmIntercept.INIT => SvmExitCode.INIT
  | SvmIntercept.VINTR => SvmExitCode.VINTR
  | SvmIntercept.CR0_SEL_WRITE => SvmExitCode.CR0_SEL_WRITE
  | SvmIntercept.IDTR_READ => SvmExitCode.IDTR_READ
  | SvmIntercept.GDTR_READ => SvmExitCode.GDTR_READ
  | SvmIntercept.LDTR_READ => SvmExitCode.LDTR_READ
  | SvmIntercept.TR_READ => SvmExitCode.TR_READ
  | SvmIntercept.IDTR_WRITE => SvmExitCode.IDTR_WRITE
  | SvmIntercept.GDTR_WRITE => SvmExitCode.GDTR_WRITE
  | SvmIntercept.LDTR_WRITE => SvmExitCode.LDTR_WRITE
  | SvmIntercept.TR_WRITE => SvmExitCode.TR_WRITE
  | SvmIntercept.RDTSC => SvmExitCode.RDTSC
  | SvmIntercept.RDPMC => SvmExitCode.RDPMC
  | SvmIntercept.PUSHF => SvmExitCode.PUSHF
  | SvmIntercept.POPF => SvmExitCode.POPF
  | SvmIntercept.CPUID => SvmExitCode.CPUID
  | SvmIntercept.RSM => SvmExitCode.RSM
  | SvmIntercept.IRET => SvmExitCode.IRET
  | SvmIntercept.SWINT => SvmExitCode.SWINT
  | SvmIntercept.INVD => SvmExitCode.INVD
  | SvmIntercept.PAUSE => SvmExitCode.PAUSE
  | SvmIntercept.HLT => SvmExitCode.HLT
  | SvmIntercept.INVLPG => SvmExitCode.INVLPG
  | SvmIntercept.INVLPGA => SvmExitCode.INVLPGA
  | SvmIntercept.IOIO_PROT => SvmExitCode.IOIO
  | SvmIntercept.MSR_PROT => SvmExitCode.MSR
  | SvmIntercept.TASK_SWITCH => SvmExitCode.TASK_SWITCH
  | SvmIntercept.FERR_FREEZE => SvmExitCode.FERR_FREEZE
  | SvmIntercept.SHUTDOWN => SvmExitCode.SHUTDOWN
  | SvmIntercept.VMRUN => SvmExitCode.VMRUN
  | SvmIntercept.VMMCALL => SvmExitCode.VMMCALL
  | SvmIntercept.VMLOAD => SvmExitCode.VMLOAD
  | SvmIntercept.VMSAVE => SvmExitCode.VMSAVE
  | SvmIntercept.STGI => SvmExitCode.STGI
  | SvmIntercept.CLGI => SvmExitCode.CLGI
  | SvmIntercept.SKINIT => SvmExitCode.SKINIT
  | SvmIntercept.RDTSCP => SvmExitCode.RDTSCP
  | SvmIntercept.ICEBP => SvmExitCode.ICEBP
  | SvmIntercept.WBINVD => SvmExitCode.WBINVD
  | SvmIntercept.MONITOR => SvmExitCode.MONITOR
  | SvmIntercept.MWAIT => SvmExitCode.MWAIT
  | SvmIntercept.MWAIT_CONDITIONAL => SvmExitCode.MWAIT_CONDITIONAL
  | SvmIntercept.XSETBV => SvmExitCode.XSETBV
  | SvmIntercept.RDPRU => SvmExitCode.RDPRU
  | SvmIntercept.EFER_WRITE_TRAP => SvmExitCode.EFER_WRITE_TRAP
  | SvmIntercept.INVLPGB => SvmExitCode.INVLPGB
  | SvmIntercept.INVLPGB_ILLEGAL => SvmExitCode.INVLPGB_ILLEGAL
  | SvmIntercept.INVPCID => SvmExitCode.INVPCID
  | SvmIntercept.MCOMMIT => SvmExitCode.MCOMMIT
  | SvmIntercept.TLBSYNC => SvmExitCode.TLBSYNC
  end.

(** Whether the VMCB intercepts the event with a number. *)
Definition intercepted (v : Vmcb) (n : Z) : bool :=
  let c := control v in
  if (0x60 <=? n) && (n <=? 0x7F) then Z.testbit (ct_intercept_vector3 c) (n - 0x60)
  else if (0x80 <=? n) && (n <=? 0x9F) then Z.testbit (ct_intercept_vector4 c) (n - 0x80)
  else if (0xA0 <=? n) && (n <=? 0xBF) then Z.testbit (ct_intercept_vector5 c) (n - 0xA0)
  else false.

Lemma bits_vectors i :
  let b := SvmIntercept.bits i in 0x60 <= b <= 0x8F \/ 0xA0 <= b <= 0xA4.
Proof. destruct i; simpl; lia. Qed.

Lemma testbit_flag32 b lo n : 0 <= b - lo < 32 -> 0 <= n - lo ->
  Z.testbit (wrap 32 (Z.shiftl 1 (b - lo))) (n - lo) = (n =? b).
Proof.
  intros Hb Hn. unfold wrap. rewrite testbit_mod, testbit_bit by lia.
  destruct (Z.eqb_spec n b), (Z.eqb_spec (n - lo) (b - lo)), (Z.ltb_spec (n - lo) 32); simpl; lia || done.
Qed.

Lemma set_intercept_bits i v :
  save (set_intercept i v) = save v /\
  forall n, intercepted (set_intercept i v) n = (n =? SvmIntercept.bits i) || intercepted v n.
Proof.
  pose proof (bits_vectors i) as Hb. cbv zeta in Hb.
  unfold set_intercept. set (b := SvmIntercept.bits i) in *. clearbody b.
  split; [repeat case_match; done|]. intros n.
  destruct ((0x60 <=? b) && (b <=? 0x7F)) eqn:H3; [|destruct ((0x80 <=? b) && (b <=? 0x8F)) eqn:H4];
    [| |replace ((0xA0 <=? b) && (b <=? 0xA4)) with true by lia];
    unfold intercepted; cbn [control ct_intercept_vector3 ct_intercept_vector4 ct_intercept_vector5
      set_ct_intercept_vector3 set_ct_intercept_vector4 set_ct_intercept_vector5];
    (destruct ((0x60 <=? n) && (n <=? 0x7F)) eqn:N3; [|destruct ((0x80 <=? n) && (n <=? 0x9F)) eqn:N4;
      [|destruct ((0xA0 <=? n) && (n <=? 0xBF)) eqn:N5]]);
    rewrite ?Z.lor_spec, ?testbit_flag32 by lia;
    try (replace (n =? b) with false by lia); simpl; try done; apply orb_comm.
Qed.

(** [set_intercept] turns on the intercept of exactly the event whose exit
    code the VM exit will report, and of no other. *)
Theorem set_intercept_exact i v :
  SvmExitCode.code (exit_of i) = SvmIntercept.bits i /\
  save (set_intercept i v) = save v /\
  forall n, intercepted (set_intercept i v) n =
    (n =? SvmExitCode.code (exit_of i)) || intercepted v n.
Proof.
  assert (SvmExitCode.code (exit_of i) = SvmIntercept.bits i) as Hc by (by destruct i).
  rewrite Hc. split; [done|]. apply set_intercept_bits.
Qed.

(** ** Event injection *)
Definition encodes_event (bits : Z) (t : SvmInterruptType) (vector : Z) : bool :=
  (get_bits bits 0 8 =? vector) && (get_bits bits 8 11 =? svm_intr_bits t) &&
  Bool.eqb (Z.testbit bits 11) (has_error_code vector) && (get_bits bits 12 31 =? 0) &&
  Z.testbit bits 31 && (bits <? 2 ^ 32).

(** [VmcbIntInfo::from] never panics, and the word encodes the event of the
    EVENTINJ format: the vector, the type, the error-code bit for exactly the
    vectors that push one, and the valid bit. *)
Theorem int_info_encodes {bf : BitField} t vector :
  0 <= vector < 256 ->
  exists bits, VmcbIntInfo_from t vector = Some bits /\ encodes_event bits t vector = true.
Proof.
  intros Hv. unfold VmcbIntInfo_from.
  rewrite bf_set_bits_ok; [| unfold in_range; lia | lia | lia | by destruct t].
  eexists. split; [reflexivity|].
  pose (P t v := encodes_event (if has_error_code v
    then Z.lor (Z.lor (set_bits 32 v 8 11 (svm_intr_bits t)) INTINFO_VALID) INTINFO_ERROR_CODE
    else Z.lor (set_bits 32 v 8 11 (svm_intr_bits t)) INTINFO_VALID) t v).
  change (P t vector = true). apply (forallb_below 256); [|done].
  destruct t; vm_compute; reflexivity.
Qed.

(** The [repr(C)] layout of the VMCB puts every field of the two areas at the
    offset the processor expects, the state-save area at 0x400, and the whole
    block has the size of a page. *)
Theorem vmcb_layout :
  (forall e, e ∈ control_offsets -> e ∈ offsets 0 control_layout) /\
  (forall e, e ∈ save_offsets -> e ∈ offsets 0 save_layout) /\
  size_of 1024 control_layout = 0x400 /\ size_of 1024 save_layout = 0x400 /\
  round_up (size_of 1024 control_layout + size_of 1024 save_layout) 4096 = 0x1000.
Proof.
  assert (forall l l' : list (string * Z), forallb (fun e => bool_decide (e ∈ l')) l = true ->
    forall e, e ∈ l -> e ∈ l') as Hsub.
  { intros l l' Hall e He. rewrite forallb_forall in Hall. apply list_elem_of_In in He.
    by apply Hall, bool_decide_eq_true in He. }
  split_and!; try reflexivity; apply Hsub; vm_compute; reflexivity.
Qed.
