(* ===== verification/AmdVcpu.v ===== *)
(** * The AMD vCPU

    [src/src/arch/x86_64/amd/vcpu.rs] ([Vcpu] and its operations, [vmcb_setup],
    [load_vmcb_guest], [vmexit_handler_wrapper]), [amd/mod.rs]
    ([check_hypervisor_feature]) and [amd/vmexit.rs] ([handle_exit]). The VMRUN
    loop [svm_run] is in [Asm]. *)

From S2P Require Import Prelude Crates HvError Addr Frame Config X86 Segmentation Context Cpuid Vcpu Svm.

Record AmdVcpu : Type := mkAmd {
  guest_regs : GeneralRegisters;
  host_tp : Z;
  host_stack_top : Z;
  host_save_area : Frame;
  vmcb : Vmcb;
}.

Definition set_guest_regs (r : GeneralRegisters) (v : AmdVcpu) : AmdVcpu :=
  mkAmd r (host_tp v) (host_stack_top v) (host_save_area v) (vmcb v).
Definition set_vmcb (x : Vmcb) (v : AmdVcpu) : AmdVcpu :=
  mkAmd (guest_regs v) (host_tp v) (host_stack_top v) (host_save_area v) x.
Definition on_save (f : VmcbStateSaveArea -> VmcbStateSaveArea) (v : AmdVcpu) : AmdVcpu :=
  set_vmcb (mkVmcb (control (vmcb v)) (f (save (vmcb v)))) v.

(** [ExceptionType::GeneralProtectionFault]. *)
Definition GeneralProtectionFault : Z := 13.

(** Core Performance Event-Select Register, Counter Enable (bit 22). *)
Definition PERF_EVT_SEL_EN : Z := Z.shiftl 1 22.

(** [amd/mod.rs], [check_hypervisor_feature]. *)
Definition amd_check_hypervisor_feature (c : Cpu) : outcome HvErrorNum unit :=
  if contains (VmCr_read c) VMCR_SVMDIS then Err ENODEV else Ok tt.

(** ** Setting up the VMCB *)
Definition set_vmcb_dtr (seg : VmcbSegment) (dtr : DescriptorTablePointer) : VmcbSegment :=
  mkVmcbSegment (v_selector seg) (v_attr seg) (Z.land (dt_limit dtr) 0xffff) (dt_base dtr).

Definition set_vmcb_segment (seg : Segment) : VmcbSegment :=
  mkVmcbSegment (selector seg) (as_svm_segment_attributes (access_rights seg)) (limit seg) (base seg).

(** [VcpuAccessGuestState::set_cr]; [unreachable!()] for the other indices. *)
Definition amd_set_cr {E} (cr_idx val : Z) : M AmdVcpu E unit :=
  if cr_idx =? 0 then modify (on_save (set_s_cr0 (Z.land val (not64 CR0_NOT_WRITE_THROUGH))))
  else if cr_idx =? 3 then modify (on_save (set_s_cr3 val))
  else if cr_idx =? 4 then modify (on_save (set_s_cr4 val))
  else panic.

Definition amd_cr {E} (cr_idx : Z) : M AmdVcpu E Z :=
  if cr_idx =? 0 then gets (fun v => s_cr0 (save (vmcb v)))
  else if cr_idx =? 3 then gets (fun v => s_cr3 (save (vmcb v)))
  else if cr_idx =? 4 then gets (fun v => s_cr4 (save (vmcb v)))
  else panic.

(** The save area after the assignments of [vmcb_setup]; [cpu] is read for the
    MSRs that are not in the context. *)
Definition setup_save (cpu : Cpu) (linux : LinuxContext) (s : VmcbStateSaveArea) : VmcbStateSaveArea :=
  {| s_es := set_vmcb_segment (l_es linux);
     s_cs := set_vmcb_segment (l_cs linux);
     s_ss := set_vmcb_segment (l_ss linux);
     s_ds := set_vmcb_segment (l_ds linux);
     s_fs := set_vmcb_segment (l_fs linux);
     s_gs := set_vmcb_segment (l_gs linux);
     s_tr := set_vmcb_segment (l_tss linux);
     s_ldtr := set_vmcb_segment Segment_invalid;
     s_idtr := set_vmcb_dtr (s_idtr s) (l_idt linux);
     s_gdtr := set_vmcb_dtr (s_gdtr s) (l_gdt linux);
     s_cpl := 0;
     s_rflags := 0x2;
     s_rip := l_rip linux;
     s_rsp := l_rsp linux;
     s_rax := 0;
     s_sysenter_cs := msr_read IA32_SYSENTER_CS cpu;
     s_sysenter_eip := msr_read IA32_SYSENTER_EIP cpu;
     s_sysenter_esp := msr_read IA32_SYSENTER_ESP cpu;
     s_star := l_star linux;
     s_lstar := l_lstar linux;
     s_cstar := l_cstar linux;
     s_sfmask := l_fmask linux;
     s_kernel_gs_base := msr_read IA32_KERNEL_GSBASE cpu;
     s_efer := Z.lor (l_efer linux) EFER_SECURE_VIRTUAL_MACHINE_ENABLE;
     s_g_pat := l_pat linux;
     s_dr7 := 0x400;
     s_dr6 := 0xffff0ff0;
     s_cr0 := s_cr0 s; s_cr3 := s_cr3 s; s_cr4 := s_cr4 s;
     s_s_cet := s_s_cet s; s_ssp := s_ssp s; s_isst_addr := s_isst_addr s; s_cr2 := s_cr2 s;
     s_dbgctl := s_dbgctl s; s_br_from := s_br_from s; s_br_to := s_br_to s;
     s_last_excp_from := s_last_excp_from s; s_last_excp_to := s_last_excp_to s |}.

Definition setup_control (root : Z) (c : VmcbControlArea) : VmcbControlArea :=
  {| ct_intercept_exceptions := 0;
     ct_np_enable := 1;
     ct_guest_asid := 1;
     ct_clean_bits := VmcbCleanBits_empty;
     ct_nest_cr3 := root;
     ct_tlb_control := tlb_bits FlushAsid;
     ct_intercept_cr := ct_intercept_cr c; ct_intercept_dr := ct_intercept_dr c;
     ct_intercept_vector3 := ct_intercept_vector3 c; ct_intercept_vector4 := ct_intercept_vector4 c;
     ct_intercept_vector5 := ct_intercept_vector5 c;
     ct_pause_filter_thresh := ct_pause_filter_thresh c; ct_pause_filter_count := ct_pause_filter_count c;
     ct_iopm_base_pa := ct_iopm_base_pa c; ct_msrpm_base_pa := ct_msrpm_base_pa c;
     ct_tsc_offset := ct_tsc_offset c; ct_int_control := ct_int_control c;
     ct_int_vector := ct_int_vector c; ct_int_state := ct_int_state c; ct_exit_code := ct_exit_code c;
     ct_exit_info_1 := ct_exit_info_1 c; ct_exit_info_2 := ct_exit_info_2 c;
     ct_exit_int_info := ct_exit_int_info c; ct_exit_int_info_err := ct_exit_int_info_err c;
     ct_avic_vapic_bar := ct_avic_vapic_bar c; ct_event_inj := ct_event_inj c;
     ct_event_inj_err := ct_event_inj_err c; ct_lbr_control := ct_lbr_control c;
     ct_next_rip := ct_next_rip c; ct_insn_len := ct_insn_len c; ct_insn_bytes := ct_insn_bytes c;
     ct_avic_backing_page := ct_avic_backing_page c; ct_avic_logical_id := ct_avic_logical_id c;
     ct_avic_physical_id := ct_avic_physical_id c |}.

Definition setup_intercepts : list SvmIntercept.t :=
  [SvmIntercept.NMI; SvmIntercept.CPUID; SvmIntercept.SHUTDOWN; SvmIntercept.VMRUN;
   SvmIntercept.VMMCALL; SvmIntercept.VMLOAD; SvmIntercept.VMSAVE; SvmIntercept.STGI;
   SvmIntercept.CLGI; SvmIntercept.SKINIT].

(** [root] is [cell.gpm.page_table().root_paddr()]. *)
Definition vmcb_setup {E} (cpu : Cpu) (linux : LinuxContext) (root : Z) : M AmdVcpu E unit :=
  amd_set_cr 0 (l_cr0 linux) ;;;
  amd_set_cr 4 (l_cr4 linux) ;;;
  amd_set_cr 3 (l_cr3 linux) ;;;
  modify (fun v => set_vmcb (mkVmcb (setup_control root (control (vmcb v)))
                               (setup_save cpu linux (save (vmcb v)))) v) ;;;
  modify (fun v => set_vmcb (fold_left (fun x i => set_intercept i x) setup_intercepts (vmcb v)) v).

Section Amd.
Context {A : Type} {ba : BitAlloc A} {bf : BitField} {xr : X86Regs} {xd : X86Desc} {rc : RawCpuid}.

(** [Vcpu::new] on the processor whose [PerCpu] is at [this]. *)
Definition amd_new (this : Z) (linux : LinuxContext) (root : Z) : M (Cpu * Machine A) HvErrorNum AmdVcpu :=
  let on_cpu f := modify (fun s : Cpu * Machine A => (f (fst s), snd s)) in
  let perf_off m := on_cpu (fun c => msr_write m (Z.land (msr_read m c) (not64 PERF_EVT_SEL_EN)) c) in
  let* c := gets fst in
  of_outcome (amd_check_hypervisor_feature c) ;;;
  perf_off PERF_EVT_SEL0 ;;; perf_off PERF_EVT_SEL1 ;;; perf_off PERF_EVT_SEL2 ;;;
  perf_off PERF_EVT_SEL3 ;;; perf_off PERF_EVT_SEL4 ;;; perf_off PERF_EVT_SEL5 ;;;
  let* efer := gets (fun s => efer_get (fst s)) in
  if contains efer EFER_SECURE_VIRTUAL_MACHINE_ENABLE then throw EBUSY
  else
    let* host_save_area := zoom snd (fun m s => (fst s, m)) Frame_new in
    on_cpu (efer_set (Z.lor efer EFER_SECURE_VIRTUAL_MACHINE_ENABLE)) ;;;
    on_cpu (msr_write VM_HSAVE_PA (start_paddr host_save_area)) ;;;
    on_cpu (cr0_set HOST_CR0) ;;;
    on_cpu (cr4_set HOST_CR4) ;;;
    let v := mkAmd regs_default this (sub64 (add64 this PER_CPU_SIZE) 8) host_save_area Vmcb_default in
    let* c := gets fst in
    of_outcome (let '(o, v') := vmcb_setup (E := HvErrorNum) c linux root v in
                match o with Ok _ => Ok v' | Err e => Err e | Panic => Panic | Diverge => Diverge end).

(** [Vcpu::enter] up to the assembly: [vmcb_paddr] is the physical address of
    the VMCB. *)
Definition amd_enter_regs (vmcb_paddr : Z) (linux : LinuxContext) (v : AmdVcpu) : AmdVcpu :=
  let r := guest_regs v in
  set_guest_regs
    (mkRegs vmcb_paddr (rcx r) (rdx r) (l_rbx linux) (_unused_rsp r) (l_rbp linux) (rsi r) (rdi r)
       (r8 r) (r9 r) (r10 r) (r11 r) (l_r12 linux) (l_r13 linux) (l_r14 linux) (l_r15 linux)) v.

(** ** Leaving the guest *)
Definition virt_addr {S E} (a : Z) : M S E Z :=
  match virt_addr_new a with Some a => ret a | None => panic end.

(** The assignments up to the first [VirtAddr::new], which may panic. *)
Definition load_plain (s : VmcbStateSaveArea) (l : LinuxContext) : LinuxContext :=
  {| l_rip := s_rip s; l_rsp := s_rsp s;
     l_cr0 := truncate cr0_all (s_cr0 s); l_cr3 := s_cr3 s; l_cr4 := truncate cr4_all (s_cr4 s);
     l_efer := Z.land (s_efer s) (not64 EFER_SECURE_VIRTUAL_MACHINE_ENABLE);
     l_es := with_selector (v_selector (s_es s)) (l_es l);
     l_cs := with_selector (v_selector (s_cs s)) (l_cs l);
     l_ss := with_selector (v_selector (s_ss s)) (l_ss l);
     l_ds := with_selector (v_selector (s_ds s)) (l_ds l);
     l_gdt := l_gdt l; l_idt := l_idt l; l_fs := l_fs l; l_gs := l_gs l; l_tss := l_tss l;
     l_r15 := l_r15 l; l_r14 := l_r14 l; l_r13 := l_r13 l; l_r12 := l_r12 l; l_rbx := l_rbx l;
     l_rbp := l_rbp l; l_star := l_star l; l_lstar := l_lstar l; l_cstar := l_cstar l;
     l_fmask := l_fmask l; l_kernel_gsbase := l_kernel_gsbase l; l_pat := l_pat l;
     l_mtrr_def_type := l_mtrr_def_type l |}.

Definition with_tables (gdt idt : DescriptorTablePointer) (l : LinuxContext) : LinuxContext :=
  {| l_rip := l_rip l; l_rsp := l_rsp l; l_cr0 := l_cr0 l; l_cr3 := l_cr3 l; l_cr4 := l_cr4 l; l_efer := l_efer l;
     l_es := l_es l; l_cs := l_cs l; l_ss := l_ss l; l_ds := l_ds l;
     l_gdt := gdt; l_idt := idt; l_fs := l_fs l; l_gs := l_gs l; l_tss := l_tss l;
     l_r15 := l_r15 l; l_r14 := l_r14 l; l_r13 := l_r13 l; l_r12 := l_r12 l; l_rbx := l_rbx l;
     l_rbp := l_rbp l; l_star := l_star l; l_lstar := l_lstar l; l_cstar := l_cstar l;
     l_fmask := l_fmask l; l_kernel_gsbase := l_kernel_gsbase l; l_pat := l_pat l;
     l_mtrr_def_type := l_mtrr_def_type l |}.

(** The state that is not in the VMCB without VMSAVE. *)
Definition load_manual (cpu : Cpu) (s : VmcbStateSaveArea) (l : LinuxContext) : LinuxContext :=
  {| l_rip := l_rip l; l_rsp := l_rsp l; l_cr0 := l_cr0 l; l_cr3 := l_cr3 l; l_cr4 := l_cr4 l; l_efer := l_efer l;
     l_es := l_es l; l_cs := l_cs l; l_ss := l_ss l; l_ds := l_ds l; l_gdt := l_gdt l; l_idt := l_idt l;
     l_fs := with_base (msr_read IA32_FS_BASE cpu) (with_selector (c_fs cpu) (l_fs l));
     l_gs := with_base (v_base (s_gs s)) (with_selector (c_gs cpu) (l_gs l));
     l_tss := with_selector (c_tr cpu) (l_tss l);
     l_r15 := l_r15 l; l_r14 := l_r14 l; l_r13 := l_r13 l; l_r12 := l_r12 l; l_rbx := l_rbx l;
     l_rbp := l_rbp l; l_star := l_star l; l_lstar := l_lstar l; l_cstar := l_cstar l;
     l_fmask := l_fmask l; l_kernel_gsbase := l_kernel_gsbase l; l_pat := l_pat l;
     l_mtrr_def_type := l_mtrr_def_type l |}.

Definition load_vmcb_guest {E} (cpu : Cpu) (v : AmdVcpu) : M LinuxContext E unit :=
  let s := save (vmcb v) in
  modify (load_plain s) ;;;
  let* gdt_base := virt_addr (v_base (s_gdtr s)) in
  modify (fun l => with_tables (mkDtp (wrap 16 (v_limit (s_gdtr s))) gdt_base) (l_idt l) l) ;;;
  let* idt_base := virt_addr (v_base (s_idtr s)) in
  modify (fun l => with_tables (l_gdt l) (mkDtp (wrap 16 (v_limit (s_idtr s))) idt_base) l) ;;;
  modify (load_manual cpu s).

Definition amd_exit : M (Cpu * AmdVcpu * LinuxContext) HvErrorNum unit :=
  (fun s => let '((c, v), l) := s in
            let '(o, l') := load_vmcb_guest c v l in (o, ((c, v), l'))) ;;;
  modify (fun s => let '((c, v), l) := s in
    let c := with_gif true c in
    let c := efer_set (Z.land (efer_get c) (not64 EFER_SECURE_VIRTUAL_MACHINE_ENABLE)) c in
    ((msr_write VM_HSAVE_PA 0 c, v), l)).

(** ** Operations on the guest *)
Definition amd_inject_fault : M (Cpu * AmdVcpu) HvErrorNum unit := fun s =>
  match VmcbIntInfo_from SvmException GeneralProtectionFault with
  | Some info => (Ok tt, (fst s, set_vmcb (inject_event info 0 (vmcb (snd s))) (snd s)))
  | None => (Panic, s)
  end.

Definition amd_advance_rip (instr_len : Z) : M (Cpu * AmdVcpu) HvErrorNum unit :=
  modify (fun s => (fst s, on_save (fun x => set_s_rip (add64 (s_rip x) instr_len) x) (snd s))).

Definition amd_guest_is_privileged : M (Cpu * AmdVcpu) HvErrorNum bool :=
  gets (fun s => s_cpl (save (vmcb (snd s))) =? 0).

Definition amd_in_hypercall : M (Cpu * AmdVcpu) HvErrorNum bool :=
  gets (fun s => match SvmExitCode.try_from (ct_exit_code (control (vmcb (snd s)))) with
                 | Ok SvmExitCode.VMMCALL => true
                 | _ => false
                 end).

Definition amd_guest_page_table : M (Cpu * AmdVcpu) HvErrorNum Z :=
  gets (fun s => align_down (s_cr3 (save (vmcb (snd s))))).

(** [VcpuAccessGuestState]. *)
Definition read_save {B} (f : VmcbStateSaveArea -> B) : M (Cpu * AmdVcpu) HvErrorNum B :=
  gets (fun s => f (save (vmcb (snd s)))).
Definition amd_instr_pointer : M (Cpu * AmdVcpu) HvErrorNum Z := read_save s_rip.
Definition amd_stack_pointer : M (Cpu * AmdVcpu) HvErrorNum Z := read_save s_rsp.
Definition amd_set_stack_pointer (sp : Z) : M (Cpu * AmdVcpu) HvErrorNum unit :=
  modify (fun s => (fst s, on_save (set_s_rsp sp) (snd s))).
Definition amd_rflags : M (Cpu * AmdVcpu) HvErrorNum Z := read_save s_rflags.
Definition amd_fs_base : M (Cpu * AmdVcpu) HvErrorNum Z := gets (fun s => msr_read IA32_FS_BASE (fst s)).
Definition amd_gs_base : M (Cpu * AmdVcpu) HvErrorNum Z := read_save (fun s => v_base (s_gs s)).
Definition amd_get_cr (i : Z) : M (Cpu * AmdVcpu) HvErrorNum Z := zoom snd (fun v s => (fst s, v)) (amd_cr i).

(** [Debug::fmt]: the values it reads, in order. *)
Definition amd_debug : M (Cpu * AmdVcpu) HvErrorNum unit :=
  amd_instr_pointer ;;; amd_stack_pointer ;;; amd_rflags ;;;
  amd_get_cr 0 ;;; amd_get_cr 3 ;;; amd_get_cr 4 ;;; read_save s_cs ;;; ret tt.

#[export] Instance AmdOps : VcpuOps AmdVcpu := {|
  regs := guest_regs;
  regs_mut := set_guest_regs;
  instr_pointer := amd_instr_pointer;
  stack_pointer := amd_stack_pointer;
  set_stack_pointer := amd_set_stack_pointer;
  rflags := amd_rflags;
  fs_base := amd_fs_base;
  gs_base := amd_gs_base;
  cr := amd_get_cr;
  advance_rip := amd_advance_rip;
  inject_fault := amd_inject_fault;
  guest_is_privileged := amd_guest_is_privileged;
  guest_page_table := amd_guest_page_table;
  in_hypercall := amd_in_hypercall;
  vcpu_exit := amd_exit;
  vcpu_debug := amd_debug;
|}.

(** ** Exit handling *)
Context (hw_seg_base : Cpu -> Z -> Z).
Abbreviation W := (World AmdVcpu).

Definition upd_vcpu (f : AmdVcpu -> AmdVcpu) : M W Esc unit :=
  modify (fun w => upd (w_cpu w) (with_vcpu (f (vcpu (w_percpu w))) (w_percpu w)) w).

(** [STGI; CLGI]: a pending NMI is taken by the host in between. *)
Definition amd_handle_nmi : M W Esc unit :=
  modify (fun w => upd (with_gif false (w_cpu w)) (w_percpu w) w).
Definition amd_handle_exception (vec : Z) : M W Esc unit := ret tt.
Definition amd_handle_nested_page_fault : M W Esc unit := throw (Fail ENOSYS).

Definition amd_dispatch (code : SvmExitCode.t) (exit_info : VmExitInfo) : M W Esc unit :=
  match code with
  | SvmExitCode.INVALID => panic
  | SvmExitCode.EXCP vec => amd_handle_exception vec
  | SvmExitCode.NMI => amd_handle_nmi
  | SvmExitCode.CPUID => handle_cpuid
  | SvmExitCode.VMMCALL => handle_hypercall hw_seg_base
  | SvmExitCode.NPF => amd_handle_nested_page_fault
  | SvmExitCode.MSR =>
      if exit_info_1 exit_info =? 0 then handle_msr_read
      else if exit_info_1 exit_info =? 1 then handle_msr_write
      else throw (Fail EIO)
  | SvmExitCode.SHUTDOWN => on_vcpu inject_fault
  | _ => throw (Fail ENOSYS)
  end.

Definition amd_handle_exit : M W Esc unit :=
  upd_vcpu (fun v => set_guest_regs (with_rax (s_rax (save (vmcb v))) (guest_regs v)) v) ;;;
  upd_vcpu (fun v => set_vmcb (mkVmcb (set_ct_clean_bits VmcbCleanBits_UNMODIFIED (control (vmcb v)))
                                 (save (vmcb v))) v) ;;;
  let* exit_info := gets (fun w => VmExitInfo_new (vmcb (vcpu (w_percpu w)))) in
  match exit_code exit_info with
  | Ok code =>
      let* res := attempt (amd_dispatch code exit_info) in
      upd_vcpu (fun v => on_save (set_s_rax (rax (guest_regs v))) v) ;;;
      match res with inr _ => ret tt | inl e => throw (Fail e) end
  | _ => throw (Fail EIO)
  end.

(** [vmexit_handler_wrapper]: VMRUN does not switch GS_BASE. *)
Definition vmexit_handler_wrapper : M W Esc unit :=
  let* guest_tp := gets (fun w => msr_read IA32_GS_BASE (w_cpu w)) in
  upd_vcpu (on_save (fun x => set_s_gs (mkVmcbSegment (v_selector (s_gs x)) (v_attr (s_gs x))
                                          (v_limit (s_gs x)) guest_tp) x)) ;;;
  modify (fun w => upd (msr_write IA32_GS_BASE (self_vaddr (w_percpu w)) (w_cpu w)) (w_percpu w) w) ;;;
  vmexit_handler amd_handle_exit ;;;
  modify (fun w => upd (msr_write IA32_GS_BASE guest_tp (w_cpu w)) (w_percpu w) w).
End Amd.

(** ** The AMD vCPU implements the interface *)

(** #GP with error code 0 as an event. *)
Definition GP_EVENT : Z := 0x80000b0d.

Lemma gp_info {bf : BitField} : VmcbIntInfo_from SvmException GeneralProtectionFault = Some GP_EVENT.
Proof.
  unfold VmcbIntInfo_from. rewrite bf_set_bits_ok; [done | unfold in_range, GeneralProtectionFault; lia | lia | lia | done].
Qed.

Section AmdLaws.
Context {bf : BitField} {xr : X86Regs}.

Definition amd_view (s : Cpu * AmdVcpu) : GuestView :=
  let v := vmcb (snd s) in
  mkView (s_rip (save v)) (s_cr4 (save v)) (s_cpl (save v) =? 0)
    ((ct_event_inj (control v) =? GP_EVENT) && (ct_event_inj_err (control v) =? 0)).

#[export] Instance AmdLaws : VcpuLaws AmdVcpu.
Proof.
  refine {| vcpu_wf := fun _ => True; view := amd_view |}; try done.
  - by intros [c v] _.
  - by intros [c v] _.
  - intros s _. by eexists.
  - intros [c v] n _. eexists. split; [reflexivity|]. split_and!; done.
  - intros [c v] _. unfold inject_fault. simpl. unfold amd_inject_fault. rewrite gp_info.
    eexists. split; [reflexivity|]. split_and!; done.
Defined.
End AmdLaws.

(** ** The guest starts as Linux *)
Section AmdSetup.
Context {bf : BitField} {xr : X86Regs} {xrl : X86RegsLaws}.

Lemma vmcb_setup_run E cpu linux root v :
  exists v', vmcb_setup (E := E) cpu linux root v = (Ok tt, v') /\ guest_regs v' = guest_regs v /\
    host_tp v' = host_tp v /\ host_stack_top v' = host_stack_top v /\ host_save_area v' = host_save_area v /\
    vmcb v' = fold_left (fun x i => set_intercept i x) setup_intercepts
      (mkVmcb (setup_control root (control (vmcb v)))
        (setup_save cpu linux (set_s_cr3 (l_cr3 linux) (set_s_cr4 (l_cr4 linux)
          (set_s_cr0 (Z.land (l_cr0 linux) (not64 CR0_NOT_WRITE_THROUGH)) (save (vmcb v))))))).
Proof. eexists. split; [reflexivity|]. split_and!; reflexivity. Qed.

Lemma fold_intercepts l v n :
  intercepted (fold_left (fun x i => set_intercept i x) l v) n =
    existsb (fun i => n =? SvmIntercept.bits i) l || intercepted v n.
Proof.
  revert v. induction l as [|i l IH]; intros v; simpl; [done|]. rewrite IH.
  destruct (set_intercept_bits i v) as (_ & ->). btauto.
Qed.

Lemma fold_intercepts_save l v : save (fold_left (fun x i => set_intercept i x) l v) = save v.
Proof. revert v. induction l as [|i l IH]; intros v; simpl; [done|]. rewrite IH. apply set_intercept_bits. Qed.
End AmdSetup.
