(* ===== verification/AmdProps.v ===== *)
(** * Properties of the AMD vCPU

    The guest starts as Linux and Linux comes back as the guest left it, the
    VMCB fields the processor caches are never changed behind its back, and
    exits nobody handles end in a #GP. *)

From S2P Require Import Prelude Crates HvError Addr Frame Config X86 Segmentation Context Cpuid Vcpu Svm AmdVcpu.

Section Setup.
Context {bf : BitField} {xr : X86Regs} {xrl : X86RegsLaws}.

(** The guest registers a VMCB starts with. *)
Record starts_as (linux : LinuxContext) (root : Z) (v : Vmcb) : Prop := {
  sa_rip : s_rip (save v) = l_rip linux /\ s_rsp (save v) = l_rsp linux /\ s_rflags (save v) = 2;
  sa_cr : s_cr0 (save v) = Z.land (l_cr0 linux) (not64 CR0_NOT_WRITE_THROUGH) /\
          s_cr3 (save v) = l_cr3 linux /\ s_cr4 (save v) = l_cr4 linux;
  sa_ring : s_cpl (save v) = 0 /\ Z.testbit (s_efer (save v)) 12 = true;
  sa_seg : Forall (fun '(a, b) => a = set_vmcb_segment b)
    [(s_es (save v), l_es linux); (s_cs (save v), l_cs linux); (s_ss (save v), l_ss linux);
     (s_ds (save v), l_ds linux); (s_fs (save v), l_fs linux); (s_gs (save v), l_gs linux);
     (s_tr (save v), l_tss linux)];
  sa_tables : v_base (s_gdtr (save v)) = dt_base (l_gdt linux) /\
              v_limit (s_gdtr (save v)) = Z.land (dt_limit (l_gdt linux)) 0xffff /\
              v_base (s_idtr (save v)) = dt_base (l_idt linux) /\
              v_limit (s_idtr (save v)) = Z.land (dt_limit (l_idt linux)) 0xffff;
  sa_efer : s_efer (save v) = Z.lor (l_efer linux) EFER_SECURE_VIRTUAL_MACHINE_ENABLE;
  sa_nested : ct_np_enable (control v) = 1 /\ ct_nest_cr3 (control v) = root /\
              ct_guest_asid (control v) = 1 /\ ct_clean_bits (control v) = 0;
}.

Lemma fold_intercepts_control l : forall v,
  let v' := fold_left (fun x i => set_intercept i x) l v in
  ct_np_enable (control v') = ct_np_enable (control v) /\ ct_nest_cr3 (control v') = ct_nest_cr3 (control v) /\
  ct_guest_asid (control v') = ct_guest_asid (control v) /\ ct_clean_bits (control v') = ct_clean_bits (control v).
Proof.
  induction l as [|i l IH]; intros v; [done|]. cbv zeta. simpl.
  destruct (IH (set_intercept i v)) as (-> & -> & -> & ->).
  unfold set_intercept. by repeat case_match.
Qed.

(** [vmcb_setup] on a fresh VMCB: the guest starts with the registers of Linux
    in ring 0, with nested paging through the page table of the cell, and the
    VMCB intercepts CPUID, VMMCALL, the SVM instructions, NMI and shutdown and
    no other event of the three vectors. *)
Lemma vmcb_setup_ok E cpu linux root v :
  vmcb v = Vmcb_default ->
  exists v', vmcb_setup (E := E) cpu linux root v = (Ok tt, v') /\ starts_as linux root (vmcb v') /\
    forall n, intercepted (vmcb v') n =
      existsb (fun i => n =? SvmExitCode.code (exit_of i)) setup_intercepts.
Proof.
  intros Hv. destruct (vmcb_setup_run E cpu linux root v) as (v' & Hr & _ & _ & _ & _ & Hv').
  exists v'. split; [done|]. rewrite Hv in Hv'. set (v0 := mkVmcb _ _) in Hv'.
  pose proof (fold_intercepts_save setup_intercepts v0) as Hs.
  pose proof (fold_intercepts_control setup_intercepts v0) as (C1 & C2 & C3 & C4). rewrite <- Hv' in *.
  split.
  - split; rewrite ?Hs, ?C1, ?C2, ?C3, ?C4; [done|done| |by repeat constructor|done|done|done].
    split; [done|]. unfold v0. cbn [save setup_save s_efer]. unfold EFER_SECURE_VIRTUAL_MACHINE_ENABLE.
    rewrite Z.lor_spec, testbit_bit by lia. apply orb_true_r.
  - intros n. rewrite Hv', fold_intercepts.
    assert (intercepted v0 n = false) as ->.
    { unfold intercepted, v0, setup_control, Vmcb_default. cbn [control ct_intercept_vector3
        ct_intercept_vector4 ct_intercept_vector5]. rewrite !Z.bits_0. by repeat case_match. }
    rewrite orb_false_r. done.
Qed.

(** What the registers of Linux satisfy: descriptor tables at canonical
    addresses with 16-bit limits, control registers of the known flags, SVM
    off. *)
Record linux_ok (l : LinuxContext) : Prop := {
  lo_gdt : canonical (dt_base (l_gdt l)) /\ in_range 16 (dt_limit (l_gdt l));
  lo_idt : canonical (dt_base (l_idt l)) /\ in_range 16 (dt_limit (l_idt l));
  lo_cr0 : contains cr0_all (l_cr0 l) = true /\ 0 <= l_cr0 l /\ Z.testbit (l_cr0 l) 29 = false;
  lo_cr4 : contains cr4_all (l_cr4 l) = true;
  lo_efer : in_range 64 (l_efer l) /\ Z.testbit (l_efer l) 12 = false;
}.

(** The fields of the context that a VM exit brings back. *)
Definition exit_fields (l : LinuxContext) :=
  ((l_rip l, l_rsp l, l_cr0 l, l_cr3 l, l_cr4 l, l_efer l),
   (selector (l_es l), selector (l_cs l), selector (l_ss l), selector (l_ds l)),
   (l_gdt l, l_idt l, base (l_gs l))).

Lemma land_not_bit x k : in_range 64 x -> 0 <= k < 64 -> Z.testbit x k = false -> Z.land x (not64 (Z.shiftl 1 k)) = x.
Proof.
  intros Hx Hk Hb. apply Z.bits_inj'. intros i Hi. rewrite Z.land_spec.
  destruct (Z.ltb_spec i 64).
  - rewrite testbit_not64_bit by lia. destruct (Z.eqb_spec i k) as [->|]; [by rewrite Hb|]. btauto.
  - rewrite (testbit_small x 64 i) by (unfold in_range in *; lia). done.
Qed.

Lemma land_ones16 x : in_range 16 x -> wrap 16 (Z.land x 0xffff) = x.
Proof.
  intros Hx. change 0xffff with (Z.ones 16). rewrite Z.land_ones by lia. unfold wrap.
  rewrite Z.mod_mod by lia. by apply Z.mod_small.
Qed.

(** The round trip through the VMCB: if Linux was well-formed when it was
    put into the VMCB and the guest has not run, [load_vmcb_guest] gives back
    its instruction and stack pointers, control registers, EFER without SVME,
    selectors, descriptor tables and GS base. *)
Theorem amd_guest_round E cpu cpu' l l0 root v :
  linux_ok l ->
  exists v', vmcb_setup (E := E) cpu l root v = (Ok tt, v') /\
  exists l', load_vmcb_guest (E := E) cpu' v' l0 = (Ok tt, l') /\ exit_fields l' = exit_fields l.
Proof.
  intros [[Hg Hgl] [Hi Hil] [Hc0 [Hc0p Hnw]] Hc4 [Hef Hsv]].
  destruct (vmcb_setup_run E cpu l root v) as (v' & Hr & _ & _ & _ & _ & Hv').
  exists v'. split; [done|]. unfold load_vmcb_guest, virt_addr. rewrite Hv', fold_intercepts_save.
  cbn [save setup_save s_gdtr s_idtr set_vmcb_dtr v_base]. rewrite !virt_addr_new_spec by done.
  eexists. split; [reflexivity|]. unfold exit_fields.
  cbn [load_manual with_tables load_plain setup_save l_rip l_rsp l_cr0 l_cr3 l_cr4 l_efer l_es l_cs l_ss l_ds l_gdt l_idt l_gs selector with_selector
    with_base base s_rip s_rsp s_cr0 s_cr3 s_cr4 s_efer s_es s_cs s_ss s_ds s_gs set_s_cr0 set_s_cr3 set_s_cr4
    v_selector v_base v_limit set_vmcb_segment s_gdtr s_idtr set_vmcb_dtr].
  rewrite !land_ones16 by done.
  assert (in_range 64 (l_cr0 l)) as Hr0.
  { apply range_bits; [lia|done|]. intros i Hi64. apply Z.eqb_eq in Hc0.
    rewrite <- Hc0, Z.land_spec, (testbit_small cr0_all 64 i); [done| |lia].
    pose proof cr0_all_range as Ha. unfold in_range in Ha. lia. }
  unfold CR0_NOT_WRITE_THROUGH. rewrite land_not_bit, contains_truncate_id, (contains_truncate_id cr4_all) by (done || lia).
  replace (Z.land (Z.lor (l_efer l) EFER_SECURE_VIRTUAL_MACHINE_ENABLE) (not64 EFER_SECURE_VIRTUAL_MACHINE_ENABLE))
    with (l_efer l).
  - by destruct (l_gdt l), (l_idt l).
  - unfold EFER_SECURE_VIRTUAL_MACHINE_ENABLE. apply Z.bits_inj'. intros i Hi0.
    rewrite Z.land_spec, Z.lor_spec, testbit_bit by lia. destruct (Z.ltb_spec i 64).
    + rewrite testbit_not64_bit by lia. destruct (Z.eqb_spec i 12) as [->|]; [by rewrite Hsv|]. btauto.
    + rewrite (testbit_small (l_efer l) 64 i) by (unfold in_range in *; lia).
      replace (i =? 12) with false by lia. done.
Qed.
End Setup.

(** ** Exit handling *)
Section Exits.
Context {bf : BitField} {xr : X86Regs} {xrl : X86RegsLaws} {xd : X86Desc} {rc : RawCpuid} {rcl : RawCpuidLaws}.
Context (hw_seg_base : Cpu -> Z -> Z).

Abbreviation W := (World AmdVcpu).
Definition wvmcb (w : W) : Vmcb := vmcb (vcpu (w_percpu w)).

(** The cached groups, the switch of nested paging and the clean bits are
    unchanged. *)
Definition keeps (w w' : W) : Prop :=
  (forall b, cached b (wvmcb w') = cached b (wvmcb w)) /\
  ct_np_enable (control (wvmcb w')) = ct_np_enable (control (wvmcb w)) /\
  ct_clean_bits (control (wvmcb w')) = ct_clean_bits (control (wvmcb w)).

#[local] Instance keeps_pre : PreOrder keeps.
Proof.
  split; [done|]. intros a b c (H1 & H2 & H3) (H4 & H5 & H6). split_and!; [|congruence..]. intros x. by rewrite H4.
Qed.

Lemma keeps_vmcb (w w' : W) : wvmcb w' = wvmcb w -> keeps w w'.
Proof. intros H. unfold keeps. by rewrite H. Qed.

Lemma keeps_rip n : pres keeps (on_vcpu (V := AmdVcpu) (advance_rip n)).
Proof. intros w. split_and!; [by intros []|done..]. Qed.

Lemma keeps_fault : pres keeps (on_vcpu (V := AmdVcpu) inject_fault).
Proof.
  intros w. unfold on_vcpu. simpl. unfold amd_inject_fault. rewrite gp_info. split_and!; [by intros []|done..].
Qed.

Lemma keeps_set_regs r : pres keeps (set_regs (V := AmdVcpu) r).
Proof. apply pres_modify. intros w. by apply keeps_vmcb. Qed.

Lemma keeps_on_vcpu_read B (f : Cpu * AmdVcpu -> B) : pres keeps (on_vcpu (gets f)).
Proof. intros w. by apply keeps_vmcb. Qed.

#[local] Hint Resolve keeps_rip keeps_fault keeps_set_regs keeps_on_vcpu_read : rvm_pres.
#[local] Hint Extern 1 (pres _ (modify _)) => (apply pres_modify; intros ?; apply keeps_vmcb; reflexivity) : rvm_pres.

Lemma keeps_exit_step (w : W) :
  keeps w (snd (let p := w_percpu w in
     let '(o, ((cpu', v'), l')) := amd_exit ((w_cpu w, vcpu p), linux p) in
     (map_err Fail o, upd cpu' (mkPerCpu (self_vaddr p) (id p) (state p) v' l') w))).
Proof.
  apply keeps_vmcb. cbv zeta. unfold amd_exit, bind.
  destruct (load_vmcb_guest _ _ _) as [[] l']; reflexivity.
Qed.

Lemma keeps_disable : pres keeps (hypervisor_disable (V := AmdVcpu) hw_seg_base).
Proof.
  unfold hypervisor_disable, deactivate_vmm, set_return_val, get_regs.
  pres.
  - intros w. apply keeps_exit_step.
  - intros w. cbv zeta. destruct (restore _ _ _) as [o c']. by apply keeps_vmcb.
Qed.

Lemma keeps_dispatch code info : pres keeps (amd_dispatch hw_seg_base code info).
Proof.
  unfold amd_dispatch. destruct code; pres.
  all: unfold handle_cpuid, handle_hypercall, handle_msr_read, handle_msr_write, get_regs, hypercall, fault,
    set_return_val, get_regs, HyperCallCode_try_from, amd_handle_nmi, amd_handle_exception,
    amd_handle_nested_page_fault; pres.
  all: try (intros w; by apply keeps_vmcb).
  apply pres_attempt. destruct h. apply keeps_disable.
Qed.

Lemma amd_exit_keeps_ok w :
  let '(o, w') := amd_handle_exit hw_seg_base w in
  (forall b, cached b (wvmcb w') = cached b (wvmcb w)) /\
  ct_np_enable (control (wvmcb w')) = ct_np_enable (control (wvmcb w)) /\
  ct_clean_bits (control (wvmcb w')) = VmcbCleanBits_UNMODIFIED /\
  match o with
  | Ok _ => s_rax (save (wvmcb w')) = rax (guest_regs (vcpu (w_percpu w')))
  | _ => True
  end.
Proof.
  unfold amd_handle_exit, upd_vcpu. rewrite !bind_modify, bind_gets.
  set (w1 := upd _ _ (upd _ _ w)).
  assert ((forall b, cached b (wvmcb w1) = cached b (wvmcb w)) /\
    ct_np_enable (control (wvmcb w1)) = ct_np_enable (control (wvmcb w)) /\
    ct_clean_bits (control (wvmcb w1)) = VmcbCleanBits_UNMODIFIED) as (Hc & Hn & Hu)
    by (split_and!; [by intros []|done..]).
  clearbody w1. destruct (exit_code _) as [code|e| |]; try done.
  pose proof (keeps_dispatch code (VmExitInfo_new (vmcb (vcpu (w_percpu w1)))) w1) as (K1 & Kn & K2).
  unfold bind, attempt. destruct (amd_dispatch _ _ _ w1) as [o w2]. cbn [snd] in K1, Kn, K2.
  assert ((forall b, cached b (wvmcb w2) = cached b (wvmcb w)) /\
    ct_np_enable (control (wvmcb w2)) = ct_np_enable (control (wvmcb w)) /\
    ct_clean_bits (control (wvmcb w2)) = VmcbCleanBits_UNMODIFIED) as (Hc2 & Hn2 & Hu2)
    by (split_and!; [intros b; by rewrite K1 | congruence..]).
  destruct o as [[]|[e|]| |]; cbn [modify ret throw]; split_and!; try done;
    intros b; rewrite <- Hc2; by destruct b.
Qed.

(** C30. Handling an exit marks the whole VMCB as unmodified, and rightly so:
    whatever the exit and its outcome, no field the processor may have cached
    differs from before and nested paging stays on or off; a handled exit leaves
    RAX of the VMCB equal to RAX of the saved registers. *)
Theorem amd_exit_keeps_cached w :
  let '(o, w') := amd_handle_exit hw_seg_base w in
  (forall b, cached b (wvmcb w') = cached b (wvmcb w)) /\
  ct_np_enable (control (wvmcb w')) = ct_np_enable (control (wvmcb w)) /\
  ct_clean_bits (control (wvmcb w')) = VmcbCleanBits_UNMODIFIED /\
  match o with
  | Ok _ => s_rax (save (wvmcb w')) = rax (guest_regs (vcpu (w_percpu w')))
  | _ => True
  end.
Proof. exact (amd_exit_keeps_ok w). Qed.

(** The nested page table of a processor, with nested paging on. *)
Definition np_root (v : AmdVcpu) : option Z :=
  if ct_np_enable (control (vmcb v)) =? 1 then Some (ct_nest_cr3 (control (vmcb v))) else None.

(** [vmexit_handler_wrapper] leaves it alone, whatever happens. *)
Lemma amd_exit_keeps_root w :
  np_root (vcpu (w_percpu (snd (vmexit_handler_wrapper hw_seg_base w)))) = np_root (vcpu (w_percpu w)).
Proof.
  assert (forall a b : W, keeps a b -> np_root (vcpu (w_percpu b)) = np_root (vcpu (w_percpu a))) as Hk.
  { intros a b (Hc & Hn & _). specialize (Hc CB_NP). cbn [cached] in Hc. injection Hc as Hc _.
    unfold np_root, wvmcb in *. by rewrite Hn, Hc. }
  unfold vmexit_handler_wrapper, upd_vcpu. rewrite bind_gets, !bind_modify. set (w1 := upd _ _ (upd _ _ w)).
  assert (np_root (vcpu (w_percpu w1)) = np_root (vcpu (w_percpu w))) as <- by done. clearbody w1.
  pose proof (amd_exit_keeps_ok w1) as Hx. unfold vmexit_handler, bind, attempt.
  destruct (amd_handle_exit hw_seg_base w1) as [o w2]. destruct Hx as (Hc & Hn & _).
  assert (np_root (vcpu (w_percpu w2)) = np_root (vcpu (w_percpu w1))) as <-.
  { specialize (Hc CB_NP). cbn [cached] in Hc. injection Hc as Hc _. unfold np_root, wvmcb in *. by rewrite Hn, Hc. }
  pose proof (Hk w2 _ (keeps_fault w2)) as Hf. destruct o as [[]|[e|]| |]; cbn [ret modify]; try done.
  unfold expect, fault. destruct (on_vcpu inject_fault w2) as [[] w3]; exact Hf.
Qed.

(** The exits with no handler of their own. *)
Definition unhandled (c : SvmExitCode.t) : bool :=
  match c with
  | SvmExitCode.INVALID | SvmExitCode.EXCP _ | SvmExitCode.NMI | SvmExitCode.CPUID
  | SvmExitCode.VMMCALL | SvmExitCode.MSR | SvmExitCode.SHUTDOWN => false
  | _ => true
  end.

(** An exit the hypervisor does not handle (an unknown code, a nested page
    fault, an SVM instruction) resumes the guest at the same instruction with
    a #GP(0) to inject; its registers, including RAX in the VMCB, are those of
    before the exit. *)
Theorem amd_unhandled_is_gp w :
  match SvmExitCode.try_from (ct_exit_code (control (wvmcb w))) with
  | Ok c => unhandled c = true
  | _ => True
  end ->
  exists w', vmexit_handler (amd_handle_exit hw_seg_base) w = (Ok tt, w') /\
    ct_event_inj (control (wvmcb w')) = GP_EVENT /\ ct_event_inj_err (control (wvmcb w')) = 0 /\
    save (wvmcb w') = save (wvmcb w) /\ w_cpu w' = w_cpu w /\ same_rest w w' /\
    guest_regs (vcpu (w_percpu w')) = with_rax (s_rax (save (wvmcb w))) (guest_regs (vcpu (w_percpu w))).
Proof.
  intros Hun. unfold vmexit_handler, bind at 1, attempt at 1.
  assert (exists e w1, amd_handle_exit hw_seg_base w = (Err (Fail e), w1) /\ save (wvmcb w1) = save (wvmcb w) /\
    w_cpu w1 = w_cpu w /\ same_rest w w1 /\
    guest_regs (vcpu (w_percpu w1)) = with_rax (s_rax (save (wvmcb w))) (guest_regs (vcpu (w_percpu w))))
    as (e & w1 & -> & Hs & Hc & Hr & Hg).
  { unfold amd_handle_exit, upd_vcpu. rewrite !bind_modify, bind_gets.
    cbn [VmExitInfo_new exit_code upd w_percpu with_vcpu vcpu vmcb set_vmcb set_guest_regs control
      ct_exit_code set_ct_clean_bits]. fold (wvmcb w).
    destruct (SvmExitCode.try_from _) as [c|e| |]; [|by eexists _, _; split_and!..].
    destruct c; try discriminate Hun; eexists _, _; (split; [reflexivity|]); split_and!; try done;
      unfold wvmcb; cbn; by destruct (save (vmcb (vcpu (w_percpu w)))). }
  unfold expect, fault, on_vcpu. cbn [inject_fault AmdOps]. unfold amd_inject_fault. rewrite gp_info.
  eexists. split; [reflexivity|]. cbn. split_and!; try done.
Qed.
End Exits.

(** ** Turning SVM on and off *)
Section OnOff.
Context {A : Type} {ba : BitAlloc A} {bf : BitField} {xr : X86Regs} {xrl : X86RegsLaws}.

Lemma efer_split x : in_range 64 x -> Z.lor (Z.land x (not64 efer_all)) (truncate efer_all x) = x.
Proof. intros Hx. apply write_get_back; [apply xrl|done|done]. Qed.

Lemma efer_set_on c :
  in_range 64 (msr_read IA32_EFER c) ->
  msr_read IA32_EFER (efer_set (Z.lor (efer_get c) EFER_SECURE_VIRTUAL_MACHINE_ENABLE) c) =
    Z.lor (msr_read IA32_EFER c) EFER_SECURE_VIRTUAL_MACHINE_ENABLE.
Proof.
  intros Hr. unfold efer_set, efer_get. rewrite msr_read_write, efer_write_spec, Z.lor_assoc.
  by rewrite efer_split.
Qed.

Lemma efer_svme c : contains (efer_get c) EFER_SECURE_VIRTUAL_MACHINE_ENABLE = Z.testbit (msr_read IA32_EFER c) 12.
Proof.
  unfold EFER_SECURE_VIRTUAL_MACHINE_ENABLE, efer_get, truncate. rewrite contains_bit, Z.land_spec by lia.
  pose proof efer_all_used as H. unfold EFER_SECURE_VIRTUAL_MACHINE_ENABLE in H.
  rewrite contains_bit in H by lia. by rewrite H, andb_true_r.
Qed.

(** The processor after the performance counters were stopped. *)
Definition perf_stopped (c c' : Cpu) : Prop :=
  (forall m, m ∉ [PERF_EVT_SEL0; PERF_EVT_SEL1; PERF_EVT_SEL2; PERF_EVT_SEL3; PERF_EVT_SEL4; PERF_EVT_SEL5] ->
     msr_read m c' = msr_read m c) /\
  c_cr0 c' = c_cr0 c /\ c_cr3 c' = c_cr3 c /\ c_cr4 c' = c_cr4 c.

Lemma svmdis_bit c : contains (VmCr_read c) VMCR_SVMDIS = Z.testbit (msr_read VM_CR c) 4.
Proof.
  unfold VMCR_SVMDIS, VmCr_read, truncate. rewrite contains_bit, Z.land_spec by lia.
  replace (Z.testbit VmCrFlags_all 4) with true by reflexivity. apply andb_true_r.
Qed.

Lemma contains_cr4_pae : contains cr4_all HOST_CR4 = true.
Proof.
  unfold HOST_CR4, CR4_PHYSICAL_ADDRESS_EXTENSION. rewrite contains_bit by lia.
  pose proof cr4_all_used as H. apply Z.eqb_eq in H.
  assert (Z.testbit (Z.land cr4_all CR4_used) 5 = true) as Hb by (rewrite H; reflexivity).
  rewrite Z.land_spec in Hb. by apply andb_true_iff in Hb as [? _].
Qed.

Lemma perf_stopped_ok c :
  let off m c := msr_write m (Z.land (msr_read m c) (not64 PERF_EVT_SEL_EN)) c in
  perf_stopped c (off PERF_EVT_SEL5 (off PERF_EVT_SEL4 (off PERF_EVT_SEL3 (off PERF_EVT_SEL2
    (off PERF_EVT_SEL1 (off PERF_EVT_SEL0 c)))))).
Proof.
  cbv zeta. split; [|done]. intros m Hm. rewrite !not_elem_of_cons in Hm.
  destruct Hm as (? & ? & ? & ? & ? & ? & _). by rewrite !msr_read_write_ne by done.
Qed.

(** [Vcpu::new] on every branch: SVM disabled in VM_CR is ENODEV and changes
    nothing; SVM already on is EBUSY, no free frame is ENOMEM, and neither
    turns SVM on or takes a frame; otherwise SVM is on, the host save area is
    the frame taken, CR4 is the one of the host, and the guest starts as
    Linux under the page table of the cell. *)
Theorem amd_new_branches this linux root c (m : Machine A) :
  in_range 64 (msr_read IA32_EFER c) -> in_range 64 (c_cr4 c) ->
  let res := amd_new this linux root (c, m) in
  if Z.testbit (msr_read VM_CR c) 4 then res = (Err ENODEV, (c, m))
  else exists c1, perf_stopped c c1 /\
    if Z.testbit (msr_read IA32_EFER c) 12 then res = (Err EBUSY, (c1, m))
    else match Frame_new m with
         | (Ok f, m') => exists v c2, res = (Ok v, (c2, m')) /\
             host_save_area v = f /\ msr_read VM_HSAVE_PA c2 = start_paddr f /\
             msr_read IA32_EFER c2 = Z.lor (msr_read IA32_EFER c) EFER_SECURE_VIRTUAL_MACHINE_ENABLE /\
             cr4_get c2 = HOST_CR4 /\ c_cr3 c2 = c_cr3 c /\ host_tp v = this /\
             starts_as linux root (vmcb v) /\
             forall n, intercepted (vmcb v) n =
               existsb (fun i => n =? SvmExitCode.code (exit_of i)) setup_intercepts
         | (Err e, m') => res = (Err e, (c1, m'))
         | _ => True
         end.
Proof.
  intros Hef Hcr4. cbv zeta. unfold amd_new. rewrite bind_gets. cbn [fst].
  unfold amd_check_hypervisor_feature. rewrite svmdis_bit.
  destruct (Z.testbit (msr_read VM_CR c) 4); [done|].
  rewrite bind_of_outcome, !bind_modify, bind_gets. cbn [fst snd].
  match goal with |- context [efer_get ?x] => set (c1 := x) end.
  assert (perf_stopped c c1) as Hps by apply perf_stopped_ok.
  exists c1. split; [done|]. rewrite efer_svme. destruct Hps as [Hmsr (_ & H3 & H4)].
  rewrite Hmsr by (by apply (bool_decide_unpack _)).
  destruct (Z.testbit (msr_read IA32_EFER c) 12); [done|].
  destruct (Frame_new m) as [[f|e| |] m'] eqn:Hf; [| |done..].
  2: { apply bind_err. unfold zoom. cbn [fst snd]. by rewrite Hf. }
  rewrite (bind_ok _ _ _ f (c1, m')) by (unfold zoom; cbn [fst snd]; by rewrite Hf).
  rewrite !bind_modify, bind_gets. cbn [fst snd].
  match goal with |- context [vmcb_setup ?x _ _ ?y] =>
    set (c2 := x); destruct (vmcb_setup_ok HvErrorNum x linux root y eq_refl) as (v & Hv & Hst & Hin);
    destruct (vmcb_setup_run HvErrorNum x linux root y) as (v' & Hv' & _ & Htp & _ & Hsa & _)
  end. fold c2 in Hv, Hv'. rewrite Hv in Hv'. injection Hv' as <-. rewrite Hv. clear Hv.
  eexists v, c2. split; [reflexivity|]. split_and!; try done.
  - by unfold c2; autorewrite with rvm_msr.
  - unfold c2. autorewrite with rvm_msr. rewrite efer_set_on.
    + by rewrite Hmsr by (by apply (bool_decide_unpack _)).
    + by rewrite Hmsr by (by apply (bool_decide_unpack _)).
  - unfold c2, cr4_get, cr4_set. cbn [c_cr4 with_cr]. rewrite cr4_write_spec.
    apply truncate_write; [apply xrl| |done|].
    + apply contains_cr4_pae.
    + change (c_cr4 _) with (c_cr4 c1). by rewrite H4.
Qed.
End OnOff.
