(* ===== verification/Init.v ===== *)
(** * Initialisation of a processor

    [PerCpu::init] of [src/src/percpu.rs]: the context of Linux is saved, the
    descriptor tables and the page table of the hypervisor are loaded and the
    vCPU is made. The vendor's [Vcpu::new] is an argument; the last part puts
    the AMD one in. *)

From S2P Require Import Prelude Crates HvError Addr PhysMem Frame Config X86 Segmentation Context Cpuid Vcpu Svm AmdVcpu AmdProps.

Section PerCpuInit.
Context {bf : BitField} {xr : X86Regs} {xd : X86Desc}.
Context {V X : Type} (vcpu_new : LinuxContext -> Z -> M (Cpu * X) HvErrorNum V).
(** Where the heap put the TSS and the GDT of this processor, and the shared IDT. *)
Context (tss_box gdt_box : Z) (idt : DescriptorTablePointer).

Abbreviation ISt := (Cpu * X * PerCpu V)%type.
Definition on_hw {B} : M (Cpu * X) HvErrorNum B -> M ISt HvErrorNum B := zoom fst (fun cx s => (cx, snd s)).
Definition on_cpu {B} (c : M Cpu HvErrorNum B) : M ISt HvErrorNum B :=
  on_hw (zoom fst (fun c s => (c, snd s)) c).
Definition on_percpu (f : PerCpu V -> PerCpu V) : M ISt HvErrorNum unit := modify (fun s => (fst s, f (snd s))).

Definition set_state (st : CpuState) (p : PerCpu V) : PerCpu V :=
  mkPerCpu (self_vaddr p) (id p) st (vcpu p) (linux p).
Definition set_linux (l : LinuxContext) (p : PerCpu V) : PerCpu V :=
  mkPerCpu (self_vaddr p) (id p) (state p) (vcpu p) l.
Definition set_vcpu (v : V) (p : PerCpu V) : PerCpu V :=
  mkPerCpu (self_vaddr p) (id p) (state p) v (linux p).

(** [X86PagingInstr::activate]. *)
Definition pt_activate {E} (root_paddr : Z) : M Cpu E unit := cr3_set root_paddr.

(** [hv_root] is the root of [hv_page_table()], [cell_root] of [cell.gpm]. *)
Definition percpu_init (linux_sp hv_root cell_root : Z) : M ISt HvErrorNum unit :=
  on_percpu (set_state HvDisabled) ;;;
  let* l := on_cpu (load_from linux_sp) in
  on_percpu (set_linux l) ;;;
  on_cpu (arch_init tss_box gdt_box idt) ;;;
  on_cpu (pt_activate hv_root) ;;;
  let* v := on_hw (vcpu_new l cell_root) in
  on_percpu (set_vcpu v) ;;;
  on_percpu (set_state HvEnabled).

(** ** The state of the processor when the vCPU is made *)
Context {xrl : X86RegsLaws} {xdl : X86DescLaws}.

Record hv_loaded (hv_root : Z) (c c' : Cpu) : Prop := {
  hl_sel : c_cs c' = KCODE_SELECTOR /\ c_es c' = 0 /\ c_ss c' = 0 /\ c_ds c' = 0 /\ c_tr c' = TSS_SELECTOR /\
           c_fs c' = c_fs c /\ c_gs c' = c_gs c;
  hl_tables : c_gdtr c' = mkDtp 127 gdt_box /\ c_idtr c' = idt;
  hl_cr : c_cr0 c' = c_cr0 c /\ c_cr3 c' = hv_root /\ c_cr4 c' = c_cr4 c;
  hl_msr : forall m, m <> IA32_PAT -> msr_read m c' = msr_read m c;
  hl_pat : msr_read IA32_PAT c' = 0x070106;
}.

(** Linux has its selectors in its GDT; the boxes are where the heap can be;
    the root of the page table is a frame. *)
Record init_pre (c : Cpu) (hv_root : Z) : Prop := {
  ip_linux : all_loaded c;
  ip_gdt : canonical gdt_box /\ gdt_box + 128 <= 2 ^ 64;
  ip_tss : in_range 64 tss_box;
  ip_root : 0 <= hv_root < 2 ^ 52 /\ hv_root mod 4096 = 0;
}.

Lemma percpu_init_branches linux_sp hv_root cell_root c x p :
  init_pre c hv_root ->
  exists l c1, load_from (E := HvErrorNum) linux_sp c = (Ok l, c) /\ hv_loaded hv_root c c1 /\
    let res := percpu_init linux_sp hv_root cell_root ((c, x), p) in
    match vcpu_new l cell_root (c1, x) with
    | (Ok v, s) => res = (Ok tt, (s, mkPerCpu (self_vaddr p) (id p) HvEnabled v l))
    | (Err e, s) => res = (Err e, (s, mkPerCpu (self_vaddr p) (id p) HvDisabled (vcpu p) l))
    | (Panic, _) => fst res = Panic
    | (Diverge, _) => fst res = Diverge
    end.
Proof.
  intros [Hall [Hcan Hbox] Htss [Hr Hra]].
  destruct (load_from_ok HvErrorNum c linux_sp Hall) as (l & Hl & _).
  destruct (arch_init_ok HvErrorNum tss_box gdt_box idt c Hcan Hbox Htss)
    as (c0 & Hc0 & Hcs & Hes & Hss & Hds & Htr & Hg & Hi & _ & _ & Hfs & Hgs & H0 & H4 & Hpat & Hm).
  exists l, (set_cr3 hv_root c0). split; [done|]. split.
  { split; [by split_and!..|done|done]. }
  cbv zeta. unfold percpu_init, on_percpu. rewrite bind_modify. cbn [fst snd].
  rewrite (bind_ok (on_cpu (load_from linux_sp)) _ _ l (c, x, set_state HvDisabled p))
    by (unfold on_cpu, on_hw, zoom; cbn [fst snd]; by rewrite Hl).
  rewrite bind_modify. cbn [fst snd].
  rewrite (bind_ok (on_cpu (arch_init tss_box gdt_box idt)) _ _ tt (c0, x, set_linux l (set_state HvDisabled p)))
    by (unfold on_cpu, on_hw, zoom; cbn [fst snd]; by rewrite Hc0).
  rewrite (bind_ok (on_cpu (pt_activate hv_root)) _ _ tt (set_cr3 hv_root c0, x, set_linux l (set_state HvDisabled p))).
  2:{ unfold on_cpu, on_hw, zoom, pt_activate, cr3_set. cbn [fst snd]. rewrite phys_addr_new_spec by done.
      unfold modify. rewrite frame_containing_spec by done. cbn [fst snd].
      replace (hv_root - hv_root mod 4096) with hv_root by lia. done. }
  unfold bind, on_hw, zoom. cbn [fst snd].
  by destruct (vcpu_new l cell_root (set_cr3 hv_root c0, x)) as [[v|e| |] s].
Qed.
End PerCpuInit.

(** ** On AMD: Linux becomes the guest *)
Section AmdInit.
Context {A : Type} {ba : BitAlloc A} {bf : BitField} {xr : X86Regs} {xrl : X86RegsLaws}.
Context {xd : X86Desc} {xdl : X86DescLaws} {rc : RawCpuid}.
Context (this tss_box gdt_box : Z) (idt : DescriptorTablePointer).

(** The registers of a processor that runs Linux, as a VMCB describes them;
    [linux_sp] is the frame [arch_entry] left. *)
Record guest_is_linux (c : Cpu) (linux_sp cell_root : Z) (v : Vmcb) : Prop := {
  gl_ip : s_rip (save v) = mem_get (c_vmem c) (add64 linux_sp 56) /\ s_rsp (save v) = add64 linux_sp 64 /\
          s_cpl (save v) = 0;
  gl_cr : s_cr0 (save v) = Z.land (cr0_get c) (not64 CR0_NOT_WRITE_THROUGH) /\ s_cr3 (save v) = cr3_get c /\
          s_cr4 (save v) = cr4_get c;
  gl_sel : [v_selector (s_es (save v)); v_selector (s_cs (save v)); v_selector (s_ss (save v));
            v_selector (s_ds (save v)); v_selector (s_fs (save v)); v_selector (s_gs (save v));
            v_selector (s_tr (save v))] = [c_es c; c_cs c; c_ss c; c_ds c; c_fs c; c_gs c; c_tr c];
  gl_base : v_base (s_fs (save v)) = msr_read IA32_FS_BASE c /\
            v_base (s_gs (save v)) = mem_get (c_vmem c) (add64 linux_sp 0);
  gl_tables : mkDtp (wrap 16 (v_limit (s_gdtr (save v)))) (v_base (s_gdtr (save v))) =
                mkDtp (wrap 16 (dt_limit (c_gdtr c))) (dt_base (c_gdtr c)) /\
              mkDtp (wrap 16 (v_limit (s_idtr (save v)))) (v_base (s_idtr (save v))) =
                mkDtp (wrap 16 (dt_limit (c_idtr c))) (dt_base (c_idtr c));
  gl_efer : s_efer (save v) = Z.lor (msr_read IA32_EFER c) EFER_SECURE_VIRTUAL_MACHINE_ENABLE;
  gl_nested : ct_np_enable (control v) = 1 /\ ct_nest_cr3 (control v) = cell_root;
  gl_intercepts : forall n, intercepted v n =
    existsb (fun i => n =? SvmExitCode.code (exit_of i)) setup_intercepts;
}.

Lemma wrap16_mask x : wrap 16 (Z.land x 0xffff) = wrap 16 x.
Proof. unfold wrap. change 0xffff with (Z.ones 16). rewrite Z.land_ones, Z.mod_mod by lia. done. Qed.

Lemma starts_guest_is_linux linux_sp cell_root c l v :
  all_loaded c -> load_from (E := HvErrorNum) linux_sp c = (Ok l, c) -> starts_as l cell_root v ->
  (forall n, intercepted v n = existsb (fun i => n =? SvmExitCode.code (exit_of i)) setup_intercepts) ->
  guest_is_linux c linux_sp cell_root v.
Proof.
  intros Hall Hl [(R1 & R2 & _) (C0 & C3 & C4) [Hcpl _] Hseg (G1 & G2 & I1 & I2) Hef (N1 & N2 & _)] Hin.
  destruct (load_from_ok HvErrorNum c linux_sp Hall) as (l' & Hl' & Les & Lcs & Lss & Lds & Lfs & Lgs & Ltr & Lfb & Lgb &
    Lrip & Lrsp & Lgdt & Lidt & Lcr0 & Lcr3 & Lcr4 & Lefer & _).
  rewrite Hl in Hl'. injection Hl' as <-. rewrite !Forall_cons in Hseg.
  destruct Hseg as (E1 & E2 & E3 & E4 & E5 & E6 & E7 & _).
  split; rewrite ?E1, ?E2, ?E3, ?E4, ?E5, ?E6, ?E7; unfold set_vmcb_segment; cbn [v_selector v_base];
    [split_and!; congruence|split_and!; congruence|congruence|split_and!; congruence| |congruence|by split_and!|done].
  rewrite G1, G2, I1, I2, Lgdt, Lidt, !wrap16_mask. done.
Qed.

(** [percpu_init] with the AMD vCPU, case by case. *)
Lemma amd_init_cases linux_sp hv_root cell_root c (m : Machine A) p :
  init_pre tss_box gdt_box c hv_root -> in_range 64 (msr_read IA32_EFER c) -> in_range 64 (c_cr4 c) ->
  match percpu_init (amd_new this) tss_box gdt_box idt linux_sp hv_root cell_root ((c, m), p) with
  | (Ok _, ((c', m'), p')) =>
      state p' = HvEnabled /\ guest_is_linux c linux_sp cell_root (vmcb (vcpu p')) /\
      load_from (E := HvErrorNum) linux_sp c = (Ok (linux p'), c) /\
      c_cr3 c' = hv_root /\ cr4_get c' = HOST_CR4 /\
      msr_read IA32_EFER c' = Z.lor (msr_read IA32_EFER c) EFER_SECURE_VIRTUAL_MACHINE_ENABLE /\
      exists f, Frame_new m = (Ok f, m') /\ host_save_area (vcpu p') = f /\ msr_read VM_HSAVE_PA c' = start_paddr f
  | (Err e, ((c', m'), p')) =>
      state p' = HvDisabled /\ vcpu p' = vcpu p /\ c_cr3 c' = hv_root /\
      msr_read IA32_EFER c' = msr_read IA32_EFER c /\
      (e = ENODEV /\ Z.testbit (msr_read VM_CR c) 4 = true /\ m' = m \/
       e = EBUSY /\ Z.testbit (msr_read IA32_EFER c) 12 = true /\ m' = m \/
       Frame_new m = (Err e, m'))
  | _ => False
  end.
Proof.
  intros Hpre Hef Hcr4.
  destruct (percpu_init_branches (amd_new this) tss_box gdt_box idt linux_sp hv_root cell_root c m p Hpre)
    as (l & c1 & Hl & [_ _ (_ & H3 & H4) Hm _] & Hres). cbv zeta in Hres.
  pose proof (amd_new_branches this l cell_root c1 m) as Hn. cbv zeta in Hn.
  rewrite (Hm IA32_EFER), (Hm VM_CR), H4 in Hn by discriminate. specialize (Hn Hef Hcr4).
  destruct (Z.testbit (msr_read VM_CR c) 4).
  { rewrite Hn in Hres. rewrite Hres. cbn. rewrite (Hm IA32_EFER) by discriminate. split_and!; try done. by left. }
  destruct Hn as (c2 & [Hps (_ & Hp3 & _)] & Hn).
  assert (msr_read IA32_EFER c2 = msr_read IA32_EFER c) as Hef2.
  { rewrite Hps by (by apply (bool_decide_unpack _)). by apply Hm. }
  destruct (Z.testbit (msr_read IA32_EFER c) 12).
  { rewrite Hn in Hres. rewrite Hres. cbn. rewrite Hp3. split_and!; try done. right. by left. }
  destruct (Frame_new m) as [[f|e| |] m'] eqn:Hf.
  - destruct Hn as (v & c3 & Hn & Hsa & Hhs & He & Hc4 & Hc3 & _ & Hst & Hin). rewrite Hn in Hres. rewrite Hres. cbn.
    rewrite Hc3, H3. split_and!; try done; [|by exists f].
    by eapply starts_guest_is_linux; [apply Hpre|..].
  - rewrite Hn in Hres. rewrite Hres. cbn. rewrite Hp3. split_and!; try done. right. by right.
  - unfold Frame_new in Hf. destruct (fa_alloc (fa m)) as [[|] ?]; discriminate Hf.
  - unfold Frame_new in Hf. destruct (fa_alloc (fa m)) as [[|] ?]; discriminate Hf.
Qed.

(** C29. [PerCpu::init] on AMD makes the running Linux the guest: the VMCB starts
    with the instruction and stack pointers, control registers, selectors and
    segment bases the processor had, under the nested page table of the cell,
    while the processor itself is on the page and descriptor tables of the
    hypervisor with SVM on. On an error (SVM disabled or in use, no frame) the
    CPU stays marked as disabled and SVM is not turned on, but the tables of
    the hypervisor remain loaded. *)
Theorem amd_linux_becomes_guest linux_sp hv_root cell_root c (m : Machine A) p :
  init_pre tss_box gdt_box c hv_root -> in_range 64 (msr_read IA32_EFER c) -> in_range 64 (c_cr4 c) ->
  match percpu_init (amd_new this) tss_box gdt_box idt linux_sp hv_root cell_root ((c, m), p) with
  | (Ok _, ((c', m'), p')) =>
      state p' = HvEnabled /\ guest_is_linux c linux_sp cell_root (vmcb (vcpu p')) /\
      load_from (E := HvErrorNum) linux_sp c = (Ok (linux p'), c) /\
      c_cr3 c' = hv_root /\ cr4_get c' = HOST_CR4 /\
      msr_read IA32_EFER c' = Z.lor (msr_read IA32_EFER c) EFER_SECURE_VIRTUAL_MACHINE_ENABLE /\
      exists f, Frame_new m = (Ok f, m') /\ host_save_area (vcpu p') = f /\ msr_read VM_HSAVE_PA c' = start_paddr f
  | (Err e, ((c', m'), p')) =>
      state p' = HvDisabled /\ vcpu p' = vcpu p /\ c_cr3 c' = hv_root /\
      msr_read IA32_EFER c' = msr_read IA32_EFER c /\
      (e = ENODEV /\ Z.testbit (msr_read VM_CR c) 4 = true /\ m' = m \/
       e = EBUSY /\ Z.testbit (msr_read IA32_EFER c) 12 = true /\ m' = m \/
       Frame_new m = (Err e, m'))
  | _ => False
  end.
Proof. exact (amd_init_cases linux_sp hv_root cell_root c m p). Qed.
End AmdInit.
