(* ===== verification/AmdDisable.v ===== *)
(** * Leaving the hypervisor on AMD

    [deactivate_vmm] with the AMD [Vcpu::exit] and the whole way from the VM exit
    of the VMMCALL that disables the hypervisor to the native processor: what
    the guest had at the exit is what Linux goes on with. *)

From S2P Require Import Prelude Crates HvError Addr PhysMem Frame Config X86 Segmentation Context Cpuid Vcpu Panic Svm AmdVcpu AmdProps Init.

Section AmdDisable.
Context {bf : BitField} {xr : X86Regs} {xrl : X86RegsLaws} {xd : X86Desc} {xdl : X86DescLaws}.
Context {rc : RawCpuid} {rcl : RawCpuidLaws}.
Context (hw_seg_base : Cpu -> Z -> Z).

(** A guest that can go on natively, on the processor [c] in the VM-exit
    handler: descriptor tables at canonical addresses, a 52-bit CR3, and a TSS
    descriptor of the guest's GDT that fits into the GDT of the hypervisor. *)
Record resumable (c : Cpu) (s : VmcbStateSaveArea) : Prop := {
  re_tables : canonical (v_base (s_gdtr s)) /\ canonical (v_base (s_idtr s));
  re_cr3 : 0 <= s_cr3 s < 2 ^ 52;
  re_cr : in_range 64 (c_cr0 c) /\ in_range 64 (c_cr4 c);
  re_hv_gdt : 0 <= dt_base (c_gdtr c) /\ dt_base (c_gdtr c) + 2 ^ 19 < 2 ^ 64 /\
              sel_index (c_tr c) + 1 < (dt_limit (c_gdtr c) + 1) / 8 < 2 ^ 16;
  re_tss : let d := mem_get (c_vmem c) (add64 (v_base (s_gdtr s)) (8 * sel_index (c_tr c))) in
           0 <= sel_index (c_tr c) /\ sel_index (c_tr c) + 1 < (wrap 16 (v_limit (s_gdtr s)) + 1) / 8 /\
           in_range 64 d /\ Z.testbit d 44 = false /\ Z.testbit d 47 = true;
}.

(** The native processor [c'], from the processor [c] and the save area [s] of
    the VM exit and the context [l] of the start: the registers SVM does not
    switch and [LinuxContext] saves are those of the start. *)
Record native (c : Cpu) (s : VmcbStateSaveArea) (l : LinuxContext) (c' : Cpu) : Prop := {
  na_sel : [c_es c'; c_cs c'; c_ss c'; c_ds c'; c_fs c'; c_gs c'; c_tr c'] =
           [v_selector (s_es s); v_selector (s_cs s); v_selector (s_ss s); v_selector (s_ds s);
            c_fs c; c_gs c; c_tr c];
  na_tables : c_gdtr c' = mkDtp (wrap 16 (v_limit (s_gdtr s))) (v_base (s_gdtr s)) /\
              c_idtr c' = mkDtp (wrap 16 (v_limit (s_idtr s))) (v_base (s_idtr s));
  na_cr : cr0_get c' = truncate cr0_all (s_cr0 s) /\ c_cr3 c' = s_cr3 s - s_cr3 s mod 4096 /\
          cr4_get c' = truncate cr4_all (s_cr4 s);
  na_base : msr_read IA32_FS_BASE c' = msr_read IA32_FS_BASE c /\ msr_read IA32_GS_BASE c' = v_base (s_gs s);
  na_efer : msr_read IA32_EFER c' = Z.land (s_efer s) (not64 EFER_SECURE_VIRTUAL_MACHINE_ENABLE);
  na_saved : [msr_read IA32_STAR c'; msr_read IA32_LSTAR c'; msr_read IA32_CSTAR c'; msr_read IA32_FMASK c';
              msr_read IA32_KERNEL_GSBASE c'; msr_read IA32_PAT c'] =
             [l_star l; l_lstar l; l_cstar l; l_fmask l; l_kernel_gsbase l; l_pat l];
  na_off : msr_read VM_HSAVE_PA c' = 0 /\ c_gif c' = true;
}.

(** [Vcpu::exit] and [LinuxContext::restore]. *)
Lemma amd_exit_restore c v l0 :
  resumable c (save (vmcb v)) ->
  exists l c1 c2, amd_exit ((c, v), l0) = (Ok tt, ((c1, v), l)) /\
    restore hw_seg_base (E := HvErrorNum) l c1 = (Ok tt, c2) /\
    l_rip l = s_rip (save (vmcb v)) /\ l_rsp l = s_rsp (save (vmcb v)) /\
    native c (save (vmcb v)) l0 (msr_write IA32_GS_BASE (base (l_gs l)) c2).
Proof.
  intros [[Hg Hi] H3 [Hr0 Hr4] (Hb0 & Hb1 & Hix) (Hti & Htl & Hd)].
  unfold amd_exit, load_vmcb_guest, virt_addr, bind, ret, modify. cbv beta iota zeta.
  rewrite !virt_addr_new_spec by done. cbv beta iota zeta.
  match goal with |- exists l c1 c2, (Ok tt, ((?x, _), ?y)) = _ /\ _ => set (c1 := x); set (l := y) end.
  assert (restore_pre l c1) as Hpre.
  { split; [exact H3|split; [exact Hti|split; [exact Hix|exact Htl]]|split; [exact Hb0|exact Hb1]|exact Hd]. }
  destruct (restore_ok hw_seg_base HvErrorNum l c1 Hpre) as (c2 & Hc & Res & Rcs & Rss & Rds & Rfs & Rgs & Rtr & Rfb &
    Rgdt & Ridt & Rcr0 & Rcr3 & Rcr4 & Refer & Rstar & Rlstar & Rcstar & Rfm & Rkgs & Rpat & Rgif & Rmsr).
  exists l, c1, c2. split; [done|]. split; [done|]. split; [done|]. split; [done|].
  split; cbn [c_es c_cs c_ss c_ds c_fs c_gs c_tr c_gdtr c_idtr c_cr3 c_gif msr_write with_msr].
  - by rewrite Res, Rcs, Rss, Rds, Rfs, Rgs, Rtr.
  - by rewrite Rgdt, Ridt.
  - unfold cr0_get, cr4_get. cbn [c_cr0 c_cr4 msr_write with_msr].
    rewrite Rcr0, Rcr3, Rcr4, cr0_write_spec, cr4_write_spec, frame_containing_spec by exact H3.
    split; [|split; [done|]]; apply truncate_write; try apply xrl; try done;
      first [apply contains_truncate_all | apply truncate_nonneg; apply xrl].
  - rewrite msr_read_write, msr_read_write_ne, Rfb by done. done.
  - by rewrite msr_read_write_ne, Refer by done.
  - rewrite !msr_read_write_ne, Rstar, Rlstar, Rcstar, Rfm, Rkgs, Rpat by done. done.
  - rewrite msr_read_write_ne, Rmsr, Rgif by (done || by apply (bool_decide_unpack _)).
    split; [|done]. apply msr_read_write.
Qed.

Abbreviation W := (World AmdVcpu).

(** The save area of the guest as the wrapper completes it. *)
Definition exit_save (w : W) : VmcbStateSaveArea :=
  let s := save (vmcb (vcpu (w_percpu w))) in
  set_s_gs (mkVmcbSegment (v_selector (s_gs s)) (v_attr (s_gs s)) (v_limit (s_gs s))
              (msr_read IA32_GS_BASE (w_cpu w))) s.

(** A VM exit for the hypercall that disables the hypervisor, made in ring 0
    when as many processors have asked as are active. *)
Record disable_exit (w : W) : Prop := {
  de_code : ct_exit_code (control (vmcb (vcpu (w_percpu w)))) = 0x81;
  de_rax : wrap 32 (s_rax (save (vmcb (vcpu (w_percpu w))))) = 0;
  de_cpl : s_cpl (save (vmcb (vcpu (w_percpu w)))) = 0;
  de_last : w_activated w <= wrap 32 (w_try_disable w + 1);
  de_guest : resumable (w_cpu w) (save (vmcb (vcpu (w_percpu w))));
}.

(** The whole way from the VM exit to the native processor. *)
Lemma amd_disable_ok (w : W) :
  disable_exit w ->
  exists w', vmexit_handler_wrapper hw_seg_base w = (Err BackInLinux, w') /\
    native (w_cpu w) (exit_save w) (linux (w_percpu w)) (w_cpu w') /\
    state (w_percpu w') = HvDisabled /\ w_activated w' = wrap 32 (w_activated w - 1) /\
    l_rip (linux (w_percpu w')) = add64 (s_rip (exit_save w)) 3 /\
    l_rsp (linux (w_percpu w')) = s_rsp (exit_save w) /\
    guest_regs (vcpu (w_percpu w')) = with_rax 0 (guest_regs (vcpu (w_percpu w))).
Proof.
  intros [Hcode Hrax Hcpl Hlast Hg]. destruct w as [c [sv i st v l0] n t]. cbn [w_cpu w_percpu vcpu linux] in *.
  set (r := with_rax (s_rax (save (vmcb v))) (guest_regs v)).
  set (s := exit_save (mkWorld c (mkPerCpu sv i st v l0) n t)).
  set (ctl := set_ct_clean_bits VmcbCleanBits_UNMODIFIED (control (vmcb v))).
  set (c1 := msr_write IA32_GS_BASE sv c). set (s' := set_s_rip (add64 (s_rip s) 3) s).
  pose (at_ v' := mkWorld c1 (mkPerCpu sv i st v' l0) n t : W).
  pose (v1 := set_guest_regs r (set_vmcb (mkVmcb ctl s) v)). pose (v2 := set_guest_regs r (set_vmcb (mkVmcb ctl s') v)).
  pose (v3 := set_guest_regs (with_rax 0 r) (set_vmcb (mkVmcb ctl s') v)).
  assert (resumable c1 (save (vmcb v3))) as Hg' by (destruct Hg; split; done).
  destruct (amd_exit_restore c1 v3 l0 Hg') as (l & c2 & c3 & He & Hr & Hrip & Hrsp & Hn).
  set (w' := mkWorld (msr_write IA32_GS_BASE (base (l_gs l)) c3) (mkPerCpu sv i HvDisabled v3 l)
               (wrap 32 (n - 1)) (wrap 32 (t + 1)) : W).
  assert (handle_hypercall hw_seg_base (at_ v1) = (Err BackInLinux, w')) as Hh.
  { unfold handle_hypercall.
    rewrite (bind_ok (on_vcpu (advance_rip VM_EXIT_LEN_HYPERCALL)) _ (at_ v1) tt (at_ v2)) by reflexivity.
    unfold get_regs. rewrite bind_gets.
    rewrite (bind_ok (on_vcpu guest_page_table) _ (at_ v2) (align_down (s_cr3 s')) (at_ v2)) by reflexivity.
    change (wrap 32 (rax (regs (vcpu (w_percpu (at_ v2)))))) with (wrap 32 (s_rax (save (vmcb v)))). rewrite Hrax.
    apply hypercall_leaves; [exact I| | |].
    - unfold wview, wst, at_. cbn [view AmdLaws]. unfold amd_view. cbn. by rewrite Hcpl.
    - cbn. cbn in Hlast. lia.
    - rewrite deactivate_eq. unfold at_. cbv zeta. cbn [w_cpu w_percpu w_activated w_try_disable vcpu linux self_vaddr id state].
      change (regs_mut _ _) with v3. cbn [vcpu_exit AmdOps]. by rewrite He, Hr. }
  exists w'. split.
  { unfold vmexit_handler_wrapper, upd_vcpu. rewrite bind_gets, !bind_modify. apply bind_err.
    unfold vmexit_handler. apply bind_err. unfold attempt, amd_handle_exit, upd_vcpu. rewrite !bind_modify, bind_gets.
    change (exit_code (VmExitInfo_new _)) with (SvmExitCode.try_from (ct_exit_code (control (vmcb v)))). rewrite Hcode.
    change (SvmExitCode.try_from 0x81) with (@Ok Z _ SvmExitCode.VMMCALL).
    cbv beta iota. rewrite (bind_err _ _ _ BackInLinux w'); [done|]. unfold attempt. cbn [amd_dispatch].
    match goal with |- context [handle_hypercall _ ?x] => change x with (at_ v1) end. by rewrite Hh. }
  cbn [w_cpu w_percpu w' state w_activated linux vcpu guest_regs]. split_and!; try done.
  destruct Hn as [N1 N2 N3 [N4 N5] N6 N7 N8]. split; try done. split; [|done].
  rewrite N4. unfold c1. by rewrite msr_read_write_ne.
Qed.

(** The last VM exit on AMD, from [vmexit_handler_wrapper] to the native
    processor: the hypercall that disables the hypervisor gives Linux the
    processor with the selectors, descriptor tables, control registers and
    segment bases the guest had, SVM off and the global interrupt flag set, and
    with a context that resumes behind the VMMCALL with RAX 0 and all other
    registers of the guest. *)
Theorem amd_disable_native (w : W) :
  disable_exit w ->
  exists w', vmexit_handler_wrapper hw_seg_base w = (Err BackInLinux, w') /\
    native (w_cpu w) (exit_save w) (linux (w_percpu w)) (w_cpu w') /\
    state (w_percpu w') = HvDisabled /\ w_activated w' = wrap 32 (w_activated w - 1) /\
    l_rip (linux (w_percpu w')) = add64 (s_rip (exit_save w)) 3 /\
    l_rsp (linux (w_percpu w')) = s_rsp (exit_save w) /\
    guest_regs (vcpu (w_percpu w')) = with_rax 0 (guest_regs (vcpu (w_percpu w))).
Proof. exact (amd_disable_ok w). Qed.

(** ** On and off again *)
Section AmdRound.
Context {A : Type} {ba : BitAlloc A}.
Context (this tss_box gdt_box : Z) (idt : DescriptorTablePointer).

(** The VM exit of a guest that was initialised as [p1] and has not changed its
    system state: the VMCB has the system registers it started with, and the
    processor those that VMLOAD took from it. *)
Record system_unchanged (p1 : PerCpu AmdVcpu) (w : W) : Prop := {
  su_save : let s := save (vmcb (vcpu (w_percpu w))) in let s1 := save (vmcb (vcpu p1)) in
    (s_es s, s_cs s, s_ss s, s_ds s) = (s_es s1, s_cs s1, s_ss s1, s_ds s1) /\
    (s_gdtr s, s_idtr s, s_cr0 s, s_cr3 s, s_cr4 s, s_efer s) =
    (s_gdtr s1, s_idtr s1, s_cr0 s1, s_cr3 s1, s_cr4 s1, s_efer s1);
  su_cpu : let s1 := save (vmcb (vcpu p1)) in
    (c_fs (w_cpu w), c_gs (w_cpu w), c_tr (w_cpu w)) = (v_selector (s_fs s1), v_selector (s_gs s1), v_selector (s_tr s1)) /\
    msr_read IA32_FS_BASE (w_cpu w) = v_base (s_fs s1) /\ msr_read IA32_GS_BASE (w_cpu w) = v_base (s_gs s1);
  su_linux : linux (w_percpu w) = linux p1;
}.

Lemma efer_off x : in_range 64 x -> Z.testbit x 12 = false ->
  Z.land (Z.lor x EFER_SECURE_VIRTUAL_MACHINE_ENABLE) (not64 EFER_SECURE_VIRTUAL_MACHINE_ENABLE) = x.
Proof.
  intros Hx Hb. unfold EFER_SECURE_VIRTUAL_MACHINE_ENABLE.
  rewrite Z.land_lor_distr_l, (land_not_bit x 12) by (done || lia).
  change (Z.land (Z.shiftl 1 12) (not64 (Z.shiftl 1 12))) with 0. apply Z.lor_0_r.
Qed.

(** C31. The hypervisor comes and goes without a trace: Linux is put into the VMCB
    by [PerCpu::init], runs as a guest that leaves its system registers alone,
    and disables the hypervisor; the native processor then has the selectors,
    descriptor tables, control registers, segment bases and MSRs it had before
    the hypervisor was entered, and Linux goes on behind its VMMCALL. *)
Theorem amd_enable_disable linux_sp hv_root cell_root c (m : Machine A) p c1 m1 p1 (w : W) :
  init_pre tss_box gdt_box c hv_root -> in_range 64 (msr_read IA32_EFER c) -> in_range 64 (c_cr4 c) ->
  Z.testbit (msr_read IA32_EFER c) 12 = false -> Z.testbit (cr0_get c) 29 = false ->
  percpu_init (amd_new this) tss_box gdt_box idt linux_sp hv_root cell_root ((c, m), p) = (Ok tt, ((c1, m1), p1)) ->
  disable_exit w -> system_unchanged p1 w ->
  exists w', vmexit_handler_wrapper hw_seg_base w = (Err BackInLinux, w') /\ back_as linux_sp c (w_cpu w') /\
    l_rip (linux (w_percpu w')) = add64 (s_rip (save (vmcb (vcpu (w_percpu w))))) 3 /\
    l_rsp (linux (w_percpu w')) = s_rsp (save (vmcb (vcpu (w_percpu w)))) /\
    guest_regs (vcpu (w_percpu w')) = with_rax 0 (guest_regs (vcpu (w_percpu w))).
Proof.
  intros Hpre Hef H4 H12 H29 Hinit Hex [[Hs1 Hs2] (Hu1 & Hu2 & Hu3) Hu4].
  pose proof (amd_init_cases this tss_box gdt_box idt linux_sp hv_root cell_root c m p Hpre Hef H4) as Hi.
  rewrite Hinit in Hi. destruct Hi as (_ & [_ (G0 & G3 & G4) Gsel [Gfs Ggs] [Gg Gi] Ge _ _] & Hl & _).
  destruct (load_from_ok HvErrorNum c linux_sp (ip_linux _ _ _ _ Hpre)) as (l & Hl' & L). rewrite Hl in Hl'. injection Hl' as <-.
  destruct L as (_ & _ & _ & _ & _ & _ & _ & _ & _ & _ & _ & _ & _ & _ & _ & _ & _ & L1 & L2 & L3 & L4 & L5 & L6).
  destruct (amd_disable_ok w Hex) as (w' & Hw & [N1 [N2 N3] (N4 & N5 & N6) [N7 N8] N9 N10 _] & _ & _ & Hip & Hsp & Hr).
  cbv zeta in *. unfold exit_save in *. cbv zeta in *.
  cbn [s_es s_cs s_ss s_ds s_gs s_gdtr s_idtr s_cr0 s_cr3 s_cr4 s_efer s_rip s_rsp set_s_gs v_base] in *.
  injection Hs1 as Ees Ecs Ess Eds. injection Hs2 as Eg Ei E0 E3 E4 Ee. injection Hu1 as Efs Egs Etr.
  rewrite Hu4 in *. exists w'. split; [done|]. split; [|done]. split.
  - rewrite N1, Ees, Ecs, Ess, Eds, Efs, Egs, Etr. done.
  - rewrite N2, N3, Eg, Ei. done.
  - rewrite N4, N5, N6, E0, E3, E4, G0, G3, G4. unfold CR0_NOT_WRITE_THROUGH.
    rewrite land_not_bit by (done || lia || apply cr0_get_range).
    unfold cr0_get, cr4_get. rewrite !truncate_idem. pose proof (cr3_frame_range (c_cr3 c)) as [_ Hz].
    unfold cr3_get. rewrite Hz. split_and!; lia.
  - rewrite N7, N8, Hu2, Hu3, Gfs, Ggs. done.
  - injection N10 as M1 M2 M3 M4 M5 M6. intros i Hi. rewrite !elem_of_cons, elem_of_nil in Hi.
    destruct Hi as [->|[->|[->|[->|[->|[->|[->|[]]]]]]]]; [|congruence..].
    rewrite N9, Ee, Ge. by apply efer_off.
Qed.
End AmdRound.
End AmdDisable.
