(* ===== verification/Vmx.v ===== *)
(** * The VMX definitions of libvmm

    [src/crates/libvmm/src/x86_64/vmx/vmcs.rs] (the VMCS fields and [Vmcs]),
    [definitions.rs] ([VmxExitReason], [VmxInstructionError]), [flags.rs] (the
    control words, [EPTPointer], [VmxBasic], [FeatureControl], [InterruptInfo])
    and [instructions.rs] ([invept]). The reading and writing of fields is what
    the attribute [vmcs_access] of [libvmm_macros/src/vmcs.rs] generates.

    The VMX instructions of the processor are the interface [VmxHw]. *)

From stdpp Require Import strings.
From S2P Require Import Prelude Crates HvError X86.

(** ** VMCS fields *)

Module VmcsField16Control.
Inductive t : Type :=
| VIRTUAL_PROCESSOR_ID | POSTED_INTR_NV | EPTP_INDEX.

Definition code (f : t) : Z :=
  match f with
  | VIRTUAL_PROCESSOR_ID => 0x0
  | POSTED_INTR_NV => 0x2
  | EPTP_INDEX => 0x4
  end.

Definition all : list t :=
  [VIRTUAL_PROCESSOR_ID; POSTED_INTR_NV; EPTP_INDEX].

End VmcsField16Control.

Module VmcsField16Guest.
Inductive t : Type :=
| ES_SELECTOR | CS_SELECTOR | SS_SELECTOR | DS_SELECTOR | FS_SELECTOR | GS_SELECTOR
| LDTR_SELECTOR | TR_SELECTOR | INTR_STATUS | PML_INDEX.

Definition code (f : t) : Z :=
  match f with
  | ES_SELECTOR => 0x800
  | CS_SELECTOR => 0x802
  | SS_SELECTOR => 0x804
  | DS_SELECTOR => 0x806
  | FS_SELECTOR => 0x808
  | GS_SELECTOR => 0x80a
  | LDTR_SELECTOR => 0x80c
  | TR_SELECTOR => 0x80e
  | INTR_STATUS => 0x810
  | PML_INDEX => 0x812
  end.

Definition all : list t :=
  [ES_SELECTOR; CS_SELECTOR; SS_SELECTOR; DS_SELECTOR; FS_SELECTOR; GS_SELECTOR;
   LDTR_SELECTOR; TR_SELECTOR; INTR_STATUS; PML_INDEX].

End VmcsField16Guest.

Module VmcsField16Host.
Inductive t : Type :=
| ES_SELECTOR | CS_SELECTOR | SS_SELECTOR | DS_SELECTOR | FS_SELECTOR | GS_SELECTOR
| TR_SELECTOR.

Definition code (f : t) : Z :=
  match f with
  | ES_SELECTOR => 0xc00
  | CS_SELECTOR => 0xc02
  | SS_SELECTOR => 0xc04
  | DS_SELECTOR => 0xc06
  | FS_SELECTOR => 0xc08
  | GS_SELECTOR => 0xc0a
  | TR_SELECTOR => 0xc0c
  end.

Definition all : list t :=
  [ES_SELECTOR; CS_SELECTOR; SS_SELECTOR; DS_SELECTOR; FS_SELECTOR; GS_SELECTOR;
   TR_SELECTOR].

End VmcsField16Host.

Module VmcsField32Control.
Inductive t : Type :=
| PIN_BASED_VM_EXEC_CONTROL | PROC_BASED_VM_EXEC_CONTROL | EXCEPTION_BITMAP
| PAGE_FAULT_ERROR_CODE_MASK | PAGE_FAULT_ERROR_CODE_MATCH | CR3_TARGET_COUNT
| VM_EXIT_CONTROLS | VM_EXIT_MSR_STORE_COUNT | VM_EXIT_MSR_LOAD_COUNT | VM_ENTRY_CONTROLS
| VM_ENTRY_MSR_LOAD_COUNT | VM_ENTRY_INTR_INFO_FIELD | VM_ENTRY_EXCEPTION_ERROR_CODE
| VM_ENTRY_INSTRUCTION_LEN | TPR_THRESHOLD | SECONDARY_VM_EXEC_CONTROL | PLE_GAP
| PLE_WINDOW.

Definition code (f : t) : Z :=
  match f with
  | PIN_BASED_VM_EXEC_CONTROL => 0x4000
  | PROC_BASED_VM_EXEC_CONTROL => 0x4002
  | EXCEPTION_BITMAP => 0x4004
  | PAGE_FAULT_ERROR_CODE_MASK => 0x4006
  | PAGE_FAULT_ERROR_CODE_MATCH => 0x4008
  | CR3_TARGET_COUNT => 0x400a
  | VM_EXIT_CONTROLS => 0x400c
  | VM_EXIT_MSR_STORE_COUNT => 0x400e
  | VM_EXIT_MSR_LOAD_COUNT => 0x4010
  | VM_ENTRY_CONTROLS => 0x4012
  | VM_ENTRY_MSR_LOAD_COUNT => 0x4014
  | VM_ENTRY_INTR_INFO_FIELD => 0x4016
  | VM_ENTRY_EXCEPTION_ERROR_CODE => 0x4018
  | VM_ENTRY_INSTRUCTION_LEN => 0x401a
  | TPR_THRESHOLD => 0x401c
  | SECONDARY_VM_EXEC_CONTROL => 0x401e
  | PLE_GAP => 0x4020
  | PLE_WINDOW => 0x4022
  end.

Definition all : list t :=
  [PIN_BASED_VM_EXEC_CONTROL; PROC_BASED_VM_EXEC_CONTROL; EXCEPTION_BITMAP;
   PAGE_FAULT_ERROR_CODE_MASK; PAGE_FAULT_ERROR_CODE_MATCH; CR3_TARGET_COUNT;
   VM_EXIT_CONTROLS; VM_EXIT_MSR_STORE_COUNT; VM_EXIT_MSR_LOAD_COUNT; VM_ENTRY_CONTROLS;
   VM_ENTRY_MSR_LOAD_COUNT; VM_ENTRY_INTR_INFO_FIELD; VM_ENTRY_EXCEPTION_ERROR_CODE;
   VM_ENTRY_INSTRUCTION_LEN; TPR_THRESHOLD; SECONDARY_VM_EXEC_CONTROL; PLE_GAP; PLE_WINDOW].

End VmcsField32Control.

Module VmcsField32ReadOnly.
Inductive t : Type :=
| VM_INSTRUCTION_ERROR | VM_EXIT_REASON | VM_EXIT_INTR_INFO | VM_EXIT_INTR_ERROR_CODE
| IDT_VECTORING_INFO_FIELD | IDT_VECTORING_ERROR_CODE | VM_EXIT_INSTRUCTION_LEN
| VMX_INSTRUCTION_INFO.

Definition code (f : t) : Z :=
  match f with
  | VM_INSTRUCTION_ERROR => 0x4400
  | VM_EXIT_REASON => 0x4402
  | VM_EXIT_INTR_INFO => 0x4404
  | VM_EXIT_INTR_ERROR_CODE => 0x4406
  | IDT_VECTORING_INFO_FIELD => 0x4408
  | IDT_VECTORING_ERROR_CODE => 0x440a
  | VM_EXIT_INSTRUCTION_LEN => 0x440c
  | VMX_INSTRUCTION_INFO => 0x440e
  end.

Definition all : list t :=
  [VM_INSTRUCTION_ERROR; VM_EXIT_REASON; VM_EXIT_INTR_INFO; VM_EXIT_INTR_ERROR_CODE;
   IDT_VECTORING_INFO_FIELD; IDT_VECTORING_ERROR_CODE; VM_EXIT_INSTRUCTION_LEN;
   VMX_INSTRUCTION_INFO].

End VmcsField32ReadOnly.

Module VmcsField32Guest.
Inductive t : Type :=
| ES_LIMIT | CS_LIMIT | SS_LIMIT | DS_LIMIT | FS_LIMIT | GS_LIMIT | LDTR_LIMIT | TR_LIMIT
| GDTR_LIMIT | IDTR_LIMIT | ES_AR_BYTES | CS_AR_BYTES | SS_AR_BYTES | DS_AR_BYTES
| FS_AR_BYTES | GS_AR_BYTES | LDTR_AR_BYTES | TR_AR_BYTES | INTERRUPTIBILITY_INFO
| ACTIVITY_STATE | SYSENTER_CS | VMX_PREEMPTION_TIMER_VALUE.

Definition code (f : t) : Z :=
  match f with
  | ES_LIMIT => 0x4800
  | CS_LIMIT => 0x4802
  | SS_LIMIT => 0x4804
  | DS_LIMIT => 0x4806
  | FS_LIMIT => 0x4808
  | GS_LIMIT => 0x480a
  | LDTR_LIMIT => 0x480c
  | TR_LIMIT => 0x480e
  | GDTR_LIMIT => 0x4810
  | IDTR_LIMIT => 0x4812
  | ES_AR_BYTES => 0x4814
  | CS_AR_BYTES => 0x4816
  | SS_AR_BYTES => 0x4818
  | DS_AR_BYTES => 0x481a
  | FS_AR_BYTES => 0x481c
  | GS_AR_BYTES => 0x481e
  | LDTR_AR_BYTES => 0x4820
  | TR_AR_BYTES => 0x4822
  | INTERRUPTIBILITY_INFO => 0x4824
  | ACTIVITY_STATE => 0x4826
  | SYSENTER_CS => 0x482a
  | VMX_PREEMPTION_TIMER_VALUE => 0x482e
  end.

Definition all : list t :=
  [ES_LIMIT; CS_LIMIT; SS_LIMIT; DS_LIMIT; FS_LIMIT; GS_LIMIT; LDTR_LIMIT; TR_LIMIT;
   GDTR_LIMIT; IDTR_LIMIT; ES_AR_BYTES; CS_AR_BYTES; SS_AR_BYTES; DS_AR_BYTES; FS_AR_BYTES;
   GS_AR_BYTES; LDTR_AR_BYTES; TR_AR_BYTES; INTERRUPTIBILITY_INFO; ACTIVITY_STATE;
   SYSENTER_CS; VMX_PREEMPTION_TIMER_VALUE].

End VmcsField32Guest.

Module VmcsField32Host.
Inductive t : Type :=
| IA32_SYSENTER_CS.

Definition code (f : t) : Z :=
  match f with
  | IA32_SYSENTER_CS => 0x4c00
  end.

Definition all : list t :=
  [IA32_SYSENTER_CS].

End VmcsField32Host.

Module VmcsField64Control.
Inductive t : Type :=
| IO_BITMAP_A | IO_BITMAP_B | MSR_BITMAP | VM_EXIT_MSR_STORE_ADDR | VM_EXIT_MSR_LOAD_ADDR
| VM_ENTRY_MSR_LOAD_ADDR | PML_ADDRESS | TSC_OFFSET | VIRTUAL_APIC_PAGE_ADDR
| APIC_ACCESS_ADDR | POSTED_INTR_DESC_ADDR | VM_FUNCTION_CONTROL | EPT_POINTER
| EOI_EXIT_BITMAP0 | EOI_EXIT_BITMAP1 | EOI_EXIT_BITMAP2 | EOI_EXIT_BITMAP3
| EPTP_LIST_ADDRESS | VMREAD_BITMAP | VMWRITE_BITMAP | XSS_EXIT_BITMAP
| ENCLS_EXITING_BITMAP | TSC_MULTIPLIER | CR0_GUEST_HOST_MASK | CR4_GUEST_HOST_MASK
| CR0_READ_SHADOW | CR4_READ_SHADOW | CR3_TARGET_VALUE0 | CR3_TARGET_VALUE1
| CR3_TARGET_VALUE2 | CR3_TARGET_VALUE3.

Definition code (f : t) : Z :=
  match f with
  | IO_BITMAP_A => 0x2000
  | IO_BITMAP_B => 0x2002
  | MSR_BITMAP => 0x2004
  | VM_EXIT_MSR_STORE_ADDR => 0x2006
  | VM_EXIT_MSR_LOAD_ADDR => 0x2008
  | VM_ENTRY_MSR_LOAD_ADDR => 0x200a
  | PML_ADDRESS => 0x200e
  | TSC_OFFSET => 0x2010
  | VIRTUAL_APIC_PAGE_ADDR => 0x2012
  | APIC_ACCESS_ADDR => 0x2014
  | POSTED_INTR_DESC_ADDR => 0x2016
  | VM_FUNCTION_CONTROL => 0x2018
  | EPT_POINTER => 0x201a
  | EOI_EXIT_BITMAP0 => 0x201c
  | EOI_EXIT_BITMAP1 => 0x201e
  | EOI_EXIT_BITMAP2 => 0x2020
  | EOI_EXIT_BITMAP3 => 0x2022
  | EPTP_LIST_ADDRESS => 0x2024
  | VMREAD_BITMAP => 0x2026
  | VMWRITE_BITMAP => 0x2028
  | XSS_EXIT_BITMAP => 0x202c
  | ENCLS_EXITING_BITMAP => 0x202e
  | TSC_MULTIPLIER => 0x2032
  | CR0_GUEST_HOST_MASK => 0x6000
  | CR4_GUEST_HOST_MASK => 0x6002
  | CR0_READ_SHADOW => 0x6004
  | CR4_READ_SHADOW => 0x6006
  | CR3_TARGET_VALUE0 => 0x6008
  | CR3_TARGET_VALUE1 => 0x600a
  | CR3_TARGET_VALUE2 => 0x600c
  | CR3_TARGET_VALUE3 => 0x600e
  end.

Definition all : list t :=
  [IO_BITMAP_A; IO_BITMAP_B; MSR_BITMAP; VM_EXIT_MSR_STORE_ADDR; VM_EXIT_MSR_LOAD_ADDR;
   VM_ENTRY_MSR_LOAD_ADDR; PML_ADDRESS; TSC_OFFSET; VIRTUAL_APIC_PAGE_ADDR;
   APIC_ACCESS_ADDR; POSTED_INTR_DESC_ADDR; VM_FUNCTION_CONTROL; EPT_POINTER;
   EOI_EXIT_BITMAP0; EOI_EXIT_BITMAP1; EOI_EXIT_BITMAP2; EOI_EXIT_BITMAP3;
   EPTP_LIST_ADDRESS; VMREAD_BITMAP; VMWRITE_BITMAP; XSS_EXIT_BITMAP; ENCLS_EXITING_BITMAP;
   TSC_MULTIPLIER; CR0_GUEST_HOST_MASK; CR4_GUEST_HOST_MASK; CR0_READ_SHADOW;
   CR4_READ_SHADOW; CR3_TARGET_VALUE0; CR3_TARGET_VALUE1; CR3_TARGET_VALUE2;
   CR3_TARGET_VALUE3].

End VmcsField64Control.

Module VmcsField64ReadOnly.
Inductive t : Type :=
| GUEST_PHYSICAL_ADDRESS | EXIT_QUALIFICATION | IO_RCX | IO_RSI | IO_RDI | IO_RIP
| GUEST_LINEAR_ADDRESS.

Definition code (f : t) : Z :=
  match f with
  | GUEST_PHYSICAL_ADDRESS => 0x2400
  | EXIT_QUALIFICATION => 0x6400
  | IO_RCX => 0x6402
  | IO_RSI => 0x6404
  | IO_RDI => 0x6406
  | IO_RIP => 0x6408
  | GUEST_LINEAR_ADDRESS => 0x640a
  end.

Definition all : list t :=
  [GUEST_PHYSICAL_ADDRESS; EXIT_QUALIFICATION; IO_RCX; IO_RSI; IO_RDI; IO_RIP;
   GUEST_LINEAR_ADDRESS].

End VmcsField64ReadOnly.

Module VmcsField64Guest.
Inductive t : Type :=
| VMCS_LINK_POINTER | IA32_DEBUGCTL | IA32_PAT | IA32_EFER | IA32_PERF_GLOBAL_CTRL | PDPTR0
| PDPTR1 | PDPTR2 | PDPTR3 | BNDCFGS | CR0 | CR3 | CR4 | ES_BASE | CS_BASE | SS_BASE
| DS_BASE | FS_BASE | GS_BASE | LDTR_BASE | TR_BASE | GDTR_BASE | IDTR_BASE | DR7 | RSP
| RIP | RFLAGS | PENDING_DBG_EXCEPTIONS | SYSENTER_ESP | SYSENTER_EIP.

Definition code (f : t) : Z :=
  match f with
  | VMCS_LINK_POINTER => 0x2800
  | IA32_DEBUGCTL => 0x2802
  | IA32_PAT => 0x2804
  | IA32_EFER => 0x2806
  | IA32_PERF_GLOBAL_CTRL => 0x2808
  | PDPTR0 => 0x280a
  | PDPTR1 => 0x280c
  | PDPTR2 => 0x280e
  | PDPTR3 => 0x2810
  | BNDCFGS => 0x2812
  | CR0 => 0x6800
  | CR3 => 0x6802
  | CR4 => 0x6804
  | ES_BASE => 0x6806
  | CS_BASE => 0x6808
  | SS_BASE => 0x680a
  | DS_BASE => 0x680c
  | FS_BASE => 0x680e
  | GS_BASE => 0x6810
  | LDTR_BASE => 0x6812
  | TR_BASE => 0x6814
  | GDTR_BASE => 0x6816
  | IDTR_BASE => 0x6818
  | DR7 => 0x681a
  | RSP => 0x681c
  | RIP => 0x681e
  | RFLAGS => 0x6820
  | PENDING_DBG_EXCEPTIONS => 0x6822
  | SYSENTER_ESP => 0x6824
  | SYSENTER_EIP => 0x6826
  end.

Definition all : list t :=
  [VMCS_LINK_POINTER; IA32_DEBUGCTL; IA32_PAT; IA32_EFER; IA32_PERF_GLOBAL_CTRL; PDPTR0;
   PDPTR1; PDPTR2; PDPTR3; BNDCFGS; CR0; CR3; CR4; ES_BASE; CS_BASE; SS_BASE; DS_BASE;
   FS_BASE; GS_BASE; LDTR_BASE; TR_BASE; GDTR_BASE; IDTR_BASE; DR7; RSP; RIP; RFLAGS;
   PENDING_DBG_EXCEPTIONS; SYSENTER_ESP; SYSENTER_EIP].

End VmcsField64Guest.

Module VmcsField64Host.
Inductive t : Type :=
| IA32_PAT | IA32_EFER | IA32_PERF_GLOBAL_CTRL | CR0 | CR3 | CR4 | FS_BASE | GS_BASE
| TR_BASE | GDTR_BASE | IDTR_BASE | IA32_SYSENTER_ESP | IA32_SYSENTER_EIP | RSP | RIP.

Definition code (f : t) : Z :=
  match f with
  | IA32_PAT => 0x2c00
  | IA32_EFER => 0x2c02
  | IA32_PERF_GLOBAL_CTRL => 0x2c04
  | CR0 => 0x6c00
  | CR3 => 0x6c02
  | CR4 => 0x6c04
  | FS_BASE => 0x6c06
  | GS_BASE => 0x6c08
  | TR_BASE => 0x6c0a
  | GDTR_BASE => 0x6c0c
  | IDTR_BASE => 0x6c0e
  | IA32_SYSENTER_ESP => 0x6c10
  | IA32_SYSENTER_EIP => 0x6c12
  | RSP => 0x6c14
  | RIP => 0x6c16
  end.

Definition all : list t :=
  [IA32_PAT; IA32_EFER; IA32_PERF_GLOBAL_CTRL; CR0; CR3; CR4; FS_BASE; GS_BASE; TR_BASE;
   GDTR_BASE; IDTR_BASE; IA32_SYSENTER_ESP; IA32_SYSENTER_EIP; RSP; RIP].

End VmcsField64Host.

(** The field enums with the width and the access of their attribute. *)
Inductive Field : Type :=
| F16Control (f : VmcsField16Control.t)
| F16Guest (f : VmcsField16Guest.t)
| F16Host (f : VmcsField16Host.t)
| F32Control (f : VmcsField32Control.t)
| F32ReadOnly (f : VmcsField32ReadOnly.t)
| F32Guest (f : VmcsField32Guest.t)
| F32Host (f : VmcsField32Host.t)
| F64Control (f : VmcsField64Control.t)
| F64ReadOnly (f : VmcsField64ReadOnly.t)
| F64Guest (f : VmcsField64Guest.t)
| F64Host (f : VmcsField64Host.t).

Definition field_code (f : Field) : Z :=
  match f with
  | F16Control f => VmcsField16Control.code f
  | F16Guest f => VmcsField16Guest.code f
  | F16Host f => VmcsField16Host.code f
  | F32Control f => VmcsField32Control.code f
  | F32ReadOnly f => VmcsField32ReadOnly.code f
  | F32Guest f => VmcsField32Guest.code f
  | F32Host f => VmcsField32Host.code f
  | F64Control f => VmcsField64Control.code f
  | F64ReadOnly f => VmcsField64ReadOnly.code f
  | F64Guest f => VmcsField64Guest.code f
  | F64Host f => VmcsField64Host.code f
  end.

Definition field_width (f : Field) : Z :=
  match f with
  | F16Control _ => 16
  | F16Guest _ => 16
  | F16Host _ => 16
  | F32Control _ => 32
  | F32ReadOnly _ => 32
  | F32Guest _ => 32
  | F32Host _ => 32
  | F64Control _ => 64
  | F64ReadOnly _ => 64
  | F64Guest _ => 64
  | F64Host _ => 64
  end.

Definition field_writable (f : Field) : bool :=
  match f with
  | F16Control _ => true
  | F16Guest _ => true
  | F16Host _ => true
  | F32Control _ => true
  | F32ReadOnly _ => false
  | F32Guest _ => true
  | F32Host _ => true
  | F64Control _ => true
  | F64ReadOnly _ => false
  | F64Guest _ => true
  | F64Host _ => true
  end.

(** ** Exit reasons and instruction errors *)
Module VmxExitReason.
Inductive t : Type :=
| EXCEPTION_NMI | EXTERNAL_INTERRUPT | TRIPLE_FAULT | INIT | SIPI | SMI | OTHER_SMI
| PENDING_INTERRUPT | NMI_WINDOW | TASK_SWITCH | CPUID | GETSEC | HLT | INVD | INVLPG
| RDPMC | RDTSC | RSM | VMCALL | VMCLEAR | VMLAUNCH | VMPTRLD | VMPTRST | VMREAD | VMRESUME
| VMWRITE | VMOFF | VMON | CR_ACCESS | DR_ACCESS | IO_INSTRUCTION | MSR_READ | MSR_WRITE
| INVALID_GUEST_STATE | MSR_LOAD_FAIL | MWAIT_INSTRUCTION | MONITOR_TRAP_FLAG
| MONITOR_INSTRUCTION | PAUSE_INSTRUCTION | MCE_DURING_VMENTRY | TPR_BELOW_THRESHOLD
| APIC_ACCESS | EOI_INDUCED | GDTR_IDTR | LDTR_TR | EPT_VIOLATION | EPT_MISCONFIG | INVEPT
| RDTSCP | PREEMPTION_TIMER | INVVPID | WBINVD | XSETBV | APIC_WRITE | RDRAND | INVPCID
| VMFUNC | ENCLS | RDSEED | PML_FULL | XSAVES | XRSTORS | SPP_EVENT | UMWAIT | TPAUSE.

Definition bits (r : t) : Z :=
  match r with
  | EXCEPTION_NMI => 0
  | EXTERNAL_INTERRUPT => 1
  | TRIPLE_FAULT => 2
  | INIT => 3
  | SIPI => 4
  | SMI => 5
  | OTHER_SMI => 6
  | PENDING_INTERRUPT => 7
  | NMI_WINDOW => 8
  | TASK_SWITCH => 9
  | CPUID => 10
  | GETSEC => 11
  | HLT => 12
  | INVD => 13
  | INVLPG => 14
  | RDPMC => 15
  | RDTSC => 16
  | RSM => 17
  | VMCALL => 18
  | VMCLEAR => 19
  | VMLAUNCH => 20
  | VMPTRLD => 21
  | VMPTRST => 22
  | VMREAD => 23
  | VMRESUME => 24
  | VMWRITE => 25
  | VMOFF => 26
  | VMON => 27
  | CR_ACCESS => 28
  | DR_ACCESS => 29
  | IO_INSTRUCTION => 30
  | MSR_READ => 31
  | MSR_WRITE => 32
  | INVALID_GUEST_STATE => 33
  | MSR_LOAD_FAIL => 34
  | MWAIT_INSTRUCTION => 36
  | MONITOR_TRAP_FLAG => 37
  | MONITOR_INSTRUCTION => 39
  | PAUSE_INSTRUCTION => 40
  | MCE_DURING_VMENTRY => 41
  | TPR_BELOW_THRESHOLD => 43
  | APIC_ACCESS => 44
  | EOI_INDUCED => 45
  | GDTR_IDTR => 46
  | LDTR_TR => 47
  | EPT_VIOLATION => 48
  | EPT_MISCONFIG => 49
  | INVEPT => 50
  | RDTSCP => 51
  | PREEMPTION_TIMER => 52
  | INVVPID => 53
  | WBINVD => 54
  | XSETBV => 55
  | APIC_WRITE => 56
  | RDRAND => 57
  | INVPCID => 58
  | VMFUNC => 59
  | ENCLS => 60
  | RDSEED => 61
  | PML_FULL => 62
  | XSAVES => 63
  | XRSTORS => 64
  | SPP_EVENT => 66
  | UMWAIT => 67
  | TPAUSE => 68
  end.

Definition all : list t :=
  [EXCEPTION_NMI; EXTERNAL_INTERRUPT; TRIPLE_FAULT; INIT; SIPI; SMI; OTHER_SMI;
   PENDING_INTERRUPT; NMI_WINDOW; TASK_SWITCH; CPUID; GETSEC; HLT; INVD; INVLPG; RDPMC;
   RDTSC; RSM; VMCALL; VMCLEAR; VMLAUNCH; VMPTRLD; VMPTRST; VMREAD; VMRESUME; VMWRITE;
   VMOFF; VMON; CR_ACCESS; DR_ACCESS; IO_INSTRUCTION; MSR_READ; MSR_WRITE;
   INVALID_GUEST_STATE; MSR_LOAD_FAIL; MWAIT_INSTRUCTION; MONITOR_TRAP_FLAG;
   MONITOR_INSTRUCTION; PAUSE_INSTRUCTION; MCE_DURING_VMENTRY; TPR_BELOW_THRESHOLD;
   APIC_ACCESS; EOI_INDUCED; GDTR_IDTR; LDTR_TR; EPT_VIOLATION; EPT_MISCONFIG; INVEPT;
   RDTSCP; PREEMPTION_TIMER; INVVPID; WBINVD; XSETBV; APIC_WRITE; RDRAND; INVPCID; VMFUNC;
   ENCLS; RDSEED; PML_FULL; XSAVES; XRSTORS; SPP_EVENT; UMWAIT; TPAUSE].

(** [numeric_enum!] derives [TryFrom<u32>]. *)
Definition try_from (v : Z) : option t := List.find (fun r => bits r =? v) all.
End VmxExitReason.

(** [VmxInstructionError::as_str]. *)
Definition VmxInstructionError_as_str (v : Z) : string :=
  if v =? 0 then "OK" else
  if v =? 1 then "VMCALL executed in VMX root operation" else
  if v =? 2 then "VMCLEAR with invalid physical address" else
  if v =? 3 then "VMCLEAR with VMXON pointer" else
  if v =? 4 then "VMLAUNCH with non-clear VMCS" else
  if v =? 5 then "VMRESUME with non-launched VMCS" else
  if v =? 6 then "VMRESUME after VMXOFF (VMXOFF and VMXON between VMLAUNCH and VMRESUME)" else
  if v =? 7 then "VM entry with invalid control field(s)" else
  if v =? 8 then "VM entry with invalid host-state field(s)" else
  if v =? 9 then "VMPTRLD with invalid physical address" else
  if v =? 10 then "VMPTRLD with VMXON pointer" else
  if v =? 11 then "VMPTRLD with incorrect VMCS revision identifier" else
  if v =? 12 then "VMREAD/VMWRITE from/to unsupported VMCS component" else
  if v =? 13 then "VMWRITE to read-only VMCS component" else
  if v =? 15 then "VMXON executed in VMX root operation" else
  if v =? 16 then "VM entry with invalid executive-VMCS pointer" else
  if v =? 17 then "VM entry with non-launched executive VMCS" else
  if v =? 18 then "VM entry with executive-VMCS pointer not VMXON pointer (when attempting to deactivate the dual-monitor treatment of SMIs and SMM)" else
  if v =? 19 then "VMCALL with non-clear VMCS (when attempting to activate the dual-monitor treatment of SMIs and SMM)" else
  if v =? 20 then "VMCALL with invalid VM-exit control fields" else
  if v =? 22 then "VMCALL with incorrect MSEG revision identifier (when attempting to activate the dual-monitor treatment of SMIs and SMM)" else
  if v =? 23 then "VMXOFF under dual-monitor treatment of SMIs and SMM" else
  if v =? 24 then "VMCALL with invalid SMM-monitor features (when attempting to activate the dual-monitor treatment of SMIs and SMM)" else
  if v =? 25 then "VM entry with invalid VM-execution control fields in executive VMCS (when attempting to return from SMM)" else
  if v =? 26 then "VM entry with events blocked by MOV SS" else
  if v =? 28 then "Invalid operand to INVEPT/INVVPID" else
  "[INVALID]".

(** ** Control words *)
Module PinCtrl.
Definition INTR_EXITING : Z := Z.shiftl 1 0.
Definition NMI_EXITING : Z := Z.shiftl 1 3.
Definition VIRTUAL_NMIS : Z := Z.shiftl 1 5.
Definition PREEMPTION_TIMER : Z := Z.shiftl 1 6.
Definition POSTED_INTR : Z := Z.shiftl 1 7.
Definition all : Z := foldr Z.lor 0
  [INTR_EXITING; NMI_EXITING; VIRTUAL_NMIS; PREEMPTION_TIMER; POSTED_INTR].
End PinCtrl.

Module CpuCtrl.
Definition INTR_WINDOW_EXITING : Z := Z.shiftl 1 2.
Definition USE_TSC_OFFSETTING : Z := Z.shiftl 1 3.
Definition HLT_EXITING : Z := Z.shiftl 1 7.
Definition INVLPG_EXITING : Z := Z.shiftl 1 9.
Definition MWAIT_EXITING : Z := Z.shiftl 1 10.
Definition RDPMC_EXITING : Z := Z.shiftl 1 11.
Definition RDTSC_EXITING : Z := Z.shiftl 1 12.
Definition CR3_LOAD_EXITING : Z := Z.shiftl 1 15.
Definition CR3_STORE_EXITING : Z := Z.shiftl 1 16.
Definition CR8_LOAD_EXITING : Z := Z.shiftl 1 19.
Definition CR8_STORE_EXITING : Z := Z.shiftl 1 20.
Definition VIRTUAL_TPR : Z := Z.shiftl 1 21.
Definition NMI_WINDOW_EXITING : Z := Z.shiftl 1 22.
Definition MOV_DR_EXITING : Z := Z.shiftl 1 23.
Definition UNCOND_IO_EXITING : Z := Z.shiftl 1 24.
Definition USE_IO_BITMAPS : Z := Z.shiftl 1 25.
Definition MONITOR_TRAP_FLAG : Z := Z.shiftl 1 27.
Definition USE_MSR_BITMAPS : Z := Z.shiftl 1 28.
Definition MONITOR_EXITING : Z := Z.shiftl 1 29.
Definition PAUSE_EXITING : Z := Z.shiftl 1 30.
Definition SEC_CONTROLS : Z := Z.shiftl 1 31.
Definition all : Z := foldr Z.lor 0
  [INTR_WINDOW_EXITING; USE_TSC_OFFSETTING; HLT_EXITING; INVLPG_EXITING; MWAIT_EXITING;
   RDPMC_EXITING; RDTSC_EXITING; CR3_LOAD_EXITING; CR3_STORE_EXITING; CR8_LOAD_EXITING;
   CR8_STORE_EXITING; VIRTUAL_TPR; NMI_WINDOW_EXITING; MOV_DR_EXITING; UNCOND_IO_EXITING;
   USE_IO_BITMAPS; MONITOR_TRAP_FLAG; USE_MSR_BITMAPS; MONITOR_EXITING; PAUSE_EXITING;
   SEC_CONTROLS].
End CpuCtrl.

Module CpuCtrl2.
Definition VIRT_APIC_ACCESSES : Z := Z.shiftl 1 0.
Definition EPT : Z := Z.shiftl 1 1.
Definition DESC_EXITING : Z := Z.shiftl 1 2.
Definition RDTSCP : Z := Z.shiftl 1 3.
Definition VIRTUAL_X2APIC : Z := Z.shiftl 1 4.
Definition VPID : Z := Z.shiftl 1 5.
Definition WBINVD_EXITING : Z := Z.shiftl 1 6.
Definition UNRESTRICTED_GUEST : Z := Z.shiftl 1 7.
Definition APIC_REGISTER_VIRT : Z := Z.shiftl 1 8.
Definition VIRT_INTR_DELIVERY : Z := Z.shiftl 1 9.
Definition PAUSE_LOOP_EXITING : Z := Z.shiftl 1 10.
Definition RDRAND_EXITING : Z := Z.shiftl 1 11.
Definition INVPCID : Z := Z.shiftl 1 12.
Definition VMFUNC : Z := Z.shiftl 1 13.
Definition SHADOW_VMCS : Z := Z.shiftl 1 14.
Definition ENCLS_EXITING : Z := Z.shiftl 1 15.
Definition RDSEED_EXITING : Z := Z.shiftl 1 16.
Definition PAGE_MOD_LOGGING : Z := Z.shiftl 1 17.
Definition EPT_VIOLATION_VE : Z := Z.shiftl 1 18.
Definition PT_CONCEAL_VMX : Z := Z.shiftl 1 19.
Definition XSAVES : Z := Z.shiftl 1 20.
Definition MODE_BASED_EPT_EXEC : Z := Z.shiftl 1 22.
Definition PT_USE_GPA : Z := Z.shiftl 1 24.
Definition TSC_SCALING : Z := Z.shiftl 1 25.
Definition USR_WAIT_PAUSE : Z := Z.shiftl 1 26.
Definition ENCLV_EXITING : Z := Z.shiftl 1 28.
Definition all : Z := foldr Z.lor 0
  [VIRT_APIC_ACCESSES; EPT; DESC_EXITING; RDTSCP; VIRTUAL_X2APIC; VPID; WBINVD_EXITING;
   UNRESTRICTED_GUEST; APIC_REGISTER_VIRT; VIRT_INTR_DELIVERY; PAUSE_LOOP_EXITING;
   RDRAND_EXITING; INVPCID; VMFUNC; SHADOW_VMCS; ENCLS_EXITING; RDSEED_EXITING;
   PAGE_MOD_LOGGING; EPT_VIOLATION_VE; PT_CONCEAL_VMX; XSAVES; MODE_BASED_EPT_EXEC;
   PT_USE_GPA; TSC_SCALING; USR_WAIT_PAUSE; ENCLV_EXITING].
End CpuCtrl2.

Module ExitCtrl.
Definition SAVE_DEBUG_CONTROLS : Z := Z.shiftl 1 2.
Definition HOST_ADDR_SPACE_SIZE : Z := Z.shiftl 1 9.
Definition LOAD_IA32_PERF_GLOBAL_CTRL : Z := Z.shiftl 1 12.
Definition ACK_INTR_ON_EXIT : Z := Z.shiftl 1 15.
Definition SAVE_IA32_PAT : Z := Z.shiftl 1 18.
Definition LOAD_IA32_PAT : Z := Z.shiftl 1 19.
Definition SAVE_IA32_EFER : Z := Z.shiftl 1 20.
Definition LOAD_IA32_EFER : Z := Z.shiftl 1 21.
Definition SAVE_VMX_PREEMPTION_TIMER : Z := Z.shiftl 1 22.
Definition CLEAR_BNDCFGS : Z := Z.shiftl 1 23.
Definition PT_CONCEAL_PIP : Z := Z.shiftl 1 24.
Definition CLEAR_IA32_RTIT_CTL : Z := Z.shiftl 1 25.
Definition LOAD_CET_STATE : Z := Z.shiftl 1 28.
Definition all : Z := foldr Z.lor 0
  [SAVE_DEBUG_CONTROLS; HOST_ADDR_SPACE_SIZE; LOAD_IA32_PERF_GLOBAL_CTRL; ACK_INTR_ON_EXIT;
   SAVE_IA32_PAT; LOAD_IA32_PAT; SAVE_IA32_EFER; LOAD_IA32_EFER; SAVE_VMX_PREEMPTION_TIMER;
   CLEAR_BNDCFGS; PT_CONCEAL_PIP; CLEAR_IA32_RTIT_CTL; LOAD_CET_STATE].
End ExitCtrl.

Module EntryCtrl.
Definition LOAD_DEBUG_CONTROLS : Z := Z.shiftl 1 2.
Definition IA32E_MODE : Z := Z.shiftl 1 9.
Definition SMM : Z := Z.shiftl 1 10.
Definition DEACT_DUAL_MONITOR : Z := Z.shiftl 1 11.
Definition LOAD_IA32_PERF_GLOBAL_CTRL : Z := Z.shiftl 1 13.
Definition LOAD_IA32_PAT : Z := Z.shiftl 1 14.
Definition LOAD_IA32_EFER : Z := Z.shiftl 1 15.
Definition LOAD_BNDCFGS : Z := Z.shiftl 1 16.
Definition PT_CONCEAL_PIP : Z := Z.shiftl 1 17.
Definition LOAD_IA32_RTIT_CTL : Z := Z.shiftl 1 18.
Definition LOAD_CET_STATE : Z := Z.shiftl 1 20.
Definition all : Z := foldr Z.lor 0
  [LOAD_DEBUG_CONTROLS; IA32E_MODE; SMM; DEACT_DUAL_MONITOR; LOAD_IA32_PERF_GLOBAL_CTRL;
   LOAD_IA32_PAT; LOAD_IA32_EFER; LOAD_BNDCFGS; PT_CONCEAL_PIP; LOAD_IA32_RTIT_CTL;
   LOAD_CET_STATE].
End EntryCtrl.

(** ** Other flag words *)

(** [EPTPointer]. *)
Definition EPTP_MEMORY_TYPE_WB : Z := 6.
Definition EPTP_WALK_LENGTH_4 : Z := Z.shiftl 3 3.
Definition EPTP_ENABLE_ACCESSED_DIRTY : Z := Z.shiftl 1 6.

Definition EPTPointer_from_table_phys (pml4_paddr : Z) : Z :=
  let aligned_addr := Z.land pml4_paddr (not64 0xfff) in
  Z.lor (Z.lor (Z.lor aligned_addr EPTP_MEMORY_TYPE_WB) EPTP_WALK_LENGTH_4) EPTP_ENABLE_ACCESSED_DIRTY.

(** [FeatureControlFlags]. *)
Definition FC_LOCKED : Z := Z.shiftl 1 0.
Definition FC_VMXON_ENABLED_INSIDE_SMX : Z := Z.shiftl 1 1.
Definition FC_VMXON_ENABLED_OUTSIDE_SMX : Z := Z.shiftl 1 2.
Definition FeatureControlFlags_all : Z :=
  foldr Z.lor 0 [FC_LOCKED; FC_VMXON_ENABLED_INSIDE_SMX; FC_VMXON_ENABLED_OUTSIDE_SMX].

Definition FeatureControl_read (c : Cpu) : Z :=
  truncate FeatureControlFlags_all (msr_read IA32_FEATURE_CONTROL c).

Definition FeatureControl_write (flags : Z) (c : Cpu) : Cpu :=
  let old_value := msr_read IA32_FEATURE_CONTROL c in
  let reserved := Z.land old_value (not64 FeatureControlFlags_all) in
  msr_write IA32_FEATURE_CONTROL (Z.lor reserved flags) c.

(** [VmxBasic]. *)
Record VmxBasic : Type := mkVmxBasic {
  revision_id : Z; region_size : Z; write_back : bool; io_exit_info : bool; vmx_flex_controls : bool;
}.

Definition VMX_MEMORY_TYPE_WRITE_BACK : Z := 6.
Definition VMXBASIC_IO_EXIT_INFO : Z := Z.shiftl 1 54.
Definition VMXBASIC_VMX_FLEX_CONTROLS : Z := Z.shiftl 1 55.

Section Flags.
Context {bf : BitField}.

Definition VmxBasic_read (c : Cpu) : VmxBasic :=
  let msr := msr_read IA32_VMX_BASIC c in
  let flags := truncate (Z.lor VMXBASIC_IO_EXIT_INFO VMXBASIC_VMX_FLEX_CONTROLS) msr in
  {| revision_id := wrap 32 (bf_get_bits msr 0 31);
     region_size := wrap 16 (bf_get_bits msr 32 45);
     write_back := bf_get_bits msr 50 54 =? VMX_MEMORY_TYPE_WRITE_BACK;
     io_exit_info := contains flags VMXBASIC_IO_EXIT_INFO;
     vmx_flex_controls := contains flags VMXBASIC_VMX_FLEX_CONTROLS |}.

(** ** Interruption information *)
Definition II_ERROR_CODE : Z := Z.shiftl 1 11.
Definition II_VALID : Z := Z.shiftl 1 31.

Inductive InterruptType : Type :=
| External | Reserved | NMI | HardException | SoftIntr | PrivSoftException | SoftException | Other.

Definition intr_bits (t : InterruptType) : Z :=
  match t with
  | External => 0 | Reserved => 1 | NMI => 2 | HardException => 3
  | SoftIntr => 4 | PrivSoftException => 5 | SoftException => 6 | Other => 7
  end.

(** The vectors 2, 3, 4 and 20 are NONMASKABLE_INTERRUPT, BREAKPOINT, OVERFLOW
    and VIRTUALIZATION of [x86::irq]. *)
Definition InterruptType_from_vector (vector : Z) : InterruptType :=
  if vector =? 2 then NMI
  else if (vector =? 3) || (vector =? 4) then SoftException
  else if (0 <=? vector) && (vector <=? 20) then HardException
  else if (32 <=? vector) && (vector <=? 255) then External
  else Other.

Definition is_soft (t : InterruptType) : bool :=
  match t with SoftIntr | PrivSoftException | SoftException => true | _ => false end.

Definition ii_has_error_code (vector : Z) : bool :=
  existsb (Z.eqb vector) [8; 10; 11; 12; 13; 14; 17].

Definition InterruptInfo_from_vector (vector : Z) : option Z :=
  match bf_set_bits 32 vector 8 11 (intr_bits (InterruptType_from_vector vector)) with
  | Some bits =>
      let info := Z.lor bits II_VALID in
      Some (if ii_has_error_code vector then Z.lor info II_ERROR_CODE else info)
  | None => None
  end.

(** [transmute] of the three bits: the enum has all eight values. *)
Definition intr_type (info : Z) : option InterruptType :=
  let b := Z.land (bf_get_bits info 8 11) 0x7 in
  List.find (fun t => intr_bits t =? b)
    [External; Reserved; NMI; HardException; SoftIntr; PrivSoftException; SoftException; Other].

Inductive InvEptType : Type := SingleContext | Global.
Definition invept_bits (t : InvEptType) : Z := match t with SingleContext => 1 | Global => 2 end.

(** ** The instructions of the processor *)
Inductive VmFail : Type := VmFailValid | VmFailInvalid.

(** [hw_invept] executes INVEPT and returns RFLAGS; the others are the wrappers
    of [x86::bits64::vmx]. *)
Class VmxHw (H : Type) : Type := {
  vmread : Z -> M H VmFail Z;
  vmwrite : Z -> Z -> M H VmFail unit;
  vmptrld : Z -> M H VmFail unit;
  vmclear : Z -> M H VmFail unit;
  vmxon : Z -> M H VmFail unit;
  vmxoff : M H VmFail unit;
  hw_invept : Z -> Z -> H -> Z * H;
}.

(** With a current VMCS ([vmcs_current]), VMREAD returns the component's value
    and VMWRITE replaces it and nothing else; INVEPT of a valid EPT pointer
    (write-back, four levels, accessed and dirty flags) succeeds and does not
    touch the VMCS. [vmcs_val] is the content of the
    current VMCS. This is the documented behaviour of a processor that has every
    component of the enumerations and supports accessed and dirty flags in the
    EPT pointer; one that lacks a component makes VMREAD and VMWRITE of it fail,
    which the source does not test for beforehand. *)
Class VmxHwLaws (H : Type) `{VmxHw H} : Type := {
  vmcs_current : H -> Prop;
  vmcs_val : H -> Z -> Z;
  vmread_spec : forall f h, vmcs_current h -> vmread (field_code f) h = (Ok (vmcs_val h (field_code f)), h);
  vmcs_val_range : forall f h, vmcs_current h -> in_range (field_width f) (vmcs_val h (field_code f));
  vmwrite_spec : forall f v h, vmcs_current h -> field_writable f = true -> in_range (field_width f) v ->
    exists h', vmwrite (field_code f) v h = (Ok tt, h') /\ vmcs_current h' /\
      forall g, vmcs_val h' (field_code g) =
        if field_code g =? field_code f then v else vmcs_val h (field_code g);
  invept_spec : forall eptp h, vmcs_current h -> get_bits eptp 0 12 = 0x5e ->
    exists fl h', hw_invept (invept_bits SingleContext) eptp h = (fl, h') /\
      Z.testbit fl 6 = false /\ Z.testbit fl 0 = false /\ vmcs_current h' /\
      forall g, vmcs_val h' (field_code g) = vmcs_val h (field_code g);
  vmclear_load_spec : forall p h, in_range 64 p ->
    fst (vmclear p h) = Ok tt -> fst (vmptrld p (snd (vmclear p h))) = Ok tt ->
    vmcs_current (snd (vmptrld p (snd (vmclear p h))));
}.

Context {H : Type} {hw : VmxHw H}.

(** The generated [read] and [write] of a field. *)
Definition field_read (f : Field) : M H VmFail Z :=
  let* v := vmread (field_code f) in ret (wrap (field_width f) v).

Definition field_write (f : Field) (value : Z) : M H VmFail unit := vmwrite (field_code f) value.

(** [vmx_capture_status] and [invept]. *)
Definition vmx_capture_status (flags : Z) : outcome VmFail unit :=
  if Z.testbit flags 6 then Err VmFailValid
  else if Z.testbit flags 0 then Err VmFailInvalid
  else Ok tt.

Definition invept (invalidation : InvEptType) (eptp : Z) : M H VmFail unit := fun h =>
  let '(flags, h') := hw_invept (invept_bits invalidation) eptp h in
  (vmx_capture_status flags, h').

(** ** [Vmcs] *)
Definition Vmcs_load (paddr : Z) : M H VmFail unit := vmptrld paddr.
Definition Vmcs_clear (paddr : Z) : M H VmFail unit := vmclear paddr.

Definition Vmcs_instruction_error : M H VmFail Z :=
  field_read (F32ReadOnly VmcsField32ReadOnly.VM_INSTRUCTION_ERROR).

Definition reason_of (full : Z) : option VmxExitReason.t :=
  VmxExitReason.try_from (bf_get_bits full 0 16).

Definition Vmcs_exit_reason : M H VmFail VmxExitReason.t :=
  let* full := field_read (F32ReadOnly VmcsField32ReadOnly.VM_EXIT_REASON) in
  match reason_of full with Some r => ret r | None => panic end.

Definition Vmcs_set_ept_pointer (pml4_paddr : Z) : M H VmFail unit :=
  let eptp := EPTPointer_from_table_phys pml4_paddr in
  field_write (F64Control VmcsField64Control.EPT_POINTER) eptp ;;;
  invept SingleContext eptp.

(** The argument of [unwrap_or] is evaluated even when it is not used. *)
Definition Vmcs_inject_interrupt (vector : Z) (error_code : option Z) : M H VmFail unit :=
  match InterruptInfo_from_vector vector with
  | None => panic
  | Some info =>
      (if contains info II_ERROR_CODE then
         let* e := field_read (F32ReadOnly VmcsField32ReadOnly.VM_EXIT_INTR_ERROR_CODE) in
         field_write (F32Control VmcsField32Control.VM_ENTRY_EXCEPTION_ERROR_CODE) (default e error_code)
       else ret tt) ;;;
      field_write (F32Control VmcsField32Control.VM_ENTRY_INTR_INFO_FIELD) info ;;;
      match intr_type info with
      | None => panic
      | Some t =>
          if is_soft t then
            let* len := field_read (F32ReadOnly VmcsField32ReadOnly.VM_EXIT_INSTRUCTION_LEN) in
            field_write (F32Control VmcsField32Control.VM_ENTRY_INSTRUCTION_LEN) len
          else ret tt
      end
  end.

(** [assert_eq!((set & clear), 0)] panics. *)
Definition control_value (old_msr set clear : Z) : Z :=
  Z.lor (Z.land (wrap 32 old_msr) (notw 32 clear)) set.

Definition Vmcs_set_control (field : VmcsField32Control.t) (old_msr set clear : Z) : M H VmFail unit :=
  assertM (Z.land set clear =? 0) ;;;
  field_write (F32Control field) (control_value old_msr set clear).

(** ** What a VM exit reports *)
Record VmExitInfo : Type := mkVmExitInfo {
  entry_failure : bool; exit_reason : VmxExitReason.t; exit_instruction_length : Z; guest_rip : Z;
}.

Definition VmExitInfo_new : M H VmFail VmExitInfo :=
  let* full_reason := field_read (F32ReadOnly VmcsField32ReadOnly.VM_EXIT_REASON) in
  match reason_of full_reason with
  | None => panic
  | Some r =>
      let* len := field_read (F32ReadOnly VmcsField32ReadOnly.VM_EXIT_INSTRUCTION_LEN) in
      let* rip := field_read (F64Guest VmcsField64Guest.RIP) in
      ret (mkVmExitInfo (bf_get_bit full_reason 31) r len rip)
  end.

Record ExitInterruptInfo : Type := mkExitInterruptInfo {
  ei_vector : Z; interruption_type : Z; valid : bool;
}.

Definition ExitInterruptInfo_new : M H VmFail ExitInterruptInfo :=
  let* info := field_read (F32ReadOnly VmcsField32ReadOnly.VM_EXIT_INTR_INFO) in
  ret (mkExitInterruptInfo (wrap 8 (bf_get_bits info 0 8)) (wrap 8 (bf_get_bits info 8 11)) (bf_get_bit info 31)).

Record EptViolationInfo : Type := mkEptViolationInfo {
  ev_read : bool; ev_write : bool; ev_instruction : bool; ev_guest_paddr : Z;
}.

Definition EptViolationInfo_new : M H VmFail EptViolationInfo :=
  let* q := field_read (F64ReadOnly VmcsField64ReadOnly.EXIT_QUALIFICATION) in
  let* gpa := field_read (F64ReadOnly VmcsField64ReadOnly.GUEST_PHYSICAL_ADDRESS) in
  ret (mkEptViolationInfo (bf_get_bit q 0) (bf_get_bit q 1) (bf_get_bit q 2) gpa).
End Flags.

(** ** Fields and their encodings *)
Definition all_fields : list Field :=
  map F16Control VmcsField16Control.all ++
  map F16Guest VmcsField16Guest.all ++
  map F16Host VmcsField16Host.all ++
  map F32Control VmcsField32Control.all ++
  map F32ReadOnly VmcsField32ReadOnly.all ++
  map F32Guest VmcsField32Guest.all ++
  map F32Host VmcsField32Host.all ++
  map F64Control VmcsField64Control.all ++
  map F64ReadOnly VmcsField64ReadOnly.all ++
  map F64Guest VmcsField64Guest.all ++
  map F64Host VmcsField64Host.all.

Definition decode (c : Z) : option Field := List.find (fun f => field_code f =? c) all_fields.

Lemma decode_code f : decode (field_code f) = Some f.
Proof. destruct f as [f|f|f|f|f|f|f|f|f|f|f]; destruct f; vm_compute; reflexivity. Qed.

(** The encoding of a VMCS component: bits 14:13 are its width (16 bits, 64
    bits, 32 bits, natural width), bits 11:10 its type (1 is a read-only
    field), bit 0 selects the high half of a 64-bit field. *)
Definition encoded_width (c : Z) : Z :=
  match get_bits c 13 15 with 0 => 16 | 1 => 64 | 2 => 32 | _ => 64 end.
Definition encoded_read_only (c : Z) : bool := get_bits c 10 12 =? 1.

Lemma field_code_inj f g : field_code f = field_code g -> f = g.
Proof. intros Heq. apply (f_equal decode) in Heq. rewrite !decode_code in Heq. congruence. Qed.

(** C38. Every VMCS field is accessed as its encoding demands: the width the
    attribute [vmcs_access] gives is the width of the component, [write]
    exists for exactly the fields that are not read-only, the full component
    is addressed, and no two fields share an encoding. *)
Theorem vmcs_fields_encoding f :
  encoded_width (field_code f) = field_width f /\
  field_writable f = negb (encoded_read_only (field_code f)) /\
  Z.testbit (field_code f) 0 = false /\ forall g, field_code g = field_code f -> g = f.
Proof.
  split_and!; try (destruct f as [f|f|f|f|f|f|f|f|f|f|f]; destruct f; reflexivity).
  intros g. apply field_code_inj.
Qed.

(** ** Exit reasons, events and control words *)
Lemma exit_reason_decodes v r : VmxExitReason.try_from v = Some r <-> VmxExitReason.bits r = v.
Proof.
  unfold VmxExitReason.try_from. split.
  - intros Hf%find_some. apply Z.eqb_eq, Hf.
  - intros <-. by destruct r.
Qed.

Definition encodes_vector (info vector : Z) : bool :=
  (get_bits info 0 8 =? vector) &&
  (get_bits info 8 11 =? intr_bits (InterruptType_from_vector vector)) &&
  Bool.eqb (Z.testbit info 11) (ii_has_error_code vector) && (get_bits info 12 31 =? 0) &&
  Z.testbit info 31 && (info <? 2 ^ 32) && (0 <=? info).

Section Words.
Context {bf : BitField}.

Lemma interrupt_info_encodes vector :
  0 <= vector < 256 ->
  exists info, InterruptInfo_from_vector vector = Some info /\ encodes_vector info vector = true.
Proof.
  intros Hv. unfold InterruptInfo_from_vector.
  rewrite bf_set_bits_ok; [| unfold in_range; lia | lia | lia |].
  2: { destruct (InterruptType_from_vector vector); reflexivity. }
  eexists. split; [reflexivity|].
  pose (P v := encodes_vector (if ii_has_error_code v
    then Z.lor (Z.lor (set_bits 32 v 8 11 (intr_bits (InterruptType_from_vector v))) II_VALID) II_ERROR_CODE
    else Z.lor (set_bits 32 v 8 11 (intr_bits (InterruptType_from_vector v))) II_VALID) v).
  change (P vector = true). apply (forallb_below 256); [|done]. vm_compute. reflexivity.
Qed.

(** [InterruptInfo::from_vector] never panics and encodes the event to
    inject: vector, type, error-code bit and valid bit in the VM-entry
    interruption format; [intr_type] reads the type back, so the [transmute]
    is sound. *)
Theorem interrupt_info_round vector :
  0 <= vector < 256 ->
  exists info, InterruptInfo_from_vector vector = Some info /\ encodes_vector info vector = true /\
    intr_type info = Some (InterruptType_from_vector vector).
Proof.
  intros Hv. destruct (interrupt_info_encodes vector Hv) as (info & Hi & He). exists info.
  split; [done|]. split; [done|]. unfold encodes_vector in He. rewrite !andb_true_iff in He.
  destruct He as [[[[[[_ Ht] _] _] _] _] H0]. unfold intr_type.
  rewrite bf_get_bits_spec by lia. apply Z.eqb_eq in Ht. rewrite Ht.
  by destruct (InterruptType_from_vector vector).
Qed.

Lemma eptp_value p :
  0 <= p < 2 ^ 52 -> p mod 4096 = 0 -> EPTPointer_from_table_phys p = 0x5e + 2 ^ 12 * (p / 2 ^ 12).
Proof.
  intros Hp Ha. unfold EPTPointer_from_table_phys.
  assert (Z.land p (not64 0xfff) = p) as ->.
  { apply Z.bits_inj'. intros i Hi. rewrite Z.land_spec. unfold not64.
    change 0xfff with (Z.ones 12). autorewrite with rvm_bits.
    replace (0 <=? i) with true by lia. cbn [andb].
    destruct (Z.ltb_spec i 12).
    - replace p with (p / 2 ^ 12 * 2 ^ 12) by euclid. rewrite Z.mul_pow2_bits_low by lia. done.
    - destruct (Z.ltb_spec i 64); simpl; [btauto|].
      rewrite (testbit_small p 52 i) by lia. done. }
  rewrite <- !Z.lor_assoc, Z.lor_comm.
  change (Z.lor EPTP_MEMORY_TYPE_WB (Z.lor EPTP_WALK_LENGTH_4 EPTP_ENABLE_ACCESSED_DIRTY)) with 0x5e.
  replace p with (Z.shiftl (p / 2 ^ 12) 12) at 1 by (rewrite Z.shiftl_mul_pow2 by lia; euclid).
  apply lor_concat; lia.
Qed.

(** The EPT pointer for a page-aligned root: write-back, a four-level walk,
    accessed and dirty flags, reserved bits clear and the address of the root. *)
Theorem ept_pointer_format p :
  0 <= p < 2 ^ 52 -> p mod 4096 = 0 ->
  let e := EPTPointer_from_table_phys p in
  get_bits e 0 3 = 6 /\ get_bits e 3 6 = 3 /\ Z.testbit e 6 = true /\ get_bits e 7 12 = 0 /\
  Z.land e (Z.shiftl (Z.ones 40) 12) = p.
Proof.
  intros Hp Ha. cbv zeta. pose proof (eptp_value p Hp Ha) as He.
  rewrite He, !get_bits_div by lia. rewrite Z.testbit_eqb by lia. split_and!; try (rewrite ?Z.eqb_eq; euclid).
  rewrite (land_field _ 12 40), get_bits_div by lia. euclid.
Qed.
End Words.
