(* ===== verification/MsrBitmap.v ===== *)
(** * The VMX regions and the MSR bitmap

    [src/src/arch/x86_64/intel/structs.rs]: [VmxRegion::new], [MsrBitmap::mask],
    [mask_range] and [MsrBitmap::default]. A page is the map of its bytes by
    offset, zero where nothing was written ([AlignedPage::new]). *)

From S2P Require Import Prelude Crates HvError Addr PhysMem Frame.

(** ** VMXON and VMCS regions *)
Section VmxRegion.
Context {A : Type} {ba : BitAlloc A} {bf : BitField}.

(** The first [u32] of the frame; the upper half of the word stays. *)
Definition VmxRegion_new (revision_id : Z) (shadow_indicator : bool) : M (Machine A) HvErrorNum Frame :=
  let* f := Frame_new in
  let* m := gets pm in
  let word := mem_get m (start_paddr f) in
  match bf_set_bits 32 (wrap 32 word) 0 31 revision_id with
  | None => panic
  | Some x =>
      let x := bf_set_bit 32 x 31 shadow_indicator in
      modify (fun s => mkMachine (mem_set (pm s) (start_paddr f) (x + 2 ^ 32 * (word / 2 ^ 32))) (fa s)) ;;;
      ret f
  end.

(** The region carries the revision identifier in bits 30:0 of its first word,
    with the shadow indicator in bit 31. *)
Lemma vmx_region_revision {laws : BitAllocLaws A} revision_id shadow (s : Machine A) f s' :
  0 <= revision_id < 2 ^ 31 -> (forall a, in_range 64 (mem_get (pm s) a)) ->
  VmxRegion_new revision_id shadow s = (Ok f, s') ->
  get_bits (mem_get (pm s') (start_paddr f)) 0 31 = revision_id /\
  Z.testbit (mem_get (pm s') (start_paddr f)) 31 = shadow.
Proof.
  intros Hr Hm. unfold VmxRegion_new. intros Hrun.
  apply bind_inv_ok in Hrun as (f1 & s1 & Hf & Hrun). rewrite bind_gets in Hrun.
  assert (pm s1 = pm s) as Hpm.
  { unfold Frame_new in Hf. destruct (fa_alloc (fa s)) as [o fa']. by injection Hf as _ <-. }
  rewrite Hpm in Hrun. set (word := mem_get (pm s) (start_paddr f1)) in *.
  assert (in_range 32 (wrap 32 word)) as Hw by (apply wrap_range; lia).
  rewrite bf_set_bits_ok in Hrun by (done || lia || (apply fits_true; lia)).
  rewrite bf_set_bit_spec in Hrun by ((apply set_bits_range; done || lia) || lia).
  rewrite bind_modify in Hrun. injection Hrun as <- <-. cbn [pm]. rewrite mem_get_set_eq.
  set (y := set_bits 32 (wrap 32 word) 0 31 revision_id).
  assert (in_range 32 (set_bit 32 y 31 shadow) /\ (forall i, 0 <= i < 31 ->
    Z.testbit (set_bit 32 y 31 shadow) i = Z.testbit revision_id i) /\
    Z.testbit (set_bit 32 y 31 shadow) 31 = shadow) as (Hrange & Hlow & Hhigh).
  { assert (in_range 32 y) as Hy by (apply set_bits_range; done || lia).
    assert (forall i, 0 <= i < 31 -> Z.testbit y i = Z.testbit revision_id i) as Hyl.
    { intros i Hi. unfold y. rewrite testbit_set_bits by (done || lia).
      replace ((0 <=? i) && (i <? 31)) with true by lia. f_equal. lia. }
    unfold set_bit, notw. destruct shadow; split_and!.
    - apply range_bits; [lia| |].
      + apply Z.lor_nonneg. split; [apply Hy|]. by apply Z.shiftl_nonneg.
      + intros i Hi. rewrite Z.lor_spec, testbit_bit by lia.
        rewrite (testbit_small y 32 i) by (unfold in_range in Hy; lia). simpl. lia.
    - intros i Hi. rewrite Z.lor_spec, testbit_bit by lia. rewrite Hyl by done.
      replace (i =? 31) with false by lia. btauto.
    - rewrite Z.lor_spec, testbit_bit by lia. apply orb_true_r.
    - apply range_bits; [lia| |].
      + apply Z.land_nonneg. left. apply Hy.
      + intros i Hi. rewrite Z.land_spec, (testbit_small y 32 i) by (unfold in_range in Hy; lia). done.
    - intros i Hi. rewrite Z.land_spec, Z.lxor_spec, testbit_bit, testbit_ones by lia. rewrite Hyl by done.
      replace (i =? 31) with false by lia. replace ((0 <=? i) && (i <? 32)) with true by lia. btauto.
    - rewrite Z.land_spec, Z.lxor_spec, testbit_bit, testbit_ones by lia. simpl. btauto. }
  clearbody y. set (x := set_bit 32 y 31 shadow) in *. clearbody x.
  assert (forall i, 0 <= i < 32 -> Z.testbit (x + 2 ^ 32 * (word / 2 ^ 32)) i = Z.testbit x i) as Hx.
  { intros i Hi. rewrite <- lor_concat by (done || lia). rewrite Z.lor_spec, testbit_shiftl.
    rewrite (Z.testbit_neg_r _ (i - 32)) by lia. btauto. }
  split; [|by rewrite Hx by lia].
  apply Z.bits_inj'. intros i Hi. rewrite testbit_get_bits by lia. rewrite Z.sub_0_r, Z.add_0_r.
  destruct (Z.ltb_spec i 31); simpl; [by rewrite Hx, Hlow by lia|].
  symmetry. apply (testbit_small _ 31); lia.
Qed.
End VmxRegion.

(** ** [MsrBitmap] *)
Definition MsrBitmap : Type := gmap Z Z.

(** The byte and the bit of an MSR: the four 1K bitmaps are for reads of low
    MSRs, reads of high MSRs, writes of low MSRs and writes of high MSRs. *)
Definition mask_byte (msr : Z) (is_write : bool) : Z :=
  let ptr := 0 in
  let ptr := if 0xc0000000 <=? msr then ptr + Z.shiftl 1 10 else ptr in
  let ptr := if is_write then ptr + Z.shiftl 2 10 else ptr in
  ptr + Z.land msr 0x1fff / 8.
Definition mask_bit (msr : Z) : Z := Z.land msr 0x1fff mod 8.

(** [&= 1 << msr_bit], as the source has it. *)
Definition mask (msr : Z) (is_write : bool) (map : MsrBitmap) : MsrBitmap :=
  let a := mask_byte msr is_write in
  mem_set map a (Z.land (mem_get map a) (wrap 8 (Z.shiftl 1 (mask_bit msr)))).

Definition mask_range (lo hi : Z) (is_write : bool) (map : MsrBitmap) : MsrBitmap :=
  fold_left (fun m msr => mask msr is_write m) (seqZ lo (hi - lo + 1)) map.

(** [MsrBitmap::default]: the calls in order, each a range of MSRs. *)
Definition default_masks : list (Z * Z * bool) :=
  [(0x277, 0x277, false); (0x2FF, 0x2FF, false);
   (0x802, 0x802, false); (0x803, 0x803, false); (0x808, 0x808, false); (0x80A, 0x80A, false);
   (0x80D, 0x80D, false); (0x80F, 0x80F, false); (0x810, 0x817, false); (0x818, 0x81F, false);
   (0x820, 0x827, false); (0x828, 0x828, false); (0x82F, 0x82F, false); (0x830, 0x830, false);
   (0x832, 0x837, false); (0x838, 0x838, false); (0x839, 0x839, false); (0x83E, 0x83E, false);
   (0x1B, 0x1B, true); (0x200, 0x277, true); (0x277, 0x277, true); (0x2FF, 0x2FF, true);
   (0x38F, 0x38F, true); (0xC80, 0xD8F, true);
   (0x808, 0x808, true); (0x80B, 0x80B, true); (0x80F, 0x80F, true); (0x828, 0x828, true);
   (0x82F, 0x82F, true); (0x830, 0x830, true); (0x832, 0x837, true); (0x838, 0x838, true);
   (0x839, 0x839, true); (0x83E, 0x83E, true)].

Definition MsrBitmap_default : MsrBitmap :=
  fold_left (fun m '(lo, hi, w) => mask_range lo hi w m) default_masks ∅.

(** The processor exits on an access whose bit is set. *)
Definition msr_exits (map : MsrBitmap) (msr : Z) (is_write : bool) : bool :=
  Z.testbit (mem_get map (mask_byte msr is_write)) (mask_bit msr).

Lemma mask_zero map msr w : (forall a, mem_get map a = 0) -> forall a, mem_get (mask msr w map) a = 0.
Proof.
  intros Hz a. unfold mask. rewrite mem_get_set, Hz, Z.land_0_l.
  by destruct (a =? _).
Qed.

Lemma fold_zero {B} (f : MsrBitmap -> B -> MsrBitmap) l map :
  (forall m b, (forall a, mem_get m a = 0) -> forall a, mem_get (f m b) a = 0) ->
  (forall a, mem_get map a = 0) -> forall a, mem_get (fold_left f l map) a = 0.
Proof. intros Hf. revert map. induction l as [|b l IH]; intros map Hz; simpl; [done|]. by apply IH, Hf. Qed.

(** C39. The MSR bitmap of the hypervisor intercepts nothing: [mask] clears the
    other bits of a byte instead of setting one ([&=] for [|=]), and on a
    zeroed page the result stays zero, for every MSR the constructor lists. *)
Theorem msr_bitmap_intercepts_nothing msr is_write :
  msr_exits MsrBitmap_default msr is_write = false.
Proof.
  assert (Hz : forall a, mem_get MsrBitmap_default a = 0); [|unfold msr_exits; rewrite Hz; apply Z.bits_0].
  apply fold_zero; [|done]. intros m [[lo hi] w] Hm. unfold mask_range. apply fold_zero; [|done]. intros m' x. apply mask_zero.
Qed.
