(* ===== verification/IntelVcpu.v ===== *)
(** * The Intel vCPU

    [src/src/arch/x86_64/intel/vcpu.rs] ([Vcpu], its constructor and operations,
    the set-up of the VMCS and [load_vmcs_guest]), [intel/mod.rs]
    ([check_hypervisor_feature], the conversion of [VmFail]) and
    [intel/vmexit.rs] ([handle_exit]). The assembly of [vmx_exit] is in [Asm].

    A vCPU is the Rust structure together with the VMX state [H] of its
    processor, which the VMX instructions ([VmxHw]) act on. *)

From S2P Require Import Prelude Crates HvError Addr Frame Config X86 Segmentation Context Cpuid Vcpu Vmx MsrBitmap Exception.

Record IntelVcpu : Type := mkIntel {
  guest_regs : GeneralRegisters;
  host_stack_top : Z;
  vmxon_region : Frame;
  vmcs_region : Frame;
}.

Definition set_guest_regs (r : GeneralRegisters) (v : IntelVcpu) : IntelVcpu :=
  mkIntel r (host_stack_top v) (vmxon_region v) (vmcs_region v).

(** Addresses fixed by the linker and the runtime: the table of the IDT, the
    field [host_stack_top] of the [Vcpu] of this processor, [vmx_exit] and the
    page of [MSR_BITMAP]. *)
Record HostAddrs : Type := mkHostAddrs {
  ha_idt : Z; ha_host_stack_top : Z; ha_vmx_exit : Z; ha_msr_bitmap : Z;
}.

Section Intel.
Context {A : Type} {ba : BitAlloc A} {bf : BitField} {xr : X86Regs} {xd : X86Desc} {rc : RawCpuid}.
Context {H : Type} {hw : VmxHw H}.

(** ** Errors *)

(** [?] on a VMX instruction: [From<VmFail> for HvError]; for [VmFailValid] the
    conversion reads the error number of the instruction and unwraps it. *)
Definition vtry {S A} (get : S -> H) (set : H -> S -> S) (c : M H VmFail A) : M S HvErrorNum A := fun s =>
  match c (get s) with
  | (Ok a, h) => (Ok a, set h s)
  | (Err VmFailInvalid, h) => (Err EIO, set h s)
  | (Err VmFailValid, h) =>
      match Vmcs_instruction_error h with
      | (Ok _, h') => (Err EIO, set h' s)
      | (_, h') => (Panic, set h' s)
      end
  | (Panic, h) => (Panic, set h s)
  | (Diverge, h) => (Diverge, set h s)
  end.

Abbreviation CH := (Cpu * H)%type.
Definition vmx {A} : M H VmFail A -> M CH HvErrorNum A := vtry snd (fun h s => (fst s, h)).

(** [field.write(value)?] for each of the list, in order. *)
Fixpoint write_all (l : list (Field * Z)) : M CH HvErrorNum unit :=
  match l with
  | [] => ret tt
  | (f, v) :: l => vmx (field_write f v) ;;; write_all l
  end.

(** ** Control registers of the guest *)
Abbreviation G64 := F64Guest.
Abbreviation C64 := F64Control.

(** [VcpuAccessGuestState::set_cr]; [expect] and [unreachable!()] panic. *)
Definition set_cr0_fields (c : Cpu) (val : Z) : list (Field * Z) :=
  let must0 := Z.land (msr_read IA32_VMX_CR0_FIXED1 c)
                 (not64 (Z.lor CR0_NOT_WRITE_THROUGH CR0_CACHE_DISABLE)) in
  let must1 := Z.land (msr_read IA32_VMX_CR0_FIXED0 c)
                 (not64 (Z.lor CR0_PAGING CR0_PROTECTED_MODE_ENABLE)) in
  [(G64 VmcsField64Guest.CR0, Z.lor (Z.land val must0) must1);
   (C64 VmcsField64Control.CR0_READ_SHADOW, val);
   (C64 VmcsField64Control.CR0_GUEST_HOST_MASK, Z.lor must1 (not64 must0))].

Definition set_cr4_fields (c : Cpu) (val : Z) : list (Field * Z) :=
  let must0 := msr_read IA32_VMX_CR4_FIXED1 c in
  let must1 := msr_read IA32_VMX_CR4_FIXED0 c in
  let val := Z.lor val CR4_VIRTUAL_MACHINE_EXTENSIONS in
  [(G64 VmcsField64Guest.CR4, Z.lor (Z.land val must0) must1);
   (C64 VmcsField64Control.CR4_READ_SHADOW, val);
   (C64 VmcsField64Control.CR4_GUEST_HOST_MASK, Z.lor must1 (not64 must0))].

Definition intel_set_cr {E} (cr_idx val : Z) : M CH E unit :=
  let* c := gets fst in
  if cr_idx =? 0 then expect (write_all (set_cr0_fields c val))
  else if cr_idx =? 3 then expect (write_all [(G64 VmcsField64Guest.CR3, val)])
  else if cr_idx =? 4 then expect (write_all (set_cr4_fields c val))
  else panic.

Definition intel_cr {E} (cr_idx : Z) : M CH E Z :=
  if cr_idx =? 0 then expect (vmx (field_read (G64 VmcsField64Guest.CR0)))
  else if cr_idx =? 3 then expect (vmx (field_read (G64 VmcsField64Guest.CR3)))
  else if cr_idx =? 4 then
    expect (let* host_mask := vmx (field_read (C64 VmcsField64Control.CR4_GUEST_HOST_MASK)) in
            let* shadow := vmx (field_read (C64 VmcsField64Control.CR4_READ_SHADOW)) in
            let* cr4 := vmx (field_read (G64 VmcsField64Guest.CR4)) in
            ret (Z.lor (Z.land shadow host_mask) (Z.land cr4 (not64 host_mask))))
  else panic.

(** ** Setting up the VMCS *)
Section Setup.
Import VmcsField64Host VmcsField16Host VmcsField32Host.

Definition host_fields (a : HostAddrs) (c : Cpu) : list (Field * Z) :=
  [(F64Host VmcsField64Host.IA32_PAT, msr_read X86.IA32_PAT c);
   (F64Host VmcsField64Host.IA32_EFER, msr_read X86.IA32_EFER c);
   (F64Host VmcsField64Host.CR0, c_cr0 c);
   (F64Host VmcsField64Host.CR3, cr3_get c);
   (F64Host VmcsField64Host.CR4, c_cr4 c);
   (F16Host ES_SELECTOR, 0); (F16Host CS_SELECTOR, KCODE_SELECTOR);
   (F16Host SS_SELECTOR, 0); (F16Host DS_SELECTOR, 0);
   (F16Host FS_SELECTOR, 0); (F16Host GS_SELECTOR, 0);
   (F16Host TR_SELECTOR, TSS_SELECTOR);
   (F64Host VmcsField64Host.FS_BASE, 0);
   (F64Host VmcsField64Host.GS_BASE, msr_read IA32_GS_BASE c);
   (F64Host VmcsField64Host.TR_BASE, 0);
   (F64Host VmcsField64Host.GDTR_BASE, dt_base (gdt_sgdt c));
   (F64Host VmcsField64Host.IDTR_BASE, ha_idt a);
   (F64Host VmcsField64Host.IA32_SYSENTER_ESP, 0);
   (F64Host VmcsField64Host.IA32_SYSENTER_EIP, 0);
   (F32Host VmcsField32Host.IA32_SYSENTER_CS, 0);
   (F64Host VmcsField64Host.RSP, ha_host_stack_top a);
   (F64Host VmcsField64Host.RIP, ha_vmx_exit a)].
End Setup.

Definition setup_vmcs_host (a : HostAddrs) : M CH HvErrorNum unit :=
  let* c := gets fst in write_all (host_fields a c).

(** The macro [set_guest_segment]. *)
Definition set_guest_segment (seg : Segment) (sel : VmcsField16Guest.t) (b : VmcsField64Guest.t)
    (lim ar : VmcsField32Guest.t) : list (Field * Z) :=
  [(F16Guest sel, selector seg); (F64Guest b, base seg); (F32Guest lim, limit seg);
   (F32Guest ar, access_rights seg)].

Section SetupGuest.
Import VmcsField64Guest VmcsField16Guest VmcsField32Guest.

Definition guest_segments (l : LinuxContext) : list (Field * Z) :=
  set_guest_segment (l_es l) ES_SELECTOR ES_BASE ES_LIMIT ES_AR_BYTES ++
  set_guest_segment (l_cs l) CS_SELECTOR CS_BASE CS_LIMIT CS_AR_BYTES ++
  set_guest_segment (l_ss l) SS_SELECTOR SS_BASE SS_LIMIT SS_AR_BYTES ++
  set_guest_segment (l_ds l) DS_SELECTOR DS_BASE DS_LIMIT DS_AR_BYTES ++
  set_guest_segment (l_fs l) FS_SELECTOR FS_BASE FS_LIMIT FS_AR_BYTES ++
  set_guest_segment (l_gs l) GS_SELECTOR GS_BASE GS_LIMIT GS_AR_BYTES ++
  set_guest_segment (l_tss l) TR_SELECTOR TR_BASE TR_LIMIT TR_AR_BYTES ++
  set_guest_segment Segment_invalid LDTR_SELECTOR LDTR_BASE LDTR_LIMIT LDTR_AR_BYTES.

Definition guest_rest (l : LinuxContext) (c : Cpu) : list (Field * Z) :=
  [(F64Guest GDTR_BASE, dt_base (l_gdt l)); (F32Guest GDTR_LIMIT, dt_limit (l_gdt l));
   (F64Guest IDTR_BASE, dt_base (l_idt l)); (F32Guest IDTR_LIMIT, dt_limit (l_idt l));
   (F64Guest RSP, l_rsp l); (F64Guest RIP, l_rip l); (F64Guest RFLAGS, 0x2);
   (F32Guest SYSENTER_CS, wrap 32 (msr_read IA32_SYSENTER_CS c));
   (F64Guest SYSENTER_ESP, msr_read IA32_SYSENTER_ESP c);
   (F64Guest SYSENTER_EIP, msr_read IA32_SYSENTER_EIP c);
   (F64Guest DR7, 0x400); (F64Guest IA32_DEBUGCTL, 0);
   (F32Guest ACTIVITY_STATE, 0); (F32Guest INTERRUPTIBILITY_INFO, 0);
   (F64Guest PENDING_DBG_EXCEPTIONS, 0);
   (F64Guest VMCS_LINK_POINTER, Z.ones 64);
   (F32Guest VMX_PREEMPTION_TIMER_VALUE, 0)].
End SetupGuest.

Definition setup_vmcs_guest (l : LinuxContext) : M CH HvErrorNum unit :=
  let* c := gets fst in
  write_all [(G64 VmcsField64Guest.IA32_PAT, l_pat l); (G64 VmcsField64Guest.IA32_EFER, l_efer l)] ;;;
  intel_set_cr 0 (l_cr0 l) ;;;
  intel_set_cr 4 (l_cr4 l) ;;;
  intel_set_cr 3 (l_cr3 l) ;;;
  write_all (guest_segments l) ;;;
  write_all (guest_rest l c).

(** The secondary controls, by the features of the processor. *)
Definition secondary_controls : Z :=
  let val := Z.lor CpuCtrl2.EPT CpuCtrl2.UNRESTRICTED_GUEST in
  let val := if has_rdtscp then Z.lor val CpuCtrl2.RDTSCP else val in
  let val := if has_invpcid then Z.lor val CpuCtrl2.INVPCID else val in
  if has_xsaves_xrstors then Z.lor val CpuCtrl2.XSAVES else val.

(** Control field, MSR, bits to set, bits to clear. *)
Definition control_words : list (VmcsField32Control.t * Msr * Z * Z) :=
  [(VmcsField32Control.PIN_BASED_VM_EXEC_CONTROL, IA32_VMX_PINBASED_CTLS, PinCtrl.NMI_EXITING, 0);
   (VmcsField32Control.PROC_BASED_VM_EXEC_CONTROL, IA32_VMX_PROCBASED_CTLS,
    Z.lor CpuCtrl.USE_MSR_BITMAPS CpuCtrl.SEC_CONTROLS,
    Z.lor CpuCtrl.CR3_LOAD_EXITING CpuCtrl.CR3_STORE_EXITING);
   (VmcsField32Control.SECONDARY_VM_EXEC_CONTROL, IA32_VMX_PROCBASED_CTLS2, secondary_controls, 0);
   (VmcsField32Control.VM_EXIT_CONTROLS, IA32_VMX_EXIT_CTLS,
    foldr Z.lor 0 [ExitCtrl.HOST_ADDR_SPACE_SIZE; ExitCtrl.SAVE_IA32_PAT; ExitCtrl.LOAD_IA32_PAT;
                   ExitCtrl.SAVE_IA32_EFER; ExitCtrl.LOAD_IA32_EFER], 0);
   (VmcsField32Control.VM_ENTRY_CONTROLS, IA32_VMX_ENTRY_CTLS,
    foldr Z.lor 0 [EntryCtrl.IA32E_MODE; EntryCtrl.LOAD_IA32_PAT; EntryCtrl.LOAD_IA32_EFER], 0)].

Fixpoint set_controls (l : list (VmcsField32Control.t * Msr * Z * Z)) : M CH HvErrorNum unit :=
  match l with
  | [] => ret tt
  | (f, m, set, clear) :: l =>
      let* c := gets fst in
      vmx (Vmcs_set_control f (msr_read m c) set clear) ;;;
      set_controls l
  end.

(** [root] is the root of [cell.gpm]; [activate] is [ExtendedPageTable::activate],
    which panics when the pointer cannot be set. *)
Definition ept_activate {E} (root : Z) : M CH E unit := expect (vmx (Vmcs_set_ept_pointer root)).

Definition setup_vmcs_control (a : HostAddrs) (root : Z) : M CH HvErrorNum unit :=
  set_controls control_words ;;;
  write_all [(F32Control VmcsField32Control.VM_EXIT_MSR_STORE_COUNT, 0);
             (F32Control VmcsField32Control.VM_EXIT_MSR_LOAD_COUNT, 0);
             (F32Control VmcsField32Control.VM_ENTRY_MSR_LOAD_COUNT, 0);
             (C64 VmcsField64Control.CR4_GUEST_HOST_MASK, 0);
             (F32Control VmcsField32Control.CR3_TARGET_COUNT, 0)] ;;;
  ept_activate root ;;;
  write_all [(C64 VmcsField64Control.MSR_BITMAP, ha_msr_bitmap a);
             (F32Control VmcsField32Control.EXCEPTION_BITMAP, 0)].

Definition vmcs_setup (a : HostAddrs) (paddr : Z) (l : LinuxContext) (root : Z) : M CH HvErrorNum unit :=
  vmx (Vmcs_clear paddr) ;;;
  vmx (Vmcs_load paddr) ;;;
  setup_vmcs_host a ;;;
  setup_vmcs_guest l ;;;
  setup_vmcs_control a root.

(** ** Construction *)

(** [intel/mod.rs], [check_hypervisor_feature]. *)
Definition intel_check_hypervisor_feature : outcome HvErrorNum unit :=
  if has_vmx then Ok tt else Err ENODEV.

(** [Vcpu::new] on the processor whose [PerCpu] is at [this]. *)
Abbreviation CHM := (CH * Machine A)%type.
Definition on_ch {B} : M CH HvErrorNum B -> M CHM HvErrorNum B := zoom fst (fun x s => (x, snd s)).
Definition on_mem {B} : M (Machine A) HvErrorNum B -> M CHM HvErrorNum B := zoom snd (fun m s => (fst s, m)).
Definition on_cpu (f : Cpu -> Cpu) : M CHM HvErrorNum unit :=
  modify (fun s => ((f (fst (fst s)), snd (fst s)), snd s)).

Definition enable_vmxon : M CHM HvErrorNum unit :=
  let* ctrl := gets (fun s => FeatureControl_read (fst (fst s))) in
  if negb (contains ctrl FC_LOCKED) then
    on_cpu (FeatureControl_write (Z.lor (Z.lor ctrl FC_LOCKED) FC_VMXON_ENABLED_OUTSIDE_SMX))
  else if negb (contains ctrl FC_VMXON_ENABLED_OUTSIDE_SMX) then throw ENODEV
  else ret tt.

Definition host_cr4 : Z :=
  let cr4 := Z.lor HOST_CR4 CR4_VIRTUAL_MACHINE_EXTENSIONS in
  if has_xsave then Z.lor cr4 CR4_OSXSAVE else cr4.

(** An early return drops the frames that are owned at that point. *)
Definition dropping {B} (l : list Frame) (c : M CHM HvErrorNum B) : M CHM HvErrorNum B := fun s =>
  match c s with
  | (Err e, s') => (foldr (fun f k => on_mem (Frame_drop f) ;;; k) (throw e) l) s'
  | r => r
  end.

(** The locals are dropped in reverse order, the fields of the structure in
    order. When [vmcs_setup] fails the frames go while VMX stays on. *)
Definition intel_new (a : HostAddrs) (this : Z) (linux : LinuxContext) (root : Z) : M CHM HvErrorNum IntelVcpu :=
  of_outcome intel_check_hypervisor_feature ;;;
  (if 0 <? perf_monitor_version_id then on_cpu (msr_write IA32_PERF_GLOBAL_CTRL 0) else ret tt) ;;;
  (if contains (l_cr4 linux) CR4_VIRTUAL_MACHINE_EXTENSIONS then throw EBUSY else ret tt) ;;;
  enable_vmxon ;;;
  let* vmx_basic := gets (fun s => VmxBasic_read (fst (fst s))) in
  let* vmxon_region := on_mem (VmxRegion_new (revision_id vmx_basic) false) in
  let* vmcs_region := dropping [vmxon_region] (on_mem (VmxRegion_new (revision_id vmx_basic) false)) in
  on_cpu (cr0_set HOST_CR0) ;;;
  on_cpu (cr4_set host_cr4) ;;;
  dropping [vmcs_region; vmxon_region] (on_ch (vmx (vmxon (start_paddr vmxon_region)))) ;;;
  let v := mkIntel regs_default (sub64 (add64 this PER_CPU_SIZE) 8) vmxon_region vmcs_region in
  dropping [vmxon_region; vmcs_region] (on_ch (vmcs_setup a (start_paddr vmcs_region) linux root)) ;;;
  ret v.

(** [Vcpu::enter] up to the assembly. *)
Definition intel_enter_regs (linux : LinuxContext) (v : IntelVcpu) : IntelVcpu :=
  let r := guest_regs v in
  set_guest_regs
    (mkRegs 0 (rcx r) (rdx r) (l_rbx linux) (_unused_rsp r) (l_rbp linux) (rsi r) (rdi r)
       (r8 r) (r9 r) (r10 r) (r11 r) (l_r12 linux) (l_r13 linux) (l_r14 linux) (l_r15 linux)) v.

(** ** Leaving the guest *)
Definition with_core (rip rsp cr0 cr3 cr4 : Z) (l : LinuxContext) : LinuxContext :=
  mkLinux rsp rip (l_r15 l) (l_r14 l) (l_r13 l) (l_r12 l) (l_rbx l) (l_rbp l)
    (l_es l) (l_cs l) (l_ss l) (l_ds l) (l_fs l) (l_gs l) (l_tss l) (l_gdt l) (l_idt l) cr0 cr3 cr4
    (l_efer l) (l_star l) (l_lstar l) (l_cstar l) (l_fmask l) (l_kernel_gsbase l) (l_pat l) (l_mtrr_def_type l).
Definition with_segs (es cs ss ds fs gs tss : Segment) (l : LinuxContext) : LinuxContext :=
  mkLinux (l_rsp l) (l_rip l) (l_r15 l) (l_r14 l) (l_r13 l) (l_r12 l) (l_rbx l) (l_rbp l)
    es cs ss ds fs gs tss (l_gdt l) (l_idt l) (l_cr0 l) (l_cr3 l) (l_cr4 l)
    (l_efer l) (l_star l) (l_lstar l) (l_cstar l) (l_fmask l) (l_kernel_gsbase l) (l_pat l) (l_mtrr_def_type l).
Definition with_tables (gdt idt : DescriptorTablePointer) (l : LinuxContext) : LinuxContext :=
  mkLinux (l_rsp l) (l_rip l) (l_r15 l) (l_r14 l) (l_r13 l) (l_r12 l) (l_rbx l) (l_rbp l)
    (l_es l) (l_cs l) (l_ss l) (l_ds l) (l_fs l) (l_gs l) (l_tss l) gdt idt (l_cr0 l) (l_cr3 l) (l_cr4 l)
    (l_efer l) (l_star l) (l_lstar l) (l_cstar l) (l_fmask l) (l_kernel_gsbase l) (l_pat l) (l_mtrr_def_type l).

(** One assignment of [load_vmcs_guest]: the field read, and what is done with
    the value; [None] is the panic of [VirtAddr::new]. *)
Definition LoadStep : Type := Field * (Z -> Cpu * LinuxContext -> option (Cpu * LinuxContext)).

Definition to_linux (f : Field) (g : Z -> LinuxContext -> LinuxContext) : LoadStep :=
  (f, fun v s => Some (fst s, g v (snd s))).
Definition to_base (f : Field) (g : Z -> LinuxContext -> LinuxContext) : LoadStep :=
  (f, fun v s => match virt_addr_new v with Some a => Some (fst s, g a (snd s)) | None => None end).
Definition to_msr (f : Field) (m : Msr) : LoadStep := (f, fun v s => Some (msr_write m v (fst s), snd s)).

Section LoadSteps.
Import VmcsField64Guest VmcsField16Guest VmcsField32Guest.

Definition load_steps : list LoadStep :=
  [to_linux (F64Guest RIP) (fun v l => with_core v (l_rsp l) (l_cr0 l) (l_cr3 l) (l_cr4 l) l);
   to_linux (F64Guest RSP) (fun v l => with_core (l_rip l) v (l_cr0 l) (l_cr3 l) (l_cr4 l) l);
   to_linux (F64Guest CR0) (fun v l => with_core (l_rip l) (l_rsp l) (truncate cr0_all v) (l_cr3 l) (l_cr4 l) l);
   to_linux (F64Guest CR3) (fun v l => with_core (l_rip l) (l_rsp l) (l_cr0 l) v (l_cr4 l) l);
   to_linux (F64Guest CR4) (fun v l => with_core (l_rip l) (l_rsp l) (l_cr0 l) (l_cr3 l)
     (Z.land (truncate cr4_all v) (not64 CR4_VIRTUAL_MACHINE_EXTENSIONS)) l);
   to_linux (F16Guest ES_SELECTOR) (fun v l => with_segs (with_selector v (l_es l)) (l_cs l) (l_ss l) (l_ds l) (l_fs l) (l_gs l) (l_tss l) l);
   to_linux (F16Guest CS_SELECTOR) (fun v l => with_segs (l_es l) (with_selector v (l_cs l)) (l_ss l) (l_ds l) (l_fs l) (l_gs l) (l_tss l) l);
   to_linux (F16Guest SS_SELECTOR) (fun v l => with_segs (l_es l) (l_cs l) (with_selector v (l_ss l)) (l_ds l) (l_fs l) (l_gs l) (l_tss l) l);
   to_linux (F16Guest DS_SELECTOR) (fun v l => with_segs (l_es l) (l_cs l) (l_ss l) (with_selector v (l_ds l)) (l_fs l) (l_gs l) (l_tss l) l);
   to_linux (F16Guest FS_SELECTOR) (fun v l => with_segs (l_es l) (l_cs l) (l_ss l) (l_ds l) (with_selector v (l_fs l)) (l_gs l) (l_tss l) l);
   to_linux (F64Guest FS_BASE) (fun v l => with_segs (l_es l) (l_cs l) (l_ss l) (l_ds l) (with_base v (l_fs l)) (l_gs l) (l_tss l) l);
   to_linux (F16Guest GS_SELECTOR) (fun v l => with_segs (l_es l) (l_cs l) (l_ss l) (l_ds l) (l_fs l) (with_selector v (l_gs l)) (l_tss l) l);
   to_linux (F64Guest GS_BASE) (fun v l => with_segs (l_es l) (l_cs l) (l_ss l) (l_ds l) (l_fs l) (with_base v (l_gs l)) (l_tss l) l);
   to_linux (F16Guest TR_SELECTOR) (fun v l => with_segs (l_es l) (l_cs l) (l_ss l) (l_ds l) (l_fs l) (l_gs l) (with_selector v (l_tss l)) l);
   to_base (F64Guest GDTR_BASE) (fun v l => with_tables (mkDtp (dt_limit (l_gdt l)) v) (l_idt l) l);
   to_linux (F32Guest GDTR_LIMIT) (fun v l => with_tables (mkDtp (wrap 16 v) (dt_base (l_gdt l))) (l_idt l) l);
   to_base (F64Guest IDTR_BASE) (fun v l => with_tables (l_gdt l) (mkDtp (dt_limit (l_idt l)) v) l);
   to_linux (F32Guest IDTR_LIMIT) (fun v l => with_tables (l_gdt l) (mkDtp (wrap 16 v) (dt_base (l_idt l))) l);
   to_msr (F32Guest SYSENTER_CS) IA32_SYSENTER_CS;
   to_msr (F64Guest SYSENTER_ESP) IA32_SYSENTER_ESP;
   to_msr (F64Guest SYSENTER_EIP) IA32_SYSENTER_EIP].
End LoadSteps.

Abbreviation V := (IntelVcpu * H)%type.
Abbreviation CVL := (Cpu * V * LinuxContext)%type.
Definition vmx_exit_ {B} : M H VmFail B -> M CVL HvErrorNum B :=
  vtry (fun s => snd (snd (fst s))) (fun h s => ((fst (fst s), (fst (snd (fst s)), h)), snd s)).

Fixpoint load_all (l : list LoadStep) : M CVL HvErrorNum unit :=
  match l with
  | [] => ret tt
  | (f, g) :: rest =>
      let* v := vmx_exit_ (field_read f) in
      (fun s => match g v (fst (fst s), snd s) with
                | Some (c, l) => (Ok tt, ((c, snd (fst s)), l))
                | None => (Panic, s)
                end) ;;;
      load_all rest
  end.

Definition load_vmcs_guest : M CVL HvErrorNum unit := load_all load_steps.

(** [Vcpu::exit]. *)
Definition intel_exit : M CVL HvErrorNum unit :=
  load_vmcs_guest ;;;
  let* v := gets (fun s => fst (snd (fst s))) in
  vmx_exit_ (Vmcs_clear (start_paddr (vmcs_region v))) ;;;
  vmx_exit_ vmxoff.

(** ** Operations on the guest *)
Abbreviation CV := (Cpu * V)%type.
Definition on_vmcs {E B} : M CH E B -> M CV E B :=
  zoom (fun s => (fst s, snd (snd s))) (fun x s => (fst x, (fst (snd s), snd x))).

Definition intel_inject_fault : M CV HvErrorNum unit :=
  on_vmcs (vmx (Vmcs_inject_interrupt ExceptionType.GeneralProtectionFault (Some 0))).

Definition intel_advance_rip (instr_len : Z) : M CV HvErrorNum unit :=
  on_vmcs (let* rip := vmx (field_read (G64 VmcsField64Guest.RIP)) in
           vmx (field_write (G64 VmcsField64Guest.RIP) (add64 rip instr_len))).

Definition intel_guest_is_privileged : M CV HvErrorNum bool :=
  on_vmcs (let* ar := expect (vmx (field_read (F32Guest VmcsField32Guest.CS_AR_BYTES))) in
           ret (dpl (truncate SAR_all ar) =? 0)).

(** [exit_reason] panics on a reason the enumeration does not have. *)
Definition intel_in_hypercall : M CV HvErrorNum bool :=
  on_vmcs (fun s =>
    match Vmcs_exit_reason (snd s) with
    | (Ok VmxExitReason.VMCALL, h) => (Ok true, (fst s, h))
    | (Ok _, h) | (Err _, h) => (Ok false, (fst s, h))
    | (Panic, h) => (Panic, (fst s, h))
    | (Diverge, h) => (Diverge, (fst s, h))
    end).

Definition intel_guest_page_table : M CV HvErrorNum Z :=
  on_vmcs (let* cr3 := intel_cr 3 in ret (align_down cr3)).

(** [VcpuAccessGuestState]: the accessors unwrap the result of VMREAD. *)
Definition read_guest (f : Field) : M CV HvErrorNum Z := on_vmcs (expect (vmx (field_read f))).
Definition intel_instr_pointer : M CV HvErrorNum Z := read_guest (G64 VmcsField64Guest.RIP).
Definition intel_stack_pointer : M CV HvErrorNum Z := read_guest (G64 VmcsField64Guest.RSP).
Definition intel_set_stack_pointer (sp : Z) : M CV HvErrorNum unit :=
  on_vmcs (expect (vmx (field_write (G64 VmcsField64Guest.RSP) sp))).
Definition intel_rflags : M CV HvErrorNum Z := read_guest (G64 VmcsField64Guest.RFLAGS).
Definition intel_fs_base : M CV HvErrorNum Z := read_guest (G64 VmcsField64Guest.FS_BASE).
Definition intel_gs_base : M CV HvErrorNum Z := read_guest (G64 VmcsField64Guest.GS_BASE).
Definition intel_get_cr (i : Z) : M CV HvErrorNum Z := on_vmcs (intel_cr i).

(** [Debug::fmt]: a field that cannot be read is a panic here too. *)
Definition intel_debug : M CV HvErrorNum unit :=
  intel_instr_pointer ;;; intel_stack_pointer ;;; intel_rflags ;;;
  intel_get_cr 0 ;;; intel_get_cr 3 ;;; intel_get_cr 4 ;;;
  read_guest (F16Guest VmcsField16Guest.CS_SELECTOR) ;;; read_guest (G64 VmcsField64Guest.FS_BASE) ;;;
  read_guest (G64 VmcsField64Guest.GS_BASE) ;;; read_guest (F16Guest VmcsField16Guest.TR_SELECTOR) ;;; ret tt.

#[export] Instance IntelOps : VcpuOps V := {|
  regs v := guest_regs (fst v);
  regs_mut r v := (set_guest_regs r (fst v), snd v);
  instr_pointer := intel_instr_pointer;
  stack_pointer := intel_stack_pointer;
  set_stack_pointer := intel_set_stack_pointer;
  rflags := intel_rflags;
  fs_base := intel_fs_base;
  gs_base := intel_gs_base;
  cr := intel_get_cr;
  advance_rip := intel_advance_rip;
  inject_fault := intel_inject_fault;
  guest_is_privileged := intel_guest_is_privileged;
  guest_page_table := intel_guest_page_table;
  in_hypercall := intel_in_hypercall;
  vcpu_exit := intel_exit;
  vcpu_debug := intel_debug;
|}.

(** ** Exit handling *)
Context (hw_seg_base : Cpu -> Z -> Z).
Abbreviation W := (World V).
Definition on_vmx {B} (c : M H VmFail B) : M W Esc B := on_vcpu (on_vmcs (vmx c)).

(** An NMI is passed to the handler of the host by [int 2], which comes back
    as [exception_round] says; other exceptions are logged. *)
Definition handle_exception_nmi : M W Esc unit :=
  let* intr_info := on_vmx ExitInterruptInfo_new in
  if ei_vector intr_info =? ExceptionType.NonMaskableInterrupt
  then exception_handler ExceptionType.NonMaskableInterrupt else ret tt.

Definition handle_ept_violation : M W Esc unit :=
  on_vmx EptViolationInfo_new ;;; throw (Fail ENOSYS).

Definition intel_dispatch (reason : VmxExitReason.t) : M W Esc unit :=
  match reason with
  | VmxExitReason.EXCEPTION_NMI => handle_exception_nmi
  | VmxExitReason.CPUID => handle_cpuid
  | VmxExitReason.VMCALL => handle_hypercall hw_seg_base
  | VmxExitReason.MSR_READ => handle_msr_read
  | VmxExitReason.MSR_WRITE => handle_msr_write
  | VmxExitReason.EPT_VIOLATION => handle_ept_violation
  | VmxExitReason.TRIPLE_FAULT => on_vcpu inject_fault
  | _ => throw (Fail ENOSYS)
  end.

Definition intel_handle_exit : M W Esc unit :=
  let* exit_info := on_vmx VmExitInfo_new in
  if entry_failure exit_info then panic
  else intel_dispatch (exit_reason exit_info).
End Intel.

(** ** Field accesses with a current VMCS *)
Section Access.
Context {bf : BitField} {xr : X86Regs} {rc : RawCpuid} {H : Type} {hw : VmxHw H} {hwl : VmxHwLaws H}.

(** The value of a field after a list of writes, from the value [d] before. *)
Definition final (l : list (Field * Z)) (g : Field) (d : Z) : Z :=
  fold_left (fun v '(f, x) => if field_code g =? field_code f then x else v) l d.

Definition writable (l : list (Field * Z)) : Prop :=
  Forall (fun '(f, v) => field_writable f = true /\ in_range (field_width f) v) l.

(** The content of the VMCS goes from [h] to [h'] by the writes [l]. *)
Definition written (l : list (Field * Z)) (h h' : H) : Prop :=
  vmcs_current h' /\ forall g, vmcs_val h' (field_code g) = final l g (vmcs_val h (field_code g)).

Lemma final_app l l' g d : final (l ++ l') g d = final l' g (final l g d).
Proof. apply fold_left_app. Qed.

Lemma written_app l l' h1 h2 h3 : written l h1 h2 -> written l' h2 h3 -> written (l ++ l') h1 h3.
Proof. intros [_ H1] [H3 H2]. split; [done|]. intros g. by rewrite H2, H1, final_app. Qed.

Lemma vmx_ok {A} (m : M H VmFail A) c h a h' : m h = (Ok a, h') -> vmx m (c, h) = (Ok a, (c, h')).
Proof. intros Hm. unfold vmx, vtry. cbn [fst snd]. by rewrite Hm. Qed.

Lemma field_read_ok f h : vmcs_current h -> field_read f h = (Ok (vmcs_val h (field_code f)), h).
Proof.
  intros Hc. unfold field_read. rewrite (bind_ok _ _ _ _ _ (vmread_spec f h Hc)).
  rewrite wrap_small by (by apply vmcs_val_range). done.
Qed.

Lemma vmx_read_ok f c h : vmcs_current h -> vmx (field_read f) (c, h) = (Ok (vmcs_val h (field_code f)), (c, h)).
Proof. intros Hc. by apply vmx_ok, field_read_ok. Qed.

Lemma vmx_write_ok f v c h :
  vmcs_current h -> field_writable f = true -> in_range (field_width f) v ->
  exists h', vmx (field_write f v) (c, h) = (Ok tt, (c, h')) /\ written [(f, v)] h h'.
Proof.
  intros Hc Hw Hr. destruct (vmwrite_spec f v h Hc Hw Hr) as (h' & Hh & Hc' & Hv).
  exists h'. split; [by apply vmx_ok|]. by split.
Qed.

Lemma write_all_ok l c h :
  vmcs_current h -> writable l ->
  exists h', write_all l (c, h) = (Ok tt, (c, h')) /\ written l h h'.
Proof.
  intros Hc Hl. revert h Hc. induction Hl as [|[f v] l [Hw Hr] Hl IH]; intros h Hc.
  - exists h. by split.
  - destruct (vmx_write_ok f v c h Hc Hw Hr) as (h1 & E1 & W1).
    destruct (IH h1) as (h2 & E2 & W2); [apply W1|].
    exists h2. split; [simpl; by rewrite (bind_ok _ _ _ _ _ E1)|]. exact (written_app [(f, v)] l h h1 h2 W1 W2).
Qed.

Lemma expect_ok {S E F A} (m : M S E A) s a s' : m s = (Ok a, s') -> expect (F := F) m s = (Ok a, s').
Proof. intros Hm. unfold expect. by rewrite Hm. Qed.

Lemma expect_write_ok E l c h :
  vmcs_current h -> writable l ->
  exists h', expect (F := E) (write_all l) (c, h) = (Ok tt, (c, h')) /\ written l h h'.
Proof.
  intros Hc Hl. destruct (write_all_ok l c h Hc Hl) as (h' & Hw & Hh). exists h'. split; [|done].
  by apply expect_ok.
Qed.
End Access.
