(* ===== verification/IntelProps.v ===== *)
(** * Properties of the Intel vCPU

    The Intel vCPU implements the interface of the shared code, the VMCS is set
    up so that the guest starts as Linux, Linux comes back as the guest left
    it, and exits nobody handles end in a #GP. *)

From S2P Require Import Prelude Crates HvError Addr Frame Config X86 Segmentation Context Cpuid Vcpu Vmx MsrBitmap Exception IntelVcpu.

(** #GP with an error code as the VM-entry interruption information. *)
Definition GP_INFO : Z := 0x80000b0d.

Section Interface.
Context {bf : BitField} {xr : X86Regs} {xd : X86Desc} {rc : RawCpuid} {H : Type} {hw : VmxHw H} {hwl : VmxHwLaws H}.

Definition F_RIP : Field := F64Guest VmcsField64Guest.RIP.
Definition F_CR4 : Field := F64Guest VmcsField64Guest.CR4.
Definition F_CS_AR : Field := F32Guest VmcsField32Guest.CS_AR_BYTES.
Definition F_CR4_MASK : Field := F64Control VmcsField64Control.CR4_GUEST_HOST_MASK.
Definition F_CR4_SHADOW : Field := F64Control VmcsField64Control.CR4_READ_SHADOW.
Definition F_INTR_INFO : Field := F32Control VmcsField32Control.VM_ENTRY_INTR_INFO_FIELD.
Definition F_INTR_ERR : Field := F32Control VmcsField32Control.VM_ENTRY_EXCEPTION_ERROR_CODE.

Definition fval (h : H) (f : Field) : Z := vmcs_val h (field_code f).

Lemma written_val l h h' g : written l h h' -> fval h' g = final l g (fval h g).
Proof. intros [_ Hw]. apply Hw. Qed.

Lemma fval_range f h : vmcs_current h -> in_range (field_width f) (fval h f).
Proof. apply vmcs_val_range. Qed.

(** What the guest reads from CR4. *)
Definition guest_cr4 (h : H) : Z :=
  Z.lor (Z.land (fval h F_CR4_SHADOW) (fval h F_CR4_MASK)) (Z.land (fval h F_CR4) (not64 (fval h F_CR4_MASK))).

Definition intel_view (s : Cpu * (IntelVcpu * H)) : GuestView :=
  let h := snd (snd s) in
  mkView (fval h F_RIP) (guest_cr4 h) (dpl (truncate SAR_all (fval h F_CS_AR)) =? 0)
    ((fval h F_INTR_INFO =? GP_INFO) && (fval h F_INTR_ERR =? 0)).

Lemma on_vmcs_ok {E A} (m : M (Cpu * H) E A) c v h a c' h' :
  m (c, h) = (Ok a, (c', h')) -> on_vmcs m (c, (v, h)) = (Ok a, (c', (v, h'))).
Proof. intros Hm. unfold on_vmcs, zoom. cbn [fst snd]. by rewrite Hm. Qed.

Lemma intel_cr4_ok E c h : vmcs_current h -> intel_cr (E := E) 4 (c, h) = (Ok (guest_cr4 h), (c, h)).
Proof.
  intros Hc. unfold intel_cr. apply expect_ok. cbn [Z.eqb Pos.eqb].
  by rewrite !(bind_ok _ _ _ _ _ (vmx_read_ok _ c h Hc)).
Qed.

Lemma intel_cr3_ok E c h :
  vmcs_current h -> intel_cr (E := E) 3 (c, h) = (Ok (fval h (F64Guest VmcsField64Guest.CR3)), (c, h)).
Proof. intros Hc. unfold intel_cr. cbn [Z.eqb Pos.eqb]. by apply expect_ok, vmx_read_ok. Qed.

Lemma read_guest_ok f c v h : vmcs_current h -> read_guest f (c, (v, h)) = (Ok (fval h f), (c, (v, h))).
Proof. intros Hc. by apply on_vmcs_ok, expect_ok, vmx_read_ok. Qed.

Lemma intel_debug_ok c v h : vmcs_current h -> intel_debug (c, (v, h)) = (Ok tt, (c, (v, h))).
Proof.
  intros Hc. unfold intel_debug, intel_instr_pointer, intel_stack_pointer, intel_rflags, intel_get_cr.
  rewrite !(bind_ok _ _ _ _ _ (read_guest_ok _ c v h Hc)).
  rewrite (bind_ok (on_vmcs (intel_cr 0)) _ _ (fval h (F64Guest VmcsField64Guest.CR0)) (c, (v, h)))
    by (unfold intel_cr; cbn [Z.eqb]; by apply on_vmcs_ok, expect_ok, vmx_read_ok).
  rewrite (bind_ok _ _ _ _ _ (on_vmcs_ok _ _ _ _ _ _ _ (intel_cr3_ok _ c h Hc))).
  rewrite (bind_ok _ _ _ _ _ (on_vmcs_ok _ _ _ _ _ _ _ (intel_cr4_ok _ c h Hc))).
  by rewrite !(bind_ok _ _ _ _ _ (read_guest_ok _ c v h Hc)).
Qed.

Lemma advance_rip_run c v h n :
  vmcs_current h ->
  exists h', intel_advance_rip n (c, (v, h)) = (Ok tt, (c, (v, h'))) /\ written [(F_RIP, add64 (fval h F_RIP) n)] h h'.
Proof.
  intros Hc. destruct (vmx_write_ok F_RIP (add64 (fval h F_RIP) n) c h Hc eq_refl) as (h' & Hw & Hh).
  { apply wrap_range. cbn. lia. }
  exists h'. split; [|done]. apply on_vmcs_ok. by rewrite (bind_ok _ _ _ _ _ (vmx_read_ok F_RIP c h Hc)).
Qed.

Lemma gp_interrupt_info : InterruptInfo_from_vector ExceptionType.GeneralProtectionFault = Some GP_INFO.
Proof.
  unfold InterruptInfo_from_vector. unfold ExceptionType.GeneralProtectionFault.
  rewrite bf_set_bits_ok; [done| unfold in_range; lia | lia | lia | done].
Qed.

Lemma gp_not_soft : intr_type GP_INFO = Some HardException.
Proof. unfold intr_type, GP_INFO. rewrite bf_get_bits_spec by lia. done. Qed.

Lemma inject_fault_run c v h :
  vmcs_current h ->
  exists h', intel_inject_fault (c, (v, h)) = (Ok tt, (c, (v, h'))) /\
    written [(F_INTR_ERR, 0); (F_INTR_INFO, GP_INFO)] h h'.
Proof.
  intros Hc.
  destruct (vmwrite_spec F_INTR_ERR 0 h Hc eq_refl ltac:(split; [done|reflexivity])) as (h1 & E1 & C1 & V1).
  destruct (vmwrite_spec F_INTR_INFO GP_INFO h1 C1 eq_refl ltac:(split; [done|reflexivity])) as (h2 & E2 & C2 & V2).
  exists h2. split.
  - apply on_vmcs_ok, vmx_ok. unfold Vmcs_inject_interrupt. rewrite gp_interrupt_info, gp_not_soft.
    rewrite (bind_ok _ _ _ tt h1); [by rewrite (bind_ok _ _ _ _ _ E2)|].
    replace (contains GP_INFO II_ERROR_CODE) with true by reflexivity.
    rewrite (bind_ok _ _ _ _ _ (field_read_ok _ h Hc)). exact E1.
  - by apply (written_app [(F_INTR_ERR, 0)] [(F_INTR_INFO, GP_INFO)] h h1 h2); split.
Qed.

#[export] Instance IntelLaws : VcpuLaws (IntelVcpu * H).
Proof.
  refine {| vcpu_wf := fun s => vmcs_current (snd (snd s)); view := intel_view |}; try done.
  - intros [c [v h]] Hc. by apply read_guest_ok.
  - intros [c [v h]] Hc. by apply intel_debug_ok.
  - intros [c [v h]] Hc. by apply on_vmcs_ok, intel_cr4_ok.
  - intros [c [v h]] Hc. apply on_vmcs_ok.
    by rewrite (bind_ok _ _ _ _ _ (expect_ok _ _ _ _ (vmx_read_ok F_CS_AR c h Hc))).
  - intros [c [v h]] Hc. eexists. apply on_vmcs_ok.
    by rewrite (bind_ok _ _ _ _ _ (intel_cr3_ok _ c h Hc)).
  - intros [c [v h]] n Hc. destruct (advance_rip_run c v h n Hc) as (h' & Hr & Hw).
    eexists. split; [exact Hr|]. split; [apply Hw|]. split; [done|].
    unfold intel_view, guest_cr4. cbn [snd]. by rewrite !(written_val _ _ _ _ Hw).
  - intros [c [v h]] Hc. destruct (inject_fault_run c v h Hc) as (h' & Hr & Hw).
    eexists. split; [exact Hr|]. split; [apply Hw|]. split; [done|].
    unfold intel_view, guest_cr4. cbn [snd]. by rewrite !(written_val _ _ _ _ Hw).
Defined.
End Interface.

(** ** Setting up the VMCS *)
Section Setup.
Context {bf : BitField} {xr : X86Regs} {xrl : X86RegsLaws} {xd : X86Desc} {rc : RawCpuid}.
Context {H : Type} {hw : VmxHw H} {hwl : VmxHwLaws H}.

(** All writes of [vmcs_setup] to the VMCS, in order. *)
Definition cr_writes (c : Cpu) (l : LinuxContext) : list (Field * Z) :=
  set_cr0_fields c (l_cr0 l) ++ set_cr4_fields c (l_cr4 l) ++ [(F64Guest VmcsField64Guest.CR3, l_cr3 l)].

Definition guest_writes (c : Cpu) (l : LinuxContext) : list (Field * Z) :=
  [(F64Guest VmcsField64Guest.IA32_PAT, l_pat l); (F64Guest VmcsField64Guest.IA32_EFER, l_efer l)] ++
  cr_writes c l ++ guest_segments l ++ guest_rest l c.

Definition control_word_writes (c : Cpu) : list (Field * Z) :=
  map (fun '(f, m, set, clear) => (F32Control f, control_value (msr_read m c) set clear)) control_words.

Definition count_writes : list (Field * Z) :=
  [(F32Control VmcsField32Control.VM_EXIT_MSR_STORE_COUNT, 0);
   (F32Control VmcsField32Control.VM_EXIT_MSR_LOAD_COUNT, 0);
   (F32Control VmcsField32Control.VM_ENTRY_MSR_LOAD_COUNT, 0);
   (F64Control VmcsField64Control.CR4_GUEST_HOST_MASK, 0);
   (F32Control VmcsField32Control.CR3_TARGET_COUNT, 0)].

Definition control_writes (a : HostAddrs) (root : Z) (c : Cpu) : list (Field * Z) :=
  control_word_writes c ++ count_writes ++
  [(F64Control VmcsField64Control.EPT_POINTER, EPTPointer_from_table_phys root)] ++
  [(F64Control VmcsField64Control.MSR_BITMAP, ha_msr_bitmap a);
   (F32Control VmcsField32Control.EXCEPTION_BITMAP, 0)].

Definition setup_writes (a : HostAddrs) (l : LinuxContext) (root : Z) (c : Cpu) : list (Field * Z) :=
  host_fields a c ++ guest_writes c l ++ control_writes a root c.

(** The machine-width of what is written: the registers of the processor, the
    context of Linux and the addresses of the hypervisor. *)
Definition segment_ok (s : Segment) : Prop :=
  in_range 16 (selector s) /\ in_range 64 (base s) /\ in_range 32 (limit s) /\ in_range 32 (access_rights s).

Record cpu_ok (c : Cpu) : Prop := {
  co_msr : forall m, in_range 64 (msr_read m c);
  co_cr : in_range 64 (c_cr0 c) /\ in_range 64 (c_cr4 c);
  co_gdt : in_range 64 (dt_base (c_gdtr c));
}.

Record context_ok (l : LinuxContext) : Prop := {
  cx_seg : Forall segment_ok [l_es l; l_cs l; l_ss l; l_ds l; l_fs l; l_gs l; l_tss l];
  cx_regs : Forall (in_range 64) [l_rip l; l_rsp l; l_cr0 l; l_cr3 l; l_cr4 l; l_pat l; l_efer l];
  cx_gdt : in_range 64 (dt_base (l_gdt l)) /\ in_range 16 (dt_limit (l_gdt l));
  cx_idt : in_range 64 (dt_base (l_idt l)) /\ in_range 16 (dt_limit (l_idt l));
}.

Record addrs_ok (a : HostAddrs) : Prop := {
  ao_all : Forall (in_range 64) [ha_idt a; ha_host_stack_top a; ha_vmx_exit a; ha_msr_bitmap a];
}.

Lemma range_up w w' x : 0 <= w <= w' -> in_range w x -> in_range w' x.
Proof. unfold in_range. intros Hw Hx. pose proof (Z.pow_le_mono_r 2 w w'). lia. Qed.

Ltac writable_step :=
  first [ apply Forall_nil; exact I | apply Forall_cons; split;
    [split; [reflexivity | cbn [field_width]; eauto 7 with rvm_range] |] ].

Lemma host_writable a c : cpu_ok c -> addrs_ok a -> writable (host_fields a c).
Proof.
  intros [Hm [Hc0 Hc4] Hg] [Ha]. rewrite !Forall_cons in Ha. destruct Ha as (? & ? & ? & ? & _).
  assert (in_range 64 (cr3_get c)) as Hcr3.
  { apply (range_up 52); [lia|]. apply cr3_frame_range. }
  unfold writable, host_fields, gdt_sgdt. repeat writable_step.
Qed.

Lemma cr_writable c l : cpu_ok c -> context_ok l -> writable (cr_writes c l).
Proof.
  intros [Hm _ _] [_ Hr _ _]. rewrite !Forall_cons in Hr. destruct Hr as (_ & _ & Hr0 & Hr3 & Hr4 & _).
  unfold writable, cr_writes, set_cr0_fields, set_cr4_fields. cbn [app]. repeat writable_step.
Qed.

Lemma segment_writable s sel b lim ar : segment_ok s -> writable (set_guest_segment s sel b lim ar).
Proof. intros (? & ? & ? & ?). unfold writable, set_guest_segment. repeat writable_step. Qed.

Lemma segments_writable l : context_ok l -> writable (guest_segments l).
Proof.
  intros [Hs _ _ _]. rewrite !Forall_cons in Hs. destruct Hs as (? & ? & ? & ? & ? & ? & ? & _).
  unfold writable, guest_segments.
  repeat (apply Forall_app; split; [by apply segment_writable|]).
  apply segment_writable. repeat split; discriminate || reflexivity.
Qed.

Lemma rest_writable l c : cpu_ok c -> context_ok l -> writable (guest_rest l c).
Proof.
  intros [Hm _ _] [_ Hr [Hgb Hgl] [Hib Hil]]. rewrite !Forall_cons in Hr. destruct Hr as (? & ? & _).
  apply (range_up 16 32) in Hgl, Hil; [|lia..].
  unfold writable, guest_rest. repeat writable_step.
Qed.

Lemma in_range_control old set clear :
  in_range 32 set -> in_range 32 clear -> in_range 32 (control_value old set clear).
Proof. intros. unfold control_value. auto with rvm_range. Qed.

(** The bits requested and the bits refused do not overlap, so [set_control]
    does not panic, and both are 32 bits wide. *)
Lemma control_words_ok :
  Forall (fun '(_, _, set, clear) => Z.land set clear = 0 /\ in_range 32 set /\ in_range 32 clear) control_words.
Proof.
  unfold control_words, secondary_controls.
  repeat (apply Forall_cons; split); [..|by apply Forall_nil];
    try (split_and!; [reflexivity|split; discriminate || reflexivity..]).
  destruct has_rdtscp, has_invpcid, has_xsaves_xrstors;
    (split_and!; [reflexivity|split; discriminate || reflexivity..]).
Qed.

Lemma set_controls_ok l c h :
  vmcs_current h ->
  Forall (fun '(_, _, set, clear) => Z.land set clear = 0 /\ in_range 32 set /\ in_range 32 clear) l ->
  exists h', set_controls l (c, h) = (Ok tt, (c, h')) /\
    written (map (fun '(f, m, set, clear) => (F32Control f, control_value (msr_read m c) set clear)) l) h h'.
Proof.
  intros Hc Hl. revert h Hc. induction Hl as [|[[[f m] set] clear] l (Hd & Hs & Hcl) Hl IH]; intros h Hc.
  - exists h. by split.
  - set (v := control_value (msr_read m c) set clear).
    assert (in_range 32 v) as Hv by (by apply in_range_control).
    destruct (vmwrite_spec (F32Control f) v h Hc eq_refl Hv) as (h1 & E1 & C1 & V1).
    destruct (IH h1 C1) as (h2 & E2 & W2). exists h2. split.
    + cbn [set_controls]. rewrite bind_gets. cbn [fst].
      erewrite bind_ok; [exact E2|]. apply vmx_ok. unfold Vmcs_set_control, assertM. rewrite Hd. exact E1.
    + apply (written_app [(F32Control f, v)] _ h h1 h2); [by split|done].
Qed.

Lemma ept_activate_ok E root c h :
  vmcs_current h -> 0 <= root < 2 ^ 52 -> root mod 4096 = 0 ->
  exists h', ept_activate (E := E) root (c, h) = (Ok tt, (c, h')) /\
    written [(F64Control VmcsField64Control.EPT_POINTER, EPTPointer_from_table_phys root)] h h'.
Proof.
  intros Hc Hr Ha. pose proof (eptp_value root Hr Ha) as He. set (e := EPTPointer_from_table_phys root) in *.
  destruct (vmwrite_spec (F64Control VmcsField64Control.EPT_POINTER) e h Hc eq_refl) as (h1 & E1 & C1 & V1).
  { unfold in_range. cbn [field_width]. rewrite He. euclid. }
  destruct (invept_spec e h1 C1) as (fl & h2 & E2 & Hz & Hcf & C2 & V2).
  { rewrite He, get_bits_div by lia. euclid. }
  exists h2. split; [|split; [done|intros g; by rewrite V2, V1]].
  apply expect_ok, vmx_ok. unfold Vmcs_set_ept_pointer. fold e. rewrite (bind_ok _ _ _ _ _ E1).
  unfold invept. rewrite E2. unfold vmx_capture_status. by rewrite Hz, Hcf.
Qed.

Lemma setup_host_ok a c h :
  vmcs_current h -> cpu_ok c -> addrs_ok a ->
  exists h', setup_vmcs_host a (c, h) = (Ok tt, (c, h')) /\ written (host_fields a c) h h'.
Proof. intros Hc Hcpu Ha. by apply write_all_ok, host_writable. Qed.

Lemma write_cr_ok E c l h :
  vmcs_current h -> cpu_ok c -> context_ok l ->
  exists h', (intel_set_cr (E := E) 0 (l_cr0 l) ;;; intel_set_cr 4 (l_cr4 l) ;;; intel_set_cr 3 (l_cr3 l)) (c, h)
    = (Ok tt, (c, h')) /\ written (cr_writes c l) h h'.
Proof.
  intros Hc Hcpu Hl. pose proof (cr_writable c l Hcpu Hl) as Hw. unfold cr_writes, writable in Hw.
  rewrite !Forall_app in Hw. destruct Hw as (W0 & W4 & W3).
  destruct (expect_write_ok E _ c h Hc W0) as (h1 & E1 & R1).
  destruct (expect_write_ok E _ c h1 (proj1 R1) W4) as (h2 & E2 & R2).
  destruct (expect_write_ok E _ c h2 (proj1 R2) W3) as (h3 & E3 & R3).
  exists h3. split; [|exact (written_app _ _ _ _ _ R1 (written_app _ _ _ _ _ R2 R3))].
  unfold intel_set_cr. cbn [Z.eqb Pos.eqb]. rewrite bind_assoc, bind_gets. cbn [fst].
  rewrite (bind_ok _ _ _ _ _ E1), bind_assoc, bind_gets. cbn [fst].
  rewrite (bind_ok _ _ _ _ _ E2), bind_gets. exact E3.
Qed.

Lemma setup_guest_ok l c h :
  vmcs_current h -> cpu_ok c -> context_ok l ->
  exists h', setup_vmcs_guest l (c, h) = (Ok tt, (c, h')) /\ written (guest_writes c l) h h'.
Proof.
  intros Hc Hcpu Hl.
  destruct (write_all_ok [(F64Guest VmcsField64Guest.IA32_PAT, l_pat l); (F64Guest VmcsField64Guest.IA32_EFER, l_efer l)]
    c h Hc) as (h1 & E1 & R1).
  { destruct Hl as [_ Hr _ _]. rewrite !Forall_cons in Hr. destruct Hr as (_ & _ & _ & _ & _ & ? & ? & _).
    unfold writable. repeat writable_step. }
  destruct (write_cr_ok HvErrorNum c l h1 (proj1 R1) Hcpu Hl) as (h2 & E2 & R2).
  destruct (write_all_ok _ c h2 (proj1 R2) (segments_writable l Hl)) as (h3 & E3 & R3).
  destruct (write_all_ok _ c h3 (proj1 R3) (rest_writable l c Hcpu Hl)) as (h4 & E4 & R4).
  exists h4. split; [|exact (written_app _ _ _ _ _ R1 (written_app _ _ _ _ _ R2 (written_app _ _ _ _ _ R3 R4)))].
  unfold setup_vmcs_guest. rewrite bind_gets. cbn [fst]. rewrite (bind_ok _ _ _ _ _ E1).
  assert (forall k : M (Cpu * H) HvErrorNum unit, (intel_set_cr 0 (l_cr0 l) ;;; intel_set_cr 4 (l_cr4 l) ;;;
    intel_set_cr 3 (l_cr3 l) ;;; k) (c, h1) = k (c, h2)) as ->; [|by rewrite (bind_ok _ _ _ _ _ E3)].
  intros k. rewrite <- (bind_ok _ (fun _ => k) _ _ _ E2). unfold bind.
  destruct (intel_set_cr 0 _ _) as [[] s1]; try done. by destruct (intel_set_cr 4 _ s1) as [[] s2].
Qed.

Lemma setup_control_ok a root c h :
  vmcs_current h -> addrs_ok a -> 0 <= root < 2 ^ 52 -> root mod 4096 = 0 ->
  exists h', setup_vmcs_control a root (c, h) = (Ok tt, (c, h')) /\ written (control_writes a root c) h h'.
Proof.
  intros Hc [Ha] Hr Hal. rewrite !Forall_cons in Ha. destruct Ha as (_ & _ & _ & ? & _).
  destruct (set_controls_ok control_words c h Hc control_words_ok) as (h1 & E1 & R1).
  destruct (write_all_ok count_writes c h1 (proj1 R1)) as (h2 & E2 & R2).
  { unfold writable, count_writes. repeat writable_step. }
  destruct (ept_activate_ok HvErrorNum root c h2 (proj1 R2) Hr Hal) as (h3 & E3 & R3).
  destruct (write_all_ok [(F64Control VmcsField64Control.MSR_BITMAP, ha_msr_bitmap a);
    (F32Control VmcsField32Control.EXCEPTION_BITMAP, 0)] c h3 (proj1 R3)) as (h4 & E4 & R4).
  { unfold writable. repeat writable_step. }
  exists h4. split; [|exact (written_app _ _ _ _ _ R1 (written_app _ _ _ _ _ R2 (written_app _ _ _ _ _ R3 R4)))].
  unfold setup_vmcs_control. rewrite (bind_ok _ _ _ _ _ E1), (bind_ok _ _ _ _ _ E2), (bind_ok _ _ _ _ _ E3).
  exact E4.
Qed.

(** The processor accepts the region: VMCLEAR and VMPTRLD succeed. *)
Definition region_ok (paddr : Z) (h : H) : Prop :=
  in_range 64 paddr /\ fst (vmclear paddr h) = Ok tt /\ fst (vmptrld paddr (snd (vmclear paddr h))) = Ok tt.

Lemma vmcs_setup_ok a paddr l root c h :
  region_ok paddr h -> cpu_ok c -> context_ok l -> addrs_ok a -> 0 <= root < 2 ^ 52 -> root mod 4096 = 0 ->
  exists h0 h', vmcs_setup a paddr l root (c, h) = (Ok tt, (c, h')) /\ vmcs_current h0 /\
    written (setup_writes a l root c) h0 h'.
Proof.
  intros (Hp & Hcl & Hld) Hcpu Hl Ha Hr Hal. pose proof (vmclear_load_spec paddr h Hp Hcl Hld) as Hcur.
  destruct (vmclear paddr h) as [o1 h1] eqn:E1. destruct (vmptrld paddr h1) as [o2 h2] eqn:E2.
  cbn [fst snd] in *. rewrite E2 in Hld, Hcur. cbn [fst snd] in *. subst.
  destruct (setup_host_ok a c h2 Hcur Hcpu Ha) as (h3 & E3 & R3).
  destruct (setup_guest_ok l c h3 (proj1 R3) Hcpu Hl) as (h4 & E4 & R4).
  destruct (setup_control_ok a root c h4 (proj1 R4) Ha Hr Hal) as (h5 & E5 & R5).
  exists h2, h5. split_and!; [|done|exact (written_app _ _ _ _ _ R3 (written_app _ _ _ _ _ R4 R5))].
  unfold vmcs_setup. rewrite (bind_ok _ _ _ _ _ (vmx_ok _ c _ _ _ E1)), (bind_ok _ _ _ _ _ (vmx_ok _ c _ _ _ E2)),
    (bind_ok _ _ _ _ _ E3), (bind_ok _ _ _ _ _ E4). exact E5.
Qed.

(** A control register as VMX operation demands it: bits of FIXED0 are set,
    bits outside FIXED1 are clear, the others are those of Linux; [free] bits
    of FIXED0 and [off] bits of FIXED1 are treated apart. *)
Definition fixed_cr (fixed0 fixed1 val got : Z) (free off : list Z) : Prop :=
  forall i, 0 <= i < 64 ->
    Z.testbit got i = Z.testbit fixed0 i && negb (existsb (Z.eqb i) free) ||
                      Z.testbit val i && (Z.testbit fixed1 i && negb (existsb (Z.eqb i) off)).

Definition has_bits (x : Z) (l : list Z) : Prop := Forall (fun i => Z.testbit x i = true) l.
Definition has_no_bits (x : Z) (l : list Z) : Prop := Forall (fun i => Z.testbit x i = false) l.

Section Starts.
Import VmcsField64Guest VmcsField16Guest VmcsField32Guest VmcsField32Control.

Record guest_starts (c : Cpu) (l : LinuxContext) (h : H) : Prop := {
  gs_rip : fval h (F64Guest RIP) = l_rip l /\ fval h (F64Guest RSP) = l_rsp l /\ fval h (F64Guest RFLAGS) = 2;
  gs_cr3 : fval h (F64Guest CR3) = l_cr3 l;
  gs_cr0 : fixed_cr (msr_read IA32_VMX_CR0_FIXED0 c) (msr_read IA32_VMX_CR0_FIXED1 c) (l_cr0 l)
             (fval h (F64Guest CR0)) [31; 0] [29; 30];
  gs_cr4 : fixed_cr (msr_read IA32_VMX_CR4_FIXED0 c) (msr_read IA32_VMX_CR4_FIXED1 c)
             (Z.lor (l_cr4 l) CR4_VIRTUAL_MACHINE_EXTENSIONS) (fval h (F64Guest CR4)) [] [];
  gs_guest_cr4 : guest_cr4 h = fval h (F64Guest CR4);
  gs_seg : Forall (fun '(sel, b, lim, ar, s) =>
      mkSegment (fval h (F16Guest sel)) (fval h (F64Guest b)) (fval h (F32Guest lim)) (fval h (F32Guest ar)) = s)
    [(ES_SELECTOR, ES_BASE, ES_LIMIT, ES_AR_BYTES, l_es l); (CS_SELECTOR, CS_BASE, CS_LIMIT, CS_AR_BYTES, l_cs l);
     (SS_SELECTOR, SS_BASE, SS_LIMIT, SS_AR_BYTES, l_ss l); (DS_SELECTOR, DS_BASE, DS_LIMIT, DS_AR_BYTES, l_ds l);
     (FS_SELECTOR, FS_BASE, FS_LIMIT, FS_AR_BYTES, l_fs l); (GS_SELECTOR, GS_BASE, GS_LIMIT, GS_AR_BYTES, l_gs l);
     (TR_SELECTOR, TR_BASE, TR_LIMIT, TR_AR_BYTES, l_tss l)];
  gs_msr : fval h (F64Guest VmcsField64Guest.IA32_EFER) = l_efer l /\ fval h (F64Guest VmcsField64Guest.IA32_PAT) = l_pat l;
}.

Record host_returns (a : HostAddrs) (c : Cpu) (root : Z) (h : H) : Prop := {
  hr_rip : fval h (F64Host VmcsField64Host.RIP) = ha_vmx_exit a /\
           fval h (F64Host VmcsField64Host.RSP) = ha_host_stack_top a;
  hr_cr : fval h (F64Host VmcsField64Host.CR0) = c_cr0 c /\ fval h (F64Host VmcsField64Host.CR3) = cr3_get c /\
          fval h (F64Host VmcsField64Host.CR4) = c_cr4 c;
  hr_gs : fval h (F64Host VmcsField64Host.GS_BASE) = msr_read IA32_GS_BASE c;
  hr_ept : fval h (F64Control VmcsField64Control.EPT_POINTER) = Z.lor root 0x5e;
  hr_pin : has_bits (fval h (F32Control PIN_BASED_VM_EXEC_CONTROL)) [3];
  hr_proc : has_bits (fval h (F32Control PROC_BASED_VM_EXEC_CONTROL)) [28; 31] /\
            has_no_bits (fval h (F32Control PROC_BASED_VM_EXEC_CONTROL)) [15; 16];
  hr_proc2 : has_bits (fval h (F32Control SECONDARY_VM_EXEC_CONTROL)) [1; 7];
  hr_exit : has_bits (fval h (F32Control VM_EXIT_CONTROLS)) [9; 18; 19; 20; 21];
  hr_entry : has_bits (fval h (F32Control VM_ENTRY_CONTROLS)) [9; 14; 15];
}.
End Starts.

Lemma fixed_cr_plain f0 f1 v :
  fixed_cr f0 f1 v (Z.lor (Z.land v f1) f0) [] [].
Proof. intros i Hi. rewrite Z.lor_spec, Z.land_spec. simpl. btauto. Qed.

Lemma testbit_not64_two j k i :
  0 <= j < 64 -> 0 <= k < 64 -> 0 <= i < 64 ->
  Z.testbit (not64 (Z.lor (Z.shiftl 1 j) (Z.shiftl 1 k))) i = negb ((i =? j) || ((i =? k) || false)).
Proof.
  intros Hj Hk Hi. unfold not64. rewrite Z.lxor_spec, Z.lor_spec, !testbit_bit, testbit_ones by lia.
  replace ((0 <=? i) && (i <? 64)) with true by lia. btauto.
Qed.

Lemma fixed_cr0 f0 f1 v :
  fixed_cr f0 f1 v
    (Z.lor (Z.land v (Z.land f1 (not64 (Z.lor CR0_NOT_WRITE_THROUGH CR0_CACHE_DISABLE))))
       (Z.land f0 (not64 (Z.lor CR0_PAGING CR0_PROTECTED_MODE_ENABLE)))) [31; 0] [29; 30].
Proof.
  intros i Hi. unfold CR0_NOT_WRITE_THROUGH, CR0_CACHE_DISABLE, CR0_PAGING, CR0_PROTECTED_MODE_ENABLE.
  rewrite Z.lor_spec, !Z.land_spec, !testbit_not64_two by lia. cbn [existsb]. btauto.
Qed.

Lemma control_value_bits old set clear i :
  0 <= i < 32 -> Z.testbit (control_value old set clear) i = Z.testbit old i && negb (Z.testbit clear i) || Z.testbit set i.
Proof.
  intros Hi. unfold control_value, notw, wrap. rewrite Z.lor_spec, Z.land_spec, Z.lxor_spec, testbit_ones, Z.mod_pow2_bits_low by lia.
  replace ((0 <=? i) && (i <? 32)) with true by lia. by rewrite xorb_true_r.
Qed.

Lemma secondary_bits : has_bits secondary_controls [1; 7].
Proof. unfold secondary_controls. destruct has_rdtscp, has_invpcid, has_xsaves_xrstors; repeat constructor. Qed.

(** The value of one field after the writes of the set-up. *)
Ltac field_value Hw := rewrite ?(written_val _ _ _ _ Hw); reflexivity.

Lemma setup_guest_starts a l root c h0 h :
  written (setup_writes a l root c) h0 h -> guest_starts c l h.
Proof.
  intros Hw. split.
  - split_and!; field_value Hw.
  - field_value Hw.
  - rewrite (written_val _ _ _ _ Hw). apply fixed_cr0.
  - rewrite (written_val _ _ _ _ Hw). apply fixed_cr_plain.
  - unfold guest_cr4.
    assert (fval h F_CR4_MASK = 0) as -> by field_value Hw.
    rewrite Z.land_0_r, Z.lor_0_l. unfold not64. rewrite Z.lxor_0_l. rewrite Z.land_ones by lia.
    apply Z.mod_small. apply (vmcs_val_range (F64Guest VmcsField64Guest.CR4) h), Hw.
  - repeat (apply Forall_cons; split); [..|by apply Forall_nil];
      rewrite ?(written_val _ _ _ _ Hw); match goal with |- _ = ?s =>
        transitivity (mkSegment (selector s) (base s) (limit s) (access_rights s)); [reflexivity | by destruct s] end.
  - split; field_value Hw.
Qed.

Lemma setup_host_returns a l root c h0 h :
  0 <= root < 2 ^ 52 -> root mod 4096 = 0 ->
  written (setup_writes a l root c) h0 h -> host_returns a c root h.
Proof.
  intros Hr Hal Hw.
  assert (forall f m set clear, (f, m, set, clear) ∈ control_words ->
    fval h (F32Control f) = control_value (msr_read m c) set clear) as Hctl.
  { intros f m set clear Hin. unfold control_words in Hin. rewrite !elem_of_cons in Hin.
    rewrite (written_val _ _ _ _ Hw).
    destruct Hin as [E|[E|[E|[E|[E|E]]]]]; [injection E as -> -> -> ->; reflexivity..|by apply not_elem_of_nil in E]. }
  assert (forall f m set clear i, (f, m, set, clear) ∈ control_words -> 0 <= i < 32 -> Z.testbit set i = true ->
    Z.testbit (fval h (F32Control f)) i = true) as Hset.
  { intros f m set clear i Hin Hi Hb. rewrite (Hctl _ _ _ _ Hin), control_value_bits, Hb by done. btauto. }
  pose proof secondary_bits as Hsec. unfold has_bits in Hsec. rewrite !Forall_cons in Hsec. destruct Hsec as (Hs1 & Hs7 & _).
  split; try (field_value Hw || (split_and!; field_value Hw)).
  - rewrite (written_val _ _ _ _ Hw). change (EPTPointer_from_table_phys root = Z.lor root 0x5e).
    rewrite eptp_value by done. replace root with (Z.shiftl (root / 2 ^ 12) 12) at 2
      by (rewrite Z.shiftl_mul_pow2 by lia; euclid).
    rewrite Z.lor_comm, lor_concat by lia. done.
  - repeat (apply Forall_cons; split); [..|by apply Forall_nil];
      (eapply Hset; [by apply list_elem_of_here|lia|reflexivity]).
  - split; (repeat (apply Forall_cons; split); [..|by apply Forall_nil]).
    1-2: eapply Hset; [by apply list_elem_of_further, list_elem_of_here|lia|reflexivity].
    all: erewrite Hctl by (by apply list_elem_of_further, list_elem_of_here); rewrite control_value_bits by lia.
    all: match goal with |- _ && negb ?x || ?y = false => replace x with true by reflexivity;
           replace y with false by reflexivity end; btauto.
  - repeat (apply Forall_cons; split); [..|by apply Forall_nil];
      (eapply Hset; [by do 2 apply list_elem_of_further; apply list_elem_of_here|lia|done]).
  - repeat (apply Forall_cons; split); [..|by apply Forall_nil];
      (eapply Hset; [by do 3 apply list_elem_of_further; apply list_elem_of_here|lia|reflexivity]).
  - repeat (apply Forall_cons; split); [..|by apply Forall_nil];
      (eapply Hset; [by do 4 apply list_elem_of_further; apply list_elem_of_here|lia|reflexivity]).
Qed.

(** C26. [vmcs_setup]: when the processor accepts the region, every VMWRITE
    succeeds and no assertion fails; the guest starts with the registers of
    Linux under CR0 and CR4 legal for VMX operation, a VM exit comes back to
    [vmx_exit] on the host state of this processor, translation goes through
    the EPT of the cell, and the control words request what the hypervisor
    relies on. CR4 is not shadowed: the guest reads VMXE as set. *)
Theorem vmcs_setup_starts a paddr l root c h :
  region_ok paddr h -> cpu_ok c -> context_ok l -> addrs_ok a -> 0 <= root < 2 ^ 52 -> root mod 4096 = 0 ->
  exists h', vmcs_setup a paddr l root (c, h) = (Ok tt, (c, h')) /\ vmcs_current h' /\
    guest_starts c l h' /\ host_returns a c root h'.
Proof.
  intros Hp Hcpu Hl Ha Hr Hal. destruct (vmcs_setup_ok a paddr l root c h Hp Hcpu Hl Ha Hr Hal) as (h0 & h' & E & _ & Hw).
  exists h'. split; [exact E|]. split; [apply Hw|]. split.
  - exact (setup_guest_starts a l root c h0 h' Hw).
  - exact (setup_host_returns a l root c h0 h' Hr Hal Hw).
Qed.

(** The CR4 the guest sees: after [set_cr] the value read back is the one
    written plus VMXE, whatever bits the processor forces, as long as the mask
    that [set_cr] installs is in place. *)
Theorem intel_cr4_shadow E val c h :
  vmcs_current h -> cpu_ok c -> in_range 64 val ->
  exists h', intel_set_cr (E := E) 4 val (c, h) = (Ok tt, (c, h')) /\
    intel_cr (E := E) 4 (c, h') = (Ok (Z.lor val CR4_VIRTUAL_MACHINE_EXTENSIONS), (c, h')).
Proof.
  intros Hc [Hm _ _] Hv.
  destruct (expect_write_ok E (set_cr4_fields c val) c h Hc) as (h' & Ew & Hw).
  { unfold writable, set_cr4_fields. repeat writable_step. }
  exists h'. split; [unfold intel_set_cr; rewrite bind_gets; exact Ew|].
  rewrite intel_cr4_ok by apply Hw. do 2 f_equal. unfold guest_cr4. rewrite !(written_val _ _ _ _ Hw).
  pose proof (Hm IA32_VMX_CR4_FIXED1) as H1. pose proof (Hm IA32_VMX_CR4_FIXED0) as H0.
  unfold final, set_cr4_fields. cbn [fold_left field_code Z.eqb Pos.eqb F_CR4_SHADOW F_CR4_MASK F_CR4
    VmcsField64Control.code VmcsField64Guest.code].
  set (v := Z.lor val CR4_VIRTUAL_MACHINE_EXTENSIONS).
  assert (in_range 64 v) as Hvr by (unfold v; auto with rvm_range).
  apply Z.bits_inj'. intros i Hi. unfold not64.
  rewrite !Z.lor_spec, !Z.land_spec, !Z.lxor_spec, !Z.lor_spec, !Z.lxor_spec, !Z.land_spec, testbit_ones by lia.
  replace (0 <=? i) with true by lia. cbn [andb]. destruct (Z.ltb_spec i 64); [btauto|].
  rewrite !(in_range_bits 64 _ i) by (done || lia). btauto.
Qed.
End Setup.

(** ** Linux comes back *)
Section Round.
Context {bf : BitField} {xr : X86Regs} {xrl : X86RegsLaws} {xd : X86Desc} {rc : RawCpuid}.
Context {H : Type} {hw : VmxHw H} {hwl : VmxHwLaws H}.

(** The assignments of [load_vmcs_guest] on the fields of a VMCS. *)
Definition run_steps (steps : list LoadStep) (h : H) (s : Cpu * LinuxContext) : option (Cpu * LinuxContext) :=
  fold_left (fun o '(f, g) => match o with Some s => g (fval h f) s | None => None end) steps (Some s).

Ltac field_value Hw := rewrite ?(written_val _ _ _ _ Hw); reflexivity.

Lemma run_steps_none steps (h : H) :
  fold_left (fun o '((f, g) : LoadStep) => match o with Some s => g (fval h f) s | None => None end) steps None = None.
Proof. by induction steps as [|[f g] steps IH]. Qed.

Lemma load_all_ok steps c v h l c' l' :
  vmcs_current h -> run_steps steps h (c, l) = Some (c', l') ->
  load_all steps ((c, (v, h)), l) = (Ok tt, ((c', (v, h)), l')).
Proof.
  intros Hc. revert c l. induction steps as [|[f g] steps IH]; intros c l Hrun.
  - by injection Hrun as <- <-.
  - cbn [load_all]. rewrite (bind_ok _ _ _ (fval h f) ((c, (v, h)), l)).
    2: { unfold vmx_exit_, vtry. cbn [fst snd]. by rewrite field_read_ok. }
    unfold run_steps in Hrun. cbn [fold_left] in Hrun.
    destruct (g (fval h f) (c, l)) as [[c1 l1]|] eqn:Hg; [|by rewrite run_steps_none in Hrun].
    rewrite (bind_ok _ _ _ tt ((c1, (v, h)), l1)); [by apply IH|]. cbn [fst snd]. by rewrite Hg.
Qed.

(** What survives the way through the VMCS: control registers that are legal
    for VMX operation as they are, and tables at canonical addresses. *)
Record round_ok (c : Cpu) (l : LinuxContext) : Prop := {
  ro_gdt : canonical (dt_base (l_gdt l)) /\ in_range 16 (dt_limit (l_gdt l));
  ro_idt : canonical (dt_base (l_idt l)) /\ in_range 16 (dt_limit (l_idt l));
  ro_cr0 : fixed_cr (msr_read IA32_VMX_CR0_FIXED0 c) (msr_read IA32_VMX_CR0_FIXED1 c) (l_cr0 l) (l_cr0 l) [31; 0] [29; 30] /\
           contains cr0_all (l_cr0 l) = true;
  ro_cr4 : let val := Z.lor (l_cr4 l) CR4_VIRTUAL_MACHINE_EXTENSIONS in
           fixed_cr (msr_read IA32_VMX_CR4_FIXED0 c) (msr_read IA32_VMX_CR4_FIXED1 c) val val [] [] /\
           contains cr4_all val = true /\ Z.testbit (l_cr4 l) 13 = false;
}.

(** The fields of the context that a VM exit brings back. *)
Definition intel_exit_fields (l : LinuxContext) :=
  ((l_rip l, l_rsp l, l_cr0 l, l_cr3 l, l_cr4 l),
   (selector (l_es l), selector (l_cs l), selector (l_ss l), selector (l_ds l), selector (l_fs l),
    selector (l_gs l), selector (l_tss l)),
   (base (l_fs l), base (l_gs l), l_gdt l, l_idt l)).

Lemma fixed_cr_eq f0 f1 v x y free off :
  in_range 64 x -> in_range 64 y -> fixed_cr f0 f1 v x free off -> fixed_cr f0 f1 v y free off -> x = y.
Proof.
  intros Hx Hy Fx Fy. apply Z.bits_inj'. intros i Hi. destruct (Z.ltb_spec i 64).
  - by rewrite Fx, Fy.
  - by rewrite !(in_range_bits 64 _ i) by (done || lia).
Qed.

Lemma remove_vmxe x :
  in_range 64 x -> Z.testbit x 13 = false ->
  Z.land (Z.lor x CR4_VIRTUAL_MACHINE_EXTENSIONS) (not64 CR4_VIRTUAL_MACHINE_EXTENSIONS) = x.
Proof.
  intros Hx Hb. unfold CR4_VIRTUAL_MACHINE_EXTENSIONS. apply Z.bits_inj'. intros i Hi.
  rewrite Z.land_spec, Z.lor_spec, testbit_bit by lia. destruct (Z.ltb_spec i 64).
  - rewrite testbit_not64_bit by lia. destruct (Z.eqb_spec i 13) as [->|]; [by rewrite Hb|]. btauto.
  - rewrite (in_range_bits 64 x i) by (done || lia). replace (i =? 13) with false by lia. done.
Qed.

Section Values.
Import VmcsField64Guest VmcsField16Guest VmcsField32Guest.

Lemma run_steps_app (l1 l2 : list LoadStep) (h : H) s s1 : run_steps l1 h s = Some s1 -> run_steps (l1 ++ l2) h s = run_steps l2 h s1.
Proof. intros H1. unfold run_steps. etransitivity; [apply fold_left_app|]. by apply (f_equal (fun o => fold_left _ l2 o)). Qed.

(** The context and the processor after the assignments. *)
Definition core_context (h : H) (l : LinuxContext) : LinuxContext :=
  with_segs (with_selector (fval h (F16Guest ES_SELECTOR)) (l_es l)) (with_selector (fval h (F16Guest CS_SELECTOR)) (l_cs l))
    (with_selector (fval h (F16Guest SS_SELECTOR)) (l_ss l)) (with_selector (fval h (F16Guest DS_SELECTOR)) (l_ds l))
    (with_base (fval h (F64Guest FS_BASE)) (with_selector (fval h (F16Guest FS_SELECTOR)) (l_fs l)))
    (with_base (fval h (F64Guest GS_BASE)) (with_selector (fval h (F16Guest GS_SELECTOR)) (l_gs l)))
    (with_selector (fval h (F16Guest TR_SELECTOR)) (l_tss l))
    (with_core (fval h (F64Guest RIP)) (fval h (F64Guest RSP)) (truncate cr0_all (fval h (F64Guest CR0)))
      (fval h (F64Guest CR3))
      (Z.land (truncate cr4_all (fval h (F64Guest CR4))) (not64 CR4_VIRTUAL_MACHINE_EXTENSIONS)) l).

Definition guest_context (h : H) (l : LinuxContext) : LinuxContext :=
  with_tables (mkDtp (wrap 16 (fval h (F32Guest GDTR_LIMIT))) (fval h (F64Guest GDTR_BASE)))
    (mkDtp (wrap 16 (fval h (F32Guest IDTR_LIMIT))) (fval h (F64Guest IDTR_BASE))) (core_context h l).

Definition sysenter_loaded (h : H) (c : Cpu) : Cpu :=
  msr_write IA32_SYSENTER_EIP (fval h (F64Guest SYSENTER_EIP))
    (msr_write IA32_SYSENTER_ESP (fval h (F64Guest SYSENTER_ESP))
      (msr_write IA32_SYSENTER_CS (fval h (F32Guest SYSENTER_CS)) c)).

Lemma run_core_steps h c l : run_steps (take 14 load_steps) h (c, l) = Some (c, core_context h l).
Proof.
  destruct l as [x1 x2 x3 x4 x5 x6 x7 x8 x9 x10 x11 x12 x13 x14 x15 x16 x17 x18 x19 x20 x21 x22 x23 x24 x25 x26 x27 x28].
  lazy beta iota delta [run_steps take load_steps fold_left to_linux fst snd core_context with_core with_segs
    l_rsp l_rip l_r15 l_r14 l_r13 l_r12 l_rbx l_rbp l_es l_cs l_ss l_ds l_fs l_gs l_tss l_gdt l_idt l_cr0 l_cr3 l_cr4
    l_efer l_star l_lstar l_cstar l_fmask l_kernel_gsbase l_pat l_mtrr_def_type]. reflexivity.
Qed.

Lemma run_table_steps h c l :
  canonical (fval h (F64Guest GDTR_BASE)) -> canonical (fval h (F64Guest IDTR_BASE)) ->
  run_steps (take 4 (drop 14 load_steps)) h (c, l) = Some (c,
    with_tables (mkDtp (wrap 16 (fval h (F32Guest GDTR_LIMIT))) (fval h (F64Guest GDTR_BASE)))
      (mkDtp (wrap 16 (fval h (F32Guest IDTR_LIMIT))) (fval h (F64Guest IDTR_BASE))) l).
Proof.
  intros Hg Hi. unfold run_steps, load_steps, to_base. cbn [take drop fold_left to_linux fst snd].
  by rewrite !virt_addr_new_spec.
Qed.

(** The steps on a VMCS whose tables are at canonical addresses. *)
Lemma run_all_steps h c l :
  canonical (fval h (F64Guest GDTR_BASE)) -> canonical (fval h (F64Guest IDTR_BASE)) ->
  run_steps load_steps h (c, l) = Some (sysenter_loaded h c, guest_context h l).
Proof.
  intros Hg Hi. change load_steps with (take 14 load_steps ++ take 4 (drop 14 load_steps) ++ drop 18 load_steps).
  by rewrite (run_steps_app _ _ _ _ _ (run_core_steps h c l)), (run_steps_app _ _ _ _ _ (run_table_steps h c _ Hg Hi)).
Qed.

Lemma sysenter_loaded_msrs h c :
  msr_read IA32_SYSENTER_CS (sysenter_loaded h c) = fval h (F32Guest SYSENTER_CS) /\
  msr_read IA32_SYSENTER_ESP (sysenter_loaded h c) = fval h (F64Guest SYSENTER_ESP) /\
  msr_read IA32_SYSENTER_EIP (sysenter_loaded h c) = fval h (F64Guest SYSENTER_EIP).
Proof. unfold sysenter_loaded. split_and!; by autorewrite with rvm_msr. Qed.

Lemma guest_context_fields h l :
  intel_exit_fields (guest_context h l) =
    ((fval h (F64Guest RIP), fval h (F64Guest RSP), truncate cr0_all (fval h (F64Guest CR0)), fval h (F64Guest CR3),
      Z.land (truncate cr4_all (fval h (F64Guest CR4))) (not64 CR4_VIRTUAL_MACHINE_EXTENSIONS)),
     (fval h (F16Guest ES_SELECTOR), fval h (F16Guest CS_SELECTOR), fval h (F16Guest SS_SELECTOR),
      fval h (F16Guest DS_SELECTOR), fval h (F16Guest FS_SELECTOR), fval h (F16Guest GS_SELECTOR),
      fval h (F16Guest TR_SELECTOR)),
     (fval h (F64Guest FS_BASE), fval h (F64Guest GS_BASE),
      mkDtp (wrap 16 (fval h (F32Guest GDTR_LIMIT))) (fval h (F64Guest GDTR_BASE)),
      mkDtp (wrap 16 (fval h (F32Guest IDTR_LIMIT))) (fval h (F64Guest IDTR_BASE)))).
Proof. reflexivity. Qed.
End Values.

(** The round trip through the VMCS: if the control registers of Linux are
    legal for VMX operation and the guest has not run, [load_vmcs_guest] gives
    back its instruction and stack pointers, control registers (without VMXE),
    selectors, segment bases and descriptor tables, and leaves the SYSENTER
    registers of the processor as they were. *)
Theorem intel_guest_round a paddr l root c h v c0 l0 :
  region_ok paddr h -> cpu_ok c -> context_ok l -> addrs_ok a -> 0 <= root < 2 ^ 52 -> root mod 4096 = 0 ->
  round_ok c l ->
  exists h', vmcs_setup a paddr l root (c, h) = (Ok tt, (c, h')) /\
  exists c' l', load_vmcs_guest ((c0, (v, h')), l0) = (Ok tt, ((c', (v, h')), l')) /\
    intel_exit_fields l' = intel_exit_fields l /\
    msr_read IA32_SYSENTER_CS c' = wrap 32 (msr_read IA32_SYSENTER_CS c) /\
    msr_read IA32_SYSENTER_ESP c' = msr_read IA32_SYSENTER_ESP c /\
    msr_read IA32_SYSENTER_EIP c' = msr_read IA32_SYSENTER_EIP c.
Proof.
  intros Hp Hcpu Hl Ha Hr Hal [[Hg Hgl] [Hi Hil] [F0 A0] (F4 & A4 & V4)].
  destruct (vmcs_setup_ok a paddr l root c h Hp Hcpu Hl Ha Hr Hal) as (h0 & h' & E & _ & Hw).
  exists h'. split; [exact E|]. pose proof (setup_guest_starts a l root c h0 h' Hw) as [_ _ G0 G4 _ _ _].
  assert (fval h' (F64Guest VmcsField64Guest.GDTR_BASE) = dt_base (l_gdt l)) as Egb by field_value Hw.
  assert (fval h' (F64Guest VmcsField64Guest.IDTR_BASE) = dt_base (l_idt l)) as Eib by field_value Hw.
  exists (sysenter_loaded h' c0), (guest_context h' l0). split.
  { apply load_all_ok; [apply Hw|]. apply run_all_steps; [by rewrite Egb|by rewrite Eib]. }
  destruct (sysenter_loaded_msrs h' c0) as (Hm1 & Hm2 & Hm3).
  destruct Hl as [_ Hregs _ _]. rewrite !Forall_cons in Hregs. destruct Hregs as (_ & _ & R0 & _ & R4 & _).
  apply (fixed_cr_eq _ _ _ _ (l_cr0 l)) in G0; [|apply (fval_range (F64Guest _)), Hw|done|done].
  apply (fixed_cr_eq _ _ _ _ (Z.lor (l_cr4 l) CR4_VIRTUAL_MACHINE_EXTENSIONS)) in G4;
    [|apply (fval_range (F64Guest _)), Hw|by auto with rvm_range|done].
  split; [|rewrite Hm1, Hm2, Hm3; split_and!; field_value Hw].
  rewrite guest_context_fields, Egb, Eib, G0, G4, !contains_truncate_id, remove_vmxe by done. unfold intel_exit_fields.
  rewrite !(written_val _ _ _ _ Hw).
  transitivity ((l_rip l, l_rsp l, l_cr0 l, l_cr3 l, l_cr4 l),
   (selector (l_es l), selector (l_cs l), selector (l_ss l), selector (l_ds l), selector (l_fs l),
    selector (l_gs l), selector (l_tss l)),
   (base (l_fs l), base (l_gs l), mkDtp (wrap 16 (dt_limit (l_gdt l))) (dt_base (l_gdt l)),
    mkDtp (wrap 16 (dt_limit (l_idt l))) (dt_base (l_idt l)))); [reflexivity|].
  rewrite !wrap_small by done. by destruct (l_gdt l), (l_idt l).
Qed.
End Round.

(** ** Exit handling *)
Section Exits.
Context {bf : BitField} {xr : X86Regs} {xrl : X86RegsLaws} {xd : X86Desc} {rc : RawCpuid} {rcl : RawCpuidLaws}.
Context {H : Type} {hw : VmxHw H} {hwl : VmxHwLaws H}.
Context (hw_seg_base : Cpu -> Z -> Z).

Abbreviation W := (World (IntelVcpu * H)).
Definition wvmx (w : W) : H := snd (vcpu (w_percpu w)).

Lemma on_vmx_ok {A} (m : M H VmFail A) (w : W) a : m (wvmx w) = (Ok a, wvmx w) -> on_vmx m w = (Ok a, w).
Proof.
  intros Hm. apply on_vcpu_read. unfold wst, wvmx in *. destruct (vcpu (w_percpu w)) as [v h].
  by apply on_vmcs_ok, vmx_ok.
Qed.

(** The exits with no handler of their own. *)
Definition unhandled (r : VmxExitReason.t) : bool :=
  match r with
  | VmxExitReason.EXCEPTION_NMI | VmxExitReason.CPUID | VmxExitReason.VMCALL | VmxExitReason.MSR_READ
  | VmxExitReason.MSR_WRITE | VmxExitReason.TRIPLE_FAULT => false
  | _ => true
  end.

Definition F_REASON : Field := F32ReadOnly VmcsField32ReadOnly.VM_EXIT_REASON.

Lemma dispatch_unhandled r (w : W) :
  wwf w -> unhandled r = true -> intel_dispatch hw_seg_base r w = (Err (Fail ENOSYS), w).
Proof.
  intros Hw Hu. assert (handle_ept_violation w = (Err (Fail ENOSYS), w)) as He.
  { unfold handle_ept_violation. erewrite bind_ok; [reflexivity|]. apply on_vmx_ok. unfold EptViolationInfo_new.
    by rewrite !(bind_ok _ _ _ _ _ (field_read_ok _ _ Hw)). }
  destruct r; try discriminate Hu; done.
Qed.

Lemma exit_info_known r (w : W) :
  wwf w -> VmxExitReason.try_from (get_bits (fval (wvmx w) F_REASON) 0 16) = Some r ->
  exists len rip, on_vmx VmExitInfo_new w =
    (Ok (mkVmExitInfo (Z.testbit (fval (wvmx w) F_REASON) 31) r len rip), w).
Proof.
  intros Hw Hr. pose proof (fval_range F_REASON (wvmx w) Hw) as [Hp _]. eexists _, _. apply on_vmx_ok.
  unfold VmExitInfo_new. rewrite (bind_ok _ _ _ _ _ (field_read_ok F_REASON (wvmx w) Hw)). fold (fval (wvmx w) F_REASON).
  unfold reason_of. rewrite bf_get_bits_spec, Hr, bf_get_bit_spec by (done || lia).
  by rewrite !(bind_ok _ _ _ _ _ (field_read_ok _ _ Hw)).
Qed.

Lemma exit_info_unknown (w : W) :
  wwf w -> VmxExitReason.try_from (get_bits (fval (wvmx w) F_REASON) 0 16) = None ->
  fst (on_vmx VmExitInfo_new w) = Panic.
Proof.
  intros Hw Hr. pose proof (fval_range F_REASON _ Hw) as [Hp _]. unfold on_vmx, on_vcpu.
  unfold wwf, wst, wvmx in *. destruct (vcpu (w_percpu w)) as [v h]. unfold on_vmcs, zoom, vmx, vtry. cbn [fst snd] in *.
  unfold VmExitInfo_new. rewrite (bind_ok _ _ _ _ _ (field_read_ok F_REASON h Hw)). fold (fval h F_REASON).
  unfold reason_of. rewrite bf_get_bits_spec by (done || lia). by rewrite Hr.
Qed.

Abbreviation exits := (vmexit_handler (intel_handle_exit hw_seg_base)).

(** The handler of a VM exit is the one of its reason. *)
Lemma exit_dispatches r (w : W) :
  wwf w -> VmxExitReason.try_from (get_bits (fval (wvmx w) F_REASON) 0 16) = Some r ->
  intel_handle_exit hw_seg_base w = if Z.testbit (fval (wvmx w) F_REASON) 31 then (Panic, w) else intel_dispatch hw_seg_base r w.
Proof.
  intros Hw Hr. destruct (exit_info_known r w Hw Hr) as (len & rip & Hi). unfold intel_handle_exit.
  rewrite (bind_ok _ _ _ _ _ Hi). cbn [entry_failure exit_reason]. by destruct (Z.testbit _ 31).
Qed.

Lemma exits_ok (w w' : W) : intel_handle_exit hw_seg_base w = (Ok tt, w') -> exits w = (Ok tt, w').
Proof. intros Hk. rewrite vmexit_passes; by rewrite Hk. Qed.

(** An exception of the guest is logged, an NMI passed to the handler of the
    hypervisor, which logs it. *)
Lemma exception_exit (w : W) : wwf w -> handle_exception_nmi w = (Ok tt, w).
Proof.
  intros Hw. unfold handle_exception_nmi. erewrite bind_ok; [|apply on_vmx_ok; unfold ExitInterruptInfo_new;
    by rewrite (bind_ok _ _ _ _ _ (field_read_ok _ _ Hw))].
  cbn [ei_vector]. by destruct (_ =? _).
Qed.

(** The hypercall of a guest, as the exit handler ends it; [w1] is the state
    after the instruction. *)
Definition vmcall_ends (w w1 : W) (res : outcome Esc unit * W) : Prop :=
  if negb (wrap 32 (rax (wregs w)) =? 0) then res = (Ok tt, w1)
  else if negb (gv_priv (wview w)) then exists w', res = (Ok tt, w') /\ done_with w w' (wregs w) (with_gp (with_rip 3 (wview w)))
  else if wrap 32 (w_try_disable w + 1) <? w_activated w then fst res = Diverge
  else
    match intel_exit (wst (before_exit w1), linux (w_percpu w)) with
    | (Err e, _) => fst res = Ok tt /\ rax (wregs (snd res)) = wrap 64 (- errno e) /\ w_activated (snd res) = wrap 32 (w_activated w - 1)
    | (Ok _, ((c, v), l)) =>
        match restore hw_seg_base (E := HvErrorNum) l c with
        | (Ok _, c') => fst res = Err BackInLinux /\ state (w_percpu (snd res)) = HvDisabled /\ linux (w_percpu (snd res)) = l /\
            w_cpu (snd res) = msr_write IA32_GS_BASE (base (l_gs l)) c' /\ w_activated (snd res) = wrap 32 (w_activated w - 1)
        | _ => True
        end
    | _ => True
    end.

Lemma vmcall_exit (w : W) : wwf w -> intel_handle_exit hw_seg_base w = handle_hypercall hw_seg_base w ->
  exists w1, done_with w w1 (wregs w) (with_rip 3 (wview w)) /\ vmcall_ends w w1 (exits w).
Proof.
  intros Hw Hk. destruct (hypercall_exit hw_seg_base w Hw) as (w1 & D1 & Hh). exists w1. split; [exact D1|].
  pose proof D1 as (W1 & R1 & V1 & S1). unfold same_rest in S1. destruct S1 as (_ & _ & _ & Hl & Ha & Ht).
  pose proof (hypercall_cases hw_seg_base w1 (wrap 32 (rax (wregs w))) (rdi (wregs w)) (rsi (wregs w)) W1) as Hc.
  cbv zeta in Hc. rewrite <- Hh, V1, Ha, Ht in Hc. change (gv_priv (with_rip 3 (wview w))) with (gv_priv (wview w)) in Hc.
  rewrite <- Hk in Hc. unfold vmcall_ends.
  destruct (negb (wrap 32 (rax (wregs w)) =? 0)); [by apply exits_ok|].
  destruct (negb (gv_priv (wview w))).
  { destruct Hc as (w' & Hc & D). exists w'. split; [by apply exits_ok|]. rewrite R1 in D. by apply (done_with_trans w w1 w' _ _ _ _ D1). }
  destruct (wrap 32 (w_try_disable w + 1) <? w_activated w); [by rewrite vmexit_passes; rewrite Hc|].
  change (linux (w_percpu (before_exit w1))) with (linux (w_percpu w1)) in Hc. rewrite Hl in Hc.
  change (vcpu_exit (VcpuOps := IntelOps)) with (intel_exit (H := H)) in Hc.
  destruct (intel_exit _) as [[[]|e| |] [[c v] l]]; [|rewrite vmexit_passes; destruct Hc as (-> & ?); done|done..].
  destruct (restore _ _ _) as [[[]|e| |] c']; try done. rewrite vmexit_passes; destruct Hc as (-> & ?); done.
Qed.

(** C27. Intel VM exits, every one by the number of its reason. A reason the enum
    does not know and a failed VM entry stop the hypervisor. An exception or
    NMI (0) leaves everything as it is; a triple fault (2) gives the guest a
    #GP(0); CPUID (10) answers as [cpuid_exit] says and skips two bytes; VMCALL
    (18) skips three bytes and is ignored, refused with a #GP(0) outside ring
    0, waits for the other processors, or leaves for Linux; RDMSR (31) reads 0
    and WRMSR (32) is dropped, both skipping two bytes; any other exit (an EPT
    violation, a VMX instruction) resumes the guest at the same instruction
    with a #GP(0) pending and its registers kept. *)
Theorem intel_exit_branches (w : W) :
  wwf w ->
  let full := fval (wvmx w) F_REASON in
  let reason := get_bits full 0 16 in
  let r := wregs w in
  let resumes r' g' := exists w', exits w = (Ok tt, w') /\ done_with w w' r' g' in
  match VmxExitReason.try_from reason with
  | None => fst (exits w) = Panic
  | Some _ =>
      if Z.testbit full 31 then fst (exits w) = Panic
      else if reason =? 0 then exits w = (Ok tt, w)
      else if reason =? 2 then resumes r (with_gp (wview w))
      else if reason =? 10 then
        let leaf := wrap 32 (rax r) in
        let '(ha, hb, hc, hd) := cpuid_raw leaf (wrap 32 (rcx r)) in
        exists a b c d, resumes (with_abcd a b c d r) (with_rip 2 (wview w)) /\
          if leaf =? 0x40000000 then (a, b, c, d) = (0x40000001, 0x524d5652, 0x56524d56, 0x4d56524d)
          else if leaf =? 0x40000001 then (a, b, c, d) = (0, 0, 0, 0)
          else a = ha /\ b = hb /\ d = hd /\
               forall i, 0 <= i < 32 -> Z.testbit c i = guest_ecx leaf (gv_cr4 (wview w)) hc i
      else if reason =? 18 then exists w1, done_with w w1 r (with_rip 3 (wview w)) /\ vmcall_ends w w1 (exits w)
      else if reason =? 31 then resumes (with_abcd 0 (rbx r) (rcx r) 0 r) (with_rip 2 (wview w))
      else if reason =? 32 then resumes r (with_rip 2 (wview w))
      else resumes r (with_gp (wview w))
  end.
Proof.
  intros Hw full reason r resumes. destruct (VmxExitReason.try_from reason) as [x|] eqn:Hr.
  2: { pose proof (exit_info_unknown w Hw Hr) as Hp. unfold vmexit_handler, bind at 1, attempt, intel_handle_exit, bind at 1.
       by destruct (on_vmx VmExitInfo_new w) as [[] w1]. }
  pose proof (exit_dispatches x w Hw Hr) as Hd. fold full in Hd.
  destruct (Z.testbit full 31); [by rewrite vmexit_passes; rewrite Hd|].
  assert (unhandled x = true -> resumes r (with_gp (wview w))) as Hun.
  { intros Hu. rewrite dispatch_unhandled in Hd by done. by apply (vmexit_fails _ w ENOSYS). }
  assert (forall r' g', (exists w', intel_dispatch hw_seg_base x w = (Ok tt, w') /\ done_with w w' r' g') -> resumes r' g') as Hres.
  { intros r' g' (w' & Hk & D). exists w'. split; [apply exits_ok; by rewrite Hd|done]. }
  apply exit_reason_decodes in Hr. rewrite <- Hr.
  destruct x; cbn [VmxExitReason.bits Z.eqb Pos.eqb]; try exact (Hun eq_refl).
  - apply exits_ok. rewrite Hd. by apply exception_exit.
  - apply Hres. exact (w_fault w Hw).
  - destruct (cpuid_raw _ _) as [[[ha hb] hc] hd] eqn:Hraw.
    destruct (cpuid_cases w ha hb hc hd Hw Hraw) as (w' & a & b & c & d & Hk & D & Hv).
    exists a, b, c, d. split; [|exact Hv]. apply Hres. exists w'. by split.
  - by apply vmcall_exit.
  - apply Hres. exact (proj1 (msr_exits_skip w Hw)).
  - apply Hres. exact (proj2 (msr_exits_skip w Hw)).
Qed.
End Exits.

(** ** Turning VMX on *)
Section New.
Context {A : Type} {ba : BitAlloc A} {bf : BitField} {xr : X86Regs} {xrl : X86RegsLaws} {xd : X86Desc} {rc : RawCpuid}.
Context {H : Type} {hw : VmxHw H} {hwl : VmxHwLaws H}.

Definition perf_off (c : Cpu) : Cpu :=
  if 0 <? perf_monitor_version_id then msr_write IA32_PERF_GLOBAL_CTRL 0 c else c.

Lemma fc_bit c k : 0 <= k <= 2 -> Z.testbit (FeatureControl_read c) k = Z.testbit (msr_read IA32_FEATURE_CONTROL c) k.
Proof.
  intros Hk. unfold FeatureControl_read, truncate. rewrite Z.land_spec.
  assert (Z.testbit FeatureControlFlags_all k = true) as ->; [|apply andb_true_r].
  assert (k = 0 \/ k = 1 \/ k = 2) as [->|[->| ->]] by lia; reflexivity.
Qed.

(** The processor when VMXON is due: VMX operation is permitted and locked. *)
Definition vmxon_permitted (c : Cpu) : Prop :=
  Z.testbit (msr_read IA32_FEATURE_CONTROL c) 0 = true /\ Z.testbit (msr_read IA32_FEATURE_CONTROL c) 2 = true.

Lemma enable_vmxon_ok c (h : H) (m : Machine A) :
  if Z.testbit (msr_read IA32_FEATURE_CONTROL c) 0 && negb (Z.testbit (msr_read IA32_FEATURE_CONTROL c) 2)
  then enable_vmxon ((c, h), m) = (Err ENODEV, ((c, h), m))
  else exists c', enable_vmxon ((c, h), m) = (Ok tt, ((c', h), m)) /\ vmxon_permitted c' /\
         (exists x, c' = with_msr x c) /\ (in_range 64 (msr_read IA32_FEATURE_CONTROL c) -> in_range 64 (msr_read IA32_FEATURE_CONTROL c')) /\
         forall r, r <> IA32_FEATURE_CONTROL -> msr_read r c' = msr_read r c.
Proof.
  unfold enable_vmxon. rewrite bind_gets. cbn [fst snd].
  unfold FC_LOCKED, FC_VMXON_ENABLED_OUTSIDE_SMX. rewrite !contains_bit, !fc_bit by lia.
  destruct (Z.testbit (msr_read IA32_FEATURE_CONTROL c) 0) eqn:H0; cbn [negb andb].
  - destruct (Z.testbit (msr_read IA32_FEATURE_CONTROL c) 2) eqn:H2; cbn [negb]; [|done].
    exists c. split_and!; try done. exists (c_msr c). by destruct c.
  - eexists. split; [reflexivity|]. unfold vmxon_permitted, FeatureControl_write. split_and!.
    + autorewrite with rvm_msr. rewrite !Z.lor_spec, !testbit_bit by lia. simpl. btauto.
    + autorewrite with rvm_msr. rewrite !Z.lor_spec, !testbit_bit by lia. simpl. btauto.
    + by eexists.
    + intros Hr. autorewrite with rvm_msr. unfold FeatureControl_read.
      unfold truncate. repeat apply in_range_lor; try (apply in_range_land; done || lia); done || lia.
    + intros r Hr. by rewrite msr_read_write_ne.
Qed.

Definition drop_frames (l : list Frame) (m : Machine A) : Machine A :=
  fold_left (fun m f => snd (Frame_drop (E := HvErrorNum) f m)) l m.

Lemma dropping_err {B} l (k : M (Cpu * H * Machine A) HvErrorNum B) s e s' :
  k s = (Err e, s') -> exists r, dropping l k s = (r, (fst s', drop_frames l (snd s'))) /\ r = Err e.
Proof.
  intros Hk. unfold dropping. rewrite Hk. clear Hk. revert s'. induction l as [|f l IH]; intros [x m]; [by eexists|].
  cbn [foldr]. destruct (IH (x, snd (Frame_drop (E := HvErrorNum) f m))) as (r & Hr & ->).
  exists (Err e). split; [|done]. cbn [fst snd] in *. erewrite bind_ok; [exact Hr|]. reflexivity.
Qed.

Lemma dropping_ok {B} l (k : M (Cpu * H * Machine A) HvErrorNum B) s b s' :
  k s = (Ok b, s') -> dropping l k s = (Ok b, s').
Proof. intros Hk. unfold dropping. by rewrite Hk. Qed.

(** The processor [c2] at VMXON, from [c]: only MSRs have changed. *)
Record vmxon_cpu (c c2 : Cpu) : Prop := {
  vc_permitted : vmxon_permitted c2;
  vc_regs : exists x, c2 = with_msr x c;
  vc_range : (forall r, in_range 64 (msr_read r c)) -> forall r, in_range 64 (msr_read r c2);
  vc_msr : forall r, r <> IA32_PERF_GLOBAL_CTRL -> r <> IA32_FEATURE_CONTROL -> msr_read r c2 = msr_read r c;
}.

Lemma vmxon_cpu_intro c c2 :
  vmxon_permitted c2 -> (exists x, c2 = with_msr x (perf_off c)) ->
  (in_range 64 (msr_read IA32_FEATURE_CONTROL (perf_off c)) -> in_range 64 (msr_read IA32_FEATURE_CONTROL c2)) ->
  (forall r, r <> IA32_FEATURE_CONTROL -> msr_read r c2 = msr_read r (perf_off c)) -> vmxon_cpu c c2.
Proof.
  intros Hp [x ->] Hfc Hm. assert (forall r, r <> IA32_PERF_GLOBAL_CTRL -> msr_read r (perf_off c) = msr_read r c) as Hperf.
  { intros r Hr. unfold perf_off. destruct (0 <? _); [|done]. by rewrite msr_read_write_ne. }
  split; [done| | |].
  - exists x. unfold perf_off. by destruct (0 <? _).
  - intros Hr r. assert (forall r, in_range 64 (msr_read r (perf_off c))) as Hr'.
    { intros i. unfold perf_off. destruct (0 <? _); [|done].
      destruct (decide (i = IA32_PERF_GLOBAL_CTRL)) as [->|Hi]; [by rewrite msr_read_write|by rewrite msr_read_write_ne]. }
    destruct (decide (r = IA32_FEATURE_CONTROL)) as [->|Hi]; [by apply Hfc|by rewrite Hm].
  - intros r H1 H2. by rewrite Hm, Hperf.
Qed.

Definition stops {E B} (o : outcome E B) : Prop := match o with Ok _ | Err _ => False | _ => True end.

Lemma bind_stops {S E B C} (k : M S E B) (f : B -> M S E C) s : stops (fst (k s)) -> stops (fst (bind k f s)).
Proof. unfold bind. by destruct (k s) as [[] ?]. Qed.

Lemma dropping_stops {B} l (k : M (Cpu * H * Machine A) HvErrorNum B) s : stops (fst (k s)) -> stops (fst (dropping l k s)).
Proof. unfold dropping. by destruct (k s) as [[] ?]. Qed.

(** [Vcpu::new], case by case. *)
Lemma intel_new_cases a this linux root c h (m : Machine A) :
  let res := intel_new a this linux root ((c, h), m) in
  let c1 := perf_off c in
  let fc := msr_read IA32_FEATURE_CONTROL c1 in
  let rev := revision_id (VmxBasic_read c1) in
  if negb has_vmx then res = (Err ENODEV, ((c, h), m))
  else if Z.testbit (l_cr4 linux) 13 then res = (Err EBUSY, ((c1, h), m))
  else if Z.testbit fc 0 && negb (Z.testbit fc 2) then res = (Err ENODEV, ((c1, h), m))
  else exists c2, vmxon_cpu c c2 /\
    match VmxRegion_new rev false m with
    | (Ok f1, m1) =>
        match VmxRegion_new rev false m1 with
        | (Ok f2, m2) =>
            let c3 := cr4_set host_cr4 (cr0_set HOST_CR0 c2) in
            match vmxon (start_paddr f1) h with
            | (Ok _, h1) =>
                match vmcs_setup a (start_paddr f2) linux root (c3, h1) with
                | (Ok _, s) => exists v, res = (Ok v, (s, m2)) /\ vmxon_region v = f1 /\ vmcs_region v = f2
                | (Err e, s) => res = (Err e, (s, drop_frames [f1; f2] m2))
                | _ => stops (fst res)
                end
            | (Err VmFailInvalid, h1) => res = (Err EIO, ((c3, h1), drop_frames [f2; f1] m2))
            | (Err VmFailValid, h1) =>
                match Vmcs_instruction_error h1 with
                | (Ok _, h2) => res = (Err EIO, ((c3, h2), drop_frames [f2; f1] m2))
                | _ => stops (fst res)
                end
            | _ => stops (fst res)
            end
        | (Err e, m2) => res = (Err e, ((c2, h), drop_frames [f1] m2))
        | _ => stops (fst res)
        end
    | (Err e, m1) => res = (Err e, ((c2, h), m1))
    | _ => stops (fst res)
    end.
Proof.
  cbv zeta. unfold intel_new, intel_check_hypervisor_feature. destruct has_vmx; cbn [negb]; [|done].
  rewrite bind_of_outcome. rewrite (bind_ok _ _ _ tt ((perf_off c, h), m)) by (unfold perf_off; by destruct (0 <? _)).
  assert (contains (l_cr4 linux) CR4_VIRTUAL_MACHINE_EXTENSIONS = Z.testbit (l_cr4 linux) 13) as ->
    by (by apply contains_bit).
  destruct (Z.testbit (l_cr4 linux) 13); [done|]. rewrite (bind_ok (ret tt) _ ((perf_off c, h), m) tt _ eq_refl).
  pose proof (enable_vmxon_ok (perf_off c) h m) as He.
  destruct (Z.testbit _ 0 && negb _); [by apply bind_err|]. destruct He as (c2 & He & Hp & Hx & Hfc & Hmsr).
  exists c2. split; [by apply vmxon_cpu_intro|]. rewrite (bind_ok _ _ _ _ _ He), bind_gets. cbn [fst].
  assert (VmxBasic_read c2 = VmxBasic_read (perf_off c)) as ->.
  { unfold VmxBasic_read. by rewrite Hmsr. }
  set (rev := revision_id _). destruct (VmxRegion_new rev false m) as [[f1|e| |] m1] eqn:E1.
  2: { apply bind_err. unfold on_mem, zoom. cbn [fst snd]. by rewrite E1. }
  2-3: apply bind_stops; unfold on_mem, zoom; cbn [fst snd]; by rewrite E1.
  rewrite (bind_ok _ _ _ f1 ((c2, h), m1)) by (unfold on_mem, zoom; cbn [fst snd]; by rewrite E1).
  destruct (VmxRegion_new rev false m1) as [[f2|e| |] m2] eqn:E2.
  2: { edestruct (dropping_err [f1] (on_mem (VmxRegion_new rev false)) ((c2, h), m1) e) as (r & Hd & ->);
         [unfold on_mem, zoom; cbn [fst snd]; by rewrite E2|]. exact (bind_err _ _ _ _ _ Hd). }
  2-3: apply bind_stops, dropping_stops; unfold on_mem, zoom; cbn [fst snd]; by rewrite E2.
  rewrite (bind_ok _ _ _ f2 ((c2, h), m2)) by (apply dropping_ok; unfold on_mem, zoom; cbn [fst snd]; by rewrite E2).
  unfold on_cpu. rewrite !bind_modify. cbn [fst snd]. set (c3 := cr4_set _ _).
  destruct (vmxon (start_paddr f1) h) as [[[]|[]| |] h1] eqn:E3.
  2: { destruct (Vmcs_instruction_error h1) as [[x|e| |] h2] eqn:E5.
       - edestruct (dropping_err [f2; f1] (on_ch (vmx (vmxon (start_paddr f1)))) ((c3, h), m2) EIO) as (r & Hd & ->);
           [unfold on_ch, zoom, vmx, vtry; cbn [fst snd]; rewrite E3; cbn [fst snd]; by rewrite E5|]. exact (bind_err _ _ _ _ _ Hd).
       - apply bind_stops, dropping_stops. unfold on_ch, zoom, vmx, vtry. cbn [fst snd]. rewrite E3; cbn [fst snd]; by rewrite E5.
       - apply bind_stops, dropping_stops. unfold on_ch, zoom, vmx, vtry. cbn [fst snd]. rewrite E3; cbn [fst snd]; by rewrite E5.
       - apply bind_stops, dropping_stops. unfold on_ch, zoom, vmx, vtry. cbn [fst snd]. rewrite E3; cbn [fst snd]; by rewrite E5. }
  2: { edestruct (dropping_err [f2; f1] (on_ch (vmx (vmxon (start_paddr f1)))) ((c3, h), m2) EIO) as (r & Hd & ->);
         [unfold on_ch, zoom, vmx, vtry; cbn [fst snd]; by rewrite E3|]. exact (bind_err _ _ _ _ _ Hd). }
  2-3: apply bind_stops, dropping_stops; unfold on_ch, zoom, vmx, vtry; cbn [fst snd]; by rewrite E3.
  rewrite (bind_ok _ _ _ tt ((c3, h1), m2))
    by (apply dropping_ok; unfold on_ch, zoom, vmx, vtry; cbn [fst snd]; by rewrite E3).
  destruct (vmcs_setup a (start_paddr f2) linux root (c3, h1)) as [[[]|e| |] s] eqn:E4.
  - eexists. rewrite (bind_ok _ _ _ tt (s, m2)); [by split|].
    apply dropping_ok. unfold on_ch, zoom. cbn [fst snd]. by rewrite E4.
  - edestruct (dropping_err [f1; f2] (on_ch (vmcs_setup a (start_paddr f2) linux root)) ((c3, h1), m2) e) as (r & Hd & ->);
      [unfold on_ch, zoom; cbn [fst snd]; by rewrite E4|]. exact (bind_err _ _ _ _ _ Hd).
  - apply bind_stops, dropping_stops. unfold on_ch, zoom. cbn [fst snd]. by rewrite E4.
  - apply bind_stops, dropping_stops. unfold on_ch, zoom. cbn [fst snd]. by rewrite E4.
Qed.
(** C28. [Vcpu::new] on every branch. No VMX, VMX already on, VMX locked off by
    the BIOS: an error before anything but the performance counters is
    touched. No free frame: the error of the allocator, with the first region
    given back. VMXON or the set-up of the VMCS fails: EIO or the error of the
    set-up, with both regions given back, in the second case while VMX stays
    on. Otherwise the vCPU owns two regions and VMXON was permitted. *)
Theorem intel_new_branches a this linux root c h (m : Machine A) :
  let res := intel_new a this linux root ((c, h), m) in
  let c1 := perf_off c in
  let fc := msr_read IA32_FEATURE_CONTROL c1 in
  let rev := revision_id (VmxBasic_read c1) in
  if negb has_vmx then res = (Err ENODEV, ((c, h), m))
  else if Z.testbit (l_cr4 linux) 13 then res = (Err EBUSY, ((c1, h), m))
  else if Z.testbit fc 0 && negb (Z.testbit fc 2) then res = (Err ENODEV, ((c1, h), m))
  else exists c2, vmxon_cpu c c2 /\
    match VmxRegion_new rev false m with
    | (Ok f1, m1) =>
        match VmxRegion_new rev false m1 with
        | (Ok f2, m2) =>
            let c3 := cr4_set host_cr4 (cr0_set HOST_CR0 c2) in
            match vmxon (start_paddr f1) h with
            | (Ok _, h1) =>
                match vmcs_setup a (start_paddr f2) linux root (c3, h1) with
                | (Ok _, s) => exists v, res = (Ok v, (s, m2)) /\ vmxon_region v = f1 /\ vmcs_region v = f2
                | (Err e, s) => res = (Err e, (s, drop_frames [f1; f2] m2))
                | _ => stops (fst res)
                end
            | (Err VmFailInvalid, h1) => res = (Err EIO, ((c3, h1), drop_frames [f2; f1] m2))
            | (Err VmFailValid, h1) =>
                match Vmcs_instruction_error h1 with
                | (Ok _, h2) => res = (Err EIO, ((c3, h2), drop_frames [f2; f1] m2))
                | _ => stops (fst res)
                end
            | _ => stops (fst res)
            end
        | (Err e, m2) => res = (Err e, ((c2, h), drop_frames [f1] m2))
        | _ => stops (fst res)
        end
    | (Err e, m1) => res = (Err e, ((c2, h), m1))
    | _ => stops (fst res)
    end.
Proof. exact (intel_new_cases a this linux root c h m). Qed.
End New.
