(* ===== verification/IntelDisable.v ===== *)
(** * Entering and leaving the hypervisor on Intel

    [PerCpu::init] with the Intel [Vcpu::new], and the whole way from the VM exit
    of the VMCALL that disables the hypervisor to the native processor; together
    they give Linux back the processor it had. *)

From S2P Require Import Prelude Crates HvError Addr PhysMem Frame Config X86 Segmentation Context Cpuid Vcpu Panic Init Vmx MsrBitmap IntelVcpu IntelProps.

Section IntelDisable.
Context {bf : BitField} {xr : X86Regs} {xrl : X86RegsLaws} {xd : X86Desc} {xdl : X86DescLaws}.
Context {rc : RawCpuid} {rcl : RawCpuidLaws} {H : Type} {hw : VmxHw H} {hwl : VmxHwLaws H}.
Context (hw_seg_base : Cpu -> Z -> Z).
Import VmcsField64Guest VmcsField16Guest VmcsField32Guest.

(** VMCLEAR of the region and VMXOFF succeed. *)
Definition vmx_ends (region : Z) (h : H) : Prop :=
  fst (vmclear region h) = Ok tt /\ fst (vmxoff (snd (vmclear region h))) = Ok tt.

(** A guest that can go on natively on the processor [c]: descriptor tables at
    canonical addresses, a 52-bit CR3, and a TSS descriptor of the guest's GDT
    that fits into the GDT of the hypervisor. *)
Record resumable_vmx (c : Cpu) (h : H) : Prop := {
  ri_tables : canonical (fval h (F64Guest GDTR_BASE)) /\ canonical (fval h (F64Guest IDTR_BASE));
  ri_cr3 : 0 <= fval h (F64Guest CR3) < 2 ^ 52;
  ri_cr : in_range 64 (c_cr0 c) /\ in_range 64 (c_cr4 c);
  ri_hv_gdt : 0 <= dt_base (c_gdtr c) /\ dt_base (c_gdtr c) + 2 ^ 19 < 2 ^ 64 /\
              sel_index (fval h (F16Guest TR_SELECTOR)) + 1 < (dt_limit (c_gdtr c) + 1) / 8 < 2 ^ 16;
  ri_tss : let tr := sel_index (fval h (F16Guest TR_SELECTOR)) in
           let d := mem_get (c_vmem c) (add64 (fval h (F64Guest GDTR_BASE)) (8 * tr)) in
           0 <= tr /\ tr + 1 < (wrap 16 (fval h (F32Guest GDTR_LIMIT)) + 1) / 8 /\
           in_range 64 d /\ Z.testbit d 44 = false /\ Z.testbit d 47 = true;
}.

(** The native processor [c'], from the VMCS of the last exit and the context [l]
    of the start: the MSRs VMX does not switch are those of the start. *)
Record native_vmx (h : H) (l : LinuxContext) (c' : Cpu) : Prop := {
  nv_sel : [c_es c'; c_cs c'; c_ss c'; c_ds c'; c_fs c'; c_gs c'; c_tr c'] =
           [fval h (F16Guest ES_SELECTOR); fval h (F16Guest CS_SELECTOR); fval h (F16Guest SS_SELECTOR);
            fval h (F16Guest DS_SELECTOR); fval h (F16Guest FS_SELECTOR); fval h (F16Guest GS_SELECTOR);
            fval h (F16Guest TR_SELECTOR)];
  nv_tables : c_gdtr c' = mkDtp (wrap 16 (fval h (F32Guest GDTR_LIMIT))) (fval h (F64Guest GDTR_BASE)) /\
              c_idtr c' = mkDtp (wrap 16 (fval h (F32Guest IDTR_LIMIT))) (fval h (F64Guest IDTR_BASE));
  nv_cr : cr0_get c' = truncate cr0_all (fval h (F64Guest CR0)) /\
          c_cr3 c' = fval h (F64Guest CR3) - fval h (F64Guest CR3) mod 4096 /\
          cr4_get c' = Z.land (truncate cr4_all (fval h (F64Guest CR4))) (not64 CR4_VIRTUAL_MACHINE_EXTENSIONS);
  nv_base : msr_read IA32_FS_BASE c' = fval h (F64Guest FS_BASE) /\ msr_read IA32_GS_BASE c' = fval h (F64Guest GS_BASE);
  nv_sysenter : [msr_read IA32_SYSENTER_CS c'; msr_read IA32_SYSENTER_ESP c'; msr_read IA32_SYSENTER_EIP c'] =
                [fval h (F32Guest SYSENTER_CS); fval h (F64Guest SYSENTER_ESP); fval h (F64Guest SYSENTER_EIP)];
  nv_saved : [msr_read X86.IA32_EFER c'; msr_read IA32_STAR c'; msr_read IA32_LSTAR c'; msr_read IA32_CSTAR c';
              msr_read IA32_FMASK c'; msr_read IA32_KERNEL_GSBASE c'; msr_read X86.IA32_PAT c'] =
             [l_efer l; l_star l; l_lstar l; l_cstar l; l_fmask l; l_kernel_gsbase l; l_pat l];
}.

(** [Vcpu::exit] and [LinuxContext::restore]. *)
Lemma intel_exit_restore c v h l0 :
  vmcs_current h -> vmx_ends (start_paddr (vmcs_region v)) h -> resumable_vmx c h ->
  exists h2 c2, intel_exit ((c, (v, h)), l0) = (Ok tt, ((sysenter_loaded h c, (v, h2)), guest_context h l0)) /\
    restore hw_seg_base (E := HvErrorNum) (guest_context h l0) (sysenter_loaded h c) = (Ok tt, c2) /\
    native_vmx h l0 (msr_write IA32_GS_BASE (fval h (F64Guest GS_BASE)) c2).
Proof.
  intros Hcur [Hcl Hoff] [[Hg Hi] H3 [Hr0 Hr4] (Hb0 & Hb1 & Hix) (Hti & Htl & Hd)].
  set (l := guest_context h l0). set (c1 := sysenter_loaded h c).
  assert (restore_pre l c1) as Hpre.
  { split; [exact H3|split; [exact Hti|split; [exact Hix|exact Htl]]|split; [exact Hb0|exact Hb1]|exact Hd]. }
  destruct (restore_ok hw_seg_base HvErrorNum l c1 Hpre) as (c2 & Hc & Res & Rcs & Rss & Rds & Rfs & Rgs & Rtr & Rfb &
    Rgdt & Ridt & Rcr0 & Rcr3 & Rcr4 & Refer & Rstar & Rlstar & Rcstar & Rfm & Rkgs & Rpat & _ & Rmsr).
  destruct (vmclear (start_paddr (vmcs_region v)) h) as [o1 h1] eqn:E1. cbn [fst snd] in *.
  destruct (vmxoff h1) as [o2 h2] eqn:E2. cbn [fst] in *. subst o1 o2.
  exists h2, c2. split; [|split; [done|]].
  - unfold intel_exit, load_vmcs_guest.
    rewrite (bind_ok _ _ _ tt ((c1, (v, h)), l)) by (by apply load_all_ok, run_all_steps).
    rewrite bind_gets. cbn [fst snd].
    rewrite (bind_ok _ _ _ tt ((c1, (v, h1)), l)) by (unfold vmx_exit_, vtry, Vmcs_clear; cbn [fst snd]; by rewrite E1).
    unfold vmx_exit_, vtry. cbn [fst snd]. by rewrite E2.
  - destruct (sysenter_loaded_msrs h c) as (M1 & M2 & M3). fold c1 in M1, M2, M3.
    split; cbn [c_es c_cs c_ss c_ds c_fs c_gs c_tr c_gdtr c_idtr c_cr3 msr_write with_msr].
    + by rewrite Res, Rcs, Rss, Rds, Rfs, Rgs, Rtr.
    + by rewrite Rgdt, Ridt.
    + unfold cr0_get, cr4_get. cbn [c_cr0 c_cr4 msr_write with_msr].
      rewrite Rcr0, Rcr3, Rcr4, cr0_write_spec, cr4_write_spec, frame_containing_spec by exact H3.
      split; [|split; [done|]]; apply truncate_write; try apply xrl; try done.
      * apply contains_truncate_all.
      * apply truncate_nonneg, xrl.
      * apply contains_land.
      * apply Z.land_nonneg. left. apply truncate_nonneg, xrl.
    + rewrite msr_read_write, msr_read_write_ne, Rfb by done. done.
    + rewrite !msr_read_write_ne, !Rmsr, M1, M2, M3 by (done || by apply (bool_decide_unpack _)). done.
    + rewrite !msr_read_write_ne, Refer, Rstar, Rlstar, Rcstar, Rfm, Rkgs, Rpat by done. done.
Qed.

(** ** From the VM exit to the native processor *)
Abbreviation W := (World (IntelVcpu * H)).
Definition wintel (w : W) : IntelVcpu := fst (vcpu (w_percpu w)).

(** A VM exit for the hypercall that disables the hypervisor, made in ring 0
    when as many processors have asked as are active. *)
Record vmcall_disable (w : W) : Prop := {
  vd_current : vmcs_current (wvmx w);
  vd_reason : get_bits (fval (wvmx w) F_REASON) 0 16 = 18 /\ Z.testbit (fval (wvmx w) F_REASON) 31 = false;
  vd_rax : wrap 32 (rax (wregs w)) = 0;
  vd_ring0 : gv_priv (wview w) = true;
  vd_last : w_activated w <= wrap 32 (w_try_disable w + 1);
  vd_guest : resumable_vmx (w_cpu w) (wvmx w);
  vd_ends : forall h, vmcs_current h -> vmx_ends (start_paddr (vmcs_region (wintel w))) h;
}.

(** Advancing RIP leaves all other fields. *)
Lemma rip_only n h h' : written [(F_RIP, n)] h h' -> forall f, field_code f <> field_code F_RIP -> fval h' f = fval h f.
Proof.
  intros Hw f Hf. rewrite (written_val _ _ _ _ Hw). unfold final. cbn [fold_left].
  by destruct (Z.eqb_spec (field_code f) (field_code F_RIP)).
Qed.

Lemma resumable_rip n c h h' : written [(F_RIP, n)] h h' -> resumable_vmx c h -> resumable_vmx c h'.
Proof.
  intros Hw [R1 R2 R3 R4 R5]. pose proof (rip_only n h h' Hw) as Hf. cbv zeta in R5.
  split; cbv zeta; rewrite ?Hf by (vm_compute; discriminate); assumption.
Qed.

Lemma native_rip n h h' l c : written [(F_RIP, n)] h h' -> native_vmx h' l c -> native_vmx h l c.
Proof.
  intros Hw [N1 [N2 N2'] (N3 & N3' & N3'') [N4 N4'] N5 N6]. pose proof (rip_only n h h' Hw) as Hf.
  split; rewrite ?N1, ?N2, ?N2', ?N3, ?N3', ?N3'', ?N4, ?N4', ?N5, ?N6, ?Hf by (vm_compute; discriminate); done.
Qed.

(** The whole way from the VM exit to the native processor. *)
Lemma intel_disable_ok (w : W) :
  vmcall_disable w ->
  exists w', vmexit_handler (intel_handle_exit hw_seg_base) w = (Err BackInLinux, w') /\
    native_vmx (wvmx w) (linux (w_percpu w)) (w_cpu w') /\
    state (w_percpu w') = HvDisabled /\ w_activated w' = wrap 32 (w_activated w - 1) /\
    l_rip (linux (w_percpu w')) = add64 (fval (wvmx w) (F64Guest RIP)) 3 /\
    l_rsp (linux (w_percpu w')) = fval (wvmx w) (F64Guest RSP) /\
    wregs w' = with_rax 0 (wregs w).
Proof.
  intros [Hcur [Hr H31] Hrax Hpriv Hlast Hg Hends].
  destruct w as [c [sv i st [v h] l0] n t]. unfold wvmx, wintel in *. cbn [w_cpu w_percpu vcpu linux snd fst] in *.
  pose (at_ v' h' := mkWorld c (mkPerCpu sv i st (v', h') l0) n t : W).
  destruct (exit_info_known VmxExitReason.VMCALL (at_ v h) Hcur) as (len & rip & Hi).
  { unfold wvmx, at_. cbn [w_percpu vcpu snd]. by rewrite Hr. }
  destruct (advance_rip_run c v h 3 Hcur) as (h1 & Ha & Hw).
  pose (v2 := set_guest_regs (with_rax 0 (guest_regs v)) v).
  destruct (intel_exit_restore c v2 h1 l0 (proj1 Hw) (Hends h1 (proj1 Hw)) (resumable_rip _ c h h1 Hw Hg)) as (h2 & c2 & He & Hrs & Hn).
  set (w' := mkWorld (msr_write IA32_GS_BASE (fval h1 (F64Guest GS_BASE)) c2)
               (mkPerCpu sv i HvDisabled (v2, h2) (guest_context h1 l0)) (wrap 32 (n - 1)) (wrap 32 (t + 1)) : W).
  assert (handle_hypercall hw_seg_base (at_ v h) = (Err BackInLinux, w')) as Hh.
  { unfold handle_hypercall.
    rewrite (bind_ok (on_vcpu (advance_rip VM_EXIT_LEN_HYPERCALL)) _ (at_ v h) tt (at_ v h1))
      by (unfold on_vcpu, at_; cbn [w_cpu w_percpu vcpu advance_rip IntelOps];
          change VM_EXIT_LEN_HYPERCALL with 3; by rewrite Ha).
    unfold get_regs. rewrite bind_gets.
    assert (vcpu_wf (wst (at_ v h1))) as Hwf by apply Hw. destruct (page_table_ok _ Hwf) as [p Hp].
    rewrite (bind_ok _ _ _ p (at_ v h1)) by (by apply on_vcpu_read).
    change (wrap 32 (rax (regs (vcpu (w_percpu (at_ v h1)))))) with (wrap 32 (rax (guest_regs v))).
    change (wrap 32 (rax (guest_regs v)) = 0) in Hrax. rewrite Hrax.
    apply hypercall_leaves; [apply Hw| | |].
    - rewrite <- Hpriv. unfold wview, view, wst, at_. cbn [IntelLaws]. unfold intel_view. cbn [w_percpu vcpu snd gv_priv].
      by rewrite (rip_only _ h h1 Hw F_CS_AR) by (vm_compute; discriminate).
    - cbn. cbn in Hlast. lia.
    - rewrite deactivate_eq. unfold at_. cbv zeta.
      cbn [w_cpu w_percpu w_activated w_try_disable vcpu linux self_vaddr id state].
      change (regs_mut (with_rax 0 _) (v, h1)) with (v2, h1). cbn [vcpu_exit IntelOps]. by rewrite He, Hrs. }
  exists w'. split.
  { unfold vmexit_handler. apply bind_err. unfold attempt, intel_handle_exit.
    rewrite (bind_ok _ _ _ _ _ Hi). cbn [entry_failure exit_reason]. change (wvmx (at_ v h)) with h. rewrite H31.
    cbn [intel_dispatch]. by rewrite Hh. }
  cbn [w_cpu w_percpu w' state w_activated linux]. split_and!; try done.
  - exact (native_rip _ h h1 _ _ Hw Hn).
  - change (l_rip (guest_context h1 l0)) with (fval h1 F_RIP). rewrite (written_val _ _ _ _ Hw). reflexivity.
  - change (l_rsp (guest_context h1 l0)) with (fval h1 (F64Guest RSP)). by rewrite (rip_only _ h h1 Hw) by (vm_compute; discriminate).
Qed.

(** The last VM exit on Intel, from [vmexit_handler] to the native processor:
    the hypercall that disables the hypervisor gives Linux the processor with
    the selectors, descriptor tables, control registers (without VMXE), segment
    bases and SYSENTER registers of the VMCS, and with a context that resumes
    behind the VMCALL with RAX 0 and all other registers of the guest. *)
Theorem intel_disable_native (w : W) :
  vmcall_disable w ->
  exists w', vmexit_handler (intel_handle_exit hw_seg_base) w = (Err BackInLinux, w') /\
    native_vmx (wvmx w) (linux (w_percpu w)) (w_cpu w') /\
    state (w_percpu w') = HvDisabled /\ w_activated w' = wrap 32 (w_activated w - 1) /\
    l_rip (linux (w_percpu w')) = add64 (fval (wvmx w) (F64Guest RIP)) 3 /\
    l_rsp (linux (w_percpu w')) = fval (wvmx w) (F64Guest RSP) /\
    wregs w' = with_rax 0 (wregs w).
Proof. exact (intel_disable_ok w). Qed.

(** ** Entering *)
Section IntelInit.
Context {A : Type} {ba : BitAlloc A}.
Context (a : HostAddrs) (this tss_box gdt_box : Z) (idt : DescriptorTablePointer).

(** [Vcpu::new] on the processor, the VMX state and the memory of
    [PerCpu::init]. *)
Definition intel_vcpu_new (linux : LinuxContext) (root : Z) : M (Cpu * (H * Machine A)) HvErrorNum IntelVcpu :=
  fun '(c, (h, m)) => let '(r, ((c', h'), m')) := intel_new a this linux root ((c, h), m) in (r, (c', (h', m'))).

(** What [Vcpu::new] needs: VMX is there, not in use and not locked off, the
    allocator has two frames, and the processor accepts them as VMXON region
    and VMCS. *)
Record vmx_available (c : Cpu) (h : H) (m m2 : Machine A) : Prop := {
  va_cpu : has_vmx = true /\ Z.testbit (cr4_get c) 13 = false;
  va_fc : Z.testbit (msr_read IA32_FEATURE_CONTROL c) 0 && negb (Z.testbit (msr_read IA32_FEATURE_CONTROL c) 2) = false;
  va_regions : exists f1 f2 m1 h1, let rev := revision_id (VmxBasic_read c) in
    VmxRegion_new rev false m = (Ok f1, m1) /\ VmxRegion_new rev false m1 = (Ok f2, m2) /\
    vmxon (start_paddr f1) h = (Ok tt, h1) /\ region_ok (start_paddr f2) h1;
}.

(** The processor on which the VMCS is set up. *)
Record on_hypervisor (hv_root : Z) (c c3 : Cpu) : Prop := {
  oh_ok : cpu_ok c3;
  oh_cr3 : c_cr3 c3 = hv_root;
  oh_msr : forall i, i <> X86.IA32_PAT -> i <> X86.IA32_PERF_GLOBAL_CTRL -> i <> IA32_FEATURE_CONTROL -> msr_read i c3 = msr_read i c;
}.

Lemma on_hypervisor_intro hv_root c c1 c2 :
  cpu_ok c -> in_range 64 gdt_box -> hv_loaded gdt_box idt hv_root c c1 -> vmxon_cpu c1 c2 ->
  on_hypervisor hv_root c (cr4_set host_cr4 (cr0_set HOST_CR0 c2)).
Proof.
  intros [Hm [H0 H4] _] Hbox [_ [Lg _] (L0 & L3 & L4) Lm Lp] [_ [x Hx] Hr Hmsr].
  assert (forall i, in_range 64 (msr_read i c1)) as Hm1.
  { intros i. destruct (decide (i = X86.IA32_PAT)) as [->|Hi]; [by rewrite Lp|]. by rewrite Lm. }
  assert (in_range 64 host_cr4) as H4'.
  { unfold host_cr4. destruct has_xsave; split; discriminate || reflexivity. }
  assert (in_range 64 HOST_CR0) as H0' by (unfold HOST_CR0, truncate; apply in_range_land; [lia|split; [discriminate|reflexivity]]).
  split.
  - split.
    + intros i. rewrite msr_read_cr4_set, msr_read_cr0_set. by apply Hr.
    + unfold cr4_set, cr0_set. cbn [c_cr0 c_cr4 with_cr]. rewrite cr0_write_spec, cr4_write_spec, Hx.
      cbn [c_cr0 c_cr4 with_msr]. rewrite L0, L4. split; repeat apply in_range_lor; try done; apply in_range_land; done.
    + rewrite Hx. cbn [c_gdtr cr4_set cr0_set with_cr with_msr]. by rewrite Lg.
  - rewrite Hx. cbn [c_cr3 cr4_set cr0_set with_cr with_msr]. done.
  - intros i Hp Hg Hf. rewrite msr_read_cr4_set, msr_read_cr0_set, Hmsr by done. by apply Lm.
Qed.

Lemma intel_init_ok linux_sp hv_root cell_root c h (m m2 : Machine A) p :
  init_pre tss_box gdt_box c hv_root -> cpu_ok c -> addrs_ok a -> 0 <= cell_root < 2 ^ 52 -> cell_root mod 4096 = 0 ->
  (forall l, load_from (E := HvErrorNum) linux_sp c = (Ok l, c) -> context_ok l) ->
  vmx_available c h m m2 ->
  exists l c3 h0 h' v, load_from (E := HvErrorNum) linux_sp c = (Ok l, c) /\ on_hypervisor hv_root c c3 /\
    percpu_init intel_vcpu_new tss_box gdt_box idt linux_sp hv_root cell_root ((c, (h, m)), p) =
      (Ok tt, ((c3, (h', m2)), mkPerCpu (self_vaddr p) (id p) HvEnabled v l)) /\
    written (setup_writes a l cell_root c3) h0 h'.
Proof.
  intros Hpre Hcpu Ha Hr Hal Hctx [[Hx H13] Hfc (f1 & f2 & m1 & h1 & E1 & E2 & E3 & Hreg)].
  destruct (percpu_init_branches intel_vcpu_new tss_box gdt_box idt linux_sp hv_root cell_root c (h, m) p Hpre)
    as (l & c1 & Hl & Hld & Hres). cbv zeta in Hres.
  destruct (load_from_ok HvErrorNum c linux_sp (ip_linux _ _ _ _ Hpre)) as (l' & Hl' & L).
  rewrite Hl in Hl'. injection Hl' as <-. destruct L as (_ & _ & _ & _ & _ & _ & _ & _ & _ & _ & _ & _ & _ & _ & _ & L4 & _).
  pose proof (intel_new_cases a this l cell_root c1 h m) as Hn. cbv zeta in Hn.
  assert (msr_read IA32_FEATURE_CONTROL (perf_off c1) = msr_read IA32_FEATURE_CONTROL c) as Efc.
  { unfold perf_off. destruct (0 <? _); rewrite ?msr_read_write_ne by done; by apply Hld. }
  assert (VmxBasic_read (perf_off c1) = VmxBasic_read c) as Evb.
  { unfold VmxBasic_read, perf_off. destruct (0 <? _); rewrite ?msr_read_write_ne by done; by rewrite (hl_msr _ _ _ _ _ Hld). }
  rewrite Hx, L4, H13, Efc, Hfc, Evb in Hn. cbn [negb] in Hn. destruct Hn as (c2 & Hvc & Hn).
  cbv zeta in E1, E2. rewrite E1, E2, E3 in Hn.
  assert (in_range 64 gdt_box) as Hbox.
  { destruct (ip_gdt _ _ _ _ Hpre) as [[Hc|Hc] Hb]; split; lia. }
  pose proof (on_hypervisor_intro hv_root c c1 c2 Hcpu Hbox Hld Hvc) as Hoh.
  set (c3 := cr4_set _ _) in *.
  destruct (vmcs_setup_ok a (start_paddr f2) l cell_root c3 h1 Hreg (oh_ok _ _ _ Hoh) (Hctx l Hl) Ha Hr Hal) as (h0 & h' & Es & _ & Hw).
  rewrite Es in Hn. destruct Hn as (v & Hn & _).
  exists l, c3, h0, h', v. split_and!; try done.
  unfold intel_vcpu_new in Hres at 1. rewrite Hn in Hres. exact Hres.
Qed.

(** The registers of a processor that runs Linux, as a VMCS describes them;
    [linux_sp] is the frame [arch_entry] left. *)
Record guest_is_linux_vmx (c : Cpu) (linux_sp : Z) (h : H) : Prop := {
  gv_ip : fval h (F64Guest RIP) = mem_get (c_vmem c) (add64 linux_sp 56) /\
          fval h (F64Guest RSP) = add64 linux_sp 64 /\ fval h (F64Guest RFLAGS) = 2;
  gv_cr3_ : fval h (F64Guest CR3) = cr3_get c;
  gv_cr0_ : fixed_cr (msr_read IA32_VMX_CR0_FIXED0 c) (msr_read IA32_VMX_CR0_FIXED1 c) (cr0_get c)
             (fval h (F64Guest CR0)) [31; 0] [29; 30];
  gv_cr4_ : fixed_cr (msr_read IA32_VMX_CR4_FIXED0 c) (msr_read IA32_VMX_CR4_FIXED1 c)
             (Z.lor (cr4_get c) CR4_VIRTUAL_MACHINE_EXTENSIONS) (fval h (F64Guest CR4)) [] [];
  gv_sel : [fval h (F16Guest ES_SELECTOR); fval h (F16Guest CS_SELECTOR); fval h (F16Guest SS_SELECTOR);
            fval h (F16Guest DS_SELECTOR); fval h (F16Guest FS_SELECTOR); fval h (F16Guest GS_SELECTOR);
            fval h (F16Guest TR_SELECTOR)] = [c_es c; c_cs c; c_ss c; c_ds c; c_fs c; c_gs c; c_tr c];
  gv_base : fval h (F64Guest FS_BASE) = msr_read IA32_FS_BASE c /\
            fval h (F64Guest GS_BASE) = mem_get (c_vmem c) (add64 linux_sp 0);
  gv_tables : mkDtp (fval h (F32Guest GDTR_LIMIT)) (fval h (F64Guest GDTR_BASE)) = c_gdtr c /\
              mkDtp (fval h (F32Guest IDTR_LIMIT)) (fval h (F64Guest IDTR_BASE)) = c_idtr c;
  gv_sysenter : [fval h (F32Guest SYSENTER_CS); fval h (F64Guest SYSENTER_ESP); fval h (F64Guest SYSENTER_EIP)] =
                [wrap 32 (msr_read IA32_SYSENTER_CS c); msr_read IA32_SYSENTER_ESP c; msr_read IA32_SYSENTER_EIP c];
  gv_msr : fval h (F64Guest VmcsField64Guest.IA32_EFER) = msr_read X86.IA32_EFER c /\
           fval h (F64Guest VmcsField64Guest.IA32_PAT) = msr_read X86.IA32_PAT c;
}.

Lemma setup_guest_is_linux linux_sp hv_root cell_root c c3 l h0 h :
  all_loaded c -> load_from (E := HvErrorNum) linux_sp c = (Ok l, c) -> on_hypervisor hv_root c c3 ->
  written (setup_writes a l cell_root c3) h0 h -> guest_is_linux_vmx c linux_sp h.
Proof.
  intros Hall Hl [_ _ Hm] Hw. pose proof (setup_guest_starts a l cell_root c3 h0 h Hw) as [(I1 & I2 & I3) G3 G0 G4 _ Hseg [M1 M2]].
  destruct (load_from_ok HvErrorNum c linux_sp Hall) as (l' & Hl' & Les & Lcs & Lss & Lds & Lfs & Lgs & Ltr & Lfb & Lgb &
    Lrip & Lrsp & Lgdt & Lidt & Lcr0 & Lcr3 & Lcr4 & Lefer & _ & _ & _ & _ & _ & Lpat).
  rewrite Hl in Hl'. injection Hl' as <-. rewrite !Forall_cons in Hseg.
  destruct Hseg as (E1 & E2 & E3 & E4 & E5 & E6 & E7 & _).
  rewrite Lcr0, !Hm in G0 by done. rewrite Lcr4, !Hm in G4 by done.
  rewrite <- E1 in Les. rewrite <- E2 in Lcs. rewrite <- E3 in Lss. rewrite <- E4 in Lds. rewrite <- E5 in Lfs, Lfb.
  rewrite <- E6 in Lgs, Lgb. rewrite <- E7 in Ltr. cbn [selector base] in *.
  split; [split_and!; congruence|congruence|done|done|congruence|split; congruence| | |split; congruence].
  - rewrite <- Lgdt, <- Lidt, !(written_val _ _ _ _ Hw). destruct l as [? ? ? ? ? ? ? ? ? ? ? ? ? ? ? [] [] ? ? ? ? ? ? ? ? ? ? ?].
    by split.
  - rewrite <- !Hm by done. rewrite !(written_val _ _ _ _ Hw). reflexivity.
Qed.

(** C32. [PerCpu::init] on Intel makes the running Linux the guest: when VMX can be
    turned on and there are two frames for its regions, the VMCS is current and
    starts with the instruction and stack pointers, descriptor tables,
    selectors, segment bases and MSRs the processor had, with its CR0 and CR4
    made legal for VMX operation, and returns to the hypervisor through the
    page table of the cell; the processor is on the page table of the
    hypervisor. *)
Theorem intel_linux_becomes_guest linux_sp hv_root cell_root c h (m m2 : Machine A) p :
  init_pre tss_box gdt_box c hv_root -> cpu_ok c -> addrs_ok a -> 0 <= cell_root < 2 ^ 52 -> cell_root mod 4096 = 0 ->
  (forall l, load_from (E := HvErrorNum) linux_sp c = (Ok l, c) -> context_ok l) ->
  vmx_available c h m m2 ->
  exists c3 h' p', percpu_init intel_vcpu_new tss_box gdt_box idt linux_sp hv_root cell_root ((c, (h, m)), p) =
      (Ok tt, ((c3, (h', m2)), p')) /\
    state p' = HvEnabled /\ load_from (E := HvErrorNum) linux_sp c = (Ok (linux p'), c) /\ c_cr3 c3 = hv_root /\
    vmcs_current h' /\ guest_is_linux_vmx c linux_sp h' /\ host_returns a c3 cell_root h'.
Proof.
  intros Hpre Hcpu Ha Hr Hal Hctx Hva.
  destruct (intel_init_ok linux_sp hv_root cell_root c h m m2 p Hpre Hcpu Ha Hr Hal Hctx Hva)
    as (l & c3 & h0 & h' & v & Hl & Hoh & Hi & Hw).
  exists c3, h', (mkPerCpu (self_vaddr p) (id p) HvEnabled v l). split; [done|]. split; [done|]. split; [done|].
  split; [apply Hoh|]. split; [apply Hw|]. split.
  - exact (setup_guest_is_linux linux_sp hv_root cell_root c c3 l h0 h' (ip_linux _ _ _ _ Hpre) Hl Hoh Hw).
  - exact (setup_host_returns a l cell_root c3 h0 h' Hr Hal Hw).
Qed.

(** ** On and off again *)

(** The control registers of Linux are legal for VMX operation as they are. *)
Record legal_crs (c : Cpu) : Prop := {
  lc_cr0 : fixed_cr (msr_read IA32_VMX_CR0_FIXED0 c) (msr_read IA32_VMX_CR0_FIXED1 c) (cr0_get c) (cr0_get c) [31; 0] [29; 30];
  lc_cr4 : let val := Z.lor (cr4_get c) CR4_VIRTUAL_MACHINE_EXTENSIONS in
           fixed_cr (msr_read IA32_VMX_CR4_FIXED0 c) (msr_read IA32_VMX_CR4_FIXED1 c) val val [] [];
}.

(** The fields a guest has when it has not changed its system state. *)
Definition system_fields : list Field :=
  [F16Guest ES_SELECTOR; F16Guest CS_SELECTOR; F16Guest SS_SELECTOR; F16Guest DS_SELECTOR; F16Guest FS_SELECTOR;
   F16Guest GS_SELECTOR; F16Guest TR_SELECTOR; F64Guest GDTR_BASE; F32Guest GDTR_LIMIT; F64Guest IDTR_BASE;
   F32Guest IDTR_LIMIT; F64Guest CR0; F64Guest CR3; F64Guest CR4; F64Guest FS_BASE; F64Guest GS_BASE;
   F32Guest SYSENTER_CS; F64Guest SYSENTER_ESP; F64Guest SYSENTER_EIP].

Definition same_system (h1 h : H) : Prop := Forall (fun f => fval h f = fval h1 f) system_fields.

Lemma native_same h1 h l c : same_system h1 h -> native_vmx h l c -> native_vmx h1 l c.
Proof.
  unfold same_system, system_fields. rewrite !Forall_cons.
  intros (E1 & E2 & E3 & E4 & E5 & E6 & E7 & E8 & E9 & E10 & E11 & E12 & E13 & E14 & E15 & E16 & E17 & E18 & E19 & _).
  intros [N1 [N2 N2'] (N3 & N3' & N3'') [N4 N4'] N5 N6]. split; [..|done]; congruence || (split_and!; congruence).
Qed.

(** The flag type may drop VMXE, which is removed anyway. *)
Lemma strip_vmxe c :
  Z.land (truncate cr4_all (Z.lor (cr4_get c) CR4_VIRTUAL_MACHINE_EXTENSIONS)) (not64 CR4_VIRTUAL_MACHINE_EXTENSIONS) =
  Z.land (Z.lor (cr4_get c) CR4_VIRTUAL_MACHINE_EXTENSIONS) (not64 CR4_VIRTUAL_MACHINE_EXTENSIONS).
Proof.
  unfold cr4_get, truncate, not64, CR4_VIRTUAL_MACHINE_EXTENSIONS. apply Z.bits_inj'. intros i Hi.
  rewrite !Z.land_spec, !Z.lor_spec, !Z.lxor_spec, !Z.land_spec, !testbit_bit, testbit_ones by lia.
  destruct (Z.eqb_spec i 13) as [->|]; [|btauto]. change ((0 <=? 13) && (13 <? 64)) with true. btauto.
Qed.

(** The processor Linux gets back from the VMCS it started with. *)
Lemma native_linux_back linux_sp c h l c' :
  all_loaded c -> load_from (E := HvErrorNum) linux_sp c = (Ok l, c) -> cpu_ok c -> legal_crs c ->
  Z.testbit (cr4_get c) 13 = false -> vmcs_current h -> guest_is_linux_vmx c linux_sp h -> native_vmx h l c' ->
  back_as linux_sp c c' /\
  [msr_read IA32_SYSENTER_CS c'; msr_read IA32_SYSENTER_ESP c'; msr_read IA32_SYSENTER_EIP c'] =
  [wrap 32 (msr_read IA32_SYSENTER_CS c); msr_read IA32_SYSENTER_ESP c; msr_read IA32_SYSENTER_EIP c].
Proof.
  intros Hall Hl [_ [R0 R4] _] [F0 F4] H13 Hcur [_ G3 G0 G4 Gs [Gf Gg] [Gt Gi] Gm _]
    [N1 [N2 N2'] (N3 & N3' & N3'') [N4 N4'] N5 N6].
  destruct (load_from_ok HvErrorNum c linux_sp Hall) as (l' & Hl' & L). rewrite Hl in Hl'. injection Hl' as <-.
  destruct L as (_ & _ & _ & _ & _ & _ & _ & _ & _ & _ & _ & _ & _ & _ & _ & _ & L1 & L2 & L3 & L4 & L5 & L6 & L7).
  assert (in_range 64 (cr0_get c)) as R0' by (unfold cr0_get, truncate; by apply in_range_land).
  assert (in_range 64 (cr4_get c)) as R4' by (unfold cr4_get, truncate; by apply in_range_land).
  apply (fixed_cr_eq _ _ _ _ (cr0_get c)) in G0; [|by apply (fval_range (F64Guest _))|done|done].
  apply (fixed_cr_eq _ _ _ _ (Z.lor (cr4_get c) CR4_VIRTUAL_MACHINE_EXTENSIONS)) in G4;
    [|by apply (fval_range (F64Guest _))|by auto with rvm_range|done].
  split; [|congruence]. split.
  - congruence.
  - rewrite N2, N2', <- Gt, <- Gi. by split.
  - rewrite N3, N3', N3'', G0, G3, G4. split; [unfold cr0_get; apply truncate_idem|split].
    + pose proof (cr3_frame_range (c_cr3 c)) as [_ Hz]. unfold cr3_get. rewrite Hz. lia.
    + by rewrite strip_vmxe, remove_vmxe.
  - split; congruence.
  - injection N6 as M1 M2 M3 M4 M5 M6 M7. intros i Hi. rewrite !elem_of_cons, elem_of_nil in Hi.
    destruct Hi as [->|[->|[->|[->|[->|[->|[->|[]]]]]]]]; congruence.
Qed.

(** C33. The hypervisor comes and goes without a trace on Intel: Linux, whose
    control registers are legal for VMX operation, is put into the VMCS by
    [PerCpu::init], runs as a guest that leaves its system registers alone, and
    disables the hypervisor; the native processor then has the selectors,
    descriptor tables, control registers, segment bases and MSRs it had before
    the hypervisor was entered, and Linux goes on behind its VMCALL. *)
Theorem intel_enable_disable linux_sp hv_root cell_root c h (m m2 : Machine A) p :
  init_pre tss_box gdt_box c hv_root -> cpu_ok c -> addrs_ok a -> 0 <= cell_root < 2 ^ 52 -> cell_root mod 4096 = 0 ->
  (forall l, load_from (E := HvErrorNum) linux_sp c = (Ok l, c) -> context_ok l) ->
  vmx_available c h m m2 -> legal_crs c ->
  exists c3 h' p', percpu_init intel_vcpu_new tss_box gdt_box idt linux_sp hv_root cell_root ((c, (h, m)), p) =
      (Ok tt, ((c3, (h', m2)), p')) /\
  forall w, vmcall_disable w -> same_system h' (wvmx w) -> linux (w_percpu w) = linux p' ->
  exists w', vmexit_handler (intel_handle_exit hw_seg_base) w = (Err BackInLinux, w') /\
    back_as linux_sp c (w_cpu w') /\
    [msr_read IA32_SYSENTER_CS (w_cpu w'); msr_read IA32_SYSENTER_ESP (w_cpu w'); msr_read IA32_SYSENTER_EIP (w_cpu w')] =
    [wrap 32 (msr_read IA32_SYSENTER_CS c); msr_read IA32_SYSENTER_ESP c; msr_read IA32_SYSENTER_EIP c] /\
    l_rip (linux (w_percpu w')) = add64 (fval (wvmx w) (F64Guest RIP)) 3 /\
    l_rsp (linux (w_percpu w')) = fval (wvmx w) (F64Guest RSP) /\ wregs w' = with_rax 0 (wregs w).
Proof.
  intros Hpre Hcpu Ha Hr Hal Hctx Hva Hlc.
  destruct (intel_init_ok linux_sp hv_root cell_root c h m m2 p Hpre Hcpu Ha Hr Hal Hctx Hva)
    as (l & c3 & h0 & h' & v & Hl & Hoh & Hi & Hw).
  exists c3, h', (mkPerCpu (self_vaddr p) (id p) HvEnabled v l). split; [done|]. cbn [linux]. intros w Hex Hsame Hlin.
  destruct (intel_disable_ok w Hex) as (w' & Hx & Hn & _ & _ & Hip & Hsp & Hregs). rewrite Hlin in Hn.
  pose proof (setup_guest_is_linux linux_sp hv_root cell_root c c3 l h0 h' (ip_linux _ _ _ _ Hpre) Hl Hoh Hw) as Hg.
  destruct (native_linux_back linux_sp c h' l (w_cpu w') (ip_linux _ _ _ _ Hpre) Hl Hcpu Hlc
    (proj2 (va_cpu _ _ _ _ Hva)) (proj1 Hw) Hg (native_same _ _ _ _ Hsame Hn)) as [Hb Hs].
  by exists w'.
Qed.
End IntelInit.
End IntelDisable.
