(* ===== verification/VmmSamples.v ===== *)
(** * The theorems of the VMM on a concrete machine

    A processor as Linux leaves it, a VMX implementation that is a table of
    fields, and the theorems on contexts, vCPUs and exits applied to them. *)

From S2P Require Import Prelude Crates HvError Addr PhysMem Frame Config X86 Segmentation Context Cpuid Vcpu Panic Svm AmdVcpu AmdProps Init AmdDisable Vmx MsrBitmap Exception IntelVcpu IntelProps IntelDisable.

#[local] Existing Instance BitField_ref.
#[local] Existing Instance X86Regs_ref.
#[local] Existing Instance X86Regs_ref_laws.
#[local] Existing Instance X86Desc_ref.
#[local] Existing Instance X86Desc_ref_laws.
#[local] Existing Instance RawCpuid_ref.
#[local] Existing Instance RawCpuid_ref_laws.

(** ** A VMX processor *)

(** Whether a VMCS is current, and its fields. *)
Definition VmxState : Type := (bool * gmap Z Z)%type.
Definition vmx_field (h : VmxState) (c : Z) : Z := wrap (encoded_width c) (mem_get (snd h) c).

#[local] Instance VmxRef : VmxHw VmxState := {|
  vmread c := fun h : VmxState => if fst h then (Ok (vmx_field h c), h) else (Err VmFailInvalid, h);
  vmwrite c v := fun h : VmxState => if fst h then (Ok tt, (true, mem_set (snd h) c v)) else (Err VmFailInvalid, h);
  vmptrld _ := fun h : VmxState => (Ok tt, (true, snd h));
  vmclear _ := fun h : VmxState => (Ok tt, (false, ∅));
  vmxon _ := fun h : VmxState => (Ok tt, h);
  vmxoff := fun h : VmxState => (Ok tt, h);
  hw_invept _ _ h := (0, h);
|}.

Lemma field_encoded_width f : encoded_width (field_code f) = field_width f.
Proof. destruct f as [f|f|f|f|f|f|f|f|f|f|f]; by destruct f. Qed.

#[local] Instance VmxRefLaws : VmxHwLaws VmxState.
Proof.
  refine {| vmcs_current := fun h => fst h = true; vmcs_val := vmx_field |}.
  - intros f h Hc. cbn. by rewrite Hc.
  - intros f h _. unfold vmx_field. rewrite field_encoded_width. apply in_range_wrap. by destruct f.
  - intros f v h Hc _ Hv. exists (true, mem_set (snd h) (field_code f) v). split; [cbn; by rewrite Hc|]. split; [done|].
    intros g. unfold vmx_field. cbn [snd]. rewrite mem_get_set. destruct (Z.eqb_spec (field_code g) (field_code f)) as [->|]; [|done].
    apply wrap_small. by rewrite field_encoded_width.
  - intros eptp h Hc _. exists 0, h. by split_and!.
  - done.
Defined.

(** ** A processor as Linux leaves it *)
Definition sample_gdt : gmap Z Z :=
  {[0x10008 := 0x00af9b000000ffff; 0x10018 := 0x00008b0000000067]}.
Definition sample_cpu : Cpu :=
  mkCpu {[0x3a := 5; 0x486 := 0x80000021; 0x487 := 0xffffffff; 0x488 := 0x2000; 0x489 := 0x3767ff]}
    0x80050033 0x2000 0x20 0 8 0 0 0 0 0x18 (mkDtp 127 0x10000) (mkDtp 4095 0x20000) true sample_gdt.

Definition sample_segment : Segment := mkSegment 8 0 0xffffffff 0xa09b.
Definition sample_linux : LinuxContext :=
  mkLinux 0x9000 0x400000 1 2 3 4 5 6 sample_segment sample_segment sample_segment sample_segment sample_segment
    sample_segment sample_segment (mkDtp 127 0x10000) (mkDtp 4095 0x20000) 0x80050033 0x2000 0x20 0xd01 0 0 0 0 0 0x70106 0.

Definition no_base (c : Cpu) (s : Z) : Z := 0.

Lemma sample_loaded : all_loaded sample_cpu.
Proof.
  unfold all_loaded. repeat (apply Forall_cons; split); try by apply Forall_nil.
  all: split; [vm_compute; discriminate|]; split; [split; reflexivity|].
  all: first [left; reflexivity | right; vm_compute; reflexivity].
Qed.

Lemma linux_context_round_witness :
  exists l c', load_from (E := HvErrorNum) 0x8000 sample_cpu = (Ok l, sample_cpu) /\
    restore no_base (E := HvErrorNum) l sample_cpu = (Ok tt, c') /\ same_linux sample_cpu c'.
Proof.
  destruct (linux_context_round no_base HvErrorNum sample_cpu 0x8000 sample_loaded) as (l & Hl & Hr);
    [split; [discriminate|reflexivity]..|].
  destruct (Hr sample_cpu) as (c' & Hc & Hs); [|reflexivity|reflexivity|].
  - assert (l_cr3 l = 0x2000 /\ selector (l_tss l) = 0x18 /\ l_gdt l = mkDtp 127 0x10000) as (H3 & Ht & Hg).
    { vm_compute in Hl. injection Hl as <-. done. }
    split; rewrite ?H3, ?Ht, ?Hg.
    + lia.
    + vm_compute. repeat split; discriminate || reflexivity.
    + vm_compute. repeat split; discriminate || reflexivity.
    + vm_compute. repeat split; discriminate || reflexivity.
  - exists l, c'. done.
Defined.

(** ** An AMD guest *)
Definition sample_frame : Frame := mkFrame 0x5000 1.
Definition with_exit_code (v : Z) (x : VmcbControlArea) : VmcbControlArea :=
  mkControl (ct_intercept_cr x) (ct_intercept_dr x) (ct_intercept_exceptions x)
    (ct_intercept_vector3 x) (ct_intercept_vector4 x) (ct_intercept_vector5 x)
    (ct_pause_filter_thresh x) (ct_pause_filter_count x) (ct_iopm_base_pa x)
    (ct_msrpm_base_pa x) (ct_tsc_offset x) (ct_guest_asid x) (ct_tlb_control x)
    (ct_int_control x) (ct_int_vector x) (ct_int_state x) v (ct_exit_info_1 x)
    (ct_exit_info_2 x) (ct_exit_int_info x) (ct_exit_int_info_err x) (ct_np_enable x)
    (ct_avic_vapic_bar x) (ct_event_inj x) (ct_event_inj_err x) (ct_nest_cr3 x)
    (ct_lbr_control x) (ct_clean_bits x) (ct_next_rip x) (ct_insn_len x) (ct_insn_bytes x)
    (ct_avic_backing_page x) (ct_avic_logical_id x) (ct_avic_physical_id x).
Definition amd_vcpu (code rax_ : Z) : AmdVcpu :=
  AmdVcpu.mkAmd (with_rax rax_ regs_default) 0x1000 0x80ff8 sample_frame
    (mkVmcb (with_exit_code code (control Vmcb_default)) (save Vmcb_default)).
Definition amd_world (code rax_ : Z) : World AmdVcpu :=
  mkWorld sample_cpu (mkPerCpu 0x1000 0 HvEnabled (amd_vcpu code rax_) sample_linux) 2 0.

(** CPUID leaf 1. *)
Lemma cpuid_exit_witness :
  exists w' a b c d, handle_cpuid (amd_world 0x72 1) = (Ok tt, w') /\
    done_with (amd_world 0x72 1) w' (with_abcd a b c d (wregs (amd_world 0x72 1))) (with_rip 2 (wview (amd_world 0x72 1))) /\
    a = 0x906ea /\ b = 0x100800 /\ d = 0xbfebfbff /\
    forall i, 0 <= i < 32 -> Z.testbit c i = guest_ecx 1 0 0x77fafbff i.
Proof.
  refine (cpuid_exit (amd_world 0x72 1) 0x906ea 0x100800 0x77fafbff 0xbfebfbff _ _).
  - exact I.
  - reflexivity.
Defined.

(** The first of two active processors asks to disable and waits. *)
Lemma hypercall_branches_witness : fst (hypercall no_base 0 0 0 (amd_world 0x81 0)) = Diverge.
Proof. refine (hypercall_branches no_base (amd_world 0x81 0) 0 0 0 _). exact I. Defined.

Lemma vmexit_handler_total_witness :
  exists w', vmexit_handler (throw (Fail ENOSYS)) (amd_world 0x72 1) = (Ok tt, w') /\
    done_with (amd_world 0x72 1) w' (wregs (amd_world 0x72 1)) (with_gp (wview (amd_world 0x72 1))).
Proof.
  refine (vmexit_handler_total (throw (Fail ENOSYS)) (amd_world 0x72 1) (Err (Fail ENOSYS)) (amd_world 0x72 1) eq_refl _).
  exact I.
Defined.

(** The initialisation of this processor, with four frames to take. *)
Definition init_machine : Machine ListAlloc.t := mkMachine ∅ (fa_init fa_empty 0x3a300000 0x4000).
Definition sample_percpu : PerCpu AmdVcpu.AmdVcpu :=
  mkPerCpu 0x1000 0 HvDisabled (AmdVcpu.mkAmd regs_default 0x1000 0x80ff8 sample_frame Vmcb_default) sample_linux.
Abbreviation init_run :=
  (percpu_init (amd_new 0x1000) 0x30000 0x40000 (mkDtp 4095 0x50000) 0x8000 0x6000 0x7000
     ((sample_cpu, init_machine), sample_percpu)).

Lemma sample_init_pre : init_pre 0x30000 0x40000 sample_cpu 0x6000.
Proof. split; [exact sample_loaded|split; [left|]; by vm_compute|split; by vm_compute|repeat split; by vm_compute]. Qed.

Lemma amd_linux_becomes_guest_witness :
  exists c' m' p', init_run = (Ok tt, ((c', m'), p')) /\ c_cr3 c' = 0x6000 /\
    guest_is_linux sample_cpu 0x8000 0x7000 (vmcb (vcpu p')).
Proof.
  assert (is_ok (fst init_run) = true) as Hok by (vm_compute; reflexivity).
  pose proof (amd_linux_becomes_guest 0x1000 0x30000 0x40000 (mkDtp 4095 0x50000) 0x8000 0x6000 0x7000 sample_cpu
    init_machine sample_percpu sample_init_pre) as H.
  specialize (H ltac:(split; by vm_compute) ltac:(split; by vm_compute)).
  destruct init_run as [[[]|e| |] [[c' m'] p']]; try discriminate Hok.
  destruct H as (_ & Hg & _ & H3 & _). exists c', m', p'. split; [reflexivity|]. split; [exact H3|exact Hg].
Defined.

(** The processor after [init_run], at the VMMCALL of the guest that disables the
    hypervisor; no other processor is active. *)
Definition at_vmmcall (p : PerCpu AmdVcpu) : World AmdVcpu :=
  let x := vmcb (vcpu p) in
  mkWorld sample_cpu (mkPerCpu (self_vaddr p) (id p) (state p)
    (set_vmcb (mkVmcb (with_exit_code 0x81 (control x)) (save x)) (vcpu p)) (linux p)) 1 0.
Definition leaving_world : World AmdVcpu := at_vmmcall (snd (snd init_run)).

Definition cpu_unchanged (p : PerCpu AmdVcpu) : Prop :=
  let s1 := save (vmcb (vcpu p)) in
  (c_fs sample_cpu, c_gs sample_cpu, c_tr sample_cpu) = (v_selector (s_fs s1), v_selector (s_gs s1), v_selector (s_tr s1)) /\
  msr_read IA32_FS_BASE sample_cpu = v_base (s_fs s1) /\ msr_read IA32_GS_BASE sample_cpu = v_base (s_gs s1).

Lemma at_vmmcall_unchanged p : cpu_unchanged p -> system_unchanged p (at_vmmcall p).
Proof. intros Hc. split; [by split|exact Hc|done]. Qed.

Lemma leaving_unchanged : system_unchanged (snd (snd init_run)) leaving_world.
Proof. apply at_vmmcall_unchanged. vm_compute. split_and!; reflexivity. Qed.

Lemma leaving_resumable : disable_exit leaving_world.
Proof.
  split; [vm_compute; reflexivity..|vm_compute; discriminate|].
  split; cbv zeta; repeat match goal with |- _ /\ _ => split | |- in_range _ _ => split end;
    first [left; vm_compute; split; discriminate || reflexivity | vm_compute; discriminate | vm_compute; reflexivity].
Qed.

Lemma amd_disable_native_witness :
  exists w', vmexit_handler_wrapper no_base leaving_world = (Err BackInLinux, w') /\
    native (w_cpu leaving_world) (exit_save leaving_world) (linux (w_percpu leaving_world)) (w_cpu w') /\
    state (w_percpu w') = HvDisabled.
Proof.
  destruct (amd_disable_native no_base leaving_world leaving_resumable) as (w' & Hw & Hn & Hs & _).
  exists w'. split; [exact Hw|]. split; [exact Hn|exact Hs].
Defined.

Lemma amd_enable_disable_witness :
  exists w', vmexit_handler_wrapper no_base leaving_world = (Err BackInLinux, w') /\
    back_as 0x8000 sample_cpu (w_cpu w').
Proof.
  assert (is_ok (fst init_run) = true) as Hok by (vm_compute; reflexivity).
  pose proof (amd_enable_disable no_base 0x1000 0x30000 0x40000 (mkDtp 4095 0x50000) 0x8000 0x6000 0x7000 sample_cpu
    init_machine sample_percpu (fst (fst (snd init_run))) (snd (fst (snd init_run))) (snd (snd init_run)) leaving_world
    sample_init_pre) as H.
  destruct H as (w' & Hw & Hb & _); [split; by vm_compute..|by vm_compute|by vm_compute| |exact leaving_resumable|exact leaving_unchanged|].
  - destruct init_run as [[[]|e| |] [[c' m'] p']]; try discriminate Hok. reflexivity.
  - exists w'. split; [exact Hw|exact Hb].
Defined.

(** The hypervisor panics in the handler of a hypercall: the guest gets EIO. *)
Lemma panic_branches_witness :
  exists w', guarded no_base true 1 (panic (A := unit)) leaving_world = (Err BackInLinux, w') /\
    state (w_percpu w') = HvDisabled /\ w_activated w' = 0 /\ rax (AmdVcpu.guest_regs (vcpu (w_percpu w'))) = 2 ^ 64 - 5.
Proof.
  pose proof (panic_branches no_base true 1 unit panic leaving_world leaving_world eq_refl) as H. cbv zeta in H.
  assert (state (w_percpu leaving_world) = HvEnabled) as Hs by (vm_compute; reflexivity). rewrite Hs in H.
  destruct H as [_ H]. specialize (H true (fun _ => eq_refl) ltac:(vm_compute; reflexivity)).
  remember (vcpu_exit _) as x eqn:Hx. destruct x as [o [[c1 v] l]].
  assert (o = Ok tt /\ is_ok (fst (restore no_base (E := HvErrorNum) l c1)) = true /\ rax (AmdVcpu.guest_regs v) = 2 ^ 64 - 5)
    as (-> & Hr & Ha).
  { vm_compute in Hx. injection Hx as -> -> -> ->. vm_compute. split_and!; reflexivity. }
  destruct (restore no_base l c1) as [[[]|e| |] c2]; try discriminate Hr.
  eexists. split; [exact H|]. split; [reflexivity|]. split; [reflexivity|exact Ha].
Defined.

Lemma amd_guest_round_witness :
  exists v', vmcb_setup (E := HvErrorNum) sample_cpu sample_linux 0x7000 (amd_vcpu 0 0) = (Ok tt, v') /\
  exists l', load_vmcb_guest (E := HvErrorNum) sample_cpu v' sample_linux = (Ok tt, l') /\
    exit_fields l' = exit_fields sample_linux.
Proof.
  refine (amd_guest_round HvErrorNum sample_cpu sample_cpu sample_linux sample_linux 0x7000 (amd_vcpu 0 0) _).
  split; repeat split; (vm_compute; discriminate) || (vm_compute; reflexivity) || (left; vm_compute; split; discriminate || reflexivity).
Defined.

(** A nested page fault. *)
Lemma amd_unhandled_is_gp_witness :
  let w := amd_world 0x400 7 in
  exists w', vmexit_handler (amd_handle_exit no_base) w = (Ok tt, w') /\
    ct_event_inj (control (wvmcb w')) = GP_EVENT /\ ct_event_inj_err (control (wvmcb w')) = 0 /\
    save (wvmcb w') = save (wvmcb w) /\ w_cpu w' = w_cpu w /\ same_rest w w' /\
    AmdVcpu.guest_regs (vcpu (w_percpu w')) = with_rax (s_rax (save (wvmcb w))) (AmdVcpu.guest_regs (vcpu (w_percpu w))).
Proof. refine (amd_unhandled_is_gp no_base (amd_world 0x400 7) _). reflexivity. Defined.

(** ** An Intel guest *)
Definition sample_addrs : HostAddrs := mkHostAddrs 0x20000 0x1080 0x3000 0x4000.

Lemma sample_cpu_ok : cpu_ok sample_cpu.
Proof.
  split; [|split; (split; [discriminate|reflexivity])|split; [discriminate|reflexivity]].
  intros m. destruct m; (split; [vm_compute; discriminate|vm_compute; reflexivity]).
Qed.

Lemma sample_context_ok : context_ok sample_linux.
Proof.
  split; [| |split; (split; [discriminate|reflexivity])..].
  - repeat (apply Forall_cons; split); [..|by apply Forall_nil]; repeat split; discriminate || reflexivity.
  - repeat (apply Forall_cons; split); [..|by apply Forall_nil]; repeat split; discriminate || reflexivity.
Qed.

Lemma sample_addrs_ok : addrs_ok sample_addrs.
Proof. split. repeat (apply Forall_cons; split); [..|by apply Forall_nil]; repeat split; discriminate || reflexivity. Qed.

Definition vmx_off : VmxState := (false, ∅).

Lemma sample_region : region_ok 0x6000 vmx_off.
Proof. split; [split; [discriminate|reflexivity]|]. by split. Qed.

Lemma vmcs_setup_starts_witness :
  exists h', vmcs_setup sample_addrs 0x6000 sample_linux 0x7000 (sample_cpu, vmx_off) = (Ok tt, (sample_cpu, h')) /\
    vmcs_current h' /\ guest_starts sample_cpu sample_linux h' /\ host_returns sample_addrs sample_cpu 0x7000 h'.
Proof.
  refine (vmcs_setup_starts sample_addrs 0x6000 sample_linux 0x7000 sample_cpu vmx_off sample_region sample_cpu_ok
    sample_context_ok sample_addrs_ok _ _).
  - lia.
  - reflexivity.
Defined.

(** [fixed_cr] decided bit by bit. *)
Lemma fixed_cr_check f0 f1 v free off :
  forallb (fun i => Bool.eqb (Z.testbit v i)
    (Z.testbit f0 i && negb (existsb (Z.eqb i) free) || Z.testbit v i && (Z.testbit f1 i && negb (existsb (Z.eqb i) off)))) (seqZ 0 64) = true ->
  fixed_cr f0 f1 v v free off.
Proof. intros Hb i Hi. apply Bool.eqb_prop. exact (forallb_below 64 _ i Hb Hi). Qed.

Lemma sample_round_ok : round_ok sample_cpu sample_linux.
Proof.
  split.
  - split; [left; split; discriminate || reflexivity|split; discriminate || reflexivity].
  - split; [left; split; discriminate || reflexivity|split; discriminate || reflexivity].
  - split; [apply fixed_cr_check; vm_compute; reflexivity|vm_compute; reflexivity].
  - split; [apply fixed_cr_check; vm_compute; reflexivity|]. split; vm_compute; reflexivity.
Qed.

Definition sample_intel : IntelVcpu := mkIntel regs_default 0x80ff8 (mkFrame 0x5000 1) (mkFrame 0x6000 1).

Lemma intel_guest_round_witness :
  exists h', vmcs_setup sample_addrs 0x6000 sample_linux 0x7000 (sample_cpu, vmx_off) = (Ok tt, (sample_cpu, h')) /\
  exists c' l', load_vmcs_guest ((sample_cpu, (sample_intel, h')), sample_linux) = (Ok tt, ((c', (sample_intel, h')), l')) /\
    intel_exit_fields l' = intel_exit_fields sample_linux /\
    msr_read IA32_SYSENTER_CS c' = wrap 32 (msr_read IA32_SYSENTER_CS sample_cpu) /\
    msr_read IA32_SYSENTER_ESP c' = msr_read IA32_SYSENTER_ESP sample_cpu /\
    msr_read IA32_SYSENTER_EIP c' = msr_read IA32_SYSENTER_EIP sample_cpu.
Proof.
  refine (intel_guest_round sample_addrs 0x6000 sample_linux 0x7000 sample_cpu vmx_off sample_intel sample_cpu sample_linux
    sample_region sample_cpu_ok sample_context_ok sample_addrs_ok _ _ sample_round_ok).
  - lia.
  - reflexivity.
Defined.

(** This processor enters the hypervisor with VMX off. *)
Definition intel_percpu : PerCpu IntelVcpu := mkPerCpu 0x1000 0 HvDisabled sample_intel sample_linux.
Abbreviation vmx_run :=
  (percpu_init (intel_vcpu_new sample_addrs 0x1000) 0x30000 0x40000 (mkDtp 4095 0x50000) 0x8000 0x6000 0x7000
     ((sample_cpu, (vmx_off, init_machine)), intel_percpu)).
(** The memory after it: two frames are taken. *)
Definition after_vmx : Machine ListAlloc.t := snd (snd (fst (snd vmx_run))).

Lemma sample_vmx_available : vmx_available sample_cpu vmx_off init_machine after_vmx.
Proof.
  split; [split; vm_compute; reflexivity|vm_compute; reflexivity|].
  exists (mkFrame 0x3a300000 1), (mkFrame 0x3a301000 1).
  eexists. exists vmx_off. cbv zeta. split; [vm_compute; reflexivity|]. split; [vm_compute; reflexivity|].
  split; [reflexivity|]. split; [split; [discriminate|reflexivity]|by split].
Qed.

Lemma sample_loaded_context l : load_from (E := HvErrorNum) 0x8000 sample_cpu = (Ok l, sample_cpu) -> context_ok l.
Proof.
  intros Hl. vm_compute in Hl. injection Hl as <-. split; [| |split; (split; [discriminate|reflexivity])..].
  all: repeat (apply Forall_cons; split); [..|by apply Forall_nil]; repeat split; discriminate || reflexivity.
Qed.

Lemma intel_linux_becomes_guest_witness :
  exists c3 h' p', vmx_run = (Ok tt, ((c3, (h', after_vmx)), p')) /\ state p' = HvEnabled /\ c_cr3 c3 = 0x6000 /\
    guest_is_linux_vmx sample_cpu 0x8000 h'.
Proof.
  destruct (intel_linux_becomes_guest sample_addrs 0x1000 0x30000 0x40000 (mkDtp 4095 0x50000) 0x8000 0x6000 0x7000
    sample_cpu vmx_off init_machine after_vmx intel_percpu sample_init_pre sample_cpu_ok sample_addrs_ok ltac:(lia) eq_refl
    sample_loaded_context sample_vmx_available) as (c3 & h' & p' & Hr & Hs & _ & H3 & _ & Hg & _).
  exists c3, h', p'. split; [exact Hr|]. split; [exact Hs|]. split; [exact H3|exact Hg].
Defined.

Lemma sample_legal : legal_crs sample_cpu.
Proof.
  split; cbv zeta; apply fixed_cr_check; vm_compute; reflexivity.
Qed.

(** The processor at the VMCALL of the guest that disables the hypervisor (exit
    reason 18); no other processor is active. *)
Definition at_vmcall (h : VmxState) (p : PerCpu IntelVcpu) : World (IntelVcpu * VmxState) :=
  mkWorld sample_cpu (mkPerCpu (self_vaddr p) (id p) (state p) (vcpu p, (true, mem_set (snd h) 0x4402 18)) (linux p)) 1 0.
Definition vmcall_world : World (IntelVcpu * VmxState) := at_vmcall (fst (snd (fst (snd vmx_run)))) (snd (snd vmx_run)).

Lemma vmcall_leaves : vmcall_disable vmcall_world.
Proof.
  split; [vm_compute; reflexivity|split; vm_compute; reflexivity|vm_compute; reflexivity..|vm_compute; discriminate| |].
  - split; cbv zeta; repeat match goal with |- _ /\ _ => split | |- in_range _ _ => split end;
      first [left; vm_compute; split; discriminate || reflexivity | vm_compute; discriminate | vm_compute; reflexivity].
  - intros h _. by split.
Qed.

Lemma vmcall_unchanged : same_system (fst (snd (fst (snd vmx_run)))) (wvmx vmcall_world).
Proof. unfold same_system, system_fields. repeat (apply Forall_cons; split; [vm_compute; reflexivity|]). by apply Forall_nil. Qed.

Lemma intel_disable_native_witness :
  exists w', vmexit_handler (intel_handle_exit no_base) vmcall_world = (Err BackInLinux, w') /\
    native_vmx (wvmx vmcall_world) (linux (w_percpu vmcall_world)) (w_cpu w') /\ state (w_percpu w') = HvDisabled.
Proof.
  destruct (intel_disable_native no_base vmcall_world vmcall_leaves) as (w' & Hw & Hn & Hs & _).
  exists w'. split; [exact Hw|]. split; [exact Hn|exact Hs].
Defined.

Lemma intel_enable_disable_witness :
  exists w', vmexit_handler (intel_handle_exit no_base) vmcall_world = (Err BackInLinux, w') /\
    back_as 0x8000 sample_cpu (w_cpu w').
Proof.
  destruct (intel_enable_disable no_base sample_addrs 0x1000 0x30000 0x40000 (mkDtp 4095 0x50000) 0x8000 0x6000 0x7000
    sample_cpu vmx_off init_machine after_vmx intel_percpu sample_init_pre sample_cpu_ok sample_addrs_ok ltac:(lia) eq_refl
    sample_loaded_context sample_vmx_available sample_legal) as (c3 & h' & p' & Hr & Hd).
  pose proof (f_equal (fun r => fst (snd (fst (snd r)))) Hr) as Eh. pose proof (f_equal (fun r => snd (snd r)) Hr) as Ep.
  cbn [fst snd] in Eh, Ep. subst h' p'.
  destruct (Hd vmcall_world vmcall_leaves vmcall_unchanged) as (w' & Hw & Hb & _); [reflexivity|].
  exists w'. split; [exact Hw|exact Hb].
Defined.

(** An EPT violation (exit reason 48) and RDMSR (31). *)
Definition intel_world (reason : Z) : World (IntelVcpu * VmxState) :=
  mkWorld sample_cpu (mkPerCpu 0x1000 0 HvEnabled (sample_intel, (true, {[0x4402 := reason]})) sample_linux) 2 0.

Lemma intel_exit_branches_witness :
  (exists w', vmexit_handler (intel_handle_exit no_base) (intel_world 48) = (Ok tt, w') /\
    done_with (intel_world 48) w' (wregs (intel_world 48)) (with_gp (wview (intel_world 48)))) /\
  (exists w', vmexit_handler (intel_handle_exit no_base) (intel_world 31) = (Ok tt, w') /\
    done_with (intel_world 31) w' (with_abcd 0 0 0 0 (wregs (intel_world 31))) (with_rip 2 (wview (intel_world 31)))).
Proof.
  split; [refine (intel_exit_branches no_base (intel_world 48) _)|refine (intel_exit_branches no_base (intel_world 31) _)]; reflexivity.
Defined.

(** An exit reason the enum does not have. *)
Lemma intel_exit_unknown : fst (vmexit_handler (intel_handle_exit no_base) (intel_world 35)) = Panic.
Proof. vm_compute. reflexivity. Qed.

