(* ===== verification/System.v ===== *)
(** * The whole start, processor by processor

    [primary_init_early] followed by [PerCpu::init] on every processor, with the
    page tables taken from the static cells as [main] of [src/src/main.rs] does:
    the vCPUs run under the nested page table of the root cell, and what early
    initialisation established about the two page tables still holds. *)

From S2P Require Import Prelude Crates HvError Addr PhysMem Frame Pte Region Paging PagingInv PagingOps PagingSpec MemorySet MemoryProps Config Cell CellProps Early X86 Segmentation Context Cpuid Vcpu Svm AmdVcpu AmdProps Init VmmSamples.

(** ** Taking frames for other purposes *)
Section Taken.
Context {A : Type} {ba : BitAlloc A} {bal : BitAllocLaws A}.

(** From [m] to [m'] frames were taken out of the pool (or given back), and only
    frames that were free in [m] were written to. *)
Record taken (m m' : Machine A) : Prop := {
  tk_wf : fa_wf (fa m');
  tk_base : Frame.base (fa m') = Frame.base (fa m);
  tk_free : forall q, frame_free (fa m') q -> frame_free (fa m) q;
  tk_mem : forall x, (forall q, frame_free (fa m) q -> ~ q <= x < q + PAGE_SIZE) -> mem_get (pm m') x = mem_get (pm m) x;
}.

Lemma taken_refl m : fa_wf (fa m) -> taken m m.
Proof. by split. Qed.

Lemma taken_trans m1 m2 m3 : taken m1 m2 -> taken m2 m3 -> taken m1 m3.
Proof.
  intros [F1 B1 Q1 M1] [F2 B2 Q2 M2]. split; [done|congruence|auto|].
  intros x Hx. rewrite M2, M1; [done|done|]. intros q Hq. by apply Hx, Q1.
Qed.

Lemma taken_frame m f m' : fa_wf (fa m) -> Frame_new m = (Ok f, m') ->
  taken m m' /\ frame_free (fa m) (start_paddr f) /\ ~ frame_free (fa m') (start_paddr f) /\ frame_count f = 1.
Proof.
  intros Hf. unfold Frame_new. destruct (fa_alloc (fa m)) as [[q|] f'] eqn:Ha; [|done]. intros [= <- <-].
  destruct (fa_alloc_some _ _ _ Hf Ha) as (Hf' & Hb & Hq & Hq'). split.
  - split; cbn; try done. intros x Hx. by apply Hq'.
  - split; [done|]. split; [|done]. cbn. intros Hx. by apply Hq' in Hx as [_ ?].
Qed.

Lemma taken_none m e m' : fa_wf (fa m) -> Frame_new m = (Err e, m') -> taken m m'.
Proof.
  intros Hf. unfold Frame_new. destruct (fa_alloc (fa m)) as [[q|] f'] eqn:Ha; [done|]. intros [= _ <-].
  apply fa_alloc_none in Ha as [-> _]. destruct m. by apply taken_refl.
Qed.

(** From [m] to [m'] exactly the frames at [l] left the pool: those and the ones
    that are still free were free before. *)
Record takes (m m' : Machine A) (l : list Z) : Prop := {
  ts_nodup : NoDup l;
  ts_free : forall q, frame_free (fa m) q <-> frame_free (fa m') q \/ q ∈ l;
  ts_used : forall q, q ∈ l -> ~ frame_free (fa m') q;
}.

Lemma takes_nil m : takes m m [].
Proof.
  split; [constructor|intros q; rewrite elem_of_nil; tauto|by intros q Hq%elem_of_nil].
Qed.

Lemma takes_trans m1 m2 m3 l1 l2 : takes m1 m2 l1 -> takes m2 m3 l2 -> takes m1 m3 (l1 ++ l2).
Proof.
  intros [N1 F1 U1] [N2 F2 U2]. split.
  - apply NoDup_app. split_and!; [done| |done]. intros q H1 H2. apply (U1 q H1), F2. by right.
  - intros q. rewrite F1, F2, elem_of_app. tauto.
  - intros q [H1|H2]%elem_of_app; [|by apply U2]. intros H3. apply (U1 q H1), F2. by left.
Qed.

Lemma takes_perm m m' l l' : l ≡ₚ l' -> takes m m' l -> takes m m' l'.
Proof. intros Hl [N F U]. split; [by rewrite <- Hl|intros q; by rewrite <- Hl|intros q; rewrite <- Hl; apply U]. Qed.

Lemma takes_frame m f m' : fa_wf (fa m) -> Frame_new m = (Ok f, m') -> takes m m' [start_paddr f].
Proof.
  intros Hf. unfold Frame_new. destruct (fa_alloc (fa m)) as [[q|] f'] eqn:Ha; [|done]. intros [= <- <-].
  destruct (fa_alloc_some _ _ _ Hf Ha) as (_ & _ & Hq & Hq'). cbn [start_paddr fa]. split.
  - apply NoDup_singleton.
  - intros x. cbn [fa with_fa]. rewrite Hq', list_elem_of_singleton. destruct (decide (x = q)) as [->|]; tauto.
  - intros x ->%list_elem_of_singleton Hx. by apply Hq' in Hx as [_ ?].
Qed.

Lemma takes_none m e m' : Frame_new m = (Err e, m') -> takes m m' [].
Proof.
  unfold Frame_new. destruct (fa_alloc (fa m)) as [[q|] f'] eqn:Ha; [done|]. intros [= _ <-].
  apply fa_alloc_none in Ha as [-> _]. destruct m. apply takes_nil.
Qed.

(** A page table keeps its entries, and a memory set stays valid. *)
Section Survives.
Context {pv : PhysVirt} {pte : GenericPTE} {laws : PTELaws}.

Lemma taken_entry tab s (m m' : Machine A) k t i :
  pt_inv tab s (pm m) (fa m) -> fa_wf (fa m) -> taken m m' -> tab !! k = Some t -> 0 <= i < 512 ->
  ent (pm m') t i = ent (pm m) t i.
Proof.
  intros I Hf T Ht Hi. apply (tk_mem _ _ T). intros q Hq Hr.
  pose proof (inv_table_ok _ _ _ _ I _ _ Ht) as (_ & Ha & _). pose proof (frame_free_paddr _ _ Hf Hq) as (_ & Ha' & _).
  destruct (aligned_block_eq PAGE_SIZE t q (8 * i) (t + 8 * i - q)) as [-> _]; unfold PAGE_SIZE in *; try (lia || done).
  by apply (inv_not_free _ _ _ _ I _ _ Ht).
Qed.

(** A page table and its memory set outlive a change of the machine that keeps the
    entries of the tables and frees no frame. *)
Lemma kept_survives tab (m m' : Machine A) ms :
  fa_wf (fa m') -> (forall q, frame_free (fa m') q -> frame_free (fa m) q) ->
  (forall k t i, tab !! k = Some t -> 0 <= i < 512 -> ent (pm m') t i = ent (pm m) t i) ->
  ms_wf tab (m, ms) -> ms_wf tab (m', ms) /\ forall w, answer (m', pt ms) w = answer (m, pt ms) w.
Proof.
  intros Hf' Hfree He [W Hr Ha [He1 He2]]. unfold pt_st in *. cbn [fst snd] in *. pose proof (wf_inv _ _ W) as I.
  cbn [fst snd] in I.
  assert (forall w, lookup tab (pm m') w = lookup tab (pm m) w) as Hl.
  { intros w. assert (forall sz, leaf_at tab (pm m') sz w = leaf_at tab (pm m) sz w) as Hs.
    { intros sz. unfold leaf_at. destruct (tab !! _) as [t|] eqn:Ht; [|done]. by rewrite (He _ _ _ Ht (idx_range _ _)). }
    unfold lookup. by rewrite !Hs. }
  assert (pt_wf tab (m', pt ms)) as W'.
  { constructor; cbn; try apply W; [|done]. constructor; try apply I.
    - intros k t Ht Hq. by apply (inv_not_free _ _ _ _ I _ _ Ht), Hfree.
    - intros k t i Ht Hi. rewrite (He _ _ _ Ht Hi). by eapply inv_range.
    - intros L p t i c Ht HL Hi Hc. rewrite (He _ _ _ Ht Hi). by eapply inv_child.
    - intros L p t i Ht HL Hi Hc. rewrite (He _ _ _ Ht Hi). by eapply inv_end. }
  split.
  - constructor; cbn; try done. constructor.
    + intros k r Hin. eapply region_mapped_frame; [by eapply He1|]. intros v _. apply Hl.
    + intros w e. rewrite Hl. apply He2.
  - intros w. by apply (same_answer tab tab).
Qed.

Lemma taken_survives tab (m m' : Machine A) ms :
  taken m m' -> ms_wf tab (m, ms) -> ms_wf tab (m', ms) /\ forall w, answer (m', pt ms) w = answer (m, pt ms) w.
Proof.
  intros T W. apply kept_survives; [apply T|apply T| |done]. intros k t i.
  pose proof (ms_pt _ _ W) as P. exact (taken_entry tab _ m m' k t i (wf_inv _ _ P) (wf_fa _ _ P) T).
Qed.
End Survives.
End Taken.

(** ** All processors *)
Section System.
Context {A : Type} {ba : BitAlloc A} {bal : BitAllocLaws A} {bf : BitField} {xr : X86Regs} {xd : X86Desc}.
Context (hpte npte : GenericPTE) (hlaws : PTELaws (pte := hpte)) (nlaws : PTELaws (pte := npte)).
Context (core_end EMPTY_PAGE : Z) (header : HvHeader) (sys_config : HvSystemConfig).
Context (mem_regions : list HvMemoryRegion) (check_hypervisor_feature : outcome HvErrorNum unit).

#[local] Instance system_pv : PhysVirt := phys_virt_offset sys_config.

Abbreviation early_ok := (early_ok hpte npte core_end EMPTY_PAGE header sys_config mem_regions check_hypervisor_feature hlaws nlaws).
Abbreviation early_done := (early_done hpte npte core_end EMPTY_PAGE header sys_config mem_regions hlaws nlaws).
Abbreviation primary_init_early := (primary_init_early hpte npte core_end EMPTY_PAGE header sys_config mem_regions check_hypervisor_feature).

Lemma early_done_wf (m : Machine A) hv gpm : early_done m hv gpm -> fa_wf (fa m).
Proof. intros D. destruct (ed_hv _ _ _ _ _ _ _ _ _ _ _ _ D) as [tab W]. apply (wf_fa _ _ (ms_pt _ _ W)). Qed.

Lemma early_done_same (m m' : Machine A) hv gpm :
  (forall tab, ms_wf (pte := hpte) tab (m, hv) -> ms_wf (pte := hpte) tab (m', hv) /\
     forall w, answer (pte := hpte) (m', pt hv) w = answer (pte := hpte) (m, pt hv) w) ->
  (forall tab, ms_wf (pte := npte) tab (m, gpm) -> ms_wf (pte := npte) tab (m', gpm) /\
     forall w, answer (pte := npte) (m', pt gpm) w = answer (pte := npte) (m, pt gpm) w) ->
  (forall q, frame_free (fa m') q -> frame_free (fa m) q) -> early_done m hv gpm -> early_done m' hv gpm.
Proof.
  intros Sh Sn Hq [[tab W] [tabn Wn] Hl Ht Hf Ha Hg Hr].
  destruct (Sh tab W) as [W' Hh]. destruct (Sn tabn Wn) as [Wn' Hn].
  split; [by exists tab|by exists tabn| |exact Ht| |exact Ha| |].
  - intros x Hx. rewrite Hh. by apply Hl.
  - intros q Hx. by apply Hf, Hq.
  - intros Hav gpa hpa fl sz. rewrite Hn. by apply Hg.
  - intros r gpa Hin Hok Hgpa. rewrite Hh, Hn. by apply Hr.
Qed.

Lemma early_done_taken (m m' : Machine A) hv gpm : taken m m' -> early_done m hv gpm -> early_done m' hv gpm.
Proof.
  intros T. apply (early_done_same m m'); [intros tab W; by apply taken_survives..|apply T].
Qed.

(** A change of the machine outside the memory of the hypervisor. *)
Record outside (m m' : Machine A) : Prop := {
  ou_fa : fa m' = fa m;
  ou_mem : forall x, phys_start (hypervisor_memory sys_config) <= x <
      phys_start (hypervisor_memory sys_config) + mr_size (hypervisor_memory sys_config) -> mem_get (pm m') x = mem_get (pm m) x;
}.

Lemma early_done_outside (m m' : Machine A) hv gpm :
  HV_BASE <= config_end core_end header sys_config -> outside m m' -> early_done m hv gpm -> early_done m' hv gpm.
Proof.
  intros Hce [Hf Hm] D. pose proof (early_done_wf _ _ _ D) as Hw.
  assert (forall t i, t ∈ frames (pt hv) \/ t ∈ frames (pt gpm) -> 0 <= i < 512 -> ent (pm m') t i = ent (pm m) t i) as He.
  { intros t i Ht Hi. apply Hm. destruct (ed_tables _ _ _ _ _ _ _ _ _ _ _ _ D t Ht). unfold PAGE_SIZE in *. lia. }
  apply (early_done_same m m'); [| |by rewrite Hf|done].
  - intros tab W. apply kept_survives; [by rewrite Hf|by rewrite Hf| |done]. intros k t i Ht Hi. apply He; [|done]. left.
    apply (wf_frames _ _ (ms_pt _ _ W)). by exists k.
  - intros tab W. apply kept_survives; [by rewrite Hf|by rewrite Hf| |done]. intros k t i Ht Hi. apply He; [|done]. right.
    apply (wf_frames _ _ (ms_pt _ _ W)). by exists k.
Qed.

(** The roots of the two tables are frames. *)
Lemma early_done_roots (m : Machine A) hv gpm :
  early_done m hv gpm -> table_ok (root_paddr (pt hv)) /\ table_ok (root_paddr (pt gpm)).
Proof.
  intros [[tab W] [tabn Wn] _ _ _ _ _ _]. pose proof (wf_inv _ _ (ms_pt _ _ W)) as I. pose proof (wf_inv _ _ (ms_pt _ _ Wn)) as In.
  split; [eapply (inv_table_ok _ _ _ _ I), (inv_root _ _ _ _ I)|eapply (inv_table_ok _ _ _ _ In), (inv_root _ _ _ _ In)].
Qed.

(** A processor at the call of [arch_entry], with the state of its
    virtualisation hardware [pr_local], its per-CPU data, the boxes of its TSS and
    GDT and the frame on the stack of Linux. [Vcpu::new] is the vendor's; it works
    on a state [X] made of the local state and the memory. *)
Context {V L X : Type} (idt : DescriptorTablePointer).
Context (pack : L -> Machine A -> X) (local : X -> L) (memory : X -> Machine A).
Context (vcpu_new : Z -> LinuxContext -> Z -> M (Cpu * X) HvErrorNum V).

Record Processor : Type := mkProcessor {
  pr_cpu : Cpu; pr_local : L; pr_percpu : PerCpu V; pr_tss : Z; pr_gdt : Z; pr_sp : Z;
}.

Abbreviation run_init b hv_root cell_root m :=
  (percpu_init (vcpu_new (self_vaddr (pr_percpu b))) (pr_tss b) (pr_gdt b) idt (pr_sp b) hv_root cell_root
     ((pr_cpu b, pack (pr_local b) m), pr_percpu b)).

(** [cell::root_cell()] and [memory::hv_page_table()], which panic before early
    initialisation. *)
Definition root_cell : M (Machine A * Globals) HvErrorNum MemorySet :=
  let* g := gets snd in match ROOT_CELL g with Some cell => ret cell | None => panic end.
Definition hv_page_table : M (Machine A * Globals) HvErrorNum MemorySet :=
  let* g := gets snd in match HV_PT g with Some hv_pt => ret hv_pt | None => panic end.

(** [cpu_data.init(linux_sp, cell::root_cell())], with the root of the page table
    it activates taken beforehand: the error, if any, and the processor after
    it. *)
Definition init_processor (b : Processor) : M (Machine A * Globals) HvErrorNum (option HvErrorNum * Processor) :=
  let* cell := root_cell in
  let* hv_pt := hv_page_table in
  fun '(m, g) =>
    let '(r, ((c', x'), p')) := run_init b (root_paddr (pt hv_pt)) (root_paddr (pt cell)) m in
    let b' := mkProcessor c' (local x') p' (pr_tss b) (pr_gdt b) (pr_sp b) in
    (match r with Ok _ => Ok (None, b') | Err e => Ok (Some e, b') | Panic => Panic | Diverge => Diverge end, (memory x', g)).

Fixpoint init_all (l : list Processor) : M (Machine A * Globals) HvErrorNum (list (option HvErrorNum * Processor)) :=
  match l with
  | [] => ret []
  | b :: l => let* x := init_processor b in let* rest := init_all l in ret (x :: rest)
  end.

(** The primary processor first; the others wait for it ([boot_barriers]). *)
Definition start_system (l : list Processor) : M (Machine A * Globals) HvErrorNum (list (option HvErrorNum * Processor)) :=
  primary_init_early ;;; init_all l.

Lemma init_processor_run b m hv gpm i :
  init_processor b (m, mkGlobals (Some hv) (Some gpm) i) =
    let '(r, ((c', x'), p')) := run_init b (root_paddr (pt hv)) (root_paddr (pt gpm)) m in
    let b' := mkProcessor c' (local x') p' (pr_tss b) (pr_gdt b) (pr_sp b) in
    (match r with Ok _ => Ok (None, b') | Err e => Ok (Some e, b') | Panic => Panic | Diverge => Diverge end,
     (memory x', mkGlobals (Some hv) (Some gpm) i)).
Proof. reflexivity. Qed.

(** What the vendor promises of [PerCpu::init] on a processor that is [good]: it
    returns; after a success the vCPU holds exactly the frames [owns] taken from
    the pool, after an error all that were taken are back. *)
Context (good : Processor -> Prop) (started : Z -> Z -> Processor -> Machine A -> Processor -> Prop) (owns : V -> list Z).
Definition vendor_ok : Prop := forall b hv_root cell_root m,
  good b -> table_ok hv_root -> table_ok cell_root -> fa_wf (fa m) ->
  match run_init b hv_root cell_root m with
  | (Ok _, ((c', x'), p')) => taken m (memory x') /\ takes m (memory x') (owns (vcpu p')) /\
      started hv_root cell_root b m (mkProcessor c' (local x') p' (pr_tss b) (pr_gdt b) (pr_sp b))
  | (Err _, ((_, x'), p')) => taken m (memory x') /\ takes m (memory x') [] /\ state p' = HvDisabled
  | _ => False
  end.
Hypothesis vendor : vendor_ok.

(** The frames the initialised processors hold. *)
Definition owned (xs : list (option HvErrorNum * Processor)) : list Z :=
  flat_map (fun x => match fst x with None => owns (vcpu (pr_percpu (snd x))) | Some _ => [] end) xs.

Definition outcome_ok hv gpm (b : Processor) (x : option HvErrorNum * Processor) : Prop :=
  match x with
  | (None, b') => exists m, early_done m hv gpm /\ started (root_paddr (pt hv)) (root_paddr (pt gpm)) b m b'
  | (Some _, b') => state (pr_percpu b') = HvDisabled
  end.

Lemma init_all_ok hv gpm i l : forall m,
  Forall good l -> early_done m hv gpm ->
  match init_all l (m, mkGlobals (Some hv) (Some gpm) i) with
  | (Ok xs, (m', g')) => g' = mkGlobals (Some hv) (Some gpm) i /\ taken m m' /\ takes m m' (owned xs) /\
      early_done m' hv gpm /\ Forall2 (outcome_ok hv gpm) l xs
  | _ => False
  end.
Proof.
  induction l as [|b l IH]; intros m Hl D.
  - cbn. split; [done|]. split; [by apply taken_refl, (early_done_wf _ hv gpm)|]. split; [apply takes_nil|]. split; [done|constructor].
  - apply Forall_cons in Hl as [Hb Hl]. destruct (early_done_roots _ _ _ D) as [Rh Rn].
    pose proof (vendor b _ _ m Hb Rh Rn (early_done_wf _ _ _ D)) as Hv. cbn [init_all]. unfold bind at 1. rewrite init_processor_run. destruct (run_init b _ _ m) as [[[]|e| |] [[c' x'] p']]; try done; destruct Hv as (T & Ts & Hs).
    all: pose proof (early_done_taken _ _ _ _ T D) as D'; specialize (IH (memory x') Hl D'); unfold bind.
    all: destruct (init_all l _) as [[xs|e'| |] [m2 g2]]; try done; destruct IH as (-> & T2 & Ts2 & D2 & Hx).
    all: split; [done|]; split; [by eapply taken_trans|]; split; [exact (takes_trans _ _ _ _ _ Ts Ts2)|]; split; [done|]; constructor; [|done].
    + by exists m.
    + done.
Qed.

(** The start with any vendor. *)
Lemma start_system_ok l (m : Machine A) g :
  early_ok -> Forall good l -> HV_PT g = None -> ROOT_CELL g = None ->
  match start_system l (m, g) with
  | (Ok xs, (m', g')) => exists hv gpm m1, primary_init_early (m, g) = (Ok tt, (m1, g')) /\
      g' = mkGlobals (Some hv) (Some gpm) 1 /\ takes m1 m' (owned xs) /\ early_done m' hv gpm /\ Forall2 (outcome_ok hv gpm) l xs
  | (Err _, (_, g')) => INIT_EARLY_OK g' = INIT_EARLY_OK g /\ ROOT_CELL g' = None
  | (Panic, (m', _)) => forall q, ~ frame_free (fa m') q
  | (Diverge, _) => False
  end.
Proof.
  intros E Hl Hg1 Hg2. pose proof (early_protects_ok hpte npte core_end EMPTY_PAGE header sys_config mem_regions
    check_hypervisor_feature hlaws nlaws m g E Hg1 Hg2) as H.
  unfold start_system, bind. destruct (primary_init_early (m, g)) as [[[]|e| |] [m1 g1]]; try done.
  destruct H as (_ & _ & hv & gpm & -> & D). pose proof (init_all_ok hv gpm 1 l m1 Hl D) as Ha.
  destruct (init_all l _) as [[xs|e| |] [m2 g2]]; try done.
  destruct Ha as (-> & _ & Ts & D2 & Hx). by exists hv, gpm, m1.
Qed.
End System.

(** ** What a guest can reach *)
Section Confined.
Context {A : Type} {ba : BitAlloc A} {bal : BitAllocLaws A}.
Context (hpte npte : GenericPTE) (hlaws : PTELaws (pte := hpte)) (nlaws : PTELaws (pte := npte)).
Context (core_end EMPTY_PAGE : Z) (header : HvHeader) (sys_config : HvSystemConfig).
Context (mem_regions : list HvMemoryRegion) (check_hypervisor_feature : outcome HvErrorNum unit).

Abbreviation early_ok := (early_ok hpte npte core_end EMPTY_PAGE header sys_config mem_regions check_hypervisor_feature hlaws nlaws).
Abbreviation early_done := (early_done hpte npte core_end EMPTY_PAGE header sys_config mem_regions hlaws nlaws).
Abbreviation hv_start := (phys_start (hypervisor_memory sys_config)).
Abbreviation hv_size := (mr_size (hypervisor_memory sys_config)).

#[local] Instance confined_pv : PhysVirt := phys_virt_offset sys_config.

(** Under the nested page table at [root] the memory of the hypervisor can be
    reached by the read-only empty page only, and the frames of [own] not at
    all. *)
Definition confined_at (m : Machine A) (root : Z) (own : list Frame) : Prop :=
  forall gpa hpa fl sz, query_at (pte := npte) (pm m) root gpa = Ok (hpa, fl, sz) ->
    (hv_start <= hpa < hv_start + hv_size ->
     virt_to_phys EMPTY_PAGE <= hpa < virt_to_phys EMPTY_PAGE + PAGE_SIZE /\ fl = pte_view (pte := npte) READ_ONLY) /\
    Forall (fun f => ~ start_paddr f <= hpa < start_paddr f + PAGE_SIZE) own.

Lemma confined_intro (m m0 : Machine A) hv gpm own :
  early_ok -> avoids_hv EMPTY_PAGE sys_config mem_regions -> early_done m hv gpm -> early_done m0 hv gpm ->
  Forall (fun f => frame_free (fa m0) (start_paddr f)) own -> confined_at m (root_paddr (pt gpm)) own.
Proof.
  intros E Hav D D0 Hown gpa hpa fl sz Hq.
  assert (answer (pte := npte) (m, pt gpm) gpa = Ok (hpa, fl, sz)) as Ha by exact Hq.
  destruct (ed_guest _ _ _ _ _ _ _ _ _ _ _ _ D Hav gpa hpa fl sz Ha) as [Hi _]. split; [done|].
  eapply Forall_impl; [exact Hown|]. cbv beta. intros f Hf Hr.
  destruct (ed_free _ _ _ _ _ _ _ _ _ _ _ _ D0 _ Hf) as [Hlo Hhi]. pose proof (config_end_in _ _ _ _ _ _ _ _ _ _ E) as Hce.
  apply (pool_not_empty _ _ _ _ _ _ _ _ _ _ _ hpa E Hlo Hhi Hr), Hi. unfold PAGE_SIZE in *. lia.
Qed.
End Confined.

(** ** On AMD *)
Section AmdSystem.
Context {A : Type} {ba : BitAlloc A} {bal : BitAllocLaws A} {bf : BitField} {xr : X86Regs} {xrl : X86RegsLaws}.
Context {xd : X86Desc} {xdl : X86DescLaws} {rc : RawCpuid}.
Context (hpte npte : GenericPTE) (hlaws : PTELaws (pte := hpte)) (nlaws : PTELaws (pte := npte)).
Context (core_end EMPTY_PAGE : Z) (header : HvHeader) (sys_config : HvSystemConfig).
Context (mem_regions : list HvMemoryRegion) (check_hypervisor_feature : outcome HvErrorNum unit) (idt : DescriptorTablePointer).

Abbreviation early_ok := (early_ok hpte npte core_end EMPTY_PAGE header sys_config mem_regions check_hypervisor_feature hlaws nlaws).
Abbreviation early_done := (early_done hpte npte core_end EMPTY_PAGE header sys_config mem_regions hlaws nlaws).
Abbreviation hv_start := (phys_start (hypervisor_memory sys_config)).
Abbreviation hv_size := (mr_size (hypervisor_memory sys_config)).

#[local] Instance amd_system_pv : PhysVirt := phys_virt_offset sys_config.

Abbreviation AmdProcessor := (Processor (V := AmdVcpu) (L := unit)).
Abbreviation amd_start_system := (start_system hpte npte core_end EMPTY_PAGE header sys_config mem_regions check_hypervisor_feature idt
  (fun _ m => m) (fun _ => tt) (fun m => m) amd_new).

(** Linux has its selectors in its GDT, and the boxes are where a heap can be. *)
Record amd_ready (b : AmdProcessor) : Prop := {
  ar_linux : all_loaded (pr_cpu b);
  ar_gdt : canonical (pr_gdt b) /\ pr_gdt b + 128 <= 2 ^ 64;
  ar_tss : in_range 64 (pr_tss b);
  ar_regs : in_range 64 (msr_read IA32_EFER (pr_cpu b)) /\ in_range 64 (c_cr4 (pr_cpu b));
}.

Definition amd_started (hv_root cell_root : Z) (b : AmdProcessor) (m : Machine A) (b' : AmdProcessor) : Prop :=
  let v := vcpu (pr_percpu b') in
  state (pr_percpu b') = HvEnabled /\ guest_is_linux (pr_cpu b) (pr_sp b) cell_root (vmcb v) /\
  c_cr3 (pr_cpu b') = hv_root /\ frame_free (fa m) (start_paddr (host_save_area v)).

(** The frame of a vCPU. *)
Definition amd_owns (v : AmdVcpu) : list Z := [start_paddr (host_save_area v)].

Lemma amd_vendor : vendor_ok idt (fun _ m => m) (fun _ => tt) (fun m => m) amd_new amd_ready amd_started amd_owns.
Proof.
  intros b hv_root cell_root m [Hl Hg Ht [He H4]] (Hh & Hha & Hh52) _ Hf.
  assert (init_pre (pr_tss b) (pr_gdt b) (pr_cpu b) hv_root) as Hpre.
  { split; try done. unfold PAGE_SIZE in *. split; [lia|done]. }
  pose proof (amd_init_cases (self_vaddr (pr_percpu b)) (pr_tss b) (pr_gdt b) idt (pr_sp b) hv_root cell_root (pr_cpu b) m
    (pr_percpu b) Hpre He H4) as Hc.
  destruct (percpu_init _ _ _ _ _ _ _ _) as [[[]|e| |] [[c' m'] p']]; try done.
  - destruct Hc as (Hs & Hgl & _ & H3 & _ & _ & f & Hn & Hsa & _).
    destruct (taken_frame m f m' Hf Hn) as (T & Hfree & _). split; [done|]. unfold amd_started, amd_owns. rewrite Hsa.
    split; [by apply takes_frame|]. cbn [pr_percpu pr_cpu]. by rewrite Hsa.
  - destruct Hc as (Hs & _ & _ & _ & [(_ & _ & ->)|[(_ & _ & ->)|Hn]]); (split; [|split; [|done]]);
      [by apply taken_refl|apply takes_nil|by apply taken_refl|apply takes_nil|by eapply taken_none|by eapply takes_none].
Qed.

(** The guest of a VMCB is confined, and nested paging is on. *)
Definition confined (m : Machine A) (v : AmdVcpu) : Prop :=
  ct_np_enable (control (vmcb v)) = 1 /\
  confined_at npte nlaws EMPTY_PAGE sys_config m (ct_nest_cr3 (control (vmcb v))) [host_save_area v].

Lemma amd_confined (m m0 : Machine A) hv gpm (b b' : AmdProcessor) :
  early_ok -> avoids_hv EMPTY_PAGE sys_config mem_regions -> early_done m hv gpm -> early_done m0 hv gpm ->
  amd_started (root_paddr (pt hv)) (root_paddr (pt gpm)) b m0 b' -> confined m (vcpu (pr_percpu b')).
Proof.
  intros E Hav D D0 (_ & Hg & _ & Hf). destruct (gl_nested _ _ _ _ Hg) as [Hnp Hcr]. split; [done|]. rewrite Hcr.
  by apply (confined_intro hpte npte hlaws nlaws core_end EMPTY_PAGE header sys_config mem_regions check_hypervisor_feature
    m m0 hv gpm), Forall_singleton.
Qed.

(** C13. The hypervisor takes over an AMD machine: early initialisation and
    [PerCpu::init] on every processor, from any configuration that fits. Every
    processor that is initialised runs on the page table of the hypervisor with
    its Linux as the guest, under nested paging through which no access reaches
    the hypervisor memory (page tables, host save areas and all) except for the
    read-only empty page; both page tables are as early initialisation left
    them. A failing processor stays disabled; the only panic is an exhausted
    pool. *)
Theorem amd_guests_confined (l : list AmdProcessor) (m : Machine A) g :
  early_ok -> avoids_hv EMPTY_PAGE sys_config mem_regions -> Forall amd_ready l -> HV_PT g = None -> ROOT_CELL g = None ->
  match amd_start_system l (m, g) with
  | (Ok xs, (m', g')) => exists hv gpm, g' = mkGlobals (Some hv) (Some gpm) 1 /\ early_done m' hv gpm /\
      Forall2 (fun b '(e, b') =>
        match e with
        | None => guest_is_linux (pr_cpu b) (pr_sp b) (root_paddr (pt gpm)) (vmcb (vcpu (pr_percpu b'))) /\
            c_cr3 (pr_cpu b') = root_paddr (pt hv) /\ state (pr_percpu b') = HvEnabled /\ confined m' (vcpu (pr_percpu b'))
        | Some _ => state (pr_percpu b') = HvDisabled
        end) l xs
  | (Err _, (_, g')) => INIT_EARLY_OK g' = INIT_EARLY_OK g /\ ROOT_CELL g' = None
  | (Panic, (m', _)) => forall q, ~ frame_free (fa m') q
  | (Diverge, _) => False
  end.
Proof.
  intros E Hav Hl Hg1 Hg2.
  pose proof (start_system_ok hpte npte hlaws nlaws core_end EMPTY_PAGE header sys_config mem_regions check_hypervisor_feature idt
    (fun _ m => m) (fun _ => tt) (fun m => m) amd_new amd_ready amd_started amd_owns amd_vendor l m g E Hl Hg1 Hg2) as H.
  destruct (amd_start_system l (m, g)) as [[xs|e| |] [m' g']]; try done.
  destruct H as (hv & gpm & m1 & _ & -> & _ & D & Hx). exists hv, gpm. split; [done|]. split; [done|].
  eapply Forall2_impl; [exact Hx|]. intros b [[e|] b'] Ho; [done|]. destruct Ho as (m0 & D0 & Hs).
  pose proof (amd_confined m' m0 hv gpm b b' E Hav D D0 Hs). destruct Hs as (? & ? & ? & _). cbv beta iota. by split_and!.
Qed.
End AmdSystem.

(** ** On the sample configuration *)
Module SystemSample.
#[local] Existing Instance X86PageTableFlags_ref.
#[local] Existing Instance BitField_ref.
#[local] Existing Instance X86Regs_ref.
#[local] Existing Instance X86Regs_ref_laws.
#[local] Existing Instance X86Desc_ref.
#[local] Existing Instance X86Desc_ref_laws.
#[local] Existing Instance RawCpuid_ref.
#[local] Existing Instance RawCpuid_ref_laws.

(** Two processors, their boxes in different places of the heap. *)
Definition amd_processor (i : Z) : Processor (V := AmdVcpu) (L := unit) :=
  mkProcessor sample_cpu tt (mkPerCpu (Boot.core_end + i * PER_CPU_SIZE) i HvDisabled (vcpu sample_percpu) sample_linux)
    (0x30000 + i * 0x1000) (0x40000 + i * 0x1000) 0x8000.

Abbreviation amd_system_run :=
  (start_system PTEntry.ops NPTEntry.ops Boot.core_end Boot.EMPTY_PAGE Boot.header Boot.cfg [Boot.ram; Boot.io] (Ok tt)
     (mkDtp 4095 0x50000) (fun _ m => m) (fun _ => tt) (fun m => m) amd_new [amd_processor 0; amd_processor 1]
     (mkMachine ∅ (fa_empty (A := ListAlloc.t)), mkGlobals None None 0)).

Lemma amd_sample_ready i : 0 <= i < 2 -> amd_ready (amd_processor i).
Proof.
  intros Hi. split; [exact sample_loaded| | |split; split; by vm_compute].
  - unfold amd_processor. cbn [pr_gdt]. split; [left|]; lia.
  - unfold amd_processor, in_range. cbn [pr_tss]. lia.
Qed.

#[local] Instance sample_pv : PhysVirt := phys_virt_offset Boot.cfg.

Lemma npt_hv_empty : region_pre (pte := NPTEntry.ops) (laws := NPTEntry.laws) (hv_empty_region Boot.EMPTY_PAGE Boot.cfg).
Proof.
  constructor; [split; by vm_compute|split; by vm_compute|split; by vm_compute|by vm_compute|].
  intros v _. split; by vm_compute.
Qed.

Lemma npt_sample_early_ok :
  early_ok (A := ListAlloc.t) PTEntry.ops NPTEntry.ops Boot.core_end Boot.EMPTY_PAGE Boot.header Boot.cfg
    [Boot.ram; Boot.io] (Ok tt) PTEntry.laws NPTEntry.laws.
Proof.
  constructor.
  - exact Boot.layout_sample_ok.
  - vm_compute. discriminate.
  - vm_compute. discriminate.
  - exact Boot.cfg_hv_ok.
  - constructor; [exact npt_hv_empty| |by vm_compute].
    apply Forall_cons. split; [|apply Forall_singleton];
      apply (offset_pre (pte := NPTEntry.ops) (laws := NPTEntry.laws)); by vm_compute.
  - split; by vm_compute.
  - by left.
Qed.

Lemma amd_guests_confined_witness :
  exists b0 b1 m g, amd_system_run = (Ok [(None, b0); (None, b1)], (m, g)) /\
    confined NPTEntry.ops NPTEntry.laws Boot.EMPTY_PAGE Boot.cfg m (vcpu (pr_percpu b0)) /\
    confined NPTEntry.ops NPTEntry.laws Boot.EMPTY_PAGE Boot.cfg m (vcpu (pr_percpu b1)).
Proof.
  pose proof (amd_guests_confined PTEntry.ops NPTEntry.ops PTEntry.laws NPTEntry.laws Boot.core_end Boot.EMPTY_PAGE Boot.header
    Boot.cfg [Boot.ram; Boot.io] (Ok tt) (mkDtp 4095 0x50000) [amd_processor 0; amd_processor 1]
    (mkMachine ∅ (fa_empty (A := ListAlloc.t))) (mkGlobals None None 0) npt_sample_early_ok Boot.cfg_avoids_hv) as H.
  assert (match fst amd_system_run with Ok [(None, _); (None, _)] => true | _ => false end = true) as Hok by (vm_compute; reflexivity).
  destruct amd_system_run as [[[|[[?|] b0] [|[[?|] b1] [|? ?]]]|e| |] [m g]]; try discriminate Hok.
  exists b0, b1, m, g. split; [reflexivity|].
  destruct H as (hv & gpm & _ & _ & Hx); [|reflexivity..|].
  - apply Forall_cons. split; [|apply Forall_singleton]; apply amd_sample_ready; lia.
  - apply Forall2_cons_1 in Hx as [(_ & _ & _ & H0) Hx]. apply Forall2_cons_1 in Hx as [(_ & _ & _ & H1) _]. split; [exact H0|exact H1].
Defined.
End SystemSample.
