(* ===== verification/IntelSystem.v ===== *)
(** * The whole start on Intel

    [start_system] of [System] with the Intel [Vcpu::new]: the frames of the VMXON
    regions and VMCSs come and go on every path, and every guest starts under
    the EPT of the root cell. *)

From S2P Require Import Prelude Crates HvError Addr PhysMem Frame Pte Region Paging PagingInv PagingOps PagingSpec MemorySet MemoryProps Config Cell CellProps Early X86 Segmentation Context Cpuid Vcpu Panic Init Vmx MsrBitmap IntelVcpu IntelProps IntelDisable VmmSamples System.

(** ** The frames of VMX *)
Section Frames.
Context {A : Type} {ba : BitAlloc A} {bal : BitAllocLaws A} {bf : BitField}.

Lemma takes_region m rev sh f m' : fa_wf (fa m) -> VmxRegion_new rev sh m = (Ok f, m') ->
  taken m m' /\ takes m m' [start_paddr f] /\ frame_count f = 1.
Proof.
  intros Hf Hn. unfold VmxRegion_new in Hn. apply bind_inv_ok in Hn as (f1 & m1 & H1 & Hn).
  rewrite bind_gets in Hn. destruct (bf_set_bits _ _ _ _ _) as [x|]; [|done].
  rewrite bind_modify in Hn. injection Hn as <- <-. pose proof (takes_frame _ _ _ Hf H1) as [N F U].
  destruct (taken_frame m f1 m1 Hf H1) as ([T1 T2 T3 T4] & Hfr & _ & Hc). split; [|by split].
  split; cbn [pm fa]; try done. intros y Hy. rewrite mem_get_set_ne; [by apply T4|].
  intros ->. apply (Hy _ Hfr). unfold PAGE_SIZE. lia.
Qed.

Lemma takes_region_err m rev sh e m' : fa_wf (fa m) -> VmxRegion_new rev sh m = (Err e, m') -> taken m m' /\ takes m m' [].
Proof.
  intros Hf Hn. unfold VmxRegion_new in Hn. destruct (Frame_new m) as [[f|e'| |] m1] eqn:H1.
  - rewrite (bind_ok _ _ _ _ _ H1), bind_gets in Hn. by destruct (bf_set_bits _ _ _ _ _).
  - rewrite (bind_err _ _ _ _ _ H1) in Hn. injection Hn as _ <-. split; [by eapply taken_none|by eapply takes_none].
  - unfold bind in Hn. by rewrite H1 in Hn.
  - unfold bind in Hn. by rewrite H1 in Hn.
Qed.

(** Giving one frame back. *)
Lemma takes_drop m m' f l : fa_wf (fa m) -> taken m m' -> frame_count f = 1 -> takes m m' (start_paddr f :: l) ->
  let m2 := with_fa (fa_dealloc (fa m') (start_paddr f)) m' in
  drop_frames [f] m' = m2 /\ taken m m2 /\ takes m m2 l.
Proof.
  intros Hf T Hc [[Hfl Hd]%NoDup_cons F U] m2. split; [unfold m2, drop_frames, Frame_drop, modify; cbn [fold_left snd]; by rewrite Hc|].
  assert (frame_free (fa m) (start_paddr f)) as Hq by (apply F; right; by left).
  assert (start_paddr f mod PAGE_SIZE = 0 /\ Frame.base (fa m') <= start_paddr f < Frame.base (fa m') + ba_cap * PAGE_SIZE) as [Ha Hr].
  { destruct (frame_free_paddr _ _ Hf Hq) as (_ & Ha & _). split; [done|]. rewrite (tk_base _ _ T).
    destruct Hq as (i & Hi & ->). apply ba_test_bound in Hi. unfold PAGE_SIZE. lia. }
  destruct (fa_dealloc_spec (fa m') (start_paddr f) (tk_wf _ _ T) (U _ ltac:(by left)) Ha Hr) as [Hw Hfr]. split.
  - destruct T as [T1 T2 T3 T4]. split; cbn [m2 with_fa fa pm]; try done. intros q [Hx| ->]%Hfr; [by apply T3|done].
  - split; [done|..]; cbn [m2 with_fa fa]; intros q.
    + rewrite F, Hfr, elem_of_cons. tauto.
    + intros Hl [Hx| ->]%Hfr; [by apply (U q); [right|]|done].
Qed.

(** Giving all back. *)
Lemma takes_drops m l : forall m', fa_wf (fa m) -> taken m m' -> takes m m' (start_paddr <$> l) ->
  Forall (fun f => frame_count f = 1) l -> taken m (drop_frames l m') /\ takes m (drop_frames l m') [].
Proof.
  induction l as [|f l IH]; intros m' Hf T Ts Hc; [done|]. apply Forall_cons in Hc as [Hc Hl].
  rewrite fmap_cons in Ts. destruct (takes_drop m m' f _ Hf T Hc Ts) as (E & T2 & Ts2).
  change (drop_frames (f :: l) m') with (drop_frames l (drop_frames [f] m')). rewrite E. by apply IH.
Qed.
End Frames.

(** ** The set-up on every branch *)
Section Outcomes.
Context {A : Type} {ba : BitAlloc A} {bal : BitAllocLaws A}.
Context {bf : BitField} {xr : X86Regs} {xrl : X86RegsLaws} {xd : X86Desc} {xdl : X86DescLaws}.
Context {rc : RawCpuid} {rcl : RawCpuidLaws} {H : Type} {hw : VmxHw H} {hwl : VmxHwLaws H}.

(** A VMX instruction ends in success or one of its two failures; VMfailValid
    happens with a current VMCS only and leaves an error number in it. *)
Definition reports (r : outcome VmFail unit * H) : Prop :=
  match r with
  | (Ok _, _) | (Err VmFailInvalid, _) => True
  | (Err VmFailValid, h) => exists v, Vmcs_instruction_error h = (Ok v, h)
  | _ => False
  end.
Definition vmx_reports : Prop :=
  forall p h, reports (vmxon p h) /\ reports (vmclear p h) /\ reports (vmptrld p h).

Lemma vmx_reports_cases c h (k : M H VmFail unit) :
  reports (k h) -> (exists h', k h = (Ok tt, h') /\ vmx k (c, h) = (Ok tt, (c, h'))) \/
    (exists h', vmx k (c, h) = (Err EIO, (c, h')) /\ fst (k h) <> Ok tt).
Proof.
  unfold vmx, vtry. cbn [fst snd]. destruct (k h) as [[[]|[]| |] h']; try done.
  - intros _. left. by exists h'.
  - intros [v Hv]. right. rewrite Hv. by exists h'.
  - intros _. right. by exists h'.
Qed.

Lemma vmcs_setup_cases a paddr l root c h :
  vmx_reports -> in_range 64 paddr -> cpu_ok c -> context_ok l -> addrs_ok a -> 0 <= root < 2 ^ 52 -> root mod 4096 = 0 ->
  match vmcs_setup a paddr l root (c, h) with
  | (Ok _, (c', h')) => c' = c /\ exists h0, written (setup_writes a l root c) h0 h'
  | (Err _, _) => True
  | _ => False
  end.
Proof.
  intros Hrep Hp Hcpu Hl Ha Hr Hal. destruct (Hrep paddr h) as (_ & Hc & _).
  destruct (vmx_reports_cases c h (Vmcs_clear paddr) Hc) as [(h1 & E1 & _)|(h1 & E1 & _)].
  2: { unfold vmcs_setup. by rewrite (bind_err _ _ _ _ _ E1). }
  destruct (Hrep paddr h1) as (_ & _ & Hd).
  destruct (vmx_reports_cases c h1 (Vmcs_load paddr) Hd) as [(h2 & E2 & _)|(h2 & E2 & _)].
  - destruct (vmcs_setup_ok a paddr l root c h) as (h0 & h' & E & _ & Hw); try done.
    + unfold Vmcs_clear in E1. unfold Vmcs_load in E2. unfold region_ok. rewrite E1. cbn [fst snd]. by rewrite E2.
    + rewrite E. split; [done|]. by exists h0.
  - unfold vmcs_setup. unfold Vmcs_clear in *. rewrite (bind_ok _ _ (c, h) tt (c, h1)); [by rewrite (bind_err _ _ _ _ _ E2)|].
    unfold vmx, vtry. cbn [fst snd]. by rewrite E1.
Qed.

(** The root of the EPT of a VMCS. *)
Definition ept_root (h : H) : Z :=
  let e := fval h (F64Control VmcsField64Control.EPT_POINTER) in e - e mod 4096.

Lemma host_returns_root a c root h : 0 <= root -> root mod 4096 = 0 -> host_returns a c root h -> ept_root h = root.
Proof.
  intros Hr Hal [_ _ _ He _ _ _ _ _]. unfold ept_root. rewrite He.
  replace root with (Z.shiftl (root / 2 ^ 12) 12) at 1 2 by (rewrite Z.shiftl_mul_pow2 by lia; euclid).
  rewrite Z.lor_comm, lor_concat by lia. euclid.
Qed.
End Outcomes.

(** [Vcpu::new] on every branch, as the rest of the start sees it. *)
Section New.
Context {A : Type} {ba : BitAlloc A} {bal : BitAllocLaws A}.
Context {bf : BitField} {xr : X86Regs} {xrl : X86RegsLaws} {xd : X86Desc} {xdl : X86DescLaws}.
Context {rc : RawCpuid} {rcl : RawCpuidLaws} {H : Type} {hw : VmxHw H} {hwl : VmxHwLaws H}.

Lemma revision_range c : in_range 64 (msr_read IA32_VMX_BASIC c) -> 0 <= revision_id (VmxBasic_read (perf_off c)) < 2 ^ 31.
Proof.
  intros Hr. assert (VmxBasic_read (perf_off c) = VmxBasic_read c) as ->.
  { unfold VmxBasic_read, perf_off. by destruct (0 <? _); rewrite ?msr_read_write_ne. }
  unfold VmxBasic_read. cbv zeta. cbn [revision_id]. rewrite bf_get_bits_spec by (unfold in_range in Hr; lia).
  pose proof (get_bits_range (msr_read IA32_VMX_BASIC c) 0 31 ltac:(lia)). rewrite wrap_small; [lia|].
  unfold in_range. lia.
Qed.

Lemma region_returns rev sh (m : Machine A) :
  0 <= rev < 2 ^ 31 -> match VmxRegion_new rev sh m with (Ok _, _) | (Err _, _) => True | _ => False end.
Proof.
  intros Hr. unfold VmxRegion_new, bind at 1. unfold Frame_new. destruct (fa_alloc (fa m)) as [[q|] f']; [|done].
  cbn [fmap option_fmap option_map ok_or]. rewrite bind_gets, bf_set_bits_ok; [done|..]; try lia.
  - apply wrap_range. lia.
  - by apply fits_true.
Qed.

(** The frames of a vCPU. *)
Definition intel_owns (v : IntelVcpu) : list Z := [start_paddr (vmxon_region v); start_paddr (vmcs_region v)].

Lemma intel_new_outcome a this l root c1 h (m : Machine A) :
  vmx_reports -> in_range 64 (msr_read IA32_VMX_BASIC c1) -> fa_wf (fa m) -> context_ok l -> addrs_ok a -> 0 <= root < 2 ^ 52 -> root mod 4096 = 0 ->
  (forall c2, vmxon_cpu c1 c2 -> cpu_ok (cr4_set host_cr4 (cr0_set HOST_CR0 c2))) ->
  match intel_new a this l root ((c1, h), m) with
  | (Ok v, ((c3, h'), m')) => taken m m' /\ takes m m' (intel_owns v) /\
      exists c2 h0, vmxon_cpu c1 c2 /\ c3 = cr4_set host_cr4 (cr0_set HOST_CR0 c2) /\ written (setup_writes a l root c3) h0 h'
  | (Err _, (_, m')) => taken m m' /\ takes m m' []
  | _ => False
  end.
Proof.
  intros Hrep Hbasic Hf Hl Ha Hr Hal Hcpu. pose proof (intel_new_cases a this l root c1 h m) as Hn. cbv zeta in Hn.
  pose proof (conj (taken_refl m Hf) (takes_nil m)) as H0.
  destruct (negb has_vmx); [by rewrite Hn|]. destruct (Z.testbit (l_cr4 l) 13); [by rewrite Hn|].
  destruct (Z.testbit _ 0 && negb _); [by rewrite Hn|].
  destruct Hn as (c2 & Hvc & Hn). specialize (Hcpu c2 Hvc).
  pose proof (revision_range c1 Hbasic) as Hrev. set (rev := revision_id _) in *.
  pose proof (region_returns rev false m Hrev) as Hr1.
  destruct (VmxRegion_new rev false m) as [[f1|e| |] m1] eqn:E1; try done; [|rewrite Hn; by eapply takes_region_err].
  destruct (takes_region _ _ _ _ _ Hf E1) as (T1 & S1 & C1). pose proof (tk_wf _ _ T1) as Hf1.
  pose proof (region_returns rev false m1 Hrev) as Hr2.
  destruct (VmxRegion_new rev false m1) as [[f2|e| |] m2] eqn:E2; try done.
  2: { destruct (takes_region_err _ _ _ _ _ Hf1 E2) as [T2 S2]. rewrite Hn. apply takes_drops; [done|by eapply taken_trans| |].
       - exact (takes_trans _ _ _ _ _ S1 S2).
       - by apply Forall_singleton. }
  destruct (takes_region _ _ _ _ _ Hf1 E2) as (T2 & S2 & C2). pose proof (taken_trans _ _ _ T1 T2) as T.
  pose proof (takes_trans _ _ _ _ _ S1 S2) as S. cbn [app] in S.
  assert (forall r, r = [f1; f2] \/ r = [f2; f1] -> taken m (drop_frames r m2) /\ takes m (drop_frames r m2) []) as Hdrop.
  { intros r Hr'. apply takes_drops; [done|done| |].
    - destruct Hr' as [-> | ->]; [done|]. eapply takes_perm; [|exact S]. apply Permutation_swap.
    - destruct Hr' as [-> | ->]; by repeat constructor. }
  set (c3 := cr4_set host_cr4 _) in *. destruct (Hrep (start_paddr f1) h) as (Hon & _).
  assert (in_range 64 (start_paddr f2)) as Hp2.
  { assert (frame_free (fa m) (start_paddr f2)) as Hq by (apply (ts_free _ _ _ S); right; right; by left).
    destruct (frame_free_paddr _ _ Hf Hq) as (? & _ & ?). unfold in_range, PAGE_SIZE in *. lia. }
  destruct (vmxon (start_paddr f1) h) as [[[]|[]| |] h1]; try done.
  - pose proof (vmcs_setup_cases a (start_paddr f2) l root c3 h1 Hrep Hp2 Hcpu Hl Ha Hr Hal) as Hs.
    destruct (vmcs_setup _ _ _ _ _) as [[[]|e| |] [c' h']]; try done.
    + destruct Hs as [-> [h0 Hw]]. destruct Hn as (v & -> & V1 & V2). unfold intel_owns. rewrite V1, V2. split_and!; try done. by exists c2, h0.
    + rewrite Hn. apply Hdrop. by left.
  - destruct Hon as [x Hx]. rewrite Hx in Hn. rewrite Hn. apply Hdrop. by right.
  - rewrite Hn. apply Hdrop. by right.
Qed.
End New.

(** ** All processors *)
Section Start.
Context {A : Type} {ba : BitAlloc A} {bal : BitAllocLaws A}.
Context {bf : BitField} {xr : X86Regs} {xrl : X86RegsLaws} {xd : X86Desc} {xdl : X86DescLaws}.
Context {rc : RawCpuid} {rcl : RawCpuidLaws} {H : Type} {hw : VmxHw H} {hwl : VmxHwLaws H}.
Context (hpte npte : GenericPTE) (hlaws : PTELaws (pte := hpte)) (nlaws : PTELaws (pte := npte)).
Context (core_end EMPTY_PAGE : Z) (header : HvHeader) (sys_config : HvSystemConfig).
Context (mem_regions : list HvMemoryRegion) (check_hypervisor_feature : outcome HvErrorNum unit) (idt : DescriptorTablePointer).
(** The addresses of the host state, for the processor whose [PerCpu] is there. *)
Context (addrs : Z -> HostAddrs).

Abbreviation early_ok := (early_ok hpte npte core_end EMPTY_PAGE header sys_config mem_regions check_hypervisor_feature hlaws nlaws).
Abbreviation early_done := (early_done hpte npte core_end EMPTY_PAGE header sys_config mem_regions hlaws nlaws).
Abbreviation hv_start := (phys_start (hypervisor_memory sys_config)).
Abbreviation hv_size := (mr_size (hypervisor_memory sys_config)).

#[local] Instance intel_system_pv : PhysVirt := phys_virt_offset sys_config.

Abbreviation IntelProcessor := (Processor (V := IntelVcpu) (L := H)).
Abbreviation primary_init_early := (primary_init_early hpte npte core_end EMPTY_PAGE header sys_config mem_regions check_hypervisor_feature).
Abbreviation intel_at this := (intel_vcpu_new (addrs this) this).
Abbreviation intel_start_system := (start_system hpte npte core_end EMPTY_PAGE header sys_config mem_regions check_hypervisor_feature idt
  (fun h m => (h, m)) fst snd (fun this => intel_at this)).

(** Linux has its selectors in its GDT and registers of legal widths, and the boxes
    and the host state are at canonical addresses. *)
Record intel_ready (b : IntelProcessor) : Prop := {
  ir_linux : all_loaded (pr_cpu b);
  ir_gdt : canonical (pr_gdt b) /\ pr_gdt b + 128 <= 2 ^ 64;
  ir_tss : in_range 64 (pr_tss b);
  ir_cpu : cpu_ok (pr_cpu b);
  ir_addrs : addrs_ok (addrs (self_vaddr (pr_percpu b)));
  ir_context : forall l, load_from (E := HvErrorNum) (pr_sp b) (pr_cpu b) = (Ok l, pr_cpu b) -> context_ok l;
}.

Record intel_started (hv_root cell_root : Z) (b : IntelProcessor) (m : Machine A) (b' : IntelProcessor) : Prop := {
  is_state : state (pr_percpu b') = HvEnabled;
  is_guest : guest_is_linux_vmx (pr_cpu b) (pr_sp b) (pr_local b');
  is_host : host_returns (addrs (self_vaddr (pr_percpu b))) (pr_cpu b') cell_root (pr_local b');
  is_current : vmcs_current (pr_local b');
  is_cr3 : c_cr3 (pr_cpu b') = hv_root;
  is_frames : forall f, f = vmxon_region (vcpu (pr_percpu b')) \/ f = vmcs_region (vcpu (pr_percpu b')) ->
    frame_free (fa m) (start_paddr f);
}.

Lemma intel_vendor : vmx_reports ->
  vendor_ok idt (fun h m => (h, m)) fst snd (fun this => intel_at this) intel_ready intel_started intel_owns.
Proof.
  intros Hrep b hv_root cell_root m [Hall Hg Ht Hcpu Ha Hctx] (Hh & Hha & Hh52) (Hc & Hca & Hc52) Hf. unfold PAGE_SIZE in *.
  assert (init_pre (pr_tss b) (pr_gdt b) (pr_cpu b) hv_root) as Hpre by (split; try done; split; [lia|done]).
  destruct (percpu_init_branches (intel_at (self_vaddr (pr_percpu b))) (pr_tss b) (pr_gdt b) idt (pr_sp b) hv_root cell_root
    (pr_cpu b) (pr_local b, m) (pr_percpu b) Hpre) as (l & c1 & Hl & Hld & Hres). cbv zeta in Hres.
  assert (in_range 64 (pr_gdt b)) as Hbox by (destruct Hg as [[?|?] ?]; split; lia).
  pose proof (on_hypervisor_intro (pr_gdt b) idt hv_root (pr_cpu b) c1) as Hon.
  pose proof (intel_new_outcome (addrs (self_vaddr (pr_percpu b))) (self_vaddr (pr_percpu b)) l cell_root c1 (pr_local b) m
    Hrep) as Hn. rewrite (hl_msr _ _ _ _ _ Hld) in Hn by done.
  specialize (Hn (co_msr _ Hcpu IA32_VMX_BASIC) Hf (Hctx l Hl) Ha ltac:(lia) Hca
    (fun c2 Hv => oh_ok _ _ _ (Hon c2 Hcpu Hbox Hld Hv))).
  unfold intel_vcpu_new at 1 in Hres.
  destruct (intel_new _ _ _ _ _) as [[v|e| |] [[c3 h'] m']]; try done; rewrite Hres; cbn [fst snd].
  - destruct Hn as (T & S & c2 & h0 & Hvc & -> & Hw). split; [done|]. split; [exact S|].
    pose proof (Hon c2 Hcpu Hbox Hld Hvc) as Hoh. split; cbn [pr_percpu pr_local pr_cpu vcpu].
    + done.
    + exact (setup_guest_is_linux _ (pr_sp b) hv_root cell_root (pr_cpu b) _ l h0 h' Hall Hl Hoh Hw).
    + exact (setup_host_returns _ l cell_root _ h0 h' ltac:(lia) Hca Hw).
    + apply Hw.
    + apply Hoh.
    + intros f Hfr. apply (ts_free _ _ _ S). right. unfold intel_owns. rewrite !elem_of_cons. destruct Hfr as [-> | ->]; auto.
  - destruct Hn as [T S]. by split_and!.
Qed.

(** The guest of a VMCS is confined, and its EPT is on. *)
Definition confined_vmx (m : Machine A) (h : H) (v : IntelVcpu) : Prop :=
  Z.testbit (fval h (F32Control VmcsField32Control.SECONDARY_VM_EXEC_CONTROL)) 1 = true /\
  confined_at npte nlaws EMPTY_PAGE sys_config m (ept_root h) [vmxon_region v; vmcs_region v].

Lemma intel_confined (m m0 : Machine A) hv gpm (b b' : IntelProcessor) :
  early_ok -> avoids_hv EMPTY_PAGE sys_config mem_regions -> early_done m hv gpm -> early_done m0 hv gpm ->
  intel_started (root_paddr (pt hv)) (root_paddr (pt gpm)) b m0 b' -> confined_vmx m (pr_local b') (vcpu (pr_percpu b')).
Proof.
  intros E Hav D D0 [_ _ Hh _ _ Hf]. destruct (early_done_roots _ _ _ _ _ _ _ _ _ _ _ _ D) as [_ (Hr0 & Hra & _)]. split.
  - pose proof (hr_proc2 _ _ _ _ Hh) as Hb. unfold has_bits in Hb. by apply Forall_cons in Hb as [? _].
  - rewrite (host_returns_root _ _ _ _ Hr0 Hra Hh).
    apply (confined_intro hpte npte hlaws nlaws core_end EMPTY_PAGE header sys_config mem_regions check_hypervisor_feature
      m m0 hv gpm); try done.
    apply Forall_cons. split; [apply Hf; by left|apply Forall_singleton, Hf; by right].
Qed.

(** C14. The hypervisor takes over an Intel machine: whatever VMXON, VMCLEAR and
    VMPTRLD report, every processor either fails and stays disabled, or runs on
    the page table of the hypervisor with its Linux in a current VMCS under an
    EPT through which no access reaches the hypervisor memory except for the
    read-only empty page; both page tables are as early initialisation left
    them. The frames that were free after early initialisation are now free
    again or the VMXON region or VMCS of a processor that runs, each of exactly
    one of them: what a failing processor took is given back. The only panic is
    an exhausted pool. *)
Theorem intel_guests_confined (l : list IntelProcessor) (m : Machine A) g :
  vmx_reports -> early_ok -> avoids_hv EMPTY_PAGE sys_config mem_regions -> Forall intel_ready l ->
  HV_PT g = None -> ROOT_CELL g = None ->
  match intel_start_system l (m, g) with
  | (Ok xs, (m', g')) => exists hv gpm m1, primary_init_early (m, g) = (Ok tt, (m1, g')) /\
      g' = mkGlobals (Some hv) (Some gpm) 1 /\ early_done m' hv gpm /\
      takes m1 m' (flat_map (fun '(e, b') =>
        match e with
        | None => [start_paddr (vmxon_region (vcpu (pr_percpu b'))); start_paddr (vmcs_region (vcpu (pr_percpu b')))]
        | Some _ => []
        end) xs) /\
      Forall2 (fun b '(e, b') =>
        match e with
        | None => guest_is_linux_vmx (pr_cpu b) (pr_sp b) (pr_local b') /\ vmcs_current (pr_local b') /\
            c_cr3 (pr_cpu b') = root_paddr (pt hv) /\ state (pr_percpu b') = HvEnabled /\
            confined_vmx m' (pr_local b') (vcpu (pr_percpu b'))
        | Some _ => state (pr_percpu b') = HvDisabled
        end) l xs
  | (Err _, (_, g')) => INIT_EARLY_OK g' = INIT_EARLY_OK g /\ ROOT_CELL g' = None
  | (Panic, (m', _)) => forall q, ~ frame_free (fa m') q
  | (Diverge, _) => False
  end.
Proof.
  intros Hrep E Hav Hl Hg1 Hg2.
  pose proof (start_system_ok hpte npte hlaws nlaws core_end EMPTY_PAGE header sys_config mem_regions check_hypervisor_feature idt
    (fun h m => (h, m)) fst snd (fun this => intel_at this) intel_ready intel_started intel_owns (intel_vendor Hrep)
    l m g E Hl Hg1 Hg2) as Hs.
  destruct (intel_start_system l (m, g)) as [[xs|e| |] [m' g']]; try done.
  destruct Hs as (hv & gpm & m1 & H1 & -> & Ts & D & Hx). exists hv, gpm, m1. split; [done|]. split; [done|]. split; [done|]. split.
  { unfold owned in Ts. erewrite flat_map_ext; [exact Ts|]. by intros [[e|] b']. }
  eapply Forall2_impl; [exact Hx|]. intros b [[e|] b'] Ho; [done|]. destruct Ho as (m0 & D0 & Hst).
  pose proof (intel_confined m' m0 hv gpm b b' E Hav D D0 Hst). destruct Hst. cbv beta iota. by split_and!.
Qed.
End Start.

(** ** On the sample configuration *)
Module IntelSystemSample.
#[local] Existing Instance X86PageTableFlags_ref.
#[local] Existing Instance BitField_ref.
#[local] Existing Instance X86Regs_ref.
#[local] Existing Instance X86Regs_ref_laws.
#[local] Existing Instance X86Desc_ref.
#[local] Existing Instance X86Desc_ref_laws.
#[local] Existing Instance RawCpuid_ref.
#[local] Existing Instance RawCpuid_ref_laws.
#[local] Existing Instance VmxRef.
#[local] Existing Instance VmxRefLaws.

Definition intel_processor (i : Z) : Processor (V := IntelVcpu) (L := VmxState) :=
  mkProcessor sample_cpu vmx_off
    (mkPerCpu (Boot.core_end + i * PER_CPU_SIZE) i HvDisabled (vcpu intel_percpu) sample_linux)
    (0x30000 + i * 0x1000) (0x40000 + i * 0x1000) 0x8000.

Abbreviation intel_system_run :=
  (start_system PTEntry.ops EPTEntry.ops Boot.core_end Boot.EMPTY_PAGE Boot.header Boot.cfg [Boot.ram; Boot.io] (Ok tt)
     (mkDtp 4095 0x50000) (fun h m => (h, m)) fst snd (fun this => intel_vcpu_new sample_addrs this)
     [intel_processor 0; intel_processor 1]
     (mkMachine ∅ (fa_empty (A := ListAlloc.t)), mkGlobals None None 0)).

Lemma intel_sample_ready i : 0 <= i < 2 -> intel_ready (fun _ => sample_addrs) (intel_processor i).
Proof.
  intros Hi. split; [exact sample_loaded| | |exact sample_cpu_ok|exact sample_addrs_ok|exact sample_loaded_context].
  - unfold intel_processor. cbn [pr_gdt]. split; [left|]; lia.
  - unfold intel_processor, in_range. cbn [pr_tss]. lia.
Qed.

Lemma sample_vmx_reports : vmx_reports (H := VmxState).
Proof. intros p h. by split_and!. Qed.

#[local] Instance sample_pv : PhysVirt := phys_virt_offset Boot.cfg.

Lemma ept_hv_empty : region_pre (pte := EPTEntry.ops) (laws := EPTEntry.laws) (hv_empty_region Boot.EMPTY_PAGE Boot.cfg).
Proof.
  constructor; [split; by vm_compute|split; by vm_compute|split; by vm_compute|by vm_compute|].
  intros v _. split; by vm_compute.
Qed.

Lemma ept_sample_early_ok :
  early_ok (A := ListAlloc.t) PTEntry.ops EPTEntry.ops Boot.core_end Boot.EMPTY_PAGE Boot.header Boot.cfg
    [Boot.ram; Boot.io] (Ok tt) PTEntry.laws EPTEntry.laws.
Proof.
  destruct SystemSample.npt_sample_early_ok as [HL Hp Hc Hhv _ He Hf]. constructor; try done.
  constructor; [exact ept_hv_empty| |by vm_compute].
  apply Forall_cons. split; [|apply Forall_singleton];
    apply (offset_pre (pte := EPTEntry.ops) (laws := EPTEntry.laws)); by vm_compute.
Qed.

Lemma intel_guests_confined_witness :
  exists b0 b1 m g, intel_system_run = (Ok [(None, b0); (None, b1)], (m, g)) /\
    confined_vmx EPTEntry.ops EPTEntry.laws Boot.EMPTY_PAGE Boot.cfg m (pr_local b0) (vcpu (pr_percpu b0)) /\
    confined_vmx EPTEntry.ops EPTEntry.laws Boot.EMPTY_PAGE Boot.cfg m (pr_local b1) (vcpu (pr_percpu b1)).
Proof.
  pose proof (intel_guests_confined PTEntry.ops EPTEntry.ops PTEntry.laws EPTEntry.laws Boot.core_end Boot.EMPTY_PAGE Boot.header
    Boot.cfg [Boot.ram; Boot.io] (Ok tt) (mkDtp 4095 0x50000) (fun _ => sample_addrs) [intel_processor 0; intel_processor 1]
    (mkMachine ∅ (fa_empty (A := ListAlloc.t))) (mkGlobals None None 0) sample_vmx_reports ept_sample_early_ok Boot.cfg_avoids_hv) as Hc.
  assert (match fst intel_system_run with Ok [(None, _); (None, _)] => true | _ => false end = true) as Hok by (vm_compute; reflexivity).
  destruct intel_system_run as [[[|[[?|] b0] [|[[?|] b1] [|? ?]]]|e| |] [m g]]; try discriminate Hok.
  exists b0, b1, m, g. split; [reflexivity|].
  destruct Hc as (hv & gpm & m1 & _ & _ & _ & _ & Hx); [|reflexivity..|].
  - apply Forall_cons. split; [|apply Forall_singleton]; apply intel_sample_ready; lia.
  - apply Forall2_cons_1 in Hx as [(_ & _ & _ & _ & H0) Hx]. apply Forall2_cons_1 in Hx as [(_ & _ & _ & _ & H1) _].
    split; [exact H0|exact H1].
Defined.
End IntelSystemSample.
