(* ===== verification/Guests.v ===== *)
(** * The guests run

    After the start the processors run their guests: a guest stores to memory
    through its nested page table, the processor updates the guest's part of
    the vCPU, and at every VM exit the handler of the hypervisor runs. The steps
    interleave in any order. However long they run, the hypervisor memory keeps
    every word it had, so the page tables and with them the isolation
    of [System] and [IntelSystem] stay as they were. *)

From S2P Require Import Prelude Crates HvError Addr PhysMem Frame Pte Region Paging PagingInv PagingOps PagingSpec MemorySet MemoryProps Config Cell CellProps Early X86 Segmentation Context Cpuid Vcpu Svm AmdVcpu AmdProps Init VmmSamples System.

Section Guests.
Context {A : Type} {ba : BitAlloc A} {bal : BitAllocLaws A}.
Context (hpte npte : GenericPTE) (hlaws : PTELaws (pte := hpte)) (nlaws : PTELaws (pte := npte)).
Context (core_end EMPTY_PAGE : Z) (header : HvHeader) (sys_config : HvSystemConfig).
Context (mem_regions : list HvMemoryRegion) (check_hypervisor_feature : outcome HvErrorNum unit).

Abbreviation early_ok := (early_ok hpte npte core_end EMPTY_PAGE header sys_config mem_regions check_hypervisor_feature hlaws nlaws).
Abbreviation early_done := (early_done hpte npte core_end EMPTY_PAGE header sys_config mem_regions hlaws nlaws).
Abbreviation hv_start := (phys_start (hypervisor_memory sys_config)).
Abbreviation hv_size := (mr_size (hypervisor_memory sys_config)).

#[local] Instance guests_pv : PhysVirt := phys_virt_offset sys_config.

(** The vendor: the root of the nested page table the processor translates the
    guest's addresses with ([None]: it does not), what the processor may do to a
    vCPU while its guest runs, and the code that handles an exit. *)
Context {V : Type} (nested_root : V -> option Z) (hw_run : V -> V -> Prop).
Context (handler : M (World V) Esc unit) (in_service : World V -> Prop).

Record Running : Type := mkRunning {
  rn_mem : Machine A;
  rn_cpus : list (Cpu * PerCpu V);
  rn_activated : Z;
  rn_try_disable : Z;
}.

(** A store of the guest can hit the word at [x]. *)
Definition can_store (m : gmap Z Z) (root : option Z) (x : Z) : Prop :=
  match root with
  | None => True
  | Some r => exists gpa hpa fl sz, query_at (pte := npte) m r gpa = Ok (hpa, fl, sz) /\
      contains fl MEM_WRITE = true /\ x <= hpa < x + 8
  end.

(** Executable, for an address that is mapped to itself. *)
Definition can_write (m : gmap Z Z) (root : option Z) (x : Z) : bool :=
  match root with
  | None => true
  | Some r =>
      match query_at (pte := npte) m r x with
      | Ok (hpa, fl, _) => contains fl MEM_WRITE && (x <=? hpa) && (hpa <? x + 8)
      | _ => false
      end
  end.

Lemma can_write_stores m root x : can_write m root x = true -> can_store m root x.
Proof.
  unfold can_write, can_store. destruct root as [r|]; [|done]. destruct (query_at _ _ _) as [[[hpa fl] sz]|e| |] eqn:Hq; try done.
  rewrite !andb_true_iff. intros [[Hw H1] H2]. exists x, hpa, fl, sz. split; [done|]. split; [done|]. lia.
Qed.

Definition running_on (s : Running) (i : nat) (c : Cpu) (p : PerCpu V) : Prop :=
  rn_cpus s !! i = Some (c, p) /\ state p = HvEnabled.

Definition at_exit (s : Running) (c : Cpu) (p : PerCpu V) : World V := mkWorld c p (rn_activated s) (rn_try_disable s).

Definition store (x v : Z) (s : Running) : Running :=
  mkRunning (mkMachine (mem_set (pm (rn_mem s)) x v) (fa (rn_mem s))) (rn_cpus s) (rn_activated s) (rn_try_disable s).

(** The processor [i] after its world became [w]. *)
Definition put (i : nat) (w : World V) (s : Running) : Running :=
  mkRunning (rn_mem s) (<[i := (w_cpu w, w_percpu w)]> (rn_cpus s)) (w_activated w) (w_try_disable w).

Inductive guest_step : Running -> Running -> Prop :=
| guest_stores s i c p x v :
    running_on s i c p -> x mod 8 = 0 -> can_store (pm (rn_mem s)) (nested_root (vcpu p)) x -> guest_step s (store x v s)
| guest_runs s i c p c' v' :
    running_on s i c p -> hw_run (vcpu p) v' -> guest_step s (put i (at_exit s c' (with_vcpu v' p)) s)
| guest_exits s i c p w' :
    running_on s i c p -> in_service (at_exit s c p) -> handler (at_exit s c p) = (Ok tt, w') -> guest_step s (put i w' s).

Definition guests_run : Running -> Running -> Prop := rtc guest_step.

(** What the vendor promises of a vCPU that is under the nested page table at
    [root]. *)
Context (under : Z -> V -> Prop).
Hypothesis under_root : forall root v, under root v -> nested_root v = Some root.
Hypothesis run_under : forall root v v', under root v -> hw_run v v' -> under root v'.
Hypothesis exit_under : forall root w w', under root (vcpu (w_percpu w)) -> in_service w -> handler w = (Ok tt, w') ->
  under root (vcpu (w_percpu w')).
Hypothesis read_only : contains (pte_view (pte := npte) READ_ONLY) MEM_WRITE = false.

(** The invariant, from the memory [m0] of the start. *)
Record guests_inv (hv gpm : MemorySet) (m0 : Machine A) (s : Running) : Prop := {
  gi_done : early_done (rn_mem s) hv gpm;
  gi_under : Forall (fun cp => state (snd cp) = HvEnabled -> under (root_paddr (pt gpm)) (vcpu (snd cp))) (rn_cpus s);
  gi_same : outside sys_config m0 (rn_mem s);
}.

Lemma running_under hv gpm m0 s i c p :
  guests_inv hv gpm m0 s -> running_on s i c p -> under (root_paddr (pt gpm)) (vcpu p).
Proof.
  intros [_ Hu _] [Hl Hs]. rewrite Forall_lookup in Hu. exact (Hu i (c, p) Hl Hs).
Qed.

(** A store under the nested page table misses the hypervisor memory. *)
Lemma store_outside hv gpm m x :
  avoids_hv EMPTY_PAGE sys_config mem_regions -> early_ok -> early_done m hv gpm -> x mod 8 = 0 ->
  can_store (pm m) (Some (root_paddr (pt gpm))) x -> ~ hv_start <= x < hv_start + hv_size.
Proof.
  intros Hav E D Hx (gpa & hpa & fl & sz & Hq & Hw & Hr) Hin.
  destruct (ed_guest _ _ _ _ _ _ _ _ _ _ _ _ D Hav gpa hpa fl sz Hq) as [Hi _].
  destruct (hc_phys _ _ _ (eo_hv _ _ _ _ _ _ _ _ _ _ E)) as [Hp Hpa]. destruct (hc_size _ _ _ (eo_hv _ _ _ _ _ _ _ _ _ _ E)) as (Hs & Hsa & _).
  destruct Hi as [_ ->]; [|by rewrite read_only in Hw]. unfold PAGE_SIZE in *. split; euclid.
Qed.

Lemma step_inv hv gpm m0 s s' :
  early_ok -> avoids_hv EMPTY_PAGE sys_config mem_regions -> guests_inv hv gpm m0 s -> guest_step s s' -> guests_inv hv gpm m0 s'.
Proof.
  intros E Hav Hinv Hst. pose proof Hinv as [D Hu [Sf Sm]].
  destruct Hst as [s i c p x v Hr Hx Hc|s i c p c' v' Hr Hh|s i c p w' Hr Hin Hh].
  - pose proof (running_under _ _ _ _ _ _ _ Hinv Hr) as Hup. rewrite (under_root _ _ Hup) in Hc.
    pose proof (store_outside hv gpm _ x Hav E D Hx Hc) as Hout.
    assert (outside sys_config (rn_mem s) (rn_mem (store x v s))) as [O1 O2].
    { split; [done|]. intros y Hy. cbn [store rn_mem pm]. rewrite mem_get_set_ne; [done|]. intros ->. contradiction. }
    split.
    + eapply early_done_outside; [exact (config_end_in _ _ _ _ _ _ _ _ _ _ E)|by split|exact D].
    + exact Hu.
    + split; [by rewrite O1|]. intros y Hy. by rewrite O2, Sm.
  - pose proof (running_under _ _ _ _ _ _ _ Hinv Hr) as Hup. split; cbn [put at_exit rn_mem rn_cpus w_cpu w_percpu]; [done| |done].
    apply Forall_insert; [done|]. intros _. by apply (run_under _ (vcpu p)).
  - pose proof (running_under _ _ _ _ _ _ _ Hinv Hr) as Hup. split; cbn [put at_exit rn_mem rn_cpus w_cpu w_percpu]; [done| |done].
    apply Forall_insert; [done|]. intros _. exact (exit_under _ (at_exit s c p) w' Hup Hin Hh).
Qed.

Lemma guests_run_inv hv gpm m0 s s' :
  early_ok -> avoids_hv EMPTY_PAGE sys_config mem_regions -> guests_inv hv gpm m0 s -> guests_run s s' -> guests_inv hv gpm m0 s'.
Proof. intros E Hav Hi. induction 1 as [|s1 s2 s3 Hs _ IH]; [done|]. by apply IH, (step_inv hv gpm m0 s1). Qed.
End Guests.

(** The processors after a start in which all of them succeeded. *)
Definition launch {A V V' L} (m : Machine A) (xs : list (option HvErrorNum * Processor (V := V) (L := L)))
    (world : Processor (V := V) (L := L) -> PerCpu V') (activated try_disable : Z) : Running (A := A) (V := V') :=
  mkRunning m ((fun x => (pr_cpu (snd x), world (snd x))) <$> xs) activated try_disable.

(** ** On AMD *)
Section AmdGuests.
Context {A : Type} {ba : BitAlloc A} {bal : BitAllocLaws A} {bf : BitField} {xr : X86Regs} {xrl : X86RegsLaws}.
Context {xd : X86Desc} {xdl : X86DescLaws} {rc : RawCpuid} {rcl : RawCpuidLaws}.
Context (hpte npte : GenericPTE) (hlaws : PTELaws (pte := hpte)) (nlaws : PTELaws (pte := npte)).
Context (core_end EMPTY_PAGE : Z) (header : HvHeader) (sys_config : HvSystemConfig).
Context (mem_regions : list HvMemoryRegion) (check_hypervisor_feature : outcome HvErrorNum unit) (idt : DescriptorTablePointer).
Context (hw_seg_base : Cpu -> Z -> Z).

Abbreviation early_ok := (early_ok hpte npte core_end EMPTY_PAGE header sys_config mem_regions check_hypervisor_feature hlaws nlaws).
Abbreviation early_done := (early_done hpte npte core_end EMPTY_PAGE header sys_config mem_regions hlaws nlaws).
Abbreviation amd_start_system := (start_system hpte npte core_end EMPTY_PAGE header sys_config mem_regions check_hypervisor_feature idt
  (fun _ m => m) (fun _ => tt) (fun m => m) amd_new).

#[local] Instance amd_guests_pv : PhysVirt := phys_virt_offset sys_config.

(** VMRUN and #VMEXIT write the guest's state and the exit information, not the
    fields that control nested paging. *)
Definition svm_runs (v v' : AmdVcpu) : Prop :=
  ct_np_enable (control (vmcb v')) = ct_np_enable (control (vmcb v)) /\
  ct_nest_cr3 (control (vmcb v')) = ct_nest_cr3 (control (vmcb v)) /\ host_save_area v' = host_save_area v.

Abbreviation amd_guests_run :=
  (guests_run npte sys_config np_root svm_runs (vmexit_handler_wrapper hw_seg_base) (fun _ => True)).

Definition amd_under (root : Z) (v : AmdVcpu) : Prop := np_root v = Some root.

(** A processor that was initialised is under the nested page table it was given. *)
Lemma amd_started_under hv_root cell_root (b : Processor (V := AmdVcpu) (L := unit)) (m : Machine A) b' :
  amd_started hv_root cell_root b m b' -> amd_under cell_root (vcpu (pr_percpu b')).
Proof. intros (_ & Hg & _). destruct (gl_nested _ _ _ _ Hg) as [Hn Hr]. unfold amd_under, np_root. by rewrite Hn, Hr. Qed.

(** Neither the guest nor the exit handler changes the root. *)
Lemma amd_runs_under root v v' : amd_under root v -> svm_runs v v' -> amd_under root v'.
Proof. intros Hv (Hn & Hr & _). unfold amd_under, np_root in *. by rewrite Hn, Hr. Qed.

Lemma amd_exit_under root (w w' : World AmdVcpu) :
  amd_under root (vcpu (w_percpu w)) -> True -> vmexit_handler_wrapper hw_seg_base w = (Ok tt, w') ->
  amd_under root (vcpu (w_percpu w')).
Proof.
  intros Hv _ Hw. unfold amd_under in *. pose proof (amd_exit_keeps_root hw_seg_base w) as Hk.
  rewrite Hw in Hk. cbn [snd] in Hk. by rewrite Hk.
Qed.

Lemma amd_launch_inv l xs (m1 : Machine A) hv gpm a t :
  early_done m1 hv gpm ->
  Forall2 (outcome_ok hpte npte hlaws nlaws core_end EMPTY_PAGE header sys_config mem_regions amd_started hv gpm) l xs ->
  Forall (fun x => fst x = None) xs ->
  guests_inv hpte npte hlaws nlaws core_end EMPTY_PAGE header sys_config mem_regions amd_under hv gpm m1 (launch m1 xs pr_percpu a t).
Proof.
  intros D Hx Hall. split; cbn [launch rn_mem rn_cpus]; [done| |by split].
  apply Forall_fmap. rewrite Forall_forall in Hall |- *. intros [e b'] Hin _. cbn [snd].
  apply list_elem_of_lookup in Hin as Hi. destruct Hi as [i Hi].
  destruct (Forall2_lookup_r _ _ _ _ _ Hx Hi) as (b & _ & Ho). specialize (Hall _ Hin). cbn [fst] in Hall. subst e.
  destruct Ho as (m0 & _ & Hst). by apply (amd_started_under (root_paddr (pt hv)) _ b m0).
Qed.

(** Isolation lasts on AMD: once every processor is initialised, the guests can
    run, store wherever their nested page table lets them and exit to the
    hypervisor, in any order and for any time. The hypervisor memory keeps every
    word it had at the start, hence both page tables translate as before, and
    every guest is still confined under the nested page table of the root
    cell. *)
Theorem amd_isolation_lasts l xs (m m1 : Machine A) g g1 a t s :
  early_ok -> avoids_hv EMPTY_PAGE sys_config mem_regions -> Forall amd_ready l -> HV_PT g = None -> ROOT_CELL g = None ->
  contains (pte_view (pte := npte) READ_ONLY) MEM_WRITE = false ->
  amd_start_system l (m, g) = (Ok xs, (m1, g1)) -> Forall (fun x => fst x = None) xs ->
  amd_guests_run (launch m1 xs pr_percpu a t) s ->
  outside sys_config m1 (rn_mem s) /\
  exists hv gpm, g1 = mkGlobals (Some hv) (Some gpm) 1 /\ early_done (rn_mem s) hv gpm /\
    forall i c p, running_on s i c p -> np_root (vcpu p) = Some (root_paddr (pt gpm)) /\
      confined_at npte nlaws EMPTY_PAGE sys_config (rn_mem s) (root_paddr (pt gpm)) [].
Proof.
  intros E Hav Hl Hg1 Hg2 Hro Hs Hall Hrun.
  pose proof (start_system_ok hpte npte hlaws nlaws core_end EMPTY_PAGE header sys_config mem_regions check_hypervisor_feature idt
    (fun _ m => m) (fun _ => tt) (fun m => m) amd_new amd_ready amd_started amd_owns
    (amd_vendor idt) l m g E Hl Hg1 Hg2) as H.
  rewrite Hs in H. destruct H as (hv & gpm & m0 & _ & -> & _ & D & Hx).
  assert (guests_inv hpte npte hlaws nlaws core_end EMPTY_PAGE header sys_config mem_regions amd_under hv gpm m1 s) as [D' Hu Ho].
  { refine (guests_run_inv hpte npte hlaws nlaws core_end EMPTY_PAGE header sys_config mem_regions check_hypervisor_feature
      np_root svm_runs (vmexit_handler_wrapper hw_seg_base) (fun _ => True) amd_under _ _ _ Hro hv gpm m1 _ s E Hav _ Hrun).
    - done.
    - exact amd_runs_under.
    - exact amd_exit_under.
    - by apply (amd_launch_inv l). }
  split; [done|]. exists hv, gpm. split; [done|]. split; [done|]. intros i c p [Hi Hst].
  split; [rewrite Forall_lookup in Hu; exact (Hu i (c, p) Hi Hst)|].
  by apply (confined_intro hpte npte hlaws nlaws core_end EMPTY_PAGE header sys_config mem_regions check_hypervisor_feature _ m1 hv gpm).
Qed.
End AmdGuests.

(** ** A guest at CPUID *)
Definition at_cpuid (v : AmdVcpu) : AmdVcpu := set_vmcb (mkVmcb (with_exit_code 0x72 (control (vmcb v))) (save (vmcb v))) v.
Lemma at_cpuid_runs v : svm_runs v (at_cpuid v).
Proof. by split_and!. Qed.
