(* ===== verification/IntelGuests.v ===== *)
(** * The guests run on Intel

    The exit handlers of Intel do not touch the fields of the VMCS that control
    the EPT, so the isolation of [Guests] lasts there as well, until the last
    processor asks to disable the hypervisor. *)

From S2P Require Import Prelude Crates HvError Addr PhysMem Frame Pte Region Paging PagingInv PagingOps PagingSpec MemorySet MemoryProps Config Cell CellProps Early X86 Segmentation Context Cpuid Vcpu Panic Init Vmx MsrBitmap Exception IntelVcpu IntelProps IntelDisable VmmSamples System IntelSystem Guests.

(** ** What an exit handler leaves alone *)
Section Keeps.
Context {bf : BitField} {xr : X86Regs} {xrl : X86RegsLaws} {xd : X86Desc} {rc : RawCpuid} {rcl : RawCpuidLaws}.
Context {H : Type} {hw : VmxHw H} {hwl : VmxHwLaws H}.
Context (hw_seg_base : Cpu -> Z -> Z).

Abbreviation V := (IntelVcpu * H)%type.
Abbreviation W := (World V).

(** The fields that turn the EPT on and say where it is. *)
Definition ept_fields : list Field :=
  [F64Control VmcsField64Control.EPT_POINTER; F32Control VmcsField32Control.SECONDARY_VM_EXEC_CONTROL;
   F32Control VmcsField32Control.PROC_BASED_VM_EXEC_CONTROL].

(** The VMCS stays current, with the same EPT. *)
Definition keeps_ept (w w' : W) : Prop :=
  vmcs_current (wvmx w) -> vmcs_current (wvmx w') /\ Forall (fun f => fval (wvmx w') f = fval (wvmx w) f) ept_fields.

#[local] Instance keeps_ept_pre : PreOrder keeps_ept.
Proof.
  split.
  - intros w Hc. split; [done|]. by rewrite Forall_forall.
  - intros a b c H1 H2 Hc. destruct (H1 Hc) as [Hb F1]. destruct (H2 Hb) as [Hd F2]. split; [done|].
    rewrite Forall_forall in *. intros f Hf. by rewrite (F2 f Hf), (F1 f Hf).
Qed.

Lemma keeps_ept_same (w w' : W) : (vmcs_current (wvmx w) -> wvmx w' = wvmx w) -> keeps_ept w w'.
Proof. intros He Hc. rewrite (He Hc). split; [done|]. by rewrite Forall_forall. Qed.

(** Reading. *)
Definition only_reads (h h' : H) : Prop := vmcs_current h -> h' = h.

#[local] Instance only_reads_pre : PreOrder only_reads.
Proof. split; [done|]. intros a b c H1 H2 Hc. rewrite (H1 Hc) in H2. by apply H2. Qed.

Lemma reads_field f : pres only_reads (field_read f).
Proof. intros h Hc. by rewrite field_read_ok. Qed.

#[local] Hint Resolve reads_field : rvm_pres.

Lemma reads_exit_info : pres only_reads VmExitInfo_new.
Proof. unfold VmExitInfo_new. pres. Qed.
Lemma reads_interrupt_info : pres only_reads ExitInterruptInfo_new.
Proof. unfold ExitInterruptInfo_new. pres. Qed.
Lemma reads_ept_violation : pres only_reads EptViolationInfo_new.
Proof. unfold EptViolationInfo_new. pres. Qed.
Lemma reads_error : pres only_reads Vmcs_instruction_error.
Proof. unfold Vmcs_instruction_error. pres. Qed.

Lemma keeps_on_vmx B (c : M H VmFail B) : pres only_reads c -> pres keeps_ept (on_vmx c).
Proof.
  intros Hr w. apply keeps_ept_same. intros Hc. unfold on_vmx, on_vcpu, on_vmcs, zoom, vmx, vtry, wvmx in *. cbn [fst snd].
  pose proof (Hr (snd (vcpu (w_percpu w)))) as Hh. unfold only_reads in Hh. specialize (Hh Hc).
  destruct (c _) as [[b|[]| |] h1]; cbn [fst snd] in *; subst h1; try done.
  pose proof (reads_error (snd (vcpu (w_percpu w))) Hc) as He.
  destruct (Vmcs_instruction_error _) as [[] h2]; cbn [fst snd] in *; by subst.
Qed.

Lemma keeps_vcpu_read B (c : M (Cpu * V) HvErrorNum B) :
  (forall s, vcpu_wf s -> exists b, c s = (Ok b, s)) -> pres keeps_ept (on_vcpu c).
Proof.
  intros Hr w. apply keeps_ept_same. intros Hc. destruct (Hr (wst w) Hc) as [b Hb]. by rewrite (on_vcpu_read _ _ _ _ Hb).
Qed.

(** Writing. *)
Lemma keeps_vcpu_write (c : M (Cpu * V) HvErrorNum unit) (l : H -> list (Field * Z)) :
  (forall cpu v h, vmcs_current h -> exists h', c (cpu, (v, h)) = (Ok tt, (cpu, (v, h'))) /\ written (l h) h h') ->
  (forall h f d, f ∈ ept_fields -> final (l h) f d = d) -> pres keeps_ept (on_vcpu c).
Proof.
  intros Hw Hl w Hc. unfold wvmx in *. destruct (vcpu (w_percpu w)) as [v h] eqn:Ev. cbn [snd] in Hc |- *.
  destruct (Hw (w_cpu w) v h Hc) as (h' & Hr & Hwr). unfold on_vcpu. rewrite Ev, Hr. cbn [snd upd w_percpu vcpu with_vcpu].
  split; [apply Hwr|]. rewrite Forall_forall. intros f Hf. by rewrite (written_val _ _ _ _ Hwr), Hl.
Qed.

Ltac each_ept_field Hf :=
  unfold ept_fields in Hf; rewrite !elem_of_cons in Hf; destruct Hf as [->|[->|[->|Hf]]];
  [reflexivity..|by apply not_elem_of_nil in Hf].

Lemma keeps_ept_rip n : pres keeps_ept (on_vcpu (V := V) (advance_rip n)).
Proof.
  apply (keeps_vcpu_write _ (fun h => [(F_RIP, add64 (fval h F_RIP) n)])).
  - intros cpu v h Hc. by apply advance_rip_run.
  - intros h f d Hf. each_ept_field Hf.
Qed.

Lemma keeps_ept_fault : pres keeps_ept (on_vcpu (V := V) inject_fault).
Proof.
  apply (keeps_vcpu_write _ (fun _ => [(F_INTR_ERR, 0); (F_INTR_INFO, GP_INFO)])).
  - intros cpu v h Hc. by apply inject_fault_run.
  - intros h f d Hf. each_ept_field Hf.
Qed.

Lemma keeps_ept_set_regs r : pres keeps_ept (set_regs (V := V) r).
Proof. apply pres_modify. intros w. by apply keeps_ept_same. Qed.

Lemma keeps_ept_cr4 : pres keeps_ept (on_vcpu (V := V) (cr 4)).
Proof. apply keeps_vcpu_read. intros s Hs. eexists. by apply cr4_ok. Qed.

Lemma keeps_ept_privileged : pres keeps_ept (on_vcpu (V := V) guest_is_privileged).
Proof. apply keeps_vcpu_read. intros s Hs. eexists. by apply privileged_ok. Qed.

Lemma keeps_ept_page_table : pres keeps_ept (on_vcpu (V := V) guest_page_table).
Proof. apply keeps_vcpu_read. intros s Hs. by apply page_table_ok. Qed.

#[local] Hint Resolve keeps_ept_rip keeps_ept_fault keeps_ept_set_regs keeps_ept_cr4 keeps_ept_privileged
  keeps_ept_page_table : rvm_pres.
#[local] Hint Extern 1 (pres _ (on_vmx _)) =>
  (apply keeps_on_vmx; first [apply reads_exit_info | apply reads_interrupt_info | apply reads_ept_violation]) : rvm_pres.

Lemma keeps_ept_dispatch reason :
  reason <> VmxExitReason.VMCALL -> pres keeps_ept (intel_dispatch hw_seg_base reason).
Proof.
  intros Hne. unfold intel_dispatch. destruct reason; try done; pres.
  all: unfold handle_exception_nmi, handle_cpuid, handle_msr_read, handle_msr_write, handle_ept_violation, get_regs, fault; pres.
  all: unfold exception_handler, handle_nmi, handle_page_fault; pres.
Qed.

(** The hypercall of a guest, unless it is the one that turns off the last
    processor. *)
Lemma keeps_ept_hypercall code arg0 arg1 w :
  code <> 0 \/ wrap 32 (w_try_disable w + 1) < w_activated w -> keeps_ept w (snd (hypercall hw_seg_base code arg0 arg1 w)).
Proof.
  intros Hq. unfold hypercall, HyperCallCode_try_from. destruct (Z.eqb_spec code 0) as [->|]; [|by apply keeps_ept_same].
  destruct Hq as [|Hq]; [done|].
  intros Hc. assert (wwf w) as Hwf by exact Hc. rewrite (bind_ok _ _ _ _ _ (w_privileged w Hwf)), is_privileged_disable.
  destruct (gv_priv (wview w)); cbn [negb]; [|by apply keeps_ept_fault].
  unfold attempt, hypervisor_disable. unfold bind, gets, modify. cbn [w_try_disable w_activated].
  replace (wrap 32 (w_try_disable w + 1) <? w_activated w) with true by lia.
  by apply (keeps_ept_same w).
Qed.

(** The exit is not the hypercall of the last processor that turns the hypervisor
    off. *)
Definition vmx_in_service (w : W) : Prop :=
  reason_of (fval (wvmx w) (F32ReadOnly VmcsField32ReadOnly.VM_EXIT_REASON)) <> Some VmxExitReason.VMCALL \/
  wrap 32 (rax (wregs w)) <> 0 \/ wrap 32 (w_try_disable w + 1) < w_activated w.

Lemma exit_info_run h : vmcs_current h ->
  match reason_of (fval h (F32ReadOnly VmcsField32ReadOnly.VM_EXIT_REASON)) with
  | Some r => exists x, VmExitInfo_new h = (Ok x, h) /\ exit_reason x = r
  | None => VmExitInfo_new h = (Panic, h)
  end.
Proof.
  intros Hc. unfold VmExitInfo_new. rewrite (bind_ok _ _ _ _ _ (field_read_ok _ h Hc)). fold (fval h (F32ReadOnly VmcsField32ReadOnly.VM_EXIT_REASON)).
  destruct (reason_of _) as [r|]; [|done]. rewrite !(bind_ok _ _ _ _ _ (field_read_ok _ h Hc)). by eexists.
Qed.

Lemma keeps_ept_handle_hypercall w :
  wrap 32 (rax (wregs w)) <> 0 \/ wrap 32 (w_try_disable w + 1) < w_activated w -> keeps_ept w (snd (handle_hypercall hw_seg_base w)).
Proof.
  intros Hq Hc. assert (wwf w) as Hwf by exact Hc. unfold handle_hypercall, get_regs.
  destruct (w_advance_rip w VM_EXIT_LEN_HYPERCALL Hwf) as (w1 & H1 & W1 & R1 & _ & S1).
  rewrite (bind_ok _ _ _ _ _ H1), bind_gets. destruct (page_table_ok (wst w1) W1) as [p Hp].
  rewrite (bind_ok _ _ w1 p w1) by (by apply on_vcpu_read). fold (wregs w1). rewrite R1.
  pose proof (keeps_ept_rip VM_EXIT_LEN_HYPERCALL w) as K. rewrite H1 in K. cbn [snd] in K.
  destruct S1 as (_ & _ & _ & _ & Ea & Et).
  revert Hc. refine (transitivity (R := keeps_ept) K _). apply keeps_ept_hypercall. rewrite Ea, Et. naive_solver.
Qed.

(** Handling an exit in service leaves the EPT as it was. *)
Lemma intel_exit_keeps_ept w : vmx_in_service w -> keeps_ept w (snd (vmexit_handler (intel_handle_exit hw_seg_base) w)).
Proof.
  intros Hs Hc. assert (keeps_ept w (snd (intel_handle_exit hw_seg_base w))) as K.
  { unfold intel_handle_exit. pose proof (exit_info_run _ Hc) as Hi.
    destruct (reason_of _) as [r|] eqn:Er.
    - destruct Hi as (x & Hx & Hr).
      assert (on_vmx VmExitInfo_new w = (Ok x, w)) as Hon.
      { unfold on_vmx. apply on_vcpu_read. unfold on_vmcs, zoom, vmx, vtry, wst, wvmx in *. cbn [fst snd].
        rewrite Hx. by destruct (vcpu (w_percpu w)). }
      rewrite (bind_ok _ _ _ _ _ Hon). destruct (entry_failure x); [by apply keeps_ept_same|]. rewrite Hr.
      assert (r = VmxExitReason.VMCALL \/ r <> VmxExitReason.VMCALL) as [->|Hne] by (destruct r; tauto || by right); [|by apply keeps_ept_dispatch].
      destruct Hs as [Hs|Hs]; [by rewrite Er in Hs|]. by apply keeps_ept_handle_hypercall.
    - unfold bind, on_vmx, on_vcpu, on_vmcs, zoom, vmx, vtry, wvmx in *. cbn [fst snd]. rewrite Hi. by apply keeps_ept_same. }
  revert Hc. unfold vmexit_handler, bind, attempt.
  destruct (intel_handle_exit hw_seg_base w) as [[[]|[e|]| |] w1]; cbn [snd ret fst] in *; try exact K.
  pose proof (keeps_ept_fault w1) as Kf. unfold expect, fault.
  destruct (on_vcpu inject_fault w1) as [[] w2]; cbn [snd] in *; exact (transitivity (R := keeps_ept) K Kf).
Qed.
End Keeps.

(** ** All processors *)
Section IntelGuests.
Context {A : Type} {ba : BitAlloc A} {bal : BitAllocLaws A}.
Context {bf : BitField} {xr : X86Regs} {xrl : X86RegsLaws} {xd : X86Desc} {xdl : X86DescLaws}.
Context {rc : RawCpuid} {rcl : RawCpuidLaws} {H : Type} {hw : VmxHw H} {hwl : VmxHwLaws H}.
Context (hpte npte : GenericPTE) (hlaws : PTELaws (pte := hpte)) (nlaws : PTELaws (pte := npte)).
Context (core_end EMPTY_PAGE : Z) (header : HvHeader) (sys_config : HvSystemConfig).
Context (mem_regions : list HvMemoryRegion) (check_hypervisor_feature : outcome HvErrorNum unit) (idt : DescriptorTablePointer).
Context (addrs : Z -> HostAddrs) (hw_seg_base : Cpu -> Z -> Z).

Abbreviation early_ok := (early_ok hpte npte core_end EMPTY_PAGE header sys_config mem_regions check_hypervisor_feature hlaws nlaws).
Abbreviation early_done := (early_done hpte npte core_end EMPTY_PAGE header sys_config mem_regions hlaws nlaws).
Abbreviation IntelProcessor := (Processor (V := IntelVcpu) (L := H)).
Abbreviation intel_start_system := (start_system hpte npte core_end EMPTY_PAGE header sys_config mem_regions check_hypervisor_feature idt
  (fun h m => (h, m)) fst snd (fun this => intel_vcpu_new (addrs this) this)).

#[local] Instance intel_guests_pv : PhysVirt := phys_virt_offset sys_config.

(** The EPT of a processor: the primary controls activate the secondary ones, and
    those the EPT. *)
Definition vmx_root (v : IntelVcpu * H) : option Z :=
  if Z.testbit (fval (snd v) (F32Control VmcsField32Control.PROC_BASED_VM_EXEC_CONTROL)) 31 &&
     Z.testbit (fval (snd v) (F32Control VmcsField32Control.SECONDARY_VM_EXEC_CONTROL)) 1
  then Some (ept_root (snd v)) else None.

(** VM entries and exits write the guest's state and the exit information, not the
    controls. *)
Definition vmx_runs (v v' : IntelVcpu * H) : Prop :=
  vmcs_current (snd v) -> vmcs_current (snd v') /\ Forall (fun f => fval (snd v') f = fval (snd v) f) ept_fields.

Definition vmx_under (root : Z) (v : IntelVcpu * H) : Prop := vmcs_current (snd v) /\ vmx_root v = Some root.

Lemma vmx_root_same (v v' : IntelVcpu * H) :
  Forall (fun f => fval (snd v') f = fval (snd v) f) ept_fields -> vmx_root v' = vmx_root v.
Proof. unfold ept_fields, vmx_root, ept_root. rewrite !Forall_cons. intros (-> & -> & -> & _). done. Qed.

Lemma vmx_runs_under root v v' : vmx_under root v -> vmx_runs v v' -> vmx_under root v'.
Proof. intros [Hc Hr] Hrun. destruct (Hrun Hc) as [Hc' Hf]. split; [done|]. by rewrite (vmx_root_same v). Qed.

Lemma intel_exit_under root w w' :
  vmx_under root (vcpu (w_percpu w)) -> vmx_in_service w -> vmexit_handler (intel_handle_exit hw_seg_base) w = (Ok tt, w') ->
  vmx_under root (vcpu (w_percpu w')).
Proof.
  intros [Hc Hv] Hin Hw. pose proof (intel_exit_keeps_ept hw_seg_base w Hin Hc) as Hk.
  rewrite Hw in Hk. destruct Hk as [Hc' Hf]. split; [exact Hc'|].
  by rewrite (vmx_root_same (vcpu (w_percpu w)) (vcpu (w_percpu w')) Hf).
Qed.

(** A processor that was initialised is under the EPT it was given. *)
Lemma intel_started_under hv_root cell_root (b : IntelProcessor) (m : Machine A) b' :
  0 <= cell_root -> cell_root mod PAGE_SIZE = 0 -> intel_started addrs hv_root cell_root b m b' ->
  vmx_under cell_root (vcpu (pr_percpu b'), pr_local b').
Proof.
  intros Hr0 Hra [_ _ Hh Hc _ _]. split; [exact Hc|]. unfold vmx_root. cbn [snd].
  pose proof (hr_proc _ _ _ _ Hh) as [Hp _]. pose proof (hr_proc2 _ _ _ _ Hh) as Hs. unfold has_bits in *.
  rewrite !Forall_cons in Hp, Hs. destruct Hp as (_ & -> & _), Hs as (-> & _). cbn [andb].
  by rewrite (host_returns_root _ _ _ _ Hr0 Hra Hh).
Qed.

(** The world of a processor has its VMX state in the vCPU. *)
Definition vmx_percpu (b : IntelProcessor) : PerCpu (IntelVcpu * H) :=
  let p := pr_percpu b in mkPerCpu (self_vaddr p) (id p) (state p) (vcpu p, pr_local b) (linux p).

Abbreviation intel_guests_run :=
  (guests_run npte sys_config vmx_root vmx_runs (vmexit_handler (intel_handle_exit hw_seg_base)) vmx_in_service).

Lemma intel_launch_inv l xs (m1 : Machine A) hv gpm a t :
  early_done m1 hv gpm ->
  Forall2 (outcome_ok hpte npte hlaws nlaws core_end EMPTY_PAGE header sys_config mem_regions (intel_started addrs) hv gpm) l xs ->
  Forall (fun x => fst x = None) xs ->
  guests_inv hpte npte hlaws nlaws core_end EMPTY_PAGE header sys_config mem_regions vmx_under hv gpm m1 (launch m1 xs vmx_percpu a t).
Proof.
  intros D Hx Hall. destruct (early_done_roots _ _ _ _ _ _ _ _ _ _ _ _ D) as [_ (Hr0 & Hra & _)].
  split; cbn [launch rn_mem rn_cpus]; [done| |by split].
  apply Forall_fmap. rewrite Forall_forall in Hall |- *. intros [e b'] Hin _. cbn [snd].
  apply list_elem_of_lookup in Hin as Hi. destruct Hi as [i Hi].
  destruct (Forall2_lookup_r _ _ _ _ _ Hx Hi) as (b & _ & Ho). specialize (Hall _ Hin). cbn [fst] in Hall. subst e.
  destruct Ho as (m0 & _ & Hst). by apply (intel_started_under (root_paddr (pt hv)) _ b m0 b' Hr0 Hra).
Qed.

(** Isolation lasts on Intel: once every processor is initialised, the guests
    can run, store wherever their EPT lets them and exit to the hypervisor, in
    any order and for any time, until the last of them asks to disable it. The
    hypervisor memory keeps every word it had at the start, hence both page
    tables translate as before, and every guest is still confined under the EPT
    of the root cell. *)
Theorem intel_isolation_lasts l xs (m m1 : Machine A) g g1 a t s :
  vmx_reports -> early_ok -> avoids_hv EMPTY_PAGE sys_config mem_regions -> Forall (intel_ready addrs) l ->
  HV_PT g = None -> ROOT_CELL g = None -> contains (pte_view (pte := npte) READ_ONLY) MEM_WRITE = false ->
  intel_start_system l (m, g) = (Ok xs, (m1, g1)) -> Forall (fun x => fst x = None) xs ->
  intel_guests_run (launch m1 xs vmx_percpu a t) s ->
  outside sys_config m1 (rn_mem s) /\
  exists hv gpm, g1 = mkGlobals (Some hv) (Some gpm) 1 /\ early_done (rn_mem s) hv gpm /\
    forall i c p, running_on s i c p -> vmx_root (vcpu p) = Some (root_paddr (pt gpm)) /\
      confined_at npte nlaws EMPTY_PAGE sys_config (rn_mem s) (root_paddr (pt gpm)) [].
Proof.
  intros Hrep E Hav Hl Hg1 Hg2 Hro Hs Hall Hrun.
  pose proof (start_system_ok hpte npte hlaws nlaws core_end EMPTY_PAGE header sys_config mem_regions check_hypervisor_feature idt
    (fun h m => (h, m)) fst snd (fun this => intel_vcpu_new (addrs this) this) (intel_ready addrs) (intel_started addrs) intel_owns
    (intel_vendor idt addrs Hrep) l m g E Hl Hg1 Hg2) as Hok.
  rewrite Hs in Hok. destruct Hok as (hv & gpm & m0 & _ & -> & _ & D & Hx).
  assert (guests_inv hpte npte hlaws nlaws core_end EMPTY_PAGE header sys_config mem_regions vmx_under hv gpm m1 s) as [D' Hu Ho].
  { refine (guests_run_inv hpte npte hlaws nlaws core_end EMPTY_PAGE header sys_config mem_regions check_hypervisor_feature
      vmx_root vmx_runs (vmexit_handler (intel_handle_exit hw_seg_base)) vmx_in_service vmx_under _ vmx_runs_under _ Hro
      hv gpm m1 _ s E Hav _ Hrun).
    - by intros root v [_ ?].
    - exact intel_exit_under.
    - by apply (intel_launch_inv l). }
  split; [done|]. exists hv, gpm. split; [done|]. split; [done|]. intros i c p [Hi Hst].
  split; [rewrite Forall_lookup in Hu; by destruct (Hu i (c, p) Hi Hst)|].
  by apply (confined_intro hpte npte hlaws nlaws core_end EMPTY_PAGE header sys_config mem_regions check_hypervisor_feature _ m1 hv gpm).
Qed.
End IntelGuests.

(** ** A guest at CPUID

    On the reference instance of the VMX instructions; the exit reason is 10. *)
Module IntelGuestsSample.
#[local] Existing Instance BitField_ref.
#[local] Existing Instance X86Regs_ref.
#[local] Existing Instance VmxRef.
#[local] Existing Instance VmxRefLaws.

Abbreviation V := (IntelVcpu * VmxState)%type.

Definition at_vmx_cpuid (v : V) : V := (fst v, (fst (snd v), mem_set (snd (snd v)) 0x4402 10)).
Lemma at_vmx_cpuid_runs v : vmx_runs v (at_vmx_cpuid v).
Proof.
  destruct v as [v [b m]]. intros Hc. split; [exact Hc|].
  unfold ept_fields. repeat (apply Forall_cons; split); [..|by apply Forall_nil];
    unfold fval, at_vmx_cpuid; cbn [vmcs_val VmxRefLaws snd]; unfold vmx_field; cbn [snd]; by rewrite mem_get_set_ne.
Qed.
End IntelGuestsSample.
