(* ===== verification/Boot.v ===== *)
(** * Starting the hypervisor on all processors

    [src/src/main.rs] ([has_err], [wait_for], [wait_for_counter], [main],
    [entry]), [PerCpu::new], [init] and [activate_vmm] of [src/src/percpu.rs] as
    the processors run them side by side: a step of the system is one access
    of one processor to a shared counter.

    What the processors do in between, [primary_init_early], [PerCpu::init] and
    [Vcpu::enter], does not touch the counters; a step takes its outcome as an
    input, so that every pattern of failures is covered. A panic in between is
    not a step: a processor that panics stops where it is ([Machine] has the
    work itself, and shows where it can panic). *)

From S2P Require Import Prelude HvError Config.

(** ** The program of one processor *)

(** The conditions [main] waits for. *)
Inductive wait : Type := WEntered | WEarly | WInited | WLate.

(** Where a processor is. [WaitErr], [WaitCond] and [WaitEnd] are the three
    loads of [wait_for]: [has_err] and the condition of the loop, and [has_err]
    after it. *)
Inductive pc : Type :=
| NewCheck                  (* PerCpu::new: load ENTERED_CPUS *)
| NewFetch                  (* fetch_add of ENTERED_CPUS *)
| WaitErr (w : wait)
| WaitCond (w : wait)
| WaitEnd (w : wait)
| InitEarly                 (* primary_init_early *)
| Init                      (* PerCpu::init *)
| IncInited                 (* fetch_add of INITED_CPUS *)
| InitLate                  (* primary_init_late *)
| ActivateInc               (* activate_vmm: fetch_add of ACTIVATED_CPUS *)
| Enter                     (* Vcpu::enter *)
| InGuest
| Store (e : HvErrorNum)    (* main returned Err(e): store ERROR_NUM *)
| LoadErr
| Returned (code : Z).

(** [ok] records that the processor has counted itself in [INITED_CPUS]; the
    program does not read it. *)
Record Proc : Type := mkProc { p_pc : pc; p_id : Z; p_ok : bool }.

(** The statics. *)
Record Shared : Type := mkShared {
  entered : Z; inited : Z; early_ok : Z; late_ok : Z; error_num : Z; activated : Z;
}.

(** [PerCpu::new]: the per-CPU area of a processor. *)
Definition percpu_vaddr (array id : Z) : Z := add64 array (mul64 id PER_CPU_SIZE).

Section Boot.
(** [HvHeader]. *)
Context (max_cpus online_cpus : Z).

Definition has_err (s : Shared) : bool := negb (error_num s =? 0).

(** The condition of the loop, while it is true the processor spins. *)
Definition cond (w : wait) (s : Shared) : bool :=
  match w with
  | WEntered => entered s <? online_cpus
  | WEarly => early_ok s <? 1
  | WInited => inited s <? online_cpus
  | WLate => late_ok s <? 1
  end.

(** What [main] does after a wait that returned [Ok]. *)
Definition after (w : wait) (id : Z) : pc :=
  match w with
  | WEntered => if id =? 0 then InitEarly else WaitErr WEarly
  | WEarly => Init
  | WInited => if id =? 0 then InitLate else WaitErr WLate
  | WLate => ActivateInc
  end.

Definition goto (p : Proc) (k : pc) : Proc := mkProc k (p_id p) (p_ok p).

Definition set_entered (x : Z) (s : Shared) : Shared :=
  mkShared x (inited s) (early_ok s) (late_ok s) (error_num s) (activated s).
Definition set_inited (x : Z) (s : Shared) : Shared :=
  mkShared (entered s) x (early_ok s) (late_ok s) (error_num s) (activated s).
Definition set_early (x : Z) (s : Shared) : Shared :=
  mkShared (entered s) (inited s) x (late_ok s) (error_num s) (activated s).
Definition set_late (x : Z) (s : Shared) : Shared :=
  mkShared (entered s) (inited s) (early_ok s) x (error_num s) (activated s).
Definition set_error (x : Z) (s : Shared) : Shared :=
  mkShared (entered s) (inited s) (early_ok s) (late_ok s) x (activated s).
Definition set_activated (x : Z) (s : Shared) : Shared :=
  mkShared (entered s) (inited s) (early_ok s) (late_ok s) (error_num s) x.

(** One step of a processor; [r] is the outcome of the function that runs
    between two accesses, [None] for [Ok]. *)
Definition proc_step (r : option HvErrorNum) (s : Shared) (p : Proc) : option (Shared * Proc) :=
  match p_pc p with
  | NewCheck => Some (s, goto p (if max_cpus <=? entered s then Returned (HvError.code EINVAL) else NewFetch))
  | NewFetch => Some (set_entered (wrap 32 (entered s + 1)) s, mkProc (WaitErr WEntered) (entered s) (p_ok p))
  | WaitErr w => Some (s, goto p (if has_err s then WaitEnd w else WaitCond w))
  | WaitCond w => Some (s, goto p (if cond w s then WaitErr w else WaitEnd w))
  | WaitEnd w => Some (s, goto p (if has_err s then Store EBUSY else after w (p_id p)))
  | InitEarly => match r with
                 | None => Some (set_early 1 s, goto p Init)
                 | Some e => Some (s, goto p (Store e))
                 end
  | Init => Some (s, goto p (match r with None => IncInited | Some e => Store e end))
  | IncInited => Some (set_inited (wrap 32 (inited s + 1)) s, mkProc (WaitErr WInited) (p_id p) true)
  | InitLate => Some (set_late 1 s, goto p ActivateInc)
  | ActivateInc => Some (set_activated (wrap 32 (activated s + 1)) s, goto p Enter)
  | Enter => Some (s, goto p (match r with None => InGuest | Some _ => Store EIO end))
  | Store e => Some (set_error (HvError.code e) s, goto p LoadErr)
  | LoadErr => Some (s, goto p (Returned (error_num s)))
  | InGuest | Returned _ => None
  end.

(** ** The system *)
Record System : Type := mkSystem { shared : Shared; procs : list Proc }.

Definition initial (n : nat) : System :=
  mkSystem (mkShared 0 0 0 0 0 0) (replicate n (mkProc NewCheck 0 false)).

Inductive step : System -> System -> Prop :=
| step_proc i p r s l s' p' :
    l !! i = Some p -> proc_step r s p = Some (s', p') ->
    step (mkSystem s l) (mkSystem s' (<[i := p']> l)).

Definition steps : System -> System -> Prop := rtc step.
Definition reachable (n : nat) (x : System) : Prop := steps (initial n) x.

(** Run a schedule: which processor steps, and with which outcome. *)
Fixpoint run (sched : list (nat * option HvErrorNum)) (x : System) : option System :=
  match sched with
  | [] => Some x
  | (i, r) :: rest =>
      match procs x !! i with
      | None => None
      | Some p =>
          match proc_step r (shared x) p with
          | None => None
          | Some (s', p') => run rest (mkSystem s' (<[i := p']> (procs x)))
          end
      end
  end.

Lemma run_steps sched x y : run sched x = Some y -> steps x y.
Proof.
  revert x. induction sched as [|[i r] rest IH]; intros x Hr; simpl in Hr; [by injection Hr as <-|].
  destruct (procs x !! i) as [p|] eqn:Hi; [|done].
  destruct (proc_step r (shared x) p) as [[s' p']|] eqn:Hp; [|done].
  apply rtc_l with (mkSystem s' (<[i:=p']> (procs x))); [|by apply IH].
  destruct x as [s l]. by apply (step_proc i p r).
Qed.
End Boot.
