(* ===== verification/BootProps.v ===== *)
(** * Properties of the start-up

    The invariant of the processors starting side by side, and from it: they
    get different ids, none enters the guest before all are initialised, the
    start can always end, and it ends the same way for all. *)

From S2P Require Import Prelude HvError Config Boot.

(** ** The invariant *)
Definition fetched (p : Proc) : bool :=
  match p_pc p with NewCheck | NewFetch => false | _ => true end.
Definition in_vmm (p : Proc) : bool := match p_pc p with Enter | InGuest => true | _ => false end.
Definition failed (p : Proc) : bool :=
  match p_pc p with Store _ | LoadErr | Returned _ => true | _ => false end.

Section Inv.
Context (max_cpus online_cpus : Z) (n : nat).
(** The driver starts as many processors as it announces, at most as many as
    there are per-CPU areas. *)
Context (Hn : Z.of_nat n = online_cpus) (Hmax : online_cpus <= max_cpus < 2 ^ 32).

Abbreviation proc_step := (proc_step max_cpus online_cpus).
Abbreviation step := (step max_cpus online_cpus).
Abbreviation steps := (steps max_cpus online_cpus).
Abbreviation reachable := (reachable max_cpus online_cpus n).

(** What holds where a processor waits, and once its wait is over. *)
Definition at_wait (w : wait) (s : Shared) (p : Proc) : Prop :=
  match w with
  | WEntered => p_ok p = false
  | WEarly => p_ok p = false /\ p_id p <> 0
  | WInited => p_ok p = true /\ early_ok s = 1
  | WLate => p_ok p = true /\ early_ok s = 1 /\ p_id p <> 0 /\ online_cpus <= inited s
  end.

Definition wait_over (w : wait) (s : Shared) : Prop := has_err s = true \/ cond online_cpus w s = false.

Definition proc_inv (s : Shared) (p : Proc) : Prop :=
  match p_pc p with
  | NewCheck | NewFetch => p_ok p = false
  | WaitErr w | WaitCond w => at_wait w s p
  | WaitEnd w => at_wait w s p /\ wait_over w s
  | InitEarly => p_ok p = false /\ p_id p = 0
  | Init | IncInited => p_ok p = false /\ early_ok s = 1
  | InitLate => p_ok p = true /\ early_ok s = 1 /\ p_id p = 0 /\ online_cpus <= inited s
  | ActivateInc | Enter | InGuest => p_ok p = true /\ early_ok s = 1 /\ late_ok s = 1 /\ online_cpus <= inited s
  | Store _ => True
  | LoadErr => has_err s = true
  | Returned c => has_err s = true /\ c <> 0
  end.

(** The statics only grow, and an error is never forgotten. *)
Record grows (s s' : Shared) : Prop := {
  g_entered : entered s <= entered s';
  g_inited : inited s <= inited s';
  g_early : early_ok s = 1 -> early_ok s' = 1;
  g_late : late_ok s = 1 -> late_ok s' = 1;
  g_error : has_err s = true -> has_err s' = true;
  g_flags : 0 <= early_ok s <= 1 /\ 0 <= late_ok s <= 1 -> 0 <= early_ok s' <= 1 /\ 0 <= late_ok s' <= 1;
}.

Definition flags_ok (s : Shared) : Prop := 0 <= early_ok s <= 1 /\ 0 <= late_ok s <= 1.

Lemma wait_over_mono w s s' : flags_ok s -> grows s s' -> wait_over w s -> wait_over w s'.
Proof.
  intros [Hf1 Hf2] [Ge Gi Gea Gl Gr Gf] [He|Hc]; [left; by apply Gr|right].
  destruct w; simpl in *; lia.
Qed.

Lemma proc_inv_mono s s' p : flags_ok s -> grows s s' -> proc_inv s p -> proc_inv s' p.
Proof.
  intros Hf Hg. pose proof Hg as [Ge Gi Gea Gl Gr Gf]. unfold proc_inv.
  assert (forall w, at_wait w s p -> at_wait w s' p) as Hw by (intros []; simpl; intuition (auto; lia)).
  destruct (p_pc p); intuition (eauto using wait_over_mono; lia).
Qed.

Lemma code_ne_0 e : HvError.code e <> 0.
Proof. unfold HvError.code. by destruct e. Qed.

(** One step of one processor: the effect on the counters and on the invariant
    of that processor. *)
Lemma proc_step_inv r s p s' p' :
  proc_step r s p = Some (s', p') -> flags_ok s -> proc_inv s p ->
  0 <= entered s -> 0 <= inited s -> 0 <= activated s -> (p_pc p = ActivateInc -> activated s < 2 ^ 32 - 1) ->
  (fetched p = false -> entered s < online_cpus) -> (p_ok p = false -> inited s < online_cpus) ->
  grows s s' /\ proc_inv s' p' /\
  entered s' = entered s - Z.b2z (fetched p) + Z.b2z (fetched p') /\
  inited s' = inited s - Z.b2z (p_ok p) + Z.b2z (p_ok p') /\
  (activated s' = activated s \/ p_pc p = ActivateInc /\ p_pc p' = Enter /\ activated s' = activated s + 1) /\
  (p_pc p = ActivateInc -> activated s' = activated s + 1) /\
  (if fetched p then p_id p' = p_id p else if fetched p' then p_id p' = entered s else True).
Proof.
  intros Hs Hf Hi He0 Hi0 Ha0 Ha Hfe Hok. destruct p as [k id ok]. unfold proc_step, Boot.proc_step in Hs.
  unfold proc_inv in *. cbn [p_pc p_id p_ok fetched goto] in *.
  assert (forall x, grows x x) as Hrefl by (intros x; split; done || lia).
  destruct k as [| |w|w|w| | | | | | | |e| |code]; try discriminate Hs.
  - (* NewCheck *) injection Hs as <- <-. replace (max_cpus <=? entered s) with false by (specialize (Hfe eq_refl); lia).
    split_and!; done || (cbn; lia) || (by left).
  - (* NewFetch *) injection Hs as <- <-. specialize (Hfe eq_refl). assert (wrap 32 (entered s + 1) = entered s + 1) as Hw
      by (apply wrap_small; unfold in_range; lia).
    cbn. rewrite Hw. split_and!; try done; try (cbn; lia); try (by left). split; cbn; done || lia.
  - injection Hs as <- <-. destruct (has_err s) eqn:Her; split_and!; try done; try (cbn; lia); try (by left);
      cbn; split; [done|by left].
  - injection Hs as <- <-. destruct (cond online_cpus w s) eqn:Hc; split_and!; try done; try (cbn; lia); try (by left);
      cbn; split; [done|by right].
  - injection Hs as <- <-. destruct Hi as [Hw [Ho|Ho]]; [rewrite Ho; split_and!; try done; try (cbn; lia); by left|].
    destruct (has_err s) eqn:Her; [split_and!; try done; try (cbn; lia); by left|].
    destruct w; simpl in *; [destruct (Z.eqb_spec id 0)| |destruct (Z.eqb_spec id 0)|];
      (split_and!; try done; try (cbn; destruct Hf; lia); try (by left); cbn; destruct Hf; intuition lia).
  - destruct r as [e|]; injection Hs as <- <-; split_and!; try done; try (cbn; lia); try (by left).
    + split; cbn; done || lia.
    + by destruct Hi.
  - injection Hs as <- <-. destruct r; split_and!; try done; try (cbn; lia); by left.
  - injection Hs as <- <-. destruct Hi as [-> He1]. specialize (Hok eq_refl). assert (wrap 32 (inited s + 1) = inited s + 1) as Hw
      by (apply wrap_small; unfold in_range; lia).
    cbn. rewrite Hw. split_and!; try done; try (cbn; lia); try (by left). split; cbn; done || lia.
  - injection Hs as <- <-. destruct Hi as (? & ? & ? & ?). split_and!; try done; try (cbn; lia); try (by left).
    split; cbn; done || lia.
  - injection Hs as <- <-. specialize (Ha eq_refl). assert (wrap 32 (activated s + 1) = activated s + 1) as Hw
      by (apply wrap_small; unfold in_range; lia).
    cbn. rewrite Hw. split_and!; try done; try (cbn; lia); try (by right); try (by destruct Hi as (? & ? & ? & ?)).
  - injection Hs as <- <-. destruct r; split_and!; try done; try (cbn; lia); by left.
  - injection Hs as <- <-. assert (has_err (set_error (HvError.code e) s) = true) as Hne.
    { unfold has_err. cbn. pose proof (code_ne_0 e). lia. }
    split_and!; try done; try (cbn; lia); by left.
  - injection Hs as <- <-. split_and!; try done; try (cbn; lia); try (by left).
    cbn. split; [done|]. unfold has_err in Hi. lia.
Qed.

Record inv (x : System) : Prop := {
  iv_len : length (procs x) = n;
  iv_flags : flags_ok (shared x);
  iv_entered : entered (shared x) = cnt fetched (procs x);
  iv_inited : inited (shared x) = cnt p_ok (procs x);
  iv_active : cnt in_vmm (procs x) <= activated (shared x) <= cnt (fun p => in_vmm p || failed p) (procs x);
  iv_procs : forall i p, procs x !! i = Some p -> proc_inv (shared x) p;
  iv_id : forall i p, procs x !! i = Some p -> fetched p = true -> 0 <= p_id p < entered (shared x);
  iv_unique : forall i j p q, procs x !! i = Some p -> procs x !! j = Some q -> i <> j ->
    fetched p = true -> fetched q = true -> p_id p <> p_id q;
  iv_primary : 0 < entered (shared x) ->
    exists i p, procs x !! i = Some p /\ fetched p = true /\ p_id p = 0;
}.

Lemma inv_initial : inv (initial n).
Proof.
  split; cbn [shared procs initial entered inited activated]; rewrite ?cnt_replicate by done; try done; try lia.
  - apply length_replicate.
  - intros i p [-> _]%lookup_replicate. done.
  - intros i p [-> _]%lookup_replicate Hf. done.
  - intros i j p q [-> _]%lookup_replicate _ _ Hf. done.
Qed.

Lemma step_fetched r s p s' p' : proc_step r s p = Some (s', p') -> fetched p = true -> fetched p' = true.
Proof.
  destruct p as [k id ok]. unfold proc_step, Boot.proc_step, fetched, goto, after. cbn [p_pc p_id p_ok].
  intros Hs Hf. destruct k as [| |w|w|w| | | | | | | |e| |code]; try discriminate; try (destruct r); injection Hs as _ <-; cbn;
    try done; repeat case_match; done.
Qed.

Lemma step_in_vmm r s p s' p' :
  proc_step r s p = Some (s', p') ->
  (in_vmm p' = true -> in_vmm p = true \/ p_pc p = ActivateInc) /\
  (in_vmm p || failed p = true -> in_vmm p' || failed p' = true) /\
  (p_pc p = ActivateInc -> in_vmm p = false /\ failed p = false /\ in_vmm p' = true).
Proof.
  destruct p as [k id ok]. unfold proc_step, Boot.proc_step, in_vmm, failed, goto, after. cbn [p_pc p_id p_ok].
  intros Hs. destruct k as [| |w|w|w| | | | | | | |e| |code]; try discriminate; try (destruct r); injection Hs as _ <-; cbn;
    split_and!; try done; repeat case_match; try done; auto.
Qed.

(** The hypotheses of [proc_step_inv] follow from the invariant. *)
Lemma inv_step_facts x i p r s' p' :
  inv x -> procs x !! i = Some p -> proc_step r (shared x) p = Some (s', p') ->
  grows (shared x) s' /\ proc_inv s' p' /\
  entered s' = entered (shared x) - Z.b2z (fetched p) + Z.b2z (fetched p') /\
  inited s' = inited (shared x) - Z.b2z (p_ok p) + Z.b2z (p_ok p') /\
  (activated s' = activated (shared x) \/
   p_pc p = ActivateInc /\ p_pc p' = Enter /\ activated s' = activated (shared x) + 1) /\
  (p_pc p = ActivateInc -> activated s' = activated (shared x) + 1) /\
  (if fetched p then p_id p' = p_id p else if fetched p' then p_id p' = entered (shared x) else True).
Proof.
  intros [Hlen Hfl He Hin Hac Hpr Hid Hun Hp0] Hi Hs. apply (proc_step_inv r _ _ _ _ Hs Hfl (Hpr i p Hi)).
  - rewrite He. apply cnt_bounds.
  - rewrite Hin. apply cnt_bounds.
  - pose proof (cnt_bounds in_vmm (procs x)). lia.
  - intros Hact. destruct (step_in_vmm r _ _ _ _ Hs) as (_ & _ & Ha). destruct (Ha Hact) as (H1 & H2 & _).
    pose proof (cnt_lt (fun p => in_vmm p || failed p) (procs x) i p Hi) as Hlt. cbn beta in Hlt. rewrite H1, H2, Hlen in Hlt.
    specialize (Hlt eq_refl). lia.
  - intros Hf. rewrite He. pose proof (cnt_lt fetched (procs x) i p Hi Hf). lia.
  - intros Hk. rewrite Hin. pose proof (cnt_lt p_ok (procs x) i p Hi Hk). lia.
Qed.

Lemma inv_active_step x i p r s' p' :
  inv x -> procs x !! i = Some p -> proc_step r (shared x) p = Some (s', p') ->
  let l' := <[i := p']> (procs x) in
  cnt in_vmm l' <= activated s' <= cnt (fun p => in_vmm p || failed p) l'.
Proof.
  intros Hinv Hi Hs. destruct (inv_step_facts _ _ _ _ _ _ Hinv Hi Hs) as (_ & _ & _ & _ & Ha & Ha' & _).
  destruct (step_in_vmm r _ _ _ _ Hs) as (S1 & S2 & S3). pose proof (iv_active x Hinv) as Hac. cbv zeta.
  rewrite !(cnt_insert _ _ _ _ _ Hi).
  destruct Ha as [Ha|(Hp & Hp' & Ha)].
  - assert (p_pc p <> ActivateInc) as Hne by (intros Hx; specialize (Ha' Hx); lia).
    destruct (in_vmm p), (in_vmm p'), (failed p), (failed p'); simpl in *; intuition (try lia; try discriminate).
  - destruct (S3 Hp) as (-> & -> & ->). simpl. destruct (failed p'); simpl; lia.
Qed.

Lemma inv_ids_step x i p r s' p' :
  inv x -> procs x !! i = Some p -> proc_step r (shared x) p = Some (s', p') ->
  let l' := <[i := p']> (procs x) in
  (forall j q, l' !! j = Some q -> fetched q = true -> 0 <= p_id q < entered s') /\
  (forall j k q t, l' !! j = Some q -> l' !! k = Some t -> j <> k ->
     fetched q = true -> fetched t = true -> p_id q <> p_id t) /\
  (0 < entered s' -> exists j q, l' !! j = Some q /\ fetched q = true /\ p_id q = 0).
Proof.
  intros Hinv Hi Hs. destruct (inv_step_facts _ _ _ _ _ _ Hinv Hi Hs) as ([Hge _ _ _ _ _] & _ & He & _ & _ & _ & Hid).
  pose proof Hinv as [Hlen _ Hen _ _ _ Hids Hun Hp0]. pose proof (step_fetched r _ _ _ _ Hs) as Hf.
  pose proof (cnt_bounds fetched (procs x)) as Hb. cbv zeta.
  assert (fetched p' = true -> 0 <= p_id p' < entered s' /\
    (forall j q, j <> i -> procs x !! j = Some q -> fetched q = true -> p_id p' <> p_id q)) as Hp'.
  { intros Hf'. destruct (fetched p) eqn:Hfp.
    - rewrite Hid. split; [pose proof (Hids i p Hi Hfp); lia|]. intros j q Hj Hq Hfq. by apply (Hun i j p q).
    - rewrite Hf' in Hid, He. simpl in He. rewrite Hid. split; [lia|]. intros j q Hj Hq Hfq.
      pose proof (Hids j q Hq Hfq). lia. }
  split_and!.
  - intros j q [[-> ->]|[Hj Hq]]%lookup_insert_cases Hfq; [by apply Hp'|]. pose proof (Hids j q Hq Hfq). lia.
  - intros j k q t [[-> ->]|[Hj Hq]]%lookup_insert_cases [[-> ->]|[Hk Ht]]%lookup_insert_cases Hjk Hfq Hft; try done.
    + by apply (Hp' Hfq) with k.
    + intros Heq. by apply (proj2 (Hp' Hft) j q).
    + by apply (Hun j k q t).
  - intros Hpos. destruct (decide (0 < entered (shared x))) as [Hx|Hx].
    + destruct (Hp0 Hx) as (j & q & Hq & Hfq & H0). destruct (decide (j = i)) as [->|Hj].
      * rewrite Hi in Hq. injection Hq as <-. exists i, p'. rewrite Hfq in Hid.
        split; [apply list_lookup_insert_eq; by apply lookup_lt_Some in Hi|]. split; [by apply Hf|congruence].
      * exists j, q. by rewrite list_lookup_insert_ne.
    + exists i, p'. split; [apply list_lookup_insert_eq; by apply lookup_lt_Some in Hi|].
      destruct (fetched p), (fetched p'); simpl in *; lia.
Qed.

Lemma inv_step x y : inv x -> step x y -> inv y.
Proof.
  intros Hinv Hst. destruct Hst as [i p r s l s' p' Hi Hs].
  destruct (inv_step_facts _ _ _ _ _ _ Hinv Hi Hs) as (Hg & Hp' & He & Hin & _ & _ & _).
  destruct (inv_ids_step _ _ _ _ _ _ Hinv Hi Hs) as (I1 & I2 & I3).
  pose proof (inv_active_step _ _ _ _ _ _ Hinv Hi Hs) as Hac.
  destruct Hinv as [Hlen Hfl Hen Hini _ Hpr _ _ _]. cbn [shared procs] in *.
  split; cbn [shared procs]; try done.
  - by rewrite length_insert.
  - by apply Hg.
  - rewrite (cnt_insert _ _ _ _ _ Hi). lia.
  - rewrite (cnt_insert _ _ _ _ _ Hi). lia.
  - intros j q [[-> ->]|[Hj Hq]]%lookup_insert_cases; [done|].
    by apply (proc_inv_mono s s'), (Hpr j).
Qed.

Lemma inv_steps x y : inv x -> steps x y -> inv y.
Proof. intros Hx Hr. induction Hr as [x|x y z Hxy _ IH]; [done|]. by apply IH, (inv_step x y). Qed.

Lemma inv_reachable x : reachable x -> inv x.
Proof. apply inv_steps, inv_initial. Qed.

(** ** Ids and per-CPU areas *)

(** Two processors never share a per-CPU area: the ids handed out are
    different and below [max_cpus], and the areas of 512K they select are
    disjoint and inside the array. *)
Theorem boot_ids x i j p q array :
  reachable x -> procs x !! i = Some p -> procs x !! j = Some q -> i <> j ->
  fetched p = true -> fetched q = true -> 0 <= array -> array + max_cpus * PER_CPU_SIZE <= 2 ^ 64 ->
  let a := percpu_vaddr array (p_id p) in
  let b := percpu_vaddr array (p_id q) in
  array <= a /\ a + PER_CPU_SIZE <= array + max_cpus * PER_CPU_SIZE /\
  (a + PER_CPU_SIZE <= b \/ b + PER_CPU_SIZE <= a).
Proof.
  intros Hr Hp Hq Hij Hfp Hfq Ha0 Ha1. pose proof (inv_reachable x Hr) as [Hlen _ Hen _ _ _ Hids Hun _].
  pose proof (cnt_bounds fetched (procs x)) as Hb. pose proof (Hids i p Hp Hfp). pose proof (Hids j q Hq Hfq).
  pose proof (Hun i j p q Hp Hq Hij Hfp Hfq). cbv zeta. unfold percpu_vaddr, add64, mul64, PER_CPU_SIZE in *.
  rewrite !(wrap_small 64 (_ * _)) by (unfold in_range; nia). rewrite !wrap_small by (unfold in_range; nia). nia.
Qed.

(** ** Barriers *)
Definition activating (p : Proc) : bool :=
  match p_pc p with ActivateInc | Enter | InGuest => true | _ => false end.
Definition initialising (p : Proc) : bool :=
  match p_pc p with Init | IncInited => true | _ => false end.

Lemma all_ok x i p :
  inv x -> procs x !! i = Some p -> online_cpus <= inited (shared x) ->
  forall j q, procs x !! j = Some q -> p_ok q = true.
Proof.
  intros [Hlen _ _ Hin _ _ _ _ _] Hi Hge. apply cnt_full. pose proof (cnt_bounds p_ok (procs x)). lia.
Qed.

(** C19. Activation is all or nothing: a processor that initialises does so
    after the primary has built the page tables, and a processor that turns to
    the guest does so only when every processor has been initialised without
    an error. *)
Theorem boot_barriers x i p :
  reachable x -> procs x !! i = Some p ->
  (initialising p = true -> early_ok (shared x) = 1) /\
  (activating p = true -> late_ok (shared x) = 1 /\ forall j q, procs x !! j = Some q -> p_ok q = true).
Proof.
  intros Hr Hi. pose proof (inv_reachable x Hr) as Hinv. pose proof (iv_procs x Hinv i p Hi) as Hp.
  unfold proc_inv, initialising, activating in *. split; intros Hk; destruct (p_pc p); try done.
  1-2: apply Hp.
  all: destruct Hp as (_ & _ & Hl & Hge); split; [done|]; by apply (all_ok x i p).
Qed.

(** ** The start ends *)
Definition final_pc (k : pc) : bool := match k with InGuest | Returned _ => true | _ => false end.
Definition final (x : System) : Prop := Forall (fun p => final_pc (p_pc p) = true) (procs x).

Definition wrank (w : wait) : nat := match w with WEntered => 14 | WEarly => 12 | WInited => 8 | WLate => 6 end.
Definition rank (p : Proc) : nat :=
  match p_pc p with
  | NewCheck => 16 | NewFetch => 15
  | WaitErr w | WaitCond w => wrank w
  | WaitEnd w => wrank w - 1
  | InitEarly => 12 | Init => 10 | IncInited => 9 | InitLate => 6 | ActivateInc => 4 | Enter => 3
  | Store _ => 2 | LoadErr => 1 | InGuest | Returned _ => 0
  end.
Definition ranks (x : System) : nat := sum_list (map rank (procs x)).

(** Waiting processors spin without progress; the others come closer to the
    end with every step. *)
Definition spinning (p : Proc) : bool :=
  match p_pc p with WaitErr _ | WaitCond _ => true | _ => false end.

Lemma progress_proc s p :
  spinning p = false -> final_pc (p_pc p) = false ->
  exists s' p', proc_step None s p = Some (s', p') /\ (rank p' < rank p)%nat.
Proof.
  destruct p as [k id ok]. unfold spinning, proc_step, Boot.proc_step, goto. cbn [p_pc p_id p_ok].
  intros Hs Hf. destruct k as [| |w|w|w| | | | | | | |e| |code]; try discriminate;
    eexists _, _; (split; [reflexivity|]); try (unfold rank; cbn; lia).
  - destruct (max_cpus <=? entered s); unfold rank; cbn; lia.
  - destruct (has_err s); [unfold rank; destruct w; cbn; lia|].
    unfold after, rank. destruct w; cbn; try destruct (id =? 0); cbn; lia.
Qed.

Lemma step_rank x i p s' p' :
  procs x !! i = Some p -> proc_step None (shared x) p = Some (s', p') -> (rank p' < rank p)%nat ->
  exists y, step x y /\ (ranks y < ranks x)%nat.
Proof.
  intros Hi Hs Hr. exists (mkSystem s' (<[i := p']> (procs x))). split.
  - destruct x as [s l]. by apply (step_proc _ _ i p None).
  - unfold ranks. cbn [procs]. pose proof (sum_insert rank (procs x) i p p' Hi). lia.
Qed.

(** A waiting processor whose condition is met leaves the loop. *)
Lemma leave_loop x i p w :
  procs x !! i = Some p -> p_pc p = WaitErr w \/ p_pc p = WaitCond w -> wait_over w (shared x) ->
  exists y, steps x y /\ (ranks y < ranks x)%nat.
Proof.
  intros Hi Hw Ho. destruct x as [s l]. cbn [procs shared] in *.
  set (go k := mkSystem s (<[i := goto p k]> l)).
  assert (forall k, (rank (goto p k) < rank p)%nat -> (ranks (go k) < ranks (mkSystem s l))%nat) as Hrk.
  { intros k Hk. unfold ranks, go. cbn [procs]. pose proof (sum_insert rank l i p (goto p k) Hi). lia. }
  assert (rank p = wrank w) as Hrp by (unfold rank; by destruct Hw as [-> | ->]).
  assert ((rank (goto p (WaitEnd w)) < rank p)%nat) as Hlt by (rewrite Hrp; unfold rank; cbn; destruct w; cbn; lia).
  assert (l !! i = Some p -> forall k, <[i := goto p k]> l !! i = Some (goto p k)) as Hl.
  { intros _ k. apply list_lookup_insert_eq. by apply lookup_lt_Some in Hi. }
  exists (go (WaitEnd w)). split; [|by apply Hrk].
  assert (forall k k' (y := go k), proc_step None s (goto p k) = Some (s, goto p k') -> step (go k) (go k')) as Hgo.
  { intros k k' y Hs. unfold go. replace (<[i:=goto p k']> l) with (<[i:=goto p k']> (<[i:=goto p k]> l))
      by apply list_insert_insert_eq. apply (step_proc _ _ i (goto p k) None); [by apply Hl|exact Hs]. }
  assert (go (p_pc p) = mkSystem s l) as Hself.
  { unfold go. f_equal. apply list_insert_id. destruct p; done. }
  assert (has_err s = true -> step (go (WaitErr w)) (go (WaitEnd w))) as S1.
  { intros He. apply Hgo. unfold proc_step, Boot.proc_step. cbn. by rewrite He. }
  assert (has_err s = false -> step (go (WaitErr w)) (go (WaitCond w))) as S2.
  { intros He. apply Hgo. unfold proc_step, Boot.proc_step. cbn. by rewrite He. }
  assert (cond online_cpus w s = false -> step (go (WaitCond w)) (go (WaitEnd w))) as S3.
  { intros Hc. apply Hgo. unfold proc_step, Boot.proc_step. cbn. by rewrite Hc. }
  assert (cond online_cpus w s = true -> step (go (WaitCond w)) (go (WaitErr w))) as S4.
  { intros Hc. apply Hgo. unfold proc_step, Boot.proc_step. cbn. by rewrite Hc. }
  rewrite <- Hself. destruct (has_err s) eqn:He.
  - destruct Hw as [-> | ->]; [by apply rtc_once, S1|].
    destruct (cond online_cpus w s) eqn:Hc; [|by apply rtc_once, S3].
    apply rtc_l with (go (WaitErr w)); [by apply S4|]. by apply rtc_once, S1.
  - destruct Ho as [Ho|Ho]; [congruence|]. destruct Hw as [-> | ->]; [|by apply rtc_once, S3].
    apply rtc_l with (go (WaitCond w)); [by apply S2|]. by apply rtc_once, S3.
Qed.

Definition waits (w : wait) (p : Proc) : bool :=
  match p_pc p with
  | WaitErr v | WaitCond v =>
      match v, w with WEntered, WEntered | WEarly, WEarly | WInited, WInited | WLate, WLate => true | _, _ => false end
  | _ => false
  end.

Lemma waits_pc w p : waits w p = true -> p_pc p = WaitErr w \/ p_pc p = WaitCond w.
Proof. unfold waits. destruct (p_pc p) as [| |v|v| | | | | | | | | | |]; try done; destruct v, w; auto; done. Qed.

Lemma spinning_waits p : spinning p = true -> exists w, waits w p = true.
Proof.
  unfold spinning, waits. destruct (p_pc p) as [| |v|v| | | | | | | | | | |]; try done; exists v; by destruct v.
Qed.

(** When all processors spin or are done and there is no error, the condition
    of one of them is met. *)
Lemma some_wait_over x i p :
  inv x -> (forall j q, procs x !! j = Some q -> spinning q = true \/ final_pc (p_pc q) = true) ->
  has_err (shared x) = false -> procs x !! i = Some p -> spinning p = true ->
  exists j q w, procs x !! j = Some q /\ waits w q = true /\ wait_over w (shared x).
Proof.
  intros Hinv Hall He Hi Hsp. pose proof Hinv as [Hlen Hfl Hen Hini _ Hpr Hids Hun Hp0].
  assert (forall j q, procs x !! j = Some q -> (exists w, waits w q = true) \/ p_pc q = InGuest) as Hcase.
  { intros j q Hq. destruct (Hall j q Hq) as [Hs|Hf]; [left; by apply spinning_waits|right].
    specialize (Hpr j q Hq). unfold proc_inv in Hpr. destruct (p_pc q); try done. destruct Hpr; congruence. }
  assert (forall j q, procs x !! j = Some q -> fetched q = true) as Hfet.
  { intros j q Hq. unfold fetched. destruct (Hcase j q Hq) as [[w Hw]|Hw].
    - destruct (waits_pc w q Hw) as [-> | ->]; done.
    - by rewrite Hw. }
  assert (entered (shared x) = online_cpus) as Hent.
  { rewrite Hen, <- Hn, <- Hlen. by apply cnt_full. }
  assert (0 < entered (shared x)) as Hpos.
  { apply lookup_lt_Some in Hi. rewrite Hent, <- Hn, <- Hlen. lia. }
  destruct (Hp0 Hpos) as (k & pr & Hk & _ & Hid0).
  assert (forall w q, waits w q = true -> proc_inv (shared x) q -> at_wait w (shared x) q) as Hat.
  { intros w q Hw Hq. unfold proc_inv in Hq. by destruct (waits_pc w q Hw) as [Heq|Heq]; rewrite Heq in Hq. }
  destruct (find_elem (waits WEntered) (procs x)) as [(j & q & Hq & Hw)|N1].
  { exists j, q, WEntered. split_and!; [done..|]. right. simpl. lia. }
  destruct (find_elem (waits WEarly) (procs x)) as [(j & q & Hq & Hw)|N2].
  { exists j, q, WEarly. split_and!; [done..|]. right. simpl.
    pose proof (Hpr k pr Hk) as Hk'. destruct (Hcase k pr Hk) as [[w Hw']|Hg].
    - specialize (Hat w pr Hw' Hk'). destruct w; [by rewrite (N1 k pr Hk) in Hw'| | |]; simpl in Hat; lia.
    - unfold proc_inv in Hk'. rewrite Hg in Hk'. lia. }
  assert (online_cpus <= inited (shared x)) as Hin.
  { rewrite Hini, <- Hn, <- Hlen. apply Z.eq_le_incl. symmetry. apply cnt_full. intros j q Hq.
    pose proof (Hpr j q Hq) as Hq'. destruct (Hcase j q Hq) as [[w Hw]|Hg].
    - specialize (Hat w q Hw Hq'). destruct w; [by rewrite (N1 j q Hq) in Hw|by rewrite (N2 j q Hq) in Hw| |]; apply Hat.
    - unfold proc_inv in Hq'. rewrite Hg in Hq'. apply Hq'. }
  destruct (find_elem (waits WInited) (procs x)) as [(j & q & Hq & Hw)|N3].
  { exists j, q, WInited. split_and!; [done..|]. right. simpl. lia. }
  destruct (spinning_waits p Hsp) as [w Hw]. exists i, p, w. split_and!; [done..|].
  destruct w; [by rewrite (N1 i p Hi) in Hw|by rewrite (N2 i p Hi) in Hw|by rewrite (N3 i p Hi) in Hw|].
  right. simpl. pose proof (Hpr k pr Hk) as Hk'. destruct (Hcase k pr Hk) as [[w Hw']|Hg].
  - specialize (Hat w pr Hw' Hk').
    destruct w; [by rewrite (N1 k pr Hk) in Hw'|by rewrite (N2 k pr Hk) in Hw'|by rewrite (N3 k pr Hk) in Hw'|].
    simpl in Hat. lia.
  - unfold proc_inv in Hk'. rewrite Hg in Hk'. lia.
Qed.

Lemma progress x : inv x -> ~ final x -> exists y, steps x y /\ (ranks y < ranks x)%nat.
Proof.
  intros Hinv Hnf.
  destruct (find_elem (fun p => negb (spinning p) && negb (final_pc (p_pc p))) (procs x)) as [(i & p & Hi & Hp)|N].
  { apply andb_true_iff in Hp as [H1 H2]. apply negb_true_iff in H1, H2.
    destruct (progress_proc (shared x) p H1 H2) as (s' & p' & Hs & Hr).
    destruct (step_rank x i p s' p' Hi Hs Hr) as (y & Hy & Hlt). exists y. split; [by apply rtc_once|done]. }
  destruct (find_elem spinning (procs x)) as [(i & p & Hi & Hp)|N'].
  2: { exfalso. apply Hnf, Forall_lookup. intros i p Hi. specialize (N i p Hi). specialize (N' i p Hi). cbn beta in N.
       rewrite N' in N. by destruct (final_pc (p_pc p)). }
  destruct (has_err (shared x)) eqn:He.
  - destruct (spinning_waits p Hp) as [w Hw]. apply (leave_loop x i p w Hi (waits_pc w p Hw)). by left.
  - destruct (some_wait_over x i p Hinv) as (j & q & w & Hq & Hw & Ho); try done.
    + intros j q Hq. specialize (N j q Hq). cbn beta in N. destruct (spinning q), (final_pc (p_pc q)); auto.
    + by apply (leave_loop x j q w Hq (waits_pc w q Hw)).
Qed.

Lemma final_dec x : final x \/ ~ final x.
Proof.
  destruct (find_elem (fun p => negb (final_pc (p_pc p))) (procs x)) as [(i & p & Hi & Hp)|N].
  - right. intros Hf. unfold final in Hf. rewrite Forall_lookup in Hf. rewrite (Hf i p Hi) in Hp. done.
  - left. apply Forall_lookup. intros i p Hi. apply negb_false_iff, (N i p Hi).
Qed.

(** C21. The start cannot hang: whatever the processors have done so far and
    whichever of them failed, there is a way on that takes every processor to
    the guest or back to the driver. *)
Theorem boot_ends x : reachable x -> exists y, steps x y /\ final y.
Proof.
  intros Hr. pose proof (inv_reachable x Hr) as Hinv. clear Hr.
  remember (ranks x) as k eqn:Hk. revert x Hinv Hk. induction k as [k IH] using lt_wf_ind. intros x Hinv ->.
  destruct (final_dec x) as [Hf|Hf]; [by exists x|].
  destruct (progress x Hinv Hf) as (y & Hxy & Hlt).
  destruct (IH (ranks y) Hlt y) as (z & Hyz & Hz); [by apply (inv_steps x y)|done|].
  exists z. split; [by transitivity y|done].
Qed.

Lemma agreement_inv x :
  inv x -> final x ->
  (forall i p, procs x !! i = Some p -> p_ok p = true) /\
    ((forall i p, procs x !! i = Some p -> p_pc p = InGuest) -> activated (shared x) = online_cpus) \/
  (forall i p, procs x !! i = Some p -> exists c, p_pc p = Returned c /\ c <> 0).
Proof.
  intros Hinv Hf. pose proof Hinv as [Hlen _ _ _ Hac Hpr _ _ _].
  unfold final in Hf. rewrite Forall_lookup in Hf.
  destruct (find_elem in_vmm (procs x)) as [(i & p & Hi & Hp)|N].
  - left. split.
    + apply (all_ok x i p Hinv Hi). specialize (Hpr i p Hi). unfold in_vmm, proc_inv in *. destruct (p_pc p); done || lia.
    + intros Hg. assert (cnt in_vmm (procs x) = online_cpus) as Hc.
      { rewrite <- Hn, <- Hlen. apply cnt_full. intros j q Hq. unfold in_vmm. by rewrite (Hg j q Hq). }
      pose proof (cnt_bounds (fun p => in_vmm p || failed p) (procs x)). lia.
  - right. intros i p Hi. specialize (Hf i p Hi). specialize (N i p Hi). specialize (Hpr i p Hi).
    unfold in_vmm, proc_inv in *. destruct (p_pc p) as [| | | | | | | | | | | | | |c]; try done. exists c. by destruct Hpr.
Qed.

(** C20. The start ends the same way for all: when every processor is done,
    either all of them were initialised, or none is in the guest and each has
    returned an error code to the driver; in the first case, if none failed to
    enter the guest, the counter of active processors is their number. *)
Theorem boot_agreement x :
  reachable x -> final x ->
  (forall i p, procs x !! i = Some p -> p_ok p = true) /\
    ((forall i p, procs x !! i = Some p -> p_pc p = InGuest) -> activated (shared x) = online_cpus) \/
  (forall i p, procs x !! i = Some p -> exists c, p_pc p = Returned c /\ c <> 0).
Proof. intros Hr. exact (agreement_inv x (inv_reachable x Hr)). Qed.
End Inv.

(** ** Too many processors *)

(** The check of [PerCpu::new] and the increment after it are two steps: if
    the driver starts more processors than there are areas, two of them can
    both pass the check, and one gets an id outside the array. *)
Theorem percpu_new_race :
  exists x i p, reachable 1 1 2 x /\ procs x !! i = Some p /\ fetched p = true /\ p_id p = 1.
Proof.
  eexists _, 1%nat, _. split.
  - apply (run_steps _ _ [(0%nat, None); (1%nat, None); (0%nat, None); (1%nat, None)]). reflexivity.
  - split; [reflexivity|]. by split.
Qed.

(** ** The theorems at two processors *)
Section Samples.

(** Both processors are past [PerCpu::new]. *)
Definition sample_entered : System :=
  mkSystem (mkShared 2 0 0 0 0 0) [mkProc (WaitErr WEntered) 0 false; mkProc (WaitErr WEntered) 1 false].

Lemma sample_entered_reachable : reachable 2 2 2 sample_entered.
Proof. apply (run_steps _ _ [(0%nat, None); (1%nat, None); (0%nat, None); (1%nat, None)]). reflexivity. Qed.

(** The schedule that brings both into the guest. *)
Definition round_trip (i : nat) (k : nat) : list (nat * option HvErrorNum) := replicate k (i, None).
Definition boot_schedule : list (nat * option HvErrorNum) :=
  round_trip 0 2 ++ round_trip 1 2 ++    (* PerCpu::new *)
  round_trip 0 3 ++ round_trip 0 2 ++    (* entered; primary_init_early, init *)
  round_trip 1 3 ++ round_trip 1 3 ++ round_trip 1 1 ++
  round_trip 0 1 ++ round_trip 1 1 ++    (* INITED_CPUS *)
  round_trip 0 3 ++ round_trip 0 1 ++    (* barrier; primary_init_late *)
  round_trip 1 3 ++ round_trip 1 3 ++
  round_trip 0 2 ++ round_trip 1 2.      (* activate_vmm *)

Definition sample_running : System :=
  mkSystem (mkShared 2 2 1 1 0 2) [mkProc InGuest 0 true; mkProc InGuest 1 true].

Lemma sample_running_reachable : reachable 2 2 2 sample_running.
Proof. apply (run_steps _ _ boot_schedule). vm_compute. reflexivity. Qed.

Lemma boot_ids_witness :
  percpu_vaddr 0x1000 0 + PER_CPU_SIZE <= percpu_vaddr 0x1000 1 \/ percpu_vaddr 0x1000 1 + PER_CPU_SIZE <= percpu_vaddr 0x1000 0.
Proof.
  refine (proj2 (proj2 (boot_ids 2 2 2 eq_refl _ sample_entered 0 1 (mkProc (WaitErr WEntered) 0 false)
    (mkProc (WaitErr WEntered) 1 false) 0x1000 sample_entered_reachable _ _ _ _ _ _ _))).
  - lia.
  - reflexivity.
  - reflexivity.
  - discriminate.
  - reflexivity.
  - reflexivity.
  - lia.
  - vm_compute. discriminate.
Defined.

Lemma boot_barriers_witness :
  late_ok (shared sample_running) = 1 /\ forall j q, procs sample_running !! j = Some q -> p_ok q = true.
Proof.
  refine (proj2 (boot_barriers 2 2 2 eq_refl _ sample_running 0 (mkProc InGuest 0 true) sample_running_reachable _) _).
  - lia.
  - reflexivity.
  - reflexivity.
Defined.

Lemma boot_ends_witness : exists y, steps 2 2 sample_entered y /\ final y.
Proof. refine (boot_ends 2 2 2 eq_refl _ sample_entered sample_entered_reachable). lia. Defined.

Lemma boot_agreement_witness :
  (forall i p, procs sample_running !! i = Some p -> p_ok p = true) /\
    ((forall i p, procs sample_running !! i = Some p -> p_pc p = InGuest) -> activated (shared sample_running) = 2) \/
  (forall i p, procs sample_running !! i = Some p -> exists c, p_pc p = Returned c /\ c <> 0).
Proof.
  refine (boot_agreement 2 2 2 eq_refl _ sample_running sample_running_reachable _).
  - lia.
  - repeat constructor.
Defined.
End Samples.
