(* ===== verification/Entry.v ===== *)
(** * The entry from the driver

    [switch_stack] of [src/src/arch/x86_64/entry.rs] between the two halves of
    [arch_entry], and [PerCpu::new] of [src/src/percpu.rs] as one processor runs it
    ([Boot] has its steps side by side with other processors). [entry], the Rust
    function on the other side, is an argument; so are the registers the compiler
    picks for the operands of the inline assembly and the size of its frame. *)

From S2P Require Import Prelude Crates HvError PhysMem Config X86 Segmentation Context Boot Asm.

(** The processor in the entry: registers and memory, GS_BASE, [ENTERED_CPUS]. *)
Record EntryState : Type := mkEntry { en_asm : State; en_gs : Z; en_entered : Z }.

(** The fields [id : u32] and [self_vaddr : usize] of [PerCpu]. *)
Definition write_percpu (vaddr cpu_id : Z) (m : gmap Z Z) : gmap Z Z :=
  let m := mem_set m (vaddr + 8) (Z.lor (Z.land (mem_get m (vaddr + 8)) (not64 0xffffffff)) cpu_id) in
  mem_set m vaddr vaddr.

Section Entry.
Context (max_cpus array : Z).

Definition PerCpu_new : M EntryState HvErrorNum Z := fun x =>
  if max_cpus <=? en_entered x then (Err EINVAL, x)
  else
    let cpu_id := en_entered x in
    let vaddr := percpu_vaddr array cpu_id in
    let s := en_asm x in
    (Ok vaddr, mkEntry (mkState (areg s) (write_percpu vaddr cpu_id (amem s)) (arip s)) vaddr (wrap 32 (cpu_id + 1))).

Definition stack_top (cpu_data : Z) : Z := sub64 (add64 cpu_data PER_CPU_SIZE) 8.

Definition callee_saved : list Reg := [RBX; RBP; R12; R13; R14; R15].

Context (tp hv : Reg) (frame : Z) (entry : (Reg -> Z) * gmap Z Z -> (Reg -> Z) * gmap Z Z).

(** The inline assembly; [tp] and [hv] hold [linux_tp] and [hv_sp]. *)
Definition switch_stack_asm : list Instr :=
  [Store RSI 0 tp; Mov RCX RSP; Mov RSP hv; Push RCX; Call entry; Pop RSP].

(** Its operands, with the frame of [switch_stack] on the stack. *)
Definition asm_operands (s : State) (linux_tp linux_sp cpu_data : Z) : State :=
  mkState (set_reg tp linux_tp (set_reg hv (stack_top cpu_data) (set_reg RSI linux_sp (set_reg RDI cpu_data
    (set_reg RSP (sub64 (areg s RSP) frame) (areg s)))))) (amem s) (arip s).

(** The return of a Rust function: the result in RAX, the callee-saved registers
    of the caller [s], other registers as they are. *)
Definition rust_return (s : State) (ret : Z) (s' : State) : State :=
  mkState (fun r => if decide (r = RAX) then ret
                    else if decide (r ∈ callee_saved) then areg s r else areg s' r) (amem s') (arip s').

Definition switch_stack (x : EntryState) : EntryState :=
  let s := en_asm x in
  let linux_sp := areg s RDI in
  let linux_tp := en_gs x in
  match PerCpu_new x with
  | (Ok cpu_data, x1) =>
      let s1 := exec switch_stack_asm (asm_operands (en_asm x1) linux_tp linux_sp cpu_data) in
      let s2 := set_rsp (add64 (areg s1 RSP) frame) s1 in
      mkEntry (rust_return s (areg s1 RAX) s2) (areg s1 tp) (en_entered x1)
  | (Err e, x1) => mkEntry (rust_return s (wrap 32 (code e)) (en_asm x1)) (en_gs x1) (en_entered x1)
  | (_, x1) => x1
  end.

Definition arch_entry (x : EntryState) : EntryState :=
  let x1 := switch_stack (mkEntry (exec arch_entry_save (en_asm x)) (en_gs x) (en_entered x)) in
  mkEntry (exec arch_entry_return (en_asm x1)) (en_gs x1) (en_entered x1).
End Entry.

(** ** What [entry] finds and leaves *)
Section EntryProps.
Context {bf : BitField} {xr : X86Regs} {xrl : X86RegsLaws} {xd : X86Desc} {xdl : X86DescLaws}.

(** The general registers of the context are the words of the frame. *)
Lemma load_from_frame E c sp :
  all_loaded c ->
  exists l, load_from (E := E) sp c = (Ok l, c) /\ l_rsp l = add64 sp 64 /\ base (l_gs l) = mem_get (c_vmem c) (add64 sp 0) /\
    [l_r15 l; l_r14 l; l_r13 l; l_r12 l; l_rbx l; l_rbp l; l_rip l] =
    ((fun i => mem_get (c_vmem c) (add64 sp (8 * i))) <$> [1; 2; 3; 4; 5; 6; 7]).
Proof.
  intros Hall. destruct (load_from_ok E c sp Hall) as (l & Hl & L). exists l. split; [done|].
  do 8 (destruct L as (_ & L)). destruct L as (Hgs & _ & Hrsp & _). split; [done|]. split; [done|].
  unfold load_from in Hl. rewrite bind_gets in Hl. unfold bind, ret, id in Hl.
  repeat match type of Hl with
  | context [match from_selector ?a ?b ?s with _ => _ end] => destruct (from_selector a b s) as [[?|?| |] ?]; try discriminate Hl
  end.
  injection Hl as <- _. reflexivity.
Qed.

Context (tp hv : Reg) (frame : Z) (entry : (Reg -> Z) * gmap Z Z -> (Reg -> Z) * gmap Z Z).
Context (max_cpus array : Z).

(** The operands of the assembly are in registers it does not use otherwise. *)
Definition operands_ok : Prop := (tp ∉ [RSP; RDI; RSI; RCX]) /\ (hv ∉ [RSP; RDI; RSI; RCX]) /\ tp <> hv.

(** [entry] keeps the frame of its caller and the words of [l]. *)
Definition keeps_words (l : list Z) : Prop :=
  forall x, mem_get (snd (entry x)) (fst x RSP) = mem_get (snd x) (fst x RSP) /\
    forall a, a ∈ l -> mem_get (snd (entry x)) a = mem_get (snd x) a.

Lemma switch_asm_run s sp linux_tp linux_sp cpu_data :
  operands_ok -> abi entry -> areg s RSP = sp -> frame <= sp < 2 ^ 64 -> 0 <= frame ->
  0 <= cpu_data -> cpu_data + PER_CPU_SIZE < 2 ^ 64 -> keeps_words [] ->
  let s0 := asm_operands tp hv frame s linux_tp linux_sp cpu_data in
  exists f_in m_in,
    f_in RDI = cpu_data /\ f_in RSI = linux_sp /\ f_in RSP = cpu_data + PER_CPU_SIZE - 16 /\ f_in tp = linux_tp /\
    m_in = mem_set (mem_set (amem s) (add64 linux_sp 0) linux_tp) (cpu_data + PER_CPU_SIZE - 16) (sp - frame) /\
    let out := entry (f_in, m_in) in
    let s' := exec (switch_stack_asm tp hv entry) s0 in
    areg s' RSP = sp - frame /\ amem s' = snd out /\ (forall r, r <> RSP -> areg s' r = fst out r).
Proof.
  intros (Htp & Hhv & Hne) Habi Hsp Hf Hf0 Hc0 Hc Hk. rewrite !not_elem_of_cons in Htp, Hhv.
  destruct Htp as (T1 & T2 & T3 & T4 & _), Hhv as (V1 & V2 & V3 & V4 & _). cbv zeta.
  unfold switch_stack_asm. rewrite !exec_cons, exec_nil. unfold asm_operands. cbn [step].
  set (f0 := set_reg tp linux_tp _). unfold push. cbn [areg amem arip].
  assert (f0 RSI = linux_sp /\ f0 RDI = cpu_data /\ f0 RSP = sp - frame /\ f0 tp = linux_tp /\ f0 hv = cpu_data + PER_CPU_SIZE - 8)
    as (F1 & F2 & F3 & F4 & F5).
  { unfold f0. split_and!.
    - by rewrite !set_reg_ne, set_reg_eq by congruence.
    - by rewrite !set_reg_ne, set_reg_eq by congruence.
    - rewrite !set_reg_ne, set_reg_eq, Hsp by congruence. unfold sub64. by nowrap.
    - by rewrite set_reg_eq.
    - rewrite set_reg_ne, set_reg_eq by congruence. unfold stack_top, sub64, add64, PER_CPU_SIZE in *. nowrap. lia. }
  rewrite F1, F4. rewrite (set_reg_ne RCX _ f0 hv) by congruence. rewrite F3, F5. set (top := cpu_data + PER_CPU_SIZE - 8) in *.
  rewrite !set_reg_eq, (set_reg_ne RSP top _ RCX), set_reg_eq by done.
  assert (sub64 top 8 = cpu_data + PER_CPU_SIZE - 16) as -> by (unfold sub64, top, PER_CPU_SIZE in *; nowrap; lia).
  set (f_in := set_reg RSP (cpu_data + PER_CPU_SIZE - 16) _). set (m_in := mem_set _ _ (sp - frame)).
  exists f_in, m_in. do 4 (split; [unfold f_in; by rewrite ?set_reg_eq, ?set_reg_ne by congruence|]). split; [done|].
  destruct (Hk (f_in, m_in)) as [Hk1 _]. pose proof (Habi (f_in, m_in) RSP ltac:(by apply (bool_decide_unpack _))) as Hr.
  destruct (entry (f_in, m_in)) as [f_out m_out]. cbn [fst snd areg amem] in *.
  assert (f_in RSP = cpu_data + PER_CPU_SIZE - 16) as Hfin by (unfold f_in; by rewrite set_reg_eq).
  rewrite Hr. rewrite Hfin in *. split_and!; [|done|].
  - rewrite Hk1. unfold m_in. apply mem_get_set_eq.
  - intros r Hrr. by rewrite !set_reg_ne by done.
Qed.

Abbreviation frame_words rsp := ((fun k => rsp - 56 + 8 * k) <$> [1; 2; 3; 4; 5; 6; 7]).

(** The frame [arch_entry_save] leaves, in a memory [m] that has kept it. *)
Definition has_frame (m : gmap Z Z) (rsp ra : Z) (f : Reg -> Z) : Prop :=
  (fun a => mem_get m a) <$> frame_words rsp = (f <$> [R15; R14; R13; R12; RBX; RBP]) ++ [ra].

Lemma saved_has_frame m rsp ra f : holds linux_frame m (rsp - 48) f -> mem_get m rsp = ra -> has_frame m rsp ra f.
Proof.
  intros Hh Hr. unfold has_frame. cbn [fmap list_fmap app].
  pose proof (Hh 0%nat R15 eq_refl). pose proof (Hh 1%nat R14 eq_refl). pose proof (Hh 2%nat R13 eq_refl).
  pose proof (Hh 3%nat R12 eq_refl). pose proof (Hh 4%nat RBX eq_refl). pose proof (Hh 5%nat RBP eq_refl).
  repeat match goal with |- _ :: _ = _ :: _ => f_equal end; [..|by rewrite <- Hr; f_equal; lia];
    (etransitivity; [|eassumption]); f_equal; lia.
Qed.

Lemma has_frame_saved m rsp ra f : has_frame m rsp ra f -> holds linux_frame m (rsp - 48) f /\ mem_get m rsp = ra.
Proof.
  unfold has_frame. cbn [fmap list_fmap app]. intros [= H1 H2 H3 H4 H5 H6 H7]. split.
  - intros k r Hk. do 6 (destruct k as [|k]; [injection Hk as <-; etransitivity; [|eassumption]; f_equal; lia|]). done.
  - rewrite <- H7. f_equal. lia.
Qed.

Lemma has_frame_kept m m' rsp ra f :
  has_frame m rsp ra f -> (forall a, a ∈ frame_words rsp -> mem_get m' a = mem_get m a) -> has_frame m' rsp ra f.
Proof.
  intros Hf Hk. unfold has_frame in *. rewrite <- Hf. apply list_fmap_ext. intros i a Ha.
  apply Hk. by eapply list_elem_of_lookup_2.
Qed.

Lemma frame_word_range rsp a : a ∈ frame_words rsp -> rsp - 48 <= a <= rsp.
Proof. cbn [fmap list_fmap]. rewrite !elem_of_cons, elem_of_nil. lia. Qed.

(** Back in the driver from a state that has the frame on its stack. *)
Lemma return_to_driver s rsp ra f :
  areg s RSP = rsp - 56 -> 56 <= rsp -> rsp + 8 < 2 ^ 64 -> has_frame (amem s) rsp ra f ->
  let s' := exec arch_entry_return s in
  arip s' = ra /\ areg s' RSP = rsp + 8 /\ areg s' RAX = areg s RAX /\ forall r, r ∈ callee_saved -> areg s' r = f r.
Proof.
  intros Hsp H0 H1 [Hf Hr]%has_frame_saved. cbv zeta.
  destruct (exec_linux_return s (rsp - 56) f ra) as (s' & -> & E1 & E2 & E3 & E4); [done|lia|lia| | |].
  - by replace (rsp - 56 + 8) with (rsp - 48) by lia.
  - by replace (rsp - 56 + 56) with rsp by lia.
  - split_and!; [done|lia|done|]. intros r Hr'. apply E4. unfold callee_saved in Hr'.
    repeat (apply elem_of_cons in Hr' as [->|Hr']); [..|by apply not_elem_of_nil in Hr']; by apply (bool_decide_unpack _).
Qed.

(** C37. The entry from the driver and the way back when the start fails. [entry]
    runs on the stack of its CPU with the per-CPU data and the frame on the
    stack of Linux as arguments; the context it loads from that frame is the
    one to go on with behind the call of [arch_entry]. If [entry] returns, the
    driver gets its result, its callee-saved registers, stack and return
    address, and GS_BASE provided the compiler kept it in a callee-saved
    register. Beyond the last CPU the entry fails without any of that. *)
Theorem driver_round (x : EntryState) :
  let s := en_asm x in
  let rsp := areg s RSP in
  let cpu_data := percpu_vaddr array (en_entered x) in
  let x' := arch_entry max_cpus array tp hv frame entry x in
  operands_ok -> abi entry -> keeps_words (frame_words rsp) ->
  0 <= frame -> frame + 56 <= rsp -> rsp + 8 < 2 ^ 64 ->
  0 <= cpu_data -> cpu_data + PER_CPU_SIZE < 2 ^ 64 ->
  rsp + 8 <= cpu_data \/ cpu_data + PER_CPU_SIZE <= rsp - 56 - frame ->
  arip (en_asm x') = mem_get (amem s) rsp /\ areg (en_asm x') RSP = rsp + 8 /\
  (forall r, r ∈ callee_saved -> areg (en_asm x') r = areg s r) /\
  if max_cpus <=? en_entered x
  then areg (en_asm x') RAX = 2 ^ 32 - 22 /\ en_gs x' = en_gs x /\ en_entered x' = en_entered x
  else exists f_in m_in,
    f_in RDI = cpu_data /\ f_in RSI = rsp - 56 /\ f_in RSP = cpu_data + PER_CPU_SIZE - 16 /\
    (forall E c, c_vmem c = m_in -> all_loaded c ->
       exists l, load_from (E := E) (f_in RSI) c = (Ok l, c) /\ l_rsp l = rsp + 8 /\ l_rip l = mem_get (amem s) rsp /\
         base (l_gs l) = en_gs x /\
         [l_r15 l; l_r14 l; l_r13 l; l_r12 l; l_rbx l; l_rbp l] = areg s <$> [R15; R14; R13; R12; RBX; RBP]) /\
    areg (en_asm x') RAX = fst (entry (f_in, m_in)) RAX /\ en_entered x' = wrap 32 (en_entered x + 1) /\
    (tp ∈ callee_saved -> en_gs x' = en_gs x).
Proof.
  cbv zeta. intros Hops Habi Hk Hf0 Hf Hr Hc0 Hc Hdis. unfold arch_entry. cbv zeta.
  set (rsp := areg (en_asm x) RSP) in *. set (cpu_data := percpu_vaddr array (en_entered x)) in *.
  destruct (exec_linux_save (en_asm x) rsp eq_refl) as (s1 & -> & H1 & H2 & H3 & H4); [lia|].
  pose proof (saved_has_frame _ rsp _ _ H3 H4) as Hfr. unfold switch_stack, PerCpu_new. cbn [en_asm en_gs en_entered].
  destruct (max_cpus <=? en_entered x).
  { destruct (return_to_driver (rust_return s1 (wrap 32 (code EINVAL)) s1) rsp _ _ H2 ltac:(lia) Hr Hfr) as (E1 & E2 & E3 & E4).
    cbn [en_asm en_gs en_entered]. by split_and!. }
  fold cpu_data. rewrite H1.
  set (s1' := mkState (areg s1) (write_percpu cpu_data (en_entered x) (amem s1)) (arip s1)).
  destruct (switch_asm_run s1' (rsp - 56) (en_gs x) (rsp - 56) cpu_data Hops Habi H2 ltac:(lia) Hf0 Hc0 Hc) as
    (f_in & m_in & F1 & F2 & F3 & F4 & Hm & Ho1 & Ho2 & Ho3).
  { intros y. split; [exact (proj1 (Hk y))|]. intros a Ha. by apply not_elem_of_nil in Ha. }
  cbv zeta in *. cbn [en_asm en_gs en_entered]. fold s1'.
  set (s2 := exec (switch_stack_asm tp hv entry) (asm_operands tp hv frame s1' (en_gs x) (rsp - 56) cpu_data)) in *.
  destruct Hops as (Htp & _ & _). rewrite !not_elem_of_cons in Htp. destruct Htp as (T1 & T2 & T3 & T4 & _).
  assert (has_frame m_in rsp (mem_get (amem (en_asm x)) rsp) (areg (en_asm x))) as Hfm.
  { apply (has_frame_kept (amem s1)); [done|]. intros a Ha%frame_word_range. rewrite Hm.
    unfold add64, PER_CPU_SIZE in *. rewrite wrap_small by (unfold in_range; lia).
    rewrite !mem_get_set_ne by lia. unfold s1', write_percpu. cbn [amem]. by rewrite !mem_get_set_ne by lia. }
  assert (has_frame (amem s2) rsp (mem_get (amem (en_asm x)) rsp) (areg (en_asm x))) as Hf2.
  { apply (has_frame_kept m_in); [done|]. intros a Ha. rewrite Ho2. by apply (Hk (f_in, m_in)). }
  set (s3 := rust_return s1 (areg s2 RAX) (set_rsp (add64 (areg s2 RSP) frame) s2)).
  assert (areg s3 RSP = rsp - 56) as Hsp.
  { unfold s3, rust_return. cbn [areg]. rewrite !decide_False by (done || by apply (bool_decide_unpack _)).
    unfold set_rsp. cbn [areg]. rewrite set_reg_eq, Ho1. unfold add64. nowrap. lia. }
  destruct (return_to_driver s3 rsp _ _ Hsp ltac:(lia) Hr Hf2) as (E1 & E2 & E3 & E4).
  cbn [en_asm en_gs en_entered]. split; [done|]. split; [done|]. split; [done|].
  exists f_in, m_in. rewrite F2. split; [done|]. split; [done|]. split; [done|]. split; [|split_and!].
  - intros E c Hcm Hall. destruct (load_from_frame E c (rsp - 56) Hall) as (l & Hl & L1 & L2 & L3).
    exists l. split; [done|]. rewrite Hcm in *. split; [rewrite L1; unfold add64; nowrap; lia|].
    unfold has_frame in Hfm. cbn [fmap list_fmap app] in Hfm, L3 |- *.
    assert (forall k, 0 <= k <= 56 -> add64 (rsp - 56) k = rsp - 56 + k) as Ha by (intros k Hk'; unfold add64; by nowrap).
    rewrite !Ha in L3 by lia. rewrite Hfm in L3. injection L3 as -> -> -> -> -> -> ->.
    split; [done|]. split; [|done]. rewrite L2, Hm. unfold PER_CPU_SIZE in *. unfold add64. nowrap.
    rewrite mem_get_set_ne by lia. apply mem_get_set_eq.
  - rewrite E3. unfold s3, rust_return. cbn [areg]. rewrite decide_True by done. by apply Ho3.
  - done.
  - intros Hin. rewrite Ho3 by done. rewrite Habi; [done|]. unfold callee_saved in Hin. rewrite !elem_of_cons in *. tauto.
Qed.
End EntryProps.

(** ** On concrete registers *)
Section EntrySamples.

Definition entry_state : EntryState := mkEntry (sample_state 0x8080) 0xffff888000000000 1.

(** An [entry] that fails with EBUSY, and leaves [v] in R8. *)
Definition failing_entry (v : Z) (x : (Reg -> Z) * gmap Z Z) : (Reg -> Z) * gmap Z Z :=
  (set_reg R8 v (set_reg RAX (2 ^ 32 - 16) (fst x)), snd x).

Lemma failing_entry_abi v : abi (failing_entry v).
Proof.
  intros x r Hr. unfold failing_entry. cbn [fst].
  repeat (apply elem_of_cons in Hr as [->|Hr]; [reflexivity|]). by apply not_elem_of_nil in Hr.
Qed.

#[local] Existing Instance BitField_ref.
#[local] Existing Instance X86Regs_ref.
#[local] Existing Instance X86Regs_ref_laws.
#[local] Existing Instance X86Desc_ref.
#[local] Existing Instance X86Desc_ref_laws.

Lemma driver_round_witness :
  let x' := arch_entry 4 0x100000 RBX R9 24 (failing_entry 0) entry_state in
  arip (en_asm x') = mem_get (amem (en_asm entry_state)) 0x8080 /\ areg (en_asm x') RSP = 0x8088 /\
  areg (en_asm x') RAX = 2 ^ 32 - 16 /\ en_gs x' = 0xffff888000000000.
Proof.
  cbv zeta.
  destruct (driver_round RBX R9 24 (failing_entry 0) 4 0x100000 entry_state) as (H1 & H2 & _ & H3).
  - split; [|split; [|discriminate]]; by apply (bool_decide_unpack _).
  - apply failing_entry_abi.
  - intros y. split; reflexivity.
  - lia.
  - vm_compute. discriminate.
  - vm_compute. reflexivity.
  - vm_compute. discriminate.
  - vm_compute. reflexivity.
  - left. vm_compute. discriminate.
  - split; [exact H1|]. split; [exact H2|].
    replace (4 <=? en_entered entry_state) with false in H3 by reflexivity.
    destruct H3 as (f_in & m_in & _ & _ & _ & _ & Ha & _ & Hg). split; [exact Ha|].
    apply Hg. by apply (bool_decide_unpack _).
Defined.

(** The assembly does not say that the call changes the caller-saved registers:
    with [linux_tp] in one of them, GS_BASE of Linux is lost on the way back. *)
Lemma gs_lost : en_gs (arch_entry 4 0x100000 R8 R9 24 (failing_entry 0) entry_state) = 0.
Proof. vm_compute. reflexivity. Qed.
End EntrySamples.
