(* ===== verification/Shutdown.v ===== *)
(** * Leaving the hypervisor on all processors

    [hypervisor_disable] of [src/src/hypercall/mod.rs] and [deactivate_vmm] of
    [src/src/percpu.rs] as the processors run them side by side, from the state in
    which all of them are in the guest.

    The relation [dsys_step] is one round: every processor makes the hypercall
    once. A guest whose [Vcpu::exit] failed goes on with the error code and
    could make it again; that is [dretry], and [retry_underflows] shows what a
    second call does to [ACTIVATED_CPUS]. *)

From S2P Require Import Prelude.

(** Where a processor is; [DAdd] and [DSpin] carry the number of active
    processors it has read. *)
Inductive dpc : Type :=
| DGuest                 (* in the guest; the hypercall loads ACTIVATED_CPUS *)
| DAdd (cpus : Z)        (* fetch_add of TRY_DISABLE_CPUS *)
| DSpin (cpus : Z)       (* while TRY_DISABLE_CPUS < cpus *)
| DDeact                 (* deactivate_vmm: fetch_sub of ACTIVATED_CPUS *)
| DExit                  (* Vcpu::exit, restore, return_to_linux *)
| DLinux
| DFailed.               (* Vcpu::exit failed: the guest gets the error code *)

Record Counters : Type := mkCounters { n_activated : Z; n_try : Z }.

(** One step of a processor; [ok] is the outcome of [Vcpu::exit]. *)
Definition dstep (ok : bool) (c : Counters) (p : dpc) : option (Counters * dpc) :=
  match p with
  | DGuest => Some (c, DAdd (n_activated c))
  | DAdd k => Some (mkCounters (n_activated c) (wrap 32 (n_try c + 1)), DSpin k)
  | DSpin k => Some (c, if n_try c <? k then DSpin k else DDeact)
  | DDeact => Some (mkCounters (wrap 32 (n_activated c - 1)) (n_try c), DExit)
  | DExit => Some (c, if ok then DLinux else DFailed)
  | DLinux | DFailed => None
  end.

Record DSystem : Type := mkDSystem { counters : Counters; dprocs : list dpc }.

(** All [n] processors are active and in the guest. *)
Definition dinitial (n : nat) : DSystem := mkDSystem (mkCounters (Z.of_nat n) 0) (replicate n DGuest).

Inductive dsys_step : DSystem -> DSystem -> Prop :=
| dsys_step_proc i p ok c l c' p' :
    l !! i = Some p -> dstep ok c p = Some (c', p') ->
    dsys_step (mkDSystem c l) (mkDSystem c' (<[i := p']> l)).

Definition dreachable (n : nat) (x : DSystem) : Prop := rtc dsys_step (dinitial n) x.

(** Run a schedule. *)
Fixpoint drun (sched : list nat) (x : DSystem) : option DSystem :=
  match sched with
  | [] => Some x
  | i :: rest =>
      match dprocs x !! i with
      | None => None
      | Some p =>
          match dstep true (counters x) p with
          | None => None
          | Some (c', p') => drun rest (mkDSystem c' (<[i := p']> (dprocs x)))
          end
      end
  end.

Lemma drun_steps sched x y : drun sched x = Some y -> rtc dsys_step x y.
Proof.
  revert x. induction sched as [|i rest IH]; intros x Hr; simpl in Hr; [by injection Hr as <-|].
  destruct (dprocs x !! i) as [p|] eqn:Hi; [|done].
  destruct (dstep true (counters x) p) as [[c' p']|] eqn:Hp; [|done].
  apply rtc_l with (mkDSystem c' (<[i:=p']> (dprocs x))); [|by apply IH].
  destruct x as [c l]. by apply (dsys_step_proc i p true).
Qed.

(** ** The invariant *)
Definition asked (p : dpc) : bool :=
  match p with DGuest | DAdd _ => false | _ => true end.
Definition passed (p : dpc) : bool :=
  match p with DDeact | DExit | DLinux | DFailed => true | _ => false end.
Definition gone (p : dpc) : bool :=
  match p with DExit | DLinux | DFailed => true | _ => false end.

Section Inv.
Context (n : nat) (Hn : Z.of_nat n < 2 ^ 32).

Record dinv (x : DSystem) : Prop := {
  di_len : length (dprocs x) = n;
  di_try : n_try (counters x) = cnt asked (dprocs x);
  di_act : n_activated (counters x) = Z.of_nat n - cnt gone (dprocs x);
  di_read : forall i p k, dprocs x !! i = Some p -> p = DAdd k \/ p = DSpin k -> k = Z.of_nat n;
  di_passed : forall i p, dprocs x !! i = Some p -> passed p = true -> cnt asked (dprocs x) = Z.of_nat n;
}.

Lemma dinv_initial : dinv (dinitial n).
Proof.
  split; cbn [dprocs counters dinitial n_try n_activated]; rewrite ?cnt_replicate by done; try lia.
  - apply length_replicate.
  - by intros i p k [-> _]%lookup_replicate [?|?].
  - by intros i p [-> _]%lookup_replicate ?.
Qed.

(** As long as one processor has not asked, none is gone. *)
Lemma none_gone x i p : dinv x -> dprocs x !! i = Some p -> asked p = false -> cnt gone (dprocs x) = 0.
Proof.
  intros [Hlen _ _ _ Hpass] Hi Hp. pose proof (cnt_lt asked _ i p Hi Hp) as Hlt.
  destruct (find_elem gone (dprocs x)) as [(j & q & Hq & Hg)|N].
  - assert (passed q = true) as Hpq by (by destruct q). pose proof (Hpass j q Hq Hpq). lia.
  - unfold cnt. assert (List.filter gone (dprocs x) = []) as ->; [|done].
    clear - N. induction (dprocs x) as [|q l IH]; [done|]. simpl. rewrite (N 0%nat q eq_refl). apply IH.
    intros i r Hi. by apply (N (S i)).
Qed.

Lemma dinv_step x y : dinv x -> dsys_step x y -> dinv y.
Proof.
  intros Hinv Hst. destruct Hst as [i p ok c l c' p' Hi Hs].
  pose proof Hinv as [Hlen Htry Hact Hread Hpass]. cbn [dprocs counters] in *.
  pose proof (cnt_bounds asked l) as Ba. pose proof (cnt_bounds gone l) as Bg. pose proof (cnt_insert asked l i p p' Hi) as Ca.
  pose proof (cnt_insert gone l i p p' Hi) as Cg.
  assert (asked p = true -> asked p' = true) as Hmono.
  { destruct p; simpl in Hs; try done; injection Hs as _ <-; try done; case_match; done. }
  assert (forall k, p' = DAdd k \/ p' = DSpin k -> k = Z.of_nat n) as Hk.
  { intros k Hp'. destruct p as [|k'|k'| | | |]; simpl in Hs; try done; injection Hs as <- <-.
    - destruct Hp' as [[= <-]|]; [|done]. rewrite Hact. pose proof (none_gone _ i DGuest Hinv Hi eq_refl) as H0.
      cbn [dprocs] in H0. lia.
    - destruct Hp' as [|[= <-]]; [done|]. apply (Hread i (DAdd k')); auto.
    - destruct (n_try c <? k'); [|by destruct Hp']. destruct Hp' as [|[= <-]]; [done|]. apply (Hread i (DSpin k')); auto.
    - by destruct Hp'.
    - destruct ok; by destruct Hp'. }
  assert (passed p' = true -> cnt asked l = Z.of_nat n) as Hp'.
  { intros Hpa. destruct p as [|k'|k'| | | |]; simpl in Hs; try done; injection Hs as <- <-; try done.
    - destruct (Z.ltb_spec (n_try c) k'); [done|]. assert (k' = Z.of_nat n) by (apply (Hread i (DSpin k')); auto). lia.
    - by apply (Hpass i DDeact).
    - by apply (Hpass i DExit). }
  assert (n_try c' = n_try c - Z.b2z (asked p) + Z.b2z (asked p') /\
    n_activated c' = n_activated c + Z.b2z (gone p) - Z.b2z (gone p')) as [Ht Hac].
  { destruct p as [|k'|k'| | | |]; simpl in Hs; try done; injection Hs as <- <-; cbn.
    - lia.
    - rewrite wrap_small; [lia|]. pose proof (cnt_lt asked l i (DAdd k') Hi eq_refl). unfold in_range. lia.
    - case_match; cbn; lia.
    - rewrite wrap_small; [lia|]. pose proof (cnt_lt gone l i DDeact Hi eq_refl). unfold in_range. lia.
    - destruct ok; cbn; lia. }
  split; cbn [dprocs counters]; try lia.
  - by rewrite length_insert.
  - intros j q k [[-> ->]|[Hj Hq]]%lookup_insert_cases; [apply Hk|by apply (Hread j)].
  - intros j q [[-> ->]|[Hj Hq]]%lookup_insert_cases Hpq.
    + rewrite Ca. specialize (Hp' Hpq). pose proof (proj1 (cnt_full asked l)) as Hfull.
      rewrite Hp', Hlen in Hfull. rewrite Hmono by (by apply (Hfull eq_refl i p)).
      rewrite (Hfull eq_refl i p Hi). lia.
    + pose proof (Hpass j q Hq Hpq) as Hall. pose proof (proj1 (cnt_full asked l)) as Hfull.
      rewrite Hall, Hlen in Hfull. rewrite Ca, (Hmono (Hfull eq_refl i p Hi)), (Hfull eq_refl i p Hi). lia.
Qed.

Lemma dinv_steps x y : dinv x -> rtc dsys_step x y -> dinv y.
Proof. intros Hx Hr. induction Hr as [x|x y z Hxy _ IH]; [done|]. by apply IH, (dinv_step x y). Qed.

(** C22. No processor leaves the hypervisor before all have asked: when one has
    passed the loop, every processor has made the hypercall. *)
Theorem disable_barrier x i p :
  dreachable n x -> dprocs x !! i = Some p -> passed p = true ->
  forall j q, dprocs x !! j = Some q -> asked q = true.
Proof.
  intros Hr Hi Hp. pose proof (dinv_steps _ _ dinv_initial Hr) as [Hlen _ _ _ Hpass].
  apply cnt_full. rewrite Hlen. by apply (Hpass i p).
Qed.

(** ** The shutdown ends *)
Definition drank (p : dpc) : nat :=
  match p with DGuest => 5 | DAdd _ => 4 | DSpin _ => 3 | DDeact => 2 | DExit => 1 | DLinux | DFailed => 0 end.
Definition dfinal (p : dpc) : bool := match p with DLinux | DFailed => true | _ => false end.
Definition dranks (x : DSystem) : nat := sum_list (map drank (dprocs x)).

Lemma drank_step x i p c' p' :
  dprocs x !! i = Some p -> dstep true (counters x) p = Some (c', p') -> (drank p' < drank p)%nat ->
  exists y, dsys_step x y /\ (dranks y < dranks x)%nat.
Proof.
  intros Hi Hs Hr. exists (mkDSystem c' (<[i := p']> (dprocs x))). split.
  - destruct x as [c l]. by apply (dsys_step_proc i p true).
  - unfold dranks. cbn [dprocs]. pose proof (sum_insert drank (dprocs x) i p p' Hi). lia.
Qed.

Lemma dprogress x :
  dinv x -> (exists i p, dprocs x !! i = Some p /\ dfinal p = false) ->
  exists y, dsys_step x y /\ (dranks y < dranks x)%nat.
Proof.
  intros Hinv (i & p & Hi & Hp).
  set (spins p := match p with DSpin _ => true | _ => false end).
  destruct (find_elem (fun p => negb (dfinal p) && negb (spins p)) (dprocs x)) as [(j & q & Hq & Hqf)|N].
  - destruct q; try done; eapply drank_step; try exact Hq; try reflexivity; simpl; lia.
  - destruct Hinv as [Hlen Htry _ Hread _].
    assert (cnt asked (dprocs x) = Z.of_nat n) as Hall.
    { rewrite <- Hlen. apply cnt_full. intros j q Hq. specialize (N j q Hq). cbn beta in N. by destruct q. }
    specialize (N i p Hi). cbn beta in N. destruct p as [|k|k| | | |]; try done.
    assert (k = Z.of_nat n) as -> by (apply (Hread i (DSpin k)); auto).
    eapply drank_step; [exact Hi|simpl; reflexivity|]. replace (n_try (counters x) <? Z.of_nat n) with false by lia.
    simpl. lia.
Qed.

(** C23. The shutdown cannot hang: from every reachable state there is a way on
    that takes every processor out of the guest (or back to it with an error
    code), and then no processor counts as active. *)
Theorem disable_ends x :
  dreachable n x ->
  exists y, rtc dsys_step x y /\ Forall (fun p => dfinal p = true) (dprocs y) /\ n_activated (counters y) = 0.
Proof.
  intros Hr. pose proof (dinv_steps _ _ dinv_initial Hr) as Hinv. clear Hr.
  remember (dranks x) as k eqn:Hk. revert x Hinv Hk. induction k as [k IH] using lt_wf_ind. intros x Hinv ->.
  destruct (find_elem (fun p => negb (dfinal p)) (dprocs x)) as [(i & p & Hi & Hp)|N].
  - destruct (dprogress x Hinv) as (y & Hxy & Hlt); [exists i, p; by destruct (dfinal p)|].
    destruct (IH (dranks y) Hlt y) as (z & Hyz & Hz); [by apply (dinv_step x y)|done|].
    exists z. split; [by apply rtc_l with y|done].
  - exists x. assert (forall i p, dprocs x !! i = Some p -> dfinal p = true) as Hf
      by (intros i p Hi; apply negb_false_iff, (N i p Hi)).
    split; [done|]. split; [by apply Forall_lookup|]. destruct Hinv as [Hlen _ Hact _ _].
    rewrite Hact. assert (cnt gone (dprocs x) = Z.of_nat n) as ->; [|lia].
    rewrite <- Hlen. apply cnt_full. intros i p Hi. specialize (Hf i p Hi). by destruct p.
Qed.

(** ** A second call *)

(** The guest of a processor whose [Vcpu::exit] failed makes the hypercall
    again. *)
Definition dretry (i : nat) (x : DSystem) : option DSystem :=
  match dprocs x !! i with
  | Some DFailed => Some (mkDSystem (counters x) (<[i := DGuest]> (dprocs x)))
  | _ => None
  end.

Lemma drun_insert sched i p c l :
  (i < length l)%nat ->
  drun (i :: sched) (mkDSystem c (<[i := p]> l)) =
  match dstep true c p with Some (c', p') => drun sched (mkDSystem c' (<[i := p']> l)) | None => None end.
Proof.
  intros Hi. simpl. rewrite list_lookup_insert_eq by done. destruct (dstep true c p) as [[c' p']|]; [|done].
  by rewrite list_insert_insert_eq.
Qed.

(** When all have left or failed and one that failed calls again, the loop lets
    it through at once and [ACTIVATED_CPUS], 0 already, wraps around. *)
Theorem retry_underflows x i :
  dreachable n x -> Forall (fun p => dfinal p = true) (dprocs x) -> dprocs x !! i = Some DFailed ->
  exists y z, dretry i x = Some y /\ rtc dsys_step y z /\ dprocs z !! i = Some DExit /\
    n_activated (counters z) = 2 ^ 32 - 1.
Proof.
  intros Hr Hfin Hi. pose proof (dinv_steps _ _ dinv_initial Hr) as [Hlen Htry Hact _ _].
  assert (cnt gone (dprocs x) = Z.of_nat n /\ cnt asked (dprocs x) = Z.of_nat n) as [Hg Ha].
  { split; rewrite <- Hlen; apply cnt_full; intros j q Hq; rewrite Forall_lookup in Hfin; specialize (Hfin j q Hq); by destruct q. }
  rewrite Hg in Hact. rewrite Ha in Htry. pose proof (lookup_lt_Some _ _ _ Hi) as Hlt.
  destruct x as [[act try] l]. cbn [dprocs counters n_activated n_try] in *.
  assert (act = 0) as -> by lia. unfold dretry. cbn [dprocs counters]. rewrite Hi.
  exists (mkDSystem (mkCounters 0 try) (<[i := DGuest]> l)),
    (mkDSystem (mkCounters (2 ^ 32 - 1) (wrap 32 (try + 1))) (<[i := DExit]> l)).
  split; [done|]. split; [|split; [by apply list_lookup_insert_eq|done]].
  apply (drun_steps [i; i; i; i]). do 3 (rewrite drun_insert by done; cbn [dstep n_activated n_try]).
  replace (wrap 32 (try + 1) <? 0) with false by (pose proof (wrap_range 32 (try + 1) ltac:(lia)); lia).
  rewrite drun_insert by done. reflexivity.
Qed.
End Inv.

(** ** The theorems at two processors *)
Section Samples.
Definition sample_asked : DSystem := mkDSystem (mkCounters 2 2) [DDeact; DSpin 2].

Lemma sample_asked_reachable : dreachable 2 sample_asked.
Proof. apply (drun_steps [0; 1; 0; 1; 0]%nat). reflexivity. Qed.

Lemma disable_barrier_witness : passed DDeact = true /\ asked (DSpin 2) = true.
Proof.
  split; [reflexivity|].
  refine (disable_barrier 2 _ sample_asked 0 DDeact sample_asked_reachable _ _ 1 (DSpin 2) _);
    [lia | reflexivity | reflexivity | reflexivity].
Defined.

Lemma disable_ends_witness :
  exists y, rtc dsys_step sample_asked y /\ Forall (fun p => dfinal p = true) (dprocs y) /\ n_activated (counters y) = 0.
Proof. refine (disable_ends 2 _ sample_asked sample_asked_reachable). lia. Defined.
End Samples.
