(* ===== verification/GuestPtr.v ===== *)
(** * Access to guest memory

    [src/src/memory/gaccess.rs]: [GuestPtr]. A guest pointer is a guest-virtual
    address read through the page table of the guest, whose physical addresses
    are those of the host: the cell maps them one to one. Memory is read and
    written by bytes of the words of [PhysMem]; the size and alignment of the
    Rust type are arguments. *)

From S2P Require Import Prelude Crates HvError Addr PhysMem Pte Frame Region Paging.

(** A byte of the memory of words. *)
Definition get_byte (m : gmap Z Z) (a : Z) : Z :=
  get_bits (mem_get m (a - a mod 8)) (8 * (a mod 8)) (8 * (a mod 8) + 8).
Definition set_byte (a v : Z) (m : gmap Z Z) : gmap Z Z :=
  mem_set m (a - a mod 8) (set_bits 64 (mem_get m (a - a mod 8)) (8 * (a mod 8)) (8 * (a mod 8) + 8) v).

Section GuestPtr.
Context {pv : PhysVirt} {pte : GenericPTE}.
(** The root of the guest's page table, [align_of::<T>()] and [size_of::<T>()]. *)
Context (root align_of size_of : Z).

Definition guest_query (m : gmap Z Z) (gvaddr : Z) : outcome HvErrorNum (Z * Z * PageSize) :=
  map_err hv_error_of_paging (query_at m root gvaddr).

Definition check_gpaddr (gpaddr : Z) : outcome HvErrorNum unit := Ok tt.

Definition check_raw (addr : Z) : outcome HvErrorNum unit :=
  if addr =? 0 then Err EFAULT
  else if negb (addr mod align_of =? 0) then Err EINVAL
  else Ok tt.

Definition as_guest_paddr (gvaddr : Z) : M (gmap Z Z) HvErrorNum Z :=
  let* m := gets (fun m => m) in
  let* q := of_outcome (guest_query m gvaddr) in
  let '(gpaddr, _, _) := q in
  of_outcome (check_gpaddr gpaddr) ;;;
  ret gpaddr.

(** The bytes at [phys_to_virt(gpaddr)]. *)
Definition host_byte (m : gmap Z Z) (gpaddr i : Z) : Z :=
  get_byte m (virt_to_phys (add64 (phys_to_virt gpaddr) i)).

(** The loop of [read]: each round copies up to the end of a page. *)
Fixpoint read_loop (fuel : nat) (gvaddr size : Z) : M (gmap Z Z) HvErrorNum (list Z) :=
  if size <=? 0 then ret []
  else match fuel with
  | O => diverge
  | S fuel =>
      let* m := gets (fun m => m) in
      let* q := of_outcome (guest_query m gvaddr) in
      let '(gpaddr, _, pg_size) := q in
      of_outcome (check_gpaddr gpaddr) ;;;
      let pgoff := PageSize.page_offset pg_size gvaddr in
      let read_size := Z.min (page_bytes pg_size - pgoff) size in
      let bytes := host_byte m gpaddr <$> seqZ 0 read_size in
      let* rest := read_loop fuel (add64 gvaddr read_size) (size - read_size) in
      ret (bytes ++ rest)
  end.

Definition guest_read (gvaddr : Z) : M (gmap Z Z) HvErrorNum (list Z) :=
  of_outcome (check_raw gvaddr) ;;;
  read_loop (Z.to_nat size_of) gvaddr size_of.

(** The loop of [_write]; the source bytes come from [data]. *)
Definition copy_to (gpaddr : Z) (bytes : list Z) (m : gmap Z Z) : gmap Z Z :=
  foldl (fun m '(i, b) => set_byte (virt_to_phys (add64 (phys_to_virt gpaddr) i)) b m) m
    (zip (seqZ 0 (Z.of_nat (length bytes))) bytes).

Fixpoint write_loop (fuel : nat) (gvaddr : Z) (data : list Z) : M (gmap Z Z) HvErrorNum unit :=
  match data, fuel with
  | [], _ => ret tt
  | _, O => diverge
  | _, S fuel =>
      let* m := gets (fun m => m) in
      let* q := of_outcome (guest_query m gvaddr) in
      let '(gpaddr, _, pg_size) := q in
      of_outcome (check_gpaddr gpaddr) ;;;
      let pgoff := PageSize.page_offset pg_size gvaddr in
      let write_size := Z.min (page_bytes pg_size - pgoff) (Z.of_nat (length data)) in
      modify (copy_to gpaddr (take (Z.to_nat write_size) data)) ;;;
      write_loop fuel (add64 gvaddr write_size) (drop (Z.to_nat write_size) data)
  end.

Definition guest_write (gvaddr : Z) (data : list Z) : M (gmap Z Z) HvErrorNum unit :=
  of_outcome (check_raw gvaddr) ;;;
  write_loop (length data) gvaddr data.

(** [as_ref]: a pointer to the host address. The offset compared with the size of
    the page is the one in a 4K page. *)
Definition guest_as_ref (gvaddr : Z) : M (gmap Z Z) HvErrorNum Z :=
  of_outcome (check_raw gvaddr) ;;;
  let* m := gets (fun m => m) in
  let* q := of_outcome (guest_query m gvaddr) in
  let '(gpaddr, _, pg_size) := q in
  of_outcome (check_gpaddr gpaddr) ;;;
  if page_bytes pg_size <? add64 (page_offset gpaddr) size_of then throw EINVAL
  else ret (phys_to_virt gpaddr).

(** [as_mut] has the same checks; what is written through its pointer is written
    to host memory. *)
Definition guest_as_mut (gvaddr : Z) : M (gmap Z Z) HvErrorNum Z :=
  of_outcome (check_raw gvaddr) ;;;
  let* m := gets (fun m => m) in
  let* q := of_outcome (guest_query m gvaddr) in
  let '(gpaddr, _, pg_size) := q in
  of_outcome (check_gpaddr gpaddr) ;;;
  if page_bytes pg_size <? add64 (page_offset gpaddr) size_of then throw EINVAL
  else ret (phys_to_virt gpaddr).

Definition gpaddr_to_ref_mut (gpaddr : Z) : M (gmap Z Z) HvErrorNum Z :=
  of_outcome (check_raw gpaddr) ;;;
  of_outcome (check_gpaddr gpaddr) ;;;
  ret (phys_to_virt gpaddr).

(** ** Translation inside a page *)
Lemma shiftr_same v d L k :
  0 <= v -> 0 <= d -> 0 <= L <= k -> v mod 2 ^ L + d < 2 ^ L -> Z.shiftr (v + d) k = Z.shiftr v k.
Proof.
  intros Hv Hd HL Hs. rewrite !Z.shiftr_div_pow2 by lia.
  replace (2 ^ k) with (2 ^ L * 2 ^ (k - L)) by (rewrite <- Z.pow_add_r by lia; f_equal; lia).
  assert (0 < 2 ^ L) by (apply Z.pow_pos_nonneg; lia). assert (0 < 2 ^ (k - L)) by (apply Z.pow_pos_nonneg; lia).
  rewrite <- !Z.div_div by lia. f_equal.
  rewrite (Z.div_mod v (2 ^ L)) at 1 by lia. rewrite <- Z.add_assoc, Z.mul_comm, Z.div_add_l by lia.
  rewrite (Z.div_small (v mod 2 ^ L + d)) by (pose proof (Z.mod_pos_bound v (2 ^ L)); lia). lia.
Qed.

Lemma get_entry_same m v d entry sz :
  0 <= v -> 0 <= d -> get_entry_mut m root v = Ok (entry, sz) -> v mod page_bytes sz + d < page_bytes sz ->
  get_entry_mut m root (v + d) = Ok (entry, sz).
Proof.
  intros Hv Hd He Hs. rewrite page_bytes_log in Hs.
  assert (page_log sz <= 39) by (by destruct sz).
  assert (p4_index (v + d) = p4_index v) as E4 by (unfold p4_index; by rewrite (shiftr_same v d (page_log sz)) by (destruct sz; simpl in *; lia)).
  assert (p3_index (v + d) = p3_index v) as E3 by (unfold p3_index; by rewrite (shiftr_same v d (page_log sz)) by (destruct sz; simpl in *; lia)).
  assert (page_log sz <= 21 -> p2_index (v + d) = p2_index v) as E2
    by (intros; unfold p2_index; by rewrite (shiftr_same v d (page_log sz)) by (destruct sz; simpl in *; lia)).
  assert (page_log sz <= 12 -> p1_index (v + d) = p1_index v) as E1
    by (intros; unfold p1_index; by rewrite (shiftr_same v d (page_log sz)) by (destruct sz; simpl in *; lia)).
  unfold get_entry_mut in *. rewrite E4, E3. destruct (next_table_mut _) as [p3| | |]; try done.
  destruct (pte_is_huge _); [done|]. destruct (next_table_mut _) as [p2| | |]; try done.
  assert (page_log sz <= 21) as Hl.
  { destruct (pte_is_huge _); [by injection He as _ <-|]. destruct (next_table_mut _); try done. by injection He as _ <-. }
  rewrite (E2 Hl). destruct (pte_is_huge _); [done|]. destruct (next_table_mut _) as [p1| | |]; try done.
  injection He as <- <-. by rewrite E1.
Qed.

Lemma query_same m v d gpa fl sz :
  0 <= v -> 0 <= d -> guest_query m v = Ok (gpa, fl, sz) -> v mod page_bytes sz + d < page_bytes sz ->
  guest_query m (v + d) = Ok (add64 gpa d, fl, sz).
Proof.
  intros Hv Hd Hq Hs. unfold guest_query, query_at in *.
  destruct (get_entry_mut m root v) as [[entry sz']| | |] eqn:He; try done. cbn [map_err] in Hq.
  destruct (pte_is_unused _) eqn:Hu; [done|]. injection Hq as <- <- <-.
  rewrite (get_entry_same m v d entry sz' Hv Hd He Hs), Hu. cbn [map_err]. rewrite !ps_page_offset_mod.
  replace ((v + d) mod page_bytes sz') with (v mod page_bytes sz' + d).
  - assert (forall x y, add64 x (y + d) = add64 (add64 x y) d) as ->; [|done].
    intros x y. unfold add64, wrap. rewrite Z.add_mod_idemp_l by lia. f_equal. lia.
  - pose proof (page_bytes_pos sz'). rewrite <- Z.add_mod_idemp_l by lia. symmetry. apply Z.mod_small.
    pose proof (Z.mod_pos_bound v (page_bytes sz')). lia.
Qed.

Lemma host_byte_at m gpa i : host_byte m gpa i = get_byte m (add64 gpa i).
Proof. unfold host_byte. by rewrite virt_to_phys_offset. Qed.

(** The byte of the guest at a virtual address. *)
Definition guest_byte (m : gmap Z Z) (v : Z) : outcome HvErrorNum Z :=
  match guest_query m v with
  | Ok (gpa, _, _) => Ok (get_byte m gpa)
  | Err e => Err e
  | Panic => Panic
  | Diverge => Diverge
  end.

(** What an error-free or a failing walk over [n] bytes from [v] gives: the
    bytes in order, or the error of the first byte that has none. *)
Fixpoint guest_bytes (m : gmap Z Z) (v : Z) (n : nat) : outcome HvErrorNum (list Z) :=
  match n with
  | O => Ok []
  | S n =>
      match guest_byte m v, guest_bytes m (v + 1) n with
      | Ok b, Ok bs => Ok (b :: bs)
      | Ok _, Err e => Err e
      | Ok _, Panic => Panic
      | Ok _, Diverge => Diverge
      | Err e, _ => Err e
      | Panic, _ => Panic
      | Diverge, _ => Diverge
      end
  end.

Definition app_outcome (l : list Z) (o : outcome HvErrorNum (list Z)) : outcome HvErrorNum (list Z) :=
  match o with Ok r => Ok (l ++ r) | Err e => Err e | Panic => Panic | Diverge => Diverge end.

(** The bytes of one page. *)
Lemma guest_bytes_page m v k n gpa fl sz :
  0 <= v -> guest_query m v = Ok (gpa, fl, sz) -> v mod page_bytes sz + Z.of_nat k <= page_bytes sz ->
  guest_bytes m v (k + n) =
    app_outcome (host_byte m gpa <$> seqZ 0 (Z.of_nat k)) (guest_bytes m (v + Z.of_nat k) n).
Proof.
  intros Hv Hq Hk.
  assert (forall j, (j <= k)%nat -> guest_bytes m (v + Z.of_nat (k - j)) (j + n) =
    app_outcome (host_byte m gpa <$> seqZ (Z.of_nat (k - j)) (Z.of_nat j)) (guest_bytes m (v + Z.of_nat k) n)) as Hall.
  { induction j as [|j IH]; intros Hj.
    - rewrite Nat.sub_0_r, seqZ_nil by lia. simpl. by destruct (guest_bytes m _ n).
    - cbn [guest_bytes Nat.add]. unfold guest_byte at 1.
      rewrite (query_same m v (Z.of_nat (k - S j)) gpa fl sz) by (done || lia).
      replace (v + Z.of_nat (k - S j) + 1) with (v + Z.of_nat (k - j)) by lia. rewrite IH by lia.
      rewrite (seqZ_cons (Z.of_nat (k - S j))) by lia.
      replace (Z.succ (Z.of_nat (k - S j))) with (Z.of_nat (k - j)) by lia.
      replace (Z.pred (Z.of_nat (S j))) with (Z.of_nat j) by lia.
      cbn [fmap list_fmap]. rewrite host_byte_at. by destruct (guest_bytes m _ n). }
  specialize (Hall k (Nat.le_refl k)). rewrite Nat.sub_diag, Z.add_0_r in Hall. exact Hall.
Qed.

Lemma read_loop_bytes m fuel v n :
  (n <= fuel)%nat -> 0 <= v -> v + Z.of_nat n < 2 ^ 64 ->
  read_loop fuel v (Z.of_nat n) m = (guest_bytes m v n, m).
Proof.
  revert v n. induction fuel as [|fuel IH]; intros v n Hn Hv Hend.
  { assert (n = O) as -> by lia. done. }
  cbn [read_loop]. destruct n as [|n']; [done|]. set (n := S n') in *.
  replace (Z.of_nat n <=? 0) with false by lia. rewrite bind_gets.
  assert (forall o, guest_query m v = o -> match o with Ok _ => False | _ => True end ->
    guest_bytes m v n = match o with Ok _ => Ok [] | Err e => Err e | Panic => Panic | Diverge => Diverge end) as Hbad.
  { intros o Ho Hx. unfold n. cbn [guest_bytes]. unfold guest_byte. rewrite Ho. by destruct o. }
  destruct (guest_query m v) as [[[gpa fl] sz]|e| |] eqn:Hq; try (by rewrite (Hbad _ eq_refl I)).
  clear Hbad. rewrite bind_of_outcome. unfold check_gpaddr. rewrite bind_of_outcome, ps_page_offset_mod.
  pose proof (page_bytes_pos sz) as Hp. pose proof (Z.mod_pos_bound v (page_bytes sz) Hp) as Hmod.
  set (r := Z.min _ _). assert (0 < r <= Z.of_nat n) as Hr by (unfold r, n; lia).
  set (k := Z.to_nat r). assert (Z.of_nat k = r) as Hk by (unfold k; lia).
  assert (n = (k + (n - k))%nat) as Hsplit by lia. rewrite Hsplit at 2.
  rewrite (guest_bytes_page m v k (n - k) gpa fl sz Hv Hq) by (unfold r in *; lia). rewrite Hk.
  assert (add64 v r = v + r) as -> by (unfold add64; nowrap; lia).
  replace (Z.of_nat n - r) with (Z.of_nat (n - k)) by lia.
  unfold bind. rewrite IH by lia. by destruct (guest_bytes m (v + r) (n - k)).
Qed.

(** Reading through a guest pointer: a null pointer is EFAULT and a
    misaligned one EINVAL; otherwise the loop over pages ends and gives, byte
    for byte, what the page table of the guest maps, across page boundaries
    and page sizes, or the error of the first address that is not mapped. *)
Theorem guest_read_bytes m gvaddr :
  0 <= gvaddr -> 0 <= size_of -> gvaddr + size_of < 2 ^ 64 ->
  guest_read gvaddr m =
    (if gvaddr =? 0 then Err EFAULT
     else if negb (gvaddr mod align_of =? 0) then Err EINVAL
     else guest_bytes m gvaddr (Z.to_nat size_of), m).
Proof.
  intros Hv Hs Hend. unfold guest_read, check_raw.
  destruct (gvaddr =? 0); [done|]. destruct (negb _); [done|]. rewrite bind_of_outcome.
  rewrite <- (read_loop_bytes m (Z.to_nat size_of)) by lia. by rewrite Z2Nat.id.
Qed.

(** The check of [as_ref] and [as_mut] misses objects that cross the end of a huge
    page. *)
Lemma as_ref_crosses m gvaddr gpa fl :
  check_raw gvaddr = Ok tt -> guest_query m gvaddr = Ok (gpa, fl, Size2M) ->
  0 <= size_of <= 2 ^ 21 - PAGE_SIZE ->
  guest_as_ref gvaddr m = (Ok (phys_to_virt gpa), m) /\ guest_as_mut gvaddr m = (Ok (phys_to_virt gpa), m).
Proof.
  intros Hc Hq Hs. change (guest_as_mut gvaddr m) with (guest_as_ref gvaddr m).
  enough (guest_as_ref gvaddr m = (Ok (phys_to_virt gpa), m)) by done. unfold guest_as_ref. rewrite Hc, bind_of_outcome, bind_gets, Hq, bind_of_outcome.
  unfold check_gpaddr. rewrite bind_of_outcome, page_offset_mod. pose proof (Z.mod_pos_bound gpa PAGE_SIZE ltac:(done)).
  unfold PAGE_SIZE in *. replace (_ <? _) with false; [done|]. unfold add64. nowrap. simpl. lia.
Qed.
End GuestPtr.

(** Four bytes at 0x9000 of a guest that maps its first gigabyte one to one
    with a huge page. *)
Section Samples.
#[local] Existing Instance X86PageTableFlags_ref.
#[local] Existing Instance BitField_ref.
#[local] Instance sample_offset : PhysVirt := 0xffff800000000000.

Definition sample_memory : gmap Z Z :=
  {[0x1000 := 0x2003; 0x2000 := 0x83; 0x9000 := 0x1122334455667788]}.

Lemma guest_read_bytes_witness :
  guest_read (pte := PTEntry.ops) 0x1000 4 4 0x9000 sample_memory = (Ok [0x88; 0x77; 0x66; 0x55], sample_memory).
Proof.
  refine (eq_trans (guest_read_bytes (pte := PTEntry.ops) 0x1000 4 4 sample_memory 0x9000 _ _ _) _).
  - lia.
  - lia.
  - lia.
  - vm_compute. reflexivity.
Defined.
End Samples.
