(* ===== verification/Uart.v ===== *)
(** * The serial port

    [src/crates/uart_16550/src/lib.rs] ([BaudRate], [SerialPort]) and
    [src/src/arch/x86_64/serial.rs] ([ByteConvertor], [putfmt]). The device on the
    other side of the ports is the register file of a 16550 ([Device]): the
    divisor latch behind DLAB, the queues that the FIFO control register clears,
    the transmitter that is busy for a number of polls after each byte, and the
    bytes that went out on the line. *)

From S2P Require Import Prelude.

(** ** Baud rates *)
Inductive BaudRate : Type :=
| Baud110 | Baud300 | Baud600 | Baud1200 | Baud2400 | Baud4800 | Baud9600 | Baud19200
| Baud38400 | Baud57600 | Baud115200 | BaudOther (n : Z).

Definition UART_CLOCK_FACTOR : Z := 16.
Definition OSC_FREQ : Z := 1843200.

Definition from_speed (speed : Z) : BaudRate :=
  match speed with
  | 110 => Baud110 | 300 => Baud300 | 600 => Baud600 | 1200 => Baud1200 | 2400 => Baud2400
  | 4800 => Baud4800 | 9600 => Baud9600 | 19200 => Baud19200 | 38400 => Baud38400
  | 57600 => Baud57600 | 115200 => Baud115200 | n => BaudOther n
  end.

Definition speed (b : BaudRate) : Z :=
  match b with
  | Baud110 => 110 | Baud300 => 300 | Baud600 => 600 | Baud1200 => 1200 | Baud2400 => 2400
  | Baud4800 => 4800 | Baud9600 => 9600 | Baud19200 => 19200 | Baud38400 => 38400
  | Baud57600 => 57600 | Baud115200 => 115200 | BaudOther n => n
  end.

(** [uart_divisor]: the product wraps, a division by zero panics ([None]), the
    quotient is cut to 16 bits. *)
Definition uart_divisor (b : BaudRate) : option (Z * Z) :=
  let d := mul64 (speed b) UART_CLOCK_FACTOR in
  if d =? 0 then None
  else let divisor := wrap 16 (OSC_FREQ / d) in
       Some (wrap 8 (Z.land divisor 0xff), wrap 8 (Z.shiftr divisor 8)).

(** ** The device *)
Record Device : Type := mkDevice {
  d_ier : Z; d_fcr : Z; d_lcr : Z; d_mcr : Z; d_dll : Z; d_dlm : Z;
  d_tx : list Z;           (* bytes on the line, in order *)
  d_queue : list Z;        (* bytes in the transmitter's queue *)
  d_rx : list Z;           (* bytes received and not yet read *)
  d_busy : nat;            (* polls until the queue is empty *)
  d_delays : list nat;     (* how long the next bytes take *)
}.

Definition dlab (d : Device) : bool := Z.testbit (d_lcr d) 7.

Definition set_regs (ier fcr lcr mcr dll dlm : Z) (d : Device) : Device :=
  mkDevice ier fcr lcr mcr dll dlm (d_tx d) (d_queue d) (d_rx d) (d_busy d) (d_delays d).
Definition set_queues (tx queue rx : list Z) (busy : nat) (delays : list nat) (d : Device) : Device :=
  mkDevice (d_ier d) (d_fcr d) (d_lcr d) (d_mcr d) (d_dll d) (d_dlm d) tx queue rx busy delays.

(** FIFO control: bit 1 clears the receive queue, bit 2 the transmit queue;
    what is on the line already stays there. *)
Definition clear_queues (v : Z) (d : Device) : Device :=
  set_queues (d_tx d) (if Z.testbit v 2 then [] else d_queue d) (if Z.testbit v 1 then [] else d_rx d)
    (if Z.testbit v 2 then 0%nat else d_busy d) (d_delays d) d.

(** [out] to the register at offset [r] of the port. *)
Definition port_out (r v : Z) (d : Device) : Device :=
  let '(ier, fcr, lcr, mcr, dll, dlm) := (d_ier d, d_fcr d, d_lcr d, d_mcr d, d_dll d, d_dlm d) in
  match r with
  | 0 => if dlab d then set_regs ier fcr lcr mcr v dlm d
         else set_queues (d_tx d) (d_queue d ++ [v]) (d_rx d) (hd 0%nat (d_delays d)) (tl (d_delays d)) d
  | 1 => if dlab d then set_regs ier fcr lcr mcr dll v d else set_regs v fcr lcr mcr dll dlm d
  | 2 => clear_queues v (set_regs ier v lcr mcr dll dlm d)
  | 3 => set_regs ier fcr v mcr dll dlm d
  | 4 => set_regs ier fcr lcr v dll dlm d
  | _ => d
  end.

(** Time passes with each poll; when the count is over the queue is on the line. *)
Definition tick (d : Device) : Device :=
  match pred (d_busy d) with
  | O => set_queues (d_tx d ++ d_queue d) [] (d_rx d) 0 (d_delays d) d
  | S k => set_queues (d_tx d) (d_queue d) (d_rx d) (S k) (d_delays d) d
  end.

(** [in] of the line status and of the data register. *)
Definition read_lsr (d : Device) : Z * Device :=
  (Z.lor (match d_rx d with [] => 0 | _ => 1 end) (match d_busy d with O => Z.shiftl 1 5 | _ => 0 end), tick d).
Definition read_data (d : Device) : Z * Device :=
  (hd 0 (d_rx d), set_queues (d_tx d) (d_queue d) (tl (d_rx d)) (d_busy d) (d_delays d) d).

(** ** The driver *)
Definition INPUT_FULL : Z := 1.
Definition OUTPUT_EMPTY : Z := Z.shiftl 1 5.
Definition LineStsFlags_all : Z := Z.lor INPUT_FULL OUTPUT_EMPTY.

Section Driver.
Context {E : Type}.

Definition out (r v : Z) : M Device E unit := modify (port_out r v).

Definition line_sts : M Device E Z := fun d =>
  let '(v, d') := read_lsr d in (Ok (truncate LineStsFlags_all v), d').

(** [wait_for!]: poll until the flag is set, at most [fuel] times here. *)
Fixpoint wait_for (fuel : nat) (flag : Z) : M Device E unit :=
  match fuel with
  | O => diverge
  | S fuel => let* s := line_sts in if contains s flag then ret tt else wait_for fuel flag
  end.

Definition init (b : BaudRate) : M Device E unit :=
  out 1 0x00 ;;;
  out 3 0x80 ;;;
  match uart_divisor b with
  | None => panic
  | Some (least, most) =>
      out 0 least ;;;
      out 1 most ;;;
      out 3 0x03 ;;;
      out 2 0xC7 ;;;
      out 4 0x0B ;;;
      out 1 0x01
  end.

Definition send (fuel : nat) (data : Z) : M Device E unit :=
  if (data =? 8) || (data =? 0x7F) then
    wait_for fuel OUTPUT_EMPTY ;;; out 0 8 ;;;
    wait_for fuel OUTPUT_EMPTY ;;; out 0 32 ;;;
    wait_for fuel OUTPUT_EMPTY ;;; out 0 8
  else wait_for fuel OUTPUT_EMPTY ;;; out 0 data.

Definition receive (fuel : nat) : M Device E Z :=
  wait_for fuel INPUT_FULL ;;; (fun d => let '(v, d') := read_data d in (Ok v, d')).

(** [fmt::Write for SerialPort]. *)
Fixpoint write_str (fuel : nat) (s : list Z) : M Device E unit :=
  match s with
  | [] => ret tt
  | b :: s => send fuel b ;;; write_str fuel s
  end.

(** ** [ByteConvertor] *)

(** The default [write_char]: the character encoded in UTF-8; a character made
    from a byte is below 256. *)
Definition encode_utf8 (c : Z) : list Z :=
  if c <? 0x80 then [c] else [Z.lor 0xC0 (Z.shiftr c 6); Z.lor 0x80 (Z.land c 0x3F)].
Definition write_char (fuel : nat) (c : Z) : M Device E unit := write_str fuel (encode_utf8 c).

Fixpoint convertor_write_str (fuel : nat) (s : list Z) : M Device E unit :=
  match s with
  | [] => ret tt
  | b :: s =>
      (if b =? 10 then write_char fuel 13 ;;; write_char fuel 10 else write_char fuel b) ;;;
      convertor_write_str fuel s
  end.
End Driver.

(** ** Properties of the rates *)

(** Rates and speeds: every speed has a rate with that speed, and from two
    baud up to 2^60 the divisor programmed is the exact quotient of the clock,
    115200 / speed; a rate of 0 stops the hypervisor. *)
Theorem baud_divisor n :
  speed (from_speed n) = n /\ uart_divisor (BaudOther 0) = None /\
  (2 <= n < 2 ^ 60 -> forall b, speed b = n ->
   exists lo hi, uart_divisor b = Some (lo, hi) /\ 0 <= lo < 256 /\ 0 <= hi < 256 /\ lo + 256 * hi = 115200 / n).
Proof.
  split; [|split; [reflexivity|]].
  - unfold from_speed. repeat case_match; reflexivity.
  - intros Hn b Hb. unfold uart_divisor, UART_CLOCK_FACTOR, OSC_FREQ. rewrite Hb.
    unfold mul64. rewrite (wrap_small 64) by (unfold in_range; lia). replace (n * 16 =? 0) with false by lia.
    assert (1843200 / (n * 16) = 115200 / n) as ->.
    { rewrite <- (Z.div_mul_cancel_r 115200 n 16) by lia. reflexivity. }
    assert (0 <= 115200 / n < 2 ^ 16) as Hd.
    { split; [apply Z.div_pos; lia|]. apply Z.div_lt_upper_bound; lia. }
    rewrite (wrap_small 16) by done. set (d := 115200 / n) in *. clearbody d.
    change 0xff with (Z.ones 8). rewrite Z.land_ones, Z.shiftr_div_pow2 by lia.
    rewrite !(wrap_small 8) by (unfold in_range; euclid).
    eexists _, _. split; [reflexivity|]. euclid.
Qed.

(** ** Sending *)
Section Send.
Context {E : Type}.

(** The transmitter takes fewer polls than the loop is run for here. *)
Definition ready (fuel : nat) (d : Device) : Prop :=
  dlab d = false /\ (d_busy d < fuel)%nat /\ (0 < fuel)%nat /\ Forall (fun k => k < fuel)%nat (d_delays d).

(** Sending [l] is all that happened: [l] is on the line or in the queue after
    what was there. *)
Definition sent (l : list Z) (d d' : Device) : Prop :=
  d_tx d' ++ d_queue d' = d_tx d ++ d_queue d ++ l /\
  (d_ier d', d_fcr d', d_lcr d', d_mcr d', d_dll d', d_dlm d', d_rx d') =
  (d_ier d, d_fcr d, d_lcr d, d_mcr d, d_dll d, d_dlm d, d_rx d).

Lemma sent_app l l' d1 d2 d3 : sent l d1 d2 -> sent l' d2 d3 -> sent (l ++ l') d1 d3.
Proof.
  intros [T1 R1] [T2 R2]. split; [|congruence].
  by rewrite T2, (app_assoc (d_tx d2)), T1, <- !app_assoc.
Qed.

Lemma sent_nil d : sent [] d d.
Proof. split; [by rewrite app_nil_r|done]. Qed.

Lemma poll_output d :
  line_sts (E := E) d = (Ok (truncate LineStsFlags_all (fst (read_lsr d))), tick d) /\
  contains (truncate LineStsFlags_all (fst (read_lsr d))) OUTPUT_EMPTY = (d_busy d =? 0)%nat.
Proof. split; [done|]. unfold read_lsr. by destruct (d_rx d), (d_busy d). Qed.

(** After the wait the queue is empty. *)
Definition drained (d : Device) : Device := set_queues (d_tx d ++ d_queue d) [] (d_rx d) 0 (d_delays d) d.

Lemma drained_tick d : drained (tick d) = drained d.
Proof. unfold drained, tick. destruct (pred (d_busy d)); cbn; by rewrite ?app_nil_r. Qed.

Lemma wait_output fuel d :
  (d_busy d < fuel)%nat -> wait_for (E := E) fuel OUTPUT_EMPTY d = (Ok tt, drained d).
Proof.
  revert d. induction fuel as [|fuel IH]; intros d Hb; [lia|]. cbn [wait_for].
  destruct (poll_output d) as [Hp Hc]. rewrite (bind_ok _ _ _ _ _ Hp), Hc.
  destruct (d_busy d) as [|k] eqn:Hk; cbn [Nat.eqb]; [unfold tick; by rewrite Hk|].
  rewrite IH; [by rewrite drained_tick|]. unfold tick. rewrite Hk. destruct k; cbn; lia.
Qed.

Lemma put_ok fuel v d :
  ready fuel d ->
  exists d', (wait_for (E := E) fuel OUTPUT_EMPTY ;;; out 0 v) d = (Ok tt, d') /\ ready fuel d' /\ sent [v] d d'.
Proof.
  intros (Hl & Hb & Hf & Hd). rewrite (bind_ok _ _ _ _ _ (wait_output fuel d Hb)).
  unfold out, modify, port_out. change (dlab (drained d)) with (dlab d). rewrite Hl.
  eexists. split; [reflexivity|]. split; [|split; [by cbn; rewrite <- app_assoc|done]].
  cbn. split; [done|]. destruct (d_delays d) as [|k ds]; cbn.
  - split; [lia|]. split; [lia|]. by apply Forall_nil.
  - rewrite Forall_cons in Hd. by destruct Hd.
Qed.

(** What goes out for a byte: backspace and delete erase a character. *)
Definition line_bytes (b : Z) : list Z := if (b =? 8) || (b =? 0x7F) then [8; 32; 8] else [b].

Lemma send_ok fuel b d :
  ready fuel d -> exists d', send (E := E) fuel b d = (Ok tt, d') /\ ready fuel d' /\ sent (line_bytes b) d d'.
Proof.
  intros Hr. unfold send, line_bytes. destruct ((b =? 8) || (b =? 0x7F)); [|by apply put_ok].
  destruct (put_ok fuel 8 d Hr) as (d1 & E1 & R1 & S1). destruct (put_ok fuel 32 d1 R1) as (d2 & E2 & R2 & S2).
  destruct (put_ok fuel 8 d2 R2) as (d3 & E3 & R3 & S3). exists d3. split; [|split; [done|]].
  - rewrite <- bind_assoc, (bind_ok _ _ _ _ _ E1), <- bind_assoc, (bind_ok _ _ _ _ _ E2). exact E3.
  - exact (sent_app _ _ _ _ _ (sent_app _ _ _ _ _ S1 S2) S3).
Qed.

Lemma write_str_ok fuel s d :
  ready fuel d ->
  exists d', write_str (E := E) fuel s d = (Ok tt, d') /\ ready fuel d' /\ sent (flat_map line_bytes s) d d'.
Proof.
  revert d. induction s as [|b s IH]; intros d Hr.
  - exists d. split; [done|]. split; [done|]. apply sent_nil.
  - destruct (send_ok fuel b d Hr) as (d1 & E1 & R1 & S1). destruct (IH d1 R1) as (d2 & E2 & R2 & S2).
    exists d2. cbn [write_str flat_map]. rewrite (bind_ok _ _ _ _ _ E1). split; [done|]. split; [done|].
    by apply (sent_app _ _ d d1).
Qed.

(** The bytes on the line for a byte given to the console. *)
Definition console_bytes (b : Z) : list Z :=
  if b =? 10 then [13; 10] else flat_map line_bytes (encode_utf8 b).

Lemma convertor_ok fuel s d :
  ready fuel d ->
  exists d', convertor_write_str (E := E) fuel s d = (Ok tt, d') /\ ready fuel d' /\ sent (flat_map console_bytes s) d d'.
Proof.
  revert d. induction s as [|b s IH]; intros d Hr.
  - exists d. split; [done|]. split; [done|]. apply sent_nil.
  - assert (exists d1, (if b =? 10 then write_char (E := E) fuel 13 ;;; write_char fuel 10 else write_char fuel b) d = (Ok tt, d1) /\
      ready fuel d1 /\ sent (console_bytes b) d d1) as (d1 & E1 & R1 & S1).
    { unfold console_bytes. destruct (b =? 10); [|by apply write_str_ok].
      destruct (write_str_ok fuel (encode_utf8 13) d Hr) as (d1 & E1 & R1 & S1).
      destruct (write_str_ok fuel (encode_utf8 10) d1 R1) as (d2 & E2 & R2 & S2). exists d2.
      unfold write_char at 1. rewrite (bind_ok _ _ _ _ _ E1). split; [done|]. split; [done|].
      exact (sent_app _ _ _ _ _ S1 S2). }
    destruct (IH d1 R1) as (d2 & E2 & R2 & S2). exists d2. cbn [convertor_write_str flat_map].
    rewrite (bind_ok _ _ _ _ _ E1). split; [done|]. split; [done|]. by apply (sent_app _ _ d d1).
Qed.

(** C40. The console: set-up at [Baud115200] programs the divisor of 115200 baud
    (the rate it is given; the comment on [SerialPort::init] names a default of
    38400 baud) with DLAB off again, 8 data bits and the FIFO on, and drops what
    both queues held; after that a text is sent completely, each wait ending
    after finitely many polls and all of it being on the line once the
    transmitter is empty again: a line feed as CR LF, an ASCII byte as itself
    and backspace as an erasure; a byte above 0x7F goes out as two bytes, so
    that text that is UTF-8 already is encoded twice. *)
Theorem console_sends fuel s d :
  (d_busy d < fuel)%nat -> (0 < fuel)%nat -> Forall (fun k => k < fuel)%nat (d_delays d) ->
  exists d1 d2 d3, init (E := E) Baud115200 d = (Ok tt, d1) /\
    (d_dll d1, d_dlm d1, d_lcr d1, d_fcr d1, d_mcr d1, d_ier d1) = (1, 0, 3, 0xC7, 0x0B, 1) /\
    (d_tx d1, d_queue d1, d_rx d1) = (d_tx d, [], []) /\
    convertor_write_str (E := E) fuel s d1 = (Ok tt, d2) /\
    d_tx d2 ++ d_queue d2 = d_tx d ++ flat_map console_bytes s /\
    wait_for (E := E) fuel OUTPUT_EMPTY d2 = (Ok tt, d3) /\ d_tx d3 = d_tx d ++ flat_map console_bytes s /\
    (Forall (fun b => 0 <= b < 0x80 /\ b <> 8 /\ b <> 0x7F /\ b <> 10) s -> flat_map console_bytes s = s).
Proof.
  intros Hb Hf Hd. set (d0 := port_out 1 0x00 d).
  assert (d_delays d0 = d_delays d /\ d_tx d0 = d_tx d) as (D0 & T0)
    by (unfold d0, port_out; by destruct (dlab d)).
  eexists (port_out 1 0x01 (port_out 4 0x0B (port_out 2 0xC7 (port_out 3 0x03 (port_out 1 0 (port_out 0 1 (port_out 3 0x80 d0))))))).
  match goal with |- context [init _ _ = (_, ?x)] => set (d1 := x) end.
  destruct (convertor_ok fuel s d1) as (d2 & E2 & (_ & Hb2 & _) & [T2 _]).
  { split; [done|]. change (d_busy d1) with 0%nat. change (d_delays d1) with (d_delays d0). by rewrite D0. }
  change (d_tx d1) with (d_tx d0) in T2. change (d_queue d1) with (@nil Z) in T2. rewrite T0 in T2.
  exists d2, (drained d2). split; [reflexivity|]. split; [reflexivity|]. split.
  { change (d_tx d1, d_queue d1, d_rx d1) with (d_tx d0, @nil Z, @nil Z). by rewrite T0. }
  split; [exact E2|]. split; [exact T2|]. split; [by apply wait_output|]. split; [exact T2|].
  intros Hs. clear E2 T2 Hb2. induction Hs as [|b s' (Hb1 & Hb2 & Hb3 & Hb4) Hs IH]; [done|]. cbn [flat_map]. rewrite IH.
  unfold console_bytes, encode_utf8, line_bytes. replace (b =? 10) with false by lia. replace (b <? 0x80) with true by lia.
  cbn [flat_map]. replace ((b =? 8) || (b =? 0x7F)) with false by lia. done.
Qed.
End Send.

(** The console on a device with a byte in each queue: [A], line feed, and a
    byte of UTF-8. *)
Definition old_device : Device := mkDevice 0 0 0 0 0 0 [1] [2] [3] 2 [3%nat; 1%nat].

Lemma console_sends_witness :
  exists d1 d2 d3, init (E := unit) Baud115200 old_device = (Ok tt, d1) /\
    (d_dll d1, d_dlm d1, d_lcr d1, d_fcr d1, d_mcr d1, d_ier d1) = (1, 0, 3, 0xC7, 0x0B, 1) /\
    (d_tx d1, d_queue d1, d_rx d1) = ([1], [], []) /\
    convertor_write_str (E := unit) 4 [65; 10; 0xC3] d1 = (Ok tt, d2) /\
    d_tx d2 ++ d_queue d2 = [1] ++ [65; 13; 10; 0xC3; 0x83] /\
    wait_for (E := unit) 4 OUTPUT_EMPTY d2 = (Ok tt, d3) /\ d_tx d3 = [1] ++ [65; 13; 10; 0xC3; 0x83] /\
    (Forall (fun b => 0 <= b < 0x80 /\ b <> 8 /\ b <> 0x7F /\ b <> 10) [65; 10; 0xC3] ->
     flat_map console_bytes [65; 10; 0xC3] = [65; 10; 0xC3]).
Proof.
  refine (console_sends 4 [65; 10; 0xC3] old_device _ _ _).
  - simpl. lia.
  - lia.
  - repeat constructor; lia.
Defined.
