(* ===== verification/Stats.v ===== *)
(** * Statistics and time

    [src/src/stats.rs] ([StatsValue], [Instant]) and the clock of
    [src/src/arch/x86_64/cpu.rs] ([frequency], [current_time_nanos]). Counters are
    [u64] and wrap. *)

From S2P Require Import Prelude.

Record StatsValue : Type := mkStats { count : Z; sum : Z }.

Definition stats_new : StatsValue := mkStats 0 0.

(** [add], and [atomic_add] without interference. *)
Definition add (value : Z) (s : StatsValue) : StatsValue :=
  mkStats (add64 (count s) 1) (add64 (sum s) value).

(** The four numbers [as_string] prints. *)
Definition as_string (s : StatsValue) : Z * Z * Z * Z :=
  let ave := if count s =? 0 then 0 else mul64 (sum s) 1000 / count s in
  (count s, sum s, ave / 1000, ave mod 1000).

(** [Instant::elapsed] with the cycle counter at [now]. *)
Definition elapsed (timestamp now : Z) : Z := sub64 now timestamp.

(** [info] is the base frequency of the processor in MHz, when it reports one. *)
Definition DEFAULT_FREQUENCY : Z := 4000.
Definition frequency (info : option Z) : Z := Z.max (default DEFAULT_FREQUENCY info) DEFAULT_FREQUENCY.
Definition current_time_nanos (info : option Z) (cycle : Z) : Z := mul64 cycle 1000 / frequency info.

Lemma add_all l s :
  0 <= count s -> 0 <= sum s -> Forall (Z.le 0) l ->
  count s + Z.of_nat (length l) < 2 ^ 64 -> sum s + foldr Z.add 0 l < 2 ^ 64 ->
  fold_left (fun s v => add v s) l s = mkStats (count s + Z.of_nat (length l)) (sum s + foldr Z.add 0 l).
Proof.
  intros Hc Hs Hl. revert s Hc Hs. induction Hl as [|v l Hv Hl IH]; intros s Hc Hs Hcm Hsm.
  - destruct s as [c t]. cbn in *. f_equal; lia.
  - cbn [fold_left foldr length] in *.
    assert (0 <= foldr Z.add 0 l) as Hp.
    { clear - Hl. induction Hl as [|v l Hv Hl IH]; simpl; lia. }
    assert (add v s = mkStats (count s + 1) (sum s + v)) as ->.
    { unfold add, add64. nowrap. done. }
    rewrite IH; cbn [count sum]; [f_equal; lia|lia..].
Qed.

(** The statistics after a series of measurements: their number, their sum
    and their mean to three decimals, exact as long as a thousand times the sum
    fits into 64 bits. *)
Theorem stats_mean l :
  Forall (Z.le 0) l -> l <> [] -> Z.of_nat (length l) < 2 ^ 64 -> 1000 * foldr Z.add 0 l < 2 ^ 64 ->
  let n := Z.of_nat (length l) in
  let t := foldr Z.add 0 l in
  exists whole frac, as_string (fold_left (fun s v => add v s) l stats_new) = (n, t, whole, frac) /\
    0 <= frac < 1000 /\ (1000 * whole + frac) * n <= 1000 * t < (1000 * whole + frac + 1) * n.
Proof.
  intros Hl Hne Hn Ht. cbv zeta.
  assert (0 <= foldr Z.add 0 l) as Hp.
  { clear - Hl. induction Hl as [|v l Hv Hl IH]; simpl; lia. }
  assert (0 < Z.of_nat (length l)) as Hpos by (destruct l; [done|simpl; lia]).
  rewrite add_all; cbn [count sum stats_new]; [|lia|lia|done|lia|lia].
  unfold as_string. cbn [count sum]. rewrite !Z.add_0_l. replace (Z.of_nat (length l) =? 0) with false by lia.
  set (n := Z.of_nat (length l)) in *. set (t := foldr Z.add 0 l) in *. clearbody n t.
  assert (mul64 t 1000 = 1000 * t) as -> by (unfold mul64; nowrap; lia).
  eexists _, _. split; [reflexivity|]. set (a := 1000 * t / n).
  assert (1000 * (a / 1000) + a mod 1000 = a) as -> by (symmetry; apply Z.div_mod; lia).
  split; [apply Z.mod_pos_bound; lia|]. unfold a. pose proof (Z.div_mod (1000 * t) n). pose proof (Z.mod_pos_bound (1000 * t) n). lia.
Qed.

(** The clock never runs ahead of the cycle counter of a 4 GHz processor. *)
Lemma time_bound info cycle :
  0 <= cycle -> 1000 * cycle < 2 ^ 64 -> 4 * current_time_nanos info cycle <= cycle.
Proof.
  intros Hc Hm. unfold current_time_nanos, frequency, DEFAULT_FREQUENCY.
  assert (mul64 cycle 1000 = 1000 * cycle) as -> by (unfold mul64; nowrap; lia).
  set (f := Z.max _ _). assert (4000 <= f) by (unfold f; lia).
  assert (1000 * cycle / f <= 1000 * cycle / 4000) by (apply Z.div_le_compat_l; lia). euclid.
Qed.
