(* ===== verification/Logging.v ===== *)
(** * Messages

    [src/src/logging.rs] (the logger and its colours), the [Debug] text of an
    error ([src/src/error.rs]) and of the statistics ([src/src/stats.rs]). A text is
    the list of its bytes. The [Display] of a level, and which records reach the
    logger, are the [log] crate's. *)

From Stdlib Require Import Ascii.
From stdpp Require Import strings.
From S2P Require Import Prelude HvError Stats Uart.

Abbreviation text := (list Z).
Definition lit (s : string) : text := (fun a => Z.of_N (N_of_ascii a)) <$> String.list_ascii_of_string s.

(** ** Formatting of integers *)

(** [{}] of an unsigned integer: the digits are produced from the last one. *)
Fixpoint dec_loop (fuel : nat) (n : Z) (acc : text) : text :=
  match fuel with
  | O => acc
  | S fuel =>
      let acc := 48 + n mod 10 :: acc in
      if n / 10 =? 0 then acc else dec_loop fuel (n / 10) acc
  end.
Definition dec (n : Z) : text := dec_loop 20 n [].

(** [{:>w}], [{:0w}] and [{:<w}]. *)
Definition padding (w : nat) (c : Z) (s : text) : text := repeat c (w - length s).
Definition pad_left (w : nat) (c : Z) (s : text) : text := padding w c s ++ s.
Definition pad_right (w : nat) (s : text) : text := s ++ padding w 32 s.

Definition undec (s : text) : Z := fold_left (fun a d => 10 * a + (d - 48)) s 0.

Lemma dec_loop_value fuel : forall n acc, 0 <= n < 10 ^ Z.of_nat fuel ->
  undec (dec_loop fuel n acc) = fold_left (fun a d => 10 * a + (d - 48)) acc n.
Proof.
  unfold undec. induction fuel as [|fuel IH]; intros n acc Hn; cbn [dec_loop].
  - simpl in Hn. by replace n with 0 by lia.
  - rewrite Nat2Z.inj_succ, Z.pow_succ_r in Hn by lia.
    assert (10 * (n / 10) + (48 + n mod 10 - 48) = n) as He by (pose proof (Z.div_mod n 10); lia).
    destruct (Z.eqb_spec (n / 10) 0) as [H0|H0].
    + cbn [fold_left]. rewrite H0 in He. f_equal. lia.
    + rewrite IH by (split; [apply Z.div_pos; lia|apply Z.div_lt_upper_bound; lia]). cbn [fold_left]. by rewrite He.
Qed.

Lemma dec_value n : 0 <= n < 2 ^ 64 -> undec (dec n) = n.
Proof. intros Hn. unfold dec. rewrite dec_loop_value by (change (10 ^ Z.of_nat 20) with 100000000000000000000; lia). done. Qed.

Lemma dec_loop_length fuel : forall k n acc, 0 <= n < 10 ^ Z.of_nat k -> (0 < k)%nat ->
  (length (dec_loop fuel n acc) <= k + length acc)%nat.
Proof.
  induction fuel as [|fuel IH]; intros k n acc Hn Hk; cbn [dec_loop]; [lia|].
  destruct (Z.eqb_spec (n / 10) 0); [simpl; lia|]. destruct k as [|k]; [lia|].
  rewrite Nat2Z.inj_succ, Z.pow_succ_r in Hn by lia. destruct k as [|k].
  - simpl in Hn. rewrite Z.div_small in * by lia. done.
  - specialize (IH (S k) (n / 10) (48 + n mod 10 :: acc)
      ltac:(split; [apply Z.div_pos; lia|apply Z.div_lt_upper_bound; lia]) ltac:(lia)). simpl in *. lia.
Qed.

Lemma dec_length k n : 0 <= n < 10 ^ Z.of_nat k -> (0 < k)%nat -> (length (dec n) <= k)%nat.
Proof. intros Hn Hk. pose proof (dec_loop_length 20 k n [] Hn Hk) as H. by rewrite Nat.add_0_r in H. Qed.

Lemma dec_loop_digits fuel : forall n acc, Forall (fun d => 48 <= d < 58) acc ->
  Forall (fun d => 48 <= d < 58) (dec_loop fuel n acc).
Proof.
  induction fuel as [|fuel IH]; intros n acc Ha; cbn [dec_loop]; [done|].
  assert (Forall (fun d => 48 <= d < 58) (48 + n mod 10 :: acc)).
  { constructor; [|done]. pose proof (Z.mod_pos_bound n 10). lia. }
  destruct (n / 10 =? 0); [done|]. by apply IH.
Qed.

Lemma undec_zeros k s : undec (repeat 48 k ++ s) = undec s.
Proof. unfold undec. rewrite fold_left_app. f_equal. induction k as [|k IH]; [done|exact IH]. Qed.

(** ** Colours *)
Inductive ColorCode : Type :=
| Black | Red | Green | Yellow | Blue | Magenta | Cyan | White
| BrightBlack | BrightRed | BrightGreen | BrightYellow | BrightBlue | BrightMagenta | BrightCyan | BrightWhite.

Definition color_code (c : ColorCode) : Z :=
  match c with
  | Black => 30 | Red => 31 | Green => 32 | Yellow => 33 | Blue => 34 | Magenta => 35 | Cyan => 36 | White => 37
  | BrightBlack => 90 | BrightRed => 91 | BrightGreen => 92 | BrightYellow => 93 | BrightBlue => 94
  | BrightMagenta => 95 | BrightCyan => 96 | BrightWhite => 97
  end.

Definition ESC : Z := 0x1B.
Definition with_color (c : ColorCode) (s : text) : text :=
  [ESC] ++ lit "[" ++ dec (color_code c) ++ lit "m" ++ s ++ [ESC] ++ lit "[m".

(** ** The logger *)
Inductive Level : Type := Error | Warn | Info | Debug | Trace.
Inductive LevelFilter : Type := Off | UpTo (l : Level).

(** [init]: the filter from the [LOG] variable of the build. *)
Definition max_level (env : option string) : LevelFilter :=
  match env with
  | Some "error"%string => UpTo Error
  | Some "warn"%string => UpTo Warn
  | Some "info"%string => UpTo Info
  | Some "debug"%string => UpTo Debug
  | Some "trace"%string => UpTo Trace
  | _ => Off
  end.

Definition level_color (l : Level) : ColorCode :=
  match l with
  | Error => BrightRed | Warn => BrightYellow | Info => BrightGreen | Debug => BrightCyan | Trace => BrightBlack
  end.
Definition args_color (l : Level) : ColorCode :=
  match l with Error => Red | Warn => Yellow | Info => Green | Debug => Cyan | Trace => BrightBlack end.

Section Logger.
Context (level_name : Level -> text).

(** The line of a record, with the clock at [nanos] and on the CPU [cpu_id]. *)
Definition log_line (nanos cpu_id : Z) (level : Level) (args : text) : text :=
  let time_micros := nanos / 1000 in
  with_color White
    (lit "[" ++ pad_left 4 32 (dec (time_micros / 1000000)) ++ lit "." ++
     pad_left 6 48 (dec (time_micros mod 1000000)) ++ lit " " ++
     with_color (level_color level) (pad_right 5 (level_name level)) ++ lit " " ++
     with_color White (dec cpu_id ++ lit "]") ++ lit " " ++
     with_color (args_color level) args ++ [10]).

(** [SimpleLogger::log]: [enabled] is true for every record. *)
Definition log {E} (fuel : nat) (nanos cpu_id : Z) (level : Level) (args : text) : M Device E unit :=
  convertor_write_str fuel (log_line nanos cpu_id level args).

(** What a terminal shows: the text without the escape sequences. *)
Inductive TermState : Type := InText | AfterEsc | InSequence.
Fixpoint strip (st : TermState) (s : text) : text :=
  match s with
  | [] => []
  | c :: s =>
      match st with
      | InText => if c =? ESC then strip AfterEsc s else c :: strip InText s
      | AfterEsc => if c =? 91 then strip InSequence s else strip InText s
      | InSequence => if c =? 109 then strip InText s else strip InSequence s
      end
  end.

(** [s] shows as [p], whatever comes after it. *)
Definition shows (s p : text) : Prop := forall r, strip InText (s ++ r) = p ++ strip InText r.

Lemma shows_app s1 p1 s2 p2 : shows s1 p1 -> shows s2 p2 -> shows (s1 ++ s2) (p1 ++ p2).
Proof. intros H1 H2 r. by rewrite <- !app_assoc, H1, H2. Qed.

Lemma shows_text s : ESC ∉ s -> shows s s.
Proof.
  induction s as [|c s IH]; intros Hn r; [done|]. apply not_elem_of_cons in Hn as [Hc Hn].
  cbn [app strip]. replace (c =? ESC) with false by lia. by rewrite IH.
Qed.

Lemma shows_color c s p : shows s p -> shows (with_color c s) p.
Proof.
  intros Hs r. assert (strip InText (with_color c s ++ r) = strip InText (s ++ [ESC] ++ lit "[m" ++ r)) as ->.
  { unfold with_color. rewrite <- !app_assoc. by destruct c. }
  rewrite Hs. done.
Qed.

Lemma dec_shows n : shows (dec n) (dec n).
Proof.
  apply shows_text. intros Hin. pose proof (dec_loop_digits 20 n [] (Forall_nil_2 _)) as Hd.
  rewrite Forall_forall in Hd. specialize (Hd _ Hin). unfold ESC in Hd. lia.
Qed.

Lemma shows_lit s : bool_decide (ESC ∉ s) = true -> shows s s.
Proof. intros Hs%bool_decide_eq_true_1. by apply shows_text. Qed.

Lemma shows_padding w c s : c <> ESC -> shows (padding w c s) (padding w c s).
Proof. intros Hc. apply shows_text. intros Hin%list_elem_of_In. apply repeat_spec in Hin. by rewrite Hin in Hc. Qed.

Lemma shows_dec_pad w c n : bool_decide (c <> ESC) = true -> shows (pad_left w c (dec n)) (pad_left w c (dec n)).
Proof. intros Hc%bool_decide_eq_true_1. apply shows_app; [by apply shows_padding|apply dec_shows]. Qed.

Lemma shows_pad_right w s : ESC ∉ s -> shows (pad_right w s) (pad_right w s).
Proof. intros Hs. apply shows_app; [by apply shows_text|by apply shows_padding]. Qed.

(** A log message on the console: the line the logger sends shows, without its
    colours, the time as seconds and six digits of microseconds, the level, the
    CPU and the text of the message, and the time can be read back from it. The
    serial port gets exactly this line. *)
Theorem log_line_shown E fuel nanos cpu_id level args d :
  0 <= nanos < 2 ^ 64 -> ESC ∉ level_name level -> ESC ∉ args -> ready fuel d ->
  let line := log_line nanos cpu_id level args in
  exists secs micros,
    strip InText line =
      lit "[" ++ pad_left 4 32 secs ++ lit "." ++ micros ++ lit " " ++ pad_right 5 (level_name level) ++ lit " " ++
      dec cpu_id ++ lit "]" ++ lit " " ++ args ++ [10] /\
    length micros = 6%nat /\ 0 <= undec micros < 1000000 /\
    1000000 * undec secs + undec micros = nanos / 1000 /\
    exists d', log (E := E) fuel nanos cpu_id level args d = (Ok tt, d') /\ sent (flat_map console_bytes line) d d'.
Proof.
  intros Hn Hlv Ha Hd. cbv zeta. set (us := nanos / 1000).
  assert (0 <= us < 2 ^ 64) as Hus by (unfold us; euclid).
  exists (dec (us / 1000000)), (pad_left 6 48 (dec (us mod 1000000))).
  assert (shows (log_line nanos cpu_id level args)
    (lit "[" ++ pad_left 4 32 (dec (us / 1000000)) ++ lit "." ++ pad_left 6 48 (dec (us mod 1000000)) ++ lit " " ++
     pad_right 5 (level_name level) ++ lit " " ++ (dec cpu_id ++ lit "]") ++ lit " " ++ args ++ [10])) as Hs.
  { unfold log_line. fold us. apply shows_color.
    do 2 (apply shows_app; [first [by apply shows_lit|by apply shows_dec_pad]|]).
    do 3 (apply shows_app; [first [by apply shows_lit|by apply shows_dec_pad]|]).
    apply shows_app; [by apply shows_color, shows_pad_right|]. apply shows_app; [by apply shows_lit|].
    apply shows_app; [apply shows_color, shows_app; [apply dec_shows|by apply shows_lit]|].
    apply shows_app; [by apply shows_lit|]. apply shows_app; [by apply shows_color, shows_text|by apply shows_lit]. }
  pose proof (Z.mod_pos_bound us 1000000 ltac:(lia)) as Hm. pose proof (Z.div_mod us 1000000 ltac:(lia)) as Hdm.
  assert (undec (pad_left 6 48 (dec (us mod 1000000))) = us mod 1000000) as Hu.
  { unfold pad_left, padding. rewrite undec_zeros. apply dec_value. lia. }
  rewrite Hu, dec_value by (split; [apply Z.div_pos; lia|apply Z.div_lt_upper_bound; lia]). split_and!.
  - specialize (Hs []). rewrite !app_nil_r in Hs. rewrite Hs, <- !app_assoc. done.
  - unfold pad_left, padding. rewrite length_app, repeat_length.
    pose proof (dec_length 6 (us mod 1000000) ltac:(change (10 ^ Z.of_nat 6) with 1000000; lia) ltac:(lia)). lia.
  - lia.
  - lia.
  - lia.
  - destruct (convertor_ok (E := E) fuel (log_line nanos cpu_id level args) d Hd) as (d' & H & _ & Hs'). by exists d'.
Qed.
End Logger.

Lemma log_line_shown_witness :
  exists secs micros,
    strip InText (log_line (fun _ => lit "INFO") 1234567890123 2 Info (lit "hi")) =
      lit "[" ++ pad_left 4 32 secs ++ lit "." ++ micros ++ lit " " ++ pad_right 5 (lit "INFO") ++ lit " " ++
      dec 2 ++ lit "]" ++ lit " " ++ lit "hi" ++ [10] /\
    secs = lit "1234" /\ micros = lit "567890".
Proof.
  destruct (log_line_shown (fun _ => lit "INFO") unit 4 1234567890123 2 Info (lit "hi")
    (mkDevice 0 0 0 0 0 0 [] [] [] 0 [])) as (secs & micros & Hs & Hl & _); [lia| | | |].
  - by apply (bool_decide_unpack _).
  - by apply (bool_decide_unpack _).
  - split; [reflexivity|]. split; [simpl; lia|]. split; [lia|]. by apply Forall_nil.
  - exists (lit "1234"), (lit "567890"). split; [vm_compute; reflexivity|]. split; reflexivity.
Defined.

(** ** Texts of errors and statistics *)
Definition errno_as_str (e : HvErrorNum) : string :=
  match e with
  | EPERM => "Operation not permitted"
  | ENOENT => "No such file or directory"
  | EIO => "I/O error"
  | E2BIG => "Argument list too long"
  | ENOMEM => "Out of memory"
  | EFAULT => "Bad address"
  | EBUSY => "Device or resource busy"
  | EEXIST => "File exists"
  | ENODEV => "No such device"
  | EINVAL => "Invalid argument"
  | ERANGE => "Math result not representable"
  | ENOSYS => "Function not implemented"
  end.

(** [HvError] with what [hv_err!] records beside the number. *)
Record HvErrorMsg : Type := mkError {
  e_num : HvErrorNum; e_line : Z; e_col : Z; e_file : text; e_msg : option text;
}.

Definition error_fmt (e : HvErrorMsg) : text :=
  lit "[" ++ e_file e ++ lit ":" ++ dec (e_line e) ++ lit ":" ++ dec (e_col e) ++ lit "] " ++
  lit (errno_as_str (e_num e)) ++ match e_msg e with Some msg => lit ": " ++ msg | None => [] end.

Definition stats_text (s : StatsValue) : text :=
  let '(count, sum, whole, frac) := as_string s in
  lit "count = " ++ dec count ++ lit ", sum = " ++ dec sum ++ lit ", average = " ++ dec whole ++ lit "." ++
  pad_left 3 48 (dec frac).

Lemma errno_as_str_inj e e' : errno_as_str e = errno_as_str e' -> e = e'.
Proof. by destruct e, e'. Qed.

(** The line [stats_mean] is about. *)
Example stats_text_sample : stats_text (fold_left (fun s v => add v s) [3; 4; 3] stats_new) =
  lit "count = 3, sum = 10, average = 3.333".
Proof. vm_compute. reflexivity. Qed.

Example error_fmt_sample : error_fmt (mkError EBUSY 94 17 (lit "vcpu.rs") (Some (lit "in use"))) =
  lit "[vcpu.rs:94:17] Device or resource busy: in use".
Proof. vm_compute. reflexivity. Qed.
