(* ===== verification/Dump.v ===== *)
(** * What the program shows of its structures

    The [Debug] implementations written by hand: of the two areas of the VMCB
    ([vmcb.rs]), of the header ([header.rs]) and of the cell configuration
    ([config.rs]), each as the fields it passes to [debug_struct]; and the two
    declarations of the header, by which the image describes itself to the driver
    and by which the hypervisor reads what the driver filled in. *)

From Stdlib Require Import String.
From S2P Require Import Prelude Crates HvError Addr PhysMem Frame Config Svm.

Open Scope string_scope.

(** ** The VMCB *)

(** A field as the formatter gets it. *)
Inductive Shown : Type := Int (z : Z) | Seg (s : VmcbSegment) | Bytes (l : list Z).

Definition control_debug (x : VmcbControlArea) : list (string * Shown) :=
  [("intercept_cr", Int (ct_intercept_cr x)); ("intercept_dr", Int (ct_intercept_dr x));
   ("intercept_exceptions", Int (ct_intercept_exceptions x)); ("intercept_vector3", Int (ct_intercept_vector3 x));
   ("intercept_vector4", Int (ct_intercept_vector4 x)); ("intercept_vector5", Int (ct_intercept_vector5 x));
   ("pause_filter_thresh", Int (ct_pause_filter_thresh x)); ("pause_filter_count", Int (ct_pause_filter_count x));
   ("iopm_base_pa", Int (ct_iopm_base_pa x)); ("msrpm_base_pa", Int (ct_msrpm_base_pa x));
   ("tsc_offset", Int (ct_tsc_offset x)); ("guest_asid", Int (ct_guest_asid x));
   ("tlb_control", Int (ct_tlb_control x)); ("int_control", Int (ct_int_control x));
   ("int_vector", Int (ct_int_vector x)); ("int_state", Int (ct_int_state x)); ("exit_code", Int (ct_exit_code x));
   ("exit_info_1", Int (ct_exit_info_1 x)); ("exit_info_2", Int (ct_exit_info_2 x));
   ("exit_int_info", Int (ct_exit_int_info x)); ("exit_int_info_err", Int (ct_exit_int_info_err x));
   ("np_enable", Int (ct_np_enable x)); ("avic_vapic_bar", Int (ct_avic_vapic_bar x));
   ("event_inj", Int (ct_event_inj x)); ("event_inj_err", Int (ct_event_inj_err x));
   ("nest_cr3", Int (ct_nest_cr3 x)); ("lbr_control", Int (ct_lbr_control x)); ("clean_bits", Int (ct_clean_bits x));
   ("next_rip", Int (ct_next_rip x)); ("insn_len", Int (ct_insn_len x)); ("insn_bytes", Bytes (ct_insn_bytes x));
   ("avic_backing_page", Int (ct_avic_backing_page x)); ("avic_logical_id", Int (ct_avic_logical_id x));
   ("avic_physical_id", Int (ct_avic_physical_id x))].

Definition save_debug (x : VmcbStateSaveArea) : list (string * Shown) :=
  [("es", Seg (s_es x)); ("cs", Seg (s_cs x)); ("ss", Seg (s_ss x)); ("ds", Seg (s_ds x)); ("fs", Seg (s_fs x));
   ("gs", Seg (s_gs x)); ("gdtr", Seg (s_gdtr x)); ("ldtr", Seg (s_ldtr x)); ("idtr", Seg (s_idtr x));
   ("tr", Seg (s_tr x)); ("cpl", Int (s_cpl x)); ("efer", Int (s_efer x)); ("cr4", Int (s_cr4 x));
   ("cr3", Int (s_cr3 x)); ("cr0", Int (s_cr0 x)); ("dr7", Int (s_dr7 x)); ("dr6", Int (s_dr6 x));
   ("rflags", Int (s_rflags x)); ("rip", Int (s_rip x)); ("rsp", Int (s_rsp x)); ("s_cet", Int (s_s_cet x));
   ("ssp", Int (s_ssp x)); ("isst_addr", Int (s_isst_addr x)); ("rax", Int (s_rax x)); ("star", Int (s_star x));
   ("lstar", Int (s_lstar x)); ("cstar", Int (s_cstar x)); ("sfmask", Int (s_sfmask x));
   ("kernel_gs_base", Int (s_kernel_gs_base x)); ("sysenter_cs", Int (s_sysenter_cs x));
   ("sysenter_esp", Int (s_sysenter_esp x)); ("sysenter_eip", Int (s_sysenter_eip x)); ("cr2", Int (s_cr2 x));
   ("g_pat", Int (s_g_pat x)); ("dbgctl", Int (s_dbgctl x)); ("br_from", Int (s_br_from x));
   ("br_to", Int (s_br_to x)); ("last_excp_from", Int (s_last_excp_from x)); ("last_excp_to", Int (s_last_excp_to x))].

(** The fields of a layout that are not reserved. *)
Definition public_fields (l : layout) : list string :=
  fst <$> List.filter (fun f => negb (String.prefix "_" (fst f))) l.

(** The dump of a VMCB shows every field under its name, in the order of the
    structure, and nothing is lost: equal dumps are equal areas. *)
Theorem vmcb_debug_complete :
  (forall x, fst <$> control_debug x = public_fields control_layout) /\
  (forall x, fst <$> save_debug x = public_fields save_layout) /\
  (forall x y, control_debug x = control_debug y -> x = y) /\
  (forall x y, save_debug x = save_debug y -> x = y).
Proof.
  split_and!; [reflexivity..| |]; intros [] [] Hd; unfold control_debug, save_debug in Hd; cbn in Hd;
    injection Hd; intros; by subst.
Qed.

(** ** The header *)

(** [HvHeader] and [HvHeaderStuff], field by field; a function is a pointer. *)
Definition HvHeader_layout : layout :=
  [("signature", (8, 1)); ("core_size", (8, 8)); ("percpu_size", (8, 8)); ("entry", (8, 8)); ("console_page", (8, 8));
   ("gcov_info_head", (8, 8)); ("max_cpus", (4, 4)); ("online_cpus", (4, 4)); ("debug_console_base", (8, 8));
   ("arm_linux_hyp_vectors", (8, 8)); ("arm_linux_hyp_abi", (4, 4))].
Definition HvHeaderStuff_layout : layout :=
  [("signature", (8, 1)); ("core_size", (8, 8)); ("percpu_size", (8, 8)); ("entry", (8, 8)); ("console_page", (8, 8));
   ("gcov_info_head", (8, 8)); ("max_cpus", (4, 4)); ("online_cpus", (4, 4)); ("debug_console_base", (8, 8));
   ("arm_linux_hyp_vectors", (8, 8)); ("arm_linux_hyp_abi", (4, 4))].

(** [HvHeader::get] reads at every offset what the image has there, and the two
    counters the driver fills in are next to each other behind 48 bytes. *)
Theorem header_layouts_agree :
  offsets 0 HvHeader_layout = offsets 0 HvHeaderStuff_layout /\
  size_of 8 HvHeader_layout = 80 /\
  ("max_cpus", 48) ∈ offsets 0 HvHeader_layout /\ ("online_cpus", 52) ∈ offsets 0 HvHeader_layout.
Proof. split_and!; [reflexivity|reflexivity|by apply (bool_decide_unpack _)..]. Qed.

(** The [Debug] of [HvHeader]; [signature] goes through [from_utf8]. *)
Definition header_debug (h : HvHeader) : list (string * Shown) :=
  [("signature", Bytes (h_signature h)); ("core_size", Int (core_size h)); ("percpu_size", Int (percpu_size h));
   ("entry", Int (h_entry h)); ("max_cpus", Int (max_cpus h)); ("online_cpus", Int (online_cpus h))].

Close Scope string_scope.

(** ** The name of a cell *)

(** The loop of [CellConfig::fmt]: the index of the first zero. An index behind the
    array panics. *)
Fixpoint name_len (name : list Z) : outcome unit nat :=
  match name with
  | [] => Panic
  | b :: rest => if b =? 0 then Ok 0%nat else match name_len rest with Ok n => Ok (S n) | r => r end
  end.

(** The bytes that are printed as the name. *)
Definition cell_name (d : HvCellDesc) : outcome unit (list Z) :=
  match name_len (name d) with
  | Ok n => Ok (take n (name d))
  | Err e => Err e
  | Panic => Panic
  | Diverge => Diverge
  end.

(** The [Debug] of [CellConfig]: the name, the size and the memory regions. *)
Definition cell_debug (mem : Z -> Z) (desc : Z) (d : HvCellDesc) : outcome unit (list Z * Z * list HvMemoryRegion) :=
  match cell_name d with
  | Ok n => Ok (n, config_size d, mem_regions mem desc d)
  | Err e => Err e
  | Panic => Panic
  | Diverge => Diverge
  end.

Lemma name_len_ok l n : name_len l = Ok n <-> l !! n = Some 0 /\ forall k, (k < n)%nat -> l !! k <> Some 0.
Proof.
  revert n. induction l as [|b l IH]; intros n; cbn [name_len]; [split; [done|intros [[=] _]]|].
  destruct (Z.eqb_spec b 0) as [->|Hb].
  - split; [intros [= <-]; split; [done|lia]|]. intros [_ Hk]. destruct n as [|n]; [done|]. by specialize (Hk 0%nat ltac:(lia)).
  - split.
    + destruct (name_len l) as [m|e| |]; try done. intros [= <-]. destruct (proj1 (IH m) eq_refl) as [Hm Hk].
      split; [done|]. intros [|k] Hlt; [by intros [= ?]|apply Hk; lia].
    + destruct n as [|n]; [by intros [[= ?] _]|]. intros [Hn Hk].
      assert (name_len l = Ok n) as ->; [|done]. apply IH. split; [done|]. intros k Hlt. apply (Hk (S k)). lia.
Qed.

Lemma name_len_total l : match name_len l with Ok _ => True | Panic => 0 ∉ l | _ => False end.
Proof.
  induction l as [|b l IH]; cbn [name_len]; [apply not_elem_of_nil|]. destruct (Z.eqb_spec b 0); [done|].
  destruct (name_len l); try done. rewrite not_elem_of_cons. by split.
Qed.

(** The name is printed up to its first zero. A name that fills its 32 bytes without
    one makes [Debug] panic. *)
Theorem cell_name_branches d :
  (exists n, name d !! n = Some 0 /\ (forall k, (k < n)%nat -> name d !! k <> Some 0) /\ cell_name d = Ok (take n (name d))) \/
  ((0 ∉ name d) /\ cell_name d = Panic).
Proof.
  unfold cell_name. pose proof (name_len_total (name d)) as Ht. destruct (name_len (name d)) as [n|e| |] eqn:Hn; try done.
  - left. exists n. apply name_len_ok in Hn as [H0 Hk]. by split_and!.
  - by right.
Qed.

(** 32 letters. *)
Example cell_name_full d : name d = repeat 65 32 -> cell_name d = Panic.
Proof. intros Hn. unfold cell_name. by rewrite Hn. Qed.
