(* ===== verification/Machine.v ===== *)
(** * The whole machine

    [Boot] interleaves the processors at their accesses to the shared counters and
    leaves the work in between open; [System] and [Guests] do the work and
    leave the interleaving open. Here both are one machine: every processor runs
    [main] step by step next to the others, with [PerCpu::new], early
    initialisation and [PerCpu::init] acting on the shared memory, and once it
    is in the guest it stores, runs and exits. A step of the machine is
    at most one step of [Boot], so the barriers hold of it; the isolation of
    [System] holds in each of its reachable states, the work of a processor
    ends, and the machine cannot hang. *)

From S2P Require Import Prelude Crates HvError Addr PhysMem Frame Pte Region Paging PagingInv PagingOps PagingSpec MemorySet MemoryProps Config Boot BootProps Cell CellProps Early X86 Segmentation Context Cpuid Vcpu Init System Guests.

(** ** Steps of [Boot] and the phases of a processor *)

(** In front of early initialisation, with the id of the primary processor. *)
Definition pending (p : Proc) : bool :=
  (p_id p =? 0) &&
  match p_pc p with WaitErr WEntered | WaitCond WEntered | WaitEnd WEntered | InitEarly => true | _ => false end.

(** Between [PerCpu::new] and [PerCpu::init]. *)
Definition before_init (p : Proc) : bool :=
  match p_pc p with
  | WaitErr WEntered | WaitCond WEntered | WaitEnd WEntered | InitEarly
  | WaitErr WEarly | WaitCond WEarly | WaitEnd WEarly | Init => true
  | _ => false
  end.

(** [PerCpu::init] has succeeded, and [main] with it so far. *)
Definition initialised (p : Proc) : bool :=
  match p_pc p with
  | IncInited | WaitErr WInited | WaitCond WInited | WaitEnd WInited
  | InitLate | WaitErr WLate | WaitCond WLate | WaitEnd WLate | ActivateInc | Enter | InGuest => true
  | _ => false
  end.

#[export] Instance wait_eq_dec : EqDecision wait.
Proof. solve_decision. Defined.
#[export] Instance pc_eq_dec : EqDecision pc.
Proof. solve_decision. Defined.

Section BootSteps.
Context (max_cpus online_cpus : Z).

Ltac by_pc p Hs :=
  destruct p as [k id ok]; unfold proc_step, pending, before_init, initialised, fetched, goto, after in *;
  cbn [p_pc p_id p_ok] in *; destruct k as [| |w|w|w| | | | | | | |e| |code]; try discriminate Hs;
  try destruct w; simplify_eq; cbn [p_pc p_id p_ok shared set_entered] in *;
  repeat case_match; simplify_eq; cbn in *; try done; auto with lia.

Lemma step_pending r s p s' p' :
  proc_step max_cpus online_cpus r s p = Some (s', p') -> pending p' = true ->
  pending p = true \/ fetched p = false /\ entered s = 0.
Proof. intros Hs Hp. by_pc p Hs. Qed.

Lemma step_initialised r s p s' p' :
  proc_step max_cpus online_cpus r s p = Some (s', p') -> initialised p' = true ->
  initialised p = true \/ p_pc p = Init /\ r = None.
Proof. intros Hs Hp. by_pc p Hs. Qed.

Lemma step_before_init r s p s' p' :
  proc_step max_cpus online_cpus r s p = Some (s', p') -> fetched p = true -> before_init p' = true -> before_init p = true.
Proof. intros Hs Hf Hp. by_pc p Hs. Qed.

Lemma step_early r s p s' p' :
  proc_step max_cpus online_cpus r s p = Some (s', p') -> p_pc p <> InitEarly -> Boot.early_ok s' = Boot.early_ok s.
Proof. intros Hs Hp. by_pc p Hs. Qed.

(** Every step of a processor that does not wait brings it closer to the end. *)
Lemma step_rank_any r s p s' p' :
  proc_step max_cpus online_cpus r s p = Some (s', p') -> spinning p = false -> (rank p' < rank p)%nat.
Proof.
  intros Hs Hsp. destruct p as [k id ok]. unfold proc_step, spinning, goto, after in *. cbn [p_pc p_id p_ok] in *.
  destruct k as [| |w|w|w| | | | | | | |e| |code]; try discriminate; try destruct r; simplify_eq; unfold rank;
    repeat case_match; simplify_eq; cbn in *; simplify_eq; cbn; try lia; try (destruct w; cbn; lia).
  all: repeat match goal with v : wait |- _ => destruct v end; cbn; lia.
Qed.
End BootSteps.

Section Machine.
Context {A : Type} {ba : BitAlloc A} {bal : BitAllocLaws A} {bf : BitField} {xr : X86Regs} {xd : X86Desc}.
Context (hpte npte : GenericPTE) (hlaws : PTELaws (pte := hpte)) (nlaws : PTELaws (pte := npte)).
Context (core_end EMPTY_PAGE : Z) (header : HvHeader) (sys_config : HvSystemConfig).
Context (mem_regions : list HvMemoryRegion) (check_hypervisor_feature : outcome HvErrorNum unit).
Context (idt : DescriptorTablePointer).

Abbreviation early_ok := (early_ok hpte npte core_end EMPTY_PAGE header sys_config mem_regions check_hypervisor_feature hlaws nlaws).
Abbreviation early_done := (early_done hpte npte core_end EMPTY_PAGE header sys_config mem_regions hlaws nlaws).
Abbreviation primary_init_early := (primary_init_early hpte npte core_end EMPTY_PAGE header sys_config mem_regions check_hypervisor_feature).
Abbreviation hv_start := (phys_start (hypervisor_memory sys_config)).
Abbreviation hv_size := (mr_size (hypervisor_memory sys_config)).
Abbreviation max_cpus := (max_cpus header).
Abbreviation online_cpus := (online_cpus header).

#[local] Instance machine_pv : PhysVirt := phys_virt_offset sys_config.

(** The vendor: [Vcpu::new] on a state [X] of the processor's own state [L] and the
    memory, as in [System]; the vCPU [G] as the exit handler and the hardware see
    it, as in [Guests]. *)
Context {V L X G : Type} (pack : L -> Machine A -> X) (local : X -> L) (memory : X -> Machine A).
Context (vcpu_new : Z -> LinuxContext -> Z -> M (Cpu * X) HvErrorNum V).
Context (to_guest : V -> L -> G) (of_guest : G -> V * L).
Context (nested_root : G -> option Z) (hw_run : G -> G -> Prop).
Context (handler : M (World G) Esc unit) (in_service : World G -> Prop).

Abbreviation Processor := (Processor (V := V) (L := L)).

(** A processor: where it is in [main], and its data. *)
Record MProc : Type := mkMProc { mp_proc : Proc; mp_data : Processor }.

Record MState : Type := mkMState {
  m_shared : Shared; m_try : Z; m_mem : Machine A; m_glob : Globals; m_procs : list MProc;
}.

Definition boot_view (x : MState) : Boot.System := mkSystem (m_shared x) (mp_proc <$> m_procs x).

(** The per-CPU data [PerCpu::new] returns; GS_BASE points to it. *)
Definition born (cpu_id : Z) (b : Processor) : Processor :=
  let p := pr_percpu b in
  let vaddr := percpu_vaddr core_end cpu_id in
  mkProcessor (msr_write IA32_GS_BASE vaddr (pr_cpu b)) (pr_local b)
    (mkPerCpu vaddr cpu_id (state p) (vcpu p) (linux p)) (pr_tss b) (pr_gdt b) (pr_sp b).

(** What a processor does before its next access to a counter: the outcome [main]
    sees, and the data after it. *)
Definition work (s : Shared) (p : MProc) : M (Machine A * Globals) HvErrorNum (option HvErrorNum * Processor) :=
  match p_pc (mp_proc p) with
  | NewFetch => ret (None, born (entered s) (mp_data p))
  | InitEarly => fun mg =>
      match primary_init_early mg with
      | (Ok _, mg') => (Ok (None, mp_data p), mg')
      | (Err e, mg') => (Ok (Some e, mp_data p), mg')
      | (Panic, mg') => (Panic, mg')
      | (Diverge, mg') => (Diverge, mg')
      end
  | Init => init_processor idt pack local memory vcpu_new (mp_data p)
  | _ => ret (None, mp_data p)
  end.

(** One step of the processor [i] in [main]. [r] is the outcome of [Vcpu::enter],
    which fails when VMLAUNCH or VMRUN does. A processor that panics stops. *)
Definition main_step (i : nat) (r : option HvErrorNum) (x : MState) : option MState :=
  match m_procs x !! i with
  | None => None
  | Some p =>
      match work (m_shared x) p (m_mem x, m_glob x) with
      | (Ok (o, b'), (m', g')) =>
          let o := match p_pc (mp_proc p) with Enter => r | _ => o end in
          match proc_step max_cpus online_cpus o (m_shared x) (mp_proc p) with
          | Some (s', p') => Some (mkMState s' (m_try x) m' g' (<[i := mkMProc p' b']> (m_procs x)))
          | None => None
          end
      | _ => None
      end
  end.

(** The processor in the guest. *)
Definition guest_of (b : Processor) : G := to_guest (vcpu (pr_percpu b)) (pr_local b).
Definition world_of (x : MState) (b : Processor) : World G :=
  let p := pr_percpu b in
  mkWorld (pr_cpu b) (mkPerCpu (self_vaddr p) (id p) (state p) (guest_of b) (linux p)) (activated (m_shared x)) (m_try x).
Definition from_world (w : World G) (b : Processor) : Processor :=
  let p := w_percpu w in
  let '(v, l) := of_guest (vcpu p) in
  mkProcessor (w_cpu w) l (mkPerCpu (self_vaddr p) (id p) (state p) v (linux p)) (pr_tss b) (pr_gdt b) (pr_sp b).

Definition in_guest (x : MState) (i : nat) (p : MProc) : Prop := m_procs x !! i = Some p /\ p_pc (mp_proc p) = InGuest.

Definition set_data (i : nat) (p : MProc) (w : World G) (x : MState) : MState :=
  mkMState (m_shared x) (w_try_disable w) (m_mem x) (m_glob x)
    (<[i := mkMProc (mp_proc p) (from_world w (mp_data p))]> (m_procs x)).

Definition m_store (a v : Z) (x : MState) : MState :=
  mkMState (m_shared x) (m_try x) (mkMachine (mem_set (pm (m_mem x)) a v) (fa (m_mem x))) (m_glob x) (m_procs x).

Lemma in_guest_stored x i p a v : in_guest x i p -> in_guest (m_store a v x) i p.
Proof. done. Qed.

(** An exit that resumes the guest leaves the count of active processors alone. *)
Inductive machine_step : MState -> MState -> Prop :=
| in_main i r x y : main_step i r x = Some y -> machine_step x y
| m_stores i p a v x :
    in_guest x i p -> a mod 8 = 0 -> can_store npte sys_config (pm (m_mem x)) (nested_root (guest_of (mp_data p))) a ->
    machine_step x (m_store a v x)
| m_runs i p c g x :
    in_guest x i p -> hw_run (guest_of (mp_data p)) g ->
    machine_step x (set_data i p (mkWorld c (with_vcpu g (w_percpu (world_of x (mp_data p)))) (activated (m_shared x)) (m_try x)) x)
| m_exits i p w x :
    in_guest x i p -> in_service (world_of x (mp_data p)) -> handler (world_of x (mp_data p)) = (Ok tt, w) ->
    w_activated w = activated (m_shared x) -> machine_step x (set_data i p w x).

Definition machine_steps : MState -> MState -> Prop := rtc machine_step.

(** A guest stores, runs on to the vCPU [g] and exits. *)
Definition ran_to (i : nat) (p : MProc) (g : G) (x : MState) : MState * MProc :=
  let w := mkWorld (pr_cpu (mp_data p)) (with_vcpu g (w_percpu (world_of x (mp_data p)))) (activated (m_shared x)) (m_try x) in
  (set_data i p w x, mkMProc (mp_proc p) (from_world w (mp_data p))).

(** The exit is handled and the guest resumed. *)
Definition resumed (x : MState) (yq : MState * MProc) : bool :=
  match handler (world_of (fst yq) (mp_data (snd yq))) with
  | (Ok _, w) => w_activated w =? activated (m_shared x)
  | _ => false
  end.

Lemma guest_round x i p a v g :
  let yq := ran_to i p g (m_store a v x) in
  in_guest x i p -> a mod 8 = 0 -> can_write npte sys_config (pm (m_mem x)) (nested_root (guest_of (mp_data p))) a = true ->
  hw_run (guest_of (mp_data p)) g -> in_service (world_of (fst yq) (mp_data (snd yq))) -> resumed x yq = true ->
  exists y, machine_steps x y /\ pm (m_mem y) = mem_set (pm (m_mem x)) a v.
Proof.
  intros yq H Ha Hw Hr Hs. unfold resumed. destruct (handler _) as [[[]|e| |] w] eqn:Hh; try done. intros Hc%Z.eqb_eq.
  exists (set_data i (snd yq) w (fst yq)). split; [|done].
  eapply rtc_l; [by eapply m_stores; [exact H|exact Ha|apply can_write_stores]|].
  eapply rtc_l; [apply (m_runs i p (pr_cpu (mp_data p)) g); [by apply in_guest_stored|exact Hr]|]. apply rtc_once.
  apply m_exits; [|exact Hs|exact Hh|exact Hc]. destruct H as [Hi Hpc]. split; [|exact Hpc].
  cbn [set_data m_procs m_store]. apply list_lookup_insert_eq. by apply lookup_lt_Some in Hi.
Qed.

(** Run a schedule of [main]: which processor steps, and what [Vcpu::enter]
    returns if that is the step. *)
Fixpoint main_run (sched : list (nat * option HvErrorNum)) (x : MState) : option MState :=
  match sched with
  | [] => Some x
  | (i, r) :: rest => match main_step i r x with Some y => main_run rest y | None => None end
  end.

Lemma main_run_steps sched x y : main_run sched x = Some y -> machine_steps x y.
Proof.
  revert x. induction sched as [|[i r] rest IH]; intros x Hr; cbn in Hr; [by injection Hr as <-|].
  destruct (main_step i r x) as [z|] eqn:Hs; [|done]. eapply rtc_l; [by eapply in_main|by apply IH].
Qed.

Definition machine_initial (l : list Processor) (m : Machine A) : MState :=
  mkMState (mkShared 0 0 0 0 0 0) 0 m (mkGlobals None None 0) (mkMProc (mkProc NewCheck 0 false) <$> l).

(** ** The machine as a system of [Boot] *)
Lemma main_step_boot i r x y : main_step i r x = Some y -> Boot.step max_cpus online_cpus (boot_view x) (boot_view y).
Proof.
  unfold main_step. destruct (m_procs x !! i) as [p|] eqn:Hi; [|done].
  destruct (work _ p _) as [[[o b']|e| |] [m' g']]; try done.
  destruct (proc_step _ _ _ _ _) as [[s' p']|] eqn:Hs; [|done]. intros [= <-]. unfold boot_view. cbn [m_shared m_procs].
  rewrite list_fmap_insert. eapply step_proc; [|exact Hs]. by rewrite list_lookup_fmap, Hi.
Qed.

Lemma set_data_boot i p w x : m_procs x !! i = Some p -> boot_view (set_data i p w x) = boot_view x.
Proof.
  intros Hi. unfold boot_view. cbn [set_data m_shared m_procs]. f_equal. rewrite list_fmap_insert. cbn [mp_proc].
  apply list_insert_id. by rewrite list_lookup_fmap, Hi.
Qed.

Lemma machine_step_view x y : machine_step x y ->
  boot_view y = boot_view x \/ Boot.step max_cpus online_cpus (boot_view x) (boot_view y).
Proof.
  intros [i r x' y' Hm|i p a v x' _ _ _|i p c g x' [Hi _] _|i p w x' [Hi _] _ _ _].
  - right. by eapply main_step_boot.
  - by left.
  - left. by apply set_data_boot.
  - left. by apply set_data_boot.
Qed.

Lemma machine_step_boot x y : machine_step x y -> Boot.steps max_cpus online_cpus (boot_view x) (boot_view y).
Proof. intros [->|Hs]%machine_step_view; [apply rtc_refl|by apply rtc_once]. Qed.

Lemma machine_steps_boot x y : machine_steps x y -> Boot.steps max_cpus online_cpus (boot_view x) (boot_view y).
Proof.
  induction 1 as [x|x y z Hxy _ IH]; [apply rtc_refl|]. etransitivity; [by apply machine_step_boot|exact IH].
Qed.

Lemma machine_initial_boot l m : boot_view (machine_initial l m) = initial (length l).
Proof.
  unfold boot_view, initial, machine_initial. cbn [m_shared m_procs]. f_equal. rewrite <- list_fmap_compose.
  induction l as [|b l IH]; [done|]. cbn [fmap list_fmap length replicate]. by rewrite IH.
Qed.

Lemma machine_reachable_boot l m x :
  machine_steps (machine_initial l m) x -> Boot.reachable max_cpus online_cpus (length l) (boot_view x).
Proof. intros Hr. unfold Boot.reachable. rewrite <- (machine_initial_boot l m). by apply machine_steps_boot. Qed.

(** The work of a processor has no result, and its panic. *)
Definition no_result (x : MState) (p : MProc) : Prop :=
  forall ob, fst (work (m_shared x) p (m_mem x, m_glob x)) <> Ok ob.
Definition stuck (x : MState) (p : MProc) : Prop := fst (work (m_shared x) p (m_mem x, m_glob x)) = Panic.

(** Early initialisation found no frame for a table. *)
Definition pool_dry (x : MState) (p : MProc) : Prop :=
  p_pc (mp_proc p) = InitEarly /\ forall q, ~ frame_free (fa (fst (snd (work (m_shared x) p (m_mem x, m_glob x))))) q.

(** The work returns, or panics for want of a frame. *)
Definition work_ends (x : MState) (p : MProc) : Prop :=
  match fst (work (m_shared x) p (m_mem x, m_glob x)) with Ok _ => True | Panic => pool_dry x p | _ => False end.

Lemma main_step_none i r x p : m_procs x !! i = Some p -> main_step i r x = None ->
  final_pc (p_pc (mp_proc p)) = true \/ no_result x p.
Proof.
  intros Hi. unfold main_step, no_result. rewrite Hi. destruct (work _ p _) as [[[o b']|e| |] [m' g']]; [|by right..].
  destruct (proc_step _ _ _ _ _) as [[s' p']|] eqn:Hs; [done|]. intros _. left. revert Hs. unfold proc_step.
  by destruct (p_pc (mp_proc p)) as [| | | | | |  | | | | | | | |]; destruct o.
Qed.

(** *** The machine does not hang *)

(** The processor [i] at another place of [main]. *)
Definition at_pc (i : nat) (p : MProc) (k : pc) (x : MState) : MState :=
  mkMState (m_shared x) (m_try x) (m_mem x) (m_glob x) (<[i := mkMProc (goto (mp_proc p) k) (mp_data p)]> (m_procs x)).

Lemma at_pc_step x i p k k' : (i < length (m_procs x))%nat -> spinning (goto (mp_proc p) k) = true ->
  proc_step max_cpus online_cpus None (m_shared x) (goto (mp_proc p) k) = Some (m_shared x, goto (mp_proc p) k') ->
  machine_steps (at_pc i p k x) (at_pc i p k' x).
Proof.
  intros Hlt Hsp Hs. apply rtc_once, (in_main i None). unfold main_step, at_pc. cbn [m_procs m_shared m_mem m_glob m_try].
  rewrite list_lookup_insert_eq by done. cbn [mp_proc mp_data]. unfold work, spinning in *. cbn [mp_proc mp_data] in *.
  destruct (p_pc (goto (mp_proc p) k)) eqn:Hk; try discriminate Hsp; unfold ret; rewrite Hs; by rewrite list_insert_insert_eq.
Qed.

Lemma ranks_at x i p p' b' s t m g : m_procs x !! i = Some p -> (rank p' < rank (mp_proc p))%nat ->
  (ranks (boot_view (mkMState s t m g (<[i := mkMProc p' b']> (m_procs x)))) < ranks (boot_view x))%nat.
Proof.
  intros Hi Hr. unfold ranks, boot_view. cbn [m_shared m_procs Boot.procs]. rewrite list_fmap_insert. cbn [mp_proc].
  pose proof (sum_insert rank (mp_proc <$> m_procs x) i (mp_proc p) p' ltac:(by rewrite list_lookup_fmap, Hi)). lia.
Qed.

(** A processor whose wait is over leaves the loop. *)
Lemma machine_leaves x i p w : m_procs x !! i = Some p -> waits w (mp_proc p) = true -> wait_over online_cpus w (m_shared x) ->
  exists y, machine_steps x y /\ (ranks (boot_view y) < ranks (boot_view x))%nat.
Proof.
  intros Hi Hw Ho. apply waits_pc in Hw. pose proof (lookup_lt_Some _ _ _ Hi) as Hlt.
  assert (at_pc i p (p_pc (mp_proc p)) x = x) as Hself.
  { unfold at_pc. destruct p as [[k id ok] b]. cbn. rewrite list_insert_id by done. by destruct x. }
  exists (at_pc i p (WaitEnd w) x). split; [rewrite <- Hself at 1|].
  - assert (forall e, has_err (m_shared x) = e ->
      machine_steps (at_pc i p (WaitErr w) x) (at_pc i p (if e then WaitEnd w else WaitCond w) x)) as S1.
    { intros e He. apply at_pc_step; [done..|]. unfold proc_step. cbn [goto p_pc]. by rewrite He. }
    assert (forall c, cond online_cpus w (m_shared x) = c ->
      machine_steps (at_pc i p (WaitCond w) x) (at_pc i p (if c then WaitErr w else WaitEnd w) x)) as S2.
    { intros c Hc. apply at_pc_step; [done..|]. unfold proc_step. cbn [goto p_pc]. by rewrite Hc. }
    destruct Hw as [-> | ->].
    + destruct (has_err (m_shared x)) eqn:He; [exact (S1 true eq_refl)|]. destruct Ho as [Ho|Ho]; [congruence|].
      exact (transitivity (S1 false eq_refl) (S2 false Ho)).
    + destruct (cond online_cpus w (m_shared x)) eqn:Hc; [|exact (S2 false eq_refl)]. destruct Ho as [Ho|Ho]; [|congruence].
      exact (transitivity (S2 true eq_refl) (S1 true Ho)).
  - apply (ranks_at x i p); [done|]. unfold rank. destruct Hw as [-> | ->]; destruct w; cbn; lia.
Qed.

Lemma machine_progress n x : Z.of_nat n = online_cpus -> online_cpus <= max_cpus < 2 ^ 32 ->
  BootProps.inv online_cpus n (boot_view x) -> ~ final (boot_view x) ->
  (exists i p, m_procs x !! i = Some p /\ no_result x p) \/
  exists y, machine_steps x y /\ (ranks (boot_view y) < ranks (boot_view x))%nat.
Proof.
  intros Hn Hmax Hinv Hnf.
  assert (forall i q, Boot.procs (boot_view x) !! i = Some q -> exists p, m_procs x !! i = Some p /\ q = mp_proc p) as Hback.
  { intros i q Hq. unfold boot_view in Hq. cbn [Boot.procs] in Hq. rewrite list_lookup_fmap in Hq.
    destruct (m_procs x !! i) as [p|]; [|done]. injection Hq as <-. eauto. }
  destruct (find_elem (fun p => negb (spinning p) && negb (final_pc (p_pc p))) (Boot.procs (boot_view x))) as [(i & q & Hi & Hq)|N].
  - apply andb_true_iff in Hq as [H1%negb_true_iff H2%negb_true_iff]. destruct (Hback i q Hi) as (p & Hp & ->).
    destruct (main_step i None x) as [y|] eqn:Hs; [right|destruct (main_step_none i None x p Hp Hs) as [?|?]; [congruence|left; eauto]].
    exists y. split; [by apply rtc_once, (in_main i None)|]. unfold main_step in Hs. rewrite Hp in Hs.
    destruct (work _ p _) as [[[o b']|e| |] [m' g']]; try done.
    destruct (proc_step _ _ _ _ _) as [[s' p']|] eqn:Hst; [|done]. injection Hs as <-.
    apply (ranks_at x i p); [done|]. by eapply step_rank_any.
  - right. assert (forall i q, Boot.procs (boot_view x) !! i = Some q -> spinning q = true \/ final_pc (p_pc q) = true) as Hall.
    { intros i q Hq. specialize (N i q Hq). cbn beta in N. destruct (spinning q), (final_pc (p_pc q)); auto. }
    destruct (find_elem spinning (Boot.procs (boot_view x))) as [(i & q & Hi & Hq)|N'].
    2: { exfalso. apply Hnf, Forall_lookup. intros i q Hi. destruct (Hall i q Hi) as [H|?]; [by rewrite (N' i q Hi) in H|done]. }
    destruct (Hback i q Hi) as (p & Hp & ->). destruct (has_err (m_shared x)) eqn:He.
    + destruct (spinning_waits _ Hq) as [w Hw]. apply (machine_leaves x i p w Hp Hw). by left.
    + destruct (some_wait_over _ _ Hn (boot_view x) i _ Hinv Hall He Hi Hq) as (j & t & w & Hj & Hw & Ho).
      destruct (Hback j t Hj) as (p' & Hp' & ->). by apply (machine_leaves x j p' w).
Qed.

Lemma machine_ends n x : Z.of_nat n = online_cpus -> online_cpus <= max_cpus < 2 ^ 32 ->
  BootProps.inv online_cpus n (boot_view x) ->
  exists y, machine_steps x y /\ (final (boot_view y) \/ exists i p, m_procs y !! i = Some p /\ no_result y p).
Proof.
  intros Hn Hmax. remember (ranks (boot_view x)) as k eqn:Hk. revert x Hk. induction k as [k IH] using lt_wf_ind. intros x -> Hinv.
  destruct (final_dec (boot_view x)) as [Hf|Hf]; [exists x; split; [apply rtc_refl|by left]|].
  destruct (machine_progress n x Hn Hmax Hinv Hf) as [Hst|(y & Hxy & Hlt)]; [exists x; split; [apply rtc_refl|by right]|].
  destruct (IH _ Hlt y eq_refl) as (z & Hyz & Hz); [by eapply (inv_steps max_cpus); [..|by apply machine_steps_boot]|].
  exists z. split; [by transitivity y|done].
Qed.

(** ** What the vendor promises *)
Context (good : Processor -> Prop) (started : Z -> Z -> Processor -> Machine A -> Processor -> Prop) (owns : V -> list Z).
Context (under : Z -> G -> Prop).
Hypothesis vendor : vendor_ok idt pack local memory vcpu_new good started owns.
Hypothesis started_under : forall hv_root cell_root b m b',
  0 <= cell_root -> cell_root mod PAGE_SIZE = 0 -> started hv_root cell_root b m b' -> under cell_root (guest_of b').
Hypothesis world_round : forall g, let '(v, l) := of_guest g in to_guest v l = g.
Hypothesis under_root : forall root g, under root g -> nested_root g = Some root.
Hypothesis run_under : forall root g g', under root g -> hw_run g g' -> under root g'.
Hypothesis exit_under : forall root w w', under root (vcpu (w_percpu w)) -> in_service w -> handler w = (Ok tt, w') ->
  under root (vcpu (w_percpu w')).
Hypothesis read_only : contains (pte_view (pte := npte) READ_ONLY) MEM_WRITE = false.

(** As many processors as the driver announces, each of them with its registers
    and boxes in order; a configuration that fits. *)
Context (procs : list Processor).
Hypothesis config_ok : early_ok.
Hypothesis config_avoids : avoids_hv EMPTY_PAGE sys_config mem_regions.
Hypothesis count_ok : Z.of_nat (length procs) = online_cpus /\ online_cpus <= max_cpus < 2 ^ 32.
Hypothesis all_good : Forall (fun b => forall i, 0 <= i < online_cpus -> good (born i b)) procs.

(** [m'] has the memory of the hypervisor that [m] has, the frames that were free
    in [m] apart. *)
Record secured (m m' : Machine A) : Prop := {
  se_free : forall q, frame_free (fa m') q -> frame_free (fa m) q;
  se_mem : forall a, hv_start <= a < hv_start + hv_size ->
    (forall q, frame_free (fa m) q -> ~ q <= a < q + PAGE_SIZE) -> mem_get (pm m') a = mem_get (pm m) a;
}.

Lemma secured_refl m : secured m m.
Proof. by split. Qed.

Lemma secured_trans m1 m2 m3 : secured m1 m2 -> secured m2 m3 -> secured m1 m3.
Proof.
  intros [F1 M1] [F2 M2]. split; [auto|]. intros a Ha Hq. rewrite M2, M1; [done..|]. intros q Hf. by apply Hq, F1.
Qed.

Lemma secured_taken m m' : taken m m' -> secured m m'.
Proof. intros [_ _ Hf Hm]. split; [done|]. intros a _. apply Hm. Qed.

Lemma secured_outside m m' : outside sys_config m m' -> secured m m'.
Proof. intros [Hf Hm]. split; [by rewrite Hf|]. intros a Ha _. by apply Hm. Qed.

(** The invariant. *)
Record machine_inv (x : MState) : Prop := {
  mi_boot : BootProps.inv online_cpus (length procs) (boot_view x);
  mi_data : forall i p, m_procs x !! i = Some p ->
    if fetched (mp_proc p) then before_init (mp_proc p) = true -> good (mp_data p)
    else forall k, 0 <= k < online_cpus -> good (born k (mp_data p));
  mi_fresh : (HV_PT (m_glob x) = None /\ ROOT_CELL (m_glob x) = None) \/
    (0 < entered (m_shared x) /\ forall i p, m_procs x !! i = Some p -> pending (mp_proc p) = false);
  mi_early : Boot.early_ok (m_shared x) = 1 -> exists hv gpm, m_glob x = mkGlobals (Some hv) (Some gpm) 1 /\
    early_done (m_mem x) hv gpm /\
    forall i p, m_procs x !! i = Some p -> initialised (mp_proc p) = true -> under (root_paddr (pt gpm)) (guest_of (mp_data p));
}.

Lemma machine_inv_initial m : machine_inv (machine_initial procs m).
Proof.
  split.
  - rewrite machine_initial_boot. by apply inv_initial.
  - intros i p Hi. cbn [machine_initial m_procs] in Hi. rewrite list_lookup_fmap in Hi.
    destruct (procs !! i) as [b|] eqn:Hb; [|done]. injection Hi as <-. cbn [mp_proc fetched p_pc mp_data].
    rewrite Forall_lookup in all_good. exact (all_good i b Hb).
  - by left.
  - done.
Qed.

Lemma proc_in_boot x i p : m_procs x !! i = Some p -> Boot.procs (boot_view x) !! i = Some (mp_proc p).
Proof. intros Hi. unfold boot_view. cbn [Boot.procs]. by rewrite list_lookup_fmap, Hi. Qed.

(** What the invariant of [Boot] says of a processor. *)
Lemma boot_facts x i p : machine_inv x -> m_procs x !! i = Some p ->
  proc_inv online_cpus (m_shared x) (mp_proc p) /\
  (fetched (mp_proc p) = true -> 0 < entered (m_shared x)) /\
  (fetched (mp_proc p) = false -> 0 <= entered (m_shared x) < online_cpus).
Proof.
  intros I Hi. pose proof (mi_boot x I) as B. pose proof (proc_in_boot x i p Hi) as Hb. split; [exact (iv_procs _ _ _ B i _ Hb)|].
  pose proof (iv_entered _ _ _ B) as He. cbn [boot_view shared] in He. split.
  - intros Hf. pose proof (iv_id _ _ _ B i _ Hb Hf). cbn [boot_view shared] in *. lia.
  - intros Hf. rewrite He. pose proof (cnt_lt fetched _ i _ Hb Hf). pose proof (cnt_bounds fetched (Boot.procs (boot_view x))).
    pose proof (iv_len _ _ _ B). lia.
Qed.

(** An initialised processor has seen the page tables. *)
Lemma initialised_early x i p : machine_inv x -> m_procs x !! i = Some p ->
  initialised (mp_proc p) = true -> Boot.early_ok (m_shared x) = 1.
Proof.
  intros I Hi. destruct (boot_facts x i p I Hi) as [Hp _]. unfold proc_inv, at_wait in Hp. unfold initialised.
  destruct (p_pc (mp_proc p)) as [| |w|w|w| | | | | | | | | |]; try destruct w; cbn in Hp; intuition discriminate.
Qed.

(** A pending processor finds the static cells empty. *)
Lemma pending_fresh x i p : machine_inv x -> m_procs x !! i = Some p -> pending (mp_proc p) = true ->
  HV_PT (m_glob x) = None /\ ROOT_CELL (m_glob x) = None /\ Boot.early_ok (m_shared x) <> 1.
Proof.
  intros I Hi Hp. destruct (mi_fresh x I) as [[H1 H2]|[_ Hn]]; [|by rewrite (Hn i p Hi) in Hp].
  split_and!; [done..|]. intros He. destruct (mi_early x I He) as (hv & gpm & Hg & _). by rewrite Hg in H1.
Qed.

Lemma init_early_pending x i p : machine_inv x -> m_procs x !! i = Some p -> p_pc (mp_proc p) = InitEarly ->
  pending (mp_proc p) = true /\ fetched (mp_proc p) = true.
Proof.
  intros I Hi Hpc. destruct (boot_facts x i p I Hi) as [Hp _]. unfold proc_inv in Hp. rewrite Hpc in Hp.
  unfold pending, fetched. rewrite Hpc. destruct Hp as [_ ->]. done.
Qed.

(** Two processors are never pending at once. *)
Lemma pending_unique x i j p q : machine_inv x -> m_procs x !! i = Some p -> m_procs x !! j = Some q ->
  pending (mp_proc p) = true -> pending (mp_proc q) = true -> i = j.
Proof.
  intros I Hi Hj Hp Hq. destruct (decide (i = j)) as [|Hne]; [done|].
  assert (forall p, pending p = true -> fetched p = true /\ p_id p = 0) as Hpd.
  { intros t Ht. unfold pending, fetched in *. destruct (Z.eqb_spec (p_id t) 0); [|done]. by destruct (p_pc t). }
  destruct (Hpd _ Hp) as [F1 I1], (Hpd _ Hq) as [F2 I2].
  exfalso. apply (iv_unique _ _ _ (mi_boot x I) i j (mp_proc p) (mp_proc q)); try done; [by apply proc_in_boot..|congruence].
Qed.

(** *** One step in [main] *)
Lemma work_quiet s p mg o b' mg' :
  p_pc (mp_proc p) <> InitEarly -> p_pc (mp_proc p) <> Init -> work s p mg = (Ok (o, b'), mg') ->
  o = None /\ mg' = mg /\ b' = match p_pc (mp_proc p) with NewFetch => born (entered s) (mp_data p) | _ => mp_data p end.
Proof.
  unfold work. intros H1 H2. destruct (p_pc (mp_proc p)) eqn:Hpc; try done; by intros [= <- <- <-].
Qed.

(** What has to be shown of a step of the processor [i]. *)
Lemma step_intro x i p r s' p' b' m' g' :
  machine_inv x -> m_procs x !! i = Some p -> proc_step max_cpus online_cpus r (m_shared x) (mp_proc p) = Some (s', p') ->
  (if fetched p' then before_init p' = true -> good b' else forall k, 0 <= k < online_cpus -> good (born k b')) ->
  ((HV_PT g' = None /\ ROOT_CELL g' = None) \/
   (0 < entered s' /\ pending p' = false /\ forall j q, j <> i -> m_procs x !! j = Some q -> pending (mp_proc q) = false)) ->
  (Boot.early_ok s' = 1 -> exists hv gpm, g' = mkGlobals (Some hv) (Some gpm) 1 /\ early_done m' hv gpm /\
     (initialised p' = true -> under (root_paddr (pt gpm)) (guest_of b')) /\
     forall j q, j <> i -> m_procs x !! j = Some q -> initialised (mp_proc q) = true ->
       under (root_paddr (pt gpm)) (guest_of (mp_data q))) ->
  machine_inv (mkMState s' (m_try x) m' g' (<[i := mkMProc p' b']> (m_procs x))).
Proof.
  intros I Hi Hs Hdata Hfresh Hearly.
  assert (forall P : nat -> MProc -> Prop, P i (mkMProc p' b') -> (forall j q, j <> i -> m_procs x !! j = Some q -> P j q) ->
    forall j q, <[i := mkMProc p' b']> (m_procs x) !! j = Some q -> P j q) as Hall.
  { intros P Hp Hq j q [(-> & <- & _)|[Hne Hj]]%list_lookup_insert_Some; [done|by apply Hq]. }
  split; cbn [m_procs m_shared m_glob m_mem].
  - refine (inv_step max_cpus _ _ (proj1 count_ok) (proj2 count_ok) (boot_view x) _ (mi_boot x I) _).
    unfold boot_view. cbn [m_shared m_procs]. rewrite list_fmap_insert. eapply step_proc; [by rewrite list_lookup_fmap, Hi|exact Hs].
  - apply Hall; [exact Hdata|]. intros j q _. exact (mi_data x I j q).
  - destruct Hfresh as [Hn|(He & Hp & Hq)]; [by left|right]. split; [done|].
    by apply (Hall (fun _ q => pending (mp_proc q) = false)).
  - intros He. destruct (Hearly He) as (hv & gpm & Hg & D & Hp & Hq). exists hv, gpm. split; [done|]. split; [done|].
    by apply (Hall (fun _ q => initialised (mp_proc q) = true -> under (root_paddr (pt gpm)) (guest_of (mp_data q)))).
Qed.

(** The counter of entered processors grows. *)
Lemma step_entered x i p r s' p' : machine_inv x -> m_procs x !! i = Some p ->
  proc_step max_cpus online_cpus r (m_shared x) (mp_proc p) = Some (s', p') -> entered (m_shared x) <= entered s'.
Proof.
  intros I Hi Hs. destruct (inv_step_facts max_cpus _ _ (proj1 count_ok) (proj2 count_ok) (boot_view x) i _ _ _ _ (mi_boot x I)
    (proc_in_boot x i p Hi) Hs) as [Hg _]. apply (g_entered _ _ Hg).
Qed.

(** The static cells, once filled or being filled. *)
Lemma fresh_or_not x i p r s' p' : machine_inv x -> m_procs x !! i = Some p ->
  proc_step max_cpus online_cpus r (m_shared x) (mp_proc p) = Some (s', p') ->
  (HV_PT (m_glob x) = None /\ ROOT_CELL (m_glob x) = None) \/
  (0 < entered s' /\ pending p' = false /\ forall j q, j <> i -> m_procs x !! j = Some q -> pending (mp_proc q) = false).
Proof.
  intros I Hi Hs. destruct (mi_fresh x I) as [Hn|[He Hn]]; [by left|right]. pose proof (step_entered x i p r s' p' I Hi Hs).
  split; [lia|]. split; [|intros j q _; apply Hn]. destruct (pending p') eqn:Hp'; [|done].
  destruct (step_pending _ _ _ _ _ _ _ Hs Hp') as [Hp|[_ Hz]]; [by rewrite (Hn i p Hi) in Hp|lia].
Qed.

(** One step in [main], apart from early initialisation and [PerCpu::init]. *)
Lemma quiet_inv x i p r s' p' :
  machine_inv x -> m_procs x !! i = Some p -> p_pc (mp_proc p) <> InitEarly -> p_pc (mp_proc p) <> Init ->
  proc_step max_cpus online_cpus r (m_shared x) (mp_proc p) = Some (s', p') ->
  machine_inv (mkMState s' (m_try x) (m_mem x) (m_glob x)
    (<[i := mkMProc p' (match p_pc (mp_proc p) with NewFetch => born (entered (m_shared x)) (mp_data p) | _ => mp_data p end)]> (m_procs x))).
Proof.
  intros I Hi H1 H2 Hs. destruct (boot_facts x i p I Hi) as (_ & _ & Hent). pose proof (mi_data x I i p Hi) as Hd.
  eapply step_intro; [done..| | |].
  - destruct (fetched (mp_proc p)) eqn:Hf.
    + rewrite (step_fetched _ _ _ _ _ _ _ Hs Hf). intros Hb. pose proof (step_before_init _ _ _ _ _ _ _ Hs Hf Hb) as Hbp.
      unfold fetched in Hf. destruct (p_pc (mp_proc p)); try discriminate Hf; by apply Hd.
    + specialize (Hent eq_refl). clear I Hi. destruct p as [[k id ok] b]. cbn in *. unfold fetched in Hf. cbn in Hf.
      destruct k; try discriminate Hf; injection Hs as <- <-; cbn; [|intros _; by apply Hd].
      by destruct (Config.max_cpus header <=? entered (m_shared x)); cbn.
  - by apply (fresh_or_not x i p r s' p').
  - rewrite (step_early _ _ _ _ _ _ _ Hs H1). intros He. destruct (mi_early x I He) as (hv & gpm & Hg & D & Hu).
    exists hv, gpm. split; [done|]. split; [done|]. split; [|intros j q _; apply Hu]. intros Hp'.
    destruct (step_initialised _ _ _ _ _ _ _ Hs Hp') as [Hp|[? _]]; [|done]. specialize (Hu i p Hi Hp).
    unfold initialised in Hp. by destruct (p_pc (mp_proc p)).
Qed.

(** Early initialisation. *)
Lemma early_step_inv x i p o b' m' g' s' p' :
  machine_inv x -> m_procs x !! i = Some p -> p_pc (mp_proc p) = InitEarly ->
  work (m_shared x) p (m_mem x, m_glob x) = (Ok (o, b'), (m', g')) ->
  proc_step max_cpus online_cpus o (m_shared x) (mp_proc p) = Some (s', p') ->
  machine_inv (mkMState s' (m_try x) m' g' (<[i := mkMProc p' b']> (m_procs x))).
Proof.
  intros I Hi Hpc Hw Hs. destruct (init_early_pending x i p I Hi Hpc) as [Hp Hf].
  destruct (pending_fresh x i p I Hi Hp) as (Hg1 & Hg2 & Hne). destruct (boot_facts x i p I Hi) as (_ & Hent & _).
  pose proof (step_entered x i p o s' p' I Hi Hs) as Hge. pose proof (mi_data x I i p Hi) as Hd. rewrite Hf in Hd.
  pose proof (early_protects_ok hpte npte core_end EMPTY_PAGE header sys_config mem_regions check_hypervisor_feature hlaws nlaws
    (m_mem x) (m_glob x) config_ok Hg1 Hg2) as H.
  unfold work in Hw. rewrite Hpc in Hw.
  assert (pending p' = false /\ b' = mp_data p /\ (fetched p' = true) /\ initialised p' = false /\
    (o = None \/ Boot.early_ok s' = Boot.early_ok (m_shared x))) as (Hp' & -> & Hf' & Hi' & Ho).
  { assert (b' = mp_data p) as -> by (by destruct (primary_init_early _) as [[[]|e| |] mg]; simplify_eq).
    destruct (mp_proc p) as [k id ok]. cbn in Hpc. subst k. unfold proc_step, goto in Hs. cbn [p_pc p_id p_ok] in Hs.
    unfold pending, fetched, initialised. destruct o as [e|]; injection Hs as <- <-; cbn;
      (split_and!; [apply andb_false_r|done..|auto]). }
  eapply step_intro; [done..| | |].
  - rewrite Hf'. intros _. apply Hd. unfold before_init. by rewrite Hpc.
  - right. split; [specialize (Hent Hf); lia|]. split; [done|]. intros j q Hj Hq. destruct (pending (mp_proc q)) eqn:Hpq; [|done].
    by destruct Hj, (pending_unique x j i q p I Hq Hi).
  - intros He. destruct o as [e|]; [destruct Ho as [?|Ho]; [done|congruence]|].
    destruct (primary_init_early (m_mem x, m_glob x)) as [[[]|e| |] mg]; try done. injection Hw as ->.
    destruct H as (_ & _ & hv & gpm & -> & D). exists hv, gpm. split; [done|]. split; [done|]. split; [by rewrite Hi'|].
    intros j q _ Hq Hiq. by destruct Hne, (initialised_early x j q I Hq Hiq).
Qed.

(** [PerCpu::init]. *)
Lemma init_step_inv x i p o b' m' g' s' p' :
  machine_inv x -> m_procs x !! i = Some p -> p_pc (mp_proc p) = Init ->
  work (m_shared x) p (m_mem x, m_glob x) = (Ok (o, b'), (m', g')) ->
  proc_step max_cpus online_cpus o (m_shared x) (mp_proc p) = Some (s', p') ->
  machine_inv (mkMState s' (m_try x) m' g' (<[i := mkMProc p' b']> (m_procs x))) /\ g' = m_glob x /\ taken (m_mem x) m'.
Proof.
  intros I Hi Hpc Hw Hs. destruct (boot_facts x i p I Hi) as (Hpi & _ & _). unfold proc_inv in Hpi. rewrite Hpc in Hpi.
  destruct Hpi as [_ He]. destruct (mi_early x I He) as (hv & gpm & Hg & D & Hu). pose proof (mi_data x I i p Hi) as Hd.
  assert (good (mp_data p)) as Hgood by (unfold fetched in Hd; rewrite Hpc in Hd; apply Hd; unfold before_init; by rewrite Hpc).
  destruct (early_done_roots _ _ _ _ _ _ _ _ _ _ _ _ D) as [Rh Rn].
  pose proof (vendor (mp_data p) _ _ (m_mem x) Hgood Rh Rn (early_done_wf _ _ _ _ _ _ _ _ _ _ _ _ D)) as Hv.
  unfold work in Hw. rewrite Hpc, Hg, init_processor_run in Hw.
  destruct (percpu_init _ _ _ _ _ _ _ _) as [[[]|e| |] [[c' x'] q']]; try done; cbv zeta in Hw; injection Hw as <- <- <- <-;
    destruct Hv as (T & _ & Hv); split; try by rewrite Hg.
  all: assert (pending p' = false /\ before_init p' = false /\ fetched p' = true) as (Hp' & Hb' & Hf')
    by (destruct (mp_proc p) as [k id ok]; cbn in Hpc; subst k; unfold proc_step, goto in Hs; cbn [p_pc p_id p_ok] in Hs;
        injection Hs as <- <-; unfold pending, before_init, fetched; cbn; by rewrite andb_false_r).
  all: eapply step_intro; [done..|by rewrite Hf', Hb'| |].
  all: try (destruct (fresh_or_not x i p _ s' p' I Hi Hs) as [[Hn _]|Hn]; [by rewrite Hg in Hn|by right]).
  all: intros _; exists hv, gpm; split; [done|]; split; [by eapply early_done_taken|]; split; [|intros j q _; apply Hu]; intros Hi'.
  - eapply started_under; [| |exact Hv]; destruct Rn as (? & ? & ?); unfold PAGE_SIZE in *; [lia|done].
  - destruct (mp_proc p) as [k id ok]. cbn in Hpc. subst k. by injection Hs as <- <-.
Qed.

Lemma main_step_inv i r x y :
  machine_inv x -> main_step i r x = Some y ->
  machine_inv y /\ (Boot.early_ok (m_shared x) = 1 -> m_glob y = m_glob x /\ secured (m_mem x) (m_mem y)).
Proof.
  intros I. unfold main_step. destruct (m_procs x !! i) as [p|] eqn:Hi; [|done].
  destruct (work _ p _) as [[[o b']|e| |] [m' g']] eqn:Hw; try done.
  destruct (proc_step _ _ _ _ _) as [[s' p']|] eqn:Hs; [|done]. intros [= <-]. cbn [m_mem m_glob].
  destruct (decide (p_pc (mp_proc p) = Init)) as [Hpc|H2].
  - rewrite Hpc in Hs. destruct (init_step_inv x i p o b' m' g' s' p' I Hi Hpc Hw Hs) as (I' & -> & T).
    split; [done|]. intros _. split; [done|]. by apply secured_taken.
  - destruct (decide (p_pc (mp_proc p) = InitEarly)) as [Hpc|H1].
    + rewrite Hpc in Hs. destruct (init_early_pending x i p I Hi Hpc) as [Hp _].
      destruct (pending_fresh x i p I Hi Hp) as (_ & _ & Hne). split; [by eapply early_step_inv|done].
    + destruct (work_quiet _ _ _ _ _ _ H1 H2 Hw) as (-> & [= -> ->] & ->). split; [by eapply quiet_inv|].
      intros _. split; [done|apply secured_refl].
Qed.

(** The work of a processor ends. *)
Lemma work_result x i p : machine_inv x -> m_procs x !! i = Some p -> work_ends x p.
Proof.
  intros I Hi. unfold work_ends, pool_dry, work. destruct (p_pc (mp_proc p)) eqn:Hpc; try done.
  - destruct (init_early_pending x i p I Hi Hpc) as [Hp _]. destruct (pending_fresh x i p I Hi Hp) as (Hg1 & Hg2 & _).
    pose proof (early_protects_ok hpte npte core_end EMPTY_PAGE header sys_config mem_regions check_hypervisor_feature hlaws nlaws
      (m_mem x) (m_glob x) config_ok Hg1 Hg2) as H.
    by destruct (primary_init_early (m_mem x, m_glob x)) as [[[]|e| |] [m' g']].
  - destruct (boot_facts x i p I Hi) as (Hpi & _ & _). unfold proc_inv in Hpi. rewrite Hpc in Hpi.
    destruct Hpi as [_ He]. destruct (mi_early x I He) as (hv & gpm & Hg & D & _). pose proof (mi_data x I i p Hi) as Hd.
    assert (good (mp_data p)) as Hgood by (unfold fetched in Hd; rewrite Hpc in Hd; apply Hd; unfold before_init; by rewrite Hpc).
    destruct (early_done_roots _ _ _ _ _ _ _ _ _ _ _ _ D) as [Rh Rn].
    pose proof (vendor (mp_data p) _ _ (m_mem x) Hgood Rh Rn (early_done_wf _ _ _ _ _ _ _ _ _ _ _ _ D)) as Hv.
    rewrite Hg, init_processor_run. by destruct (percpu_init _ _ _ _ _ _ _ _) as [[[]|e| |] [[c' x'] q']].
Qed.

(** Without a result is a panic with the pool exhausted. *)
Lemma no_result_dry x i p : machine_inv x -> m_procs x !! i = Some p -> no_result x p -> stuck x p /\ pool_dry x p.
Proof.
  intros I Hi Hno. pose proof (work_result x i p I Hi) as Hw. unfold work_ends, no_result, stuck in *.
  destruct (fst (work _ _ _)) as [ob|e| |]; try done. by destruct (Hno ob).
Qed.

(** *** One step of a guest *)
Lemma guest_of_world w b : guest_of (from_world w b) = vcpu (w_percpu w).
Proof.
  unfold guest_of, from_world. pose proof (world_round (vcpu (w_percpu w))) as Hr.
  by destruct (of_guest (vcpu (w_percpu w))) as [v l].
Qed.

Lemma in_guest_initialised x i p : in_guest x i p -> initialised (mp_proc p) = true.
Proof. intros [_ Hpc]. unfold initialised. by rewrite Hpc. Qed.

Lemma in_guest_under x i p : machine_inv x -> in_guest x i p -> exists hv gpm,
  m_glob x = mkGlobals (Some hv) (Some gpm) 1 /\ early_done (m_mem x) hv gpm /\ under (root_paddr (pt gpm)) (guest_of (mp_data p)).
Proof.
  intros I H. pose proof (in_guest_initialised x i p H) as Hini. destruct H as [Hi _].
  destruct (mi_early x I (initialised_early x i p I Hi Hini)) as (hv & gpm & Hg & D & Hu). exists hv, gpm. eauto.
Qed.

Lemma set_data_inv x i p w : machine_inv x -> in_guest x i p ->
  (forall root, under root (guest_of (mp_data p)) -> under root (vcpu (w_percpu w))) -> machine_inv (set_data i p w x).
Proof.
  intros I H Hw. pose proof (in_guest_initialised x i p H) as Hini. destruct H as [Hi Hpc].
  assert (forall j q, m_procs (set_data i p w x) !! j = Some q -> j = i /\ q = mkMProc (mp_proc p) (from_world w (mp_data p)) \/
    m_procs x !! j = Some q) as Hl.
  { intros j q Hj. cbn [set_data m_procs] in Hj. apply list_lookup_insert_Some in Hj as [(-> & <- & _)|[_ Hj]]; auto. }
  split.
  - rewrite set_data_boot by done. exact (mi_boot x I).
  - intros j q [[_ ->]|Hj]%Hl; [|exact (mi_data x I j q Hj)]. cbn [mp_proc mp_data]. unfold fetched, before_init. by rewrite Hpc.
  - destruct (mi_fresh x I) as [Hn|[He Hn]]; [by left|right]. split; [exact He|]. intros j q [[_ ->]|Hj]%Hl; [|by eapply Hn].
    exact (Hn i p Hi).
  - intros He. destruct (mi_early x I He) as (hv & gpm & Hg & D & Hu). exists hv, gpm. split; [done|]. split; [done|].
    intros j q [[_ ->]|Hj]%Hl Hq; [|by eapply Hu]. cbn [mp_data]. rewrite guest_of_world. apply Hw. by eapply Hu.
Qed.

Lemma machine_step_inv x y :
  avoids_hv EMPTY_PAGE sys_config mem_regions -> machine_inv x -> machine_step x y ->
  machine_inv y /\ (Boot.early_ok (m_shared x) = 1 -> m_glob y = m_glob x /\ secured (m_mem x) (m_mem y)).
Proof.
  intros Hav I Hst. destruct Hst as [i r x' y' Hm|i p a v x' H Ha Hc|i p c g x' H Hr|i p w x' H Hs Hh _].
  - exact (main_step_inv i r x' y' I Hm).
  - destruct (in_guest_under x' i p I H) as (hv & gpm & Hg & D & Hu). rewrite (under_root _ _ Hu) in Hc.
    pose proof (store_outside hpte npte hlaws nlaws core_end EMPTY_PAGE header sys_config mem_regions check_hypervisor_feature
      read_only hv gpm (m_mem x') a Hav config_ok D Ha Hc) as Hout.
    assert (outside sys_config (m_mem x') (m_mem (m_store a v x'))) as O.
    { split; [done|]. intros z Hz. cbn [m_store m_mem pm]. rewrite mem_get_set_ne; [done|]. intros ->. contradiction. }
    split; [|intros _; split; [done|by apply secured_outside]]. split; [exact (mi_boot x' I)|exact (mi_data x' I)|exact (mi_fresh x' I)|].
    intros He. destruct (mi_early x' I He) as (hv' & gpm' & Hg' & D' & Hu'). exists hv', gpm'. split; [done|].
    split; [|done]. eapply early_done_outside; [exact (config_end_in _ _ _ _ _ _ _ _ _ _ config_ok)|exact O|exact D'].
  - split; [|intros _; split; [done|apply secured_refl]]. apply set_data_inv; [done..|]. intros root Hu. by eapply run_under.
  - split; [|intros _; split; [done|apply secured_refl]]. apply set_data_inv; [done..|]. intros root Hu.
    exact (exit_under root (world_of x' (mp_data p)) w Hu Hs Hh).
Qed.

Lemma early_kept x y : machine_inv x -> machine_step x y -> Boot.early_ok (m_shared x) = 1 -> Boot.early_ok (m_shared y) = 1.
Proof.
  intros I Hst. destruct Hst as [i r x' y' Hm|i p a v x' _ _ _|i p c g x' _ _|i p w x' _ _ _ _]; try done. intros He. revert Hm. unfold main_step.
  destruct (m_procs x' !! i) as [p|] eqn:Hi; [|done]. destruct (work _ p _) as [[[o b']|e| |] [m' g']]; try done.
  destruct (proc_step _ _ _ _ _) as [[s' p']|] eqn:Hs; [|done]. intros [= <-].
  destruct (inv_step_facts max_cpus _ _ (proj1 count_ok) (proj2 count_ok) (boot_view x') i _ _ _ _ (mi_boot x' I)
    (proc_in_boot x' i p Hi) Hs) as [Hg _]. by apply (g_early _ _ Hg).
Qed.

Lemma machine_steps_inv x y :
  avoids_hv EMPTY_PAGE sys_config mem_regions -> machine_inv x -> machine_steps x y ->
  machine_inv y /\ (Boot.early_ok (m_shared x) = 1 -> m_glob y = m_glob x /\ secured (m_mem x) (m_mem y)).
Proof.
  intros Hav I Hr. induction Hr as [x|x y z Hxy _ IH]; [split; [done|intros _; split; [done|apply secured_refl]]|].
  destruct (machine_step_inv x y Hav I Hxy) as [Iy Hy]. destruct (IH Iy) as [Iz Hz]. split; [done|]. intros He.
  destruct (Hy He) as [Gy Sy]. destruct (Hz (early_kept x y I Hxy He)) as [Gz Sz].
  split; [congruence|by eapply secured_trans].
Qed.

(** A processor that [main] has not given up, next to one that turns to its
    guest. *)
Lemma beside_guest x i p j q : machine_inv x -> m_procs x !! i = Some p -> in_vmm (mp_proc p) = true ->
  m_procs x !! j = Some q -> failed (mp_proc q) = false -> initialised (mp_proc q) = true.
Proof.
  intros I Hi Hp Hj Hq. destruct (boot_facts x i p I Hi) as [Ip _]. destruct (boot_facts x j q I Hj) as [Iq _].
  assert (online_cpus <= inited (m_shared x)) as Hge by (unfold proc_inv, in_vmm in *; destruct (p_pc (mp_proc p)); done || lia).
  pose proof (all_ok _ _ (proj1 count_ok) (boot_view x) i _ (mi_boot x I) (proc_in_boot x i p Hi) Hge j _ (proc_in_boot x j q Hj)) as Hok.
  unfold proc_inv, failed, initialised in *. destruct (p_pc (mp_proc q)) as [| |w|w|w| | | | | | | | | |]; try done;
    try destruct w; cbn [at_wait] in Iq; intuition congruence.
Qed.

(** In a reachable state in which a processor has turned to its guest, every
    processor that has not failed is under the nested page table of the root
    cell, through which the hypervisor memory is out of reach; and once the page
    tables are made they stay, with every word of the hypervisor memory that is
    not in a free frame. The work of every processor ends. *)
Lemma machine_secure m x y :
  avoids_hv EMPTY_PAGE sys_config mem_regions -> machine_steps (machine_initial procs m) x -> machine_steps x y ->
  (forall i p, m_procs x !! i = Some p -> in_vmm (mp_proc p) = true ->
     exists hv gpm, m_glob x = mkGlobals (Some hv) (Some gpm) 1 /\ early_done (m_mem x) hv gpm /\
       confined_at npte nlaws EMPTY_PAGE sys_config (m_mem x) (root_paddr (pt gpm)) [] /\
       forall j q, m_procs x !! j = Some q -> failed (mp_proc q) = false -> under (root_paddr (pt gpm)) (guest_of (mp_data q))) /\
  (Boot.early_ok (m_shared x) = 1 -> m_glob y = m_glob x /\ secured (m_mem x) (m_mem y)) /\
  forall i p, m_procs x !! i = Some p -> work_ends x p.
Proof.
  intros Hav Hx Hy. destruct (machine_steps_inv _ x Hav (machine_inv_initial m) Hx) as [I _].
  split; [|split; [apply (machine_steps_inv x y Hav I Hy)|intros i p; by apply (work_result x i p)]]. intros i p Hi Hp.
  pose proof (beside_guest x i p) as Hb.
  assert (initialised (mp_proc p) = true) as Hini by (unfold in_vmm, initialised in *; by destruct (p_pc (mp_proc p))).
  destruct (mi_early x I (initialised_early x i p I Hi Hini)) as (hv & gpm & Hg & D & Hu).
  exists hv, gpm. split; [done|]. split; [done|]. split.
  - by apply (confined_intro hpte npte hlaws nlaws core_end EMPTY_PAGE header sys_config mem_regions check_hypervisor_feature
      _ (m_mem x) hv gpm).
  - intros j q Hj Hq. apply (Hu j q Hj). by apply (Hb j q).
Qed.
(** Everybody has arrived: each processor is in its guest, under the nested page
    table of the root cell, or has returned an error code; all were initialised
    or all have returned; if all are in their guests the count is theirs. *)
Record settled (x : MState) : Prop := {
  st_place : forall i p, m_procs x !! i = Some p ->
    match p_pc (mp_proc p) with
    | InGuest => exists gpm, ROOT_CELL (m_glob x) = Some gpm /\ under (root_paddr (pt gpm)) (guest_of (mp_data p))
    | Returned c => c <> 0
    | _ => False
    end;
  st_all : (forall i p, m_procs x !! i = Some p -> p_ok (mp_proc p) = true) \/
    (forall i p, m_procs x !! i = Some p -> exists c, p_pc (mp_proc p) = Returned c);
  st_count : (forall i p, m_procs x !! i = Some p -> p_pc (mp_proc p) = InGuest) -> activated (m_shared x) = online_cpus;
}.

Lemma final_settled x : machine_inv x -> final (boot_view x) -> settled x.
Proof.
  intros I Hf. pose proof Hf as Hf'. unfold final in Hf'. rewrite Forall_lookup in Hf'.
  assert (forall i q, Boot.procs (boot_view x) !! i = Some q -> exists p, m_procs x !! i = Some p /\ q = mp_proc p) as Hback.
  { intros i q Hq. unfold boot_view in Hq. cbn [Boot.procs] in Hq. rewrite list_lookup_fmap in Hq.
    destruct (m_procs x !! i) as [p|]; [|done]. injection Hq as <-. eauto. }
  pose proof (agreement_inv _ _ (proj1 count_ok) (boot_view x) (mi_boot x I) Hf) as Hag. split.
  - intros i p Hi. specialize (Hf' i _ (proc_in_boot x i p Hi)). destruct (boot_facts x i p I Hi) as [Hp _].
    pose proof (in_guest_under x i p I) as Hu. unfold proc_inv, in_guest in *.
    destruct (p_pc (mp_proc p)) as [| | | | | | | | | | | | | |c]; try discriminate Hf'; [|by destruct Hp].
    destruct Hu as (hv & gpm & -> & _ & Hu); [done|]. by exists gpm.
  - destruct Hag as [[Hok _]|Hret]; [left|right]; intros i p Hi.
    + by apply (Hok i), proc_in_boot.
    + destruct (Hret i _ (proc_in_boot x i p Hi)) as (c & Hc & _). eauto.
  - intros Hall. destruct Hag as [[_ Hc]|Hret].
    + apply Hc. intros i q Hq. destruct (Hback i q Hq) as (p & Hi & ->). by apply (Hall i).
    + assert (m_procs x = []) as Hnil.
      { destruct (m_procs x) as [|p l] eqn:Hl; [done|]. assert (m_procs x !! 0%nat = Some p) as Hp by (by rewrite Hl).
        rewrite <- Hl in Hall. destruct (Hret 0%nat _ (proc_in_boot x 0 p Hp)) as (c & Hc & _). by rewrite (Hall 0%nat p Hp) in Hc. }
      pose proof (iv_len _ _ _ (mi_boot x I)) as Hlen. pose proof (iv_active _ _ _ (mi_boot x I)) as Hac.
      unfold boot_view in Hlen, Hac. cbn [Boot.procs shared] in Hlen, Hac. rewrite Hnil in Hlen, Hac.
      unfold cnt in Hac. cbn [fmap list_fmap List.filter length] in Hlen, Hac. pose proof (proj1 count_ok). lia.
Qed.

(** From every reachable state there is a way on to a settled one, unless early
    initialisation exhausts the pool. *)
Lemma machine_settles m x :
  avoids_hv EMPTY_PAGE sys_config mem_regions -> machine_steps (machine_initial procs m) x ->
  exists y, machine_steps x y /\ (settled y \/ exists i p, m_procs y !! i = Some p /\ stuck y p /\ pool_dry y p).
Proof.
  intros Hav Hx. destruct (machine_steps_inv _ x Hav (machine_inv_initial m) Hx) as [I _].
  destruct (machine_ends (length procs) x (proj1 count_ok) (proj2 count_ok) (mi_boot x I)) as (y & Hy & He).
  destruct (machine_steps_inv x y Hav I Hy) as [Iy _]. exists y. split; [done|].
  destruct He as [Hf|(i & p & Hi & Hno)]; [left; by apply final_settled|right]. exists i, p. split; [done|].
  by apply (no_result_dry y i p).
Qed.
End Machine.
