(* ===== verification/AmdMachine.v ===== *)
(** * The whole machine on AMD

    [Machine] with the AMD vCPU: the processors start side by side, the guests
    run, store and exit, the hypervisor memory stays out of their reach in
    every reachable state, and from each of them all processors can arrive. At the end the sample configuration is started and
    run. *)

From S2P Require Import Prelude Crates HvError Addr PhysMem Frame Pte Region Paging PagingInv PagingOps PagingSpec MemorySet MemoryProps Config Boot BootProps Cell CellProps Early X86 Segmentation Context Cpuid Vcpu Svm AmdVcpu AmdProps Init VmmSamples System Guests Machine.

Section AmdMachine.
Context {A : Type} {ba : BitAlloc A} {bal : BitAllocLaws A} {bf : BitField} {xr : X86Regs} {xrl : X86RegsLaws}.
Context {xd : X86Desc} {xdl : X86DescLaws} {rc : RawCpuid} {rcl : RawCpuidLaws}.
Context (hpte npte : GenericPTE) (hlaws : PTELaws (pte := hpte)) (nlaws : PTELaws (pte := npte)).
Context (core_end EMPTY_PAGE : Z) (header : HvHeader) (sys_config : HvSystemConfig).
Context (mem_regions : list HvMemoryRegion) (check_hypervisor_feature : outcome HvErrorNum unit) (idt : DescriptorTablePointer).
Context (hw_seg_base : Cpu -> Z -> Z).

Abbreviation early_ok := (early_ok hpte npte core_end EMPTY_PAGE header sys_config mem_regions check_hypervisor_feature hlaws nlaws).
Abbreviation early_done := (early_done hpte npte core_end EMPTY_PAGE header sys_config mem_regions hlaws nlaws).
Abbreviation AmdProcessor := (Processor (V := AmdVcpu) (L := unit)).

(** The SVM state that is not in the vCPU is the memory, and the vCPU of the exit
    handler is all of it. *)
Abbreviation amd_main_step := (main_step hpte npte core_end EMPTY_PAGE header sys_config mem_regions check_hypervisor_feature idt
  (fun _ m => m) (fun _ => tt) (fun m => m) amd_new).
Abbreviation amd_machine_step := (machine_step hpte npte core_end EMPTY_PAGE header sys_config mem_regions check_hypervisor_feature idt
  (fun _ m => m) (fun _ => tt) (fun m => m) amd_new (fun v _ => v) (fun v => (v, tt)) np_root svm_runs
  (vmexit_handler_wrapper hw_seg_base) (fun _ => True)).
Abbreviation amd_machine_steps := (machine_steps hpte npte core_end EMPTY_PAGE header sys_config mem_regions check_hypervisor_feature idt
  (fun _ m => m) (fun _ => tt) (fun m => m) amd_new (fun v _ => v) (fun v => (v, tt)) np_root svm_runs
  (vmexit_handler_wrapper hw_seg_base) (fun _ => True)).
Abbreviation amd_stuck := (stuck hpte npte core_end EMPTY_PAGE header sys_config mem_regions check_hypervisor_feature idt
  (fun _ m => m) (fun _ => tt) (fun m => m) amd_new).
Abbreviation amd_pool_dry := (pool_dry hpte npte core_end EMPTY_PAGE header sys_config mem_regions check_hypervisor_feature idt
  (fun _ m => m) (fun _ => tt) (fun m => m) amd_new).
Abbreviation amd_work_ends := (work_ends hpte npte core_end EMPTY_PAGE header sys_config mem_regions check_hypervisor_feature idt
  (fun _ m => m) (fun _ => tt) (fun m => m) amd_new).

#[local] Instance amd_machine_pv : PhysVirt := phys_virt_offset sys_config.

(** [PerCpu::new] changes GS_BASE only. *)
Lemma amd_ready_born i (b : AmdProcessor) : amd_ready b -> amd_ready (born core_end i b).
Proof.
  intros [Hl Hg Ht [He H4]]. split; [exact Hl|exact Hg|exact Ht|split; [|exact H4]].
  unfold born. cbn [pr_cpu]. by rewrite msr_read_write_ne.
Qed.

(** C15. The whole AMD machine, from any configuration that fits and with as many
    processors as the driver announces: they run [main] side by side, interleaved
    in any way and failing anywhere, and the guests that are entered run, store
    and exit, for any time. Once one processor has turned to its guest, every
    processor that has not failed translates the addresses of its guest by the
    nested page table of the root cell, and through it the hypervisor memory is
    out of reach except for the read-only empty page. From the end of early
    initialisation on, both page tables stay, and so does every word of the
    hypervisor memory outside the free frames. The work of a processor always
    ends; it panics in early initialisation only, with the pool exhausted. *)
Theorem amd_machine_secure (procs : list AmdProcessor) (m : Machine A) x y :
  early_ok -> avoids_hv EMPTY_PAGE sys_config mem_regions -> contains (pte_view (pte := npte) READ_ONLY) MEM_WRITE = false ->
  Z.of_nat (length procs) = online_cpus header /\ online_cpus header <= max_cpus header < 2 ^ 32 -> Forall amd_ready procs ->
  amd_machine_steps (machine_initial procs m) x -> amd_machine_steps x y ->
  (forall i p, m_procs x !! i = Some p -> in_vmm (mp_proc p) = true ->
     exists hv gpm, m_glob x = mkGlobals (Some hv) (Some gpm) 1 /\ early_done (m_mem x) hv gpm /\
       confined_at npte nlaws EMPTY_PAGE sys_config (m_mem x) (root_paddr (pt gpm)) [] /\
       forall j q, m_procs x !! j = Some q -> failed (mp_proc q) = false ->
         np_root (vcpu (pr_percpu (mp_data q))) = Some (root_paddr (pt gpm))) /\
  (Boot.early_ok (m_shared x) = 1 -> m_glob y = m_glob x /\ secured sys_config (m_mem x) (m_mem y)) /\
  forall i p, m_procs x !! i = Some p -> amd_work_ends x p.
Proof.
  intros E Hav Hro Hn Hl Hx Hy.
  refine (machine_secure hpte npte hlaws nlaws core_end EMPTY_PAGE header sys_config mem_regions check_hypervisor_feature idt
    (fun _ m => m) (fun _ => tt) (fun m => m) amd_new (fun v _ => v) (fun v => (v, tt)) np_root svm_runs
    (vmexit_handler_wrapper hw_seg_base) (fun _ => True) amd_ready amd_started amd_owns amd_under (amd_vendor idt)
    _ _ _ _ _ Hro procs E Hn _ m x y Hav Hx Hy).
  - intros hv_root cell_root b m0 b' _ _. exact (amd_started_under hv_root cell_root b m0 b').
  - done.
  - done.
  - exact amd_runs_under.
  - exact (amd_exit_under hw_seg_base).
  - eapply Forall_impl; [exact Hl|]. intros b Hb i _. by apply amd_ready_born.
Qed.

(** C17. The AMD machine cannot hang: from each of its reachable states, whatever
    was interleaved and whatever failed so far, there is a way on after which
    every processor is in its guest under the nested page table of the root
    cell or has returned an error code to the driver, all of them initialised or
    all of them returned, and the count of active processors is right; the one
    exception is that early initialisation panics with the pool exhausted. *)
Theorem amd_machine_ends (procs : list AmdProcessor) (m : Machine A) x :
  early_ok -> avoids_hv EMPTY_PAGE sys_config mem_regions -> contains (pte_view (pte := npte) READ_ONLY) MEM_WRITE = false ->
  Z.of_nat (length procs) = online_cpus header /\ online_cpus header <= max_cpus header < 2 ^ 32 -> Forall amd_ready procs ->
  amd_machine_steps (machine_initial procs m) x ->
  exists y, amd_machine_steps x y /\
    (settled header (fun v _ => v) amd_under y \/
     exists i p, m_procs y !! i = Some p /\ amd_stuck y p /\ amd_pool_dry y p).
Proof.
  intros E Hav Hro Hn Hl Hx.
  refine (machine_settles hpte npte hlaws nlaws core_end EMPTY_PAGE header sys_config mem_regions check_hypervisor_feature idt
    (fun _ m => m) (fun _ => tt) (fun m => m) amd_new (fun v _ => v) (fun v => (v, tt)) np_root svm_runs
    (vmexit_handler_wrapper hw_seg_base) (fun _ => True) amd_ready amd_started amd_owns amd_under (amd_vendor idt)
    _ _ _ _ _ Hro procs E Hn _ m x Hav Hx).
  - intros hv_root cell_root b m0 b' _ _. exact (amd_started_under hv_root cell_root b m0 b').
  - done.
  - done.
  - exact amd_runs_under.
  - exact (amd_exit_under hw_seg_base).
  - eapply Forall_impl; [exact Hl|]. intros b Hb i _. by apply amd_ready_born.
Qed.
End AmdMachine.

(** ** The sample machine *)
Module AmdMachineSample.
Import SystemSample.
#[local] Existing Instance X86PageTableFlags_ref.
#[local] Existing Instance BitField_ref.
#[local] Existing Instance X86Regs_ref.
#[local] Existing Instance X86Regs_ref_laws.
#[local] Existing Instance X86Desc_ref.
#[local] Existing Instance X86Desc_ref_laws.
#[local] Existing Instance RawCpuid_ref.
#[local] Existing Instance RawCpuid_ref_laws.
#[local] Instance amd_machine_sample_pv : PhysVirt := phys_virt_offset Boot.cfg.

Abbreviation State := (MState (A := ListAlloc.t) (V := AmdVcpu) (L := unit)).
Definition amd_begin : State :=
  machine_initial [amd_processor 0; amd_processor 1] (mkMachine ∅ (fa_empty (A := ListAlloc.t))).

Abbreviation sample_main_run :=
  (main_run PTEntry.ops NPTEntry.ops Boot.core_end Boot.EMPTY_PAGE Boot.header Boot.cfg [Boot.ram; Boot.io] (Ok tt)
     (mkDtp 4095 0x50000) (fun _ m => m) (fun _ => tt) (fun m => m) amd_new).
Abbreviation sample_steps :=
  (machine_steps PTEntry.ops NPTEntry.ops Boot.core_end Boot.EMPTY_PAGE Boot.header Boot.cfg [Boot.ram; Boot.io] (Ok tt)
     (mkDtp 4095 0x50000) (fun _ m => m) (fun _ => tt) (fun m => m) amd_new (fun v _ => v) (fun v => (v, tt)) np_root svm_runs
     (vmexit_handler_wrapper no_base) (fun _ => True)).

(** The schedule of [BootProps] takes both processors to their guests; the first
    of them stores 42 at 1M + 8, executes CPUID and is resumed. The checks are one
    computation. *)
Abbreviation sample_ran p x := (ran_to (fun v _ => v) (fun v => (v, tt)) 0 p (at_cpuid (guest_of (fun v _ => v) (mp_data p))) (m_store 0x100008 42 x)).
Definition amd_up_ok (x : State) : bool :=
  (Boot.early_ok (m_shared x) =? 1) && (activated (m_shared x) =? 2) &&
  match m_procs x !! 0%nat with
  | Some p =>
      bool_decide (p_pc (mp_proc p) = InGuest) &&
      can_write NPTEntry.ops Boot.cfg (pm (m_mem x)) (np_root (guest_of (fun v _ => v) (mp_data p))) 0x100008 &&
      resumed (fun v _ => v) (vmexit_handler_wrapper no_base) x (sample_ran p x)
  | None => false
  end.

Lemma amd_up_runs : match sample_main_run boot_schedule amd_begin with Some x => amd_up_ok x | None => false end = true.
Proof. vm_compute. reflexivity. Qed.

Lemma amd_sample_goes : exists x y, sample_steps amd_begin x /\ sample_steps x y /\
  Boot.early_ok (m_shared x) = 1 /\ activated (m_shared x) = 2 /\ mem_get (pm (m_mem y)) 0x100008 = 42.
Proof.
  pose proof amd_up_runs as Hup. destruct (sample_main_run boot_schedule amd_begin) as [x|] eqn:Hx; [|discriminate Hup].
  unfold amd_up_ok in Hup. rewrite !andb_true_iff in Hup. destruct Hup as [[He%Z.eqb_eq Ha%Z.eqb_eq] Hup].
  destruct (m_procs x !! 0%nat) as [p|] eqn:Hp; [|discriminate Hup]. rewrite !andb_true_iff in Hup. destruct Hup as [[Hpc%bool_decide_eq_true Hw] Hup].
  assert (in_guest x 0 p) as Hin by (split; [exact Hp|exact Hpc]).
  destruct (guest_round PTEntry.ops NPTEntry.ops Boot.core_end Boot.EMPTY_PAGE Boot.header Boot.cfg [Boot.ram; Boot.io] (Ok tt)
    (mkDtp 4095 0x50000) (fun _ m => m) (fun _ => tt) (fun m => m) amd_new (fun v _ => v) (fun v => (v, tt)) np_root svm_runs
    (vmexit_handler_wrapper no_base) (fun _ => True) x 0 p 0x100008 42 _ Hin eq_refl Hw (at_cpuid_runs _) I Hup) as (y & Hy & Hm).
  exists x, y. split; [eapply main_run_steps; exact Hx|]. split; [exact Hy|]. split; [exact He|]. split; [exact Ha|].
  rewrite Hm. apply mem_get_set_eq.
Qed.

Lemma amd_machine_secure_witness : exists x y, sample_steps amd_begin x /\ sample_steps x y /\
  secured Boot.cfg (m_mem x) (m_mem y) /\ mem_get (pm (m_mem y)) 0x100008 = 42.
Proof.
  destruct amd_sample_goes as (x & y & H1 & H2 & He & _ & Hm). exists x, y. split; [exact H1|]. split; [exact H2|]. split; [|exact Hm].
  refine (proj2 (proj1 (proj2 (amd_machine_secure PTEntry.ops NPTEntry.ops PTEntry.laws NPTEntry.laws Boot.core_end Boot.EMPTY_PAGE
    Boot.header Boot.cfg [Boot.ram; Boot.io] (Ok tt) (mkDtp 4095 0x50000) no_base [amd_processor 0; amd_processor 1]
    (mkMachine ∅ (fa_empty (A := ListAlloc.t))) x y npt_sample_early_ok Boot.cfg_avoids_hv _ _ _ H1 H2)) He)).
  - vm_compute. reflexivity.
  - split; [reflexivity|split; by vm_compute].
  - apply Forall_cons. split; [|apply Forall_singleton]; apply amd_sample_ready; lia.
Defined.

Lemma amd_machine_ends_witness : exists x y, sample_steps amd_begin x /\ activated (m_shared x) = 2 /\ sample_steps x y /\
  (settled Boot.header (fun v _ => v) amd_under y \/
   exists i p, m_procs y !! i = Some p /\
     stuck PTEntry.ops NPTEntry.ops Boot.core_end Boot.EMPTY_PAGE Boot.header Boot.cfg [Boot.ram; Boot.io] (Ok tt)
       (mkDtp 4095 0x50000) (fun _ m => m) (fun _ => tt) (fun m => m) amd_new y p /\
     pool_dry PTEntry.ops NPTEntry.ops Boot.core_end Boot.EMPTY_PAGE Boot.header Boot.cfg [Boot.ram; Boot.io] (Ok tt)
       (mkDtp 4095 0x50000) (fun _ m => m) (fun _ => tt) (fun m => m) amd_new y p).
Proof.
  destruct amd_sample_goes as (x & _ & H1 & _ & _ & Ha & _).
  destruct (amd_machine_ends PTEntry.ops NPTEntry.ops PTEntry.laws NPTEntry.laws Boot.core_end Boot.EMPTY_PAGE
    Boot.header Boot.cfg [Boot.ram; Boot.io] (Ok tt) (mkDtp 4095 0x50000) no_base [amd_processor 0; amd_processor 1]
    (mkMachine ∅ (fa_empty (A := ListAlloc.t))) x npt_sample_early_ok Boot.cfg_avoids_hv) as (y & Hy & Hs).
  - vm_compute. reflexivity.
  - split; [reflexivity|split; by vm_compute].
  - apply Forall_cons. split; [|apply Forall_singleton]; apply amd_sample_ready; lia.
  - exact H1.
  - exists x, y. split; [exact H1|]. split; [exact Ha|]. split; [exact Hy|exact Hs].
Defined.
End AmdMachineSample.
