(* ===== verification/IntelMachine.v ===== *)
(** * The whole machine on Intel

    [Machine] with the Intel vCPU, whose VMX state is local to the processor:
    the processors start side by side, the guests run, store and exit, and the
    hypervisor memory stays out of their reach in every reachable state. At the
    end the sample configuration is started and run. *)

From S2P Require Import Prelude Crates HvError Addr PhysMem Frame Pte Region Paging PagingInv PagingOps PagingSpec MemorySet MemoryProps Config Boot BootProps Cell CellProps Early X86 Segmentation Context Cpuid Vcpu Panic Init Vmx MsrBitmap Exception IntelVcpu IntelProps IntelDisable VmmSamples System IntelSystem Guests IntelGuests Machine.

(** ** [load_from] after [PerCpu::new] *)
Section NewPointer.
Context {bf : BitField} {xr : X86Regs} {xd : X86Desc} {xdl : X86DescLaws} {E : Type} (m : Msr) (v : Z).

(** The computation does not depend on the MSR [m], and leaves it alone. *)
Definition ignores {B} (k : M Cpu E B) : Prop := forall c, k (msr_write m v c) = (fst (k c), msr_write m v (snd (k c))).

Lemma bind_ignores {B C} (k : M Cpu E B) (h h' : B -> M Cpu E C) c :
  ignores k -> (forall b c, h' b (msr_write m v c) = (fst (h b c), msr_write m v (snd (h b c)))) ->
  bind k h' (msr_write m v c) = (fst (bind k h c), msr_write m v (snd (bind k h c))).
Proof. intros Hk Hh. unfold bind. rewrite Hk. destruct (k c) as [[b|e| |] c1]; cbn [fst snd]; [apply Hh|done..]. Qed.

Lemma ignores_bind {B C} (k : M Cpu E B) (h : B -> M Cpu E C) : ignores k -> (forall b, ignores (h b)) -> ignores (bind k h).
Proof. intros Hk Hh c. by apply bind_ignores. Qed.

Lemma ignores_index g i : ignores (gdt_index g i).
Proof. unfold gdt_index. apply ignores_bind; [|done]. intros c. unfold assertM. by destruct (_ <? _). Qed.

Lemma ignores_selector sel g : ignores (from_selector sel g).
Proof.
  unfold from_selector. apply ignores_bind; [apply ignores_index|]. intros e. cbv zeta. destruct (contains _ _); [|done].
  apply ignores_bind; [|done]. destruct (negb _); [|done]. apply ignores_bind; [apply ignores_index|done].
Qed.
End NewPointer.

(** The registers of Linux are the same after the new GS_BASE. *)
Lemma load_from_pointer {bf : BitField} {xr : X86Regs} {xd : X86Desc} {E} sp v c :
  load_from (E := E) sp (msr_write IA32_GS_BASE v c) = (fst (load_from (E := E) sp c), msr_write IA32_GS_BASE v (snd (load_from (E := E) sp c))).
Proof.
  unfold load_from. rewrite !bind_gets. unfold Datatypes.id.
  repeat (apply (bind_ignores IA32_GS_BASE v); [apply ignores_selector|intros ? ?]). cbn [fst snd ret].
  unfold ret. by rewrite !msr_read_write_ne.
Qed.

Section IntelMachine.
Context {A : Type} {ba : BitAlloc A} {bal : BitAllocLaws A}.
Context {bf : BitField} {xr : X86Regs} {xrl : X86RegsLaws} {xd : X86Desc} {xdl : X86DescLaws}.
Context {rc : RawCpuid} {rcl : RawCpuidLaws} {H : Type} {hw : VmxHw H} {hwl : VmxHwLaws H}.
Context (hpte npte : GenericPTE) (hlaws : PTELaws (pte := hpte)) (nlaws : PTELaws (pte := npte)).
Context (core_end EMPTY_PAGE : Z) (header : HvHeader) (sys_config : HvSystemConfig).
Context (mem_regions : list HvMemoryRegion) (check_hypervisor_feature : outcome HvErrorNum unit) (idt : DescriptorTablePointer).
Context (addrs : Z -> HostAddrs) (hw_seg_base : Cpu -> Z -> Z).

Abbreviation early_ok := (early_ok hpte npte core_end EMPTY_PAGE header sys_config mem_regions check_hypervisor_feature hlaws nlaws).
Abbreviation early_done := (early_done hpte npte core_end EMPTY_PAGE header sys_config mem_regions hlaws nlaws).
Abbreviation IntelProcessor := (Processor (V := IntelVcpu) (L := H)).
Abbreviation intel_machine_steps := (machine_steps hpte npte core_end EMPTY_PAGE header sys_config mem_regions check_hypervisor_feature idt
  (fun h m => (h, m)) fst snd (fun this => intel_vcpu_new (addrs this) this) pair Datatypes.id vmx_root vmx_runs
  (vmexit_handler (intel_handle_exit hw_seg_base)) vmx_in_service).
Abbreviation intel_stuck := (stuck hpte npte core_end EMPTY_PAGE header sys_config mem_regions check_hypervisor_feature idt
  (fun h m => (h, m)) fst snd (fun this => intel_vcpu_new (addrs this) this)).
Abbreviation intel_pool_dry := (pool_dry hpte npte core_end EMPTY_PAGE header sys_config mem_regions check_hypervisor_feature idt
  (fun h m => (h, m)) fst snd (fun this => intel_vcpu_new (addrs this) this)).
Abbreviation intel_work_ends := (work_ends hpte npte core_end EMPTY_PAGE header sys_config mem_regions check_hypervisor_feature idt
  (fun h m => (h, m)) fst snd (fun this => intel_vcpu_new (addrs this) this)).

#[local] Instance intel_machine_pv : PhysVirt := phys_virt_offset sys_config.

(** The processor before [PerCpu::new], which changes GS_BASE and the address of
    the per-CPU data only. *)
Lemma intel_ready_born i (b : IntelProcessor) :
  intel_ready (fun _ => addrs (percpu_vaddr core_end i)) b -> intel_ready addrs (born core_end i b).
Proof.
  intros [Hl Hg Ht [Hm Hc Hd] Ha Hctx]. split; [exact Hl|exact Hg|exact Ht| |exact Ha|].
  - split; [|exact Hc|exact Hd]. intros m. unfold born. cbn [pr_cpu].
    destruct (decide (m = IA32_GS_BASE)) as [->|Hne]; [|by rewrite msr_read_write_ne].
    rewrite msr_read_write. unfold percpu_vaddr, add64. by apply wrap_range.
  - intros l. unfold born. cbn [pr_cpu pr_sp]. rewrite load_from_pointer. intros [= Hr Hs]. apply Hctx.
    destruct (load_from_ok HvErrorNum (pr_cpu b) (pr_sp b) Hl) as (l' & Hl' & _). rewrite Hl' in *. cbn [fst] in Hr. by simplify_eq.
Qed.

(** C16. The whole Intel machine, from any configuration that fits and with as many
    processors as the driver announces, whatever VMXON, VMCLEAR and VMPTRLD report:
    the processors run [main] side by side, interleaved in any way and failing
    anywhere, and the guests that are entered run, store and exit, for any time.
    Once one processor has turned to its guest, every processor that has not
    failed translates the addresses of its guest by the EPT of the root cell,
    and through it the hypervisor memory is out of reach except for the
    read-only empty page. From the end of early initialisation on, both page
    tables stay, and so does every word of the hypervisor memory outside the
    free frames. The work of a processor always ends; it panics in early
    initialisation only, with the pool exhausted. *)
Theorem intel_machine_secure (procs : list IntelProcessor) (m : Machine A) x y :
  vmx_reports -> early_ok -> avoids_hv EMPTY_PAGE sys_config mem_regions ->
  contains (pte_view (pte := npte) READ_ONLY) MEM_WRITE = false ->
  Z.of_nat (length procs) = online_cpus header /\ online_cpus header <= max_cpus header < 2 ^ 32 ->
  Forall (fun b => forall i, 0 <= i < online_cpus header -> intel_ready (fun _ => addrs (percpu_vaddr core_end i)) b) procs ->
  intel_machine_steps (machine_initial procs m) x -> intel_machine_steps x y ->
  (forall i p, m_procs x !! i = Some p -> in_vmm (mp_proc p) = true ->
     exists hv gpm, m_glob x = mkGlobals (Some hv) (Some gpm) 1 /\ early_done (m_mem x) hv gpm /\
       confined_at npte nlaws EMPTY_PAGE sys_config (m_mem x) (root_paddr (pt gpm)) [] /\
       forall j q, m_procs x !! j = Some q -> failed (mp_proc q) = false ->
         vmcs_current (pr_local (mp_data q)) /\
         vmx_root (vcpu (pr_percpu (mp_data q)), pr_local (mp_data q)) = Some (root_paddr (pt gpm))) /\
  (Boot.early_ok (m_shared x) = 1 -> m_glob y = m_glob x /\ secured sys_config (m_mem x) (m_mem y)) /\
  forall i p, m_procs x !! i = Some p -> intel_work_ends x p.
Proof.
  intros Hrep E Hav Hro Hn Hl Hx Hy.
  refine (machine_secure hpte npte hlaws nlaws core_end EMPTY_PAGE header sys_config mem_regions check_hypervisor_feature idt
    (fun h m => (h, m)) fst snd (fun this => intel_vcpu_new (addrs this) this) pair Datatypes.id vmx_root vmx_runs
    (vmexit_handler (intel_handle_exit hw_seg_base)) vmx_in_service (intel_ready addrs) (intel_started addrs) intel_owns vmx_under
    (intel_vendor idt addrs Hrep) (intel_started_under addrs) _ _ vmx_runs_under _ Hro procs E Hn _ m x y Hav Hx Hy).
  - by intros [v h].
  - by intros root v [_ ?].
  - exact (intel_exit_under hw_seg_base).
  - eapply Forall_impl; [exact Hl|]. intros b Hb i Hi. apply intel_ready_born, Hb, Hi.
Qed.

(** The Intel machine cannot hang, as the AMD machine ([amd_machine_ends]). *)
Theorem intel_machine_ends (procs : list IntelProcessor) (m : Machine A) x :
  vmx_reports -> early_ok -> avoids_hv EMPTY_PAGE sys_config mem_regions ->
  contains (pte_view (pte := npte) READ_ONLY) MEM_WRITE = false ->
  Z.of_nat (length procs) = online_cpus header /\ online_cpus header <= max_cpus header < 2 ^ 32 ->
  Forall (fun b => forall i, 0 <= i < online_cpus header -> intel_ready (fun _ => addrs (percpu_vaddr core_end i)) b) procs ->
  intel_machine_steps (machine_initial procs m) x ->
  exists y, intel_machine_steps x y /\
    (settled header pair vmx_under y \/
     exists i p, m_procs y !! i = Some p /\ intel_stuck y p /\ intel_pool_dry y p).
Proof.
  intros Hrep E Hav Hro Hn Hl Hx.
  refine (machine_settles hpte npte hlaws nlaws core_end EMPTY_PAGE header sys_config mem_regions check_hypervisor_feature idt
    (fun h m => (h, m)) fst snd (fun this => intel_vcpu_new (addrs this) this) pair Datatypes.id vmx_root vmx_runs
    (vmexit_handler (intel_handle_exit hw_seg_base)) vmx_in_service (intel_ready addrs) (intel_started addrs) intel_owns vmx_under
    (intel_vendor idt addrs Hrep) (intel_started_under addrs) _ _ vmx_runs_under _ Hro procs E Hn _ m x Hav Hx).
  - by intros [v h].
  - by intros root v [_ ?].
  - exact (intel_exit_under hw_seg_base).
  - eapply Forall_impl; [exact Hl|]. intros b Hb i Hi. apply intel_ready_born, Hb, Hi.
Qed.
End IntelMachine.

(** ** The sample machine *)
Module IntelMachineSample.
Import IntelSystemSample IntelGuestsSample.
#[local] Existing Instance X86PageTableFlags_ref.
#[local] Existing Instance BitField_ref.
#[local] Existing Instance X86Regs_ref.
#[local] Existing Instance X86Regs_ref_laws.
#[local] Existing Instance X86Desc_ref.
#[local] Existing Instance X86Desc_ref_laws.
#[local] Existing Instance RawCpuid_ref.
#[local] Existing Instance RawCpuid_ref_laws.
#[local] Existing Instance VmxRef.
#[local] Existing Instance VmxRefLaws.
#[local] Instance intel_machine_sample_pv : PhysVirt := phys_virt_offset Boot.cfg.

Abbreviation State := (MState (A := ListAlloc.t) (V := IntelVcpu) (L := VmxState)).
Definition intel_begin : State :=
  machine_initial [intel_processor 0; intel_processor 1] (mkMachine ∅ (fa_empty (A := ListAlloc.t))).

Abbreviation sample_main_run :=
  (main_run PTEntry.ops EPTEntry.ops Boot.core_end Boot.EMPTY_PAGE Boot.header Boot.cfg [Boot.ram; Boot.io] (Ok tt)
     (mkDtp 4095 0x50000) (fun h m => (h, m)) fst snd (fun this => intel_vcpu_new sample_addrs this)).
Abbreviation sample_steps :=
  (machine_steps PTEntry.ops EPTEntry.ops Boot.core_end Boot.EMPTY_PAGE Boot.header Boot.cfg [Boot.ram; Boot.io] (Ok tt)
     (mkDtp 4095 0x50000) (fun h m => (h, m)) fst snd (fun this => intel_vcpu_new sample_addrs this) pair Datatypes.id vmx_root vmx_runs
     (vmexit_handler (intel_handle_exit no_base)) vmx_in_service).

(** The schedule of [BootProps] takes both processors to their guests; the first
    of them stores 42 at 1M + 8, executes CPUID and is resumed. The checks are one
    computation. *)
Abbreviation sample_ran p x := (ran_to pair Datatypes.id 0 p (at_vmx_cpuid (guest_of pair (mp_data p))) (m_store 0x100008 42 x)).
Definition intel_up_ok (x : State) : bool :=
  (Boot.early_ok (m_shared x) =? 1) && (activated (m_shared x) =? 2) &&
  match m_procs x !! 0%nat with
  | Some p =>
      bool_decide (p_pc (mp_proc p) = InGuest) &&
      can_write EPTEntry.ops Boot.cfg (pm (m_mem x)) (vmx_root (guest_of pair (mp_data p))) 0x100008 &&
      match reason_of (fval (wvmx (world_of pair (fst (sample_ran p x)) (mp_data (snd (sample_ran p x)))))
          (F32ReadOnly VmcsField32ReadOnly.VM_EXIT_REASON)) with
      | Some VmxExitReason.VMCALL => false
      | _ => true
      end &&
      resumed pair (vmexit_handler (intel_handle_exit no_base)) x (sample_ran p x)
  | None => false
  end.

Lemma intel_up_runs : match sample_main_run boot_schedule intel_begin with Some x => intel_up_ok x | None => false end = true.
Proof. vm_compute. reflexivity. Qed.

Lemma not_vmcall r : match r with Some VmxExitReason.VMCALL => false | _ => true end = true -> r <> Some VmxExitReason.VMCALL.
Proof. by intros Hr ->. Qed.

Lemma intel_sample_goes : exists x y, sample_steps intel_begin x /\ sample_steps x y /\
  Boot.early_ok (m_shared x) = 1 /\ activated (m_shared x) = 2 /\ mem_get (pm (m_mem y)) 0x100008 = 42.
Proof.
  pose proof intel_up_runs as Hup. destruct (sample_main_run boot_schedule intel_begin) as [x|] eqn:Hx; [|discriminate Hup].
  unfold intel_up_ok in Hup. rewrite !andb_true_iff in Hup. destruct Hup as [[He%Z.eqb_eq Ha%Z.eqb_eq] Hup].
  destruct (m_procs x !! 0%nat) as [p|] eqn:Hp; [|discriminate Hup]. rewrite !andb_true_iff in Hup.
  destruct Hup as [[[Hpc%bool_decide_eq_true Hw] Hs%not_vmcall] Hup].
  assert (in_guest x 0 p) as Hin by (split; [exact Hp|exact Hpc]).
  destruct (guest_round PTEntry.ops EPTEntry.ops Boot.core_end Boot.EMPTY_PAGE Boot.header Boot.cfg [Boot.ram; Boot.io] (Ok tt)
    (mkDtp 4095 0x50000) (fun h m => (h, m)) fst snd (fun this => intel_vcpu_new sample_addrs this) pair Datatypes.id vmx_root vmx_runs
    (vmexit_handler (intel_handle_exit no_base)) vmx_in_service x 0 p 0x100008 42 _ Hin eq_refl Hw (at_vmx_cpuid_runs _) (or_introl Hs) Hup) as (y & Hy & Hm).
  exists x, y. split; [eapply main_run_steps; exact Hx|]. split; [exact Hy|]. split; [exact He|]. split; [exact Ha|].
  rewrite Hm. apply mem_get_set_eq.
Qed.

Lemma intel_machine_secure_witness : exists x y, sample_steps intel_begin x /\ sample_steps x y /\
  secured Boot.cfg (m_mem x) (m_mem y) /\ mem_get (pm (m_mem y)) 0x100008 = 42.
Proof.
  destruct intel_sample_goes as (x & y & H1 & H2 & He & _ & Hm). exists x, y. split; [exact H1|]. split; [exact H2|]. split; [|exact Hm].
  refine (proj2 (proj1 (proj2 (intel_machine_secure PTEntry.ops EPTEntry.ops PTEntry.laws EPTEntry.laws Boot.core_end Boot.EMPTY_PAGE
    Boot.header Boot.cfg [Boot.ram; Boot.io] (Ok tt) (mkDtp 4095 0x50000) (fun _ => sample_addrs) no_base [intel_processor 0; intel_processor 1]
    (mkMachine ∅ (fa_empty (A := ListAlloc.t))) x y sample_vmx_reports ept_sample_early_ok Boot.cfg_avoids_hv _ _ _ H1 H2)) He)).
  - vm_compute. reflexivity.
  - split; [reflexivity|split; by vm_compute].
  - apply Forall_cons. split; [|apply Forall_singleton]; intros i _; apply intel_sample_ready; lia.
Defined.
End IntelMachineSample.
